(* ===== verification/_CoqProject ===== *)
-Q . S2P
Prelude.v
Frames.v
Pmm.v
Paging.v
KernelMap.v
Heap.v
Vmm.v
VmmCount.v
VmmSafe.v
VmmTheorems.v
VmmAreas.v
VmmDemo.v
Isolation.v
Clone.v
VmmTypes.v
Ring.v
Keyboard.v
Net.v
Console.v
Sync.v
Block.v
Journal.v
Fat32.v
FatDir.v
Vfs.v
VfsRaw.v
Timer.v
Process.v
ReadyQueue.v
Scheduler.v
ProcessIds.v
Signals.v
Futex.v
ProcessDemo.v
Elf.v
ElfLoad.v
Syscall.v
SyscallTheorems.v
SelfTests.v
Boot.v
Launch.v
Shell.v
Ata.v
AtaTheorems.v
AtaDisk.v
Storage.v
Serial.v
Dma.v
Acpi.v
Apic.v
Interrupts.v
Trap.v
Preempt.v
Modules.v
Pci.v
Probes.v
Virtio.v
VirtioTheorems.v
Kmain.v
Libc.v
