(* ===== verification/Prelude.v ===== *)
(** * A verification of the ceblar-20 kernel

    ceblar-20 is a small 32-bit x86 kernel in C: a physical page allocator, page tables
    with copy-on-write address spaces, a heap, a preemptive round-robin scheduler with
    processes, signals and futexes, system calls, an ELF loader, a block layer with ATA and
    virtio drivers, a write-ahead journal, FAT32, file descriptors, a loopback network, a
    console, a shell, a small C library and the usual x86 plumbing, with a little assembly.
    The files here translate that code to Rocq, one file per part, and prove what makes
    each part correct.

    ** How the code is modelled

    - A C integer is a [Z]; the wrap-around of a width is written out ([u8], [u16], [u32],
      [i32] below) where the code can wrap.
    - An array is a list, read and written by [l.[i]] and [l.[i <- v]]; a pointer into a
      static array is an index, a null pointer [None] or 0.
    - A routine takes the state it works on and returns the new one.  A routine that can
      stop the machine returns an [outcome]: [Done] with a result, or [Panicked].
    - A loop that is not bounded by its data has fuel, and returns [None] (or keeps the
      state) when it runs out; the theorems say how much is enough, or that none is.
    - Code outside the repository is a parameter: the port instructions and the drive
      behind them ([Ata.AtaProtocol]), the serial port ([Serial.Uart]), the PCI bus
      ([Pci.ConfigMechanism]), a device that shares memory with its driver
      ([Virtio.BusMaster]), the window of the I/O controller ([Apic.IndirectRegisters]),
      the firmware's memory ([Acpi]), the addresses the linker chooses, the module
      initialisers.  The instructions the assembly uses are part of the model ([Trap]).
    - Texts for the serial line and the console are left out, except where they are the
      subject ([Console], [Serial], [Shell], the exception reports of [Interrupts]).

    ** The files

    - [Prelude]: words, arrays, loops, [outcome], tactics and shared lemmas.
    - [Frames]: the contract of the page allocator ([FrameAllocator] and its laws); every
      client below is proved against it.
    - [Pmm] ([mm/pmm.c]): the bitmap allocator; [pmm_frames] discharges the contract.
    - [Paging], [KernelMap] ([mm/vmm.c], the kernel's page tables): [vmm_map],
      [vmm_unmap], [vmm_get_physical], [vmm_init].
    - [Heap] ([mm/heap.c]): [kmalloc], [kfree], [krealloc], with the list of blocks as
      the abstract view ([heap_rep]).
    - [Vmm] ([mm/vmm.c], user address spaces): creation, destruction, cloning,
      copy-on-write, areas, demand paging, validation of user pointers.  [VmmCount] and
      [VmmSafe] prove the counting invariant [vmm_inv]; [VmmTheorems] and [VmmAreas] hold
      the properties; [VmmDemo] the concrete machine they are applied to.  [Isolation] puts
      cloning and write faults together: forked spaces are separate memories.  [Clone]: the
      eager clone is a deep copy.  [VmmTypes]: every word keeps its width.
    - [Ring], [Keyboard] ([drivers/keyboard/keyboard.c]), [Net] ([net/net.c]), [Console]
      ([drivers/vga/vga.c], [kernel/kprintf.c]), [Sync] ([kernel/spinlock.c],
      [kernel/percpu.c]), [Timer] ([drivers/timer/pit.c]).
    - [Block] ([drivers/block.c]): the device registry, and [DiskLaws], what a client
      expects of a device.  [Journal] ([fs/journal.c]), [Fat32] and [FatDir]
      ([fs/fat32/fat32.c]: files, then mounting and the root directory) and [VfsRaw] are
      proved against it.  [Vfs] ([fs/vfs.c]) is the descriptor layer.
    - [Process] ([kernel/process.c], [scheduler/round_robin.c],
      [arch/x86/context_switch.S]): all operations on one state [kernel].  [ReadyQueue],
      [Scheduler], [ProcessIds], [Signals] and [Futex] hold the theorems, [ProcessDemo]
      the concrete kernels.
    - [Elf] and [ElfLoad] ([kernel/elf.c], [userspace/user_image.c]).
    - [Syscall] ([kernel/syscall.c], the program loading of [kernel/process.c], the stubs
      of [userspace/libc/syscalls.c]) and [SyscallTheorems].
    - [SelfTests] ([mm/vmm.c], [kernel/process.c]: the tests the kernel runs on itself),
      [Boot] ([kernel/main.c]: the preemption test and its workers, the launch of the init
      process), [Launch] (what the launch ends in) and [Kmain] ([kmain] whole: every
      initialisation in order, over the states of all components).
    - [Shell] ([userspace/shell.c], [process_dump]) and [Libc] ([userspace/libc/libc.c]).
    - [Ata] and [AtaTheorems] ([drivers/ata/ata.c]); [AtaDisk] discharges [DiskLaws] for the
      driver, and [Storage] puts drive, block layer and FAT32 together in the order of
      [kmain].  [Virtio] and [VirtioTheorems] ([drivers/virtio/virtio_blk.c]).
    - [Serial] ([drivers/serial/serial.c], [kernel/panic.c]): the line, and screen and line
      together.
    - [Dma] ([drivers/dma/dma.c]), [Acpi]
      ([drivers/acpi/acpi.c]), [Apic] ([arch/x86/apic.c], [arch/x86/ioapic.c],
      [arch/x86/smp.c]), [Interrupts] ([arch/x86/isr.c], [arch/x86/gdt.c]), [Trap]
      ([arch/x86/isr.S], [user_mode.S], [context_switch.S], [boot.S]: the instructions, run
      by a model of the processor), [Preempt] (entry code, dispatcher and scheduler
      together), [Pci]
      ([drivers/pci/pci.c]), [Probes] ([drivers/ahci.c], [drivers/nvme.c], [drivers/nic.c]),
      [Modules] ([modules/module.c], [modules/example/example.c]).

    ** What is proved

    - Memory: in every reachable state each mapped frame has at least as many references
      as mappings, so no page is handed out twice or freed while mapped; clones share and
      then separate, and no byte one of them stores is seen by the other; an eager clone is a
      deep copy or leaves nothing behind; tables, areas and
      memory keep their widths; a validated user buffer really is accessible; areas stay disjoint.
      The allocator meets its contract and its initialisation ends; the heap is first
      fit, its blocks stay disjoint, a free restores the list, and growth ends.
    - Interrupts: the entry stubs leave the interrupted program's registers where the
      dispatcher expects them and restore them exactly; a device interrupt is invisible to
      the program and acknowledged once; a program that is preempted, waits for its turn
      while others run, and is resumed, goes on with every register and its address space
      as they were ([Preempt.preemption_transparent], over the assembly, the dispatcher and
      the scheduler together).  [enter_user_mode] and [context_switch] do what the process
      layer takes them for.
    - Boot: if [kmain] reaches ring 3, it is in the init process, at the entry point of the
      embedded image, with the interrupt table, handlers and masks set up.
    - Processes: the ready queue is first in, first out, and every queued process runs
      after as many ticks as its position (fairness, by induction on the queue); pids
      name at most one live process; a delivered signal and its return restore the
      interrupted frame; a futex wake releases the first waiters.
    - System calls: a read stores nothing outside the caller's checked buffer; a failed
      exec changes no process; the library's numbers reach the right handlers.  An ELF
      image that loads is in memory as its segments say and within bounds.
    - Storage: a journalled write is applied wholly or not at all after a power failure at
      any point; a FAT32 read returns the bytes of the file's cluster chain; raw reads and
      writes of the disk move exactly the bytes asked for; the ATA driver over any drive
      that follows the protocol is an array of sectors, and so the whole way from the drive
      through mounting and the root directory to the bytes of a file is correct; the virtio
      driver reports what the device answered and keeps its queue as the next request needs
      it.
    - The rest: the spin lock excludes; the checksum is the Internet checksum; the
      loopback queue and the keyboard ring are queues; the serial line delivers every byte
      in order and in finite time; the shell runs the line that was typed and stays in its
      buffer; [memmove] moves overlapping blocks; printed numbers read back; interrupt
      gates protect the kernel; device buffers are contiguous and owned; the
      interrupt table of ACPI is read record by record and an interrupt is routed to the pin
      it names; sizing a PCI register finds its size and restores it; modules initialise in
      order.

    Where the code does something other than it means to, a lemma next to the model shows
    it (for instance [Scheduler.timer_tick_loses_process], [Elf.elf32_refuses_data_segments],
    [Journal.journal_record_truncated], [Storage.journal_off_with_ata],
    [Trap.control_protection_frame_shifted]); the properties then state what does hold.

    ** Fuel

    [kmalloc] needs one turn per page frame left ([kmalloc_terminates]); [pmm_init] one per
    16 bytes of the boot information ([pmm_init_terminates]); the walk of the ready queue
    33, one more than there are processes; [validate_loop] one per page of the range; the
    walk of a FAT32 directory is given by the caller, since a cyclic chain has no end
    ([scan_root_cyclic_hangs]), and one per cluster is enough when it ends
    ([fat32_open_finds]); the polls of the ATA and virtio drivers have the limit of the code;
    the wait of the serial line, which has none, ends for any port that becomes free
    ([serial_line_delivers]); the string functions get one unit more than the string is long.

    ** Not modelled

    The texts the initialisations print, the number printer of [mm/pmm.c] among them, and
    the type of an Ethernet header, which nothing uses.  What the instructions [lidt],
    [lgdt] and [ltr] do is that the processor of [Trap] reads the tables; [cr0], [cr3] and
    [invlpg] are the active translation of [Vmm], without a cache.  A processor runs one
    instruction stream: the kernel starts no other processor. *)
From Stdlib Require Export ZArith Lia ZifyBool.
From stdpp Require Export prelude list gmap strings.

(** * Machine words

    A C integer of width [w] is a [Z] kept in range by writing the wrap-around
    out where the source can wrap. *)
#[global] Open Scope Z_scope.

Declare Scope kernel_scope.
Delimit Scope kernel_scope with kernel.
#[global] Open Scope kernel_scope.

Definition u8 (z : Z) : Z := z mod 256.
Definition u16 (z : Z) : Z := z mod 65536.
Definition u32 (z : Z) : Z := z mod 4294967296.

(** [(int32_t)z]: the two's complement reading of the low 32 bits. *)
Definition i32 (z : Z) : Z :=
  if u32 z <? 2147483648 then u32 z else u32 z - 4294967296.

Definition is_u8 (z : Z) : Prop := 0 <= z < 256.
Definition is_u16 (z : Z) : Prop := 0 <= z < 65536.
Definition is_u32 (z : Z) : Prop := 0 <= z < 4294967296.

(** * Arrays

    A C array is a list of its declared length; [a.[i]] and [a.[i <- v]] are the
    element access and the element store.  Outside the bounds the access reads
    the default element and the store does nothing, so a theorem that depends on
    an access being in bounds has to prove that it is. *)
Definition aget {A} `{Inhabited A} (l : list A) (i : Z) : A := l !!! Z.to_nat i.
Definition aset {A} (l : list A) (i : Z) (v : A) : list A := <[Z.to_nat i := v]> l.

Notation "l .[ i ]" := (aget l i)
  (at level 1, left associativity, format "l .[ i ]") : kernel_scope.
Notation "l .[ i <- v ]" := (aset l i v)
  (at level 1, left associativity, format "l .[ i  <-  v ]") : kernel_scope.

#[global] Instance Z_inhabited0 : Inhabited Z := populate 0.

(** [for (p = start; ...; p++) if (test(p)) break;] over [n] candidates. *)
Fixpoint find_from (test : Z -> bool) (start : Z) (n : nat) : option Z :=
  match n with
  | O => None
  | S n' => if test start then Some start else find_from test (start + 1) n'
  end.

(** [for (p = lo; p < hi; p++) body(p)] *)
Definition for_range {S} (lo hi : Z) (body : Z -> S -> S) (s : S) : S :=
  foldl (fun s p => body p s) s (seqZ lo (hi - lo)).

(** How many elements of [l] satisfy [f]. *)
Definition count {A} (f : A -> bool) (l : list A) : Z :=
  Z.of_nat (length (List.filter f l)).

(** * Bytes in memory *)
Definition le16 (b0 b1 : Z) : Z := Z.lor b0 (Z.shiftl b1 8).
Definition le32 (b0 b1 b2 b3 : Z) : Z :=
  Z.lor (Z.lor (Z.lor b0 (Z.shiftl b1 8)) (Z.shiftl b2 16)) (Z.shiftl b3 24).

(** * Outcomes

    A kernel routine either returns a value with the new state or calls
    [panic], which never returns ([kernel/panic.c]). *)
Inductive outcome (S A : Type) : Type :=
  | Done (a : A) (s : S)
  | Panicked (msg : string) (s : S).
Arguments Done {S A} a s.
Arguments Panicked {S A} msg s.

Definition obind {S A B} (m : outcome S A) (k : A -> S -> outcome S B) : outcome S B :=
  match m with
  | Done a s => k a s
  | Panicked msg s => Panicked msg s
  end.

Lemma Done_inj {S A} (a b : A) (s s' : S) : Done a s = Done b s' -> s = s'.
Proof. by intros [= _ ->]. Qed.

Notation "'let*' ( x , s ) := m 'in' k" := (obind m (fun x s => k))
  (at level 10, x pattern, s name, m at level 100, k at level 200)
  : kernel_scope.

(** * Tactics *)
Create HintDb kernel.
Create Rewrite HintDb kernel.

(** Linear arithmetic with division and modulus by constants. *)
Create HintDb kconst.
Ltac word_lia :=
  autounfold with kconst in *;
  unfold u8, u16, u32, is_u8, is_u16, is_u32 in *;
  Z.to_euclidean_division_equations; lia.
Ltac const_lia := autounfold with kconst in *; lia.

(** Splits every boolean test in the goal and drops the impossible branches. *)
Ltac split_ifs :=
  repeat (case_match; simplify_eq/=; try lia; try done).

(** * Array lemmas *)
Section arrays.
Context {A : Type} `{Inhabited A}.
Implicit Types l : list A.

Lemma aset_length l i v : length (l.[i <- v]) = length l.
Proof. apply length_insert. Qed.

Lemma aget_aset_eq l i v :
  0 <= i < Z.of_nat (length l) -> l.[i <- v].[i] = v.
Proof.
  intros Hi. unfold aget, aset.
  apply list_lookup_total_insert_eq. lia.
Qed.

Lemma aget_aset_ne l i j v :
  0 <= i -> 0 <= j -> i <> j -> l.[i <- v].[j] = l.[j].
Proof.
  intros Hi Hj Hij. unfold aget, aset.
  apply list_lookup_total_insert_ne. lia.
Qed.

Lemma aget_aset l i j v :
  0 <= i < Z.of_nat (length l) -> 0 <= j ->
  l.[i <- v].[j] = if i =? j then v else l.[j].
Proof.
  intros Hi Hj. destruct (Z.eqb_spec i j) as [->|Hne].
  - by apply aget_aset_eq.
  - apply aget_aset_ne; lia.
Qed.

Lemma aget_lookup l i v : 0 <= i -> l !! Z.to_nat i = Some v -> l.[i] = v.
Proof. intros _ Hl. unfold aget. by apply list_lookup_total_correct. Qed.

Lemma lookup_aget l i :
  0 <= i < Z.of_nat (length l) -> l !! Z.to_nat i = Some l.[i].
Proof. intros Hi. unfold aget. apply list_lookup_lookup_total_lt. lia. Qed.

Lemma aset_aget_id l i : l.[i <- l.[i]] = l.
Proof.
  unfold aset, aget. destruct (decide (Z.to_nat i < length l)%nat) as [Hl|Hl].
  - apply list_insert_id, list_lookup_lookup_total_lt, Hl.
  - apply list_insert_ge. lia.
Qed.

Lemma aset_aset l i v w : l.[i <- v].[i <- w] = l.[i <- w].
Proof. unfold aset. apply list_insert_insert_eq. Qed.

Lemma Forall_aset (P : A -> Prop) l i v :
  Forall P l -> P v -> Forall P (l.[i <- v]).
Proof. intros. by apply Forall_insert. Qed.

Lemma Forall_aget (P : A -> Prop) l i :
  Forall P l -> 0 <= i < Z.of_nat (length l) -> P (l.[i]).
Proof.
  intros HF Hi. eapply Forall_lookup_1; [exact HF|]. by apply lookup_aget.
Qed.

Lemma Forall_aget_default (P : A -> Prop) l i :
  Forall P l -> P inhabitant -> P (l.[i]).
Proof.
  intros HF H0. unfold aget. rewrite list_lookup_total_alt.
  destruct (l !! Z.to_nat i) eqn:E; simpl; [by eapply Forall_lookup_1|done].
Qed.

Lemma aget_replicate n (v : A) i :
  0 <= i < Z.of_nat n -> (replicate n v).[i] = v.
Proof. intros Hi. unfold aget. apply lookup_total_replicate_2. lia. Qed.
End arrays.
#[export] Hint Rewrite @aset_length @length_replicate : kernel.

Lemma aget_app_l {A} `{Inhabited A} (l k : list A) i : 0 <= i < Z.of_nat (length l) -> (l ++ k).[i] = l.[i].
Proof.
  intros Hi. unfold aget. rewrite !list_lookup_total_alt, lookup_app_l by lia. done.
Qed.

Lemma aget_app_r {A} `{Inhabited A} (l k : list A) i :
  Z.of_nat (length l) <= i -> (l ++ k).[i] = k.[i - Z.of_nat (length l)].
Proof.
  intros Hi. unfold aget. rewrite !list_lookup_total_alt, lookup_app_r by lia. do 2 f_equal. lia.
Qed.

Lemma aget_drop {A} `{Inhabited A} n (l : list A) i : 0 <= i -> (drop n l).[i] = l.[Z.of_nat n + i].
Proof. intros Hi. unfold aget. rewrite !list_lookup_total_alt, lookup_drop. do 2 f_equal. lia. Qed.

Lemma aget_take {A} `{Inhabited A} n (l : list A) i : 0 <= i < Z.of_nat n -> (take n l).[i] = l.[i].
Proof. intros Hi. unfold aget. rewrite !list_lookup_total_alt, lookup_take_lt by lia. done. Qed.

(** Arrays of one length are equal when their elements are. *)
Lemma list_aget_eq {A} `{Inhabited A} (l k : list A) :
  length l = length k -> (forall i, 0 <= i < Z.of_nat (length l) -> l.[i] = k.[i]) -> l = k.
Proof.
  intros Hl He. apply list_eq_same_length with (length k); [done|done|].
  intros i x y Hi Hx Hy. specialize (He (Z.of_nat i) ltac:(lia)).
  rewrite (aget_lookup l _ x), (aget_lookup k _ y) in He; [done|lia|by rewrite Nat2Z.id|lia|by rewrite Nat2Z.id].
Qed.

Lemma aget_fmap_seqZ {A} `{Inhabited A} (f : Z -> A) lo n i :
  0 <= i < n -> (f <$> seqZ lo n).[i] = f (lo + i).
Proof.
  intros Hi. apply aget_lookup; [lia|].
  rewrite list_lookup_fmap, lookup_seqZ_lt by lia. simpl. by rewrite Z2Nat.id by lia.
Qed.

(** A bounded universal statement, decided by running the test. *)
Lemma forall_seqZ (f : Z -> bool) lo n :
  forallb f (seqZ lo n) = true -> forall i, lo <= i < lo + n -> f i = true.
Proof.
  intros Hall i Hi. rewrite forallb_forall in Hall. apply Hall.
  apply list_elem_of_In, elem_of_seqZ. lia.
Qed.

Lemma forallb_aget {A} `{Inhabited A} (f : A -> bool) l i :
  forallb f l = true -> 0 <= i < Z.of_nat (length l) -> f l.[i] = true.
Proof.
  intros Hall Hi. rewrite forallb_forall in Hall. apply Hall.
  apply list_elem_of_In, list_elem_of_lookup. exists (Z.to_nat i). by apply lookup_aget.
Qed.

(** * Search loops *)
Lemma find_from_Some test start n p :
  find_from test start n = Some p <->
  start <= p < start + Z.of_nat n /\ test p = true /\
  (forall q, start <= q < p -> test q = false).
Proof.
  revert start. induction n as [|n IH]; intros start; simpl.
  { split; [done|lia]. }
  destruct (test start) eqn:Ht.
  - split.
    + intros [= ->]. repeat split; [lia|lia|done|lia].
    + intros (Hr & Hp & Hq). destruct (decide (p = start)) as [->|Hne]; [done|].
      rewrite Hq in Ht; [done|lia].
  - rewrite IH. split; intros (Hr & Hp & Hq).
    + repeat split; [lia|lia|done|].
      intros q Hq'. destruct (decide (q = start)) as [->|]; [done|apply Hq; lia].
    + assert (p <> start) by (intros ->; congruence).
      repeat split; [lia|lia|done|]. intros q ?. apply Hq. lia.
Qed.

Lemma find_from_None test start n :
  find_from test start n = None <->
  (forall q, start <= q < start + Z.of_nat n -> test q = false).
Proof.
  revert start. induction n as [|n IH]; intros start; simpl.
  { split; [lia|done]. }
  destruct (test start) eqn:Ht.
  - split; [done|]. intros Hq. rewrite Hq in Ht; [done|lia].
  - rewrite IH. split; intros Hq q Hr.
    + destruct (decide (q = start)) as [->|]; [done|apply Hq; lia].
    + apply Hq. lia.
Qed.

(** * Counting loops *)
Lemma for_range_nil {S} lo hi (body : Z -> S -> S) s :
  hi <= lo -> for_range lo hi body s = s.
Proof. intros Hle. unfold for_range. by rewrite seqZ_nil by lia. Qed.

Lemma for_range_snoc {S} lo hi (body : Z -> S -> S) s :
  lo <= hi -> for_range lo (hi + 1) body s = body hi (for_range lo hi body s).
Proof.
  intros Hle. unfold for_range.
  replace (hi + 1 - lo) with ((hi - lo) + 1) by lia.
  rewrite seqZ_app, foldl_app by lia. simpl.
  by replace (lo + (hi - lo)) with hi by lia.
Qed.

Lemma for_range_split {S} lo mid hi (body : Z -> S -> S) s :
  lo <= mid <= hi -> for_range lo hi body s = for_range mid hi body (for_range lo mid body s).
Proof.
  intros Hm. unfold for_range. replace (hi - lo) with ((mid - lo) + (hi - mid)) by lia.
  rewrite seqZ_app, foldl_app by lia. by replace (lo + (mid - lo)) with mid by lia.
Qed.

Lemma for_range_cons {S} lo hi (body : Z -> S -> S) s :
  lo < hi -> for_range lo hi body s = for_range (lo + 1) hi body (body lo s).
Proof.
  intros Hl. rewrite (for_range_split lo (lo + 1)) by lia.
  by rewrite (for_range_snoc lo lo), (for_range_nil lo lo) by lia.
Qed.

(** The loop rule: an invariant indexed by the counter. *)
Lemma for_range_ind {S} (P : Z -> S -> Prop) lo hi (body : Z -> S -> S) s :
  lo <= hi ->
  P lo s ->
  (forall i s, lo <= i < hi -> P i s -> P (i + 1) (body i s)) ->
  P hi (for_range lo hi body s).
Proof.
  intros Hle H0 Hstep.
  assert (forall n, (n <= Z.to_nat (hi - lo))%nat ->
    P (lo + Z.of_nat n) (for_range lo (lo + Z.of_nat n) body s)) as Hall.
  { induction n as [|n IH]; intros Hn.
    - rewrite for_range_nil by lia. by replace (lo + Z.of_nat 0) with lo by lia.
    - replace (lo + Z.of_nat (Datatypes.S n)) with (lo + Z.of_nat n + 1) by lia.
      rewrite for_range_snoc by lia. apply Hstep; [lia|]. apply IH. lia. }
  specialize (Hall (Z.to_nat (hi - lo)) ltac:(lia)).
  by replace (lo + Z.of_nat (Z.to_nat (hi - lo))) with hi in Hall by lia.
Qed.

Lemma for_range_pres {S} (P : S -> Prop) lo hi (body : Z -> S -> S) s :
  P s -> (forall i s, lo <= i < hi -> P s -> P (body i s)) -> P (for_range lo hi body s).
Proof.
  intros H0 Hstep. destruct (Z.leb_spec lo hi).
  - apply (for_range_ind (fun _ => P)); auto.
  - by rewrite for_range_nil by lia.
Qed.

(** [s[off + i] = f(i)] for [i < n] *)
Lemma fill_range {A} `{Inhabited A} (f : Z -> A) off n (s : list A) :
  0 <= off -> 0 <= n -> off + n <= Z.of_nat (length s) ->
  let s' := for_range 0 n (fun i s => s.[off + i <- f i]) s in
  length s' = length s /\ forall k, 0 <= k -> s'.[k] = if (off <=? k) && (k <? off + n) then f (k - off) else s.[k].
Proof.
  intros Ho Hn Hl. apply (for_range_ind (fun i s' => length s' = length s /\ forall k, 0 <= k ->
    s'.[k] = if (off <=? k) && (k <? off + i) then f (k - off) else s.[k])); [done| |].
  - split; [done|]. intros k Hk. destruct (Z.leb_spec off k), (Z.ltb_spec k (off + 0)); try lia; done.
  - intros i s' Hi [El Hs]. split; [by rewrite aset_length|]. intros k Hk.
    rewrite aget_aset, Hs by lia. destruct (Z.eqb_spec (off + i) k) as [<-|].
    + destruct (Z.leb_spec off (off + i)), (Z.ltb_spec (off + i) (off + (i + 1))); try lia.
      cbn [andb]. f_equal. lia.
    + destruct (Z.leb_spec off k), (Z.ltb_spec k (off + i)), (Z.ltb_spec k (off + (i + 1))); try lia; done.
Qed.

(** * Counting *)
Lemma count_ext {A} (f g : A -> bool) l :
  (forall x, x ∈ l -> f x = g x) -> count f l = count g l.
Proof.
  unfold count. induction l as [|x l IH]; intros Hfg; simpl; [done|].
  rewrite (Hfg x) by set_solver. destruct (g x); simpl; rewrite ?Nat2Z.inj_succ, IH;
    set_solver.
Qed.

Lemma count_cons {A} (f : A -> bool) x l :
  count f (x :: l) = (if f x then 1 else 0) + count f l.
Proof. unfold count. simpl. destruct (f x); simpl; lia. Qed.

Lemma count_nonneg {A} (f : A -> bool) l : 0 <= count f l.
Proof. unfold count. lia. Qed.

Lemma count_le_length {A} (f : A -> bool) l : count f l <= Z.of_nat (length l).
Proof.
  induction l as [|x l IH]; [done|]. rewrite count_cons. simpl length. destruct (f x); lia.
Qed.

Lemma count_none {A} (f : A -> bool) l : (forall x, x ∈ l -> f x = false) -> count f l = 0.
Proof.
  induction l as [|x l IH]; intros Hf; [done|].
  rewrite count_cons, Hf, IH by set_solver. lia.
Qed.

Lemma count_all {A} (f : A -> bool) l :
  (forall x, x ∈ l -> f x = true) -> count f l = Z.of_nat (length l).
Proof.
  induction l as [|x l IH]; intros Hf; [done|].
  rewrite count_cons, Hf, IH by set_solver. simpl length. lia.
Qed.

(** Two predicates that differ at one element of a duplicate-free list. *)
Lemma count_flip {A} (f g : A -> bool) l x :
  NoDup l -> x ∈ l ->
  (forall y, y ∈ l -> y <> x -> f y = g y) ->
  count g l = count f l - (if f x then 1 else 0) + (if g x then 1 else 0).
Proof.
  induction l as [|y l IH]; intros Hnd Hx Hfg; [set_solver|].
  apply NoDup_cons in Hnd as [Hy Hnd]. rewrite !count_cons.
  apply elem_of_cons in Hx as [->|Hx].
  - rewrite (count_ext g f l); [lia|]. intros z Hz. symmetry. apply Hfg; set_solver.
  - rewrite IH by set_solver. rewrite (Hfg y) by set_solver. lia.
Qed.

(** * Bit facts *)
Lemma shiftr_div p n : 0 <= n -> Z.shiftr p n = p / 2 ^ n.
Proof. intros. by apply Z.shiftr_div_pow2. Qed.

Lemma land_mask p n : 0 <= n -> Z.land p (2 ^ n - 1) = p mod 2 ^ n.
Proof. intros. rewrite <- Z.land_ones by lia. f_equal. by rewrite Z.ones_equiv, Z.sub_1_r. Qed.

Lemma u32_small z : is_u32 z -> u32 z = z.
Proof. intros. apply Z.mod_small. done. Qed.

Lemma u32_range z : is_u32 (u32 z).
Proof. apply Z.mod_pos_bound. lia. Qed.

Lemma u8_range z : is_u8 (u8 z).
Proof. apply Z.mod_pos_bound. lia. Qed.

Lemma u8_small z : is_u8 z -> u8 z = z.
Proof. intros. by apply Z.mod_small. Qed.
#[export] Hint Resolve u8_range u32_range : kernel.

(** Byte lists. *)
Lemma map_u8_id l : Forall is_u8 l -> u8 <$> l = l.
Proof. induction 1 as [|x l Hx _ IH]; [done|]. rewrite fmap_cons, IH. by rewrite u8_small. Qed.

Lemma Forall_u8_fmap {A} (f : A -> Z) l : (forall x, is_u8 (f x)) -> Forall is_u8 (f <$> l).
Proof. intros Hf. apply Forall_fmap, Forall_forall. intros x _. apply Hf. Qed.

Lemma i32_small z : 0 <= z < 2147483648 -> i32 z = z.
Proof.
  intros Hz. unfold i32. rewrite u32_small by (unfold is_u32; lia).
  destruct (Z.ltb_spec z 2147483648); lia.
Qed.

Lemma u32_mod_idemp z : u32 (u32 z) = u32 z.
Proof. apply u32_small, u32_range. Qed.

Lemma lor_bound n a b : 0 <= n -> 0 <= a < 2 ^ n -> 0 <= b < 2 ^ n -> 0 <= Z.lor a b < 2 ^ n.
Proof.
  intros Hn Ha Hb. assert (0 <= Z.lor a b) as H0 by (apply Z.lor_nonneg; lia).
  split; [done|]. apply (Z.bounded_iff_bits_nonneg n); [lia..|].
  intros l Hl. rewrite Z.lor_spec.
  rewrite (proj1 (Z.bounded_iff_bits_nonneg n a ltac:(lia) ltac:(lia)) ltac:(lia) l Hl).
  by rewrite (proj1 (Z.bounded_iff_bits_nonneg n b ltac:(lia) ltac:(lia)) ltac:(lia) l Hl).
Qed.

Lemma testbit_high n x l : 0 <= n -> 0 <= x < 2 ^ n -> n <= l -> Z.testbit x l = false.
Proof. intros Hn [H0 Hx] Hl. by apply (Z.bounded_iff_bits_nonneg n x Hn H0). Qed.

Lemma land_bound n a b : 0 <= n -> 0 <= b < 2 ^ n -> 0 <= Z.land a b < 2 ^ n.
Proof.
  intros Hn Hb. assert (0 <= Z.land a b) as H0 by (apply Z.land_nonneg; lia).
  split; [done|]. apply (Z.bounded_iff_bits_nonneg n); [lia..|].
  intros l Hl. rewrite Z.land_spec.
  rewrite (proj1 (Z.bounded_iff_bits_nonneg n b ltac:(lia) ltac:(lia)) ltac:(lia) l Hl).
  apply andb_false_r.
Qed.

(** [1u << k] has exactly bit [k]. *)
Lemma testbit_one_shl k j : 0 <= k -> 0 <= j -> Z.testbit (Z.shiftl 1 k) j = (j =? k).
Proof.
  intros Hk Hj. rewrite Z.shiftl_spec by lia.
  destruct (Z.eqb_spec j k) as [->|Hne]; [by rewrite Z.sub_diag|].
  destruct (Z.ltb_spec j k).
  - by rewrite Z.testbit_neg_r by lia.
  - destruct (j - k) eqn:E; [lia| |lia]. by destruct p.
Qed.

(** [(x >> k) & 1] is bit [k] of [x]. *)
Lemma land_shiftr_1 x k : 0 <= k -> (Z.land (Z.shiftr x k) 1 =? 0) = negb (Z.testbit x k).
Proof.
  intros Hk. change 1 with (Z.ones 1). rewrite Z.land_ones by lia.
  rewrite <- (Z.add_0_l k) at 2. rewrite <- Z.shiftr_spec by lia.
  rewrite Z.bit0_odd, Zmod_odd. by destruct (Z.odd _).
Qed.

(** ** Little-endian words *)
Lemma lor_shiftl_add a b n : 0 <= n -> 0 <= a < 2 ^ n -> 0 <= b -> Z.lor a (Z.shiftl b n) = a + b * 2 ^ n.
Proof.
  intros Hn Ha Hb. rewrite Z.shiftl_mul_pow2 by lia. rewrite <- Z.add_nocarry_lor; [done|].
  apply Z.bits_inj'. intros k Hk. rewrite Z.land_spec, Z.bits_0.
  destruct (Z.ltb_spec k n).
  - by rewrite (Z.mul_pow2_bits_low b n k), andb_false_r.
  - by rewrite (testbit_high n a k).
Qed.

Lemma le16_add b0 b1 : is_u8 b0 -> is_u8 b1 -> le16 b0 b1 = b0 + b1 * 256.
Proof. unfold is_u8. intros H0 H1. unfold le16. by rewrite (lor_shiftl_add b0 b1 8) by lia. Qed.

Lemma le32_add b0 b1 b2 b3 : is_u8 b0 -> is_u8 b1 -> is_u8 b2 -> is_u8 b3 ->
  le32 b0 b1 b2 b3 = b0 + b1 * 256 + b2 * 65536 + b3 * 16777216.
Proof.
  unfold is_u8. intros H0 H1 H2 H3. unfold le32.
  rewrite (lor_shiftl_add b0 b1 8), (lor_shiftl_add _ b2 16), (lor_shiftl_add _ b3 24) by lia. lia.
Qed.

Lemma le32_bytes z : is_u32 z -> le32 (z mod 256) (z / 256 mod 256) (z / 65536 mod 256) (z / 16777216 mod 256) = z.
Proof. intros Hz. rewrite le32_add by word_lia. word_lia. Qed.
