(* ===== verification/Frames.v ===== *)
(** The contract between the physical page allocator and its clients.

    [mm/vmm.c], [mm/heap.c], [drivers/dma/dma.c] and [kernel/elf.c] only ever see
    page frames through [pmm_alloc_page], [pmm_retain_page] and [pmm_free_page].
    [FrameAllocator] states what those three calls promise in terms of one ghost
    view, the number of references each frame number has; the clients' theorems
    are proved against it and [Pmm] discharges it for the bitmap allocator. *)
From S2P Require Import Prelude.

Definition PAGE_SIZE : Z := 4096.
#[export] Hint Unfold PAGE_SIZE : kconst.

(** [page_refs] saturates at this count. *)
Definition MAX_REFS : Z := 65535.
#[export] Hint Unfold MAX_REFS : kconst.

Class FrameAllocator (S : Type) := {
  alloc_page : S -> Z * S;
  retain_page : Z -> S -> S;
  free_page : Z -> S -> S;
  frame_ok : S -> Prop;
  frame_refs : S -> Z -> Z;
  frames_left : S -> nat;
}.

Class FrameAllocatorLaws (S : Type) `{FrameAllocator S} := {
  (** A failed allocation returns address 0 and changes nothing. *)
  alloc_fail s s' : frame_ok s -> alloc_page s = (0, s') -> s' = s;
  (** A successful one hands out a page-aligned nonzero address that nobody
      referenced, with one reference, and leaves the other frames alone. *)
  alloc_some s a s' :
    frame_ok s -> alloc_page s = (a, s') -> a <> 0 ->
    frame_ok s' /\ 0 < a < 268435456 /\ a mod PAGE_SIZE = 0 /\
    frame_refs s (a / PAGE_SIZE) = 0 /\
    (forall q, frame_refs s' q = if q =? a / PAGE_SIZE then 1 else frame_refs s q);
  (** Frames run out: every successful allocation lowers a measure. *)
  alloc_measure s a s' :
    frame_ok s -> alloc_page s = (a, s') -> a <> 0 -> (frames_left s' < frames_left s)%nat;
  retain_some s a :
    frame_ok s -> 0 < frame_refs s (a / PAGE_SIZE) < MAX_REFS ->
    frame_ok (retain_page a s) /\
    (forall q, frame_refs (retain_page a s) q =
       frame_refs s q + (if q =? a / PAGE_SIZE then 1 else 0));
  free_some s a :
    frame_ok s -> 0 < frame_refs s (a / PAGE_SIZE) ->
    frame_ok (free_page a s) /\
    (forall q, frame_refs (free_page a s) q =
       frame_refs s q - (if q =? a / PAGE_SIZE then 1 else 0));
  refs_nonneg s q : frame_ok s -> 0 <= frame_refs s q <= MAX_REFS;
}.

Lemma alloc_ok {S} `{FrameAllocatorLaws S} (s : S) a s' :
  frame_ok s -> alloc_page s = (a, s') -> frame_ok s'.
Proof.
  intros Hok Ha. destruct (decide (a = 0)) as [->|Hne].
  - by rewrite (alloc_fail _ _ Hok Ha).
  - by destruct (alloc_some _ _ _ Hok Ha Hne).
Qed.
#[export] Hint Resolve alloc_ok : kernel.
