(* ===== verification/Pmm.v ===== *)
(** The physical memory manager, [mm/pmm.c].

    State: the page bitmap (one bit per frame, set = in use), the 16-bit
    reference counts, the number of pages the memory map declared and the number
    in use.  The spin lock around each operation is the subject of [Spinlock];
    under its mutual exclusion each operation is one step, modelled here as a
    function on the state.  The messages written to the serial port are not part
    of the state. *)
From S2P Require Import Prelude Frames.

(** ** Data *)
Definition MAX_PHYS_PAGES : Z := 65536.
Definition BITMAP_BYTES : Z := MAX_PHYS_PAGES / 8.
Definition TAG_MMAP : Z := 6.
Definition MMAP_AVAILABLE : Z := 1.
#[export] Hint Unfold MAX_PHYS_PAGES BITMAP_BYTES TAG_MMAP MMAP_AVAILABLE : kconst.

Record pmm := mkPmm {
  page_bitmap : list Z;
  page_refs : list Z;
  total_pages_count : Z;
  used_pages_count : Z;
}.

Definition with_bitmap (bm : list Z) (s : pmm) : pmm :=
  mkPmm bm (page_refs s) (total_pages_count s) (used_pages_count s).
Definition with_refs (r : list Z) (s : pmm) : pmm :=
  mkPmm (page_bitmap s) r (total_pages_count s) (used_pages_count s).
Definition with_total (n : Z) (s : pmm) : pmm :=
  mkPmm (page_bitmap s) (page_refs s) n (used_pages_count s).
Definition with_used (n : Z) (s : pmm) : pmm :=
  mkPmm (page_bitmap s) (page_refs s) (total_pages_count s) n.

(** ** The bitmap *)
Definition bit_set (p : Z) (bm : list Z) : list Z :=
  bm.[Z.shiftr p 3 <- Z.lor bm.[Z.shiftr p 3] (u8 (Z.shiftl 1 (Z.land p 7)))].

Definition bit_clear (p : Z) (bm : list Z) : list Z :=
  bm.[Z.shiftr p 3 <- Z.land bm.[Z.shiftr p 3] (u8 (Z.lnot (Z.shiftl 1 (Z.land p 7))))].

Definition bit_test (bm : list Z) (p : Z) : bool :=
  negb (Z.land (Z.shiftr bm.[Z.shiftr p 3] (Z.land p 7)) 1 =? 0).

(** ** Operations *)
Definition pmm_alloc_page (s : pmm) : Z * pmm :=
  match find_from (fun p => negb (bit_test (page_bitmap s) p)) 1
          (Z.to_nat (total_pages_count s - 1)) with
  | Some p =>
      (u32 (p * PAGE_SIZE),
       mkPmm (bit_set p (page_bitmap s)) ((page_refs s).[p <- 1])
             (total_pages_count s) (u32 (used_pages_count s + 1)))
  | None => (0, s)
  end.

Definition pmm_retain_page (a : Z) (s : pmm) : pmm :=
  let p := a / PAGE_SIZE in
  if (0 <? p) && (p <? total_pages_count s) && bit_test (page_bitmap s) p
     && negb ((page_refs s).[p] =? 65535)
  then with_refs ((page_refs s).[p <- u16 ((page_refs s).[p] + 1)]) s
  else s.

Definition pmm_free_page (a : Z) (s : pmm) : pmm :=
  let p := a / PAGE_SIZE in
  if (0 <? p) && (p <? total_pages_count s) && bit_test (page_bitmap s) p then
    if 1 <? (page_refs s).[p]
    then with_refs ((page_refs s).[p <- (page_refs s).[p] - 1]) s
    else
      mkPmm (bit_clear p (page_bitmap s)) ((page_refs s).[p <- 0]) (total_pages_count s)
        (if used_pages_count s =? 0 then used_pages_count s else used_pages_count s - 1)
  else s.

Definition pmm_total_pages (s : pmm) : Z := total_pages_count s.
Definition pmm_used_pages (s : pmm) : Z := used_pages_count s.
Definition pmm_free_pages (s : pmm) : Z := u32 (total_pages_count s - used_pages_count s).

(** ** Initialisation from the Multiboot2 memory map *)
Definition reserve_one (p : Z) (s : pmm) : pmm :=
  if bit_test (page_bitmap s) p then s
  else with_used (u32 (used_pages_count s + 1)) (with_bitmap (bit_set p (page_bitmap s)) s).

Definition reserve_range (begin end_ : Z) (s : pmm) : pmm :=
  let begin := begin / PAGE_SIZE in
  let end_ := u32 (end_ + PAGE_SIZE - 1) / PAGE_SIZE in
  let end_ := if MAX_PHYS_PAGES <? end_ then MAX_PHYS_PAGES else end_ in
  for_range begin end_ reserve_one s.

(** The page is available: clear its bit and count it once. *)
Definition release_one (p : Z) (s : pmm) : pmm :=
  if bit_test (page_bitmap s) p then
    let s := with_bitmap (bit_clear p (page_bitmap s)) s in
    if total_pages_count s <? MAX_PHYS_PAGES
    then with_total (total_pages_count s + 1) s else s
  else s.

Section multiboot.
(** Physical memory as the boot loader left it, one byte per address. *)
Variable mem : Z -> Z.

Definition ld32 (a : Z) : Z := le32 (mem a) (mem (a + 1)) (mem (a + 2)) (mem (a + 3)).
Definition ld64 (a : Z) : Z := ld32 a + ld32 (a + 4) * 4294967296.

(** The entries of one memory-map tag at offset [off]; [None] = the loop did not
    finish within the fuel. *)
Fixpoint mmap_entries (fuel : nat) (base off size entry_size e : Z) (s : pmm) : option pmm :=
  if e <? u32 (off + size) then
    match fuel with
    | O => None
    | S fuel' =>
        let addr := ld64 (base + e) in
        let len := ld64 (base + e + 8) in
        let first := u32 (addr / PAGE_SIZE) in
        let pages := u32 (len / PAGE_SIZE) in
        let s' :=
          if ld32 (base + e + 16) =? MMAP_AVAILABLE
          then for_range first (Z.min (u32 (first + pages)) MAX_PHYS_PAGES) release_one s
          else s in
        mmap_entries fuel' base off size entry_size (u32 (e + entry_size)) s'
    end
  else Some s.

Fixpoint mbi_tags (fuel : nat) (base total_size off : Z) (s : pmm) : option pmm :=
  if u32 (off + 8) <=? total_size then
    match fuel with
    | O => None
    | S fuel' =>
        let type := ld32 (base + off) in
        let size := ld32 (base + off + 4) in
        let after :=
          if type =? TAG_MMAP
          then mmap_entries fuel' base off size (ld32 (base + off + 8)) (u32 (off + 16)) s
          else Some s in
        match after with
        | None => None
        | Some s' =>
            if size <? 8 then Some s'
            else mbi_tags fuel' base total_size (Z.land (u32 (off + size + 7)) 4294967288) s'
        end
    end
  else Some s.

Definition pmm_reset : pmm :=
  mkPmm (replicate (Z.to_nat BITMAP_BYTES) 255) (replicate (Z.to_nat MAX_PHYS_PAGES) 0) 0 0.

Definition pmm_init (fuel : nat) (mbi kernel_end : Z) : option pmm :=
  match mbi_tags fuel mbi (ld32 mbi) 8 pmm_reset with
  | None => None
  | Some s =>
      let s :=
        if total_pages_count s =? 0 then
          for_range 0 MAX_PHYS_PAGES (fun p s => with_bitmap (bit_clear p (page_bitmap s)) s)
            (with_total MAX_PHYS_PAGES s)
        else s in
      Some (reserve_range 0 kernel_end s)
  end.
End multiboot.

(** ** The type and accounting invariant *)
Definition free_bits (bm : list Z) : Z :=
  count (fun p => negb (bit_test bm p)) (seqZ 0 MAX_PHYS_PAGES).
Definition owned_pages (r : list Z) : Z :=
  count (fun p => 0 <? r.[p]) (seqZ 0 MAX_PHYS_PAGES).

Record bitmap_ok (bm : list Z) : Prop := {
  bm_length : length bm = Z.to_nat BITMAP_BYTES;
  bm_bytes : Forall is_u8 bm;
}.

Record pmm_ok (s : pmm) : Prop := {
  ok_bitmap : bitmap_ok (page_bitmap s);
  ok_refs_length : length (page_refs s) = Z.to_nat MAX_PHYS_PAGES;
  ok_refs_range : forall p, 0 <= p < MAX_PHYS_PAGES -> 0 <= (page_refs s).[p] <= MAX_REFS;
  ok_total : 0 <= total_pages_count s <= MAX_PHYS_PAGES;
  ok_used : 0 <= used_pages_count s;
  (** the free bits are exactly the pages the counters call free *)
  ok_account : free_bits (page_bitmap s) + used_pages_count s = total_pages_count s;
  (** a referenced page is in use and inside the managed range *)
  ok_owned : forall p, 0 <= p < MAX_PHYS_PAGES -> 0 < (page_refs s).[p] ->
    bit_test (page_bitmap s) p = true /\ 0 < p < total_pages_count s;
  ok_owned_used : owned_pages (page_refs s) <= used_pages_count s;
}.

(** ** Bitmap lemmas *)
Lemma shiftr3 p : Z.shiftr p 3 = p / 8.
Proof. by rewrite shiftr_div. Qed.
Lemma land7 p : Z.land p 7 = p mod 8.
Proof. exact (land_mask p 3 ltac:(lia)). Qed.

Lemma bit_test_testbit bm p : bit_test bm p = Z.testbit bm.[p / 8] (p mod 8).
Proof.
  unfold bit_test. rewrite shiftr3, land7, land_shiftr_1 by word_lia. apply negb_involutive.
Qed.

Lemma bitmap_index bm p :
  bitmap_ok bm -> 0 <= p < MAX_PHYS_PAGES -> 0 <= p / 8 < Z.of_nat (length bm).
Proof. intros [-> _] Hp. word_lia. Qed.

Lemma bit_test_set bm p q :
  bitmap_ok bm -> 0 <= p < MAX_PHYS_PAGES -> 0 <= q ->
  bit_test (bit_set p bm) q = (q =? p) || bit_test bm q.
Proof.
  intros Hok Hp Hq. pose proof (bitmap_index _ _ Hok Hp) as Hi.
  rewrite !bit_test_testbit. unfold bit_set. rewrite shiftr3, land7.
  rewrite aget_aset by word_lia. destruct (Z.eqb_spec (p / 8) (q / 8)) as [He|He].
  - rewrite Z.lor_spec. unfold u8. change 256 with (2 ^ 8).
    rewrite Z.testbit_mod_pow2, testbit_one_shl by word_lia. rewrite He.
    assert ((q mod 8 <? 8) = true) as -> by word_lia.
    assert ((q mod 8 =? p mod 8) = (q =? p)) as -> by word_lia.
    simpl. apply orb_comm.
  - assert ((q =? p) = false) as -> by word_lia. done.
Qed.

Lemma bit_test_clear bm p q :
  bitmap_ok bm -> 0 <= p < MAX_PHYS_PAGES -> 0 <= q ->
  bit_test (bit_clear p bm) q = negb (q =? p) && bit_test bm q.
Proof.
  intros Hok Hp Hq. pose proof (bitmap_index _ _ Hok Hp) as Hi.
  rewrite !bit_test_testbit. unfold bit_clear. rewrite shiftr3, land7.
  rewrite aget_aset by word_lia. destruct (Z.eqb_spec (p / 8) (q / 8)) as [He|He].
  - rewrite Z.land_spec. unfold u8. change 256 with (2 ^ 8).
    rewrite Z.testbit_mod_pow2, Z.lnot_spec, testbit_one_shl by word_lia. rewrite He.
    assert ((q mod 8 <? 8) = true) as -> by word_lia.
    assert ((q mod 8 =? p mod 8) = (q =? p)) as -> by word_lia.
    simpl. apply andb_comm.
  - assert ((q =? p) = false) as -> by word_lia. done.
Qed.

Lemma bitmap_ok_set bm p : bitmap_ok bm -> 0 <= p < MAX_PHYS_PAGES -> bitmap_ok (bit_set p bm).
Proof.
  intros Hok Hp. pose proof (bitmap_index _ _ Hok Hp) as Hi. destruct Hok as [Hl Hb].
  split; [by unfold bit_set; rewrite aset_length|].
  apply Forall_aset; [done|]. apply (lor_bound 8); [lia| |unfold u8; word_lia].
  rewrite shiftr3. by apply (Forall_aget is_u8).
Qed.

Lemma bitmap_ok_clear bm p : bitmap_ok bm -> bitmap_ok (bit_clear p bm).
Proof.
  intros [Hl Hb]. split; [by unfold bit_clear; rewrite aset_length|].
  apply Forall_aset; [done|]. apply (land_bound 8); [lia|]. unfold u8. word_lia.
Qed.

Lemma page_in_seqZ p : 0 <= p < MAX_PHYS_PAGES -> p ∈ seqZ 0 MAX_PHYS_PAGES.
Proof. intros. apply elem_of_seqZ. lia. Qed.

Lemma free_bits_set bm p :
  bitmap_ok bm -> 0 <= p < MAX_PHYS_PAGES -> bit_test bm p = false ->
  free_bits (bit_set p bm) = free_bits bm - 1.
Proof.
  intros Hok Hp Ht. unfold free_bits.
  rewrite (count_flip (fun p => negb (bit_test bm p)) _ _ p).
  - rewrite bit_test_set, Z.eqb_refl, Ht by (done || lia). simpl. lia.
  - apply NoDup_seqZ.
  - by apply page_in_seqZ.
  - intros q [Hq ?]%elem_of_seqZ Hne. rewrite bit_test_set by (done || lia).
    by assert ((q =? p) = false) as -> by lia.
Qed.

Lemma free_bits_clear bm p :
  bitmap_ok bm -> 0 <= p < MAX_PHYS_PAGES -> bit_test bm p = true ->
  free_bits (bit_clear p bm) = free_bits bm + 1.
Proof.
  intros Hok Hp Ht. unfold free_bits.
  rewrite (count_flip (fun p => negb (bit_test bm p)) _ _ p).
  - rewrite bit_test_clear, Z.eqb_refl, Ht by (done || lia). simpl. lia.
  - apply NoDup_seqZ.
  - by apply page_in_seqZ.
  - intros q [Hq ?]%elem_of_seqZ Hne. rewrite bit_test_clear by (done || lia).
    by assert ((q =? p) = false) as -> by lia.
Qed.

Lemma free_bits_range bm : 0 <= free_bits bm <= MAX_PHYS_PAGES.
Proof.
  unfold free_bits. split; [apply count_nonneg|].
  etransitivity; [apply count_le_length|]. rewrite length_seqZ. const_lia.
Qed.

Lemma owned_pages_set r p v :
  length r = Z.to_nat MAX_PHYS_PAGES -> 0 <= p < MAX_PHYS_PAGES ->
  owned_pages (r.[p <- v]) =
    owned_pages r - (if 0 <? r.[p] then 1 else 0) + (if 0 <? v then 1 else 0).
Proof.
  intros Hl Hp. unfold owned_pages.
  rewrite (count_flip (fun p => 0 <? r.[p]) _ _ p).
  - by rewrite aget_aset_eq by const_lia.
  - apply NoDup_seqZ.
  - by apply page_in_seqZ.
  - intros q [Hq ?]%elem_of_seqZ Hne. by rewrite aget_aset_ne by lia.
Qed.

Lemma owned_pages_pos r p : 0 <= p < MAX_PHYS_PAGES -> 0 < r.[p] -> 0 < owned_pages r.
Proof.
  intros Hp Hr. unfold owned_pages, count.
  assert (p ∈ List.filter (fun p => 0 <? r.[p]) (seqZ 0 MAX_PHYS_PAGES)) as Hin.
  { apply list_elem_of_In, filter_In. split; [by apply list_elem_of_In, page_in_seqZ|lia]. }
  destruct (List.filter _ _); [by apply not_elem_of_nil in Hin|]. simpl. lia.
Qed.

(** ** Allocation *)
Definition alloc_at (p : Z) (s : pmm) : pmm :=
  mkPmm (bit_set p (page_bitmap s)) ((page_refs s).[p <- 1])
        (total_pages_count s) (used_pages_count s + 1).

Lemma free_bit_unowned s p :
  pmm_ok s -> 0 <= p < MAX_PHYS_PAGES -> bit_test (page_bitmap s) p = false ->
  (page_refs s).[p] = 0.
Proof.
  intros Hok Hp Ht. pose proof (ok_refs_range _ Hok p Hp).
  destruct (decide (0 < (page_refs s).[p])) as [Hr|]; [|lia].
  destruct (ok_owned _ Hok p Hp Hr) as [? _]. congruence.
Qed.

Lemma alloc_cases s a s' :
  pmm_ok s -> pmm_alloc_page s = (a, s') ->
  (a = 0 /\ s' = s /\
   forall q, 0 < q < total_pages_count s -> bit_test (page_bitmap s) q = true) \/
  (exists p, 0 < p < total_pages_count s /\ bit_test (page_bitmap s) p = false /\
     (forall q, 0 < q < p -> bit_test (page_bitmap s) q = true) /\
     a = p * PAGE_SIZE /\ s' = alloc_at p s).
Proof.
  intros Hok. unfold pmm_alloc_page. pose proof (ok_total _ Hok) as Ht.
  pose proof (ok_account _ Hok) as Hacc.
  destruct (find_from _ _ _) as [p|] eqn:Hf; intros [= <- <-].
  - right. exists p. apply find_from_Some in Hf as (Hr & Hb & Hq).
    assert (bit_test (page_bitmap s) p = false) as Hp by (by apply negb_true_iff).
    assert (0 < free_bits (page_bitmap s)) as Hpos.
    { pose proof (free_bits_set _ p (ok_bitmap _ Hok) ltac:(const_lia) Hp).
      pose proof (free_bits_range (bit_set p (page_bitmap s))). lia. }
    repeat split; [lia|lia|done| |word_lia|].
    + intros q ?. apply negb_false_iff, Hq. lia.
    + unfold alloc_at. f_equal. pose proof (ok_used _ Hok). word_lia.
  - left. repeat split; [done..|]. intros q ?. rewrite find_from_None in Hf.
    apply negb_false_iff, Hf. lia.
Qed.

Lemma alloc_at_ok s p :
  pmm_ok s -> 0 < p < total_pages_count s -> bit_test (page_bitmap s) p = false ->
  pmm_ok (alloc_at p s).
Proof.
  intros Hok Hp Ht. pose proof (ok_total _ Hok) as Htot.
  assert (0 <= p < MAX_PHYS_PAGES) as Hpm by const_lia.
  pose proof (free_bit_unowned _ _ Hok Hpm Ht) as Hr0.
  destruct Hok as [Hbm Hrl Hrr _ Hu Hacc Hown Hou]. split; simpl.
  - by apply bitmap_ok_set.
  - by rewrite aset_length.
  - intros q Hq. rewrite aget_aset by const_lia. destruct (p =? q); [const_lia|auto].
  - lia.
  - lia.
  - rewrite free_bits_set by done. lia.
  - intros q Hq. rewrite aget_aset, bit_test_set by (done || const_lia).
    destruct (Z.eqb_spec p q) as [->|Hne].
    + by rewrite Z.eqb_refl.
    + intros Hr. assert ((q =? p) = false) as -> by lia. simpl. auto.
  - rewrite owned_pages_set, Hr0 by done. simpl. lia.
Qed.

(** ** Release and sharing *)
Lemma free_owned s a :
  pmm_ok s -> 0 <= a / PAGE_SIZE < MAX_PHYS_PAGES -> 0 < (page_refs s).[a / PAGE_SIZE] ->
  pmm_free_page a s =
    if 1 <? (page_refs s).[a / PAGE_SIZE]
    then with_refs ((page_refs s).[a / PAGE_SIZE <- (page_refs s).[a / PAGE_SIZE] - 1]) s
    else mkPmm (bit_clear (a / PAGE_SIZE) (page_bitmap s)) ((page_refs s).[a / PAGE_SIZE <- 0])
               (total_pages_count s) (used_pages_count s - 1).
Proof.
  intros Hok Hp Hr. destruct (ok_owned _ Hok _ Hp Hr) as [Hb Hr'].
  pose proof (owned_pages_pos _ _ Hp Hr). pose proof (ok_owned_used _ Hok).
  unfold pmm_free_page. rewrite Hb.
  assert ((0 <? a / PAGE_SIZE) = true) as -> by lia.
  assert ((a / PAGE_SIZE <? total_pages_count s) = true) as -> by lia. simpl.
  assert ((used_pages_count s =? 0) = false) as -> by lia. done.
Qed.

Lemma free_owned_ok s a :
  pmm_ok s -> 0 <= a / PAGE_SIZE < MAX_PHYS_PAGES -> 0 < (page_refs s).[a / PAGE_SIZE] ->
  pmm_ok (pmm_free_page a s).
Proof.
  intros Hok Hp Hr. rewrite free_owned by done. set (p := a / PAGE_SIZE) in *.
  pose proof (ok_owned _ Hok _ Hp Hr) as [Hb Hpt].
  pose proof (owned_pages_pos _ _ Hp Hr) as Hpos.
  destruct Hok as [Hbm Hrl Hrr Htot Hu Hacc Hown Hou].
  pose proof (Hrr p Hp). destruct (Z.ltb_spec 1 (page_refs s).[p]) as [H1|H1].
  - split; simpl; try done.
    + by rewrite aset_length.
    + intros q Hq. rewrite aget_aset by const_lia. destruct (p =? q); [lia|auto].
    + intros q Hq. rewrite aget_aset by const_lia.
      destruct (Z.eqb_spec p q) as [<-|]; [done|auto].
    + rewrite owned_pages_set by done.
      assert ((0 <? (page_refs s).[p]) = true) as -> by lia.
      assert ((0 <? (page_refs s).[p] - 1) = true) as -> by lia. lia.
  - split; simpl; try done.
    + by apply bitmap_ok_clear.
    + by rewrite aset_length.
    + intros q Hq. rewrite aget_aset by const_lia. destruct (p =? q); [const_lia|auto].
    + lia.
    + rewrite free_bits_clear by done. lia.
    + intros q Hq. rewrite aget_aset, bit_test_clear by (done || const_lia).
      destruct (Z.eqb_spec p q) as [<-|]; [lia|]. intros Hq'.
      assert ((q =? p) = false) as -> by lia. simpl. auto.
    + rewrite owned_pages_set by done.
      assert ((0 <? (page_refs s).[p]) = true) as -> by lia. simpl. lia.
Qed.

Lemma retain_owned s a :
  pmm_ok s -> 0 <= a / PAGE_SIZE < MAX_PHYS_PAGES ->
  0 < (page_refs s).[a / PAGE_SIZE] < MAX_REFS ->
  pmm_retain_page a s =
    with_refs ((page_refs s).[a / PAGE_SIZE <- (page_refs s).[a / PAGE_SIZE] + 1]) s.
Proof.
  intros Hok Hp Hr. destruct (ok_owned _ Hok _ Hp ltac:(lia)) as [Hb Hpt].
  unfold pmm_retain_page. rewrite Hb.
  assert ((0 <? a / PAGE_SIZE) = true) as -> by lia.
  assert ((a / PAGE_SIZE <? total_pages_count s) = true) as -> by lia.
  assert (((page_refs s).[a / PAGE_SIZE] =? 65535) = false) as -> by const_lia. simpl.
  unfold u16. by rewrite Z.mod_small by const_lia.
Qed.

Lemma retain_owned_ok s a :
  pmm_ok s -> 0 <= a / PAGE_SIZE < MAX_PHYS_PAGES ->
  0 < (page_refs s).[a / PAGE_SIZE] < MAX_REFS -> pmm_ok (pmm_retain_page a s).
Proof.
  intros Hok Hp Hr. rewrite retain_owned by done. set (p := a / PAGE_SIZE) in *.
  pose proof (ok_owned _ Hok _ Hp ltac:(lia)) as [Hb Hpt].
  destruct Hok as [Hbm Hrl Hrr Htot Hu Hacc Hown Hou]. split; simpl; try done.
  - by rewrite aset_length.
  - intros q Hq. rewrite aget_aset by const_lia. destruct (p =? q); [lia|auto].
  - intros q Hq. rewrite aget_aset by const_lia.
    destruct (Z.eqb_spec p q) as [<-|]; [done|auto].
  - rewrite owned_pages_set by done.
    assert ((0 <? (page_refs s).[p]) = true) as -> by lia.
    assert ((0 <? (page_refs s).[p] + 1) = true) as -> by lia. lia.
Qed.

(** ** The frame-allocator contract *)
Definition page_refs_of (s : pmm) (p : Z) : Z :=
  if (0 <=? p) && (p <? MAX_PHYS_PAGES) then (page_refs s).[p] else 0.

#[export] Instance pmm_frames : FrameAllocator pmm := {
  alloc_page := pmm_alloc_page;
  retain_page := pmm_retain_page;
  free_page := pmm_free_page;
  frame_ok := pmm_ok;
  frame_refs := page_refs_of;
  frames_left s := Z.to_nat (free_bits (page_bitmap s));
}.

Lemma page_refs_of_pos s p :
  0 < page_refs_of s p -> 0 <= p < MAX_PHYS_PAGES /\ page_refs_of s p = (page_refs s).[p].
Proof. unfold page_refs_of. case_match eqn:E; [split; [lia|done]|lia]. Qed.

Lemma page_refs_of_upd s s' p v q :
  length (page_refs s) = Z.to_nat MAX_PHYS_PAGES -> 0 <= p < MAX_PHYS_PAGES ->
  page_refs s' = (page_refs s).[p <- v] ->
  page_refs_of s' q = if q =? p then v else page_refs_of s q.
Proof.
  intros Hl Hp He. unfold page_refs_of. rewrite He.
  destruct ((0 <=? q) && (q <? MAX_PHYS_PAGES)) eqn:E.
  - rewrite aget_aset by const_lia. by rewrite Z.eqb_sym.
  - destruct (Z.eqb_spec q p) as [->|]; [lia|done].
Qed.

#[export] Instance pmm_frame_laws : FrameAllocatorLaws pmm.
Proof.
  split; simpl.
  - intros s s' Hok Ha. destruct (alloc_cases _ _ _ Hok Ha)
      as [(_ & -> & _)|(p & Hp & _ & _ & Ha' & _)]; [done|const_lia].
  - intros s a s' Hok Ha Hne. destruct (alloc_cases _ _ _ Hok Ha)
      as [(-> & _)|(p & Hp & Hb & _ & -> & ->)]; [done|]. pose proof (ok_total _ Hok).
    replace (p * PAGE_SIZE / PAGE_SIZE) with p by word_lia.
    assert (0 <= p < MAX_PHYS_PAGES) as Hpm by const_lia.
    split_and!; [by apply alloc_at_ok|word_lia|word_lia|word_lia| |].
    + unfold page_refs_of. rewrite (free_bit_unowned s p) by done. by case_match.
    + intros q. by apply (page_refs_of_upd s _ p 1); [apply ok_refs_length| |].
  - intros s a s' Hok Ha Hne. destruct (alloc_cases _ _ _ Hok Ha)
      as [(-> & _)|(p & Hp & Hb & _ & -> & ->)]; [done|]. pose proof (ok_total _ Hok).
    simpl. pose proof (free_bits_range (bit_set p (page_bitmap s))) as Hr.
    rewrite free_bits_set in * by (apply Hok || done || const_lia). lia.
  - intros s a Hok Hr. destruct (page_refs_of_pos s (a / PAGE_SIZE)) as [Hp He]; [lia|].
    rewrite He in Hr. split; [by apply retain_owned_ok|]. intros q.
    rewrite (page_refs_of_upd s _ _ _ _ (ok_refs_length _ Hok) Hp
      (f_equal page_refs (retain_owned _ _ Hok Hp Hr))).
    destruct (Z.eqb_spec q (a / PAGE_SIZE)) as [->|]; lia.
  - intros s a Hok Hr. destruct (page_refs_of_pos s (a / PAGE_SIZE)) as [Hp He]; [lia|].
    rewrite He in Hr. split; [by apply free_owned_ok|]. intros q.
    set (p := a / PAGE_SIZE) in *.
    rewrite (page_refs_of_upd s _ p ((page_refs s).[p] - 1) _ (ok_refs_length _ Hok) Hp).
    + destruct (Z.eqb_spec q p) as [->|]; lia.
    + rewrite free_owned by done. fold p.
      destruct (Z.ltb_spec 1 (page_refs s).[p]); simpl; [done|]. do 2 f_equal.
      pose proof (ok_refs_range _ Hok p Hp). by replace (page_refs s).[p] with 1 by lia.
  - intros s q Hok. unfold page_refs_of. case_match eqn:E; [|const_lia].
    apply (ok_refs_range _ Hok). lia.
Qed.

(** ** Boot *)
Record boot_ok (s : pmm) : Prop := {
  boot_bitmap : bitmap_ok (page_bitmap s);
  boot_refs_length : length (page_refs s) = Z.to_nat MAX_PHYS_PAGES;
  boot_refs : forall p, 0 <= p < MAX_PHYS_PAGES -> (page_refs s).[p] = 0;
  boot_used : 0 <= used_pages_count s;
  boot_account : free_bits (page_bitmap s) + used_pages_count s = total_pages_count s;
}.

Lemma boot_pmm_ok s : boot_ok s -> total_pages_count s <= MAX_PHYS_PAGES -> pmm_ok s.
Proof.
  intros [Hbm Hl H0 Hu Hacc] Ht. pose proof (free_bits_range (page_bitmap s)).
  split; try assumption; try lia.
  - intros p Hp. rewrite H0 by done. const_lia.
  - intros p Hp. rewrite H0 by done. lia.
  - unfold owned_pages. rewrite count_none; [done|].
    intros p [??]%elem_of_seqZ. by rewrite H0 by lia.
Qed.

Definition scan_ok (s : pmm) : Prop := boot_ok s /\ used_pages_count s = 0.

Lemma release_one_scan p s :
  0 <= p < MAX_PHYS_PAGES -> scan_ok s -> scan_ok (release_one p s).
Proof.
  intros Hp [[Hbm Hl Hr Hu Hacc] H0]. unfold release_one.
  destruct (bit_test (page_bitmap s) p) eqn:Hb; [|done].
  pose proof (free_bits_clear _ _ Hbm Hp Hb) as Hc.
  pose proof (free_bits_range (bit_clear p (page_bitmap s))). simpl.
  assert ((total_pages_count s <? MAX_PHYS_PAGES) = true) as -> by lia.
  split; [|done]. split; simpl; [by apply bitmap_ok_clear|assumption..|lia].
Qed.

Lemma u32_nonneg z : 0 <= u32 z.
Proof. apply u32_range. Qed.

Lemma mmap_entries_scan mem fuel base off size esz e s s' :
  scan_ok s -> mmap_entries mem fuel base off size esz e s = Some s' -> scan_ok s'.
Proof.
  revert e s. induction fuel as [|fuel IH]; intros e s Hs; simpl;
    (case_match; [|by intros [= <-]]); [done|].
  apply IH. case_match; [|done]. apply for_range_pres; [done|].
  intros p t Hp. apply release_one_scan.
  pose proof (u32_nonneg (ld64 mem (base + e) / PAGE_SIZE)). lia.
Qed.

Lemma mbi_tags_scan mem fuel base total off s s' :
  scan_ok s -> mbi_tags mem fuel base total off s = Some s' -> scan_ok s'.
Proof.
  revert off s. induction fuel as [|fuel IH]; intros off s Hs; simpl;
    (case_match; [|by intros [= <-]]); [done|].
  set (after := if _ =? TAG_MMAP then _ else _).
  assert (forall t, after = Some t -> scan_ok t) as Ht.
  { intros t. unfold after. case_match; [by apply mmap_entries_scan|by intros [= <-]]. }
  destruct after as [t|]; [|done]. specialize (Ht t eq_refl).
  case_match; [by intros [= <-]|]. by apply IH.
Qed.

Lemma pmm_reset_scan : scan_ok pmm_reset.
Proof.
  split; [|done]. unfold pmm_reset.
  split; cbn [page_bitmap page_refs used_pages_count total_pages_count].
  - split; [apply length_replicate|]. apply Forall_replicate. word_lia.
  - apply length_replicate.
  - intros p Hp. apply aget_replicate. const_lia.
  - lia.
  - rewrite Z.add_0_r. apply count_none. intros p [??]%elem_of_seqZ.
    rewrite bit_test_testbit, aget_replicate by word_lia. change 255 with (Z.ones 8).
    by rewrite Z.ones_spec_low by word_lia.
Qed.

Lemma reserve_one_boot p s :
  0 <= p < MAX_PHYS_PAGES -> boot_ok s -> total_pages_count s <= MAX_PHYS_PAGES ->
  boot_ok (reserve_one p s) /\ total_pages_count (reserve_one p s) = total_pages_count s /\
  forall q, 0 <= q -> bit_test (page_bitmap (reserve_one p s)) q =
    (q =? p) || bit_test (page_bitmap s) q.
Proof.
  intros Hp [Hbm Hl Hr Hu Hacc] Ht. unfold reserve_one.
  destruct (bit_test (page_bitmap s) p) eqn:Hb.
  - split_and!; [by split|done|]. intros q Hq. destruct (Z.eqb_spec q p) as [->|]; [done|done].
  - pose proof (free_bits_set _ _ Hbm Hp Hb) as Hset.
    pose proof (free_bits_range (bit_set p (page_bitmap s))).
    split_and!; [split; simpl|done|simpl].
    + by apply bitmap_ok_set.
    + assumption.
    + assumption.
    + apply u32_nonneg.
    + rewrite Hset, u32_small by word_lia. lia.
    + intros q Hq. by apply bit_test_set.
Qed.

Lemma reserve_range_boot b e s :
  0 <= b -> boot_ok s -> total_pages_count s <= MAX_PHYS_PAGES ->
  let s' := reserve_range b e s in
  boot_ok s' /\ total_pages_count s' = total_pages_count s /\
  forall q, b / PAGE_SIZE <= q < Z.min (u32 (e + PAGE_SIZE - 1) / PAGE_SIZE) MAX_PHYS_PAGES ->
    bit_test (page_bitmap s') q = true.
Proof.
  intros Hb Hs Ht. unfold reserve_range.
  set (hi := if MAX_PHYS_PAGES <? _ then _ else _).
  assert (hi = Z.min (u32 (e + PAGE_SIZE - 1) / PAGE_SIZE) MAX_PHYS_PAGES) as Hhi.
  { unfold hi. case_match; lia. }
  rewrite <- Hhi. destruct (Z.leb_spec (b / PAGE_SIZE) hi) as [Hle|Hle].
  2: { rewrite for_range_nil by lia. split_and!; [done..|lia]. }
  apply (for_range_ind (fun i t => boot_ok t /\ total_pages_count t = total_pages_count s /\
    forall q, b / PAGE_SIZE <= q < i -> bit_test (page_bitmap t) q = true)); [done| |].
  { split_and!; [done..|lia]. }
  intros i t Hi (Ht1 & Ht2 & Ht3).
  assert (0 <= b / PAGE_SIZE) by word_lia.
  destruct (reserve_one_boot i t) as (H1 & H2 & H3); [lia|done|lia|].
  split_and!; [done|lia|]. intros q Hq. rewrite H3 by lia.
  destruct (Z.eqb_spec q i); [done|]. apply Ht3. lia.
Qed.

Lemma clear_all_boot s :
  scan_ok s -> total_pages_count s = 0 ->
  let s' := for_range 0 MAX_PHYS_PAGES (fun p s => with_bitmap (bit_clear p (page_bitmap s)) s)
              (with_total MAX_PHYS_PAGES s) in
  boot_ok s' /\ total_pages_count s' = MAX_PHYS_PAGES.
Proof.
  intros [[Hbm Hl Hr Hu Hacc] Hu0] Ht s'.
  assert (bitmap_ok (page_bitmap s') /\ page_refs s' = page_refs s /\
    used_pages_count s' = 0 /\ total_pages_count s' = MAX_PHYS_PAGES /\
    forall q, 0 <= q < MAX_PHYS_PAGES -> bit_test (page_bitmap s') q = false)
    as (H1 & H2 & H3 & H4 & H5).
  { apply (for_range_ind (fun i t => bitmap_ok (page_bitmap t) /\ page_refs t = page_refs s /\
      used_pages_count t = 0 /\ total_pages_count t = MAX_PHYS_PAGES /\
      forall q, 0 <= q < i -> bit_test (page_bitmap t) q = false)); [const_lia| |].
    { simpl. split_and!; try done. lia. }
    intros i t Hi (H1 & H2 & H3 & H4 & H5). simpl.
    split_and!; [by apply bitmap_ok_clear|done..|]. intros q Hq.
    rewrite bit_test_clear by (done || lia).
    destruct (Z.eqb_spec q i); [done|]. rewrite H5 by lia. by simpl. }
  split; [|done]. split; [done|by rewrite H2|by rewrite H2|lia|].
  rewrite H3, H4. unfold free_bits. rewrite count_all.
  - rewrite length_seqZ. const_lia.
  - intros p [??]%elem_of_seqZ. by rewrite H5 by lia.
Qed.

Lemma pmm_init_boot mem fuel mbi kend s :
  pmm_init mem fuel mbi kend = Some s ->
  pmm_ok s /\
  forall q, 0 <= q < Z.min (u32 (kend + PAGE_SIZE - 1) / PAGE_SIZE) MAX_PHYS_PAGES ->
    bit_test (page_bitmap s) q = true /\ (page_refs s).[q] = 0.
Proof.
  unfold pmm_init. destruct (mbi_tags _ _ _ _ _ _) as [t|] eqn:Ht; [|done]. intros [= <-].
  pose proof (mbi_tags_scan _ _ _ _ _ _ _ pmm_reset_scan Ht) as Hscan.
  set (t' := if _ =? 0 then _ else _).
  assert (boot_ok t' /\ total_pages_count t' <= MAX_PHYS_PAGES) as [Hb Htot].
  { unfold t'. destruct (Z.eqb_spec (total_pages_count t) 0).
    - destruct (clear_all_boot t) as [? ->]; done.
    - destruct Hscan as [Hboot Hu]. split; [done|]. pose proof (boot_account _ Hboot).
      pose proof (free_bits_range (page_bitmap t)). lia. }
  destruct (reserve_range_boot 0 kend t') as (H1 & H2 & H3); [lia|done..|].
  split; [apply boot_pmm_ok; [done|lia]|]. intros q Hq. split; [by apply H3|].
  apply (boot_refs _ H1). lia.
Qed.

(** ** Termination of the memory-map scan *)

(** A Multiboot2 information block as the specification of the boot protocol
    describes it: every tag lies inside the block, and the entries of a memory
    map tag have a nonzero size. *)
Inductive tag_at (mem : Z -> Z) (base : Z) : Z -> Prop :=
  | tag_first : tag_at mem base 8
  | tag_next off :
      tag_at mem base off -> 8 <= ld32 mem (base + off + 4) ->
      tag_at mem base ((off + ld32 mem (base + off + 4) + 7) / 8 * 8).

Record mbi_wf (mem : Z -> Z) (base : Z) : Prop := {
  mbi_size : 0 <= ld32 mem base < 1073741824;
  mbi_tag : forall off, tag_at mem base off -> off + 8 <= ld32 mem base ->
    off + ld32 mem (base + off + 4) <= ld32 mem base;
  mbi_entry : forall off, tag_at mem base off -> off + 8 <= ld32 mem base ->
    ld32 mem (base + off) = TAG_MMAP -> 0 < ld32 mem (base + off + 8) < 1073741824;
}.

Lemma mmap_entries_total mem fuel base off size esz e s :
  0 <= off + size < 1073741824 -> 0 < esz < 1073741824 -> 0 <= e < 2147483648 ->
  off + size - e <= Z.of_nat fuel ->
  is_Some (mmap_entries mem fuel base off size esz e s).
Proof.
  revert e s. induction fuel as [|fuel IH]; intros e s Hos Hesz He Hf; simpl;
    rewrite (u32_small (off + size)) by word_lia; destruct (Z.ltb_spec e (off + size));
    [lia|by eexists| |by eexists].
  rewrite (u32_small (e + esz)) by word_lia. apply IH; lia.
Qed.

Lemma align8 x : is_u32 x -> Z.land x 4294967288 = x / 8 * 8.
Proof.
  intros Hx. replace (x / 8 * 8) with (Z.shiftl (Z.shiftr x 3) 3)
    by (rewrite Z.shiftl_mul_pow2, shiftr_div by lia; reflexivity).
  change 4294967288 with (Z.shiftl (Z.ones 29) 3).
  apply Z.bits_inj'. intros n Hn. rewrite Z.land_spec, !Z.shiftl_spec by lia.
  destruct (Z.ltb_spec n 3).
  - rewrite !(Z.testbit_neg_r _ (n - 3)) by lia. apply andb_false_r.
  - rewrite Z.shiftr_spec by lia. replace (n - 3 + 3) with n by lia.
    destruct (Z.ltb_spec n 32).
    + rewrite Z.ones_spec_low by lia. apply andb_true_r.
    + by rewrite (testbit_high 32 x n) by (done || lia).
Qed.

Lemma mbi_tags_total mem fuel base off s :
  mbi_wf mem base -> tag_at mem base off -> 8 <= off < 1073741832 ->
  (forall a, 0 <= ld32 mem a) ->
  ld32 mem base - off < Z.of_nat fuel ->
  is_Some (mbi_tags mem fuel base (ld32 mem base) off s).
Proof.
  intros Hwf. pose proof (mbi_size _ _ Hwf) as Hsz. revert off s.
  induction fuel as [|fuel IH]; intros off s Hat Hoff Hpos Hf; simpl;
    rewrite (u32_small (off + 8)) by word_lia;
    destruct (Z.leb_spec (off + 8) (ld32 mem base)) as [Hle|Hle]; [lia|by eexists| |by eexists].
  pose proof (mbi_tag _ _ Hwf off Hat Hle) as Htag.
  pose proof (Hpos (base + off + 4)) as Hsize.
  set (size := ld32 mem (base + off + 4)) in *.
  set (after := if _ =? TAG_MMAP then _ else _).
  assert (is_Some after) as [t ->].
  { unfold after. destruct (Z.eqb_spec (ld32 mem (base + off)) TAG_MMAP) as [Ht|]; [|by eexists].
    pose proof (mbi_entry _ _ Hwf off Hat Hle Ht).
    rewrite (u32_small (off + 16)) by word_lia. apply mmap_entries_total; lia. }
  destruct (Z.ltb_spec size 8); [by eexists|].
  rewrite (u32_small (off + size + 7)) by word_lia. rewrite align8 by word_lia.
  apply IH; [by apply tag_next|word_lia|done|word_lia].
Qed.

Lemma mmap_entries_stuck mem fuel base off size e s :
  e < u32 (off + size) -> is_u32 e ->
  mmap_entries mem fuel base off size 0 e s = None.
Proof.
  intros He Hu. revert s. induction fuel as [|fuel IH]; intros s; simpl;
    (assert ((e <? u32 (off + size)) = true) as -> by lia); [done|].
  rewrite Z.add_0_r, u32_small by done. apply IH.
Qed.

(** ** Runs of the allocator *)
Inductive pmm_step (s : pmm) : pmm -> Prop :=
  | step_alloc a s' : pmm_alloc_page s = (a, s') -> pmm_step s s'
  | step_retain a :
      0 < page_refs_of s (a / PAGE_SIZE) < MAX_REFS -> pmm_step s (pmm_retain_page a s)
  | step_free a :
      0 < page_refs_of s (a / PAGE_SIZE) -> pmm_step s (pmm_free_page a s).

(** A page that is in use without a reference stays so: nobody can own it. *)
Definition reserved (q : Z) (s : pmm) : Prop :=
  bit_test (page_bitmap s) q = true /\ (page_refs s).[q] = 0.

Lemma pmm_step_ok s s' : pmm_ok s -> pmm_step s s' -> pmm_ok s'.
Proof.
  intros Hok [a s'' Ha|a Hr|a Hr].
  - exact (alloc_ok s a s'' Hok Ha).
  - exact (proj1 (retain_some s a Hok Hr)).
  - exact (proj1 (free_some s a Hok Hr)).
Qed.

Lemma pmm_step_reserved s s' q :
  pmm_ok s -> 0 <= q < MAX_PHYS_PAGES -> pmm_step s s' -> reserved q s -> reserved q s'.
Proof.
  intros Hok Hq Hstep [Hb Hr]. pose proof (ok_refs_length _ Hok) as Hl.
  destruct Hstep as [a s'' Ha|a Hra|a Hra].
  - destruct (alloc_cases _ _ _ Hok Ha) as [(_ & -> & _)|(p & Hp & Hbp & _ & _ & ->)]; [done|].
    pose proof (ok_total _ Hok). assert (p <> q) by congruence.
    split; simpl; [rewrite bit_test_set by (apply Hok || const_lia); by rewrite Hb, orb_true_r|].
    by rewrite aget_aset_ne by lia.
  - destruct (page_refs_of_pos s (a / PAGE_SIZE)) as [Hp He]; [lia|]. rewrite He in Hra.
    rewrite retain_owned by done. assert (a / PAGE_SIZE <> q) by (intros <-; lia).
    split; simpl; [done|]. by rewrite aget_aset_ne by lia.
  - destruct (page_refs_of_pos s (a / PAGE_SIZE)) as [Hp He]; [lia|]. rewrite He in Hra.
    assert (a / PAGE_SIZE <> q) by (intros <-; lia). rewrite free_owned by done.
    case_match; split; simpl; rewrite ?aget_aset_ne by lia; try done.
    rewrite bit_test_clear by (apply Hok || lia). rewrite Hb.
    by assert ((q =? a / PAGE_SIZE) = false) as -> by lia.
Qed.

Lemma pmm_run_ok s s' : rtc pmm_step s s' -> pmm_ok s -> pmm_ok s'.
Proof. induction 1 as [|s t s' Hst _ IH]; [done|]. intros Hok. by eapply IH, pmm_step_ok. Qed.

Lemma pmm_run_reserved s s' q :
  rtc pmm_step s s' -> pmm_ok s -> 0 <= q < MAX_PHYS_PAGES -> reserved q s -> reserved q s'.
Proof.
  induction 1 as [|s t s' Hst _ IH]; intros Hok Hq Hr; [done|].
  apply IH; [by eapply pmm_step_ok|done|by eapply pmm_step_reserved].
Qed.

(** Setting a clear bit and clearing it again gives the bitmap back. *)
Lemma bit_clear_set bm p :
  bitmap_ok bm -> 0 <= p < MAX_PHYS_PAGES -> bit_test bm p = false ->
  bit_clear p (bit_set p bm) = bm.
Proof.
  intros Hok Hp Ht. pose proof (bitmap_index _ _ Hok Hp) as Hi.
  pose proof (Forall_aget is_u8 _ _ (bm_bytes _ Hok) Hi) as Hbyte.
  rewrite bit_test_testbit in Ht. unfold bit_clear, bit_set.
  rewrite shiftr3, land7, aget_aset_eq, aset_aset by done.
  rewrite <- (aset_aget_id bm (p / 8)) at 3. f_equal.
  apply Z.bits_inj'. intros n Hn. unfold u8. change 256 with (2 ^ 8).
  rewrite Z.land_spec, Z.lor_spec, !Z.testbit_mod_pow2, Z.lnot_spec, testbit_one_shl by word_lia.
  destruct (Z.ltb_spec n 8); simpl.
  - destruct (Z.eqb_spec n (p mod 8)) as [->|]; [by rewrite Ht, andb_false_r|].
    by rewrite orb_false_r, andb_true_r.
  - rewrite andb_false_r. symmetry. by apply (testbit_high 8).
Qed.

Lemma pmm_eta s :
  mkPmm (page_bitmap s) (page_refs s) (total_pages_count s) (used_pages_count s) = s.
Proof. by destruct s. Qed.

Lemma free_retain s a :
  pmm_ok s -> 0 <= a / PAGE_SIZE < MAX_PHYS_PAGES ->
  0 < (page_refs s).[a / PAGE_SIZE] < MAX_REFS ->
  pmm_free_page a (pmm_retain_page a s) = s.
Proof.
  intros Hok Hp Hr. pose proof (ok_refs_length _ Hok) as Hl.
  pose proof (retain_owned_ok _ _ Hok Hp Hr) as Hok'. rewrite retain_owned in * by done.
  rewrite free_owned; simpl; rewrite ?aget_aset_eq by const_lia; [|done|done|lia].
  assert ((1 <? (page_refs s).[a / PAGE_SIZE] + 1) = true) as -> by lia.
  unfold with_refs. simpl. rewrite aset_aset, Z.add_simpl_r, aset_aget_id. apply pmm_eta.
Qed.

(** ** A small machine, for the concrete instances below

    A 48-byte information block with one memory-map tag whose single entry makes
    the first 16 pages available, and a kernel image that ends at [0x3000]. *)
Definition small_mbi : list Z :=
  [48;0;0;0; 0;0;0;0; 6;0;0;0; 40;0;0;0; 24;0;0;0; 0;0;0;0;
   0;0;0;0;0;0;0;0; 0;0;1;0;0;0;0;0; 1;0;0;0; 0;0;0;0].
Definition small_mem (a : Z) : Z := small_mbi.[a].
Definition small_pmm : pmm := default pmm_reset (pmm_init small_mem 50 0 12288).

Lemma small_pmm_init : pmm_init small_mem 50 0 12288 = Some small_pmm.
Proof.
  assert (bool_decide (is_Some (pmm_init small_mem 50 0 12288)) = true) as H
    by (vm_compute; reflexivity).
  unfold small_pmm. by destruct (pmm_init small_mem 50 0 12288).
Qed.
Lemma small_pmm_ok : pmm_ok small_pmm.
Proof. exact (proj1 (pmm_init_boot _ _ _ _ _ small_pmm_init)). Qed.
Lemma small_pmm_alloc : fst (pmm_alloc_page small_pmm) = 12288.
Proof. vm_compute. reflexivity. Qed.
#[export] Hint Resolve small_pmm_ok : kernel.
#[global] Opaque small_pmm.

(** ** Properties *)

(** [pmm_alloc_page] hands out the lowest-numbered free page of the managed
    range with exactly one reference, marks it in use, counts it and changes no
    other page; it returns 0, changing nothing, exactly when every page from 1 to
    the page count is in use. *)
Theorem pmm_alloc_page_spec s a s' :
  pmm_ok s -> pmm_alloc_page s = (a, s') ->
  if a =? 0 then
    s' = s /\ forall q, 0 < q < total_pages_count s -> bit_test (page_bitmap s) q = true
  else
    exists p, a = p * PAGE_SIZE /\ 0 < p < total_pages_count s /\
      bit_test (page_bitmap s) p = false /\
      (forall q, 0 < q < p -> bit_test (page_bitmap s) q = true) /\
      (page_refs s').[p] = 1 /\ used_pages_count s' = used_pages_count s + 1 /\
      forall q, 0 <= q < MAX_PHYS_PAGES ->
        bit_test (page_bitmap s') q = (q =? p) || bit_test (page_bitmap s) q /\
        (q <> p -> (page_refs s').[q] = (page_refs s).[q]).
Proof.
  intros Hok Ha. destruct (alloc_cases _ _ _ Hok Ha)
    as [(-> & -> & Hall)|(p & Hp & Hb & Hq & -> & ->)]; [done|].
  pose proof (ok_total _ Hok). pose proof (ok_refs_length _ Hok).
  assert ((p * PAGE_SIZE =? 0) = false) as -> by const_lia.
  exists p. split_and!; try done; simpl; [lia|lia|by apply aget_aset_eq; const_lia|].
  intros q Hqr. split; [apply bit_test_set; [apply Hok|const_lia|lia]|].
  intros Hne. by rewrite aget_aset_ne by lia.
Qed.

Lemma pmm_alloc_page_spec_witness :
  fst (pmm_alloc_page small_pmm) = 12288 /\
  exists p, 12288 = p * PAGE_SIZE /\ 0 < p < total_pages_count small_pmm.
Proof.
  split; [exact small_pmm_alloc|].
  destruct (pmm_alloc_page small_pmm) as [a s'] eqn:Hs'.
  assert (a = 12288) as -> by (rewrite <- small_pmm_alloc, Hs'; reflexivity).
  destruct (pmm_alloc_page_spec small_pmm 12288 s' small_pmm_ok Hs') as (p & H1 & H2 & _).
  exists p. exact (conj H1 H2).
Defined.

(** C2: whatever sequence of allocations, shares and releases by owners follows
    [pmm_init], the allocator's accounting invariant holds, and a page that
    [pmm_alloc_page] hands out lies above the kernel image. *)
Theorem pmm_reachable_safe mem fuel mbi kend s0 s a s' :
  pmm_init mem fuel mbi kend = Some s0 -> 0 <= kend <= 268435456 ->
  rtc pmm_step s0 s -> pmm_alloc_page s = (a, s') ->
  pmm_ok s /\ (a <> 0 -> kend <= a).
Proof.
  intros Hinit Hk Hrun Ha. destruct (pmm_init_boot _ _ _ _ _ Hinit) as [Hok0 Hres].
  pose proof (pmm_run_ok _ _ Hrun Hok0) as Hok. split; [done|]. intros Hne.
  destruct (alloc_cases _ _ _ Hok Ha) as [(-> & _)|(p & Hp & Hb & _ & -> & _)]; [done|].
  pose proof (ok_total _ Hok). destruct (decide (p * PAGE_SIZE < kend)) as [Hlt|]; [|lia].
  destruct (pmm_run_reserved _ _ p Hrun Hok0) as [Hb' _]; [const_lia| |congruence].
  apply Hres. rewrite u32_small by word_lia. word_lia.
Qed.

Lemma pmm_reachable_safe_witness :
  pmm_ok small_pmm /\ 12288 <= fst (pmm_alloc_page small_pmm).
Proof.
  destruct (pmm_alloc_page small_pmm) as [a s'] eqn:Ha.
  destruct (pmm_reachable_safe small_mem 50 0 12288 small_pmm small_pmm a s') as [H1 H2].
  - exact small_pmm_init.
  - lia.
  - apply rtc_refl.
  - exact Ha.
  - split; [exact H1|]. apply H2. simpl.
    assert (a = 12288) as -> by (rewrite <- small_pmm_alloc, Ha; reflexivity). discriminate.
Defined.

(** Releasing a page that was just allocated restores the allocator's state
    exactly, and releasing it a second time changes nothing. *)
Theorem pmm_alloc_free_roundtrip s a s' :
  pmm_ok s -> pmm_alloc_page s = (a, s') -> a <> 0 ->
  pmm_free_page a s' = s /\ pmm_free_page a (pmm_free_page a s') = s.
Proof.
  intros Hok Ha Hne. destruct (alloc_cases _ _ _ Hok Ha)
    as [(-> & _)|(p & Hp & Hb & _ & -> & ->)]; [done|].
  pose proof (ok_total _ Hok). pose proof (ok_refs_length _ Hok) as Hl.
  assert (0 <= p < MAX_PHYS_PAGES) as Hpm by const_lia.
  assert (p * PAGE_SIZE / PAGE_SIZE = p) as Hdiv by word_lia.
  assert (pmm_free_page (p * PAGE_SIZE) (alloc_at p s) = s) as Hfree.
  { rewrite free_owned; rewrite ?Hdiv; [|by apply alloc_at_ok|done|].
    - simpl. rewrite aget_aset_eq by const_lia. simpl.
      rewrite bit_clear_set by (done || apply Hok).
      rewrite aset_aset, <- (free_bit_unowned _ _ Hok Hpm Hb), aset_aget_id, Z.add_simpl_r.
      apply pmm_eta.
    - simpl. by rewrite aget_aset_eq by const_lia. }
  split; [done|]. rewrite Hfree. unfold pmm_free_page. rewrite Hdiv, Hb.
  by rewrite andb_false_r.
Qed.

Lemma pmm_alloc_free_roundtrip_witness :
  pmm_free_page 12288 (snd (pmm_alloc_page small_pmm)) = small_pmm.
Proof.
  destruct (pmm_alloc_page small_pmm) as [a s'] eqn:Ha. simpl.
  assert (a = 12288) as -> by (rewrite <- small_pmm_alloc, Ha; reflexivity).
  apply (pmm_alloc_free_roundtrip small_pmm 12288 s' small_pmm_ok Ha). discriminate.
Defined.

(** A page that was shared [k] times needs [k] more releases before it goes
    back: [k] calls of [pmm_free_page] undo [k] calls of [pmm_retain_page] exactly,
    as long as the 16-bit count does not saturate. *)
Theorem pmm_frees_undo_retains s a k :
  pmm_ok s -> 0 < page_refs_of s (a / PAGE_SIZE) ->
  page_refs_of s (a / PAGE_SIZE) + Z.of_nat k <= MAX_REFS ->
  Nat.iter k (pmm_free_page a) (Nat.iter k (pmm_retain_page a) s) = s.
Proof.
  intros Hok Hpos. destruct (page_refs_of_pos _ _ Hpos) as [Hp He]. rewrite He in *. clear He.
  pose proof (ok_refs_length _ Hok) as Hl. revert s Hok Hpos Hl.
  induction k as [|k IH]; intros s Hok Hpos Hl Hmax; [done|].
  change (pmm_free_page a (Nat.iter k (pmm_free_page a)
    (pmm_retain_page a (Nat.iter k (pmm_retain_page a) s))) = s).
  rewrite <- (Nat.iter_swap k _ (pmm_retain_page a)).
  assert (0 < (page_refs s).[a / PAGE_SIZE] < MAX_REFS) as Hr by lia.
  rewrite IH; [by apply free_retain|by apply retain_owned_ok|..];
    rewrite retain_owned by done; simpl; rewrite ?aset_length, ?aget_aset_eq by const_lia;
    (done || lia).
Qed.

Lemma pmm_frees_undo_retains_witness :
  let s := snd (pmm_alloc_page small_pmm) in
  Nat.iter 3 (pmm_free_page 12288) (Nat.iter 3 (pmm_retain_page 12288) s) = s.
Proof.
  intros s. apply pmm_frees_undo_retains.
  - destruct (pmm_alloc_page small_pmm) as [a s'] eqn:Ha.
    exact (alloc_ok small_pmm a s' small_pmm_ok Ha).
  - vm_compute. reflexivity.
  - vm_compute. discriminate.
Defined.

(** On a well-formed information block the memory-map scan finishes, within
    one iteration per byte of the block. *)
Theorem pmm_init_terminates mem mbi kend :
  mbi_wf mem mbi -> (forall a, 0 <= mem a < 256) ->
  is_Some (pmm_init mem (Z.to_nat (ld32 mem mbi) + 1) mbi kend).
Proof.
  intros Hwf Hbytes. unfold pmm_init.
  assert (forall a, 0 <= ld32 mem a) as Hpos.
  { intros a. unfold ld32, le32. rewrite !Z.lor_nonneg, !Z.shiftl_nonneg.
    split_and!; apply Hbytes. }
  destruct (mbi_tags_total mem (Z.to_nat (ld32 mem mbi) + 1) mbi 8 pmm_reset) as [s ->];
    [done|constructor|lia|done|pose proof (Hpos mbi); lia|by eexists].
Qed.

Lemma pmm_init_terminates_witness :
  is_Some (pmm_init small_mem (Z.to_nat (ld32 small_mem 0) + 1) 0 12288).
Proof.
  apply pmm_init_terminates.
  - assert (forall off, tag_at small_mem 0 off -> off = 8 \/ 48 <= off) as Htag.
    { induction 1 as [|off Hat [->|IH] Hsz]; [by left|right; by vm_compute|right; word_lia]. }
    assert (ld32 small_mem 0 = 48) as E by (vm_compute; reflexivity).
    split; rewrite E; [lia|..]; intros off [->|Hoff]%Htag Hle; [|lia| |lia].
    + vm_compute. discriminate.
    + intros _. split; vm_compute; reflexivity.
  - intros a. unfold small_mem. apply (Forall_aget_default is_u8); [|done].
    repeat (constructor; [done|]). constructor.
Defined.

(** When the first tag is a memory map whose header declares entries of size
    zero, the scan never advances: no amount of fuel makes [pmm_init] return, so
    the boot hangs there. *)
Theorem pmm_init_zero_entry_hangs mem mbi kend fuel :
  16 <= ld32 mem mbi -> ld32 mem (mbi + 8) = TAG_MMAP ->
  16 < ld32 mem (mbi + 12) < 1073741824 -> ld32 mem (mbi + 16) = 0 ->
  pmm_init mem fuel mbi kend = None.
Proof.
  intros Hsz Htype Hsize Hesz. unfold pmm_init.
  assert (forall f, mbi_tags mem f mbi (ld32 mem mbi) 8 pmm_reset = None) as Hn; [|by rewrite Hn].
  assert ((u32 (8 + 8) <=? ld32 mem mbi) = true) as Hle by (rewrite u32_small by word_lia; lia).
  intros [|f]; cbn [mbi_tags]; rewrite Hle; [done|].
  replace (mbi + 8 + 4) with (mbi + 12) by lia. replace (mbi + 8 + 8) with (mbi + 16) by lia.
  rewrite Htype, Hesz. rewrite Z.eqb_refl, mmap_entries_stuck; [done| |apply u32_range].
  rewrite !u32_small by word_lia. lia.
Qed.

(** The same block with [entry_size] zero. *)
Definition zero_entry_mem (a : Z) : Z := if a =? 16 then 0 else small_mem a.

Lemma pmm_init_zero_entry_hangs_witness : pmm_init zero_entry_mem 1000 0 12288 = None.
Proof.
  apply pmm_init_zero_entry_hangs; try (split; vm_compute; reflexivity);
    vm_compute; (reflexivity || discriminate).
Defined.

(** A block whose only available memory is pages 4 to 7. *)
Definition hole_mbi : list Z :=
  [48;0;0;0; 0;0;0;0; 6;0;0;0; 40;0;0;0; 24;0;0;0; 0;0;0;0;
   0;64;0;0;0;0;0;0; 0;64;0;0;0;0;0;0; 1;0;0;0; 0;0;0;0].

(** The page count is the number of available pages, but [pmm_alloc_page] uses
    it as the end of the page-number range: when the map has a hole below the
    memory it declares, pages that are counted as free are never handed out.  With
    pages 4 to 7 available, four pages are free and the first allocation fails. *)
Theorem pmm_hole_pages_unreachable :
  exists s, pmm_init (aget hole_mbi) 50 0 0 = Some s /\
    pmm_free_pages s = 4 /\ fst (pmm_alloc_page s) = 0.
Proof.
  assert (bool_decide (is_Some (pmm_init (aget hole_mbi) 50 0 0)) = true) as H
    by (vm_compute; reflexivity).
  exists (default pmm_reset (pmm_init (aget hole_mbi) 50 0 0)).
  split; [by destruct (pmm_init _ _ _ _)|]. split; vm_compute; reflexivity.
Qed.
