(* ===== verification/Paging.v ===== *)
(** Page-table entries and address splitting.

    The bit layout [mm/vmm.c] works with: a 32-bit virtual address is a directory
    index (10 bits), a table index (10 bits) and an offset (12 bits); a table entry
    is a page base or'ed with flags in its low 12 bits. *)
From S2P Require Import Prelude Frames.

Definition PAGE_PRESENT : Z := 1.
Definition PAGE_WRITE : Z := 2.
Definition PAGE_USER : Z := 4.
Definition PAGE_COW : Z := 512.
#[export] Hint Unfold PAGE_PRESENT PAGE_WRITE PAGE_USER PAGE_COW : kconst.

(** [x & ~0xfffu], [x & 0xfffu] *)
Definition page_base (x : Z) : Z := Z.land x 4294963200.
Definition page_off (x : Z) : Z := Z.land x 4095.

(** [virt >> 22], [(virt >> 12) & 1023u] *)
Definition dir_index (virt : Z) : Z := Z.shiftr virt 22.
Definition tab_index (virt : Z) : Z := Z.land (Z.shiftr virt 12) 1023.

(** [x & flag] as a condition *)
Definition has (x flag : Z) : bool := negb (Z.land x flag =? 0).

(** ** Lemmas *)
Lemma page_off_mod x : page_off x = x mod 4096.
Proof. exact (land_mask x 12 ltac:(lia)). Qed.

Lemma page_base_bits x n :
  0 <= n -> Z.testbit (page_base x) n = (12 <=? n) && (n <? 32) && Z.testbit x n.
Proof.
  intros Hn. unfold page_base. rewrite Z.land_spec.
  change 4294963200 with (Z.shiftl (Z.ones 20) 12). rewrite Z.shiftl_spec by lia.
  destruct (Z.leb_spec 12 n); cbn [andb].
  - destruct (Z.ltb_spec n 32).
    + rewrite Z.ones_spec_low by lia. apply andb_true_r.
    + rewrite Z.ones_spec_high by lia. apply andb_false_r.
  - rewrite (Z.testbit_neg_r _ (n - 12)) by lia. apply andb_false_r.
Qed.

Lemma page_base_div x : is_u32 x -> page_base x = x / 4096 * 4096.
Proof.
  intros Hx. replace (x / 4096 * 4096) with (Z.shiftl (Z.shiftr x 12) 12)
    by (rewrite Z.shiftl_mul_pow2, shiftr_div by lia; reflexivity).
  apply Z.bits_inj'. intros n Hn. rewrite page_base_bits, Z.shiftl_spec by lia.
  destruct (Z.leb_spec 12 n); cbn [andb].
  - rewrite Z.shiftr_spec by lia. replace (n - 12 + 12) with n by lia.
    destruct (Z.ltb_spec n 32); [done|]. simpl. symmetry. by apply (testbit_high 32).
  - by rewrite (Z.testbit_neg_r _ (n - 12)) by lia.
Qed.

Lemma page_base_aligned x : is_u32 x -> x mod 4096 = 0 -> page_base x = x.
Proof. intros Hx Hm. rewrite page_base_div by done. word_lia. Qed.

Lemma page_base_range x : is_u32 (page_base x).
Proof.
  apply (land_bound 32); lia.
Qed.

Lemma page_base_mod x : page_base x mod 4096 = 0.
Proof.
  rewrite <- page_off_mod. apply Z.bits_inj'. intros n Hn. unfold page_off.
  change 4095 with (Z.ones 12). rewrite Z.land_spec, page_base_bits, Z.bits_0 by lia.
  destruct (Z.leb_spec 12 n); [|done]. rewrite Z.ones_spec_high by lia. apply andb_false_r.
Qed.

(** A base or'ed with flags that fit the low 12 bits is their sum. *)
Lemma lor_base_flags x f : 0 <= f < 4096 -> Z.lor (page_base x) f = page_base x + f.
Proof.
  intros Hf. assert (Z.land (page_base x) f = 0) as H0.
  { apply Z.bits_inj'. intros n Hn. rewrite Z.land_spec, page_base_bits, Z.bits_0 by lia.
    destruct (Z.leb_spec 12 n); [|done]. rewrite (testbit_high 12 f n) by lia. apply andb_false_r. }
  pose proof (Z.add_lor_land (page_base x) f). lia.
Qed.

Lemma pte_base x f : 0 <= f < 4096 -> page_base (Z.lor (page_base x) f) = page_base x.
Proof.
  intros Hf. rewrite lor_base_flags by done.
  pose proof (page_base_range x). pose proof (page_base_mod x).
  rewrite (page_base_div (_ + f)) by word_lia. word_lia.
Qed.

Lemma pte_off x f : 0 <= f < 4096 -> page_off (Z.lor (page_base x) f) = f.
Proof.
  intros Hf. rewrite lor_base_flags, page_off_mod by done.
  pose proof (page_base_mod x). word_lia.
Qed.

(** Flag tests only see the low bits. *)
Lemma has_flags x f flag :
  0 <= f < 4096 -> 0 <= flag < 4096 -> has (Z.lor (page_base x) f) flag = has f flag.
Proof.
  intros Hf Hg. unfold has. do 2 f_equal. apply Z.bits_inj'. intros n Hn.
  rewrite !Z.land_spec, Z.lor_spec, page_base_bits by lia.
  destruct (Z.leb_spec 12 n); [|done].
  by rewrite (testbit_high 12 f n), (testbit_high 12 flag n), !andb_false_r by lia.
Qed.

Lemma has_lor x y flag : has (Z.lor x y) flag = has x flag || has y flag.
Proof.
  unfold has. rewrite Z.land_lor_distr_l.
  destruct (Z.eqb_spec (Z.land x flag) 0) as [->|Hx].
  - by rewrite Z.lor_0_l.
  - destruct (Z.eqb_spec (Z.lor (Z.land x flag) (Z.land y flag)) 0) as [H|]; [|done].
    apply Z.lor_eq_0_l in H. done.
Qed.

Lemma flags_lor a b : 0 <= a < 4096 -> 0 <= b < 4096 -> 0 <= Z.lor a b < 4096.
Proof. apply (lor_bound 12). lia. Qed.

Lemma dir_index_div v : dir_index v = v / 4194304.
Proof. unfold dir_index. by rewrite shiftr_div. Qed.

Lemma tab_index_mod v : tab_index v = v / 4096 mod 1024.
Proof.
  unfold tab_index. rewrite (land_mask _ 10) by lia. by rewrite shiftr_div.
Qed.

Lemma tab_index_range v : 0 <= tab_index v < 1024.
Proof. rewrite tab_index_mod. word_lia. Qed.

(** Two addresses use the same entry exactly when they lie on the same page. *)
Lemma same_entry v w :
  dir_index v = dir_index w -> tab_index v = tab_index w -> v / 4096 = w / 4096.
Proof. rewrite !dir_index_div, !tab_index_mod. word_lia. Qed.

Lemma same_page v w :
  v / 4096 = w / 4096 -> dir_index v = dir_index w /\ tab_index v = tab_index w.
Proof. rewrite !dir_index_div, !tab_index_mod. word_lia. Qed.
#[export] Hint Resolve tab_index_range page_base_range flags_lor : kernel.
