(* ===== verification/KernelMap.v ===== *)
(** The kernel's own mappings: [vmm_init], [vmm_map], [vmm_unmap] and
    [vmm_get_physical] of [mm/vmm.c].

    [kernel_tables] is an array of pointers to the static page tables; a pointer is
    modelled by the name of the table it points to, so that the aliasing of the
    source (two directory slots naming one table) is kept.  The directory holds the
    physical addresses of the tables, which the linker chooses: they are the
    argument [addr_of].  Loading [cr3]/[cr0] and [invlpg] act on the processor, not
    on this state. *)
From S2P Require Import Prelude Frames Paging.

Inductive ktable := FirstTable | HeapTable | LapicTable | IoapicTable.
#[global] Instance ktable_eq_dec : EqDecision ktable.
Proof. solve_decision. Defined.

Record kmap := mkKmap {
  kernel_directory : list Z;
  kernel_tables : list (option ktable);
  first_table : list Z;
  heap_table : list Z;
  lapic_table : list Z;
  ioapic_table : list Z;
}.

Definition table_of (k : kmap) (t : ktable) : list Z :=
  match t with
  | FirstTable => first_table k
  | HeapTable => heap_table k
  | LapicTable => lapic_table k
  | IoapicTable => ioapic_table k
  end.

Definition set_table (t : ktable) (l : list Z) (k : kmap) : kmap :=
  match t with
  | FirstTable => mkKmap (kernel_directory k) (kernel_tables k) l (heap_table k) (lapic_table k) (ioapic_table k)
  | HeapTable => mkKmap (kernel_directory k) (kernel_tables k) (first_table k) l (lapic_table k) (ioapic_table k)
  | LapicTable => mkKmap (kernel_directory k) (kernel_tables k) (first_table k) (heap_table k) l (ioapic_table k)
  | IoapicTable => mkKmap (kernel_directory k) (kernel_tables k) (first_table k) (heap_table k) (lapic_table k) l
  end.

Definition vmm_map (virt phys flags : Z) (k : kmap) : kmap :=
  match (kernel_tables k).[dir_index virt] with
  | None => k
  | Some t =>
      set_table t ((table_of k t).[tab_index virt <-
        Z.lor (page_base phys) (Z.lor flags PAGE_PRESENT)]) k
  end.

Definition vmm_unmap (virt : Z) (k : kmap) : kmap :=
  match (kernel_tables k).[dir_index virt] with
  | None => k
  | Some t => set_table t ((table_of k t).[tab_index virt <- 0]) k
  end.

Definition vmm_get_physical (virt : Z) (k : kmap) : Z :=
  match (kernel_tables k).[dir_index virt] with
  | None => 0
  | Some t =>
      let pte := (table_of k t).[tab_index virt] in
      if negb (has pte PAGE_PRESENT) then 0
      else Z.lor (page_base pte) (page_off virt)
  end.

Definition LAPIC_BASE : Z := 4276092928. (* 0xfee00000 *)
Definition IOAPIC_BASE : Z := 4273995776. (* 0xfec00000 *)
Definition HEAP_BASE : Z := 3489660928. (* 0xd0000000 *)

(** [vmm_init]: the first 4 MiB identity mapped, an empty heap table, and one table
    for both interrupt controllers. *)
Definition vmm_init (addr_of : ktable -> Z) : kmap :=
  let pde t := Z.lor (Z.lor (addr_of t) PAGE_PRESENT) PAGE_WRITE in
  let ident a := Z.lor (Z.lor a PAGE_PRESENT) PAGE_WRITE in
  let dir := (replicate 1024 0).[0 <- pde FirstTable].[dir_index HEAP_BASE <- pde HeapTable]
               .[dir_index LAPIC_BASE <- pde LapicTable].[dir_index IOAPIC_BASE <- pde LapicTable] in
  let ptrs := (replicate 1024 (@None ktable)).[0 <- Some FirstTable]
               .[dir_index HEAP_BASE <- Some HeapTable]
               .[dir_index LAPIC_BASE <- Some LapicTable]
               .[dir_index IOAPIC_BASE <- Some LapicTable] in
  let lapic := (replicate 1024 0).[tab_index LAPIC_BASE <- ident LAPIC_BASE]
               .[tab_index IOAPIC_BASE <- ident IOAPIC_BASE] in
  mkKmap dir ptrs ((fun i => ident (i * PAGE_SIZE)) <$> seqZ 0 1024)
    (replicate 1024 0) lapic (replicate 1024 0).

(** ** Invariant *)
Record kmap_ok (k : kmap) : Prop := {
  km_dir : length (kernel_directory k) = 1024%nat;
  km_ptrs : length (kernel_tables k) = 1024%nat;
  km_tables : forall t, length (table_of k t) = 1024%nat;
}.

Lemma table_of_set_eq k t l : table_of (set_table t l k) t = l.
Proof. by destruct t. Qed.
Lemma table_of_set_ne k t t' l : t <> t' -> table_of (set_table t l k) t' = table_of k t'.
Proof. by destruct t, t'. Qed.
Lemma kernel_tables_set k t l : kernel_tables (set_table t l k) = kernel_tables k.
Proof. by destruct t. Qed.
Lemma kernel_directory_set k t l : kernel_directory (set_table t l k) = kernel_directory k.
Proof. by destruct t. Qed.
#[export] Hint Rewrite table_of_set_eq kernel_tables_set kernel_directory_set : kernel.

Lemma set_table_ok k t l : kmap_ok k -> length l = 1024%nat -> kmap_ok (set_table t l k).
Proof.
  intros [H1 H2 H3] Hl. split; autorewrite with kernel; [done..|].
  intros t'. destruct (decide (t = t')) as [->|Hne].
  - by rewrite table_of_set_eq.
  - by rewrite table_of_set_ne.
Qed.

Lemma vmm_map_ok virt phys flags k : kmap_ok k -> kmap_ok (vmm_map virt phys flags k).
Proof.
  intros Hk. unfold vmm_map. case_match; [|done].
  apply set_table_ok; [done|]. by rewrite aset_length, km_tables.
Qed.

Lemma vmm_init_ok addr_of : kmap_ok (vmm_init addr_of).
Proof. split; [reflexivity..|]. by intros []. Qed.
#[export] Hint Resolve vmm_map_ok vmm_init_ok : kernel.

(** Whether the kernel has a page table for an address. *)
Definition covered (virt : Z) (k : kmap) : bool :=
  bool_decide (is_Some (kernel_tables k).[dir_index virt]).

Lemma present_lor f : has (Z.lor f PAGE_PRESENT) PAGE_PRESENT = true.
Proof. rewrite has_lor. apply orb_true_r. Qed.

Lemma vmm_map_get_same virt phys flags w k :
  kmap_ok k -> 0 <= flags < 4096 -> covered virt k = true -> w / 4096 = virt / 4096 ->
  vmm_get_physical w (vmm_map virt phys flags k) = page_base phys + w mod 4096.
Proof.
  intros Hk Hf Hc Hw. destruct (same_page _ _ Hw) as [Hd Ht].
  unfold covered in Hc. apply bool_decide_eq_true in Hc as [t Hc].
  unfold vmm_get_physical, vmm_map. rewrite Hd, Ht, Hc, kernel_tables_set, Hc.
  rewrite table_of_set_eq, aget_aset_eq by (rewrite km_tables by done; pose proof (tab_index_range virt); lia).
  assert (0 <= Z.lor flags PAGE_PRESENT < 4096) by (apply flags_lor; const_lia).
  rewrite has_flags, present_lor by const_lia. simpl.
  rewrite pte_base by done. rewrite page_off_mod, lor_base_flags by word_lia. done.
Qed.

(** A mapping of one page is invisible on every other page, unless the two directory
    slots share a table and the table index coincides. *)
Lemma vmm_map_get_other virt phys flags w k :
  kmap_ok k ->
  (kernel_tables k).[dir_index w] <> (kernel_tables k).[dir_index virt] \/
  tab_index w <> tab_index virt ->
  vmm_get_physical w (vmm_map virt phys flags k) = vmm_get_physical w k.
Proof.
  intros Hk Hne. unfold vmm_get_physical, vmm_map.
  destruct ((kernel_tables k).[dir_index virt]) as [t|] eqn:Et; [|done].
  rewrite kernel_tables_set. destruct ((kernel_tables k).[dir_index w]) as [t'|] eqn:Et'; [|done].
  destruct (decide (t = t')) as [->|Htt]; [|by rewrite table_of_set_ne].
  rewrite table_of_set_eq, aget_aset_ne; [done|apply tab_index_range..|].
  destruct Hne as [Hne|Hne]; congruence.
Qed.

(** The pointers [vmm_init] sets up; no operation changes them. *)
Definition init_pointers (k : kmap) : Prop :=
  forall di, 0 <= di < 1024 ->
    (kernel_tables k).[di] =
      if di =? 0 then Some FirstTable
      else if di =? 832 then Some HeapTable
      else if di =? 1019 then Some LapicTable else None.

Lemma vmm_init_pointers addr_of : init_pointers (vmm_init addr_of).
Proof.
  intros di Hdi. unfold vmm_init. cbn [kernel_tables].
  change (dir_index HEAP_BASE) with 832. change (dir_index LAPIC_BASE) with 1019.
  change (dir_index IOAPIC_BASE) with 1019.
  rewrite !aget_aset by (rewrite ?aset_length, ?length_replicate; lia).
  rewrite aget_replicate by lia.
  rewrite (Z.eqb_sym 1019 di), (Z.eqb_sym 832 di), (Z.eqb_sym 0 di).
  destruct (Z.eqb_spec di 1019) as [->|]; [done|].
  destruct (Z.eqb_spec di 832) as [->|]; [done|]. done.
Qed.

Lemma vmm_map_pointers virt phys flags k :
  kernel_tables (vmm_map virt phys flags k) = kernel_tables k.
Proof. unfold vmm_map. case_match; [apply kernel_tables_set|done]. Qed.

Lemma dir_index_range v : is_u32 v -> 0 <= dir_index v < 1024.
Proof. rewrite dir_index_div. word_lia. Qed.

Lemma init_pointers_inj k v w t :
  init_pointers k -> is_u32 v -> is_u32 w ->
  (kernel_tables k).[dir_index v] = Some t -> (kernel_tables k).[dir_index w] = Some t ->
  dir_index v = dir_index w.
Proof.
  intros Hp Hv Hw. rewrite !Hp by (by apply dir_index_range).
  destruct (Z.eqb_spec (dir_index v) 0), (Z.eqb_spec (dir_index w) 0),
    (Z.eqb_spec (dir_index v) 832), (Z.eqb_spec (dir_index w) 832),
    (Z.eqb_spec (dir_index v) 1019), (Z.eqb_spec (dir_index w) 1019); congruence.
Qed.

(** ** Properties *)

(** Mapping a page where the kernel has a table makes every address of that
    page translate to the frame plus its offset and changes the translation of no
    other page; where the kernel has no table the call changes nothing. *)
Theorem vmm_map_translation virt phys flags w k :
  kmap_ok k -> init_pointers k -> is_u32 virt -> is_u32 w -> 0 <= flags < 4096 ->
  vmm_get_physical w (vmm_map virt phys flags k) =
    if covered virt k && (w / 4096 =? virt / 4096)
    then page_base phys + w mod 4096 else vmm_get_physical w k.
Proof.
  intros Hk Hp Hv Hw Hf. destruct (covered virt k) eqn:Hc; simpl.
  - destruct (Z.eqb_spec (w / 4096) (virt / 4096)) as [He|Hne].
    + by apply vmm_map_get_same.
    + apply vmm_map_get_other; [done|].
      destruct (decide (tab_index w = tab_index virt)) as [Ht|]; [|by right]. left. intros Heq.
      apply bool_decide_eq_true in Hc as [t Hc]. rewrite Hc in Heq.
      apply Hne, same_entry; [|done]. by eapply init_pointers_inj.
  - unfold vmm_map, covered in *. apply bool_decide_eq_false in Hc.
    destruct ((kernel_tables k).[dir_index virt]); [|done]. exfalso. eauto.
Qed.

Lemma vmm_map_translation_witness :
  let k := vmm_init (fun _ => 1048576) in
  vmm_get_physical 3489661440 (vmm_map HEAP_BASE 4194304 2 k) = 4194816.
Proof.
  intros k. rewrite (vmm_map_translation HEAP_BASE 4194304 2 3489661440 k).
  - vm_compute. reflexivity.
  - apply vmm_init_ok.
  - apply vmm_init_pointers.
  - vm_compute. split; [discriminate|reflexivity].
  - vm_compute. split; [discriminate|reflexivity].
  - lia.
Defined.

Lemma ident_entry a v :
  is_u32 a -> a mod 4096 = 0 ->
  let pte := Z.lor (Z.lor a PAGE_PRESENT) PAGE_WRITE in
  (if negb (has pte PAGE_PRESENT) then 0 else Z.lor (page_base pte) (page_off v)) =
    a + v mod 4096.
Proof.
  intros Ha Hm pte. subst pte. rewrite <- (page_base_aligned a) by done.
  rewrite <- Z.lor_assoc. change (Z.lor PAGE_PRESENT PAGE_WRITE) with 3.
  rewrite has_flags by const_lia. cbn [negb has].
  change (has 3 PAGE_PRESENT) with true. cbn [negb].
  by rewrite pte_base, page_off_mod, lor_base_flags by word_lia.
Qed.

(** After [vmm_init] the first 4 MiB and the two interrupt-controller pages
    translate to themselves and nothing else is mapped. *)
Theorem vmm_init_identity addr_of v :
  is_u32 v ->
  vmm_get_physical v (vmm_init addr_of) =
    if (v <? 4194304) || (v / 4096 =? LAPIC_BASE / 4096) || (v / 4096 =? IOAPIC_BASE / 4096)
    then v else 0.
Proof.
  intros Hv. unfold vmm_get_physical. rewrite vmm_init_pointers by (by apply dir_index_range).
  pose proof (dir_index_div v) as Hd. pose proof (tab_index_mod v) as Ht.
  pose proof (tab_index_range v) as Hr.
  change (LAPIC_BASE / 4096) with 1043968. change (IOAPIC_BASE / 4096) with 1043456.
  unfold vmm_init. destruct (Z.eqb_spec (dir_index v) 0) as [E|E0].
  { cbn [table_of first_table]. assert ((v <? 4194304) = true) as -> by word_lia.
    rewrite aget_fmap_seqZ, Z.add_0_l by lia.
    rewrite ident_entry by word_lia. cbn [orb]. word_lia. }
  assert ((v <? 4194304) = false) as -> by word_lia.
  destruct (Z.eqb_spec (dir_index v) 832) as [E|E1].
  { cbn [table_of heap_table]. rewrite aget_replicate by lia.
    assert ((v / 4096 =? 1043968) = false) as -> by word_lia.
    assert ((v / 4096 =? 1043456) = false) as -> by word_lia. done. }
  destruct (Z.eqb_spec (dir_index v) 1019) as [E|E2].
  2: { assert ((v / 4096 =? 1043968) = false) as -> by word_lia.
    assert ((v / 4096 =? 1043456) = false) as -> by word_lia. done. }
  cbn [table_of lapic_table orb].
  change (tab_index LAPIC_BASE) with 512. change (tab_index IOAPIC_BASE) with 0.
  rewrite !aget_aset by (rewrite ?aset_length, ?length_replicate; lia).
  destruct (Z.eqb_spec 0 (tab_index v)) as [T|T].
  { rewrite ident_entry by (vm_compute; done).
    assert ((v / 4096 =? 1043968) = false) as -> by word_lia.
    assert ((v / 4096 =? 1043456) = true) as -> by word_lia. cbn [orb].
    change IOAPIC_BASE with 4273995776. word_lia. }
  destruct (Z.eqb_spec 512 (tab_index v)) as [T'|T'].
  { rewrite ident_entry by (vm_compute; done).
    assert ((v / 4096 =? 1043968) = true) as -> by word_lia. cbn [orb].
    change LAPIC_BASE with 4276092928. word_lia. }
  rewrite aget_replicate by lia.
  assert ((v / 4096 =? 1043968) = false) as -> by word_lia.
  assert ((v / 4096 =? 1043456) = false) as -> by word_lia. done.
Qed.

Lemma vmm_init_identity_witness :
  vmm_get_physical 1193046 (vmm_init (fun _ => 1048576)) = 1193046.
Proof.
  rewrite vmm_init_identity by (vm_compute; split; [discriminate|reflexivity]).
  vm_compute. reflexivity.
Defined.
