(* ===== verification/Heap.v ===== *)
(** The kernel heap, [mm/heap.c].

    A block header is kept at its address in [hdrs]; merging leaves the absorbed
    header in memory, as the source does, so a stale pointer still finds it.
    Payload bytes are in [payload].  Memory that never held a header reads as a
    header without the magic number.  [grow] takes frames through the
    [FrameAllocator] contract and maps them with [vmm_map]; a header written to an
    address that is still unmapped afterwards is a page fault, which panics. *)
From S2P Require Import Prelude Frames Pmm Paging KernelMap.

(** ** Data *)
Definition HEAP_BYTES : Z := 1048576.
Definition HEAP_MAGIC : Z := 3283200487. (* 0xc3b1a9e7 *)
Definition HEAP_VIRT_START : Z := 3489660928. (* 0xd0000000 *)
Definition SIZEOF_BLOCK : Z := 16.
#[export] Hint Unfold HEAP_BYTES HEAP_MAGIC HEAP_VIRT_START SIZEOF_BLOCK : kconst.

Record block_t := mkBlock { size : Z; free : bool; magic : Z; next : Z }.
#[global] Instance block_inhabited : Inhabited block_t := populate (mkBlock 0 false 0 0).

Record heap := mkHeap {
  hdrs : gmap Z block_t;
  payload : gmap Z Z;
  head : Z;
  heap_virt_top : Z;
}.

Definition hdr (h : heap) (b : Z) : block_t := hdrs h !!! b.
Definition with_hdrs (m : gmap Z block_t) (h : heap) : heap :=
  mkHeap m (payload h) (head h) (heap_virt_top h).
Definition set_hdr (b : Z) (v : block_t) (h : heap) : heap := with_hdrs (<[b := v]> (hdrs h)) h.

(** ** Operations on the block list *)
Definition split (b n : Z) (h : heap) : heap :=
  let bl := hdr h b in
  if u32 (n + SIZEOF_BLOCK + 8) <=? size bl then
    let r := b + SIZEOF_BLOCK + n in
    let h := set_hdr r (mkBlock (u32 (size bl - n - SIZEOF_BLOCK)) true HEAP_MAGIC (next bl)) h in
    set_hdr b (mkBlock n (free bl) (magic bl) r) h
  else h.

(** [for (b = head; b && b->next; )]: absorb the successor or step over it. *)
Fixpoint merge_loop (fuel : nat) (b : Z) (h : heap) : heap :=
  match fuel with
  | O => h
  | S fuel' =>
      if (b =? 0) || (next (hdr h b) =? 0) then h
      else
        let bl := hdr h b in
        let nx := hdr h (next bl) in
        if free bl && free nx then
          merge_loop fuel' b
            (set_hdr b (mkBlock (u32 (size bl + SIZEOF_BLOCK + size nx)) (free bl) (magic bl) (next nx)) h)
        else merge_loop fuel' (next bl) h
  end.
Definition merge (h : heap) : heap := merge_loop (S (base.size (hdrs h))) (head h) h.

(** [for (b = head; b; b = b->next) if (b->free && b->size >= n)] *)
Fixpoint find_fit (fuel : nat) (h : heap) (b n : Z) : option Z :=
  match fuel with
  | O => None
  | S fuel' =>
      if b =? 0 then None
      else if free (hdr h b) && (n <=? size (hdr h b)) then Some b
      else find_fit fuel' h (next (hdr h b)) n
  end.

(** [while (t->next) t = t->next] *)
Fixpoint last_block (fuel : nat) (h : heap) (t : Z) : Z :=
  match fuel with
  | O => t
  | S fuel' => if next (hdr h t) =? 0 then t else last_block fuel' h (next (hdr h t))
  end.

Definition heap_init (heap_area : Z) (h : heap) : heap :=
  mkHeap (<[heap_area := mkBlock (HEAP_BYTES - SIZEOF_BLOCK) true HEAP_MAGIC 0]> (hdrs h))
    (payload h) heap_area (heap_virt_top h).

(** ** Allocation *)
Section alloc.
Context {S : Type} `{FrameAllocator S}.
(** The address the linker gives [heap_area]. *)
Variable heap_area : Z.

Record hstate := mkH { hp : heap; km : kmap; fr : S }.
Definition on_heap (f : heap -> heap) (s : hstate) : hstate := mkH (f (hp s)) (km s) (fr s).

Definition grow (s : hstate) : outcome hstate Z :=
  let '(page, fr') := alloc_page (fr s) in
  if page =? 0 then Done (-1) (mkH (hp s) (km s) fr')
  else
    let n := heap_virt_top (hp s) in
    let km' := vmm_map n page 2 (km s) in
    if vmm_get_physical n km' =? 0
    then Panicked "unhandled page fault" (mkH (hp s) km' fr')
    else
      let h := set_hdr n (mkBlock (PAGE_SIZE - SIZEOF_BLOCK) true HEAP_MAGIC 0) (hp s) in
      let h := mkHeap (hdrs h) (payload h) (head h) (u32 (n + PAGE_SIZE)) in
      let h :=
        if head h =? 0 then mkHeap (hdrs h) (payload h) n (heap_virt_top h)
        else
          let t := last_block (base.size (hdrs h)) h (head h) in
          set_hdr t (mkBlock (size (hdr h t)) (free (hdr h t)) (magic (hdr h t)) n) h in
      Done 0 (mkH h km' fr').

(** Take block [b] for a request of [n] bytes. *)
Definition take_block (b n : Z) (h : heap) : heap :=
  let h := split b n h in
  set_hdr b (mkBlock (size (hdr h b)) false (magic (hdr h b)) (next (hdr h b))) h.

(** The [for (;;)] of [kmalloc]; [None] = not finished within the fuel. *)
Fixpoint kmalloc_loop (fuel : nat) (n : Z) (s : hstate) : option (outcome hstate Z) :=
  match fuel with
  | O => None
  | Datatypes.S fuel' =>
      match find_fit (Datatypes.S (base.size (hdrs (hp s)))) (hp s) (head (hp s)) n with
      | Some b => Some (Done (b + SIZEOF_BLOCK) (on_heap (take_block b n) s))
      | None =>
          match grow s with
          | Panicked msg s' => Some (Panicked msg s')
          | Done rc s' => if rc =? 0 then kmalloc_loop fuel' n s' else Some (Done 0 s')
          end
      end
  end.

(** [(n + 7u) & ~7u] *)
Definition round8 (n : Z) : Z := Z.land (u32 (n + 7)) 4294967288.

Definition kmalloc (fuel : nat) (n : Z) (s : hstate) : option (outcome hstate Z) :=
  let s := if head (hp s) =? 0 then on_heap (heap_init heap_area) s else s in
  if n =? 0 then Some (Done 0 s) else kmalloc_loop fuel (round8 n) s.

Definition kfree_heap (p : Z) (h : heap) : heap :=
  if p =? 0 then h
  else
    let b := p - SIZEOF_BLOCK in
    let bl := hdr h b in
    if (magic bl =? HEAP_MAGIC) && negb (free bl)
    then merge (set_hdr b (mkBlock (size bl) true (magic bl) (next bl)) h)
    else h.
Definition kfree (p : Z) (s : hstate) : hstate := on_heap (kfree_heap p) s.

Definition copy_bytes (d s0 n : Z) (m : gmap Z Z) : gmap Z Z :=
  for_range 0 n (fun i m => <[d + i := m !!! (s0 + i)]> m) m.

Definition krealloc (fuel : nat) (p n : Z) (s : hstate) : option (outcome hstate Z) :=
  if p =? 0 then kmalloc fuel n s
  else if n =? 0 then Some (Done 0 (kfree p s))
  else
    let b := p - SIZEOF_BLOCK in
    let bl := hdr (hp s) b in
    if negb (magic bl =? HEAP_MAGIC) || free bl then Some (Done 0 s)
    else if n <=? size bl then Some (Done p (on_heap (split b n) s))
    else
      match kmalloc fuel n s with
      | None => None
      | Some (Panicked msg s') => Some (Panicked msg s')
      | Some (Done q s') =>
          if q =? 0 then Some (Done 0 s')
          else
            let copied h := mkHeap (hdrs h) (copy_bytes q p (size (hdr h b)) (payload h))
                              (head h) (heap_virt_top h) in
            Some (Done q (kfree p (on_heap copied s')))
      end.
End alloc.
Arguments hstate S : clear implicits.
Arguments mkH {S} hp km fr.
Arguments take_block : simpl never.
Arguments split : simpl never.

(** ** Abstract heap

    The heap as a sequence of (size, free) blocks laid out back to back; addresses
    follow from the sizes. *)
Abbreviation ablock := (Z * bool)%type (only parsing).

Fixpoint end_of (a : Z) (l : list ablock) : Z :=
  match l with
  | [] => a
  | (sz, _) :: l' => end_of (a + SIZEOF_BLOCK + sz) l'
  end.

Fixpoint first_fit (a n : Z) (l : list ablock) : option Z :=
  match l with
  | [] => None
  | (sz, fr) :: l' => if fr && (n <=? sz) then Some a else first_fit (a + SIZEOF_BLOCK + sz) n l'
  end.

Definition carve (n sz : Z) : list ablock :=
  if n + SIZEOF_BLOCK + 8 <=? sz then [(n, false); (sz - n - SIZEOF_BLOCK, true)] else [(sz, false)].

Fixpoint a_take (n : Z) (l : list ablock) : list ablock :=
  match l with
  | [] => []
  | (sz, fr) :: l' => if fr && (n <=? sz) then carve n sz ++ l' else (sz, fr) :: a_take n l'
  end.

Fixpoint coalesce (sz : Z) (fr : bool) (l : list ablock) : list ablock :=
  match l with
  | [] => [(sz, fr)]
  | (sz', fr') :: l' =>
      if fr && fr' then coalesce (sz + SIZEOF_BLOCK + sz') fr l'
      else (sz, fr) :: coalesce sz' fr' l'
  end.
Definition a_merge (l : list ablock) : list ablock :=
  match l with [] => [] | (sz, fr) :: l' => coalesce sz fr l' end.

Fixpoint a_mark (a b : Z) (l : list ablock) : list ablock :=
  match l with
  | [] => []
  | (sz, fr) :: l' =>
      if a =? b then (sz, true) :: l' else (sz, fr) :: a_mark (a + SIZEOF_BLOCK + sz) b l'
  end.

(** The allocated blocks: address of the payload and its size. *)
Fixpoint live (a : Z) (l : list ablock) : list (Z * Z) :=
  match l with
  | [] => []
  | (sz, fr) :: l' =>
      (if fr then [] else [(a + SIZEOF_BLOCK, sz)]) ++ live (a + SIZEOF_BLOCK + sz) l'
  end.

Definition sizes_ok (l : list ablock) : Prop := Forall (fun b => 0 <= b.1 /\ b.1 mod 8 = 0) l.

(** The block list in memory is [l], starting at [a]. *)
Definition link (a sz : Z) (l : list ablock) : Z :=
  match l with [] => 0 | _ => a + SIZEOF_BLOCK + sz end.
Fixpoint rep (m : gmap Z block_t) (a : Z) (l : list ablock) : Prop :=
  match l with
  | [] => True
  | (sz, fr) :: l' =>
      m !! a = Some (mkBlock sz fr HEAP_MAGIC (link a sz l')) /\ rep m (a + SIZEOF_BLOCK + sz) l'
  end.

Record heap_rep (h : heap) (l : list ablock) : Prop := {
  hr_nonempty : l <> [];
  hr_head : 0 < head h /\ head h mod 8 = 0;
  hr_rep : rep (hdrs h) (head h) l;
  hr_sizes : sizes_ok l;
  hr_end : end_of (head h) l < 4294967296;
}.

(** ** Layout lemmas *)
Lemma sizes_cons sz fr l : sizes_ok ((sz, fr) :: l) -> (0 <= sz /\ sz mod 8 = 0) /\ sizes_ok l.
Proof. intros Hs. by apply Forall_cons in Hs. Qed.

Lemma end_of_ge a l : sizes_ok l -> a <= end_of a l.
Proof.
  revert a. induction l as [|[sz fr] l IH]; intros a Hs; simpl; [lia|].
  apply sizes_cons in Hs as [[? ?] Hs]. specialize (IH (a + SIZEOF_BLOCK + sz) Hs). const_lia.
Qed.

Lemma end_of_app a l1 l2 : end_of a (l1 ++ l2) = end_of (end_of a l1) l2.
Proof. revert a. induction l1 as [|[sz fr] l1 IH]; intros a; simpl; [done|apply IH]. Qed.

Lemma rep_frame m m' a l :
  sizes_ok l -> (forall x, a <= x < end_of a l -> m' !! x = m !! x) -> rep m a l -> rep m' a l.
Proof.
  revert a. induction l as [|[sz fr] l IH]; intros a Hs Hm; simpl; [done|].
  apply sizes_cons in Hs as [[? ?] Hs]. pose proof (end_of_ge (a + SIZEOF_BLOCK + sz) l Hs).
  simpl in Hm. intros [Ha Hr]. split; [rewrite Hm; [done|const_lia]|].
  apply IH; [done| |done]. intros x Hx. apply Hm. const_lia.
Qed.

Lemma rep_length m a l : sizes_ok l -> rep m a l -> (length l <= base.size m)%nat.
Proof.
  revert m a. induction l as [|[sz fr] l IH]; intros m a Hs; simpl; [lia|].
  apply sizes_cons in Hs as [[? ?] Hs]. intros [Ha Hr].
  assert (length l <= base.size (delete a m))%nat as Hle.
  { apply (IH _ (a + SIZEOF_BLOCK + sz)); [done|]. eapply rep_frame; [done| |done].
    intros x Hx. apply lookup_delete_ne. const_lia. }
  rewrite map_size_delete_Some in Hle by eauto.
  assert (base.size m <> 0%nat); [|lia]. intros Hz. apply map_size_empty_inv in Hz. subst m.
  by rewrite lookup_empty in Ha.
Qed.

Lemma hdr_lookup h b bl : hdrs h !! b = Some bl -> hdr h b = bl.
Proof. unfold hdr. apply lookup_total_correct. Qed.

(** ** The search loop *)
Lemma find_fit_spec fuel h a n l :
  sizes_ok l -> 0 < a -> rep (hdrs h) a l -> (length l < fuel)%nat ->
  find_fit fuel h (match l with [] => 0 | _ => a end) n = first_fit a n l.
Proof.
  revert a l. induction fuel as [|fuel IH]; intros a l Hs Ha Hr Hf; [lia|].
  destruct l as [|[sz fr] l]; [done|]. simpl. simpl in Hf.
  destruct Hr as [Hb Hr]. rewrite (hdr_lookup _ _ _ Hb). simpl.
  assert ((a =? 0) = false) as -> by lia. case_match; [done|].
  apply sizes_cons in Hs as [[? ?] Hs]. apply (IH (a + SIZEOF_BLOCK + sz)); [done|const_lia|done|lia].
Qed.

Lemma first_fit_range a n l b :
  sizes_ok l -> first_fit a n l = Some b -> a <= b < end_of a l.
Proof.
  revert a. induction l as [|[sz fr] l IH]; intros a Hs; simpl; [done|].
  apply sizes_cons in Hs as [[? ?] Hs]. pose proof (end_of_ge (a + SIZEOF_BLOCK + sz) l Hs).
  case_match; [intros [= <-]; const_lia|]. intros Hf. specialize (IH _ Hs Hf). const_lia.
Qed.

(** ** Taking a block *)
Lemma carve_nonempty n sz : carve n sz <> [].
Proof. unfold carve. by case_match. Qed.

Lemma a_take_nonempty n l : l <> [] -> a_take n l <> [].
Proof.
  destruct l as [|[sz fr] l]; [done|]. intros _. simpl. case_match; [|done].
  pose proof (carve_nonempty n sz). by destruct (carve n sz).
Qed.

Lemma a_take_sizes n l : 0 <= n -> n mod 8 = 0 -> sizes_ok l -> sizes_ok (a_take n l).
Proof.
  intros Hn Hm. induction l as [|[sz fr] l IH]; intros Hs; simpl; [done|].
  apply sizes_cons in Hs as [Hsz Hs]. case_match.
  - apply Forall_app. split; [|done]. unfold carve. case_match.
    + repeat constructor; simpl; word_lia.
    + repeat constructor; simpl; lia.
  - constructor; [done|by apply IH].
Qed.

Lemma a_take_end a n l : end_of a (a_take n l) = end_of a l.
Proof.
  revert a. induction l as [|[sz fr] l IH]; intros a; simpl; [done|].
  case_match; [|apply IH]. unfold carve. case_match; simpl; [|done]. f_equal. lia.
Qed.

Lemma link_take a sz n l : link a sz (a_take n l) = link a sz l.
Proof.
  destruct l as [|b l]; [done|]. pose proof (a_take_nonempty n (b :: l) ltac:(done)).
  unfold link. destruct (a_take n (b :: l)) eqn:E; [congruence|done].
Qed.

Lemma take_block_local h b n sz fr nx :
  hdrs h !! b = Some (mkBlock sz fr HEAP_MAGIC nx) -> 0 <= n <= sz -> sz < 4294967272 ->
  hdrs (take_block b n h) =
    if n + SIZEOF_BLOCK + 8 <=? sz
    then <[b := mkBlock n false HEAP_MAGIC (b + SIZEOF_BLOCK + n)]>
           (<[b + SIZEOF_BLOCK + n := mkBlock (sz - n - SIZEOF_BLOCK) true HEAP_MAGIC nx]> (hdrs h))
    else <[b := mkBlock sz false HEAP_MAGIC nx]> (hdrs h).
Proof.
  intros Hb Hn Hsz. unfold take_block, split. rewrite (hdr_lookup _ _ _ Hb).
  cbn [size free magic next]. rewrite u32_small by word_lia. case_match.
  - rewrite (u32_small (sz - n - SIZEOF_BLOCK)) by word_lia.
    rewrite (hdr_lookup _ b (mkBlock n fr HEAP_MAGIC (b + SIZEOF_BLOCK + n))).
    + simpl. apply insert_insert_eq.
    + simpl. apply lookup_insert_eq.
  - by rewrite (hdr_lookup _ _ _ Hb).
Qed.

Lemma take_block_rep h a n l b :
  sizes_ok l -> 0 < a -> end_of a l < 4294967296 -> a mod 8 = 0 -> 0 <= n -> n mod 8 = 0 ->
  rep (hdrs h) a l -> first_fit a n l = Some b ->
  rep (hdrs (take_block b n h)) a (a_take n l) /\
  (forall x, ~ (a <= x < end_of a l) -> hdrs (take_block b n h) !! x = hdrs h !! x).
Proof.
  revert a. induction l as [|[sz fr] l IH]; intros a Hs Ha He Ha8 Hn Hn8 Hr Hf; [done|].
  apply sizes_cons in Hs as [[? ?] Hs]. pose proof (end_of_ge (a + SIZEOF_BLOCK + sz) l Hs) as Hge.
  cbn [end_of first_fit rep a_take] in *. destruct Hr as [Hb Hr].
  destruct (fr && (n <=? sz)) eqn:Hfit.
  - injection Hf as <-. rewrite (take_block_local _ _ _ _ _ _ Hb) by word_lia.
    unfold carve. case_match; cbn [app rep].
    + split.
      * rewrite lookup_insert_eq. split; [done|].
        rewrite lookup_insert_ne, lookup_insert_eq by const_lia. split.
        { do 2 f_equal. unfold link. destruct l; [done|lia]. }
        replace (a + SIZEOF_BLOCK + n + SIZEOF_BLOCK + (sz - n - SIZEOF_BLOCK))
          with (a + SIZEOF_BLOCK + sz) by lia.
        eapply rep_frame; [done| |done]. intros x Hx. by rewrite !lookup_insert_ne by const_lia.
      * intros x Hx. by rewrite !lookup_insert_ne by const_lia.
    + split.
      * rewrite lookup_insert_eq. split; [done|].
        eapply rep_frame; [done| |done]. intros x Hx. by rewrite !lookup_insert_ne by const_lia.
      * intros x Hx. by rewrite !lookup_insert_ne by const_lia.
  - destruct (IH (a + SIZEOF_BLOCK + sz)) as [IH1 IH2]; try done; try word_lia.
    cbn [rep]. split.
    + split; [|done]. rewrite IH2, link_take by const_lia. done.
    + intros x Hx. apply IH2. const_lia.
Qed.

Lemma a_take_live a n l b :
  first_fit a n l = Some b ->
  exists sz l1 l2, n <= sz /\ live a l = l1 ++ l2 /\
    live a (a_take n l) = l1 ++ (b + SIZEOF_BLOCK, sz) :: l2.
Proof.
  revert a. induction l as [|[sz fr] l IH]; intros a Hf; simpl in *; [done|].
  destruct (fr && (n <=? sz)) eqn:Hfit.
  - injection Hf as <-. apply andb_true_iff in Hfit as [-> Hle].
    unfold carve. case_match; simpl.
    + eexists n, [], _. split_and!; [lia|done|].
      by replace (a + SIZEOF_BLOCK + n + SIZEOF_BLOCK + (sz - n - SIZEOF_BLOCK))
        with (a + SIZEOF_BLOCK + sz) by lia.
    + eexists sz, [], _. split_and!; [lia|done|done].
  - destruct (IH _ Hf) as (sz' & l1 & l2 & Hle & H1 & H2). simpl.
    eexists sz', ((if fr then [] else [(a + SIZEOF_BLOCK, sz)]) ++ l1), l2.
    rewrite H1, H2, <- !app_assoc. done.
Qed.

(** Allocated blocks lie inside the heap, are 8-byte aligned and do not overlap. *)
Lemma live_bounds a l p sz :
  sizes_ok l -> a mod 8 = 0 -> (p, sz) ∈ live a l ->
  a + SIZEOF_BLOCK <= p /\ p + sz <= end_of a l /\ p mod 8 = 0.
Proof.
  revert a. induction l as [|[s fr] l IH]; intros a Hs Ha Hin; simpl in *; [set_solver|].
  apply sizes_cons in Hs as [[? ?] Hs]. pose proof (end_of_ge (a + SIZEOF_BLOCK + s) l Hs) as Hge.
  apply elem_of_app in Hin as [Hin|Hin].
  - destruct fr; [set_solver|]. apply list_elem_of_singleton in Hin as [= -> ->]. word_lia.
  - apply IH in Hin; [const_lia|done|word_lia].
Qed.

Lemma live_size_nonneg a l p sz : sizes_ok l -> (p, sz) ∈ live a l -> 0 <= sz.
Proof.
  revert a. induction l as [|[s fr] l IH]; intros a Hs; simpl; [set_solver|].
  apply sizes_cons in Hs as [[? ?] Hs]. rewrite elem_of_app. intros [Hin|Hin]; [|by eapply IH].
  destruct fr; [set_solver|]. by apply list_elem_of_singleton in Hin as [= -> ->].
Qed.

Definition disjoint_spans (x y : Z * Z) : Prop := x.1 + x.2 <= y.1 \/ y.1 + y.2 <= x.1.

Lemma live_disjoint a l :
  sizes_ok l -> a mod 8 = 0 ->
  forall i j x y, live a l !! i = Some x -> live a l !! j = Some y -> i <> j ->
    disjoint_spans x y.
Proof.
  intros Hs Ha.
  assert (forall i j x y, live a l !! i = Some x -> live a l !! j = Some y -> (i < j)%nat ->
    x.1 + x.2 <= y.1) as Hlt.
  { revert a Ha. induction l as [|[s fr] l IH]; intros a Ha i j x y; simpl; [done|].
    apply sizes_cons in Hs as [[? ?] Hs].
    assert ((a + SIZEOF_BLOCK + s) mod 8 = 0) as Ha' by word_lia.
    destruct fr; simpl; [by apply IH|].
    destruct j as [|j]; [lia|]. destruct i as [|i]; simpl.
    - intros [= <-] Hy _. apply list_elem_of_lookup_2 in Hy. destruct y as [p sz].
      apply live_bounds in Hy; [simpl; const_lia|done..].
    - intros Hx Hy Hij. eapply IH; [done..|lia]. }
  intros i j x y Hx Hy Hij. destruct (decide (i < j)%nat) as [Hl|Hl].
  - left. by eapply Hlt.
  - right. eapply Hlt; [done..|lia].
Qed.

(** ** Merging *)
Lemma coalesce_props a sz fr l :
  sizes_ok ((sz, fr) :: l) ->
  coalesce sz fr l <> [] /\ sizes_ok (coalesce sz fr l) /\
  end_of a (coalesce sz fr l) = end_of a ((sz, fr) :: l) /\
  live a (coalesce sz fr l) = live a ((sz, fr) :: l).
Proof.
  revert a sz fr. induction l as [|[sz' fr'] l IH]; intros a sz fr Hs; [done|].
  pose proof Hs as Hs0.
  apply sizes_cons in Hs as [Hsz Hs]. pose proof Hs as Hs'. apply sizes_cons in Hs' as [Hsz' Hs'].
  cbn [coalesce]. destruct (fr && fr') eqn:E.
  - apply andb_true_iff in E as [-> ->].
    destruct (IH a (sz + SIZEOF_BLOCK + sz') true) as (H1 & H2 & H3 & H4).
    { constructor; [simpl; word_lia|done]. }
    split_and!; [done..| |]; rewrite ?H3, ?H4; simpl;
      by replace (a + SIZEOF_BLOCK + (sz + SIZEOF_BLOCK + sz'))
        with (a + SIZEOF_BLOCK + sz + SIZEOF_BLOCK + sz') by lia.
  - destruct (IH (a + SIZEOF_BLOCK + sz) sz' fr') as (H1 & H2 & H3 & H4); [done|].
    split_and!; [done|by constructor| |]; simpl end_of; simpl live; [by rewrite H3|by rewrite H4].
Qed.

(** No two neighbours are both free. *)
Fixpoint coalesced (l : list ablock) : Prop :=
  match l with
  | (_, fr) :: (((_, fr') :: _) as l') => fr && fr' = false /\ coalesced l'
  | _ => True
  end.

Lemma coalesce_head sz fr l : exists sz' l', coalesce sz fr l = (sz', fr) :: l'.
Proof.
  revert sz. induction l as [|[sz2 fr2] l IH]; intros sz; simpl; [eauto|].
  destruct (fr && fr2); [apply IH|eauto].
Qed.

Lemma coalesce_coalesced sz fr l : coalesced (coalesce sz fr l).
Proof.
  revert sz fr. induction l as [|[sz2 fr2] l IH]; intros sz fr; simpl; [done|].
  destruct (fr && fr2) eqn:E; [apply IH|].
  destruct (coalesce_head sz2 fr2 l) as (sz' & l' & He). specialize (IH sz2 fr2).
  rewrite He in *. by split.
Qed.

Lemma coalesced_id sz fr l : coalesced ((sz, fr) :: l) -> coalesce sz fr l = (sz, fr) :: l.
Proof.
  revert sz fr. induction l as [|[sz2 fr2] l IH]; intros sz fr; simpl; [done|].
  intros [-> Hc]. f_equal. by apply IH.
Qed.

Lemma link_cons a sz l : l <> [] -> link a sz l = a + SIZEOF_BLOCK + sz.
Proof. by destruct l. Qed.

Lemma merge_loop_spec fuel h b sz fr l :
  sizes_ok ((sz, fr) :: l) -> 0 < b -> end_of b ((sz, fr) :: l) < 4294967296 ->
  rep (hdrs h) b ((sz, fr) :: l) -> (length l < fuel)%nat ->
  let h' := merge_loop fuel b h in
  rep (hdrs h') b (coalesce sz fr l) /\
  (forall x, ~ (b <= x < end_of b ((sz, fr) :: l)) -> hdrs h' !! x = hdrs h !! x) /\
  head h' = head h.
Proof.
  revert h b sz fr l. induction fuel as [|fuel IH]; intros h b sz fr l Hs Hb He Hr Hf; [lia|].
  cbn [merge_loop]. destruct Hr as [Hhb Hr]. rewrite (hdr_lookup _ _ _ Hhb). cbn [next].
  assert ((b =? 0) = false) as -> by lia. destruct l as [|[sz' fr'] l]; [by simpl|].
  pose proof Hs as Hs0. apply sizes_cons in Hs as [Hsz Hs].
  pose proof Hs as Hs'. apply sizes_cons in Hs' as [Hsz' Hs'].
  pose proof (end_of_ge (b + SIZEOF_BLOCK + sz + SIZEOF_BLOCK + sz') l Hs') as Hge.
  cbn [end_of] in He.
  change (link b sz ((sz', fr') :: l)) with (b + SIZEOF_BLOCK + sz). assert ((b + SIZEOF_BLOCK + sz =? 0) = false) as -> by const_lia.
  cbn [orb link]. destruct Hr as [Hhn Hr]. rewrite (hdr_lookup _ _ _ Hhn). cbn [free size next coalesce magic].
  destruct (fr && fr') eqn:E.
  - rewrite u32_small by word_lia.
    edestruct (IH (set_hdr b (mkBlock (sz + SIZEOF_BLOCK + sz') fr HEAP_MAGIC
      (link (b + SIZEOF_BLOCK + sz) sz' l)) h) b (sz + SIZEOF_BLOCK + sz') fr l) as (H1 & H2 & H3).
    + constructor; [simpl; word_lia|done].
    + done.
    + simpl. by replace (b + SIZEOF_BLOCK + (sz + SIZEOF_BLOCK + sz'))
        with (b + SIZEOF_BLOCK + sz + SIZEOF_BLOCK + sz') by lia.
    + cbn [rep]. unfold set_hdr, with_hdrs. cbn [hdrs]. rewrite lookup_insert_eq.
      replace (b + SIZEOF_BLOCK + (sz + SIZEOF_BLOCK + sz'))
        with (b + SIZEOF_BLOCK + sz + SIZEOF_BLOCK + sz') by lia.
      split; [do 2 f_equal; unfold link; destruct l; [done|lia]|].
      eapply rep_frame; [done| |done]. intros x Hx. by rewrite lookup_insert_ne by const_lia.
    + simpl in Hf. lia.
    + split_and!; [exact H1| |exact H3]. intros x Hx. rewrite H2.
      * unfold set_hdr, with_hdrs. cbn [hdrs]. rewrite lookup_insert_ne; [done|].
        cbn [end_of] in Hx. const_lia.
      * intros Hx'. apply Hx. cbn [end_of] in *.
        by replace (b + SIZEOF_BLOCK + (sz + SIZEOF_BLOCK + sz'))
          with (b + SIZEOF_BLOCK + sz + SIZEOF_BLOCK + sz') in Hx' by lia.
  - edestruct (IH h (b + SIZEOF_BLOCK + sz) sz' fr' l) as (H1 & H2 & H3);
      [done|const_lia|done|done|simpl in Hf; lia|].
    split_and!; [|intros x Hx; apply H2; cbn [end_of] in *; const_lia|done].
    cbn [rep]. split; [|done]. rewrite H2 by const_lia. rewrite Hhb. do 2 f_equal.
    destruct (coalesce_props b sz' fr' l Hs) as [Hne _]. by rewrite !link_cons.
Qed.

(** Merging never changes the [free] and [magic] fields of a header, absorbed or not. *)
Lemma merge_loop_flags fuel h b x :
  let bl := hdr h x in let bl' := hdr (merge_loop fuel b h) x in
  free bl' = free bl /\ magic bl' = magic bl.
Proof.
  revert h b. induction fuel as [|fuel IH]; intros h b; [done|]. cbn [merge_loop].
  case_match; [done|]. case_match; [|apply IH].
  match goal with |- context [merge_loop fuel b ?h1] => destruct (IH h1 b) as [-> ->] end.
  unfold hdr, set_hdr, with_hdrs. cbn [hdrs].
  destruct (decide (x = b)) as [->|Hne].
  - by rewrite lookup_total_insert_eq.
  - by rewrite lookup_total_insert_ne.
Qed.

(** ** Releasing a block *)
Lemma live_lookup m a l p sz :
  sizes_ok l -> rep m a l -> (p, sz) ∈ live a l ->
  exists nx, m !! (p - SIZEOF_BLOCK) = Some (mkBlock sz false HEAP_MAGIC nx).
Proof.
  revert a. induction l as [|[s fr] l IH]; intros a Hs Hr Hin; simpl in *; [set_solver|].
  apply sizes_cons in Hs as [[? ?] Hs]. destruct Hr as [Hb Hr].
  apply elem_of_app in Hin as [Hin|Hin]; [|by eapply IH].
  destruct fr; [set_solver|]. apply list_elem_of_singleton in Hin as [= -> ->].
  replace (a + SIZEOF_BLOCK - SIZEOF_BLOCK) with a by lia. eauto.
Qed.

Lemma a_mark_props a b l :
  sizes_ok l -> sizes_ok (a_mark a b l) /\ end_of a (a_mark a b l) = end_of a l /\
  length (a_mark a b l) = length l.
Proof.
  revert a. induction l as [|[s fr] l IH]; intros a Hs; simpl; [done|].
  apply sizes_cons in Hs as [Hsz Hs]. case_match; simpl.
  - split_and!; [by constructor|done..].
  - destruct (IH (a + SIZEOF_BLOCK + s) Hs) as (H1 & H2 & H3).
    split_and!; [by constructor|done|by f_equal].
Qed.

Lemma mark_rep h a l b bl :
  sizes_ok l -> rep (hdrs h) a l -> hdrs h !! b = Some bl ->
  (exists p sz, (p, sz) ∈ live a l /\ b = p - SIZEOF_BLOCK) ->
  rep (hdrs (set_hdr b (mkBlock (size bl) true (magic bl) (next bl)) h)) a (a_mark a b l).
Proof.
  revert a. induction l as [|[s fr] l IH]; intros a Hs Hr Hb (p & sz & Hin & Hp); simpl in *; [done|].
  apply sizes_cons in Hs as [[? ?] Hs]. destruct Hr as [Ha Hr].
  destruct (Z.eqb_spec a b) as [->|Hne]; simpl.
  - rewrite Ha in Hb. injection Hb as <-. rewrite lookup_insert_eq. split; [done|].
    eapply rep_frame; [done| |done]. intros x Hx. by rewrite lookup_insert_ne by const_lia.
  - rewrite lookup_insert_ne, Ha by done. split.
    + do 2 f_equal. destruct l as [|[sz' fr'] l]; [done|]. cbn [a_mark].
      destruct (_ =? b); done.
    + apply IH; [done..|]. exists p, sz. split; [|done].
      apply elem_of_app in Hin as [Hin|Hin]; [|done]. destruct fr; [set_solver|].
      apply list_elem_of_singleton in Hin as [= -> ->]. lia.
Qed.

Lemma a_mark_live a b l :
  sizes_ok l -> live a (a_mark a b l) = List.filter (fun x => negb (x.1 =? b + SIZEOF_BLOCK)) (live a l).
Proof.
  revert a. induction l as [|[s fr] l IH]; intros a Hs; simpl; [done|].
  apply sizes_cons in Hs as [[? ?] Hs]. rewrite List.filter_app.
  assert (forall a', a < a' -> List.filter (fun x => negb (x.1 =? a + SIZEOF_BLOCK)) (live a' l) = live a' l) as Hid.
  { clear IH. intros a'. revert a' Hs. clear -a. induction l as [|[s' fr'] l IH]; intros a' Hs Ha; simpl; [done|].
    apply sizes_cons in Hs as [[? ?] Hs]. rewrite List.filter_app, IH by (done || const_lia). f_equal.
    destruct fr'; simpl; [done|]. by assert ((a' + SIZEOF_BLOCK =? a + SIZEOF_BLOCK) = false) as -> by lia. }
  destruct (Z.eqb_spec a b) as [->|Hne]; simpl.
  - rewrite Hid by const_lia. destruct fr; simpl; [done|]. by rewrite Z.eqb_refl.
  - rewrite IH by done. f_equal. destruct fr; simpl; [done|].
    by assert ((a + SIZEOF_BLOCK =? b + SIZEOF_BLOCK) = false) as -> by lia.
Qed.

Lemma a_merge_props a l :
  l <> [] -> sizes_ok l ->
  a_merge l <> [] /\ sizes_ok (a_merge l) /\ end_of a (a_merge l) = end_of a l /\
  live a (a_merge l) = live a l /\ coalesced (a_merge l).
Proof.
  destruct l as [|[sz fr] l]; [done|]. intros _ Hs. simpl a_merge.
  destruct (coalesce_props a sz fr l Hs) as (?&?&?&?). split_and!; try done. apply coalesce_coalesced.
Qed.

Lemma kfree_heap_rep h l p sz :
  heap_rep h l -> (p, sz) ∈ live (head h) l ->
  heap_rep (kfree_heap p h) (a_merge (a_mark (head h) (p - SIZEOF_BLOCK) l)) /\
  head (kfree_heap p h) = head h.
Proof.
  intros [Hne [Hh H8] Hr Hs He] Hin.
  destruct (live_lookup _ _ _ _ _ Hs Hr Hin) as [nx Hb].
  destruct (live_bounds _ _ _ _ Hs H8 Hin) as (Hp & _ & _).
  unfold kfree_heap. assert ((p =? 0) = false) as -> by const_lia.
  rewrite (hdr_lookup _ _ _ Hb). cbn [magic free]. rewrite Z.eqb_refl. cbn [andb negb].
  pose proof (mark_rep h (head h) l _ _ Hs Hr Hb ltac:(eauto)) as Hr'. cbn [size magic next] in Hr'.
  set (h1 := set_hdr (p - SIZEOF_BLOCK) (mkBlock sz true HEAP_MAGIC nx) h) in *.
  set (l1 := a_mark (head h) (p - SIZEOF_BLOCK) l) in *.
  destruct (a_mark_props (head h) (p - SIZEOF_BLOCK) l Hs) as (Hs1 & He1 & Hl1). fold l1 in Hs1, He1, Hl1.
  assert (l1 <> []) as Hne1 by (destruct l1; [by destruct l|done]).
  destruct (a_merge_props (head h) l1 Hne1 Hs1) as (M1 & M2 & M3 & M4 & M5).
  pose proof (rep_length _ _ _ Hs1 Hr') as Hlen.
  destruct l1 as [|[sz1 fr1] l1'] eqn:El1; [done|]. unfold merge.
  destruct (merge_loop_spec (S (base.size (hdrs h1))) h1 (head h) sz1 fr1 l1') as (R1 & R2 & R3);
    [done|done|by rewrite He1|done|cbn [length] in Hlen; lia|].
  change (head h1) with (head h) in R3 |- *.
  set (h2 := merge_loop _ _ _) in *. clearbody h2. split; [|exact R3].
  constructor; [exact M1|rewrite R3; exact (conj Hh H8)|rewrite R3; exact R1|exact M2|].
  rewrite R3, M3, He1. exact He.
Qed.

(** ** Allocation against the abstract heap *)
Lemma round8_spec n :
  0 <= n <= 4294967288 -> n <= round8 n < n + 8 /\ round8 n mod 8 = 0.
Proof.
  intros Hn. unfold round8. rewrite align8 by apply u32_range. rewrite u32_small by word_lia.
  word_lia.
Qed.

Lemma round8_range n : 0 <= round8 n < 4294967296 /\ round8 n mod 8 = 0.
Proof. unfold round8. rewrite align8 by apply u32_range. pose proof (u32_range (n + 7)). word_lia. Qed.

Lemma take_block_head b n h : head (take_block b n h) = head h.
Proof. unfold take_block, split. by case_match. Qed.
Lemma take_block_payload b n h : payload (take_block b n h) = payload h.
Proof. unfold take_block, split. by case_match. Qed.

Lemma heap_rep_take h l n b :
  heap_rep h l -> 0 <= n -> n mod 8 = 0 -> first_fit (head h) n l = Some b ->
  heap_rep (take_block b n h) (a_take n l).
Proof.
  intros [Hne [Hh H8] Hr Hs He] Hn Hn8 Hf.
  destruct (take_block_rep h (head h) n l b) as [R1 R2]; try done.
  constructor; rewrite ?take_block_head; [by apply a_take_nonempty|done|done|by apply a_take_sizes|].
  by rewrite a_take_end.
Qed.

Section kmalloc.
Context {S : Type} `{FrameAllocator S}.
Implicit Types s : hstate S.

Lemma kmalloc_fits area fuel n s l b :
  heap_rep (hp s) l -> n <> 0 -> first_fit (head (hp s)) (round8 n) l = Some b ->
  kmalloc area (Datatypes.S fuel) n s =
    Some (Done (b + SIZEOF_BLOCK) (on_heap (take_block b (round8 n)) s)).
Proof.
  intros Hrep Hn Hf. destruct Hrep as [Hne [Hh H8] Hr Hs He]. unfold kmalloc.
  assert ((head (hp s) =? 0) = false) as -> by lia.
  assert ((n =? 0) = false) as -> by lia. cbn [kmalloc_loop].
  pose proof (rep_length _ _ _ Hs Hr) as Hlen.
  pose proof (find_fit_spec (Datatypes.S (base.size (hdrs (hp s)))) (hp s) (head (hp s)) (round8 n) l
    Hs Hh Hr ltac:(lia)) as Hff.
  destruct l as [|x l]; [done|]. by rewrite Hff, Hf.
Qed.
End kmalloc.

Lemma live_app_disjoint a l l1 l2 x :
  sizes_ok l -> a mod 8 = 0 -> live a l = l1 ++ x :: l2 ->
  forall y, y ∈ l1 ++ l2 -> disjoint_spans x y.
Proof.
  intros Hs Ha Hl y Hy. pose proof (live_disjoint a l Hs Ha) as Hd. rewrite Hl in Hd.
  assert ((l1 ++ x :: l2) !! length l1 = Some x) as Hx.
  { by rewrite lookup_app_r, Nat.sub_diag by lia. }
  apply elem_of_app in Hy as [Hy|Hy]; apply list_elem_of_lookup in Hy as [i Hi].
  - pose proof (lookup_lt_Some _ _ _ Hi). eapply (Hd (length l1) i); [done| |lia].
    by rewrite lookup_app_l by lia.
  - eapply (Hd (length l1) (length l1 + 1 + i)%nat); [done| |lia].
    rewrite lookup_app_r by lia. replace (length l1 + 1 + i - length l1)%nat with (1 + i)%nat by lia.
    done.
Qed.

Lemma first_fit_mark_take a n l b :
  sizes_ok l -> coalesced l -> first_fit a n l = Some b ->
  a_merge (a_mark a b (a_take n l)) = l.
Proof.
  revert a. induction l as [|[sz fr] l IH]; intros a Hs Hc Hf; simpl in *; [done|].
  pose proof (sizes_cons _ _ _ Hs) as [[? ?] Hs'].
  destruct (fr && (n <=? sz)) eqn:E.
  - injection Hf as <-. apply andb_true_iff in E as [-> _]. unfold carve.
    destruct (n + SIZEOF_BLOCK + 8 <=? sz); cbn [app a_mark]; rewrite Z.eqb_refl; simpl.
    + replace (n + SIZEOF_BLOCK + (sz - n - SIZEOF_BLOCK)) with sz by lia. by apply coalesced_id.
    + by apply coalesced_id.
  - pose proof (first_fit_range _ _ _ _ Hs' Hf). simpl.
    assert ((a =? b) = false) as -> by const_lia.
    assert (coalesced l) as Hc' by (destruct l as [|[]]; [done|apply Hc]).
    specialize (IH (a + SIZEOF_BLOCK + sz) Hs' Hc' Hf). simpl.
    destruct (a_mark (a + SIZEOF_BLOCK + sz) b (a_take n l)) as [|[s1 f1] T]; simpl in *.
    { subst l. done. }
    destruct (coalesce_head s1 f1 T) as (s' & l' & Hh). rewrite Hh in IH. subst l.
    destruct Hc as [-> _]. by rewrite Hh.
Qed.

(** ** Properties *)

(** A fresh heap at address [0x200000] over the small machine's page allocator. *)
Definition demo_area : Z := 2097152.
Definition demo_heap : hstate pmm :=
  mkH (heap_init demo_area (mkHeap ∅ ∅ 0 HEAP_VIRT_START)) (vmm_init (fun _ => 1048576)) small_pmm.

Lemma demo_heap_rep : heap_rep (hp demo_heap) [(1048560, true)].
Proof.
  constructor; [done|by vm_compute| |by repeat constructor|by vm_compute].
  simpl. split; [|done]. apply lookup_insert_eq.
Qed.




(** The demo heap after one allocation of 100 bytes. *)
Definition demo_one : hstate pmm := on_heap (take_block demo_area 104) demo_heap.
Lemma demo_one_rep : heap_rep (hp demo_one) [(104, false); (1048440, true)].
Proof. apply (heap_rep_take _ [(1048560, true)] 104 demo_area demo_heap_rep); done. Qed.




(** ** Growing *)
Section growth.
Context {S : Type} `{FrameAllocatorLaws S}.
Implicit Types s : hstate S.

Lemma grow_measure s rc s' :
  frame_ok (fr s) -> grow s = Done rc s' ->
  (rc <> 0 /\ s' = s /\ exists f, alloc_page (fr s) = (0, f)) \/
  (rc = 0 /\ frame_ok (fr s') /\ (frames_left (fr s') < frames_left (fr s))%nat).
Proof.
  intros Hok. unfold grow. destruct (alloc_page (fr s)) as [page f] eqn:Ha.
  destruct (Z.eqb_spec page 0) as [->|Hne].
  - intros [= <- <-]. left. rewrite (alloc_fail _ _ Hok Ha). destruct s; simpl. eauto.
  - case_match eqn:Hm; [done|]. intros [= <- <-]. right. simpl.
    pose proof (alloc_measure _ _ _ Hok Ha Hne). split_and!; [done|by eapply alloc_ok|done].
Qed.

Lemma kmalloc_loop_total fuel n s :
  frame_ok (fr s) -> (frames_left (fr s) < fuel)%nat -> is_Some (kmalloc_loop fuel n s).
Proof.
  revert s. induction fuel as [|fuel IH]; intros s Hok Hf; [lia|]. cbn [kmalloc_loop].
  case_match; [by eexists|]. destruct (grow s) as [rc s'|msg s'] eqn:Hg; [|by eexists].
  destruct (grow_measure _ _ _ Hok Hg) as [(Hrc & _)|(-> & Hok' & Hlt)].
  - assert ((rc =? 0) = false) as -> by lia. by eexists.
  - simpl. apply IH; [done|lia].
Qed.

(** No header anywhere is a free block of [n] bytes. *)
Definition nothing_fits (n : Z) (h : heap) : Prop :=
  forall x, free (hdr h x) = true -> size (hdr h x) < n.

Lemma find_fit_nothing n h fuel b : nothing_fits n h -> find_fit fuel h b n = None.
Proof.
  intros Hn. revert b. induction fuel as [|fuel IH]; intros b; simpl; [done|].
  case_match; [done|]. destruct (free (hdr h b)) eqn:Ef; simpl; [|apply IH].
  pose proof (Hn b Ef). assert ((n <=? size (hdr h b)) = false) as -> by lia. apply IH.
Qed.

Lemma nothing_fits_set n h x bl :
  nothing_fits n h -> (free bl = true -> size bl < n) -> nothing_fits n (set_hdr x bl h).
Proof.
  intros Hn Hb y. unfold hdr, set_hdr, with_hdrs. cbn [hdrs].
  destruct (decide (x = y)) as [->|Hne].
  - by rewrite lookup_total_insert_eq.
  - rewrite lookup_total_insert_ne by done. apply Hn.
Qed.

Lemma grow_nothing n s rc s' :
  PAGE_SIZE - SIZEOF_BLOCK < n -> nothing_fits n (hp s) -> grow s = Done rc s' ->
  nothing_fits n (hp s').
Proof.
  intros Hn Hfit. unfold grow. destruct (alloc_page (fr s)) as [page f].
  case_match; [by intros [= <- <-]|]. case_match; [done|]. intros [= <- <-]. cbn [hp].
  pose proof (nothing_fits_set n (hp s) (heap_virt_top (hp s))
    (mkBlock (PAGE_SIZE - SIZEOF_BLOCK) true HEAP_MAGIC 0) Hfit (fun _ => Hn)) as Hh1.
  case_match; [exact Hh1|]. apply nothing_fits_set; [exact Hh1|]. apply (Hh1 _).
Qed.
End growth.



(** Growth adds one page at a time and new pages are never joined during a
    request, so a request of more than one page that no existing block satisfies
    cannot succeed: [kmalloc] returns null only after it has taken every page frame
    of the machine, none of which it gives back. *)
Theorem kmalloc_large_drains_frames {S} `{FrameAllocatorLaws S} area fuel n (s : hstate S) p s' :
  frame_ok (fr s) -> head (hp s) <> 0 -> n <> 0 ->
  nothing_fits (round8 n) (hp s) -> PAGE_SIZE - SIZEOF_BLOCK < round8 n ->
  kmalloc area fuel n s = Some (Done p s') ->
  p = 0 /\ exists f, alloc_page (fr s') = (0, f).
Proof.
  intros Hok Hh Hn0 Hfit Hbig. unfold kmalloc.
  assert ((head (hp s) =? 0) = false) as -> by lia. assert ((n =? 0) = false) as -> by lia.
  clear Hh. revert s Hok Hfit. induction fuel as [|fuel IH]; intros s Hok Hfit; [done|].
  cbn [kmalloc_loop]. rewrite find_fit_nothing by done.
  destruct (grow s) as [rc s1|msg s1] eqn:Hg; [|done].
  destruct (grow_measure _ _ _ Hok Hg) as [(Hrc & -> & Hf)|(-> & Hok' & _)].
  - assert ((rc =? 0) = false) as -> by lia. intros [= <- <-]. done.
  - simpl. apply IH; [done|]. by eapply grow_nothing.
Qed.

(** A heap whose single block is in use. *)
Definition full_heap : hstate pmm :=
  on_heap (set_hdr demo_area (mkBlock 1048560 false HEAP_MAGIC 0)) demo_heap.

Lemma full_heap_nothing_fits n : 0 < n -> nothing_fits n (hp full_heap).
Proof.
  intros Hn x. unfold hdr, full_heap, on_heap, set_hdr, with_hdrs, demo_heap. cbn [hp hdrs heap_init].
  rewrite insert_insert_eq. destruct (decide (x = demo_area)) as [->|Hne].
  - rewrite lookup_total_insert_eq. discriminate.
  - rewrite lookup_total_insert_ne by congruence. rewrite lookup_total_empty. discriminate.
Qed.

Lemma kmalloc_large_drains_frames_witness :
  exists s', kmalloc demo_area 20 8192 full_heap = Some (Done 0 s') /\
    exists f, alloc_page (fr s') = (0, f).
Proof.
  destruct (kmalloc demo_area 20 8192 full_heap) as [[p s'|msg s']|] eqn:Hk.
  - destruct (kmalloc_large_drains_frames demo_area 20 8192 full_heap p s') as [-> Hf].
    + exact small_pmm_ok.
    + discriminate.
    + discriminate.
    + apply full_heap_nothing_fits. vm_compute. reflexivity.
    + vm_compute. reflexivity.
    + exact Hk.
    + exists s'. split; [reflexivity|exact Hf].
  - exfalso. assert (match kmalloc demo_area 20 8192 full_heap with
      | Some (Done _ _) => true | _ => false end = true) as HT by (vm_compute; reflexivity).
    rewrite Hk in HT. discriminate.
  - exfalso. assert (match kmalloc demo_area 20 8192 full_heap with
      | Some (Done _ _) => true | _ => false end = true) as HT by (vm_compute; reflexivity).
    rewrite Hk in HT. discriminate.
Defined.

(** ** Scripts of heap calls *)
Inductive hcall := CMalloc (n : Z) | CFree (p : Z) | CRealloc (p n : Z).

Definition run_hcall (c : hcall) (s : hstate pmm) : option (Z * hstate pmm) :=
  match c with
  | CMalloc n =>
      match kmalloc demo_area 20 n s with Some (Done p s') => Some (p, s') | _ => None end
  | CFree p => Some (0, kfree p s)
  | CRealloc p n =>
      match krealloc demo_area 20 p n s with Some (Done q s') => Some (q, s') | _ => None end
  end.

(** The values the calls of a script return, in order. *)
Fixpoint run_hcalls (cs : list hcall) (s : hstate pmm) : option (list Z) :=
  match cs with
  | [] => Some []
  | c :: cs' =>
      match run_hcall c s with
      | Some (v, s') => match run_hcalls cs' s' with Some vs => Some (v :: vs) | None => None end
      | None => None
      end
  end.

(** [merge] joins list neighbours without comparing addresses, and [grow] puts a
    page at [0xd0000000] behind the last block of [heap_area].  After filling the
    heap, growing it once and freeing everything, the two regions have become one
    block, and a request larger than [heap_area] is answered with a pointer into
    [heap_area] whose span runs past its end. *)
Theorem merge_joins_distant_regions :
  run_hcalls [CMalloc 1048560; CMalloc 64; CFree 3489660944; CFree 2097168; CMalloc 1052000] demo_heap
    = Some [2097168; 3489660944; 0; 0; 2097168] /\
  demo_area + HEAP_BYTES < 2097168 + 1052000.
Proof. split; [vm_compute; reflexivity|vm_compute; reflexivity]. Qed.

(** A request of [0xfffffff9] bytes or more wraps around to size zero when it is
    rounded up: [kmalloc] answers it with the first free block, whose usable size is
    not even eight bytes when the block could be split. *)
Theorem kmalloc_rounding_wraps {S} `{FrameAllocator S} area fuel n (s : hstate S) l b :
  heap_rep (hp s) l -> 4294967289 <= n < 4294967296 ->
  first_fit (head (hp s)) 0 l = Some b -> 24 <= size (hdr (hp s) b) ->
  exists s', kmalloc area (Datatypes.S fuel) n s = Some (Done (b + SIZEOF_BLOCK) s') /\
    b + SIZEOF_BLOCK <> 0 /\ size (hdr (hp s') b) = 0.
Proof.
  intros Hrep Hn Hf Hsz.
  assert (round8 n = 0) as E.
  { unfold round8. rewrite align8 by apply u32_range. word_lia. }
  eexists. split; [eapply kmalloc_fits; [done|lia|by rewrite E]|]. rewrite E.
  pose proof (first_fit_range _ _ _ _ (hr_sizes _ _ Hrep) Hf).
  destruct (hr_head _ _ Hrep) as [Hh _]. split; [const_lia|].
  cbn [hp on_heap]. unfold take_block, split.
  rewrite (u32_small (0 + SIZEOF_BLOCK + 8)) by word_lia.
  assert ((0 + SIZEOF_BLOCK + 8 <=? size (hdr (hp s) b)) = true) as -> by const_lia.
  unfold hdr, set_hdr, with_hdrs. cbn [hdrs]. by rewrite !lookup_total_insert_eq.
Qed.

Lemma kmalloc_rounding_wraps_witness :
  exists s', kmalloc demo_area 1 4294967295 demo_heap = Some (Done 2097168 s') /\
    2097168 <> 0 /\ size (hdr (hp s') demo_area) = 0.
Proof.
  apply (kmalloc_rounding_wraps demo_area 0 4294967295 demo_heap [(1048560, true)] demo_area).
  - exact demo_heap_rep.
  - lia.
  - vm_compute. reflexivity.
  - vm_compute. discriminate.
Defined.

(** [krealloc] splits at the size it was given without rounding it, so shrinking
    a block to 5 bytes leaves the next header, and then the next allocation, at an
    odd address, although every block of [kmalloc] alone is 8-byte aligned. *)
Theorem krealloc_breaks_alignment :
  run_hcalls [CMalloc 64; CRealloc 2097168 5; CMalloc 8] demo_heap
    = Some [2097168; 2097168; 2097189] /\ 2097189 mod 8 = 5.
Proof. split; [vm_compute; reflexivity|vm_compute; reflexivity]. Qed.

(** ** Moving a block *)
Lemma copy_bytes_spec d s0 n (m : gmap Z Z) :
  0 <= n -> d + n <= s0 \/ s0 + n <= d ->
  forall x, copy_bytes d s0 n m !!! x =
    if (d <=? x) && (x <? d + n) then m !!! (s0 + (x - d)) else m !!! x.
Proof.
  intros Hn Hd. unfold copy_bytes.
  apply (for_range_ind (fun i (t : gmap Z Z) => forall x, t !!! x =
    if (d <=? x) && (x <? d + i) then m !!! (s0 + (x - d)) else m !!! x)); [lia| |].
  - intros x. by assert ((d <=? x) && (x <? d + 0) = false) as -> by lia.
  - intros i t Hi IH x. destruct (decide (x = d + i)) as [->|Hne].
    + rewrite lookup_total_insert_eq, IH.
      assert ((d <=? s0 + i) && (s0 + i <? d + i) = false) as -> by lia.
      assert ((d <=? d + i) && (d + i <? d + (i + 1)) = true) as -> by lia. f_equal. lia.
    + rewrite lookup_total_insert_ne, IH by done.
      by assert ((d <=? x) && (x <? d + i) = (d <=? x) && (x <? d + (i + 1))) as -> by lia.
Qed.

Lemma merge_loop_payload fuel b h : payload (merge_loop fuel b h) = payload h.
Proof.
  revert b h. induction fuel as [|fuel IH]; intros b h; [done|]. cbn [merge_loop].
  case_match; [done|]. case_match; [by rewrite IH|apply IH].
Qed.

Lemma kfree_payload p h : payload (kfree_heap p h) = payload h.
Proof. unfold kfree_heap. case_match; [done|]. case_match; [|done]. exact (merge_loop_payload _ _ _). Qed.

(** When [krealloc] has to move a block, the new block holds the old contents,
    byte for byte, and the old block is released. *)
Theorem krealloc_moves_contents {S} `{FrameAllocator S} area fuel n (s : hstate S) l p sz b :
  heap_rep (hp s) l -> (p, sz) ∈ live (head (hp s)) l -> sz < n <= 4294967288 ->
  first_fit (head (hp s)) (round8 n) l = Some b ->
  exists s', krealloc area (Datatypes.S fuel) p n s = Some (Done (b + SIZEOF_BLOCK) s') /\
    forall i, 0 <= i < sz ->
      payload (hp s') !!! (b + SIZEOF_BLOCK + i) = payload (hp s) !!! (p + i).
Proof.
  intros Hrep Hin Hn Hf. pose proof Hrep as [Hne [Hh H8] Hr Hs He].
  destruct (live_bounds _ _ _ _ Hs H8 Hin) as (Hp & _ & _).
  destruct (live_lookup _ _ _ _ _ Hs Hr Hin) as [nx Hb].
  pose proof (live_size_nonneg _ _ _ _ Hs Hin) as Hsz0.
  destruct (round8_spec n ltac:(lia)) as [Hr8 Hm8].
  destruct (a_take_live _ _ _ _ Hf) as (sz' & l1 & l2 & Hsz' & HL & HL').
  assert (disjoint_spans (b + SIZEOF_BLOCK, sz') (p, sz)) as Hdis.
  { eapply (live_app_disjoint (head (hp s)) (a_take (round8 n) l)); [|done|done|by rewrite <- HL].
    apply a_take_sizes; [lia|done|done]. }
  pose proof (heap_rep_take _ _ (round8 n) _ Hrep ltac:(lia) Hm8 Hf) as Hrep'.
  assert (size (hdr (take_block b (round8 n) (hp s)) (p - SIZEOF_BLOCK)) = sz) as Hsz.
  { destruct (live_lookup (hdrs (take_block b (round8 n) (hp s))) (head (hp s))
      (a_take (round8 n) l) p sz) as [nx' Hb'].
    - apply (hr_sizes _ _ Hrep').
    - pose proof (hr_rep _ _ Hrep') as Hr'. by rewrite take_block_head in Hr'.
    - rewrite HL in Hin. rewrite HL'.
      apply elem_of_app in Hin as [?|?]; apply elem_of_app; [by left|right; by right].
    - by rewrite (hdr_lookup _ _ _ Hb'). }
  unfold krealloc. assert ((p =? 0) = false) as -> by const_lia.
  assert ((n =? 0) = false) as -> by lia. rewrite (hdr_lookup _ _ _ Hb). cbn [magic free size].
  rewrite Z.eqb_refl. cbn [negb orb]. assert ((n <=? sz) = false) as -> by lia.
  rewrite (kmalloc_fits area fuel n s l b) by (done || lia).
  pose proof (first_fit_range _ _ _ _ Hs Hf).
  assert ((b + SIZEOF_BLOCK =? 0) = false) as -> by const_lia.
  eexists. split; [done|]. intros i Hi. cbn [hp kfree on_heap]. rewrite kfree_payload.
  cbn [payload]. rewrite Hsz, take_block_payload.
  unfold disjoint_spans in Hdis. cbn [fst snd] in Hdis.
  rewrite copy_bytes_spec by lia.
  assert ((b + SIZEOF_BLOCK <=? b + SIZEOF_BLOCK + i) &&
    (b + SIZEOF_BLOCK + i <? b + SIZEOF_BLOCK + sz) = true) as -> by lia. f_equal. lia.
Qed.

Lemma krealloc_moves_contents_witness :
  exists s', krealloc demo_area 1 2097168 200 demo_one = Some (Done 2097288 s') /\
    forall i, 0 <= i < 104 ->
      payload (hp s') !!! (2097288 + i) = payload (hp demo_one) !!! (2097168 + i).
Proof.
  apply (krealloc_moves_contents demo_area 0 200 demo_one _ 2097168 104 2097272 demo_one_rep).
  - vm_compute. left.
  - lia.
  - vm_compute. reflexivity.
Defined.
