(* ===== verification/Vmm.v ===== *)
(** User address spaces: the data and operations of [mm/vmm.c] and [include/mm.h].

    An [address_space_t *] is the index of the space in the static array [spaces],
    [None] for the null pointer.  Loading [cr3] always follows an assignment of
    [current_space], so the active translation is determined by it; [invlpg] and the
    TLB are not modelled.  Physical memory is one byte per address in [mem]; the
    kernel's accesses go through [vmm_get_physical] (its own tables) or, in the user
    range, through the tables of the current space.  Page frames come from any
    [FrameAllocator]. *)
From S2P Require Import Prelude Frames Paging KernelMap.

(** ** Data *)
Definition VMM_MAX_VMAS : Z := 64.
Definition MAX_SPACES : Z := 32.
Definition USER_BASE : Z := 4194304. (* 0x400000 *)
Definition USER_END : Z := 3221225472. (* 0xc0000000 *)
Definition COPY_WINDOW : Z := 4190208. (* 0x003ff000 *)
#[export] Hint Unfold VMM_MAX_VMAS MAX_SPACES USER_BASE USER_END COPY_WINDOW : kconst.

Record vma := mkVma { start : Z; end_ : Z; vflags : Z; used : bool }.
#[global] Instance vma_inhabited : Inhabited vma := populate (mkVma 0 0 0 false).

Record address_space := mkSpace {
  page_directory : list Z;
  user_tables : list (list Z);
  table_used : list bool;
  vmas : list vma;
  refs : Z;
}.
#[global] Instance list_inhabited_nil {A} : Inhabited (list A) := populate [].
#[global] Instance bool_inhabited_false : Inhabited bool := populate false.
#[global] Instance space_inhabited : Inhabited address_space := populate (mkSpace [] [] [] [] 0).

Record vmm {S : Type} := mkVmm {
  kmaps : kmap;
  spaces : list address_space;
  space_used : list bool;
  current_space : option Z;
  frames : S;
  mem : gmap Z Z;
}.
Arguments vmm S : clear implicits.
Arguments mkVmm {S}.

Section ops.
Context {S : Type} `{FrameAllocator S}.
Implicit Types st : vmm S.

Definition with_kmaps (k : kmap) st : vmm S :=
  mkVmm k (spaces st) (space_used st) (current_space st) (frames st) (mem st).
Definition with_spaces (l : list address_space) st : vmm S :=
  mkVmm (kmaps st) l (space_used st) (current_space st) (frames st) (mem st).
Definition with_space_used (l : list bool) st : vmm S :=
  mkVmm (kmaps st) (spaces st) l (current_space st) (frames st) (mem st).
Definition with_frames (f : S) st : vmm S :=
  mkVmm (kmaps st) (spaces st) (space_used st) (current_space st) f (mem st).
Definition with_mem (m : gmap Z Z) st : vmm S :=
  mkVmm (kmaps st) (spaces st) (space_used st) (current_space st) (frames st) m.
Definition vmm_switch_address_space (sp : option Z) st : vmm S :=
  mkVmm (kmaps st) (spaces st) (space_used st) sp (frames st) (mem st).
Definition vmm_current_address_space st : option Z := current_space st.

Definition set_space (i : Z) (a : address_space) st : vmm S :=
  with_spaces ((spaces st).[i <- a]) st.
Definition with_refs_of (n : Z) (a : address_space) : address_space :=
  mkSpace (page_directory a) (user_tables a) (table_used a) (vmas a) n.
Definition with_vmas (l : list vma) (a : address_space) : address_space :=
  mkSpace (page_directory a) (user_tables a) (table_used a) l (refs a).
(** [s->user_tables[t][j] = pte] *)
Definition set_pte (t j pte : Z) (a : address_space) : address_space :=
  mkSpace (page_directory a) ((user_tables a).[t <- (user_tables a).[t].[j <- pte]])
    (table_used a) (vmas a) (refs a).

(** ** Address spaces *)
Definition vmm_create_address_space st : option Z * vmm S :=
  match find_from (fun i => negb (space_used st).[i]) 0 (Z.to_nat MAX_SPACES) with
  | None => (None, st)
  | Some i =>
      let old := (spaces st).[i] in
      let s := mkSpace (kernel_directory (kmaps st)) (replicate 8 (replicate 1024 0))
                 (replicate 8 false)
                 ((fun v => mkVma (start v) (end_ v) (vflags v) false) <$> vmas old) 1 in
      (Some i, with_space_used ((space_used st).[i <- true]) (set_space i s st))
  end.

Definition vmm_retain_address_space (sp : option Z) st : vmm S :=
  match sp with
  | None => st
  | Some i => let s := (spaces st).[i] in set_space i (with_refs_of (u32 (refs s + 1)) s) st
  end.

(** Give back every page a table maps. *)
Definition free_table (tbl : list Z) (f : S) : S :=
  foldl (fun f pte => if has pte PAGE_PRESENT then free_page (page_base pte) f else f) f tbl.
Definition free_tables (s : address_space) (f : S) : S :=
  for_range 0 8 (fun t f => if (table_used s).[t] then free_table (user_tables s).[t] f else f) f.

Definition vmm_destroy_address_space (sp : option Z) st : vmm S :=
  match sp with
  | None => st
  | Some i =>
      let s := (spaces st).[i] in
      if refs s =? 0 then st
      else
        let st := set_space i (with_refs_of (refs s - 1) s) st in
        if negb (refs s - 1 =? 0) then st
        else if (space_used st).[i] then
          let st := if decide (current_space st = Some i)
                    then vmm_switch_address_space None st else st in
          with_space_used ((space_used st).[i <- false])
            (with_frames (free_tables s (frames st)) st)
        else st
  end.

(** The physical address the linker gives [spaces[i].user_tables[slot]]. *)
Variable utab_addr : Z -> Z -> Z.

Definition user_range (virt : Z) : bool := (USER_BASE <=? virt) && (virt <? USER_END).
Definition slot_ok (di : Z) : bool := (1 <=? di) && (di <=? 8).

Definition vmm_map_user (sp : option Z) (virt phys flags : Z) st : Z * vmm S :=
  match sp with
  | None => (-1, st)
  | Some i =>
      if negb (user_range virt) then (-1, st)
      else
        let di := dir_index virt in let ti := tab_index virt in
        if negb (slot_ok di) then (-1, st)
        else
          let slot := di - 1 in
          let s := (spaces st).[i] in
          let s :=
            if (table_used s).[slot] then s
            else mkSpace
                   ((page_directory s).[di <- Z.lor (Z.lor (Z.lor (utab_addr i slot)
                      PAGE_PRESENT) PAGE_WRITE) PAGE_USER])
                   (user_tables s) ((table_used s).[slot <- true]) (vmas s) (refs s) in
          let pte := Z.lor (page_base phys) (Z.lor (Z.lor flags PAGE_PRESENT) PAGE_USER) in
          (0, set_space i (set_pte slot ti pte s) st)
  end.

Definition vmm_unmap_user (sp : option Z) (virt : Z) st : Z * vmm S :=
  let di := dir_index virt in let ti := tab_index virt in
  match sp with
  | None => (-1, st)
  | Some i =>
      let s := (spaces st).[i] in
      if negb (user_range virt) || negb (slot_ok di) || negb (table_used s).[di - 1] then (-1, st)
      else
        let pte := (user_tables s).[di - 1].[ti] in
        if negb (has pte PAGE_PRESENT) then (-1, st)
        else (0, set_space i (set_pte (di - 1) ti 0 s)
                   (with_frames (free_page (page_base pte) (frames st)) st))
  end.

Definition vmm_get_user_physical (sp : option Z) (virt : Z) st : Z :=
  match sp with
  | None => 0
  | Some i =>
      let s := (spaces st).[i] in
      let di := dir_index virt in
      if negb (user_range virt) || negb (slot_ok di) || negb (table_used s).[di - 1] then 0
      else
        let pte := (user_tables s).[di - 1].[tab_index virt] in
        if negb (has pte PAGE_PRESENT) || negb (has pte PAGE_USER) then 0
        else Z.lor (page_base pte) (page_off virt)
  end.

(** ** Copying pages *)

(** Where the kernel's access to [va] goes: the user range through the current
    space, everything else through the kernel's tables. *)
Definition translate (va : Z) st : Z :=
  match current_space st with
  | Some i =>
      let s := (spaces st).[i] in
      let di := dir_index va in
      if slot_ok di && (table_used s).[di - 1] then
        let pte := (user_tables s).[di - 1].[tab_index va] in
        if has pte PAGE_PRESENT then Z.lor (page_base pte) (page_off va) else 0
      else vmm_get_physical va (kmaps st)
  | None => vmm_get_physical va (kmaps st)
  end.

(** [copy_mem(copy_page, va, PAGE_SIZE)] *)
Definition read_page (va : Z) st : list Z :=
  (fun i => mem st !!! translate (va + i) st) <$> seqZ 0 PAGE_SIZE.
(** [copy_mem(va, copy_page, PAGE_SIZE)] *)
Definition write_page (va : Z) (bytes : list Z) st : vmm S :=
  with_mem (for_range 0 PAGE_SIZE (fun i m => <[translate (va + i) st := bytes.[i]]> m) (mem st)) st.

(** All (table, entry) pairs in the order of the nested loops. *)
Definition entries : list (Z * Z) :=
  t ← seqZ 0 8; (fun j => (t, j)) <$> seqZ 0 1024.

(** [(t + 1u) * 0x400000u + j * PAGE_SIZE] *)
Definition entry_va (t j : Z) : Z := (t + 1) * 4194304 + j * PAGE_SIZE.

Definition restore_space (old : option Z) st : vmm S :=
  match old with Some i => vmm_switch_address_space (Some i) st | None => st end.

(** One entry of [vmm_clone_address_space]; [inl] = the clone failed. *)
Definition clone_entry (src dst : Z) (tj : Z * Z) (old : option Z) st : vmm S + vmm S :=
  let '(t, j) := tj in
  let s := (spaces st).[src] in
  let pte := (user_tables s).[t].[j] in
  if negb ((table_used s).[t] && has pte PAGE_PRESENT) then inr st
  else
    let va := entry_va t j in
    let '(page, f') := alloc_page (frames st) in
    let st := with_frames f' st in
    if page =? 0 then inl (restore_space old (vmm_destroy_address_space (Some dst) st))
    else
      let '(rc, st) := vmm_map_user (Some dst) va page (page_off pte) st in
      if negb (rc =? 0) then
        inl (restore_space old (vmm_destroy_address_space (Some dst)
               (with_frames (free_page page (frames st)) st)))
      else
        let st := vmm_switch_address_space (Some src) st in
        let copy_page := read_page va st in
        let st := vmm_switch_address_space (Some dst) st in
        inr (write_page va copy_page st).

Fixpoint clone_entries (src dst : Z) (es : list (Z * Z)) (old : option Z) st : option Z * vmm S :=
  match es with
  | [] => (Some dst, match old with
                     | Some i => vmm_switch_address_space (Some i) st
                     | None => vmm_switch_address_space None st
                     end)
  | e :: es' =>
      match clone_entry src dst e old st with
      | inl st' => (None, st')
      | inr st' => clone_entries src dst es' old st'
      end
  end.

Definition vmm_clone_address_space (sp : option Z) st : option Z * vmm S :=
  match sp with
  | None => (None, st)
  | Some src =>
      let '(d, st) := vmm_create_address_space st in
      match d with
      | None => (None, st)
      | Some dst =>
          let st := set_space dst (with_vmas (vmas (spaces st).[src]) (spaces st).[dst]) st in
          clone_entries src dst entries (current_space st) st
      end
  end.

(** One entry of [vmm_clone_address_space_cow]: share the frame read-only. *)
Definition cow_entry (src dst : Z) (tj : Z * Z) (old : option Z) st : vmm S + vmm S :=
  let '(t, j) := tj in
  let s := (spaces st).[src] in
  let pte := (user_tables s).[t].[j] in
  if negb ((table_used s).[t] && has pte PAGE_PRESENT) then inr st
  else
    let va := entry_va t j in
    let flags := Z.land (Z.lor (page_off pte) PAGE_COW) (u32 (Z.lnot PAGE_WRITE)) in
    let st := set_space src (set_pte t j (Z.lor (page_base pte) flags) s) st in
    let '(rc, st) := vmm_map_user (Some dst) va (page_base pte) flags st in
    if negb (rc =? 0) then inl (restore_space old (vmm_destroy_address_space (Some dst) st))
    else inr (with_frames (retain_page (page_base pte) (frames st)) st).

Fixpoint cow_entries (src dst : Z) (es : list (Z * Z)) (old : option Z) st : option Z * vmm S :=
  match es with
  | [] => (Some dst, match old with
                     | Some i => vmm_switch_address_space (Some i) st
                     | None => vmm_switch_address_space None st
                     end)
  | e :: es' =>
      match cow_entry src dst e old st with
      | inl st' => (None, st')
      | inr st' => cow_entries src dst es' old st'
      end
  end.

Definition vmm_clone_address_space_cow (sp : option Z) st : option Z * vmm S :=
  match sp with
  | None => (None, st)
  | Some src =>
      let '(d, st) := vmm_create_address_space st in
      match d with
      | None => (None, st)
      | Some dst =>
          let st := set_space dst (with_vmas (vmas (spaces st).[src]) (spaces st).[dst]) st in
          cow_entries src dst entries (current_space st) st
      end
  end.

(** ** Ranges *)
Fixpoint user_alloc_loop (n : nat) (sp : option Z) (virt flags : Z) st : bool * vmm S :=
  match n with
  | O => (true, st)
  | Datatypes.S n' =>
      let '(p, f') := alloc_page (frames st) in
      let st := with_frames f' st in
      if p =? 0 then (false, st)
      else
        let '(rc, st) := vmm_map_user sp virt p flags st in
        if negb (rc =? 0) then (false, with_frames (free_page p (frames st)) st)
        else user_alloc_loop n' sp (u32 (virt + PAGE_SIZE)) flags st
  end.
Definition vmm_user_alloc (sp : option Z) (virt pages flags : Z) st : Z * vmm S :=
  let '(ok, st) := user_alloc_loop (Z.to_nat pages) sp virt flags st in
  (if ok then virt else 0, st).

Definition vma_overlaps (s : address_space) (st0 e : Z) : bool :=
  existsb (fun v => used v && (st0 <? end_ v) && (start v <? e)) (vmas s).

Definition free_vma_slot (s : address_space) : option Z :=
  find_from (fun i => negb (used (vmas s).[i])) 0 (Z.to_nat VMM_MAX_VMAS).

(** Whether some page of the range is already mapped. *)
Definition range_mapped (i base pages : Z) st : bool :=
  existsb (fun k => negb (vmm_get_user_physical (Some i) (u32 (base + k * PAGE_SIZE)) st =? 0))
    (seqZ 0 pages).

(** The search for a free range when the caller gives no address; the fuel covers
    every page of the user range. *)
Fixpoint place_range (fuel : nat) (i base pages : Z) st : Z :=
  match fuel with
  | O => base
  | Datatypes.S fuel' =>
      if base <? USER_END then
        let e := u32 (base + pages * PAGE_SIZE) in
        if (e <? base) || (USER_END <? e) then base
        else if negb (vma_overlaps (spaces st).[i] base e) && negb (range_mapped i base pages st)
        then base
        else place_range fuel' i (u32 (base + PAGE_SIZE)) pages st
      else base
  end.
Fixpoint place_lazy (fuel : nat) (s : address_space) (base pages : Z) : Z :=
  match fuel with
  | O => base
  | Datatypes.S fuel' =>
      if base <? USER_END then
        let e := u32 (base + pages * PAGE_SIZE) in
        if (e <? base) || (USER_END <? e) then base
        else if negb (vma_overlaps s base e) then base
        else place_lazy fuel' s (u32 (base + PAGE_SIZE)) pages
      else base
  end.
Definition PLACE_BASE : Z := 16777216. (* 0x01000000 *)
Definition place_fuel : nat := Z.to_nat ((USER_END - PLACE_BASE) / PAGE_SIZE + 1).

(** [while (k--) vmm_unmap_user(s, base + k * PAGE_SIZE)] *)
Fixpoint rollback (n : nat) (i base : Z) st : vmm S :=
  match n with
  | O => st
  | Datatypes.S n' =>
      rollback n' i base (snd (vmm_unmap_user (Some i) (u32 (base + Z.of_nat n' * PAGE_SIZE)) st))
  end.

(** Map [n] fresh pages from page [done_] on; roll all back on failure. *)
Fixpoint map_pages (n done_ : nat) (i base flags : Z) st : bool * vmm S :=
  match n with
  | O => (true, st)
  | Datatypes.S n' =>
      let va := u32 (base + Z.of_nat done_ * PAGE_SIZE) in
      let '(p, f') := alloc_page (frames st) in
      let st := with_frames f' st in
      if p =? 0 then (false, rollback done_ i base st)
      else
        let '(rc, st) := vmm_map_user (Some i) va p (Z.lor flags PAGE_WRITE) st in
        if negb (rc =? 0)
        then (false, rollback done_ i base (with_frames (free_page p (frames st)) st))
        else map_pages n' (Datatypes.S done_) i base flags st
  end.

Definition bad_range (base e : Z) : bool :=
  negb (page_off base =? 0) || (base <? USER_BASE) || (e <? base) || (USER_END <? e).

Definition vmm_map_range (sp : option Z) (virt pages flags : Z) st : Z * vmm S :=
  match sp with
  | None => (-1, st)
  | Some i =>
      if (pages =? 0) || (524288 <? pages) then (-1, st)
      else
        let base := if virt =? 0 then place_range place_fuel i PLACE_BASE pages st else virt in
        let e := u32 (base + pages * PAGE_SIZE) in
        if bad_range base e || (USER_END <=? base) || vma_overlaps (spaces st).[i] base e
           || range_mapped i base pages st
        then (-1, st)
        else
          match free_vma_slot (spaces st).[i] with
          | None => (-1, st)
          | Some slot =>
              let '(ok, st) := map_pages (Z.to_nat pages) 0 i base flags st in
              if negb ok then (-1, st)
              else
                let s := (spaces st).[i] in
                (i32 base, set_space i (with_vmas ((vmas s).[slot <- mkVma base e flags true]) s) st)
          end
  end.

Definition vmm_map_lazy_range (sp : option Z) (virt pages flags : Z) st : Z * vmm S :=
  match sp with
  | None => (-1, st)
  | Some i =>
      if (pages =? 0) || (524288 <? pages) then (-1, st)
      else
        let s := (spaces st).[i] in
        let base := if virt =? 0 then place_lazy place_fuel s PLACE_BASE pages else virt in
        let e := u32 (base + pages * PAGE_SIZE) in
        if bad_range base e || vma_overlaps s base e then (-1, st)
        else
          match free_vma_slot s with
          | None => (-1, st)
          | Some slot =>
              (i32 base, set_space i (with_vmas ((vmas s).[slot <- mkVma base e flags true]) s) st)
          end
  end.

(** The list of areas after the pages [virt, e) of the area in [slot] are gone. *)
Definition trim_vma (slot virt e : Z) (l : list vma) : list vma :=
  let v := l.[slot] in
  if (virt =? start v) && (e =? end_ v) then l.[slot <- mkVma (start v) (end_ v) (vflags v) false]
  else if virt =? start v then l.[slot <- mkVma e (end_ v) (vflags v) (used v)]
  else if e =? end_ v then l.[slot <- mkVma (start v) virt (vflags v) (used v)]
  else
    match find_from (fun i => negb (used l.[i])) 0 (Z.to_nat VMM_MAX_VMAS) with
    | None => l
    | Some i =>
        l.[i <- mkVma e (end_ v) (vflags v) (used v)].[slot <- mkVma (start v) virt (vflags v) (used v)]
    end.

Definition vmm_unmap_range (sp : option Z) (virt pages : Z) st : Z * vmm S :=
  match sp with
  | None => (-1, st)
  | Some i =>
      if (pages =? 0) || negb (page_off virt =? 0) || negb (user_range virt) then (-1, st)
      else
        let e := u32 (virt + u32 (pages * PAGE_SIZE)) in
        if (e <? virt) || (USER_END <? e) then (-1, st)
        else if existsb (fun k => vmm_get_user_physical (Some i) (u32 (virt + k * PAGE_SIZE)) st =? 0)
                  (seqZ 0 pages)
        then (-1, st)
        else
          match find_from (fun k => let v := (vmas (spaces st).[i]).[k] in
                             used v && (start v <=? virt) && (e <=? end_ v))
                  0 (Z.to_nat VMM_MAX_VMAS) with
          | None => (-1, st)
          | Some slot =>
              let st := for_range 0 pages
                (fun k st => snd (vmm_unmap_user (Some i) (u32 (virt + k * PAGE_SIZE)) st)) st in
              let s := (spaces st).[i] in
              (0, set_space i (with_vmas (trim_vma slot virt e (vmas s)) s) st)
          end
  end.

(** ** Page faults *)
Definition kmap_do (virt phys flags : Z) st : vmm S :=
  with_kmaps (vmm_map virt phys flags (kmaps st)) st.

(** The area a page lies in. *)
Definition vma_of (s : address_space) (page : Z) : option Z :=
  find_from (fun k => let v := (vmas s).[k] in
               used v && (start v <=? page) && (page <? end_ v))
    0 (Z.to_nat VMM_MAX_VMAS).

Definition demand_page (i vi page : Z) st : outcome (vmm S) unit :=
  let '(new_page, f') := alloc_page (frames st) in
  let st := with_frames f' st in
  if new_page =? 0 then Panicked "out of memory resolving demand page" st
  else
    let st := write_page COPY_WINDOW (replicate (Z.to_nat PAGE_SIZE) 0) st in
    let st := kmap_do COPY_WINDOW new_page PAGE_WRITE st in
    let fl := Z.lor (vflags (vmas (spaces st).[i]).[vi]) PAGE_WRITE in
    let st := snd (vmm_map_user (Some i) page new_page fl st) in
    Done tt (with_frames (free_page new_page (frames st)) st).

Definition cow_page (i page pte : Z) st : outcome (vmm S) unit :=
  let slot := dir_index page - 1 in
  let '(new_page, f') := alloc_page (frames st) in
  let st := with_frames f' st in
  if new_page =? 0 then Panicked "out of memory resolving COW fault" st
  else
    let st := kmap_do COPY_WINDOW (page_base pte) 0 st in
    let copy_page := read_page COPY_WINDOW st in
    let st := kmap_do COPY_WINDOW new_page PAGE_WRITE st in
    let st := write_page COPY_WINDOW copy_page st in
    let st := kmap_do COPY_WINDOW COPY_WINDOW PAGE_WRITE st in
    let pte' := Z.lor (Z.lor (Z.lor new_page PAGE_PRESENT) PAGE_USER) PAGE_WRITE in
    let st := set_space i (set_pte slot (tab_index page) pte' (spaces st).[i]) st in
    Done tt (with_frames (free_page (page_base pte) (frames st)) st).

(** [cr2] is the faulting address the processor recorded. *)
Definition vmm_page_fault (cr2 error address : Z) st : outcome (vmm S) unit :=
  let page := page_base (if address =? 0 then cr2 else address) in
  let di := dir_index page in
  match current_space st with
  | Some i =>
      let s := (spaces st).[i] in
      let demand :=
        if slot_ok di then
          match vma_of s page with
          | Some vi => if vmm_get_user_physical (Some i) page st =? 0 then Some vi else None
          | None => None
          end
        else None in
      match demand with
      | Some vi => demand_page i vi page st
      | None =>
          let pte := (user_tables s).[di - 1].[tab_index page] in
          if has error 2 && has error 4 && slot_ok di && (table_used s).[di - 1]
             && has pte PAGE_COW && has pte PAGE_PRESENT
          then cow_page i page pte st
          else Panicked "unhandled page fault" st
      end
  | None => Panicked "unhandled page fault" st
  end.

(** ** Validation of user pointers *)
(** One page: fault it in if an area covers it, then check presence and, for
    writes, the write bit, resolving copy-on-write. *)
Definition validate_page (cr2 : Z) (i page : Z) (write : bool) st : outcome (vmm S) bool :=
  let faulted :=
    if vmm_get_user_physical (Some i) page st =? 0 then
      match vma_of (spaces st).[i] page with
      | Some _ => vmm_page_fault cr2 (if write then 6 else 4) page st
      | None => Done tt st
      end
    else Done tt st in
  let* (_, st) := faulted in
  if vmm_get_user_physical (Some i) page st =? 0 then Done false st
  else
    let slot := dir_index page - 1 in
    let pte := (user_tables (spaces st).[i]).[slot].[tab_index page] in
    if write && negb (has pte PAGE_WRITE) then
      if negb (has pte PAGE_COW) then Done false st
      else
        let* (_, st) := vmm_page_fault cr2 6 page st in
        let pte := (user_tables (spaces st).[i]).[slot].[tab_index page] in
        Done (has pte PAGE_WRITE) st
    else Done true st.

Fixpoint validate_loop (fuel : nat) (cr2 i page e : Z) (write : bool) st : outcome (vmm S) Z :=
  match fuel with
  | O => Done (-1) st
  | Datatypes.S fuel' =>
      let* (ok, st) := validate_page cr2 i page write st in
      if negb ok then Done (-1) st
      else if u32 (e - PAGE_SIZE) <? page then Done 0 st
      else validate_loop fuel' cr2 i (u32 (page + PAGE_SIZE)) e write st
  end.

(** The fuel is one turn per page the range touches. *)
Definition vmm_validate_user_ptr (cr2 : Z) (sp : option Z) (virt len : Z) (write : bool) st
  : outcome (vmm S) Z :=
  match sp with
  | None => Done (-1) st
  | Some i =>
      if (len =? 0) || negb (user_range virt) || (USER_END - virt <? len) then Done (-1) st
      else
        let e := virt + len - 1 in
        let page := page_base virt in
        validate_loop (Datatypes.S (Z.to_nat ((e - page) / PAGE_SIZE))) cr2 i page e write st
  end.
End ops.
