(* ===== verification/VmmCount.v ===== *)
(** Who maps which frame: well-formed address spaces, the number of page-table
    entries that map a frame, and the invariant that ties that number to the
    frame's reference count.

    [mm/vmm.c] and [mm/pmm.c] share the responsibility for a frame through that
    count alone: a frame may go back to the free pool exactly when its last mapping
    goes.  [mapped_by st q] counts the mappings of frame [q] over all live spaces;
    [vmm_inv] says it never exceeds the references the allocator holds for [q], so
    that no live page table points to a frame somebody else may be given. *)
From S2P Require Import Prelude Frames Paging KernelMap Vmm.

(** ** Well-formed spaces *)
Record space_ok (s : address_space) : Prop := {
  so_dir : length (page_directory s) = 1024%nat;
  so_tables : length (user_tables s) = 8%nat;
  so_table : forall t, 0 <= t < 8 -> length (user_tables s).[t] = 1024%nat;
  so_used : length (table_used s) = 8%nat;
  so_vmas : length (vmas s) = 64%nat;
  so_unused : forall t j, 0 <= t < 8 -> 0 <= j < 1024 -> (table_used s).[t] = false ->
    (user_tables s).[t].[j] = 0;
}.

Definition entry (s : address_space) (t j : Z) : Z := (user_tables s).[t].[j].

(** The indices of all page-table entries of all spaces. *)
Definition slots : list (Z * (Z * Z)) := i ← seqZ 0 MAX_SPACES; pair i <$> entries.

(** ** Lists of pairs *)
Section pairs.
Context {A B : Type}.
Implicit Types (xs : list A) (ys : list B).

Lemma elem_of_pairs xs ys x y :
  (x, y) ∈ (a ← xs; pair a <$> ys) <-> x ∈ xs /\ y ∈ ys.
Proof.
  rewrite list_elem_of_bind. setoid_rewrite list_elem_of_fmap. split.
  - intros (a & (b & [= -> ->] & Hb) & Ha). done.
  - intros [Hx Hy]. exists x. split; [|done]. by exists y.
Qed.

Lemma NoDup_pairs xs ys : NoDup xs -> NoDup ys -> NoDup (a ← xs; pair a <$> ys).
Proof.
  induction 1 as [|x xs Hx Hnd IH]; intros Hys; [constructor|].
  cbn [mbind list_bind]. apply NoDup_app. split_and!.
  - apply NoDup_fmap_2; [|done]. by intros ?? [= ->].
  - intros [a b] Hin. apply list_elem_of_fmap in Hin as (b' & [= -> ->] & _).
    rewrite elem_of_pairs. tauto.
  - by apply IH.
Qed.

Lemma count_app {C} (f : C -> bool) (l1 l2 : list C) : count f (l1 ++ l2) = count f l1 + count f l2.
Proof. unfold count. rewrite List.filter_app, length_app. lia. Qed.

Lemma count_fmap {C D} (f : D -> bool) (g : C -> D) (l : list C) :
  count f (g <$> l) = count (f ∘ g) l.
Proof. induction l as [|x l IH]; [done|]. cbn [fmap list_fmap]. by rewrite !count_cons, IH. Qed.

(** Counting in one row of a product. *)
Lemma count_row `{EqDecision A} (g : B -> bool) xs ys a :
  NoDup xs -> a ∈ xs ->
  count (fun p : A * B => bool_decide (p.1 = a) && g p.2) (x ← xs; pair x <$> ys) = count g ys.
Proof.
  intros Hnd. induction Hnd as [|x xs Hx Hnd IH]; intros Ha; [set_solver|].
  cbn [mbind list_bind]. rewrite count_app, count_fmap.
  destruct (decide (x = a)) as [<-|Hne].
  - rewrite (count_ext _ g ys) by (intros; unfold compose; cbn; by rewrite bool_decide_true).
    rewrite (count_none _ (x ← xs; pair x <$> ys)); [lia|].
    intros [c d] [Hc _]%elem_of_pairs. cbn. rewrite bool_decide_false by (intros <-; done). done.
  - assert (a ∈ xs) by (apply elem_of_cons in Ha as [->|]; done).
    rewrite count_none, IH; [lia|done|].
    intros y _. unfold compose. cbn. by rewrite bool_decide_false.
Qed.

Lemma count_split {C} (f g : C -> bool) l :
  (forall x, x ∈ l -> g x = true -> f x = true) ->
  count f l = count g l + count (fun x => f x && negb (g x)) l.
Proof.
  induction l as [|x l IH]; intros Hgf; [done|]. rewrite !count_cons, IH by set_solver.
  specialize (Hgf x ltac:(set_solver)). destruct (f x), (g x); cbn; lia.
Qed.

Lemma foldl_pairs {C} (f : C -> A * B -> C) xs ys c :
  foldl f c (x ← xs; pair x <$> ys) = foldl (fun c x => foldl (fun c y => f c (x, y)) c ys) c xs.
Proof.
  revert c. induction xs as [|x xs IH]; intros c; [done|].
  cbn [mbind list_bind]. rewrite foldl_app. cbn [foldl].
  assert (foldl f c (pair x <$> ys) = foldl (fun c y => f c (x, y)) c ys) as ->; [|apply IH].
  clear. revert c. induction ys as [|y ys IHy]; intros c; [done|]. apply IHy.
Qed.
End pairs.

Lemma entries_NoDup : NoDup entries.
Proof. apply NoDup_pairs; apply NoDup_seqZ. Qed.
Lemma elem_of_entries t j : (t, j) ∈ entries <-> 0 <= t < 8 /\ 0 <= j < 1024.
Proof. unfold entries. rewrite elem_of_pairs, !elem_of_seqZ. lia. Qed.
Lemma slots_NoDup : NoDup slots.
Proof. apply NoDup_pairs; [apply NoDup_seqZ|apply entries_NoDup]. Qed.
Lemma elem_of_slots i t j : (i, (t, j)) ∈ slots <-> 0 <= i < 32 /\ 0 <= t < 8 /\ 0 <= j < 1024.
Proof. unfold slots. rewrite elem_of_pairs, elem_of_seqZ, elem_of_entries. const_lia. Qed.
Lemma entries_eq : entries = (t ← seqZ 0 8; pair t <$> seqZ 0 1024).
Proof. reflexivity. Qed.
Lemma slots_eq : slots = (i ← seqZ 0 MAX_SPACES; pair i <$> entries).
Proof. reflexivity. Qed.
#[global] Opaque slots entries.

(** ** Entries under the two ways to change a space *)
Lemma entry_unused s t j :
  space_ok s -> 0 <= t < 8 -> 0 <= j < 1024 -> has (entry s t j) PAGE_PRESENT = true ->
  (table_used s).[t] = true.
Proof.
  intros Hs Ht Hj Hp. destruct ((table_used s).[t]) eqn:E; [done|].
  unfold entry in Hp. rewrite so_unused in Hp by done. done.
Qed.

Lemma set_pte_entry s t j pte t' j' :
  space_ok s -> 0 <= t < 8 -> 0 <= j < 1024 -> 0 <= t' -> 0 <= j' ->
  entry (set_pte t j pte s) t' j' = if (t =? t') && (j =? j') then pte else entry s t' j'.
Proof.
  intros Hs Ht Hj Ht' Hj'. unfold entry, set_pte. cbn [user_tables].
  rewrite (aget_aset (user_tables s)) by (rewrite ?so_tables by done; lia).
  destruct (Z.eqb_spec t t') as [<-|]; [|done].
  rewrite aget_aset by (rewrite ?so_table by done; lia). done.
Qed.

Lemma set_pte_ok s t j pte :
  space_ok s -> 0 <= t < 8 -> 0 <= j < 1024 ->
  (table_used s).[t] = true -> space_ok (set_pte t j pte s).
Proof.
  intros Hs Ht Hj Hu. pose proof Hs as [H1 H2 H3 H4 H5 H6].
  split; [done|by cbn [user_tables set_pte]; rewrite aset_length| |done|done|].
  - intros t' Ht'. unfold set_pte. cbn [user_tables]. rewrite aget_aset by (rewrite ?H2; lia).
    case_match; [by rewrite aset_length, H3|by apply H3].
  - intros t' j' Ht' Hj' Hun. cbn [table_used set_pte] in Hun.
    fold (entry (set_pte t j pte s) t' j'). rewrite set_pte_entry by (done || lia).
    destruct (Z.eqb_spec t t') as [<-|]; [congruence|]. by apply H6.
Qed.

(** What [vmm_map_user] does to the space. *)
Definition use_table (d di slot : Z) (s : address_space) : address_space :=
  if (table_used s).[slot] then s
  else mkSpace ((page_directory s).[di <- d]) (user_tables s) ((table_used s).[slot <- true])
         (vmas s) (refs s).

Lemma use_table_ok d di slot s : space_ok s -> 0 <= slot < 8 -> space_ok (use_table d di slot s).
Proof.
  intros Hs Hr. unfold use_table. case_match; [done|]. destruct Hs as [H1 H2 H3 H4 H5 H6].
  split; cbn [page_directory user_tables table_used vmas]; rewrite ?aset_length; try done.
  intros t j Ht Hj. rewrite aget_aset by (rewrite ?H4; lia). case_match; [done|]. by apply H6.
Qed.
Lemma use_table_used d di slot s : space_ok s -> 0 <= slot < 8 ->
  (table_used (use_table d di slot s)).[slot] = true.
Proof.
  intros Hs Hr. unfold use_table. case_match; [done|]. cbn [table_used].
  apply aget_aset_eq. rewrite so_used by done. lia.
Qed.
Lemma use_table_entry d di slot s t j : entry (use_table d di slot s) t j = entry s t j.
Proof. unfold use_table. by case_match. Qed.
Lemma use_table_vmas d di slot s : vmas (use_table d di slot s) = vmas s.
Proof. unfold use_table. by case_match. Qed.
#[export] Hint Resolve set_pte_ok use_table_ok use_table_used : kernel.

Lemma slot_ok_range di : slot_ok di = true -> 0 <= di - 1 < 8.
Proof. unfold slot_ok. lia. Qed.
#[export] Hint Resolve slot_ok_range : kernel.

(** ** The invariant *)
Section inv.
Context {S : Type} `{FrameAllocatorLaws S}.
Implicit Types st : vmm S.

Record vmm_wf st : Prop := {
  vw_kmap : kmap_ok (kmaps st);
  vw_spaces : length (spaces st) = 32%nat;
  vw_used : length (space_used st) = 32%nat;
  vw_space : forall i, 0 <= i < 32 -> space_ok (spaces st).[i];
  vw_current : forall i, current_space st = Some i -> 0 <= i < 32 /\ (space_used st).[i] = true;
  vw_frames : frame_ok (frames st);
}.

(** Whether the entry [x] maps frame [q]; a dead space maps nothing. *)
Definition maps (q pte : Z) : bool := has pte PAGE_PRESENT && (page_base pte / PAGE_SIZE =? q).
Definition slot_maps st (q : Z) (x : Z * (Z * Z)) : bool :=
  let '(i, (t, j)) := x in (space_used st).[i] && maps q (entry (spaces st).[i] t j).

Definition mapped_by st (q : Z) : Z := count (slot_maps st q) slots.

Definition vmm_inv st : Prop :=
  vmm_wf st /\ forall q, mapped_by st q <= frame_refs (frames st) q.

Definition b2z (b : bool) : Z := if b then 1 else 0.

(** One entry of one live space changes. *)
Lemma mapped_by_update st st' q i t j :
  0 <= i < 32 -> 0 <= t < 8 -> 0 <= j < 1024 ->
  (space_used st).[i] = true ->
  space_used st' = space_used st ->
  (forall i' t' j', 0 <= i' < 32 -> 0 <= t' < 8 -> 0 <= j' < 1024 -> (i', (t', j')) <> (i, (t, j)) ->
     entry (spaces st').[i'] t' j' = entry (spaces st).[i'] t' j') ->
  mapped_by st' q =
    mapped_by st q - b2z (maps q (entry (spaces st).[i] t j))
      + b2z (maps q (entry (spaces st').[i] t j)).
Proof.
  intros Hi Ht Hj Hu Hu' He. unfold mapped_by.
  rewrite (count_flip (slot_maps st q) _ _ (i, (t, j))).
  - unfold slot_maps. by rewrite Hu', Hu.
  - apply slots_NoDup.
  - by apply elem_of_slots.
  - intros [i' [t' j']] (Hi' & Ht' & Hj')%elem_of_slots Hne.
    unfold slot_maps. by rewrite Hu', He.
Qed.

Lemma mapped_by_ext st st' q :
  space_used st' = space_used st ->
  (forall i t j, 0 <= i < 32 -> 0 <= t < 8 -> 0 <= j < 1024 -> (space_used st).[i] = true ->
     maps q (entry (spaces st').[i] t j) = maps q (entry (spaces st).[i] t j)) ->
  mapped_by st' q = mapped_by st q.
Proof.
  intros Hu He. apply count_ext. intros [i [t j]] (Hi & Ht & Hj)%elem_of_slots.
  unfold slot_maps. rewrite Hu. destruct ((space_used st).[i]) eqn:E; [|done]. by rewrite He.
Qed.

Lemma mapped_by_pos st q i t j :
  0 <= i < 32 -> 0 <= t < 8 -> 0 <= j < 1024 -> (space_used st).[i] = true ->
  maps q (entry (spaces st).[i] t j) = true -> 0 < mapped_by st q.
Proof.
  intros Hi Ht Hj Hu Hm. unfold mapped_by.
  rewrite (count_flip (fun x => slot_maps st q x && negb (bool_decide (x = (i, (t, j)))))
             (slot_maps st q) slots (i, (t, j))).
  - unfold slot_maps at 2 3. rewrite Hu, Hm, bool_decide_true by done. cbn.
    match goal with |- context [count ?f slots] => pose proof (count_nonneg f slots) end. lia.
  - apply slots_NoDup.
  - by apply elem_of_slots.
  - intros y _ Hy. rewrite bool_decide_false by done. by rewrite andb_true_r.
Qed.

(** The flags part of an entry does not change the frame it maps. *)
Lemma maps_flags q phys f : 0 <= f < 4096 ->
  maps q (Z.lor (page_base phys) f) = has f PAGE_PRESENT && (page_base phys / PAGE_SIZE =? q).
Proof. intros Hf. unfold maps. rewrite has_flags, pte_base by const_lia. done. Qed.

Lemma maps_0 q : maps q 0 = false.
Proof. done. Qed.
Lemma maps_frame q pte : maps q pte = true ->
  has pte PAGE_PRESENT = true /\ page_base pte / PAGE_SIZE = q.
Proof. unfold maps. lia. Qed.

Lemma vmm_wf_update st st' i s :
  vmm_wf st -> 0 <= i < 32 -> space_ok s ->
  kmaps st' = kmaps st -> spaces st' = (spaces st).[i <- s] -> space_used st' = space_used st ->
  current_space st' = current_space st -> frame_ok (frames st') -> vmm_wf st'.
Proof.
  intros [H1 H2 H3 H4 H5 H6] Hi Hs Ek Es Eu Ec Hf. split; rewrite ?Ek, ?Es, ?Eu, ?Ec; try done.
  - by rewrite aset_length.
  - intros i' Hi'. rewrite aget_aset by (rewrite ?H2; lia). case_match; [done|]. by apply H4.
Qed.

Lemma spaces_set st i s i' :
  vmm_wf st -> 0 <= i < 32 -> 0 <= i' ->
  (spaces (set_space i s st)).[i'] = if i =? i' then s else (spaces st).[i'].
Proof.
  intros Hw Hi Hi'. cbn [spaces set_space with_spaces].
  apply aget_aset; [rewrite vw_spaces by done; lia|done].
Qed.

Lemma aget_aset_self {A} `{Inhabited A} (l : list A) (i : Z) v :
  0 <= i < Z.of_nat (length l) -> (l.[i <- v]).[i] = v.
Proof. intros. by apply aget_aset_eq. Qed.

(** A live space's table entry is replaced: the count of mappings follows. *)
Lemma mapped_by_set st i s' t j q :
  vmm_wf st -> 0 <= i < 32 -> 0 <= t < 8 -> 0 <= j < 1024 -> (space_used st).[i] = true ->
  (forall t' j', 0 <= t' < 8 -> 0 <= j' < 1024 -> (t', j') <> (t, j) ->
     entry s' t' j' = entry (spaces st).[i] t' j') ->
  mapped_by (set_space i s' st) q =
    mapped_by st q - b2z (maps q (entry (spaces st).[i] t j)) + b2z (maps q (entry s' t j)).
Proof.
  intros Hw Hi Ht Hj Hu He. rewrite (mapped_by_update st _ q i t j); try done.
  - rewrite spaces_set, Z.eqb_refl by (done || lia). done.
  - intros i' t' j' Hi' Ht' Hj' Hne. rewrite spaces_set by (done || lia).
    destruct (Z.eqb_spec i i') as [<-|]; [|done]. apply He; congruence.
Qed.

Lemma mapped_by_frames st f q : mapped_by (with_frames f st) q = mapped_by st q.
Proof. done. Qed.
Lemma mapped_by_mem st m q : mapped_by (with_mem m st) q = mapped_by st q.
Proof. done. Qed.
Lemma mapped_by_kmaps st k q : mapped_by (with_kmaps k st) q = mapped_by st q.
Proof. done. Qed.
End inv.
