(* ===== verification/VmmSafe.v ===== *)
(** Every operation of [mm/vmm.c] on user mappings, except the demand-paging branch
    of the fault handler, preserves [vmm_inv]: no live page table ever points to a
    frame the allocator regards as free. *)
From S2P Require Import Prelude Frames Pmm Paging KernelMap Vmm VmmCount.

Section safe.
Context {S : Type} `{FrameAllocatorLaws S}.
Variable utab_addr : Z -> Z -> Z.
Implicit Types st : vmm S.

(** The flags a caller may pass: the low twelve bits of an entry. *)
Definition flags_ok (f : Z) : Prop := 0 <= f < 4096.

Definition user_pte (phys flags : Z) : Z :=
  Z.lor (page_base phys) (Z.lor (Z.lor flags PAGE_PRESENT) PAGE_USER).

Lemma user_flags f : flags_ok f -> 0 <= Z.lor (Z.lor f PAGE_PRESENT) PAGE_USER < 4096.
Proof. intros Hf. apply flags_lor; [apply flags_lor|]; unfold flags_ok in *; const_lia. Qed.

Lemma user_flags_present f : has (Z.lor (Z.lor f PAGE_PRESENT) PAGE_USER) PAGE_PRESENT = true.
Proof. rewrite !has_lor. change (has PAGE_PRESENT PAGE_PRESENT) with true. lia. Qed.
Lemma user_flags_user f : has (Z.lor (Z.lor f PAGE_PRESENT) PAGE_USER) PAGE_USER = true.
Proof. rewrite !has_lor. change (has PAGE_USER PAGE_USER) with true. lia. Qed.

Lemma user_pte_maps q phys f : flags_ok f -> maps q (user_pte phys f) = (page_base phys / PAGE_SIZE =? q).
Proof.
  intros Hf. unfold user_pte. rewrite maps_flags by (by apply user_flags).
  by rewrite user_flags_present.
Qed.

(** *** [vmm_map_user] in one equation *)
Definition user_page (virt : Z) : bool := user_range virt && slot_ok (dir_index virt).

Lemma vmm_map_user_eq i virt phys flags st :
  vmm_map_user utab_addr (Some i) virt phys flags st =
    if user_page virt
    then (0, set_space i (set_pte (dir_index virt - 1) (tab_index virt) (user_pte phys flags)
               (use_table (Z.lor (Z.lor (Z.lor (utab_addr i (dir_index virt - 1)) PAGE_PRESENT)
                             PAGE_WRITE) PAGE_USER)
                  (dir_index virt) (dir_index virt - 1) (spaces st).[i])) st)
    else (-1, st).
Proof.
  unfold vmm_map_user, user_page. destruct (user_range virt); [|done].
  by destruct (slot_ok (dir_index virt)).
Qed.

Lemma user_page_slot virt : user_page virt = true -> 0 <= dir_index virt - 1 < 8.
Proof. unfold user_page. intros Hp. apply slot_ok_range. lia. Qed.

Section map_user.
Context (i virt phys flags : Z) (st st' : vmm S).
Hypothesis (Hw : vmm_wf st) (Hi : 0 <= i < 32).
Hypothesis (Hm : vmm_map_user utab_addr (Some i) virt phys flags st = (0, st')).

Lemma map_user_page : user_page virt = true.
Proof using Hm. revert Hm. rewrite vmm_map_user_eq. by destruct (user_page virt). Qed.

Lemma map_user_same :
  kmaps st' = kmaps st /\ space_used st' = space_used st /\
  current_space st' = current_space st /\ frames st' = frames st /\ mem st' = mem st.
Proof using Hm. revert Hm. rewrite vmm_map_user_eq. case_match; [|done]. by intros [= <-]. Qed.

Lemma map_user_entry t j :
  0 <= t < 8 -> 0 <= j < 1024 ->
  entry (spaces st').[i] t j =
    if (dir_index virt - 1 =? t) && (tab_index virt =? j) then user_pte phys flags
    else entry (spaces st).[i] t j.
Proof using Hw Hi Hm.
  intros Ht Hj. pose proof map_user_page as Hp. revert Hm. rewrite vmm_map_user_eq, Hp.
  intros [= <-]. rewrite spaces_set, Z.eqb_refl by (done || lia).
  pose proof (user_page_slot _ Hp). pose proof (tab_index_range virt).
  rewrite set_pte_entry by (done || lia || (apply use_table_ok; [by apply Hw|lia])).
  by rewrite use_table_entry.
Qed.

Lemma map_user_other i' : 0 <= i' -> i' <> i -> (spaces st').[i'] = (spaces st).[i'].
Proof using Hw Hi Hm.
  intros Hi' Hne. pose proof map_user_page as Hp. revert Hm. rewrite vmm_map_user_eq, Hp.
  intros [= <-]. rewrite spaces_set by (done || lia). destruct (Z.eqb_spec i i'); congruence.
Qed.

Lemma map_user_vmas : vmas (spaces st').[i] = vmas (spaces st).[i].
Proof using Hw Hi Hm.
  pose proof map_user_page as Hp. revert Hm. rewrite vmm_map_user_eq, Hp.
  intros [= <-]. rewrite spaces_set, Z.eqb_refl by (done || lia). apply use_table_vmas.
Qed.

Lemma map_user_wf : vmm_wf st'.
Proof using Hw Hi Hm.
  pose proof map_user_page as Hp. revert Hm. rewrite vmm_map_user_eq, Hp. intros [= <-].
  eapply vmm_wf_update; [exact Hw|exact Hi| |done..|apply Hw].
  pose proof (user_page_slot _ Hp). assert (space_ok (spaces st).[i]) by (by apply Hw).
  apply set_pte_ok; auto using tab_index_range with kernel.
Qed.

Lemma map_user_count q :
  flags_ok flags -> (space_used st).[i] = true ->
  mapped_by st' q = mapped_by st q
    - b2z (maps q (entry (spaces st).[i] (dir_index virt - 1) (tab_index virt)))
    + b2z (page_base phys / PAGE_SIZE =? q).
Proof using Hw Hi Hm.
  intros Hf Hu. pose proof map_user_page as Hp. pose proof (user_page_slot _ Hp).
  pose proof (tab_index_range virt).
  destruct map_user_same as (_ & Eu & _).
  rewrite (mapped_by_update st st' q i (dir_index virt - 1) (tab_index virt)); try done.
  - rewrite map_user_entry, !Z.eqb_refl by done. cbn [andb]. by rewrite user_pte_maps.
  - intros i' t' j' Hi' Ht' Hj' Hne. destruct (decide (i' = i)) as [->|].
    + rewrite map_user_entry by done.
      destruct (Z.eqb_spec (dir_index virt - 1) t'), (Z.eqb_spec (tab_index virt) j'); try done.
      congruence.
    + by rewrite map_user_other by (done || lia).
Qed.
End map_user.

(** Mapping a frame the caller holds a reference for. *)
Lemma map_user_inv i virt phys flags st rc st' :
  vmm_inv st -> 0 <= i < 32 -> (space_used st).[i] = true -> flags_ok flags ->
  mapped_by st (page_base phys / PAGE_SIZE) < frame_refs (frames st) (page_base phys / PAGE_SIZE) ->
  vmm_map_user utab_addr (Some i) virt phys flags st = (rc, st') -> vmm_inv st'.
Proof.
  intros [Hw Hle] Hi Hu Hf Hown Hm.
  destruct (user_page virt) eqn:Hp.
  2: { rewrite vmm_map_user_eq, Hp in Hm. by simplify_eq. }
  assert (rc = 0) as -> by (rewrite vmm_map_user_eq, Hp in Hm; congruence).
  split; [by eapply map_user_wf|]. intros q.
  rewrite (map_user_count i virt phys flags st st' Hw Hi Hm q Hf Hu).
  destruct (map_user_same i virt phys flags st st' Hm) as (_ & _ & _ & -> & _).
  specialize (Hle q). unfold b2z. destruct (Z.eqb_spec (page_base phys / PAGE_SIZE) q) as [<-|];
    case_match; lia.
Qed.

(** *** [vmm_unmap_user] *)
Lemma vmm_unmap_user_eq i virt st :
  vmm_wf st -> 0 <= i < 32 ->
  vmm_unmap_user (Some i) virt st =
    let e := entry (spaces st).[i] (dir_index virt - 1) (tab_index virt) in
    if user_page virt && has e PAGE_PRESENT
    then (0, set_space i (set_pte (dir_index virt - 1) (tab_index virt) 0 (spaces st).[i])
               (with_frames (free_page (page_base e) (frames st)) st))
    else (-1, st).
Proof.
  intros Hw Hi. unfold vmm_unmap_user, user_page. cbn zeta. fold (entry (spaces st).[i] (dir_index virt - 1) (tab_index virt)).
  destruct (user_range virt); [|done]. destruct (slot_ok (dir_index virt)) eqn:Hs; [|done]. cbn.
  destruct (has (entry _ _ _) PAGE_PRESENT) eqn:Hp; [|by case_match].
  erewrite entry_unused; [done| | | |exact Hp]; [by apply Hw|by apply slot_ok_range|apply tab_index_range].
Qed.

Lemma unmap_user_inv i virt st rc st' :
  vmm_inv st -> 0 <= i < 32 -> (space_used st).[i] = true ->
  vmm_unmap_user (Some i) virt st = (rc, st') -> vmm_inv st'.
Proof.
  intros [Hw Hle] Hi Hu. rewrite vmm_unmap_user_eq by done. cbn zeta.
  set (t := dir_index virt - 1). set (j := tab_index virt).
  destruct (user_page virt && _) eqn:Hc; intros [= <- <-]; [|done].
  apply andb_true_iff in Hc as [Hp He]. pose proof (user_page_slot _ Hp) as Ht.
  pose proof (tab_index_range virt) as Hj. set (e := entry _ t j) in *.
  assert (maps (page_base e / PAGE_SIZE) e = true) as Hmq by (unfold maps; rewrite He, Z.eqb_refl; done).
  pose proof (mapped_by_pos st _ i t j Hi Ht Hj Hu Hmq) as Hpos.
  destruct (free_some (frames st) (page_base e)) as [Hok Hrefs];
    [apply Hw|specialize (Hle (page_base e / PAGE_SIZE)); lia|].
  assert (vmm_wf (with_frames (free_page (page_base e) (frames st)) st)) as Hwf by (destruct Hw; by split).
  assert (space_ok (spaces st).[i]) as Hsp by (by apply Hw).
  split.
  - eapply vmm_wf_update; [exact Hwf|exact Hi| |done..].
    apply set_pte_ok; [done..|]. by eapply entry_unused.
  - intros q. rewrite (mapped_by_set _ i _ t j) by
      (done || (intros t' j' ?? Hne; rewrite set_pte_entry by (done || lia);
        destruct (Z.eqb_spec t t'), (Z.eqb_spec j j'); try done; congruence)).
    rewrite set_pte_entry, !Z.eqb_refl by (done || lia). cbn [andb b2z].
    cbn [frames set_space with_spaces with_frames spaces]. fold e. rewrite mapped_by_frames, Hrefs.
    specialize (Hle q). rewrite maps_0. cbn [b2z]. unfold maps. rewrite He. cbn [andb].
    rewrite (Z.eqb_sym q). unfold b2z. case_match; lia.
Qed.

(** *** Creating and retaining *)
Lemma entry_fresh d (vs : list vma) r t j :
  0 <= t < 8 -> 0 <= j < 1024 ->
  entry (mkSpace d (replicate 8 (replicate 1024 0)) (replicate 8 false) vs r) t j = 0.
Proof.
  intros Ht Hj. unfold entry. cbn [user_tables]. rewrite (aget_replicate 8) by lia.
  rewrite (aget_replicate 1024) by lia. done.
Qed.

Lemma fresh_space_ok d vs r :
  length d = 1024%nat -> length vs = 64%nat ->
  space_ok (mkSpace d (replicate 8 (replicate 1024 0)) (replicate 8 false) vs r).
Proof.
  intros Hd Hv. split; cbn [page_directory user_tables table_used vmas]; try done.
  - intros t Ht. rewrite (aget_replicate 8) by lia. apply length_replicate.
  - intros t j Ht Hj _. by apply (entry_fresh d vs r).
Qed.

Section create.
Context (st st' : vmm S) (i : Z).
Hypothesis (Hc : vmm_create_address_space st = (Some i, st')).

Lemma create_unused : 0 <= i < 32 /\ (space_used st).[i] = false.
Proof using Hc.
  revert Hc. unfold vmm_create_address_space. case_match eqn:E; [|done]. intros [= -> _].
  apply find_from_Some in E as (Hr & Ht & _). split; [const_lia|]. by apply negb_true_iff.
Qed.

Lemma create_same : kmaps st' = kmaps st /\ current_space st' = current_space st /\
  frames st' = frames st /\ mem st' = mem st /\ space_used st' = (space_used st).[i <- true].
Proof using Hc.
  revert Hc. unfold vmm_create_address_space. case_match eqn:E; [|done]. by intros [= -> <-].
Qed.

Lemma create_space : exists d vs, spaces st' = (spaces st).[i <-
    mkSpace d (replicate 8 (replicate 1024 0)) (replicate 8 false) vs 1] /\
  d = kernel_directory (kmaps st) /\ length vs = length (vmas (spaces st).[i]).
Proof using Hc.
  revert Hc. unfold vmm_create_address_space. case_match eqn:E; [|done]. intros [= -> <-].
  do 2 eexists. split_and!; [reflexivity..|]. by rewrite length_fmap.
Qed.

Lemma create_entry t j : vmm_wf st -> 0 <= t < 8 -> 0 <= j < 1024 -> entry (spaces st').[i] t j = 0.
Proof using Hc.
  intros Hw Ht Hj. destruct create_space as (d & vs & -> & _). destruct create_unused as [Hi _].
  rewrite aget_aset_eq by (rewrite vw_spaces by done; lia). by apply entry_fresh.
Qed.

Lemma create_inv : vmm_inv st -> vmm_inv st'.
Proof using Hc.
  intros [Hw Hle]. destruct create_unused as [Hi Hu].
  destruct create_same as (Ek & Ec & Ef & _ & Eu). destruct create_space as (d & vs & Es & Hd & Hv).
  pose proof (fun t j => create_entry t j Hw) as He.
  destruct Hw as [H1 H2 H3 H4 H5 H6]. split; [split|]; rewrite ?Ek, ?Ec, ?Ef, ?Eu, ?Es; try done.
  - by rewrite aset_length.
  - by rewrite aset_length.
  - intros i' Hi'. rewrite (aget_aset (spaces st)) by (rewrite ?H2; lia). case_match; [|by apply H4].
    apply fresh_space_ok; [subst d; apply H1|]. rewrite Hv. by apply H4.
  - intros i' Hc'. destruct (H5 i' Hc'). split; [done|].
    rewrite aget_aset by (rewrite ?H3; lia). by case_match.
  - intros q. etransitivity; [|apply Hle]. apply Z.eq_le_incl, count_ext.
    intros [i' [t j]] (Hi' & Ht & Hj)%elem_of_slots. unfold slot_maps.
    rewrite Eu, aget_aset by (rewrite ?H3; lia). destruct (Z.eqb_spec i i') as [<-|Hne].
    + rewrite He, Hu by done. done.
    + rewrite Es, aget_aset_ne by lia. done.
Qed.
End create.

Lemma wf_refs st i n : vmm_wf st -> 0 <= i < 32 ->
  vmm_wf (set_space i (with_refs_of n (spaces st).[i]) st).
Proof.
  intros Hw Hi. eapply vmm_wf_update; [exact Hw|exact Hi| |done..|apply Hw].
  destruct (vw_space _ Hw i Hi). by split.
Qed.

Lemma mapped_by_refs st i n q : vmm_wf st -> 0 <= i < 32 ->
  mapped_by (set_space i (with_refs_of n (spaces st).[i]) st) q = mapped_by st q.
Proof.
  intros Hw Hi. apply mapped_by_ext; [done|]. intros i' t j Hi' _ _ _.
  rewrite spaces_set by (done || lia). destruct (Z.eqb_spec i i') as [<-|]; done.
Qed.

Lemma retain_inv st i : vmm_inv st -> 0 <= i < 32 -> vmm_inv (vmm_retain_address_space (Some i) st).
Proof.
  intros [Hw Hle] Hi. unfold vmm_retain_address_space. split; [by apply wf_refs|].
  intros q. rewrite mapped_by_refs by done. apply Hle.
Qed.

(** *** Destroying *)
Definition free_entry (s : address_space) (f : S) (tj : Z * Z) : S :=
  let pte := entry s tj.1 tj.2 in if has pte PAGE_PRESENT then free_page (page_base pte) f else f.

Lemma list_as_seqZ (l : list Z) n :
  length l = n -> l = (fun j => l.[j]) <$> seqZ 0 (Z.of_nat n).
Proof.
  intros Hn. apply list_eq. intros k. rewrite list_lookup_fmap.
  destruct (decide (k < n)%nat).
  - rewrite lookup_seqZ_lt by lia. cbn. unfold aget. rewrite Z.add_0_l, Nat2Z.id.
    apply list_lookup_lookup_total_lt. lia.
  - rewrite lookup_seqZ_ge, lookup_ge_None_2 by lia. done.
Qed.

Lemma foldl_ext_in {A B} (f g : A -> B -> A) l a :
  (forall a x, x ∈ l -> f a x = g a x) -> foldl f a l = foldl g a l.
Proof.
  revert a. induction l as [|x l IH]; intros a Hfg; [done|]. cbn [foldl].
  rewrite Hfg by set_solver. apply IH. set_solver.
Qed.

(** The loops of [vmm_destroy_address_space], as one pass over all entries. *)
Lemma free_tables_entries s f : space_ok s -> free_tables s f = foldl (free_entry s) f entries.
Proof.
  intros Hs. unfold free_tables, for_range. rewrite entries_eq, foldl_pairs.
  apply foldl_ext_in. intros g t Ht%elem_of_seqZ. unfold free_table.
  rewrite (list_as_seqZ (user_tables s).[t] 1024) by (apply so_table; [done|lia]).
  rewrite foldl_fmap. case_match eqn:Hu.
  - done.
  - symmetry. transitivity (foldl (fun (g : S) (_ : Z) => g) g (seqZ 0 1024)).
    + apply foldl_ext_in. intros g' j Hj%elem_of_seqZ. unfold free_entry, entry. cbn.
      rewrite so_unused by (done || lia). done.
    + clear. generalize (seqZ 0 1024). induction l; [done|]. done.
Qed.

Lemma free_entries_spec s es f :
  frame_ok f -> (forall q, count (fun x => maps q (entry s x.1 x.2)) es <= frame_refs f q) ->
  frame_ok (foldl (free_entry s) f es) /\
  forall q, frame_refs (foldl (free_entry s) f es) q =
    frame_refs f q - count (fun x => maps q (entry s x.1 x.2)) es.
Proof.
  revert f. induction es as [|e es IH]; intros f Hf Hle.
  { split; [done|]. intros q. unfold count. cbn. lia. }
  cbn [foldl]. unfold free_entry at 2 4. set (pte := entry s e.1 e.2).
  setoid_rewrite count_cons in Hle. setoid_rewrite count_cons. fold pte in Hle |- *.
  unfold maps at 1 in Hle. unfold maps at 1. destruct (has pte PAGE_PRESENT); cbn [andb] in *.
  - destruct (free_some f (page_base pte)) as [Hok Hr]; [done|..].
    { specialize (Hle (page_base pte / PAGE_SIZE)). rewrite Z.eqb_refl in Hle.
      pose proof (count_nonneg (fun x => maps (page_base pte / PAGE_SIZE) (entry s x.1 x.2)) es). lia. }
    destruct (IH _ Hok) as [Hok' Hr'].
    { intros q. rewrite Hr. specialize (Hle q). rewrite (Z.eqb_sym q). case_match; lia. }
    split; [done|]. intros q. rewrite Hr', Hr, (Z.eqb_sym q). case_match; lia.
  - destruct (IH f Hf) as [Hok' Hr']; [intros q; specialize (Hle q); lia|].
    split; [done|]. intros q. rewrite Hr'. lia.
Qed.

(** The mappings of one live space are part of all mappings. *)
Lemma mapped_by_space st st' i q :
  0 <= i < 32 -> (space_used st).[i] = true -> space_used st' = (space_used st).[i <- false] ->
  length (space_used st) = 32%nat ->
  (forall i' t j, 0 <= i' < 32 -> i' <> i -> entry (spaces st').[i'] t j = entry (spaces st).[i'] t j) ->
  mapped_by st q = mapped_by st' q + count (fun x => maps q (entry (spaces st).[i] x.1 x.2)) entries.
Proof.
  intros Hi Hu Eu Hl He. unfold mapped_by. rewrite (count_split (slot_maps st q) (slot_maps st' q)).
  - f_equal. rewrite <- (count_row _ (seqZ 0 MAX_SPACES) entries i);
      [|apply NoDup_seqZ|apply elem_of_seqZ; const_lia].
    rewrite <- slots_eq. apply count_ext. intros [i' [t j]] (Hi' & Ht & Hj)%elem_of_slots. cbn [fst snd].
    unfold slot_maps. rewrite Eu, aget_aset by (rewrite ?Hl; lia).
    destruct (Z.eqb_spec i i') as [<-|Hne].
    + rewrite bool_decide_true, Hu by done. cbn. lia.
    + rewrite bool_decide_false by done. rewrite He by done. lia.
  - intros [i' [t j]] (Hi' & Ht & Hj)%elem_of_slots. unfold slot_maps.
    rewrite Eu, aget_aset by (rewrite ?Hl; lia).
    destruct (Z.eqb_spec i i') as [<-|Hne]; [done|]. by rewrite He.
Qed.

Lemma count_space_le st i q :
  vmm_inv st -> 0 <= i < 32 -> (space_used st).[i] = true ->
  count (fun x => maps q (entry (spaces st).[i] x.1 x.2)) entries <= frame_refs (frames st) q.
Proof.
  intros [Hw Hle] Hi Hu.
  pose proof (mapped_by_space st (with_space_used ((space_used st).[i <- false]) st) i q Hi Hu
                eq_refl (vw_used _ Hw) ltac:(done)) as Hm.
  specialize (Hle q).
  pose proof (count_nonneg (slot_maps (with_space_used ((space_used st).[i <- false]) st) q) slots).
  unfold mapped_by in *. lia.
Qed.

Lemma destroy_inv st i :
  vmm_inv st -> 0 <= i < 32 -> vmm_inv (vmm_destroy_address_space (Some i) st).
Proof.
  intros Hinv Hi. pose proof Hinv as [Hw Hle]. unfold vmm_destroy_address_space.
  destruct (refs _ =? 0); [exact Hinv|]. set (s := (spaces st).[i]). set (st1 := set_space i _ st).
  assert (vmm_inv st1) as Hinv1.
  { split; [by apply wf_refs|]. intros q. unfold st1, s. rewrite mapped_by_refs by done. apply Hle. }
  destruct (negb _); [exact Hinv1|]. change (space_used st1) with (space_used st).
  destruct ((space_used st).[i]) eqn:Hu; [|exact Hinv1]. destruct Hinv1 as [Hw1 Hle1].
  set (st2 := if decide _ then _ else _).
  assert (frames st2 = frames st /\ kmaps st2 = kmaps st /\ spaces st2 = spaces st1 /\
    space_used st2 = space_used st /\ forall k, current_space st2 = Some k -> current_space st = Some k /\ k <> i)
    as (Ef & Ek & Es & Eu & Ec).
  { unfold st2. destruct (decide _) as [Hd|Hd]; split_and!; try done.
    cbn. intros k Hk. split; [done|]. intros ->. done. }
  rewrite free_tables_entries by (by apply Hw). rewrite Ef, Eu.
  destruct (free_entries_spec s entries (frames st)) as [Hok Hr];
    [apply Hw|intros q; by apply count_space_le|].
  set (st3 := with_space_used _ _).
  split.
  - destruct Hw1 as [H1 H2 H3 H4 H5 H6]. split; cbn [kmaps spaces space_used current_space frames with_space_used with_frames st3].
    + by rewrite Ek.
    + by rewrite Es.
    + rewrite aset_length. apply Hw.
    + intros i' Hi'. rewrite Es. by apply H4.
    + intros k Hk. destruct (Ec k Hk) as [Hk' Hne]. destruct (vw_current _ Hw k Hk').
      split; [done|]. rewrite aget_aset_ne by lia. done.
    + done.
  - intros q. cbn [frames with_space_used with_frames st3]. rewrite Hr. specialize (Hle1 q).
    rewrite (mapped_by_space st1 st3 i q) in Hle1; cbn [space_used with_space_used st3 st1]; try done.
    + rewrite (count_ext _ (fun x => maps q (entry s x.1 x.2))) in Hle1; [|intros x _].
      * change (frames st1) with (frames st) in Hle1. lia.
      * unfold st1. by rewrite spaces_set, Z.eqb_refl by (done || lia).
    + apply Hw.
    + intros i' t j _ _. change (spaces st3) with (spaces st2). by rewrite Es.
Qed.

Lemma switch_inv st sp :
  vmm_inv st -> (forall i, sp = Some i -> 0 <= i < 32 /\ (space_used st).[i] = true) ->
  vmm_inv (vmm_switch_address_space sp st).
Proof. intros [[H1 H2 H3 H4 H5 H6] Hle] Hsp. split; [by split|apply Hle]. Qed.

(** *** Fresh frames *)
Definition live st (i : Z) : Prop := 0 <= i < 32 /\ (space_used st).[i] = true.

Lemma frames_inv st f :
  vmm_inv st -> frame_ok f -> (forall q, mapped_by st q <= frame_refs f q) -> vmm_inv (with_frames f st).
Proof. intros [[H1 H2 H3 H4 H5 H6] Hle] Hf Hq. split; [by split|apply Hq]. Qed.

Lemma vmas_inv st i l :
  vmm_inv st -> 0 <= i < 32 -> length l = 64%nat ->
  vmm_inv (set_space i (with_vmas l (spaces st).[i]) st).
Proof.
  intros [Hw Hle] Hi Hl. split.
  - eapply vmm_wf_update; [exact Hw|exact Hi| |done..|apply Hw].
    destruct (vw_space _ Hw i Hi). by split.
  - intros q. etransitivity; [|apply Hle]. apply Z.eq_le_incl, mapped_by_ext; [done|].
    intros i' t j Hi' _ _ _. rewrite spaces_set by (done || lia).
    destruct (Z.eqb_spec i i') as [<-|]; done.
Qed.

(** A frame fresh from the allocator is mapped nowhere. *)
Lemma alloc_unmapped st p f :
  vmm_inv st -> alloc_page (frames st) = (p, f) -> p <> 0 ->
  vmm_inv (with_frames f st) /\ page_base p = p /\ 0 < p < 268435456 /\ p mod PAGE_SIZE = 0 /\
  mapped_by st (p / PAGE_SIZE) = 0 /\ frame_refs f (p / PAGE_SIZE) = 1.
Proof.
  intros Hinv Ha Hne. pose proof Hinv as [Hw Hle].
  destruct (alloc_some _ _ _ (vw_frames _ Hw) Ha Hne) as (Hok & Hr & Hal & Hz & Hq).
  pose proof (count_nonneg (slot_maps st (p / PAGE_SIZE)) slots) as Hnn.
  split_and!; try done; try lia.
  - apply frames_inv; [done..|]. intros q. rewrite Hq. specialize (Hle q).
    destruct (Z.eqb_spec q (p / PAGE_SIZE)) as [->|]; lia.
  - apply page_base_aligned; [word_lia|done].
  - specialize (Hle (p / PAGE_SIZE)). unfold mapped_by in *. lia.
  - by rewrite Hq, Z.eqb_refl.
Qed.

Lemma alloc_fail_inv st f : vmm_inv st -> alloc_page (frames st) = (0, f) -> vmm_inv (with_frames f st).
Proof.
  intros Hinv Ha. rewrite (alloc_fail _ _ (vw_frames _ (proj1 Hinv)) Ha). by destruct st.
Qed.

(** [pmm_alloc_page]; [vmm_map_user]; on failure [pmm_free_page]. *)
Lemma alloc_map_inv st p f i va flags rc st' :
  vmm_inv st -> live st i -> flags_ok flags -> alloc_page (frames st) = (p, f) -> p <> 0 ->
  vmm_map_user utab_addr (Some i) va p flags (with_frames f st) = (rc, st') ->
  vmm_inv st' /\ live st' i /\ (rc <> 0 -> vmm_inv (with_frames (free_page p (frames st')) st')).
Proof.
  intros Hinv [Hi Hu] Hf Ha Hne Hm.
  destruct (alloc_unmapped _ _ _ Hinv Ha Hne) as (Hinv' & Hb & Hr & Hal & Hz & Hone).
  split_and!.
  - eapply map_user_inv; [exact Hinv'|exact Hi|exact Hu|exact Hf| |exact Hm].
    rewrite Hb. rewrite mapped_by_frames. cbn [frames with_frames]. lia.
  - split; [done|]. rewrite vmm_map_user_eq in Hm. case_match; by simplify_eq.
  - intros Hrc. rewrite vmm_map_user_eq in Hm. case_match; [by simplify_eq|].
    injection Hm as _ <-. cbn [frames with_frames].
    destruct (free_some f p) as [Hok Hq]; [apply Hinv'|lia|].
    apply frames_inv; [done..|]. intros q. rewrite Hq. pose proof (proj2 Hinv' q) as Hle.
    cbn [frames with_frames] in Hle. destruct (Z.eqb_spec q (p / PAGE_SIZE)) as [->|]; [|lia].
    rewrite mapped_by_frames in *. lia.
Qed.

(** *** The ranges *)
Lemma unmap_user_live st i virt k : live st k -> live (snd (vmm_unmap_user (Some i) virt st)) k.
Proof. unfold vmm_unmap_user. by repeat case_match. Qed.

Lemma unmap_user_snd st i virt :
  vmm_inv st -> live st i -> vmm_inv (snd (vmm_unmap_user (Some i) virt st)).
Proof.
  intros Hinv [Hi Hu]. destruct (vmm_unmap_user (Some i) virt st) eqn:E. by eapply unmap_user_inv.
Qed.

Lemma user_alloc_inv n i virt flags st :
  vmm_inv st -> live st i -> flags_ok flags ->
  vmm_inv (snd (user_alloc_loop utab_addr n (Some i) virt flags st)).
Proof.
  revert virt st. induction n as [|n IH]; intros virt st Hinv Hl Hf; [exact Hinv|].
  cbn [user_alloc_loop]. destruct (alloc_page (frames st)) as [p f] eqn:Ha.
  destruct (Z.eqb_spec p 0) as [->|Hne]; [by apply alloc_fail_inv|].
  destruct (vmm_map_user _ _ _ _ _ _) as [rc st'] eqn:Hm.
  destruct (alloc_map_inv _ _ _ _ _ _ _ _ Hinv Hl Hf Ha Hne Hm) as (Hinv' & Hl' & Hfr).
  destruct (Z.eqb_spec rc 0) as [->|Hrc]; cbn [negb]; [by apply IH|by apply Hfr].
Qed.

Lemma rollback_inv n i base st : vmm_inv st -> live st i -> vmm_inv (rollback n i base st).
Proof.
  revert st. induction n as [|n IH]; intros st Hinv Hl; [exact Hinv|]. cbn [rollback].
  apply IH; [by apply unmap_user_snd|by apply unmap_user_live].
Qed.

Lemma map_pages_inv n k i base flags st :
  vmm_inv st -> live st i -> flags_ok flags ->
  vmm_inv (snd (map_pages utab_addr n k i base flags st)).
Proof.
  revert k st. induction n as [|n IH]; intros k st Hinv Hl Hf; [exact Hinv|].
  cbn [map_pages]. destruct (alloc_page (frames st)) as [p f] eqn:Ha.
  destruct (Z.eqb_spec p 0) as [->|Hne]; [by apply rollback_inv; [apply alloc_fail_inv|]|].
  destruct (vmm_map_user _ _ _ _ _ _) as [rc st'] eqn:Hm.
  assert (flags_ok (Z.lor flags PAGE_WRITE)) as Hf' by (apply flags_lor; [exact Hf|const_lia]).
  destruct (alloc_map_inv _ _ _ _ _ _ _ _ Hinv Hl Hf' Ha Hne Hm) as (Hinv' & Hl' & Hfr).
  destruct (Z.eqb_spec rc 0) as [->|Hrc]; cbn [negb]; [by apply IH|].
  apply rollback_inv; [by apply Hfr|exact Hl'].
Qed.

Lemma space_vmas_length st i : vmm_inv st -> 0 <= i < 32 -> length (vmas (spaces st).[i]) = 64%nat.
Proof. intros [Hw _] Hi. by apply Hw. Qed.

Lemma map_range_inv i virt pages flags st :
  vmm_inv st -> live st i -> flags_ok flags ->
  vmm_inv (snd (vmm_map_range utab_addr (Some i) virt pages flags st)).
Proof.
  intros Hinv Hl Hf. unfold vmm_map_range. destruct ((pages =? 0) || _); [exact Hinv|]. cbn zeta.
  destruct (_ || range_mapped _ _ _ _); [exact Hinv|]. destruct (free_vma_slot _); [|exact Hinv].
  match goal with |- context [map_pages ?u ?n ?k ?i ?b ?f ?s] =>
    pose proof (map_pages_inv n k i b f s Hinv Hl Hf); destruct (map_pages u n k i b f s) as [ok st'] end.
  destruct ok; cbn [negb snd]; [|assumption]. apply vmas_inv; [assumption|apply Hl|].
  rewrite aset_length. apply space_vmas_length; [assumption|apply Hl].
Qed.

Lemma map_lazy_range_inv i virt pages flags st :
  vmm_inv st -> 0 <= i < 32 -> vmm_inv (snd (vmm_map_lazy_range (Some i) virt pages flags st)).
Proof.
  intros Hinv Hi. unfold vmm_map_lazy_range. destruct ((pages =? 0) || _); [exact Hinv|]. cbn zeta.
  destruct (bad_range _ _ || _); [exact Hinv|]. destruct (free_vma_slot _); [|exact Hinv].
  cbn [snd]. apply vmas_inv; [done..|]. rewrite aset_length. by apply space_vmas_length.
Qed.

Lemma trim_vma_length slot virt e l : length (trim_vma slot virt e l) = length l.
Proof. unfold trim_vma. repeat case_match; by rewrite ?aset_length. Qed.

Lemma unmap_range_inv i virt pages st :
  vmm_inv st -> live st i -> vmm_inv (snd (vmm_unmap_range (Some i) virt pages st)).
Proof.
  intros Hinv Hl. unfold vmm_unmap_range. destruct ((pages =? 0) || _ || _); [exact Hinv|]. cbn zeta.
  destruct (_ || (USER_END <? _)); [exact Hinv|]. destruct (existsb _ _); [exact Hinv|].
  destruct (find_from _ _ _); [|exact Hinv]. cbn [snd].
  match goal with |- context [for_range ?lo ?hi ?b ?s] =>
    assert (vmm_inv (for_range lo hi b s) /\ live (for_range lo hi b s) i) as [Hinv' Hl'] end.
  { apply (for_range_pres (fun st => vmm_inv st /\ live st i)); [done|].
    intros k s _ [Hs Hls]. split; [by apply unmap_user_snd|by apply unmap_user_live]. }
  apply vmas_inv; [exact Hinv'|apply Hl|]. rewrite trim_vma_length.
  apply space_vmas_length; [exact Hinv'|apply Hl].
Qed.

(** *** Faults on shared pages *)
Lemma kmap_do_inv st virt phys flags : vmm_inv st -> vmm_inv (kmap_do virt phys flags st).
Proof. intros [[H1 H2 H3 H4 H5 H6] Hle]. split; [split; cbn; auto with kernel|apply Hle]. Qed.
Lemma mem_inv st m : vmm_inv st -> vmm_inv (with_mem m st).
Proof. intros [[H1 H2 H3 H4 H5 H6] Hle]. split; [by split|apply Hle]. Qed.

(** The state just before the handler installs the private copy: only the window
    and the copied bytes have changed. *)
Definition copied (pte new_page : Z) (f : S) st : vmm S :=
  let st := with_frames f st in
  let st := kmap_do COPY_WINDOW (page_base pte) 0 st in
  let copy_page := read_page COPY_WINDOW st in
  let st := kmap_do COPY_WINDOW new_page PAGE_WRITE st in
  let st := write_page COPY_WINDOW copy_page st in
  kmap_do COPY_WINDOW COPY_WINDOW PAGE_WRITE st.

Definition private_pte (new_page : Z) : Z :=
  Z.lor (Z.lor (Z.lor new_page PAGE_PRESENT) PAGE_USER) PAGE_WRITE.

Lemma cow_page_eq i page pte st :
  cow_page i page pte st =
    let '(new_page, f) := alloc_page (frames st) in
    if new_page =? 0 then Panicked "out of memory resolving COW fault" (with_frames f st)
    else
      let st := copied pte new_page f st in
      let st := set_space i (set_pte (dir_index page - 1) (tab_index page) (private_pte new_page)
                  (spaces st).[i]) st in
      Done tt (with_frames (free_page (page_base pte) (frames st)) st).
Proof. reflexivity. Qed.

Lemma private_pte_flags new_page : page_base new_page = new_page ->
  private_pte new_page = Z.lor (page_base new_page) 7.
Proof. intros Hb. unfold private_pte. rewrite Hb, <- !Z.lor_assoc. done. Qed.

Lemma maps_private q new_page : page_base new_page = new_page ->
  maps q (private_pte new_page) = (new_page / PAGE_SIZE =? q).
Proof. intros Hb. rewrite private_pte_flags, maps_flags, Hb by (done || lia). done. Qed.

Lemma copied_same pte new_page f st :
  spaces (copied pte new_page f st) = spaces st /\
  space_used (copied pte new_page f st) = space_used st /\
  current_space (copied pte new_page f st) = current_space st /\
  frames (copied pte new_page f st) = f.
Proof. done. Qed.

(** [vmm_inv] for the private copy: the new frame's only reference is its new
    mapping; the old frame loses the mapping and one reference. *)
Lemma private_inv i t j pte new_page st :
  vmm_inv st -> live st i -> 0 <= t < 8 -> 0 <= j < 1024 ->
  pte = entry (spaces st).[i] t j -> has pte PAGE_PRESENT = true ->
  page_base new_page = new_page -> mapped_by st (new_page / PAGE_SIZE) = 0 ->
  frame_refs (frames st) (new_page / PAGE_SIZE) = 1 ->
  let st' := set_space i (set_pte t j (private_pte new_page) (spaces st).[i]) st in
  vmm_inv (with_frames (free_page (page_base pte) (frames st')) st').
Proof.
  intros Hinv [Hi Hu] Ht Hj -> Hp Hb Hz Hone st'. pose proof Hinv as [Hw Hle].
  set (pte := entry (spaces st).[i] t j) in *. set (old := page_base pte / PAGE_SIZE).
  assert (maps old pte = true) as Hmo by (unfold maps; rewrite Hp, Z.eqb_refl; done).
  pose proof (mapped_by_pos st _ i t j Hi Ht Hj Hu Hmo) as Hpos.
  destruct (free_some (frames st) (page_base pte)) as [Hok Hq]; [apply Hw|fold old; specialize (Hle old); lia|].
  assert (space_ok (spaces st).[i]) as Hs by (by apply Hw).
  split.
  - eapply (vmm_wf_update (with_frames (free_page (page_base pte) (frames st)) st));
      [|exact Hi| |reflexivity..|exact Hok].
    + destruct Hw; by split.
    + apply set_pte_ok; [done..|]. by eapply entry_unused.
  - intros q. change (mapped_by (with_frames _ st') q) with (mapped_by st' q).
    unfold st'. rewrite (mapped_by_set st i _ t j) by (done || (intros t' j' ?? Hne;
      rewrite set_pte_entry by (done || lia);
      destruct (Z.eqb_spec t t'), (Z.eqb_spec j j'); try done; congruence)).
    rewrite set_pte_entry, !Z.eqb_refl by (done || lia). cbn [andb].
    rewrite maps_private by done. cbn [frames with_frames set_space with_spaces]. rewrite Hq.
    fold pte. unfold maps. rewrite Hp. cbn [andb]. fold old. rewrite (Z.eqb_sym q).
    specialize (Hle q). unfold b2z.
    destruct (Z.eqb_spec old q), (Z.eqb_spec (new_page / PAGE_SIZE) q) as [<-|]; lia.
Qed.

Lemma mapped_by_copied pte new_page f st q :
  mapped_by (copied pte new_page f st) q = mapped_by st q.
Proof. done. Qed.

Lemma copied_inv pte new_page f st :
  vmm_inv (with_frames f st) -> vmm_inv (copied pte new_page f st).
Proof. intros Hinv. unfold copied. apply kmap_do_inv, mem_inv, kmap_do_inv, kmap_do_inv, Hinv. Qed.

Lemma cow_page_inv i page pte st st' :
  vmm_inv st -> live st i -> slot_ok (dir_index page) = true ->
  pte = entry (spaces st).[i] (dir_index page - 1) (tab_index page) ->
  has pte PAGE_PRESENT = true -> cow_page i page pte st = Done tt st' -> vmm_inv st'.
Proof.
  intros Hinv Hl Hs He Hp. rewrite cow_page_eq. destruct (alloc_page (frames st)) as [new f] eqn:Ha.
  destruct (Z.eqb_spec new 0) as [->|Hne]; [done|]. intros [= <-].
  destruct (alloc_unmapped _ _ _ Hinv Ha Hne) as (Hinv' & Hb & _ & _ & Hz & Hone).
  apply (private_inv i (dir_index page - 1) (tab_index page) pte new (copied pte new f st));
    try done; [by apply copied_inv|by apply slot_ok_range|apply tab_index_range].
Qed.

(** *** Copy-on-write cloning *)
Definition cow_flags (pte : Z) : Z :=
  Z.land (Z.lor (page_off pte) PAGE_COW) (u32 (Z.lnot PAGE_WRITE)).

Lemma page_off_bound x : 0 <= page_off x < 4096.
Proof. rewrite page_off_mod. apply Z.mod_pos_bound. lia. Qed.

Lemma cow_flags_ok pte : flags_ok (cow_flags pte).
Proof.
  unfold cow_flags, flags_ok. rewrite Z.land_comm. apply (land_bound 12); [lia|].
  apply (flags_lor (page_off pte)); [apply page_off_bound|const_lia].
Qed.

Lemma has_page_off pte flag : 0 <= flag < 4096 -> has (page_off pte) flag = has pte flag.
Proof.
  intros Hf. unfold has, page_off. rewrite <- Z.land_assoc. do 3 f_equal.
  change 4095 with (Z.ones 12). rewrite Z.land_comm, Z.land_ones by lia. apply Z.mod_small. lia.
Qed.

Lemma has_cow_flags pte flag :
  0 <= flag < 4096 ->
  has (cow_flags pte) flag = has (Z.lor pte PAGE_COW) (Z.land flag 4093).
Proof.
  intros Hf. rewrite has_lor, <- (has_page_off pte) by (rewrite Z.land_comm; apply (land_bound 12); lia).
  rewrite <- has_lor. unfold has, cow_flags. do 2 f_equal. rewrite <- !Z.land_assoc. f_equal.
  change (u32 (Z.lnot PAGE_WRITE)) with 4294967293.
  apply Z.bits_inj'. intros n Hn. rewrite !Z.land_spec.
  destruct (Z.ltb_spec n 12).
  - rewrite andb_comm. f_equal.
    assert (forallb (fun n => eqb (Z.testbit 4294967293 n) (Z.testbit 4093 n)) (seqZ 0 12) = true) as Hall
      by reflexivity.
    pose proof (forall_seqZ _ _ _ Hall n ltac:(lia)) as Hb. exact (eqb_prop _ _ Hb).
  - rewrite (testbit_high 12 flag n) by lia. by rewrite andb_false_r.
Qed.

Lemma cow_flags_present pte : has (cow_flags pte) PAGE_PRESENT = has pte PAGE_PRESENT.
Proof. rewrite has_cow_flags, has_lor by const_lia. change (Z.land PAGE_PRESENT 4093) with PAGE_PRESENT.
  change (has PAGE_COW PAGE_PRESENT) with false. apply orb_false_r. Qed.
Lemma cow_flags_user pte : has (cow_flags pte) PAGE_USER = has pte PAGE_USER.
Proof. rewrite has_cow_flags, has_lor by const_lia. change (Z.land PAGE_USER 4093) with PAGE_USER.
  change (has PAGE_COW PAGE_USER) with false. apply orb_false_r. Qed.
Lemma cow_flags_write pte : has (cow_flags pte) PAGE_WRITE = false.
Proof. rewrite has_cow_flags by const_lia. change (Z.land PAGE_WRITE 4093) with 0.
  unfold has. by rewrite Z.land_0_r. Qed.
Lemma cow_flags_cow pte : has (cow_flags pte) PAGE_COW = true.
Proof. rewrite has_cow_flags, has_lor by const_lia. change (Z.land PAGE_COW 4093) with PAGE_COW.
  change (has PAGE_COW PAGE_COW) with true. apply orb_true_r. Qed.

Lemma maps_cow q pte : maps q (Z.lor (page_base pte) (cow_flags pte)) = maps q pte.
Proof. rewrite maps_flags, cow_flags_present by apply cow_flags_ok. done. Qed.

Lemma entry_va_page t j : 0 <= t < 8 -> 0 <= j < 1024 ->
  user_page (entry_va t j) = true /\ dir_index (entry_va t j) - 1 = t /\ tab_index (entry_va t j) = j.
Proof.
  intros Ht Hj. unfold user_page, user_range, slot_ok, entry_va.
  rewrite !dir_index_div, !tab_index_mod. autounfold with kconst.
  assert (((t + 1) * 4194304 + j * 4096) / 4194304 = t + 1) as -> by word_lia.
  split_and!; [lia|lia|]. word_lia.
Qed.

(** Sharing one entry: the source entry loses the write bit, the destination gets
    the same entry, the frame one more reference. *)
Section cow_entry.
Context (src dst t j : Z) (old : option Z) (st st' : vmm S).
Let pte := entry (spaces st).[src] t j.
Hypothesis (Hinv : vmm_inv st) (Hsrc : live st src) (Hdst : live st dst) (Hsd : src <> dst).
Hypothesis (Ht : 0 <= t < 8) (Hj : 0 <= j < 1024).
Hypothesis (Hsat : maps (page_base pte / PAGE_SIZE) pte = true ->
  frame_refs (frames st) (page_base pte / PAGE_SIZE) < MAX_REFS).

Definition cow_shared : vmm S :=
  let st1 := set_space src (set_pte t j (Z.lor (page_base pte) (cow_flags pte)) (spaces st).[src]) st in
  let st2 := snd (vmm_map_user utab_addr (Some dst) (entry_va t j) (page_base pte) (cow_flags pte) st1) in
  with_frames (retain_page (page_base pte) (frames st2)) st2.

Lemma cow_entry_eq :
  cow_entry utab_addr src dst (t, j) old st =
    inr (if has pte PAGE_PRESENT then cow_shared else st).
Proof using Hinv Hsrc Ht Hj.
  unfold cow_entry. fold (entry (spaces st).[src] t j). fold pte.
  destruct (has pte PAGE_PRESENT) eqn:Hp.
  - rewrite (entry_unused (spaces st).[src] t j); [|apply Hinv; apply Hsrc|done..]. cbn [andb negb].
    fold (cow_flags pte). unfold cow_shared. rewrite vmm_map_user_eq.
    destruct (entry_va_page t j Ht Hj) as (-> & _). done.
  - by rewrite andb_false_r.
Qed.

(** The entries after both spaces are changed: the source's is read-only and shared, the
    clone's maps the same frame. *)
Lemma cow_spaces st2 :
  let st1 := set_space src (set_pte t j (Z.lor (page_base pte) (cow_flags pte)) (spaces st).[src]) st in
  vmm_wf st1 -> vmm_map_user utab_addr (Some dst) (entry_va t j) (page_base pte) (cow_flags pte) st1 = (0, st2) ->
  forall i t' j', 0 <= i < 32 -> 0 <= t' < 8 -> 0 <= j' < 1024 ->
    entry (spaces st2).[i] t' j' =
       if (t =? t') && (j =? j') && (src =? i) then Z.lor (page_base pte) (cow_flags pte)
       else if (t =? t') && (j =? j') && (dst =? i) then user_pte (page_base pte) (cow_flags pte)
       else entry (spaces st).[i] t' j'.
Proof using H0 Hinv Hsrc Hdst Hsd Ht Hj Hsat.
  intros st1 Hw1 Hm i t' j' Hi Ht' Hj'. pose proof Hinv as [Hw _]. destruct Hsrc as [Hs _], Hdst as [Hd _].
  assert (space_ok (spaces st).[src]) as Hso by (by apply Hw). destruct (entry_va_page t j Ht Hj) as (_ & Hdi & Hti).
  destruct (decide (i = dst)) as [->|Hid].
  - rewrite (map_user_entry dst _ _ _ st1 st2 Hw1 Hd Hm) by done. rewrite Hdi, Hti, Z.eqb_refl.
    destruct (Z.eqb_spec src dst); [done|]. unfold st1. rewrite spaces_set by (done || lia).
    destruct (Z.eqb_spec src dst); [done|]. by rewrite andb_false_r, andb_true_r.
  - rewrite (map_user_other dst _ _ _ st1 st2 Hw1 Hd Hm) by (done || lia).
    unfold st1. rewrite spaces_set by (done || lia).
    destruct (Z.eqb_spec dst i); [congruence|]. rewrite !andb_false_r.
    destruct (Z.eqb_spec src i) as [<-|]; [|by rewrite !andb_false_r].
    rewrite andb_true_r. by rewrite set_pte_entry by (done || lia).
Qed.

Lemma cow_shared_facts :
  has pte PAGE_PRESENT = true ->
  vmm_inv cow_shared /\ space_used cow_shared = space_used st /\
  current_space cow_shared = current_space st /\
  (forall q, frame_refs (frames cow_shared) q =
     frame_refs (frames st) q + b2z (maps q pte)) /\
  (forall i t' j', 0 <= i < 32 -> 0 <= t' < 8 -> 0 <= j' < 1024 ->
     entry (spaces cow_shared).[i] t' j' =
       if (t =? t') && (j =? j') && (src =? i) then Z.lor (page_base pte) (cow_flags pte)
       else if (t =? t') && (j =? j') && (dst =? i) then user_pte (page_base pte) (cow_flags pte)
       else entry (spaces st).[i] t' j').
Proof using H0 Hinv Hsrc Hdst Hsd Ht Hj Hsat.
  intros Hp. pose proof Hinv as [Hw Hle]. destruct Hsrc as [Hs Hsu]. destruct Hdst as [Hd Hdu].
  assert (space_ok (spaces st).[src]) as Hso by (by apply Hw).
  set (st1 := set_space src (set_pte t j (Z.lor (page_base pte) (cow_flags pte)) (spaces st).[src]) st).
  assert (vmm_wf st1) as Hw1.
  { eapply vmm_wf_update; [exact Hw|exact Hs| |reflexivity..|apply Hw].
    apply set_pte_ok; [done..|]. by eapply entry_unused. }
  destruct (vmm_map_user utab_addr (Some dst) (entry_va t j) (page_base pte) (cow_flags pte) st1)
    as [rc st2] eqn:Hm.
  destruct (entry_va_page t j Ht Hj) as (Hup & Hdi & Hti).
  assert (rc = 0) as -> by (rewrite vmm_map_user_eq, Hup in Hm; congruence).
  pose proof (map_user_same _ _ _ _ _ _ Hm) as (_ & Eu2 & Ec2 & Ef2 & _).
  assert (cow_shared = with_frames (retain_page (page_base pte) (frames st)) st2) as ->.
  { unfold cow_shared. fold st1. rewrite Hm. cbn [snd]. by rewrite Ef2. }
  pose proof (cow_spaces st2 Hw1 Hm) as He.
  set (fr := page_base pte / PAGE_SIZE).
  assert (maps fr pte = true) as Hmf by (unfold maps; rewrite Hp, Z.eqb_refl; done).
  pose proof (mapped_by_pos st _ src t j Hs Ht Hj Hsu Hmf) as Hpos.
  destruct (retain_some (frames st) (page_base pte)) as [Hok Hq].
  { apply Hw. } { fold fr. specialize (Hle fr). specialize (Hsat Hmf). fold fr in Hsat. lia. }
  assert (forall q, b2z (maps q pte) = if q =? fr then 1 else 0) as Hb.
  { intros q. unfold maps. rewrite Hp, (Z.eqb_sym q). done. }
  split_and!; try done.
  2: { intros q. cbn [frames with_frames]. by rewrite Hq, Hb. }
  pose proof (map_user_wf dst _ _ _ st1 st2 Hw1 Hd Hm) as Hw2.
  split; [destruct Hw2; by split|]. intros q. rewrite mapped_by_frames. cbn [frames with_frames].
  rewrite (map_user_count dst _ _ _ st1 st2 Hw1 Hd Hm q (cow_flags_ok pte) Hdu).
  assert (mapped_by st1 q = mapped_by st q) as ->.
  { unfold st1. rewrite (mapped_by_set st src _ t j) by (done || (intros t' j' ?? Hne;
      rewrite set_pte_entry by (done || lia);
      destruct (Z.eqb_spec t t'), (Z.eqb_spec j j'); try done; congruence)).
    rewrite set_pte_entry, !Z.eqb_refl by (done || lia). cbn [andb]. rewrite maps_cow. fold pte. lia. }
  rewrite Hq, (page_base_aligned (page_base pte)) by (apply page_base_range || apply page_base_mod).
  fold fr. rewrite (Z.eqb_sym fr q). specialize (Hle q). unfold b2z. repeat case_match; lia.
Qed.
End cow_entry.

(** The entry [(t, j)] of space [i] after the entries [es] of [src] were shared. *)
Definition shared_entry (src dst : Z) (es : list (Z * Z)) st (i t j : Z) : Z :=
  let pte := entry (spaces st).[src] t j in
  if bool_decide ((t, j) ∈ es) && has pte PAGE_PRESENT && (src =? i)
  then Z.lor (page_base pte) (cow_flags pte)
  else if bool_decide ((t, j) ∈ es) && has pte PAGE_PRESENT && (dst =? i)
  then user_pte (page_base pte) (cow_flags pte)
  else entry (spaces st).[i] t j.

Definition space_count st (i : Z) (es : list (Z * Z)) (q : Z) : Z :=
  count (fun x => maps q (entry (spaces st).[i] x.1 x.2)) es.

Lemma shared_entry_out src dst es st i t j :
  (t, j) ∉ es -> shared_entry src dst es st i t j = entry (spaces st).[i] t j.
Proof. intros Hn. unfold shared_entry. by rewrite bool_decide_false. Qed.

Lemma space_count_cons st i t j es q :
  space_count st i ((t, j) :: es) q = b2z (maps q (entry (spaces st).[i] t j)) + space_count st i es q.
Proof. unfold space_count. by rewrite count_cons. Qed.

(** One turn of the loop. *)
Lemma cow_entry_step src dst t j old st :
  vmm_inv st -> live st src -> live st dst -> src <> dst -> 0 <= t < 8 -> 0 <= j < 1024 ->
  (forall q, frame_refs (frames st) q + b2z (maps q (entry (spaces st).[src] t j)) <= MAX_REFS) ->
  exists st1, cow_entry utab_addr src dst (t, j) old st = inr st1 /\
    vmm_inv st1 /\ space_used st1 = space_used st /\ current_space st1 = current_space st /\
    (forall q, frame_refs (frames st1) q =
       frame_refs (frames st) q + b2z (maps q (entry (spaces st).[src] t j))) /\
    (forall i t' j', 0 <= i < 32 -> 0 <= t' < 8 -> 0 <= j' < 1024 ->
       entry (spaces st1).[i] t' j' = shared_entry src dst [(t, j)] st i t' j').
Proof.
  intros Hinv Hs Hd Hsd Ht Hj Hsat. rewrite cow_entry_eq by done. eexists. split; [reflexivity|].
  set (pte := entry (spaces st).[src] t j) in *. destruct (has pte PAGE_PRESENT) eqn:Hp.
  - destruct (cow_shared_facts src dst t j st) as (H1 & H2 & H3 & H4 & H5); try done.
    { intros Hm. specialize (Hsat (page_base pte / PAGE_SIZE)). fold pte in Hm |- *.
      rewrite Hm in Hsat. cbn [b2z] in Hsat. lia. }
    split_and!; try done. intros i t' j' Hi Ht' Hj'. rewrite H5 by done.
    destruct (decide ((t', j') = (t, j))) as [[= -> ->]|Hne].
    + unfold shared_entry. rewrite !Z.eqb_refl. fold pte.
      rewrite bool_decide_true, Hp by (by apply list_elem_of_singleton). done.
    + rewrite shared_entry_out by (by rewrite list_elem_of_singleton).
      destruct (Z.eqb_spec t t'), (Z.eqb_spec j j'); try done. congruence.
  - split_and!; try done.
    + intros q. unfold maps. rewrite Hp. cbn. lia.
    + intros i t' j' _ _ _. destruct (decide ((t', j') = (t, j))) as [[= -> ->]|Hne].
      * unfold shared_entry. fold pte. by rewrite Hp, andb_false_r.
      * by rewrite shared_entry_out by (by rewrite list_elem_of_singleton).
Qed.

(** Sharing [(t, j)] and then [es] is sharing [(t, j) :: es]. *)
Lemma shared_entry_cons src dst t j es st st1 i t' j' :
  (t, j) ∉ es -> 0 <= src < 32 -> 0 <= i < 32 -> 0 <= t' < 8 -> 0 <= j' < 1024 ->
  (forall i t' j', 0 <= i < 32 -> 0 <= t' < 8 -> 0 <= j' < 1024 ->
     entry (spaces st1).[i] t' j' = shared_entry src dst [(t, j)] st i t' j') ->
  shared_entry src dst es st1 i t' j' = shared_entry src dst ((t, j) :: es) st i t' j'.
Proof.
  intros Hnin Hs Hi Ht Hj Ee. destruct (decide ((t', j') ∈ es)) as [Hin|Hnot].
  - assert ((t', j') ∉ [(t, j)]) as Hne by (rewrite list_elem_of_singleton; congruence).
    unfold shared_entry. rewrite !Ee, !(shared_entry_out _ _ [(t, j)]) by done.
    rewrite !bool_decide_true by (done || by right). done.
  - rewrite shared_entry_out, Ee by done. unfold shared_entry.
    rewrite (bool_decide_ext ((t', j') ∈ [(t, j)]) ((t', j') ∈ (t, j) :: es)); [done|].
    rewrite list_elem_of_singleton, elem_of_cons. tauto.
Qed.

Lemma cow_entries_spec src dst es old st :
  vmm_inv st -> live st src -> live st dst -> src <> dst -> NoDup es ->
  (forall t j, (t, j) ∈ es -> 0 <= t < 8 /\ 0 <= j < 1024) ->
  (forall q, frame_refs (frames st) q + space_count st src es q <= MAX_REFS) ->
  exists st', cow_entries utab_addr src dst es old st = (Some dst, vmm_switch_address_space old st') /\
    vmm_inv st' /\ space_used st' = space_used st /\ current_space st' = current_space st /\
    (forall q, frame_refs (frames st') q = frame_refs (frames st) q + space_count st src es q) /\
    (forall i t j, 0 <= i < 32 -> 0 <= t < 8 -> 0 <= j < 1024 ->
       entry (spaces st').[i] t j = shared_entry src dst es st i t j).
Proof.
  revert st. induction es as [|[t j] es IH]; intros st Hinv Hs Hd Hsd Hnd Hes Hsat.
  { exists st. cbn [cow_entries]. split_and!; try done; [by destruct old|..].
    intros q. unfold space_count, count. cbn. lia. }
  apply NoDup_cons in Hnd as [Hnin Hnd]. destruct (Hes t j ltac:(by left)) as [Ht Hj].
  setoid_rewrite space_count_cons in Hsat. setoid_rewrite space_count_cons.
  destruct (cow_entry_step src dst t j old st) as (st1 & Hstep & Hinv1 & Eu & Ec & Er & Ee); try done.
  { intros q. specialize (Hsat q). pose proof (count_nonneg (fun x => maps q
      (entry (spaces st).[src] x.1 x.2)) es). unfold space_count in Hsat. lia. }
  assert (forall q, space_count st1 src es q = space_count st src es q) as Hcnt.
  { intros q. apply count_ext. intros [t' j'] Hin. cbn [fst snd].
    destruct (Hes t' j' ltac:(by right)). rewrite Ee by (done || apply Hs).
    rewrite shared_entry_out; [done|]. rewrite list_elem_of_singleton. congruence. }
  cbn [cow_entries]. rewrite Hstep.
  destruct (IH st1) as (st' & Eeq & Hinv' & Eu' & Ec' & Er' & Ee').
  1: done. 1,2: by (unfold live; rewrite Eu). 1,2: done.
  { intros t' j' Hin. apply Hes. by right. }
  { intros q. rewrite Hcnt, Er. specialize (Hsat q). lia. }
  exists st'. split_and!; [done|done|congruence|congruence|..].
  - intros q. rewrite Er', Hcnt, Er. lia.
  - intros i t' j' Hi Ht' Hj'. rewrite Ee' by done. apply shared_entry_cons; try done. apply Hs.
Qed.

Lemma get_user_physical_entry i v st :
  space_ok (spaces st).[i] ->
  vmm_get_user_physical (Some i) v st =
    let e := entry (spaces st).[i] (dir_index v - 1) (tab_index v) in
    if user_page v && has e PAGE_PRESENT && has e PAGE_USER then page_base e + v mod 4096 else 0.
Proof.
  intros Hs. unfold vmm_get_user_physical, user_page. cbn zeta.
  fold (entry (spaces st).[i] (dir_index v - 1) (tab_index v)).
  destruct (user_range v); [|done]. destruct (slot_ok (dir_index v)) eqn:Hso; [|done]. cbn [negb orb andb].
  destruct (has (entry _ _ _) PAGE_PRESENT) eqn:Hp; [|by case_match].
  erewrite entry_unused; [|exact Hs| | |exact Hp]; [|by apply slot_ok_range|apply tab_index_range].
  cbn [negb orb]. destruct (has _ PAGE_USER); [|done]. cbn [negb].
  rewrite page_off_mod. apply lor_base_flags. apply Z.mod_pos_bound. lia.
Qed.

Lemma vmm_get_user_physical_eq i v st :
  vmm_wf st -> 0 <= i < 32 ->
  vmm_get_user_physical (Some i) v st =
    let e := entry (spaces st).[i] (dir_index v - 1) (tab_index v) in
    if user_page v && has e PAGE_PRESENT && has e PAGE_USER then page_base e + v mod 4096 else 0.
Proof. intros Hw Hi. apply get_user_physical_entry. by apply Hw. Qed.

(** The state [vmm_clone_address_space_cow] shares entries in: an empty space with
    the areas of the source. *)
Lemma clone_prepared st dst st0 src :
  vmm_inv st -> live st src -> vmm_create_address_space st = (Some dst, st0) ->
  let st1 := set_space dst (with_vmas (vmas (spaces st0).[src]) (spaces st0).[dst]) st0 in
  vmm_inv st1 /\ live st1 src /\ live st1 dst /\ src <> dst /\ (space_used st).[dst] = false /\
  frames st1 = frames st /\ current_space st1 = current_space st /\
  (forall i t j, 0 <= i < 32 -> 0 <= t < 8 -> 0 <= j < 1024 ->
     entry (spaces st1).[i] t j = if dst =? i then 0 else entry (spaces st).[i] t j).
Proof.
  intros Hinv [Hs Hsu] Hc st1. pose proof Hinv as [Hw Hle].
  destruct (create_unused _ _ _ Hc) as [Hd Hdu]. destruct (create_same _ _ _ Hc) as (_ & Ec & Ef & _ & Eu).
  destruct (create_space _ _ _ Hc) as (d & vs & Es & _). pose proof (create_inv _ _ _ Hc Hinv) as Hinv0.
  assert (src <> dst) as Hsd by congruence.
  assert (forall i, 0 <= i < 32 -> (space_used st0).[i] = if dst =? i then true else (space_used st).[i]) as Hu.
  { intros i Hi. rewrite Eu, aget_aset by (rewrite ?(vw_used _ Hw); lia). done. }
  split; [|split; [|split; [|split; [exact Hsd|split; [exact Hdu|split; [exact Ef|split; [exact Ec|]]]]]]].
  - apply vmas_inv; [exact Hinv0|exact Hd|]. by apply space_vmas_length.
  - split; [exact Hs|]. change (space_used st1) with (space_used st0). rewrite Hu by done.
    destruct (Z.eqb_spec dst src); [reflexivity|exact Hsu].
  - split; [exact Hd|]. change (space_used st1) with (space_used st0). by rewrite Hu, Z.eqb_refl.
  - intros i t j Hi Ht Hj. unfold st1. rewrite spaces_set by (lia || apply Hinv0).
    destruct (Z.eqb_spec dst i) as [<-|Hne].
    + change (entry (with_vmas ?l ?s) t j) with (entry s t j). by apply (create_entry st st0).
    + by rewrite Es, aget_aset_ne by lia.
Qed.

Lemma clone_cow_spec st src dst st0 :
  vmm_inv st -> live st src -> vmm_create_address_space st = (Some dst, st0) ->
  (forall q, frame_refs (frames st) q + space_count st src entries q <= MAX_REFS) ->
  exists st', vmm_clone_address_space_cow utab_addr (Some src) st = (Some dst, st') /\
    vmm_inv st' /\ live st' src /\ live st' dst /\ src <> dst /\ current_space st' = current_space st /\
    (forall q, frame_refs (frames st') q = frame_refs (frames st) q + space_count st src entries q) /\
    (forall i t j, 0 <= i < 32 -> 0 <= t < 8 -> 0 <= j < 1024 ->
       entry (spaces st').[i] t j =
         let pte := entry (spaces st).[src] t j in
         if src =? i then if has pte PAGE_PRESENT then Z.lor (page_base pte) (cow_flags pte) else pte
         else if dst =? i then if has pte PAGE_PRESENT then user_pte (page_base pte) (cow_flags pte) else 0
         else entry (spaces st).[i] t j).
Proof.
  intros Hinv Hl Hc Hsat. unfold vmm_clone_address_space_cow. rewrite Hc.
  destruct (clone_prepared st dst st0 src Hinv Hl Hc) as (Hinv1 & Hs1 & Hd1 & Hsd & Hdu & Ef & Ec & Ee).
  set (st1 := set_space dst _ st0) in *.
  assert (forall t j, 0 <= t < 8 -> 0 <= j < 1024 -> entry (spaces st1).[src] t j = entry (spaces st).[src] t j) as Es.
  { intros t j Ht Hj. rewrite Ee by (done || apply Hl). destruct (Z.eqb_spec dst src); [congruence|done]. }
  assert (forall q, space_count st1 src entries q = space_count st src entries q) as Hcnt.
  { intros q. apply count_ext. intros [t j] [Ht Hj]%elem_of_entries. cbn [fst snd]. by rewrite Es. }
  destruct (cow_entries_spec src dst entries (current_space st1) st1) as (st' & Eeq & Hinv' & Eu' & Ec' & Er' & Ee').
  1-4: done. 1: apply entries_NoDup. 1: by (intros t j; rewrite elem_of_entries).
  { intros q. rewrite Ef, Hcnt. apply Hsat. }
  eexists. split; [exact Eeq|].
  split; [|split; [|split; [|split; [exact Hsd|split; [exact Ec|split]]]]].
  - apply switch_inv; [exact Hinv'|]. intros i Hi. rewrite Eu'. apply Hinv1. exact Hi.
  - split; [apply Hl|]. cbn [space_used vmm_switch_address_space]. rewrite Eu'. apply Hs1.
  - split; [apply Hd1|]. cbn [space_used vmm_switch_address_space]. rewrite Eu'. apply Hd1.
  - intros q. cbn [frames vmm_switch_address_space]. rewrite Er', Ef, Hcnt. done.
  - intros i t j Hi Ht Hj. cbn [spaces vmm_switch_address_space]. rewrite Ee' by done. unfold shared_entry.
    rewrite bool_decide_true by (by apply elem_of_entries). rewrite Es, Ee by done. cbn [andb].
    destruct (Z.eqb_spec src i) as [<-|]; [|destruct (has _ _), (Z.eqb_spec dst i); done].
    destruct (has _ _); [done|]. cbn [andb]. destruct (Z.eqb_spec dst src); [congruence|done].
Qed.

(** Cloning a live space copy-on-write hands out an unused space in which every
    address the source maps translates to the same physical address; in both spaces
    the page is then marked copy-on-write and not writable, the frame has one more
    reference per mapping, and no page table maps a frame without a reference. *)
Theorem clone_cow_shares st src dst st0 :
  vmm_inv st -> live st src -> vmm_create_address_space st = (Some dst, st0) ->
  (forall q, frame_refs (frames st) q + space_count st src entries q <= MAX_REFS) ->
  exists st', vmm_clone_address_space_cow utab_addr (Some src) st = (Some dst, st') /\
    (space_used st).[dst] = false /\ vmm_inv st' /\ current_space st' = current_space st /\
    (forall q, frame_refs (frames st') q = frame_refs (frames st) q + space_count st src entries q) /\
    forall v, vmm_get_user_physical (Some src) v st <> 0 ->
      forall i, i = src \/ i = dst ->
        vmm_get_user_physical (Some i) v st' = vmm_get_user_physical (Some src) v st /\
        has (entry (spaces st').[i] (dir_index v - 1) (tab_index v)) PAGE_WRITE = false /\
        has (entry (spaces st').[i] (dir_index v - 1) (tab_index v)) PAGE_COW = true.
Proof.
  intros Hinv Hl Hc Hsat.
  destruct (clone_cow_spec st src dst st0 Hinv Hl Hc Hsat)
    as (st' & Eeq & Hinv' & Hl' & Hd' & Hsd & Ec & Er & Ee).
  exists st'. split; [exact Eeq|split; [by apply (create_unused st st0)|]].
  split; [exact Hinv'|split; [exact Ec|split; [exact Er|]]].
  intros v. rewrite vmm_get_user_physical_eq by (exact (proj1 Hinv) || exact (proj1 Hl)). cbn zeta.
  set (pte := entry (spaces st).[src] _ _). destruct (user_page v) eqn:Hup; [|done].
  destruct (has pte PAGE_PRESENT) eqn:Hp; [|done]. destruct (has pte PAGE_USER) eqn:Hus; [|done].
  intros _ i Hi. assert (0 <= i < 32) as Hir by (destruct Hi as [->| ->]; [apply Hl|apply Hd']).
  pose proof (user_page_slot _ Hup) as Ht. pose proof (tab_index_range v) as Hj.
  rewrite vmm_get_user_physical_eq by (exact (proj1 Hinv') || exact Hir). cbn zeta. rewrite Hup.
  pose proof (cow_flags_ok pte) as Hf. pose proof (user_flags _ Hf) as Huf.
  assert (has PAGE_USER PAGE_WRITE = false /\ has PAGE_PRESENT PAGE_WRITE = false) as [Hk1 Hk2] by done.
  destruct Hi as [->| ->]; rewrite Ee by done; cbn zeta; fold pte; rewrite Hp.
  - rewrite Z.eqb_refl, !has_flags by (done || const_lia).
    rewrite cow_flags_present, cow_flags_user, cow_flags_write, cow_flags_cow, Hp, Hus, pte_base by done. done.
  - destruct (Z.eqb_spec src dst); [done|]. rewrite Z.eqb_refl. unfold user_pte.
    rewrite !has_flags, !user_flags_present, user_flags_user, pte_base by (done || const_lia).
    rewrite !has_lor, cow_flags_write, cow_flags_cow, Hk1, Hk2. cbn [andb orb].
    rewrite page_base_aligned by (apply page_base_range || apply page_base_mod). done.
Qed.
End safe.
