(* ===== verification/VmmTheorems.v ===== *)
(** What [mm/vmm.c] guarantees about user memory: the reachable states of the whole
    manager, the mapping round trip, copy-on-write faults, validated pointers and the
    bookkeeping of mapped areas. *)
From S2P Require Import Prelude Frames Pmm Paging KernelMap Vmm VmmCount VmmSafe.

(** The zeroed statics of [mm/vmm.c] once [vmm_init] has run. *)
Definition empty_space : address_space :=
  mkSpace (replicate 1024 0) (replicate 8 (replicate 1024 0)) (replicate 8 false)
    (replicate 64 (mkVma 0 0 0 false)) 0.
Definition vmm_boot {S} (addr_of : ktable -> Z) (f : S) : vmm S :=
  mkVmm (vmm_init addr_of) (replicate 32 empty_space) (replicate 32 false) None f ∅.

Section reach.
Context {S : Type} `{FrameAllocatorLaws S}.
Variable utab_addr : Z -> Z -> Z.
Implicit Types st : vmm S.

Lemma vmm_boot_inv addr_of (f : S) : frame_ok f -> vmm_inv (vmm_boot addr_of f).
Proof.
  intros Hf. split.
  - split; cbn [kmaps spaces space_used current_space frames vmm_boot];
      [apply vmm_init_ok|apply length_replicate|apply length_replicate| |discriminate|exact Hf].
    intros i Hi. rewrite aget_replicate by lia. apply fresh_space_ok; apply length_replicate.
  - intros q. unfold mapped_by. rewrite count_none; [by apply refs_nonneg|].
    intros [i [t j]] (Hi & _)%elem_of_slots. unfold slot_maps. cbn [space_used vmm_boot].
    by rewrite aget_replicate by lia.
Qed.

(** *** Eager cloning *)
Lemma destroy_used st i k :
  0 <= i -> 0 <= k -> k <> i -> (space_used (vmm_destroy_address_space (Some i) st)).[k] = (space_used st).[k].
Proof.
  intros Hi Hk Hne. unfold vmm_destroy_address_space. destruct (refs _ =? 0); [reflexivity|].
  destruct (negb _); [reflexivity|]. destruct ((space_used _).[i]); [|reflexivity].
  destruct (decide _); cbn [space_used with_space_used with_frames vmm_switch_address_space];
    rewrite aget_aset_ne by lia; reflexivity.
Qed.

Definition old_ok (dst : Z) (old : option Z) st : Prop :=
  forall i, old = Some i -> i <> dst /\ live st i.

Lemma restore_inv dst old st :
  vmm_inv st -> 0 <= dst -> old_ok dst old st ->
  vmm_inv (restore_space old st).
Proof.
  intros Hinv Hd Hold. destruct old as [i|]; [|exact Hinv]. apply switch_inv; [exact Hinv|].
  intros i' [= <-]. exact (proj2 (Hold i eq_refl)).
Qed.

Lemma abandon_inv dst old st :
  vmm_inv st -> 0 <= dst < 32 -> old_ok dst old st ->
  vmm_inv (restore_space old (vmm_destroy_address_space (Some dst) st)).
Proof.
  intros Hinv Hd Hold. apply (restore_inv dst); [by apply destroy_inv|lia|].
  intros i Hi. destruct (Hold i Hi) as [Hne [Hr Hu]]. split; [exact Hne|split; [exact Hr|]].
  rewrite destroy_used by lia. exact Hu.
Qed.

Lemma clone_entry_inv src dst t j old st :
  vmm_inv st -> live st src -> live st dst -> old_ok dst old st ->
  match clone_entry utab_addr src dst (t, j) old st with
  | inl st' => vmm_inv st'
  | inr st' => vmm_inv st' /\ space_used st' = space_used st
  end.
Proof.
  intros Hinv Hs Hd Hold. unfold clone_entry. destruct (negb _); [split; [exact Hinv|reflexivity]|].
  set (pte := (user_tables _).[t].[j]).
  destruct (alloc_page (frames st)) as [p f] eqn:Ha. destruct (Z.eqb_spec p 0) as [->|Hne].
  { apply abandon_inv; [by apply alloc_fail_inv|apply Hd|exact Hold]. }
  destruct (vmm_map_user _ _ _ _ _ _) as [rc st'] eqn:Hm.
  assert (flags_ok (page_off pte)) as Hf by apply page_off_bound.
  destruct (alloc_map_inv utab_addr _ _ _ _ _ _ _ _ Hinv Hd Hf Ha Hne Hm) as (Hinv' & Hd' & Hfr).
  assert (space_used st' = space_used st) as Eu.
  { rewrite vmm_map_user_eq in Hm. destruct (user_page _); injection Hm as _ <-; reflexivity. }
  destruct (Z.eqb_spec rc 0) as [->|Hrc]; cbn [negb].
  - split; [|exact Eu]. apply mem_inv, switch_inv.
    + apply switch_inv; [exact Hinv'|]. intros i [= <-]. rewrite Eu. exact Hs.
    + intros i [= <-]. cbn [space_used vmm_switch_address_space]. rewrite Eu. exact Hd.
  - apply abandon_inv; [by apply Hfr|apply Hd|]. intros i Hi. destruct (Hold i Hi) as [Hn Hl].
    split; [exact Hn|]. unfold live. cbn [space_used with_frames]. rewrite Eu. exact Hl.
Qed.

Lemma clone_entries_inv src dst es old st :
  vmm_inv st -> live st src -> live st dst -> old_ok dst old st ->
  vmm_inv (snd (clone_entries utab_addr src dst es old st)).
Proof.
  revert st. induction es as [|[t j] es IH]; intros st Hinv Hs Hd Hold.
  - cbn [clone_entries snd]. destruct old as [i|]; apply switch_inv; try exact Hinv; [|discriminate].
    intros i' [= <-]. exact (proj2 (Hold i eq_refl)).
  - cbn [clone_entries]. pose proof (clone_entry_inv src dst t j old st Hinv Hs Hd Hold) as Hce.
    destruct (clone_entry _ _ _ _ _ _) as [st'|st']; [exact Hce|]. destruct Hce as [Hinv' Eu].
    apply IH; [exact Hinv'|unfold live; rewrite Eu; assumption..|].
    unfold old_ok, live. rewrite Eu. exact Hold.
Qed.

Lemma current_old_ok st st1 dst :
  vmm_wf st -> (space_used st).[dst] = false -> vmm_inv st1 -> current_space st1 = current_space st ->
  old_ok dst (current_space st1) st1.
Proof.
  intros Hw Hu Hinv1 Ec i Hi. split.
  - rewrite Ec in Hi. destruct (vw_current _ Hw i Hi) as [_ Hui]. congruence.
  - exact (vw_current _ (proj1 Hinv1) i Hi).
Qed.

Lemma clone_inv st src :
  vmm_inv st -> live st src -> vmm_inv (snd (vmm_clone_address_space utab_addr (Some src) st)).
Proof.
  intros Hinv Hl. unfold vmm_clone_address_space.
  destruct (vmm_create_address_space st) as [[dst|] st0] eqn:Hc.
  - destruct (clone_prepared st dst st0 src Hinv Hl Hc) as (Hinv1 & Hs1 & Hd1 & _ & Hdu & _ & Ec & _).
    apply clone_entries_inv; try assumption. by apply (current_old_ok st); [apply Hinv|..].
  - revert Hc. unfold vmm_create_address_space. destruct (find_from _ _ _); [discriminate|].
    intros [= <-]. exact Hinv.
Qed.

(** *** Histories of the manager *)
Inductive vmm_step : vmm S -> vmm S -> Prop :=
  | step_create st : vmm_step st (snd (vmm_create_address_space st))
  | step_retain st i : live st i -> vmm_step st (vmm_retain_address_space (Some i) st)
  | step_destroy st i : 0 <= i < 32 -> vmm_step st (vmm_destroy_address_space (Some i) st)
  | step_switch st i : live st i -> vmm_step st (vmm_switch_address_space (Some i) st)
  | step_kernel st : vmm_step st (vmm_switch_address_space None st)
  | step_user_alloc st i virt pages flags : live st i -> flags_ok flags ->
      vmm_step st (snd (vmm_user_alloc utab_addr (Some i) virt pages flags st))
  | step_unmap_user st i virt : live st i -> vmm_step st (snd (vmm_unmap_user (Some i) virt st))
  | step_map_range st i virt pages flags : live st i -> flags_ok flags ->
      vmm_step st (snd (vmm_map_range utab_addr (Some i) virt pages flags st))
  | step_map_lazy st i virt pages flags : live st i ->
      vmm_step st (snd (vmm_map_lazy_range (Some i) virt pages flags st))
  | step_unmap_range st i virt pages : live st i ->
      vmm_step st (snd (vmm_unmap_range (Some i) virt pages st))
  | step_clone st i : live st i -> vmm_step st (snd (vmm_clone_address_space utab_addr (Some i) st))
  | step_clone_cow st i : live st i ->
      (forall q, frame_refs (frames st) q + space_count st i entries q <= MAX_REFS) ->
      vmm_step st (snd (vmm_clone_address_space_cow utab_addr (Some i) st))
  | step_fault st cr2 error address i st' : current_space st = Some i ->
      vmm_get_user_physical (Some i) (page_base (if address =? 0 then cr2 else address)) st <> 0 ->
      vmm_page_fault utab_addr cr2 error address st = Done tt st' -> vmm_step st st'.

(** A fault on a mapped page is resolved only by the copy-on-write branch. *)
Lemma fault_mapped st cr2 error address i st' :
  current_space st = Some i ->
  let page := page_base (if address =? 0 then cr2 else address) in
  vmm_get_user_physical (Some i) page st <> 0 ->
  vmm_page_fault utab_addr cr2 error address st = Done tt st' ->
  let pte := entry (spaces st).[i] (dir_index page - 1) (tab_index page) in
  slot_ok (dir_index page) = true /\ has pte PAGE_COW = true /\ has pte PAGE_PRESENT = true /\
  cow_page i page pte st = Done tt st'.
Proof.
  intros Hc page Hm Hf. subst page. unfold vmm_page_fault in Hf.
  set (page := page_base _) in *. rewrite Hc in Hf. cbn zeta in Hf.
  destruct (Z.eqb_spec (vmm_get_user_physical (Some i) page st) 0) as [E0|_]; [contradiction|].
  assert ((if slot_ok (dir_index page) then
    match vma_of (spaces st).[i] page with Some _ => None | None => None end else None) = @None Z) as E
    by (destruct (slot_ok _); [destruct (vma_of _ _)|]; reflexivity).
  rewrite E in Hf. clear E. fold (entry (spaces st).[i] (dir_index page - 1) (tab_index page)) in Hf.
  destruct (has error 2 && _ && _ && _ && _ && _) eqn:Hcond; [|discriminate].
  rewrite !andb_true_iff in Hcond. cbn zeta. tauto.
Qed.

Lemma vmm_step_inv st st' : vmm_inv st -> vmm_step st st' -> vmm_inv st'.
Proof.
  intros Hinv Hstep. destruct Hstep.
  - destruct (vmm_create_address_space st) as [[dst|] st0] eqn:Hc; [by apply (create_inv st st0 dst)|].
    revert Hc. unfold vmm_create_address_space. destruct (find_from _ _ _); [discriminate|].
    intros [= <-]. exact Hinv.
  - apply retain_inv; [exact Hinv|apply H1].
  - by apply destroy_inv.
  - apply switch_inv; [exact Hinv|]. by intros i' [= <-].
  - apply switch_inv; [exact Hinv|discriminate].
  - unfold vmm_user_alloc. pose proof (user_alloc_inv utab_addr (Z.to_nat pages) i virt flags st Hinv H1 H2).
    destruct (user_alloc_loop _ _ _ _ _ _). assumption.
  - by apply unmap_user_snd.
  - by apply map_range_inv.
  - apply map_lazy_range_inv; [exact Hinv|apply H1].
  - by apply unmap_range_inv.
  - by apply clone_inv.
  - destruct (vmm_create_address_space st) as [[dst|] st0] eqn:Hc.
    + destruct (clone_cow_spec utab_addr st i dst st0 Hinv H1 Hc H2) as (st' & -> & Hinv' & _). exact Hinv'.
    + unfold vmm_clone_address_space_cow. rewrite Hc.
      revert Hc. unfold vmm_create_address_space. destruct (find_from _ _ _); [discriminate|].
      intros [= <-]. exact Hinv.
  - destruct (fault_mapped _ _ _ _ _ _ H1 H2 H3) as (Hs & _ & Hp & Hcow).
    eapply (cow_page_inv utab_addr); [exact Hinv| |exact Hs|reflexivity|exact Hp|exact Hcow].
    exact (vw_current _ (proj1 Hinv) i H1).
Qed.

(** C1: in every state the kernel reaches from boot by creating, cloning (eagerly or
    copy-on-write), switching, mapping, unmapping and destroying address spaces and
    by resolving copy-on-write faults, every page-table entry of every live space
    maps a frame that the page allocator still holds references for, at least as
    many as there are mappings of it, and the space in use is a live one. *)
Theorem vmm_reachable_no_dangling addr_of (f : S) st :
  frame_ok f -> rtc vmm_step (vmm_boot addr_of f) st ->
  (forall q, mapped_by st q <= frame_refs (frames st) q) /\
  (forall i t j, live st i -> 0 <= t < 8 -> 0 <= j < 1024 ->
     has (entry (spaces st).[i] t j) PAGE_PRESENT = true ->
     0 < frame_refs (frames st) (page_base (entry (spaces st).[i] t j) / PAGE_SIZE)) /\
  (forall i, vmm_current_address_space st = Some i -> live st i).
Proof.
  intros Hf Hr.
  assert (vmm_inv st) as [Hw Hle].
  { assert (vmm_inv (vmm_boot addr_of f)) as Hb by (by apply vmm_boot_inv).
    revert Hb. induction Hr as [|x y z Hxy _ IH]; [done|]. intros Hx. eapply IH, vmm_step_inv; eassumption. }
  split; [exact Hle|split].
  - intros i t j [Hi Hu] Ht Hj Hp. set (pte := entry _ t j) in *.
    assert (0 < mapped_by st (page_base pte / PAGE_SIZE)).
    { apply (mapped_by_pos st _ i t j); try assumption. fold pte. unfold maps.
      rewrite Hp, Z.eqb_refl. reflexivity. }
    specialize (Hle (page_base pte / PAGE_SIZE)). lia.
  - intros i Hi. exact (vw_current _ Hw i Hi).
Qed.

(** *** Mapping and translating *)
Lemma user_page_same v w : v / 4096 = w / 4096 -> user_page v = user_page w.
Proof.
  intros Hvw. unfold user_page, user_range, slot_ok. rewrite !dir_index_div. autounfold with kconst.
  assert (v / 4194304 = w / 4194304) as -> by word_lia.
  destruct (Z.leb_spec 1 (w / 4194304)), (Z.leb_spec (w / 4194304) 8); word_lia.
Qed.

Lemma page_entry_ne v w :
  v / 4096 <> w / 4096 ->
  (dir_index w - 1 =? dir_index v - 1) && (tab_index w =? tab_index v) = false.
Proof.
  intros Hne. destruct (Z.eqb_spec (dir_index w - 1) (dir_index v - 1)) as [Hd|]; [|done].
  destruct (Z.eqb_spec (tab_index w) (tab_index v)) as [Ht|]; [|done].
  exfalso. apply Hne. symmetry. apply same_entry; [lia|done].
Qed.

(** The translations after a mapping. *)
Lemma map_user_physical st i virt phys flags rc st' :
  vmm_wf st -> 0 <= i < 32 -> is_u32 phys -> is_u32 flags ->
  vmm_map_user utab_addr (Some i) virt phys flags st = (rc, st') ->
  rc = (if user_page virt then 0 else -1) /\
  forall k v, 0 <= k < 32 ->
    vmm_get_user_physical (Some k) v st' =
      if (rc =? 0) && (k =? i) && (v / 4096 =? virt / 4096)
      then page_base (Z.lor phys flags) + v mod 4096
      else vmm_get_user_physical (Some k) v st.
Proof.
  intros Hw Hi Hph Hfl Hm.
  assert (rc = (if user_page virt then 0 else -1)) as Hrc
    by (rewrite vmm_map_user_eq in Hm; destruct (user_page virt); congruence).
  split; [exact Hrc|]. intros k v Hk. destruct (user_page virt) eqn:Hup; subst rc.
  2: { rewrite vmm_map_user_eq, Hup in Hm. injection Hm as <-. reflexivity. }
  pose proof (map_user_wf utab_addr i virt phys flags st st' Hw Hi Hm) as Hw'.
  rewrite !vmm_get_user_physical_eq by assumption. cbn zeta. cbn [Z.eqb andb].
  destruct (Z.eqb_spec k i) as [->|Hki]; cbn [andb].
  2: { rewrite (map_user_other utab_addr i virt phys flags st st') by (assumption || lia). reflexivity. }
  destruct (Z.eqb_spec (v / 4096) (virt / 4096)) as [Hv|Hv]; cbn [andb].
  - rewrite (user_page_same v virt Hv), Hup. destruct (same_page _ _ Hv) as [-> ->].
    rewrite (map_user_entry utab_addr i virt phys flags st st'), !Z.eqb_refl
      by (assumption || apply tab_index_range || by apply user_page_slot). cbn [andb].
    unfold user_pte. rewrite !has_lor.
    change (has PAGE_PRESENT PAGE_PRESENT) with true. change (has PAGE_USER PAGE_USER) with true.
    rewrite !orb_true_r. cbn [andb orb]. f_equal. apply Z.bits_inj'. intros n Hn.
    rewrite !page_base_bits, !Z.lor_spec, page_base_bits by lia.
    destruct (Z.leb_spec 12 n), (Z.ltb_spec n 32); cbn [andb]; try reflexivity.
    rewrite (testbit_high 12 PAGE_PRESENT), (testbit_high 12 PAGE_USER) by const_lia.
    rewrite !orb_false_r. reflexivity.
  - destruct (user_page v) eqn:Hupv; [|reflexivity].
    rewrite (map_user_entry utab_addr i virt phys flags st st')
      by (assumption || apply tab_index_range || by apply user_page_slot).
    rewrite page_entry_ne by exact Hv. reflexivity.
Qed.

(** Mapping a page with any 32-bit flags succeeds exactly on the 32 MiB that the
    eight user tables cover and then changes the translation of that page of that
    space only; the address becomes the frame plus offset when the flags stay within
    the low twelve bits, while higher flag bits are or-ed into the frame address. *)
Theorem vmm_map_user_translation st i virt phys flags rc st' :
  vmm_wf st -> 0 <= i < 32 -> is_u32 phys -> is_u32 flags ->
  vmm_map_user utab_addr (Some i) virt phys flags st = (rc, st') ->
  rc = (if user_page virt then 0 else -1) /\
  forall k v, 0 <= k < 32 ->
    vmm_get_user_physical (Some k) v st' =
      if (rc =? 0) && (k =? i) && (v / 4096 =? virt / 4096)
      then page_base (Z.lor phys flags) + v mod 4096
      else vmm_get_user_physical (Some k) v st.
Proof. exact (map_user_physical st i virt phys flags rc st'). Qed.

(** *** Copying through the window at [0x003ff000] *)
Definition window_ok st : Prop := kmap_ok (kmaps st) /\ covered COPY_WINDOW (kmaps st) = true.

Lemma init_window addr_of : covered COPY_WINDOW (vmm_init addr_of) = true.
Proof. reflexivity. Qed.

Lemma covered_map virt phys flags k : covered COPY_WINDOW (vmm_map virt phys flags k) = covered COPY_WINDOW k.
Proof. unfold covered. by rewrite vmm_map_pointers. Qed.

Lemma translate_window st k : 0 <= k < 4096 ->
  translate (COPY_WINDOW + k) st = vmm_get_physical (COPY_WINDOW + k) (kmaps st).
Proof.
  intros Hk. unfold translate. destruct (current_space st); [|reflexivity].
  assert (slot_ok (dir_index (COPY_WINDOW + k)) = false) as ->; [|reflexivity].
  unfold slot_ok. rewrite dir_index_div. autounfold with kconst. word_lia.
Qed.

Lemma window_mapped st phys flags k :
  window_ok st -> 0 <= flags < 4096 -> 0 <= k < 4096 ->
  translate (COPY_WINDOW + k) (kmap_do COPY_WINDOW phys flags st) = page_base phys + k.
Proof.
  intros [Hk Hc] Hf Hr. rewrite translate_window by exact Hr. cbn [kmaps kmap_do with_kmaps].
  rewrite vmm_map_get_same by (assumption || (autounfold with kconst; word_lia)).
  f_equal. autounfold with kconst. word_lia.
Qed.

Lemma window_ok_map st virt phys flags : window_ok st -> window_ok (kmap_do virt phys flags st).
Proof.
  intros [Hk Hc]. split; cbn [kmaps kmap_do with_kmaps]; [by apply vmm_map_ok|by rewrite covered_map].
Qed.

(** A page written through contiguous addresses. *)
Lemma write_page_mem va base bytes st :
  (forall k, 0 <= k < 4096 -> translate (va + k) st = base + k) ->
  forall a, mem (write_page va bytes st) !! a =
    if (base <=? a) && (a <? base + 4096) then Some bytes.[a - base] else mem st !! a.
Proof.
  intros Htr a. cbn [mem write_page with_mem].
  apply (for_range_ind (fun n m => m !! a =
    if (base <=? a) && (a <? base + n) then Some bytes.[a - base] else mem st !! a)); [const_lia|..].
  - assert ((base <=? a) && (a <? base + 0) = false) as -> by lia. reflexivity.
  - intros n m Hn Hm. rewrite Htr by const_lia. destruct (decide (base + n = a)) as [<-|Hne].
    + rewrite lookup_insert_eq. replace (base + n - base) with n by lia.
      assert ((base <=? base + n) && (base + n <? base + (n + 1)) = true) as -> by lia. reflexivity.
    + rewrite lookup_insert_ne, Hm by exact Hne.
      assert ((base <=? a) && (a <? base + n) = (base <=? a) && (a <? base + (n + 1))) as -> by lia.
      reflexivity.
Qed.

Lemma read_page_at va base st k :
  (forall k, 0 <= k < 4096 -> translate (va + k) st = base + k) ->
  0 <= k < 4096 -> (read_page va st).[k] = mem st !!! (base + k).
Proof.
  intros Htr Hk. unfold read_page. rewrite aget_fmap_seqZ by const_lia.
  rewrite Z.add_0_l, Htr by exact Hk. reflexivity.
Qed.

Lemma mem_kmap_do virt phys flags st : mem (kmap_do virt phys flags st) = mem st.
Proof. reflexivity. Qed.

Lemma copied_mem pte new_page f st a :
  window_ok st -> page_base new_page = new_page ->
  mem (copied pte new_page f st) !! a =
    if (new_page <=? a) && (a <? new_page + 4096)
    then Some (mem st !!! (page_base pte + (a - new_page))) else mem st !! a.
Proof.
  intros Hwin Hb. unfold copied. cbn zeta. set (st1 := kmap_do COPY_WINDOW (page_base pte) 0 _).
  assert (window_ok (with_frames f st)) as Hwin0 by exact Hwin.
  assert (forall k, 0 <= k < 4096 -> translate (COPY_WINDOW + k) st1 = page_base pte + k) as Hrd.
  { intros k Hk. unfold st1. rewrite window_mapped by (assumption || lia).
    by rewrite page_base_aligned by (apply page_base_range || apply page_base_mod). }
  rewrite mem_kmap_do, (write_page_mem COPY_WINDOW new_page).
  - destruct ((new_page <=? a) && (a <? new_page + 4096)) eqn:E; [|reflexivity].
    rewrite (read_page_at COPY_WINDOW (page_base pte)) by (assumption || lia). reflexivity.
  - intros k Hk. rewrite window_mapped, Hb by (lia || const_lia || by apply window_ok_map). reflexivity.
Qed.

Lemma copied_kmaps pte new_page f st :
  kmaps (copied pte new_page f st) = vmm_map COPY_WINDOW COPY_WINDOW PAGE_WRITE
    (vmm_map COPY_WINDOW new_page PAGE_WRITE (vmm_map COPY_WINDOW (page_base pte) 0 (kmaps st))).
Proof. reflexivity. Qed.

Lemma mapped_page st i v :
  space_ok (spaces st).[i] -> vmm_get_user_physical (Some i) v st <> 0 ->
  let e := entry (spaces st).[i] (dir_index v - 1) (tab_index v) in
  user_page v = true /\ has e PAGE_PRESENT = true /\ has e PAGE_USER = true.
Proof.
  intros Hs Hm e. rewrite get_user_physical_entry in Hm by exact Hs. cbn zeta in Hm. fold e in Hm.
  destruct (user_page v); [|done]. destruct (has e PAGE_PRESENT); [|done].
  destruct (has e PAGE_USER); done.
Qed.

Lemma fault_is_cow st i cr2 error address :
  space_ok (spaces st).[i] -> current_space st = Some i -> address <> 0 ->
  has error 2 = true -> has error 4 = true ->
  let page := page_base address in
  let pte := entry (spaces st).[i] (dir_index page - 1) (tab_index page) in
  vmm_get_user_physical (Some i) page st <> 0 -> has pte PAGE_COW = true ->
  vmm_page_fault utab_addr cr2 error address st = cow_page i page pte st.
Proof.
  intros Hs Hc Hne He2 He4 page pte Hm Hcow. destruct (mapped_page st i page Hs Hm) as (Hup & Hp & _).
  unfold vmm_page_fault. destruct (Z.eqb_spec address 0); [done|]. rewrite Hc. cbn zeta. fold page.
  destruct (Z.eqb_spec (vmm_get_user_physical (Some i) page st) 0); [done|].
  fold (entry (spaces st).[i] (dir_index page - 1) (tab_index page)). fold pte in Hp |- *.
  assert (slot_ok (dir_index page) = true) as Hso by (unfold user_page in Hup; lia).
  assert ((table_used (spaces st).[i]).[dir_index page - 1] = true) as Htu.
  { eapply entry_unused; [exact Hs|by apply slot_ok_range|apply tab_index_range|exact Hp]. }
  rewrite He2, He4, Hso, Htu, Hcow, Hp. destruct (vma_of _ _); reflexivity.
Qed.

Lemma private_copy_facts st i page pte p f :
  vmm_inv st -> window_ok st -> live st i -> user_page page = true ->
  alloc_page (frames st) = (p, f) -> p <> 0 ->
  pte = entry (spaces st).[i] (dir_index page - 1) (tab_index page) -> has pte PAGE_PRESENT = true ->
  let st1 := copied pte p f st in
  let st2 := set_space i (set_pte (dir_index page - 1) (tab_index page) (private_pte p) (spaces st1).[i]) st1 in
  let st' := with_frames (free_page (page_base pte) (frames st2)) st2 in
  frame_refs (frames st) (p / PAGE_SIZE) = 0 /\
  entry (spaces st').[i] (dir_index page - 1) (tab_index page) = private_pte p /\
  (forall a, mem st' !! a = if (p <=? a) && (a <? p + 4096)
     then Some (mem st !!! (page_base pte + (a - p))) else mem st !! a) /\
  (forall k t j, 0 <= k < 32 -> 0 <= t < 8 -> 0 <= j < 1024 ->
     (k, t, j) <> (i, dir_index page - 1, tab_index page) ->
     entry (spaces st').[k] t j = entry (spaces st).[k] t j) /\
  (forall q, q <> p / PAGE_SIZE -> frame_refs (frames st') q =
     frame_refs (frames st) q - (if q =? page_base pte / PAGE_SIZE then 1 else 0)) /\
  vmm_get_physical COPY_WINDOW (kmaps st') = COPY_WINDOW.
Proof.
  intros Hinv Hwin [Hi Hu] Hup Ha Hp0 Epte Hp st1 st2 st'.
  pose proof (user_page_slot _ Hup) as Ht. pose proof (tab_index_range page) as Hj.
  destruct (alloc_unmapped utab_addr _ _ _ Hinv Ha Hp0) as (Hinv' & Hb & Hpr & Hpa & Hz & Hone).
  pose proof (alloc_some _ _ _ (vw_frames _ (proj1 Hinv)) Ha Hp0) as (_ & _ & _ & Hfree & Hq).
  pose proof (copied_same pte p f st) as (Esp & _ & _ & Efr).
  pose proof (copied_mem pte p f st) as Emem. pose proof (copied_kmaps pte p f st) as Ekm.
  subst st' st2 st1. generalize dependent (copied pte p f st). intros st1 Esp Efr Emem Ekm.
  cbn [spaces frames mem kmaps set_space with_spaces with_frames]. rewrite Esp, Efr, Ekm.
  assert (space_ok (spaces st).[i]) as Hs by (by apply (vw_space _ (proj1 Hinv))).
  set (old := page_base pte / PAGE_SIZE).
  assert (maps old pte = true) as Hmo by (unfold maps; rewrite Hp, Z.eqb_refl; reflexivity).
  assert (0 < frame_refs (frames st) old) as Hold.
  { pose proof (proj2 Hinv old). subst pte.
    pose proof (mapped_by_pos st old i _ _ Hi Ht Hj Hu Hmo). lia. }
  assert (old <> p / PAGE_SIZE) as Hon by (intros E; rewrite E in Hold; lia).
  destruct (free_some f (page_base pte)) as [_ Hfq]; [apply Hinv'|fold old|].
  { rewrite Hq. destruct (Z.eqb_spec old (p / PAGE_SIZE)); [done|exact Hold]. }
  assert (forall k t j, 0 <= k -> 0 <= t -> 0 <= j ->
    entry ((spaces st).[i <- set_pte (dir_index page - 1) (tab_index page) (private_pte p) (spaces st).[i]]).[k] t j =
    if (i =? k) && ((dir_index page - 1 =? t) && (tab_index page =? j)) then private_pte p
    else entry (spaces st).[k] t j) as He.
  { intros k t j Hk Htt Hjj. rewrite (aget_aset (spaces st)) by (rewrite ?(vw_spaces _ (proj1 Hinv)); lia).
    destruct (Z.eqb_spec i k) as [<-|]; [|reflexivity].
    rewrite set_pte_entry by (assumption || lia). reflexivity. }
  split; [exact Hfree|]. split; [rewrite He, !Z.eqb_refl by lia; reflexivity|].
  split; [intros a; exact (Emem a Hwin Hb)|]. split; [|split].
  - intros k t j Hk Htt Hjj Hne. rewrite He by lia.
    destruct (Z.eqb_spec i k), (Z.eqb_spec (dir_index page - 1) t), (Z.eqb_spec (tab_index page) j);
      try reflexivity. congruence.
  - intros q Hqp. rewrite Hfq, Hq. destruct (Z.eqb_spec q (p / PAGE_SIZE)); [done|reflexivity].
  - destruct Hwin as [Hk Hcv].
    rewrite vmm_map_get_same by
      first [reflexivity|const_lia|rewrite !covered_map; exact Hcv|auto with kernel].
    reflexivity.
Qed.

(** A user write to a present copy-on-write page of the current space is resolved,
    when a frame is free, by giving the space a private writable copy: the page now
    maps a frame that nobody referenced, holding the bytes of the shared frame; no
    other byte of memory, page or space changes, the shared frame loses one
    reference, and the copy window is mapped back to itself. *)
Theorem cow_fault_private_copy st i cr2 error address p f :
  vmm_inv st -> window_ok st -> current_space st = Some i -> address <> 0 ->
  has error 2 = true -> has error 4 = true ->
  alloc_page (frames st) = (p, f) -> p <> 0 ->
  let page := page_base address in
  let pte := entry (spaces st).[i] (dir_index page - 1) (tab_index page) in
  vmm_get_user_physical (Some i) page st <> 0 -> has pte PAGE_COW = true ->
  exists st', vmm_page_fault utab_addr cr2 error address st = Done tt st' /\
    frame_refs (frames st) (p / PAGE_SIZE) = 0 /\
    entry (spaces st').[i] (dir_index page - 1) (tab_index page) = private_pte p /\
    (forall a, mem st' !! a = if (p <=? a) && (a <? p + 4096)
       then Some (mem st !!! (page_base pte + (a - p))) else mem st !! a) /\
    (forall k t j, 0 <= k < 32 -> 0 <= t < 8 -> 0 <= j < 1024 ->
       (k, t, j) <> (i, dir_index page - 1, tab_index page) ->
       entry (spaces st').[k] t j = entry (spaces st).[k] t j) /\
    (forall q, q <> p / PAGE_SIZE -> frame_refs (frames st') q =
       frame_refs (frames st) q - (if q =? page_base pte / PAGE_SIZE then 1 else 0)) /\
    vmm_get_physical COPY_WINDOW (kmaps st') = COPY_WINDOW.
Proof.
  intros Hinv Hwin Hc Hne He2 He4 Ha Hp0 page pte Hm Hcow.
  pose proof (vw_current _ (proj1 Hinv) i Hc) as Hl.
  assert (space_ok (spaces st).[i]) as Hs by (by apply (vw_space _ (proj1 Hinv)); apply Hl).
  destruct (mapped_page st i page Hs Hm) as (Hup & Hp & _). fold pte in Hp.
  rewrite (fault_is_cow st i cr2 error address) by assumption. fold page. fold pte.
  rewrite cow_page_eq, Ha. destruct (Z.eqb_spec p 0); [contradiction|].
  eexists. split; [reflexivity|]. by apply private_copy_facts.
Qed.

(** The processor goes where the page tables of the current space say. *)
Lemma translate_mapped st i v :
  current_space st = Some i -> vmm_get_user_physical (Some i) v st <> 0 ->
  translate v st = vmm_get_user_physical (Some i) v st.
Proof.
  intros Hc. unfold translate, vmm_get_user_physical. rewrite Hc. cbn zeta.
  destruct (negb (user_range v) || negb (slot_ok (dir_index v)) || negb (table_used (spaces st).[i]).[dir_index v - 1]) eqn:E; [done|].
  rewrite !orb_false_iff, !negb_false_iff in E. destruct E as [[_ ->] ->]. cbn [andb].
  destruct (has _ PAGE_PRESENT); [|done]. cbn [negb orb]. by destruct (has _ PAGE_USER).
Qed.

(** *** Validated pointers *)
Definition tables_ok st : Prop :=
  length (spaces st) = 32%nat /\ forall i, 0 <= i < 32 -> space_ok (spaces st).[i].

(** Whether the processor lets user code read ([write] = false) or write the byte
    at [v] in space [i]: the entry is present, has the user bit and, for a write, the
    write bit. *)
Definition accessible st (i v : Z) (write : bool) : Prop :=
  let e := entry (spaces st).[i] (dir_index v - 1) (tab_index v) in
  user_page v = true /\ has e PAGE_PRESENT = true /\ has e PAGE_USER = true /\
  (write = true -> has e PAGE_WRITE = true).

(** [st'] differs from [st] in at most the page of [page] of space [i]. *)
Definition touches_only st st' (i page : Z) : Prop :=
  tables_ok st' /\ current_space st' = current_space st /\
  forall v, user_page v = true -> v / 4096 <> page / 4096 ->
    entry (spaces st').[i] (dir_index v - 1) (tab_index v) = entry (spaces st).[i] (dir_index v - 1) (tab_index v).

Lemma touches_refl st i page : tables_ok st -> touches_only st st i page.
Proof. done. Qed.

Lemma touches_trans st st1 st2 i page :
  touches_only st st1 i page -> touches_only st1 st2 i page -> touches_only st st2 i page.
Proof.
  intros (_ & Ec1 & He1) (Hok & Ec2 & He2). split; [done|]. split; [congruence|].
  intros v Hu Hv. rewrite He2, He1 by assumption. reflexivity.
Qed.

Lemma accessible_other st st' i page v write :
  touches_only st st' i page -> v / 4096 <> page / 4096 ->
  accessible st i v write -> accessible st' i v write.
Proof.
  intros (_ & _ & He) Hv (Hup & Hacc). split; [exact Hup|]. rewrite He by assumption. exact Hacc.
Qed.

Lemma accessible_page st i v w write :
  v / 4096 = w / 4096 -> accessible st i v write -> accessible st i w write.
Proof.
  intros Hvw. unfold accessible. rewrite (user_page_same v w Hvw).
  destruct (same_page v w Hvw) as [-> ->]. done.
Qed.

Lemma tables_set st i s : tables_ok st -> 0 <= i < 32 -> space_ok s -> tables_ok (set_space i s st).
Proof.
  intros [Hl Hs] Hi Hok. split; cbn [spaces set_space with_spaces]; [by rewrite aset_length|].
  intros k Hk. rewrite (aget_aset (spaces st)) by (rewrite ?Hl; lia).
  destruct (i =? k); [exact Hok|by apply Hs].
Qed.

Lemma tables_set_space st i s : tables_ok st -> 0 <= i < 32 -> (spaces (set_space i s st)).[i] = s.
Proof. intros [Hl _] Hi. apply aget_aset_eq. rewrite Hl. lia. Qed.

(** Writing one entry of the space touches one page. *)
Lemma touches_set_pte st st1 i page pte s :
  tables_ok st -> 0 <= i < 32 -> user_page page = true -> space_ok s ->
  spaces st1 = spaces st -> current_space st1 = current_space st ->
  (table_used s).[dir_index page - 1] = true ->
  (forall t j, entry s t j = entry (spaces st).[i] t j) ->
  touches_only st (set_space i (set_pte (dir_index page - 1) (tab_index page) pte s) st1) i page.
Proof.
  intros Hok Hi Hup Hs Es Ec Htu He. pose proof (user_page_slot _ Hup). pose proof (tab_index_range page).
  assert (tables_ok st1) as Hok1 by (unfold tables_ok; rewrite Es; exact Hok).
  split; [by apply tables_set; [..|apply set_pte_ok]|]. split; [exact Ec|].
  intros v Hu Hv. rewrite tables_set_space by assumption. pose proof (user_page_slot _ Hu).
  rewrite set_pte_entry by (assumption || lia || apply tab_index_range).
  rewrite page_entry_ne by exact Hv. apply He.
Qed.

Lemma touches_eq st1 st st' i page :
  touches_only st1 st' i page -> spaces st1 = spaces st -> current_space st1 = current_space st ->
  touches_only st st' i page.
Proof. unfold touches_only. intros Ht Es Ec. by rewrite <- Es, <- Ec. Qed.

Lemma touches_map_user st i page p flags :
  tables_ok st -> 0 <= i < 32 ->
  touches_only st (snd (vmm_map_user utab_addr (Some i) page p flags st)) i page.
Proof.
  intros Hok Hi. rewrite vmm_map_user_eq. destruct (user_page page) eqn:Hup; [|by apply touches_refl].
  cbn [snd]. pose proof (user_page_slot _ Hup). destruct Hok as [Hl Hs].
  apply touches_set_pte; try done; [apply use_table_ok|apply use_table_used|]; try (lia || by apply Hs).
  intros t j. apply use_table_entry.
Qed.

Lemma demand_page_touches st i vi page st' :
  tables_ok st -> 0 <= i < 32 -> demand_page utab_addr i vi page st = Done tt st' ->
  touches_only st st' i page.
Proof.
  intros Hok Hi. unfold demand_page. destruct (alloc_page (frames st)) as [p f].
  destruct (p =? 0); [done|]. set (st1 := kmap_do _ _ _ _).
  intros <-%Done_inj.
  assert (spaces st1 = spaces st /\ current_space st1 = current_space st) as [Es Ec] by done.
  generalize dependent st1. intros st1 Es Ec.
  apply (touches_eq st1); [|done..]. apply (touches_map_user st1); [|done].
  unfold tables_ok. by rewrite Es.
Qed.

Lemma cow_page_touches st i page pte st' :
  tables_ok st -> 0 <= i < 32 -> user_page page = true -> 
  has (entry (spaces st).[i] (dir_index page - 1) (tab_index page)) PAGE_PRESENT = true ->
  cow_page i page pte st = Done tt st' -> touches_only st st' i page.
Proof.
  intros Hok Hi Hup Hp. rewrite cow_page_eq. destruct (alloc_page (frames st)) as [p f].
  destruct (p =? 0); [done|]. pose proof (copied_same pte p f st) as (Es & _ & Ec & _).
  generalize dependent (copied pte p f st). intros st1 Es Ec <-%Done_inj.
  pose proof (user_page_slot _ Hup). pose proof (tab_index_range page). destruct Hok as [Hl Hs].
  apply (touches_set_pte st st1); try done; rewrite Es; [by apply Hs| |done].
  by eapply entry_unused; [apply Hs| | |exact Hp].
Qed.

Lemma page_fault_touches st i cr2 error address st' :
  tables_ok st -> 0 <= i < 32 -> current_space st = Some i -> address <> 0 ->
  user_range (page_base address) = true ->
  vmm_page_fault utab_addr cr2 error address st = Done tt st' ->
  touches_only st st' i (page_base address).
Proof.
  intros Hok Hi Hc Hne Hur. unfold vmm_page_fault. destruct (Z.eqb_spec address 0); [done|].
  rewrite Hc. set (page := page_base address) in *. cbn zeta.
  destruct (if slot_ok _ then _ else _) as [vi|]; [by apply demand_page_touches|].
  fold (entry (spaces st).[i] (dir_index page - 1) (tab_index page)).
  destruct (has error 2 && _ && _ && _ && _ && _) eqn:Hcond; [|done].
  apply cow_page_touches; try done; unfold user_page; lia.
Qed.

Lemma private_pte_has p flag :
  flag = PAGE_PRESENT \/ flag = PAGE_USER \/ flag = PAGE_WRITE -> has (private_pte p) flag = true.
Proof.
  intros Hf. unfold private_pte. rewrite !has_lor.
  destruct Hf as [->|[->| ->]].
  - change (has PAGE_PRESENT PAGE_PRESENT) with true. lia.
  - change (has PAGE_USER PAGE_USER) with true. lia.
  - change (has PAGE_WRITE PAGE_WRITE) with true. lia.
Qed.

(** The copy-on-write branch leaves the page fully accessible. *)
Lemma cow_page_accessible st i page pte st' write :
  tables_ok st -> 0 <= i < 32 -> user_page page = true ->
  cow_page i page pte st = Done tt st' -> accessible st' i page write.
Proof.
  intros [Hl Hs] Hi Hup. rewrite cow_page_eq. destruct (alloc_page (frames st)) as [p f].
  destruct (p =? 0); [done|]. pose proof (copied_same pte p f st) as (Es & _ & _ & _).
  generalize dependent (copied pte p f st). intros st1 Es <-%Done_inj.
  split; [exact Hup|]. cbn [spaces with_frames]. rewrite tables_set_space by (done || unfold tables_ok; by rewrite Es).
  pose proof (user_page_slot _ Hup). pose proof (tab_index_range page).
  rewrite Es, set_pte_entry, !Z.eqb_refl by (lia || by apply Hs). cbn [andb].
  rewrite !private_pte_has by tauto. done.
Qed.

Lemma validate_page_sound st i cr2 page write b st' :
  tables_ok st -> 0 <= i < 32 -> current_space st = Some i ->
  page_base page = page -> user_range page = true ->
  validate_page utab_addr cr2 i page write st = Done b st' ->
  touches_only st st' i page /\ (b = true -> accessible st' i page write).
Proof.
  intros Hok Hi Hc Hb Hur. unfold validate_page. set (faulted := if _ =? 0 then _ else _).
  assert (page <> 0) as Hne by (unfold user_range in Hur; const_lia).
  destruct faulted as [[] st1|msg st1] eqn:Hf; [|done]. cbn [obind].
  assert (touches_only st st1 i page) as Ht1.
  { subst faulted. destruct (_ =? 0); [destruct (vma_of _ _)|]; [|by apply Done_inj in Hf as <-..].
    rewrite <- Hb. eapply page_fault_touches; try done. by rewrite Hb. }
  clear faulted Hf. destruct Ht1 as (Hok1 & Ec1 & He1) eqn:Et1. clear Et1.
  destruct (Z.eqb_spec (vmm_get_user_physical (Some i) page st1) 0) as [|Hm].
  { intros [= <- <-]. split; [|discriminate]. done. }
  assert (space_ok (spaces st1).[i]) as Hs1 by (by apply Hok1).
  destruct (mapped_page st1 i page Hs1 Hm) as (Hup & Hp & Hus). cbn zeta.
  fold (entry (spaces st1).[i] (dir_index page - 1) (tab_index page)).
  set (pte := entry _ _ _) in *.
  destruct (write && negb (has pte PAGE_WRITE)) eqn:Hw.
  - destruct (has pte PAGE_COW) eqn:Hcow; cbn [negb]; [|intros [= <- <-]; split; [done|discriminate]].
    destruct (vmm_page_fault utab_addr cr2 6 page st1) as [[] st2|msg st2] eqn:Hf; [|done]. cbn [obind].
    intros [= <- <-].
    assert (current_space st1 = Some i) as Hc1 by congruence.
    pose proof Hf as Hf'. rewrite (fault_is_cow st1 i) in Hf' by (done || by rewrite Hb).
    rewrite Hb in Hf'. split.
    + apply (touches_trans _ st1); [done|]. rewrite <- Hb. eapply page_fault_touches; try done. by rewrite Hb.
    + intros _. by eapply cow_page_accessible.
  - intros [= <- <-]. split; [done|]. intros _. split; [exact Hup|]. fold pte.
    split_and!; [exact Hp|exact Hus|]. intros ->. cbn in Hw. by apply negb_false_iff.
Qed.

Lemma validate_loop_sound fuel cr2 i page e write st st' :
  tables_ok st -> 0 <= i < 32 -> current_space st = Some i ->
  page mod 4096 = 0 -> USER_BASE <= page <= e -> e < USER_END ->
  validate_loop utab_addr fuel cr2 i page e write st = Done 0 st' ->
  (forall v, v < page -> accessible st i v write -> accessible st' i v write) /\
  (forall v, page <= v <= e -> accessible st' i v write).
Proof.
  revert page st. induction fuel as [|fuel IH]; intros page st Hok Hi Hc Hal Hpe He; [done|].
  cbn [validate_loop]. destruct (validate_page utab_addr cr2 i page write st) as [b st1|msg st1] eqn:Hv; [|done].
  cbn [obind]. destruct b; cbn [negb]; [|done].
  assert (page_base page = page) as Hb by (apply page_base_aligned; [word_lia|done]).
  assert (user_range page = true) as Hur by (unfold user_range; lia).
  destruct (validate_page_sound st i cr2 page write true st1 Hok Hi Hc Hb Hur Hv) as [Ht Hacc].
  specialize (Hacc eq_refl).
  assert (forall v, v < page -> accessible st i v write -> accessible st1 i v write) as Hkeep.
  { intros v Hlt. apply (accessible_other _ _ _ _ _ _ Ht). word_lia. }
  assert (forall v, page <= v < page + 4096 -> accessible st1 i v write) as Hnow.
  { intros v Hr. eapply accessible_page; [|exact Hacc]. word_lia. }
  rewrite (u32_small (e - PAGE_SIZE)) by (unfold is_u32; const_lia).
  destruct (Z.ltb_spec (e - PAGE_SIZE) page) as [Hlast|Hmore].
  - intros <-%Done_inj. split; [exact Hkeep|]. intros v Hr. apply Hnow. const_lia.
  - destruct Ht as (Hok1 & Ec1 & _). rewrite u32_small by word_lia. intros Hrec.
    destruct (IH (page + PAGE_SIZE) st1) as [Hbelow Habove]; try done; try const_lia; [congruence|word_lia|].
    split.
    + intros v Hlt Hv'. apply Hbelow; [const_lia|]. by apply Hkeep.
    + intros v Hr. destruct (Z.ltb_spec v (page + 4096)); [|apply Habove; const_lia].
      apply Hbelow; [const_lia|]. apply Hnow. lia.
Qed.

(** A page that is mapped and, for a write, writable needs no fault. *)
Lemma validate_page_ready st i cr2 page write :
  vmm_get_user_physical (Some i) page st <> 0 ->
  (write = true -> has (entry (spaces st).[i] (dir_index page - 1) (tab_index page)) PAGE_WRITE = true) ->
  validate_page utab_addr cr2 i page write st = Done true st.
Proof.
  intros Hm Hw. unfold validate_page. destruct (Z.eqb_spec (vmm_get_user_physical (Some i) page st) 0); [done|].
  cbn [obind]. destruct (Z.eqb_spec (vmm_get_user_physical (Some i) page st) 0); [done|]. cbn zeta.
  fold (entry (spaces st).[i] (dir_index page - 1) (tab_index page)).
  destruct write; [|reflexivity]. by rewrite Hw.
Qed.

Lemma validate_loop_S n cr2 i page e write st :
  validate_loop utab_addr (Datatypes.S n) cr2 i page e write st =
    let* (ok, st) := validate_page utab_addr cr2 i page write st in
    if negb ok then Done (-1) st
    else if u32 (e - PAGE_SIZE) <? page then Done 0 st
    else validate_loop utab_addr n cr2 i (u32 (page + PAGE_SIZE)) e write st.
Proof. reflexivity. Qed.

Lemma validate_loop_ready n cr2 i page e write st :
  page mod 4096 = 0 -> USER_BASE <= page <= e -> e < USER_END -> (e - page) / PAGE_SIZE = Z.of_nat n ->
  (forall v, page <= v <= e -> vmm_get_user_physical (Some i) v st <> 0 /\
     (write = true -> has (entry (spaces st).[i] (dir_index v - 1) (tab_index v)) PAGE_WRITE = true)) ->
  validate_loop utab_addr (Datatypes.S n) cr2 i page e write st = Done 0 st.
Proof.
  revert page. induction n as [|n IH]; intros page Hal Hpe He Hn Hall;
    rewrite validate_loop_S; destruct (Hall page) as [Hm Hw]; try lia;
    rewrite validate_page_ready by done; cbn [obind negb]; rewrite (u32_small (e - PAGE_SIZE)) by (unfold is_u32; const_lia).
  - assert ((e - PAGE_SIZE <? page) = true) as -> by word_lia. reflexivity.
  - assert ((e - PAGE_SIZE <? page) = false) as -> by word_lia.
    rewrite u32_small by word_lia. apply IH; try word_lia. intros v Hv. apply Hall. const_lia.
Qed.

(** Validation keeps the tables sound and the space active. *)
Lemma validate_loop_keeps fuel cr2 i page e write st rc st' :
  tables_ok st -> 0 <= i < 32 -> current_space st = Some i ->
  page mod 4096 = 0 -> USER_BASE <= page <= e -> e < USER_END ->
  validate_loop utab_addr fuel cr2 i page e write st = Done rc st' -> tables_ok st' /\ current_space st' = Some i.
Proof.
  revert page st. induction fuel as [|fuel IH]; intros page st Hok Hi Hc Hal Hpe He; cbn [validate_loop].
  { intros <-%Done_inj. done. }
  destruct (validate_page utab_addr cr2 i page write st) as [b st1|msg st1] eqn:Hv; [|done]. cbn [obind].
  assert (page_base page = page) as Hb by (apply page_base_aligned; [word_lia|done]).
  assert (user_range page = true) as Hur by (unfold user_range; lia).
  destruct (validate_page_sound st i cr2 page write b st1 Hok Hi Hc Hb Hur Hv) as [(Hok1 & Ec1 & _) _].
  rewrite Hc in Ec1. destruct b; cbn [negb]; [|intros <-%Done_inj; done].
  rewrite (u32_small (e - PAGE_SIZE)) by (unfold is_u32; const_lia).
  destruct (Z.ltb_spec (e - PAGE_SIZE) page); [intros <-%Done_inj; done|].
  rewrite u32_small by (unfold is_u32; const_lia). apply IH; try done; const_lia || word_lia.
Qed.

(** What a successful validation means. *)
Lemma validate_sound st i cr2 virt len write st' :
  tables_ok st -> 0 <= i < 32 -> current_space st = Some i -> is_u32 virt -> is_u32 len ->
  vmm_validate_user_ptr utab_addr cr2 (Some i) virt len write st = Done 0 st' ->
  0 < len /\ USER_BASE <= virt /\ virt + len <= USER_END /\ tables_ok st' /\ current_space st' = Some i /\
  forall v, virt <= v < virt + len -> accessible st' i v write.
Proof.
  intros Hok Hi Hc Hvirt Hlen. unfold vmm_validate_user_ptr.
  destruct ((len =? 0) || negb (user_range virt) || (USER_END - virt <? len)) eqn:Hg; [done|].
  assert (0 < len /\ USER_BASE <= virt /\ virt + len <= USER_END) as (H1 & H2 & H3)
    by (unfold user_range in Hg; word_lia).
  assert (page_base virt mod 4096 = 0 /\ USER_BASE <= page_base virt <= virt) as [Hm Hr].
  { split; [apply page_base_mod|]. rewrite page_base_div by done. word_lia. }
  intros Hl. split; [lia|]. split; [lia|]. split; [lia|].
  pose proof Hl as Hk. apply validate_loop_keeps in Hk as [Hok' Hc']; try done; try lia.
  split; [done|]. split; [done|]. intros v Hv.
  apply validate_loop_sound in Hl as [_ Hl]; try done; try lia. apply Hl. lia.
Qed.

(** C11: when the kernel validates a user buffer of the current space and gets 0, the
    buffer lies in the user range and every byte of it is then present, user
    accessible and, for a write, writable (missing areas faulted in, shared pages
    copied); and a buffer whose pages already are so is always accepted, with
    nothing changed. *)
Theorem validate_user_ptr_correct st i cr2 virt len write :
  tables_ok st -> 0 <= i < 32 -> current_space st = Some i -> is_u32 virt -> is_u32 len ->
  (forall st', vmm_validate_user_ptr utab_addr cr2 (Some i) virt len write st = Done 0 st' ->
     0 < len /\ USER_BASE <= virt /\ virt + len <= USER_END /\
     forall v, virt <= v < virt + len -> accessible st' i v write) /\
  (0 < len -> USER_BASE <= virt -> virt + len <= USER_END ->
   (forall v, page_base virt <= v < virt + len -> vmm_get_user_physical (Some i) v st <> 0 /\
     (write = true -> has (entry (spaces st).[i] (dir_index v - 1) (tab_index v)) PAGE_WRITE = true)) ->
   vmm_validate_user_ptr utab_addr cr2 (Some i) virt len write st = Done 0 st).
Proof.
  intros Hok Hi Hc Hvirt Hlen. unfold vmm_validate_user_ptr.
  assert (USER_BASE <= virt -> page_base virt mod 4096 = 0 /\ USER_BASE <= page_base virt <= virt) as Hpb.
  { intros Hge. split; [apply page_base_mod|]. rewrite page_base_div by done. word_lia. }
  split.
  - intros st' Hv. by destruct (validate_sound _ _ _ _ _ _ _ Hok Hi Hc Hvirt Hlen Hv) as (H1 & H2 & H3 & _ & _ & H4).
  - intros H1 H2 H3 Hall. destruct (Hpb H2) as [Hm Hr].
    assert ((len =? 0) || negb (user_range virt) || (USER_END - virt <? len) = false) as ->
      by (unfold user_range; lia).
    apply validate_loop_ready; [done|lia|lia|word_lia|]. intros v Hv. apply Hall. lia.
Qed.
End reach.
