(* ===== verification/VmmAreas.v ===== *)
(** Mapped areas: the [vmas] table that [mmap] and [munmap] edit and the fault
    handler consults, and the demand-paging branch of [vmm_page_fault]. *)
From S2P Require Import Prelude Frames Pmm Paging KernelMap Vmm VmmCount VmmSafe VmmTheorems.

(** ** The area table *)
Definition area_ok (v : vma) : Prop :=
  used v = true ->
  start v mod 4096 = 0 /\ end_ v mod 4096 = 0 /\ USER_BASE <= start v < end_ v /\ end_ v <= USER_END.

Definition apart (v w : vma) : Prop :=
  used v = true -> used w = true -> end_ v <= start w \/ end_ w <= start v.

(** Every used area is a nonempty page-aligned part of the user range and no two
    used areas share a page. *)
Record areas_ok (l : list vma) : Prop := {
  ar_length : length l = 64%nat;
  ar_area : forall i, 0 <= i < 64 -> area_ok l.[i];
  ar_apart : forall i j, 0 <= i < 64 -> 0 <= j < 64 -> i <> j -> apart l.[i] l.[j];
}.

Lemma areas_set l k v :
  areas_ok l -> 0 <= k < 64 -> area_ok v ->
  (forall i, 0 <= i < 64 -> i <> k -> apart v l.[i]) ->
  areas_ok (l.[k <- v]).
Proof.
  intros [Hl Ha Hp] Hk Hv Hvi.
  assert (forall i, 0 <= i < 64 -> l.[k <- v].[i] = if k =? i then v else l.[i]) as Hget.
  { intros i Hi. apply aget_aset; rewrite ?Hl; lia. }
  split; [by rewrite aset_length|..].
  - intros i Hi. rewrite Hget by done. case_match; [done|by apply Ha].
  - intros i j Hi Hj Hij. rewrite !Hget by done.
    destruct (Z.eqb_spec k i) as [<-|], (Z.eqb_spec k j) as [<-|]; try done.
    + by apply Hvi.
    + intros H1 H2. destruct (Hvi i Hi Hij H2 H1); tauto.
    + by apply Hp.
Qed.

Lemma overlaps_apart s b e fl :
  length (vmas s) = 64%nat -> vma_overlaps s b e = false ->
  forall i, 0 <= i < 64 -> apart (mkVma b e fl true) (vmas s).[i].
Proof.
  intros Hl Ho i Hi _ Hu. cbn [start end_]. unfold vma_overlaps in Ho.
  assert (forall v, v ∈ vmas s -> used v && (b <? end_ v) && (start v <? e) = false) as Hall.
  { intros v Hv. apply not_true_iff_false. intros Ht. apply not_true_iff_false in Ho. apply Ho.
    apply existsb_exists. exists v. split; [by apply list_elem_of_In|done]. }
  specialize (Hall (vmas s).[i]). rewrite Hu in Hall. cbn [andb] in Hall.
  assert ((vmas s).[i] ∈ vmas s) as Hin.
  { apply list_elem_of_lookup. exists (Z.to_nat i). apply lookup_aget. lia. }
  specialize (Hall Hin). lia.
Qed.

(** A new area in a free slot. *)
Lemma areas_add s slot b e fl :
  areas_ok (vmas s) -> free_vma_slot s = Some slot -> vma_overlaps s b e = false ->
  b mod 4096 = 0 -> e mod 4096 = 0 -> USER_BASE <= b < e -> e <= USER_END ->
  areas_ok ((vmas s).[slot <- mkVma b e fl true]).
Proof.
  intros Ha Hs Ho Hb He Hr Hend. apply find_from_Some in Hs as (Hsl & _).
  apply areas_set; [done|const_lia|done|]. intros i Hi _. by apply overlaps_apart; [apply Ha|..].
Qed.

(** Shrinking an area keeps it apart from all that it was apart from. *)
Lemma apart_shrink v w b e fl u :
  apart v w -> used v = true -> start v <= b -> e <= end_ v -> apart (mkVma b e fl u) w.
Proof. intros Ha Hu Hb He _ Hw. cbn [start end_]. destruct (Ha Hu Hw); lia. Qed.

Lemma areas_trim l slot virt e :
  areas_ok l -> 0 <= slot < 64 -> used l.[slot] = true ->
  start l.[slot] <= virt < e -> e <= end_ l.[slot] -> virt mod 4096 = 0 -> e mod 4096 = 0 ->
  areas_ok (trim_vma slot virt e l).
Proof.
  intros Ha Hs Hu Hv He Hal Hae. unfold trim_vma. cbn zeta. set (v := l.[slot]) in *.
  destruct (ar_area _ Ha slot Hs Hu) as (H1 & H2 & H3 & H4). fold v in H1, H2, H3, H4.
  assert (forall b e' fl u i, 0 <= i < 64 -> i <> slot -> start v <= b -> e' <= end_ v ->
    apart (mkVma b e' fl u) l.[i]) as Hshr.
  { intros b e' fl u i Hi Hne Hb He'. apply (apart_shrink v); try done. apply (ar_apart _ Ha); lia. }
  destruct (Z.eqb_spec virt (start v)) as [->|Hvs], (Z.eqb_spec e (end_ v)) as [->|Hee]; cbn [andb].
  - apply areas_set; [done|done| |]; [by intros|]. intros i Hi Hne [=].
  - apply areas_set; [done|done| |].
    + intros _. cbn. split_and!; try done; lia.
    + intros i Hi Hne. apply Hshr; (done || lia).
  - apply areas_set; [done|done| |].
    + intros _. cbn. split_and!; try done; lia.
    + intros i Hi Hne. apply Hshr; (done || lia).
  - destruct (find_from _ 0 _) as [k|] eqn:Hk; [|done]. apply find_from_Some in Hk as (Hkr & Hku & _).
    assert (0 <= k < 64) as Hk by const_lia. apply negb_true_iff in Hku.
    assert (k <> slot) as Hks by (intros ->; fold v in Hku; congruence).
    set (hi := mkVma e (end_ v) (vflags v) (used v)). set (lo := mkVma (start v) virt (vflags v) (used v)).
    (* first shrink the old area, then add the upper part: the stores commute *)
    assert (l.[k <- hi].[slot <- lo] = l.[slot <- lo].[k <- hi]) as ->.
    { unfold aset. apply list_insert_insert_ne. lia. }
    assert (areas_ok (l.[slot <- lo])) as Hlo.
    { apply areas_set; [done|done| |].
      - intros _. cbn. split_and!; try done; lia.
      - intros i Hi Hne. apply Hshr; (done || lia). }
    apply areas_set; [done|done| |].
    + intros _. cbn. split_and!; try done; lia.
    + intros i Hi Hne. rewrite aget_aset by (rewrite ?(ar_length _ Ha); lia).
      destruct (Z.eqb_spec slot i) as [<-|]; [|apply Hshr; (done || lia)].
      intros _ _. right. cbn. lia.
Qed.

Section areas.
Context {S : Type} `{FrameAllocatorLaws S}.
Variable utab_addr : Z -> Z -> Z.
Implicit Types st : vmm S.

Definition areas st (i : Z) : list vma := vmas (spaces st).[i].

(** The page-level operations leave the area table alone. *)
Definition same_areas st st' (i : Z) : Prop :=
  length (spaces st') = 32%nat /\ areas st' i = areas st i.

Lemma same_areas_set st i s :
  length (spaces st) = 32%nat -> 0 <= i < 32 -> vmas s = areas st i -> same_areas st (set_space i s st) i.
Proof.
  intros Hl Hi Hv. split; cbn [spaces set_space with_spaces]; [by rewrite aset_length|].
  unfold areas. cbn [spaces set_space with_spaces]. rewrite aget_aset_eq by (rewrite Hl; lia). exact Hv.
Qed.

Lemma map_user_areas st i va p fl :
  length (spaces st) = 32%nat -> 0 <= i < 32 ->
  same_areas st (snd (vmm_map_user utab_addr (Some i) va p fl st)) i.
Proof.
  intros Hl Hi. rewrite vmm_map_user_eq. destruct (user_page va); [|done].
  apply same_areas_set; [done..|]. apply use_table_vmas.
Qed.

Lemma unmap_user_areas st i va :
  length (spaces st) = 32%nat -> 0 <= i < 32 ->
  same_areas st (snd (vmm_unmap_user (Some i) va st)) i.
Proof.
  intros Hl Hi. unfold vmm_unmap_user. destruct (_ || _); [done|]. destruct (negb _); [done|].
  by apply (same_areas_set (with_frames _ st)).
Qed.

Lemma same_areas_trans st st1 st2 i : same_areas st st1 i -> same_areas st1 st2 i -> same_areas st st2 i.
Proof. intros [_ E1] [Hl E2]. split; [done|congruence]. Qed.

Lemma rollback_areas n i base st :
  length (spaces st) = 32%nat -> 0 <= i < 32 -> same_areas st (rollback n i base st) i.
Proof.
  revert st. induction n as [|n IH]; intros st Hl Hi; [done|]. cbn [rollback].
  pose proof (unmap_user_areas st i (u32 (base + Z.of_nat n * PAGE_SIZE)) Hl Hi) as Hu.
  eapply same_areas_trans; [exact Hu|]. apply IH; [apply Hu|done].
Qed.

Lemma map_pages_areas n k i base fl st :
  length (spaces st) = 32%nat -> 0 <= i < 32 ->
  same_areas st (snd (map_pages utab_addr n k i base fl st)) i.
Proof.
  revert k st. induction n as [|n IH]; intros k st Hl Hi; [done|]. cbn [map_pages].
  destruct (alloc_page (frames st)) as [p f]. destruct (p =? 0).
  { by apply (rollback_areas k i base (with_frames f st)). }
  set (va := u32 _). pose proof (map_user_areas (with_frames f st) i va p (Z.lor fl PAGE_WRITE) Hl Hi) as Hm.
  destruct (vmm_map_user _ _ _ _ _ _) as [rc st']. cbn [snd] in Hm.
  eapply same_areas_trans; [exact Hm|]. destruct Hm as [Hl' _]. destruct (negb _); [|by apply IH].
  by apply (rollback_areas k i base (with_frames _ st')).
Qed.

(** The arithmetic of a range the checks let through. *)
Lemma good_range base pages :
  is_u32 base -> 0 < pages <= 524288 ->
  let e := u32 (base + pages * PAGE_SIZE) in
  bad_range base e = false ->
  base mod 4096 = 0 /\ e mod 4096 = 0 /\ USER_BASE <= base < e /\ e <= USER_END /\ e = base + pages * PAGE_SIZE.
Proof.
  intros Hb Hp e Hr. unfold bad_range in Hr. rewrite page_off_mod in Hr.
  assert (base mod 4096 = 0 /\ USER_BASE <= base /\ base <= e /\ e <= USER_END) as (H1 & H2 & H3 & H4)
    by (rewrite !orb_false_iff in Hr; lia).
  assert (e = base + pages * PAGE_SIZE) as He by (unfold e in *; word_lia).
  split_and!; word_lia.
Qed.

Lemma place_range_u32 fuel i base pages st : is_u32 base -> is_u32 (place_range fuel i base pages st).
Proof.
  revert base. induction fuel as [|fuel IH]; intros base Hb; [done|]. cbn [place_range].
  destruct (base <? USER_END); [|done]. cbn zeta. destruct (_ || _); [done|]. destruct (_ && _); [done|].
  apply IH, u32_range.
Qed.
Lemma place_lazy_u32 fuel s base pages : is_u32 base -> is_u32 (place_lazy fuel s base pages).
Proof.
  revert base. induction fuel as [|fuel IH]; intros base Hb; [done|]. cbn [place_lazy].
  destruct (base <? USER_END); [|done]. cbn zeta. destruct (_ || _); [done|]. destruct (negb _); [done|].
  apply IH, u32_range.
Qed.

Lemma map_range_areas st i virt pages fl :
  length (spaces st) = 32%nat -> 0 <= i < 32 -> is_u32 virt -> 0 <= pages -> areas_ok (areas st i) ->
  areas_ok (areas (snd (vmm_map_range utab_addr (Some i) virt pages fl st)) i).
Proof.
  intros Hl Hi Hv Hp Ha. unfold vmm_map_range.
  destruct ((pages =? 0) || (524288 <? pages)) eqn:Hg; [exact Ha|]. cbn zeta.
  set (base := if virt =? 0 then _ else _).
  assert (is_u32 base) as Hb by (unfold base; destruct (virt =? 0); [by apply place_range_u32|done]).
  set (e := u32 _). destruct (bad_range base e || _ || _ || _) eqn:Hbad; [exact Ha|].
  apply orb_false_iff in Hbad as [Hbad _]. apply orb_false_iff in Hbad as [Hbad Hov].
  apply orb_false_iff in Hbad as [Hbad _].
  destruct (free_vma_slot _) as [slot|] eqn:Hslot; [|exact Ha].
  destruct (good_range base pages Hb ltac:(lia) Hbad) as (H1 & H2 & H3 & H4 & _). fold e in H2, H3, H4.
  pose proof (map_pages_areas (Z.to_nat pages) 0 i base fl st Hl Hi) as Hm.
  destruct (map_pages _ _ _ _ _ _ _) as [ok st']. cbn [snd] in Hm. destruct Hm as [Hl' Em].
  destruct ok; cbn [negb snd]; [|rewrite Em; exact Ha]. unfold areas.
  cbn [spaces set_space with_spaces]. rewrite aget_aset_eq by (rewrite Hl'; lia). cbn [vmas with_vmas].
  change (vmas (spaces st').[i]) with (areas st' i). rewrite Em. by apply areas_add.
Qed.

Lemma map_lazy_areas st i virt pages fl :
  length (spaces st) = 32%nat -> 0 <= i < 32 -> is_u32 virt -> 0 <= pages -> areas_ok (areas st i) ->
  areas_ok (areas (snd (vmm_map_lazy_range (Some i) virt pages fl st)) i).
Proof.
  intros Hl Hi Hv Hp Ha. unfold vmm_map_lazy_range.
  destruct ((pages =? 0) || (524288 <? pages)) eqn:Hg; [exact Ha|]. cbn zeta.
  set (base := if virt =? 0 then _ else _).
  assert (is_u32 base) as Hb by (unfold base; destruct (virt =? 0); [by apply place_lazy_u32|done]).
  set (e := u32 _). destruct (bad_range base e || _) eqn:Hbad; [exact Ha|].
  apply orb_false_iff in Hbad as [Hbad Hov].
  destruct (free_vma_slot _) as [slot|] eqn:Hslot; [|exact Ha]. cbn [snd].
  destruct (good_range base pages Hb ltac:(lia) Hbad) as (H1 & H2 & H3 & H4 & _). fold e in H2, H3, H4.
  unfold areas. cbn [spaces set_space with_spaces]. rewrite aget_aset_eq by (rewrite Hl; lia).
  by apply areas_add.
Qed.

Lemma unmap_range_areas st i virt pages :
  length (spaces st) = 32%nat -> 0 <= i < 32 -> is_u32 virt -> 0 <= pages <= 524288 -> areas_ok (areas st i) ->
  areas_ok (areas (snd (vmm_unmap_range (Some i) virt pages st)) i).
Proof.
  intros Hl Hi Hv Hp Ha. unfold vmm_unmap_range.
  destruct ((pages =? 0) || _ || _) eqn:Hg; [exact Ha|]. cbn zeta. set (e := u32 _).
  destruct ((e <? virt) || _) eqn:He; [exact Ha|]. destruct (existsb _ _); [exact Ha|].
  destruct (find_from _ _ _) as [slot|] eqn:Hf; [|exact Ha]. cbn [snd].
  apply find_from_Some in Hf as (Hsr & Hslot & _). fold (areas st i) in Hslot.
  match goal with |- context [for_range ?lo ?hi ?b st] =>
    assert (same_areas st (for_range lo hi b st) i) as [Hl' Em] end.
  { apply (for_range_pres (fun s => same_areas st s i)); [done|]. intros k s _ Hs.
    eapply same_areas_trans; [exact Hs|]. apply unmap_user_areas; [apply Hs|done]. }
  unfold areas at 1. cbn [spaces set_space with_spaces]. rewrite aget_aset_eq by (rewrite Hl'; lia).
  cbn [vmas with_vmas]. match goal with |- context [vmas (spaces ?s).[i]] =>
    change (vmas (spaces s).[i]) with (areas s i) end. rewrite Em.
  rewrite page_off_mod in Hg.
  assert (e = virt + pages * 4096) as Ee by (unfold e in *; word_lia).
  apply areas_trim; [done|const_lia|lia|lia|lia|lia|]. word_lia.
Qed.

(** C37: [mmap] and [munmap] keep the area table of a space well formed: whatever
    range is requested, mapped eagerly or lazily, or removed from the middle or an
    end of an area, the used areas stay nonempty, page aligned, inside the user
    range and pairwise disjoint. *)
Theorem mmap_areas_disjoint st i virt pages fl :
  length (spaces st) = 32%nat -> 0 <= i < 32 -> is_u32 virt -> 0 <= pages <= 524288 ->
  areas_ok (areas st i) ->
  areas_ok (areas (snd (vmm_map_range utab_addr (Some i) virt pages fl st)) i) /\
  areas_ok (areas (snd (vmm_map_lazy_range (Some i) virt pages fl st)) i) /\
  areas_ok (areas (snd (vmm_unmap_range (Some i) virt pages st)) i).
Proof.
  intros Hl Hi Hv Hp Ha. split; [by apply map_range_areas; [..|lia|]|].
  split; [by apply map_lazy_areas; [..|lia|]|by apply unmap_range_areas].
Qed.
End areas.

(** ** Demand paging *)
Section demand.
Context {S : Type} `{FrameAllocatorLaws S}.
Variable utab_addr : Z -> Z -> Z.
Implicit Types st : vmm S.

Lemma fault_is_demand st i cr2 error address vi :
  current_space st = Some i -> address <> 0 ->
  let page := page_base address in
  slot_ok (dir_index page) = true -> vma_of (spaces st).[i] page = Some vi ->
  vmm_get_user_physical (Some i) page st = 0 ->
  vmm_page_fault utab_addr cr2 error address st = demand_page utab_addr i vi page st.
Proof.
  intros Hc Hne page Hs Hv Hm. unfold vmm_page_fault. destruct (Z.eqb_spec address 0); [done|].
  rewrite Hc. cbn zeta. fold page. by rewrite Hs, Hv, Hm.
Qed.

(** The fault handler's demand branch maps a fresh frame and then releases it:
    the page translates to a frame the allocator holds no reference for, so the
    next allocation may hand the same frame to somebody else. *)
Theorem demand_fault_mapping_unowned st i cr2 error address vi p f :
  vmm_inv st -> current_space st = Some i -> address <> 0 ->
  let page := page_base address in
  user_page page = true -> vma_of (spaces st).[i] page = Some vi ->
  flags_ok (vflags (vmas (spaces st).[i]).[vi]) ->
  vmm_get_user_physical (Some i) page st = 0 ->
  alloc_page (frames st) = (p, f) -> p <> 0 ->
  exists st', vmm_page_fault utab_addr cr2 error address st = Done tt st' /\
    vmm_get_user_physical (Some i) page st' = p /\
    frame_refs (frames st') (p / PAGE_SIZE) = 0 /\ ~ vmm_inv st'.
Proof.
  intros Hinv Hc Hne page Hup Hv Hf Hm Ha Hp.
  pose proof (vw_current _ (proj1 Hinv) i Hc) as [Hi Hu].
  assert (slot_ok (dir_index page) = true) as Hs by (unfold user_page in Hup; lia).
  rewrite (fault_is_demand st i cr2 error address vi) by done. fold page. unfold demand_page. rewrite Ha.
  destruct (Z.eqb_spec p 0); [done|]. destruct (alloc_unmapped utab_addr _ _ _ Hinv Ha Hp) as (Hinv1 & Hb & Hpr & Hpa & _ & Hone).
  set (st1 := kmap_do _ _ _ _). assert (vmm_inv st1) as [Hw1 _] by (by apply kmap_do_inv, mem_inv).
  assert (spaces st1 = spaces st /\ frames st1 = f /\ space_used st1 = space_used st) as (Es & Ef & Eu) by done.
  generalize dependent st1. intros st1 Hw1 Es Ef Eu. rewrite Es.
  set (fl := Z.lor _ PAGE_WRITE). assert (flags_ok fl) as Hfl by (apply flags_lor; [exact Hf|const_lia]).
  destruct (vmm_map_user utab_addr (Some i) page p fl st1) as [rc st2] eqn:Hmap.
  assert (rc = 0) as -> by (rewrite vmm_map_user_eq, Hup in Hmap; congruence). cbn [snd].
  pose proof (map_user_wf utab_addr i page p fl st1 st2 Hw1 Hi Hmap) as Hw2.
  pose proof (map_user_same utab_addr i page p fl st1 st2 Hmap) as (_ & Eu2 & _ & Ef2 & _).
  pose proof (user_page_slot _ Hup) as Ht. pose proof (tab_index_range page) as Hj.
  assert (entry (spaces st2).[i] (dir_index page - 1) (tab_index page) = user_pte p fl) as He.
  { rewrite (map_user_entry utab_addr i page p fl st1 st2 Hw1 Hi Hmap), !Z.eqb_refl by done. done. }
  assert (frame_ok f) as Hof by apply Hinv1.
  destruct (free_some f p Hof ltac:(lia)) as [_ Hq].
  assert (frame_refs (free_page p f) (p / PAGE_SIZE) = 0) as Hz by (rewrite Hq, Z.eqb_refl; lia).
  eexists. split; [reflexivity|]. cbn [frames with_frames]. rewrite Ef2, Ef.
  split; [|split; [exact Hz|]].
  - rewrite get_user_physical_entry by (by apply (vw_space _ Hw2)). cbn zeta. cbn [spaces with_frames].
    rewrite He, Hup. unfold user_pte. rewrite !has_flags by (by apply user_flags || const_lia).
    rewrite user_flags_present, user_flags_user, pte_base, Hb by (by apply user_flags). cbn [andb].
    unfold page. rewrite page_base_mod. lia.
  - intros [_ Hle]. specialize (Hle (p / PAGE_SIZE)). cbn [frames with_frames] in Hle.
    rewrite Hz, mapped_by_frames in Hle.
    assert (0 < mapped_by st2 (p / PAGE_SIZE)); [|lia].
    apply (mapped_by_pos st2 _ i (dir_index page - 1) (tab_index page)); try done.
    + by rewrite Eu2, Eu.
    + rewrite He, user_pte_maps, Hb by done. apply Z.eqb_refl.
Qed.
End demand.
