(* ===== verification/VmmDemo.v ===== *)
(** Concrete address spaces: the small machine on which the properties of [mm/vmm.c]
    are applied. *)
From S2P Require Import Prelude Frames Pmm Paging KernelMap Vmm VmmCount VmmSafe VmmTheorems VmmAreas.

(** ** A small machine

    One address space on the 16-page machine of [Pmm], with a page mapped at
    [0x401000] and a lazy area of two pages at [0x800000]. *)
Definition demo_tables (i slot : Z) : Z := 2097152 + i * 32768 + slot * 4096.
Definition demo_boot : vmm pmm := vmm_boot (fun _ => 1048576) small_pmm.
Definition demo_space : vmm pmm := snd (vmm_create_address_space demo_boot).
Definition demo_mapped : vmm pmm :=
  snd (vmm_user_alloc demo_tables (Some 0) 4198400 1 PAGE_WRITE demo_space).
Definition demo : vmm pmm := vmm_switch_address_space (Some 0) demo_mapped.
Definition demo_lazy : vmm pmm := snd (vmm_map_lazy_range (Some 0) 8388608 2 PAGE_WRITE demo).

Lemma demo_frames_ok : frame_ok small_pmm.
Proof. exact small_pmm_ok. Qed.

Lemma demo_live : (space_used demo_space).[0] = true /\ (space_used demo_mapped).[0] = true.
Proof. split; vm_compute; reflexivity. Qed.

Lemma demo_steps : rtc (vmm_step demo_tables) demo_boot demo.
Proof.
  destruct demo_live as [L1 L2].
  eapply rtc_l; [apply step_create|]. fold demo_space.
  eapply rtc_l; [apply (step_user_alloc _ _ 0 4198400 1 PAGE_WRITE)|]; [split; [lia|exact L1]|split; const_lia|].
  fold demo_mapped. eapply rtc_l; [apply (step_switch _ _ 0)|apply rtc_refl]. split; [lia|exact L2].
Qed.

Lemma demo_inv : vmm_inv demo.
Proof.
  assert (vmm_inv demo_boot) as Hb by (apply vmm_boot_inv; exact small_pmm_ok).
  revert Hb. generalize demo_steps. generalize demo_boot demo. intros x y Hr.
  induction Hr as [|x y z Hxy _ IH]; [tauto|]. intros Hx. eapply IH, vmm_step_inv; eassumption.
Qed.

Lemma demo_lazy_inv : vmm_inv demo_lazy.
Proof. apply map_lazy_range_inv; [exact demo_inv|lia]. Qed.
#[global] Opaque demo_boot demo demo_lazy.

(** ** The properties on the small machine *)
Lemma vmm_reachable_no_dangling_witness :
  mapped_by demo 3 <= frame_refs (frames demo) 3 /\
  0 < frame_refs (frames demo) (page_base (entry (spaces demo).[0] 0 1) / PAGE_SIZE).
Proof.
  destruct (vmm_reachable_no_dangling demo_tables (fun _ => 1048576) small_pmm demo
    demo_frames_ok demo_steps) as (Hle & Hown & _).
  split; [apply Hle|]. apply Hown; [|lia|lia|vm_compute; reflexivity].
  split; [lia|]. vm_compute. reflexivity.
Defined.

Lemma vmm_map_user_translation_witness :
  vmm_get_user_physical (Some 0) 4198407
    (snd (vmm_map_user demo_tables (Some 0) 4198400 20480 2 demo)) = 20487.
Proof.
  destruct (vmm_map_user demo_tables (Some 0) 4198400 20480 2 demo) as [rc st'] eqn:Hm. cbn [snd].
  destruct (vmm_map_user_translation demo_tables demo 0 4198400 20480 2 rc st'
    (proj1 demo_inv)) as [Hrc Ht]; [lia|split; [discriminate|reflexivity]..|exact Hm|].
  rewrite Ht by lia. subst rc. vm_compute. reflexivity.
Defined.

Lemma demo_refs_small q : frame_refs (frames demo) q <= 1.
Proof.
  assert (forallb (fun r => r <=? 1) (page_refs (frames demo)) = true) as Hall by (vm_compute; reflexivity).
  cbn [frame_refs pmm_frames]. unfold page_refs_of. destruct ((0 <=? q) && _) eqn:E; [|lia].
  pose proof (ok_refs_length (frames demo) (vw_frames _ (proj1 demo_inv))) as Hl.
  pose proof (forallb_aget _ _ q Hall ltac:(rewrite Hl; const_lia)) as Hq. cbv beta in Hq. lia.
Qed.

Lemma demo_space_live : live demo 0.
Proof. split; [lia|]. vm_compute. reflexivity. Qed.

Lemma demo_cow_room q :
  frame_refs (frames demo) q + space_count demo 0 entries q <= MAX_REFS.
Proof.
  pose proof (demo_refs_small q). destruct demo_space_live as [Hi Hu].
  pose proof (count_space_le demo 0 q demo_inv Hi Hu) as Hc. unfold space_count.
  autounfold with kconst. lia.
Qed.

Lemma clone_cow_shares_witness :
  exists st', vmm_clone_address_space_cow demo_tables (Some 0) demo = (Some 1, st') /\
    vmm_get_user_physical (Some 1) 4198400 st' = 12288.
Proof.
  destruct (clone_cow_shares demo_tables demo 0 1 (snd (vmm_create_address_space demo)))
    as (st' & Eq & _ & _ & _ & _ & Hall).
  - exact demo_inv.
  - exact demo_space_live.
  - destruct (vmm_create_address_space demo) as [o st0] eqn:Hc. cbn [snd]. f_equal.
    change o with (fst (o, st0)). rewrite <- Hc. vm_compute. reflexivity.
  - exact demo_cow_room.
  - exists st'. split; [exact Eq|].
    assert (vmm_get_user_physical (Some 0) 4198400 demo = 12288) as E by (vm_compute; reflexivity).
    destruct (Hall 4198400 ltac:(rewrite E; discriminate) 1 (or_intror eq_refl)) as [Hp _].
    exact (eq_trans Hp E).
Defined.

Definition demo_forked : vmm pmm := snd (vmm_clone_address_space_cow demo_tables (Some 0) demo).

Lemma demo_forked_inv : vmm_inv demo_forked.
Proof.
  apply (vmm_step_inv demo_tables demo); [exact demo_inv|].
  apply step_clone_cow; [exact demo_space_live|exact demo_cow_room].
Qed.
#[global] Opaque demo_forked.

Lemma cow_fault_private_copy_witness :
  exists st', vmm_page_fault demo_tables 0 6 4198407 demo_forked = Done tt st' /\
    entry (spaces st').[0] 0 1 = private_pte 16384.
Proof.
  destruct (pmm_alloc_page (frames demo_forked)) as [p f] eqn:Ha.
  assert (p = 16384) as -> by (change p with (fst (p, f)); rewrite <- Ha; vm_compute; reflexivity).
  destruct (cow_fault_private_copy demo_tables demo_forked 0 0 6 4198407 16384 f)
    as (st' & Hf & _ & He & _).
  - exact demo_forked_inv.
  - split; [exact (vw_kmap _ (proj1 demo_forked_inv))|vm_compute; reflexivity].
  - vm_compute. reflexivity.
  - discriminate.
  - reflexivity.
  - reflexivity.
  - exact Ha.
  - discriminate.
  - vm_compute. discriminate.
  - vm_compute. reflexivity.
  - exists st'. exact (conj Hf He).
Defined.

Lemma demo_tables_ok : tables_ok demo.
Proof. split; [exact (vw_spaces _ (proj1 demo_inv))|exact (vw_space _ (proj1 demo_inv))]. Qed.

Lemma demo_page_ready v :
  4198400 <= v < 4198408 -> vmm_get_user_physical (Some 0) v demo <> 0 /\
  (true = true -> has (entry (spaces demo).[0] (dir_index v - 1) (tab_index v)) PAGE_WRITE = true).
Proof.
  intros Hv.
  assert (forallb (fun v => negb (vmm_get_user_physical (Some 0) v demo =? 0) &&
    has (entry (spaces demo).[0] (dir_index v - 1) (tab_index v)) PAGE_WRITE) (seqZ 4198400 8) = true)
    as Hall by (vm_compute; reflexivity).
  pose proof (forall_seqZ _ _ _ Hall v ltac:(lia)) as Hb. cbv beta in Hb.
  apply andb_true_iff in Hb as [Hm Hw]. split; [|intros _; exact Hw].
  apply negb_true_iff, Z.eqb_neq in Hm. exact Hm.
Qed.

Lemma validate_user_ptr_correct_witness :
  vmm_validate_user_ptr demo_tables 0 (Some 0) 4198404 4 true demo = Done 0 demo /\
  accessible demo 0 4198405 true.
Proof.
  destruct (validate_user_ptr_correct demo_tables demo 0 0 4198404 4 true) as [Hs Hc].
  - exact demo_tables_ok.
  - lia.
  - vm_compute. reflexivity.
  - split; [discriminate|reflexivity].
  - split; [discriminate|reflexivity].
  - assert (vmm_validate_user_ptr demo_tables 0 (Some 0) 4198404 4 true demo = Done 0 demo) as Hv.
    { apply Hc; [lia|const_lia|const_lia|]. change (page_base 4198404) with 4198400.
      intros v Hv. apply demo_page_ready. lia. }
    split; [exact Hv|]. destruct (Hs demo Hv) as (_ & _ & _ & Ha). apply Ha. lia.
Defined.

Lemma mmap_areas_disjoint_witness :
  areas_ok (areas (snd (vmm_map_lazy_range (Some 0) 8388608 2 PAGE_WRITE demo)) 0).
Proof.
  destruct (mmap_areas_disjoint demo_tables demo 0 8388608 2 PAGE_WRITE) as (_ & Hl & _).
  - exact (vw_spaces _ (proj1 demo_inv)).
  - lia.
  - split; [discriminate|reflexivity].
  - lia.
  - assert (areas demo 0 = replicate 64 (mkVma 0 0 0 false)) as -> by (vm_compute; reflexivity).
    split; [apply length_replicate|..].
    + intros i Hi. rewrite aget_replicate by lia. discriminate.
    + intros i j Hi Hj _. rewrite !aget_replicate by lia. discriminate.
  - exact Hl.
Defined.

Lemma demand_fault_mapping_unowned_witness :
  exists st', vmm_page_fault demo_tables 0 4 8388608 demo_lazy = Done tt st' /\
    vmm_get_user_physical (Some 0) 8388608 st' = 16384 /\ ~ vmm_inv st'.
Proof.
  destruct (pmm_alloc_page (frames demo_lazy)) as [p f] eqn:Ha.
  assert (p = 16384) as -> by (change p with (fst (p, f)); rewrite <- Ha; vm_compute; reflexivity).
  destruct (demand_fault_mapping_unowned demo_tables demo_lazy 0 0 4 8388608 0 16384 f)
    as (st' & Hf & Hm & _ & Hn).
  - exact demo_lazy_inv.
  - vm_compute. reflexivity.
  - discriminate.
  - vm_compute. reflexivity.
  - vm_compute. reflexivity.
  - vm_compute. split; [discriminate|reflexivity].
  - vm_compute. reflexivity.
  - exact Ha.
  - discriminate.
  - exists st'. split; [exact Hf|]. split; [exact Hm|exact Hn].
Defined.
