(* ===== verification/Isolation.v ===== *)
(** Forked address spaces are separate: what one of them stores the other does not see.

    The copy-on-write clone and the resolution of a write fault are put together at the
    level of the bytes a program reads and writes through its own page tables. *)
From S2P Require Import Prelude Frames Pmm Paging KernelMap Vmm VmmCount VmmSafe VmmTheorems VmmAreas VmmDemo.

Section isolation.
Context {S : Type} `{FrameAllocatorLaws S}.
Variable utab_addr : Z -> Z -> Z.
Implicit Types st : vmm S.

(** A byte read from, and stored to, a virtual address by the active translation. *)
Definition load8 (va : Z) st : Z := mem st !!! translate va st.
Definition store8 (va x : Z) st : vmm S := with_mem (<[translate va st := u8 x]> (mem st)) st.

(** The byte space [i] has at [v], and the addresses it has. *)
Definition view st (i v : Z) : Z := load8 v (vmm_switch_address_space (Some i) st).
Definition mapped st (i v : Z) : Prop := vmm_get_user_physical (Some i) v st <> 0.

Lemma view_mapped st i v : mapped st i v -> view st i v = mem st !!! vmm_get_user_physical (Some i) v st.
Proof. intros Hm. unfold view, load8. by rewrite (translate_mapped _ i). Qed.

(** ** Addresses and entries *)
Lemma page_base_user v : user_page (page_base v) = true -> is_u32 v -> user_page v = true.
Proof.
  intros Hp Hv. rewrite (user_page_same utab_addr v (page_base v)); [exact Hp|]. rewrite (page_base_div v Hv), Z.div_mul by lia. done.
Qed.

Lemma page_base_entry v : is_u32 v ->
  dir_index (page_base v) = dir_index v /\ tab_index (page_base v) = tab_index v.
Proof.
  intros Hv. rewrite !dir_index_div, !tab_index_mod, (page_base_div v Hv), Z.div_mul by lia. split; [|done].
  change 4194304 with (4096 * 1024). rewrite <- !Z.div_div by lia. by rewrite Z.div_mul by lia.
Qed.

(** The frame of an entry of a live space has a reference. *)
Lemma entry_referenced st i t j :
  vmm_inv st -> live st i -> 0 <= t < 8 -> 0 <= j < 1024 -> has (entry (spaces st).[i] t j) PAGE_PRESENT = true ->
  0 < frame_refs (frames st) (page_base (entry (spaces st).[i] t j) / PAGE_SIZE).
Proof.
  intros [Hw Hle] [Hi Hu] Ht Hj Hp. set (q := _ / _). specialize (Hle q).
  pose proof (mapped_by_pos st q i t j Hi Ht Hj Hu) as Hpos. unfold maps in Hpos. rewrite Hp, Z.eqb_refl in Hpos.
  specialize (Hpos eq_refl). lia.
Qed.

(** ** The clone leaves memory and the kernel's tables alone *)
Lemma map_user_keeps i va p fl st :
  let st' := (vmm_map_user utab_addr (Some i) va p fl st).2 in mem st' = mem st /\ kmaps st' = kmaps st.
Proof. rewrite vmm_map_user_eq. by case_match. Qed.

Lemma destroy_keeps i st :
  mem (vmm_destroy_address_space (Some i) st) = mem st /\ kmaps (vmm_destroy_address_space (Some i) st) = kmaps st.
Proof. unfold vmm_destroy_address_space. by repeat case_match. Qed.

Lemma cow_entry_keeps src dst e old st :
  match cow_entry utab_addr src dst e old st with inl st' | inr st' => mem st' = mem st /\ kmaps st' = kmaps st end.
Proof.
  destruct e as [t j]. unfold cow_entry. cbn zeta. destruct (negb _); [done|].
  set (st1 := set_space _ _ _). set (fl := Z.land _ _). set (va := entry_va t j). set (ph := page_base _).
  pose proof (map_user_keeps dst va ph fl st1) as [Hm Hk].
  destruct (vmm_map_user utab_addr (Some dst) va ph fl st1) as [rc st2]. cbn [snd] in Hm, Hk.
  destruct (negb (rc =? 0)); [|done]. destruct (destroy_keeps dst st2) as [Hm' Hk'].
  destruct old; cbn [restore_space]; split; etrans; [exact Hm'|exact Hm|exact Hk'|exact Hk|exact Hm'|exact Hm|exact Hk'|exact Hk].
Qed.

Lemma cow_entries_keeps src dst es old : forall st,
  let st' := (cow_entries utab_addr src dst es old st).2 in mem st' = mem st /\ kmaps st' = kmaps st.
Proof.
  induction es as [|e es IH]; intros st; cbn [cow_entries]; [by destruct old|].
  pose proof (cow_entry_keeps src dst e old st) as Hk. destruct (cow_entry utab_addr src dst e old st) as [st'|st'].
  - exact Hk.
  - destruct (IH st') as [-> ->]. exact Hk.
Qed.

Lemma clone_cow_keeps src st :
  let st' := (vmm_clone_address_space_cow utab_addr (Some src) st).2 in mem st' = mem st /\ kmaps st' = kmaps st.
Proof.
  unfold vmm_clone_address_space_cow. destruct (vmm_create_address_space st) as [[dst|] st0] eqn:Hc.
  - destruct (create_same _ _ _ Hc) as (Ek & _ & _ & Em & _). cbn zeta.
    match goal with |- context [cow_entries utab_addr src dst entries ?o ?s] => destruct (cow_entries_keeps src dst entries o s) as [-> ->] end.
    split; [exact Em|exact Ek].
  - revert Hc. unfold vmm_create_address_space. case_match; [done|]. by intros [= <-].
Qed.

(** ** The byte each space has after a fork and a write *)
(** The entries of a page after the clone: the frame of the source, in both spaces. *)
Lemma clone_cow_frames st src dst st0 :
  vmm_inv st -> live st src -> vmm_create_address_space st = (Some dst, st0) ->
  (forall q, frame_refs (frames st) q + space_count st src entries q <= MAX_REFS) ->
  exists st1, vmm_clone_address_space_cow utab_addr (Some src) st = (Some dst, st1) /\
    vmm_inv st1 /\ live st1 src /\ live st1 dst /\ src <> dst /\ mem st1 = mem st /\ kmaps st1 = kmaps st /\
    forall v, mapped st src v ->
      user_page v = true /\
      forall i, i = src \/ i = dst ->
        let e := entry (spaces st1).[i] (dir_index v - 1) (tab_index v) in
        has e PAGE_PRESENT = true /\ has e PAGE_USER = true /\ has e PAGE_COW = true /\
        page_base e + v mod 4096 = vmm_get_user_physical (Some src) v st.
Proof.
  intros Hinv Hl Hc Hsat. pose proof (clone_cow_keeps src st) as Hk.
  destruct (clone_cow_spec utab_addr st src dst st0 Hinv Hl Hc Hsat)
    as (st1 & Eeq & Hinv1 & Hl1 & Hd1 & Hsd & _ & _ & Ee). rewrite Eeq in Hk. cbn [snd] in Hk.
  exists st1. split_and!; try done; try apply Hk. intros v Hm.
  assert (space_ok (spaces st).[src]) as Hs by (apply Hinv, Hl).
  destruct (mapped_page st src v Hs Hm) as (Hup & Hp & Hus). split; [done|]. intros i Hi.
  rewrite get_user_physical_entry by done. cbn zeta in *. rewrite Hup, Hp, Hus. cbn [andb].
  set (pte := entry (spaces st).[src] (dir_index v - 1) (tab_index v)) in *.
  assert (0 <= i < 32) as Hir by (destruct Hi as [->| ->]; [apply Hl|apply Hd1]).
  rewrite (Ee i _ _ Hir (user_page_slot v Hup) (tab_index_range v)). cbn zeta. fold pte. rewrite Hp.
  pose proof (cow_flags_ok pte) as Hf. pose proof (user_flags _ Hf) as Huf.
  destruct Hi as [->| ->].
  - rewrite Z.eqb_refl, !has_flags by (done || const_lia).
    rewrite cow_flags_present, cow_flags_user, cow_flags_cow, pte_base by done. done.
  - destruct (Z.eqb_spec src dst); [done|]. rewrite Z.eqb_refl. unfold user_pte.
    rewrite !has_flags, user_flags_present, user_flags_user, pte_base by (done || const_lia).
    rewrite !has_lor, cow_flags_cow. cbn [orb].
    rewrite page_base_aligned by (apply page_base_range || apply page_base_mod). done.
Qed.

(** Where the translation of an address goes after the private copy. *)
Lemma phys_entry st i w :
  space_ok (spaces st).[i] -> user_page w = true ->
  has (entry (spaces st).[i] (dir_index w - 1) (tab_index w)) PAGE_PRESENT = true ->
  has (entry (spaces st).[i] (dir_index w - 1) (tab_index w)) PAGE_USER = true ->
  vmm_get_user_physical (Some i) w st = page_base (entry (spaces st).[i] (dir_index w - 1) (tab_index w)) + w mod 4096.
Proof. intros Hs Hu Hp Hx. rewrite get_user_physical_entry by done. cbn zeta. by rewrite Hu, Hp, Hx. Qed.

(** An address of a frame that is not the page [p] is outside it. *)
Lemma frame_apart b o p :
  b mod 4096 = 0 -> 0 <= o < 4096 -> p mod 4096 = 0 -> b / 4096 <> p / 4096 ->
  (p <=? b + o) && (b + o <? p + 4096) = false /\ forall o', 0 <= o' < 4096 -> b + o <> p + o'.
Proof.
  intros Hb Ho Hp Hne.
  assert (b + o < p \/ p + 4096 <= b + o) as Hor by (Z.to_euclidean_division_equations; lia).
  split; [lia|]. intros o' Ho'. lia.
Qed.
Lemma frame_inside o p : 0 <= o < 4096 -> (p <=? p + o) && (p + o <? p + 4096) = true.
Proof. lia. Qed.
Lemma same_page_ne v w p : w / 4096 = v / 4096 -> (p + w mod 4096 =? p + v mod 4096) = (w =? v).
Proof.
  intros Hw. apply eq_true_iff_eq. rewrite !Z.eqb_eq. split; [|by intros ->]. intros E.
  apply Z.add_reg_l in E. rewrite (Z.div_mod w 4096), (Z.div_mod v 4096) by done. by rewrite Hw, E.
Qed.
Lemma page_offset v : 0 <= v mod 4096 < 4096.
Proof. by apply Z.mod_pos_bound. Qed.
Lemma offset_nonzero p o : 0 < p -> 0 <= o < 4096 -> p + o <> 0.
Proof. lia. Qed.
Lemma pred_inj (a b : Z) : a - 1 = b - 1 -> a = b.
Proof. lia. Qed.

(** What a space sees after a store. *)
Lemma view_store8 st v x i w :
  mapped st i w ->
  view (store8 v x st) i w =
    if vmm_get_user_physical (Some i) w st =? translate v st then u8 x else mem st !!! vmm_get_user_physical (Some i) w st.
Proof.
  intros Hm. rewrite view_mapped by exact Hm.
  change (vmm_get_user_physical (Some i) w (store8 v x st)) with (vmm_get_user_physical (Some i) w st).
  generalize (vmm_get_user_physical (Some i) w st). intros a. unfold store8. cbn [mem with_mem].
  destruct (Z.eqb_spec a (translate v st)) as [->|Hne]; [apply lookup_total_insert_eq|by apply lookup_total_insert_ne].
Qed.

(** The fault keeps the invariant and the current space. *)
Lemma cow_fault_state st d v cr2 st' :
  vmm_inv st -> current_space st = Some d -> v <> 0 -> mapped st d (page_base v) ->
  vmm_page_fault utab_addr cr2 6 v st = Done tt st' -> vmm_inv st' /\ current_space st' = Some d.
Proof.
  intros Hinv Hc Hv0 Hm Hf. pose proof (fault_mapped utab_addr st cr2 6 v d st' Hc) as Hfm. cbn zeta in Hfm.
  assert (page_base (if v =? 0 then cr2 else v) = page_base v) as Epv by (by destruct (Z.eqb_spec v 0)).
  rewrite Epv in Hfm. destruct (Hfm Hm Hf) as (Hso & _ & Hprb & Hcp). split.
  - exact (cow_page_inv utab_addr _ _ _ _ _ Hinv (vw_current _ (proj1 Hinv) d Hc) Hso eq_refl Hprb Hcp).
  - revert Hcp. rewrite cow_page_eq. destruct (alloc_page (frames st)) as [p f]. destruct (p =? 0); [done|].
    intros <-%Done_inj. exact Hc.
Qed.

(** The translations after the fault: the page of the writer goes to the fresh frame [p],
    every other address of a live space goes where it went, outside that frame. *)
Lemma cow_fault_frames st d v cr2 p f :
  vmm_inv st -> window_ok st -> current_space st = Some d -> is_u32 v -> mapped st d (page_base v) ->
  let pte := entry (spaces st).[d] (dir_index v - 1) (tab_index v) in
  has pte PAGE_COW = true -> alloc_page (frames st) = (p, f) -> p <> 0 ->
  exists st', vmm_page_fault utab_addr cr2 6 v st = Done tt st' /\ vmm_inv st' /\ current_space st' = Some d /\
    (forall a, mem st' !! a = if (p <=? a) && (a <? p + 4096)
       then Some (mem st !!! (page_base pte + (a - p))) else mem st !! a) /\
    (forall w, w / 4096 = v / 4096 ->
       vmm_get_user_physical (Some d) w st' = p + w mod 4096 /\ mapped st' d w /\
       vmm_get_user_physical (Some d) w st = page_base pte + w mod 4096) /\
    (forall i w, live st i -> mapped st i w -> ~ (i = d /\ w / 4096 = v / 4096) ->
       let a := vmm_get_user_physical (Some i) w st in
       vmm_get_user_physical (Some i) w st' = a /\ (p <=? a) && (a <? p + 4096) = false /\
       forall o, 0 <= o < 4096 -> a <> p + o).
Proof.
  intros Hinv Hwin Hc Hv Hm pte Hcow Ha Hp0. pose proof (vw_current _ (proj1 Hinv) d Hc) as Hd.
  assert (forall i, 0 <= i < 32 -> space_ok (spaces st).[i]) as Hs by (apply Hinv).
  destruct (page_base_entry v Hv) as [Edi Eti].
  destruct (mapped_page st d (page_base v) (Hs d (proj1 Hd)) Hm) as (Hupb & Hpr & Hus).
  pose proof (page_base_user v Hupb Hv) as Hup. rewrite Edi, Eti in Hpr, Hus. fold pte in Hpr, Hus.
  assert (v <> 0) as Hv0 by (intros ->; discriminate Hup).
  destruct (cow_fault_private_copy utab_addr st d cr2 6 v p f Hinv Hwin Hc Hv0 eq_refl eq_refl Ha Hp0 Hm) as
    (st' & Hf & Hfree & He & Hmem & Hother & _); [by rewrite Edi, Eti|].
  rewrite Edi, Eti in He, Hmem, Hother. fold pte in Hmem.
  destruct (cow_fault_state st d v cr2 st' Hinv Hc Hv0 Hm Hf) as [Hinv' Hc'].
  destruct (alloc_unmapped utab_addr _ _ _ Hinv Ha Hp0) as (_ & Hpb & Hpr' & Hpm & _).
  assert (forall i, 0 <= i < 32 -> space_ok (spaces st').[i]) as Hs' by (apply Hinv').
  exists st'. split; [exact Hf|]. split; [exact Hinv'|]. split; [exact Hc'|]. split; [exact Hmem|]. split.
  - intros w Hw. destruct (same_page w v Hw) as [E1 E2].
    assert (user_page w = true) as Huw by (by rewrite (user_page_same utab_addr w v Hw)).
    assert (vmm_get_user_physical (Some d) w st' = p + w mod 4096) as Ep.
    { rewrite phys_entry; rewrite ?E1, ?E2, ?He; [|apply Hs', Hd|exact Huw|apply private_pte_has..]; [|by left|right; by left].
      by rewrite private_pte_flags, pte_base, Hpb. }
    split; [exact Ep|]. split.
    + unfold mapped. rewrite Ep. apply offset_nonzero; [apply Hpr'|apply page_offset].
    + rewrite phys_entry; rewrite ?E1, ?E2; [done|apply Hs, Hd|exact Huw|exact Hpr|exact Hus].
  - intros i w Hl Hmw Hne. cbv zeta. destruct (mapped_page st i w (Hs i (proj1 Hl)) Hmw) as (Huw & Hpw & Hxw).
    set (e := entry (spaces st).[i] (dir_index w - 1) (tab_index w)) in *.
    assert (entry (spaces st').[i] (dir_index w - 1) (tab_index w) = e) as Ee.
    { apply Hother; [apply Hl|exact (user_page_slot w Huw)|exact (tab_index_range w)|].
      intros [= -> E1 E2]. apply Hne. split; [done|]. apply same_entry; [by apply pred_inj|done]. }
    rewrite (phys_entry st i w (Hs i (proj1 Hl)) Huw Hpw Hxw). fold e.
    split; [rewrite phys_entry, Ee; [done|apply Hs', Hl|exact Huw|by rewrite Ee|by rewrite Ee]|].
    apply frame_apart; [apply page_base_mod|apply page_offset|exact Hpm|]. intros E.
    pose proof (entry_referenced st i _ _ Hinv Hl (user_page_slot w Huw) (tab_index_range w) Hpw) as Href.
    fold e in Href. change PAGE_SIZE with 4096 in *. rewrite E, Hfree in Href. exact (Z.lt_irrefl 0 Href).
Qed.

(** A user write to a copy-on-write page changes the byte of the writer, and no byte of
    any live space besides. *)
Lemma cow_write_private st d v x cr2 p f :
  vmm_inv st -> window_ok st -> current_space st = Some d -> is_u32 v -> mapped st d (page_base v) ->
  has (entry (spaces st).[d] (dir_index v - 1) (tab_index v)) PAGE_COW = true ->
  alloc_page (frames st) = (p, f) -> p <> 0 ->
  exists st', vmm_page_fault utab_addr cr2 6 v st = Done tt st' /\ vmm_inv st' /\ current_space st' = Some d /\
    forall i w, live st i -> mapped st i w ->
      view (store8 v x st') i w = if (i =? d) && (w =? v) then u8 x else view st i w.
Proof.
  intros Hinv Hwin Hc Hv Hm Hcow Ha Hp0.
  destruct (cow_fault_frames st d v cr2 p f Hinv Hwin Hc Hv Hm Hcow Ha Hp0)
    as (st' & Hf & Hinv' & Hc' & Hmem & Hown & Hother).
  exists st'. split_and!; [done..|]. intros i w Hl Hmw. rewrite (view_mapped st i w Hmw).
  destruct (Hown v eq_refl) as (Ev & Hmv & _).
  assert (translate v st' = p + v mod 4096) as Htr by (by rewrite (translate_mapped st' d v Hc' Hmv)).
  destruct (decide (i = d /\ w / 4096 = v / 4096)) as [[-> Hw]|Hne].
  - destruct (Hown w Hw) as (Ep & Hmw' & Eo). rewrite view_store8 by exact Hmw'.
    rewrite Ep, Htr, (same_page_ne v w p Hw), Z.eqb_refl. cbn [andb]. destruct (w =? v); [done|].
    rewrite Eo, lookup_total_alt, Hmem, frame_inside by apply page_offset.
    change (default inhabitant (Some ?z)) with z. f_equal. by rewrite Z.add_simpl_l.
  - destruct (Hother i w Hl Hmw Hne) as (Ep & Hout & Hdiff).
    rewrite view_store8 by (unfold mapped; rewrite Ep; exact Hmw). rewrite Ep, Htr.
    destruct (Z.eqb_spec (vmm_get_user_physical (Some i) w st) (p + v mod 4096)) as [E|_];
      [exfalso; exact (Hdiff _ (page_offset v) E)|].
    rewrite !lookup_total_alt, Hmem, Hout.
    destruct (Z.eqb_spec i d) as [->|]; [|done]. destruct (Z.eqb_spec w v) as [->|]; [|done]. exfalso. by apply Hne.
Qed.

Lemma mapped_shared st i v w : mapped st i v ->
  forall st1, space_ok (spaces st1).[w] -> user_page v = true ->
  let e := entry (spaces st1).[w] (dir_index v - 1) (tab_index v) in
  has e PAGE_PRESENT = true -> has e PAGE_USER = true ->
  page_base e + v mod 4096 = vmm_get_user_physical (Some i) v st ->
  mapped st1 w v /\ vmm_get_user_physical (Some w) v st1 = vmm_get_user_physical (Some i) v st.
Proof.
  intros Hm st1 Hs Hu e Hp Hx He. assert (vmm_get_user_physical (Some w) v st1 = vmm_get_user_physical (Some i) v st) as Ep
    by (rewrite (phys_entry st1 w v Hs Hu Hp Hx); exact He).
  split; [unfold mapped; by rewrite Ep|exact Ep].
Qed.

(** C3: the memory of a forked space is separate from that of its parent: after a
    copy-on-write clone, a byte either of the two stores on a shared page, its write fault
    being resolved, is seen by the one that stored it and not by the other, and every other
    byte of both is still the one the parent had before the fork. *)
Theorem fork_isolates st src dst st0 v x cr2 :
  vmm_inv st -> window_ok st -> live st src -> vmm_create_address_space st = (Some dst, st0) ->
  (forall q, frame_refs (frames st) q + space_count st src entries q <= MAX_REFS) ->
  is_u32 v -> mapped st src (page_base v) ->
  (forall st1, vmm_clone_address_space_cow utab_addr (Some src) st = (Some dst, st1) -> (alloc_page (frames st1)).1 <> 0) ->
  exists st1, vmm_clone_address_space_cow utab_addr (Some src) st = (Some dst, st1) /\
    forall d, d = src \/ d = dst ->
      exists st2, vmm_page_fault utab_addr cr2 6 v (vmm_switch_address_space (Some d) st1) = Done tt st2 /\
        forall i w, i = src \/ i = dst -> mapped st src w ->
          view (store8 v x st2) i w = if (i =? d) && (w =? v) then u8 x else view st src w.
Proof.
  intros Hinv Hwin Hl Hc Hsat Hv Hm Hroom.
  destruct (clone_cow_frames st src dst st0 Hinv Hl Hc Hsat) as (st1 & Eq & Hinv1 & Hl1 & Hd1 & Hsd & Em & Ek & Hfr).
  exists st1. split; [exact Eq|]. intros d Hd. specialize (Hroom st1 Eq).
  destruct (alloc_page (frames st1)) as [p f] eqn:Ha.
  assert (forall i, i = src \/ i = dst -> live st1 i) as Hlive by (intros i [->| ->]; assumption).
  assert (forall i w, i = src \/ i = dst -> mapped st src w ->
    mapped st1 i w /\ view st1 i w = view st src w) as Hsame.
  { intros i w Hi Hw. destruct (Hfr w Hw) as [Hu He]. destruct (He i Hi) as (Hp & Hx & _ & Hb).
    destruct (mapped_shared st src w i Hw st1) as [Hm1 Ep]; [apply Hinv1, Hlive, Hi|exact Hu|exact Hp|exact Hx|exact Hb|].
    split; [exact Hm1|]. by rewrite !view_mapped, Ep, Em by assumption. }
  assert (vmm_inv (vmm_switch_address_space (Some d) st1)) as Hinv2.
  { apply switch_inv; [exact Hinv1|]. intros i [= <-]. exact (Hlive d Hd). }
  destruct (page_base_entry v Hv) as [Edi Eti].
  destruct (cow_write_private (vmm_switch_address_space (Some d) st1) d v x cr2 p f) as (st2 & Hf & _ & _ & Hall).
  - exact Hinv2.
  - split; cbn [kmaps vmm_switch_address_space]; rewrite Ek; apply Hwin.
  - reflexivity.
  - exact Hv.
  - exact (proj1 (Hsame d _ Hd Hm)).
  - destruct (Hfr _ Hm) as [_ He]. destruct (He d Hd) as (_ & _ & Hcow & _). by rewrite Edi, Eti in Hcow.
  - exact Ha.
  - exact Hroom.
  - exists st2. split; [exact Hf|]. intros i w Hi Hw. destruct (Hsame i w Hi Hw) as [Hm1 Ev].
    rewrite (Hall i w (Hlive i Hi) Hm1). by rewrite <- Ev.
Qed.
End isolation.

(** The page at [0x401000] of the small machine: the child writes 34, the parent still
    reads 0. *)
Lemma demo_clone_room st1 :
  vmm_clone_address_space_cow demo_tables (Some 0) demo = (Some 1, st1) -> (alloc_page (frames st1)).1 <> 0.
Proof.
  intros E. assert (((alloc_page (frames (snd (vmm_clone_address_space_cow demo_tables (Some 0) demo)))).1 =? 0) = false) as Hb
    by (vm_compute; reflexivity).
  rewrite E in Hb. by apply Z.eqb_neq in Hb.
Qed.

Lemma fork_isolates_witness :
  exists st1 st2, vmm_clone_address_space_cow demo_tables (Some 0) demo = (Some 1, st1) /\
    vmm_page_fault demo_tables 0 6 4198400 (vmm_switch_address_space (Some 1) st1) = Done tt st2 /\
    view (store8 4198400 34 st2) 1 4198400 = 34 /\ view (store8 4198400 34 st2) 0 4198400 = 0.
Proof.
  assert (mapped demo 0 4198400) as Hm by (unfold mapped; vm_compute; discriminate).
  assert (exists st0, vmm_create_address_space demo = (Some 1, st0)) as [st0 Hc].
  { destruct (vmm_create_address_space demo) as [o st0] eqn:E. exists st0. f_equal.
    change o with (fst (o, st0)). rewrite <- E. vm_compute. reflexivity. }
  destruct (fork_isolates demo_tables demo 0 1 st0 4198400 34 0 demo_inv
    (conj (vw_kmap _ (proj1 demo_inv)) eq_refl) demo_space_live Hc demo_cow_room) as (st1 & Eq & Hw).
  - split; [discriminate|reflexivity].
  - exact Hm.
  - exact demo_clone_room.
  - destruct (Hw 1 (or_intror eq_refl)) as (st2 & Hf & Hall). exists st1, st2.
    split; [exact Eq|]. split; [exact Hf|]. split.
    + exact (Hall 1 4198400 (or_intror eq_refl) Hm).
    + rewrite (Hall 0 4198400 (or_introl eq_refl) Hm). vm_compute. reflexivity.
Defined.

