(* ===== verification/Clone.v ===== *)
(** The eager clone, [vmm_clone_address_space] of [mm/vmm.c], is a deep copy: the new space
    has every page of the source, with the same contents and permissions, on frames nobody
    else has; a clone that runs out of memory gives everything back. *)
From S2P Require Import Prelude Frames Pmm Paging KernelMap Vmm VmmCount VmmSafe VmmTheorems VmmAreas VmmDemo Isolation.

Section clone.
Context {S : Type} `{FrameAllocatorLaws S}.
Variable utab_addr : Z -> Z -> Z.
Implicit Types st : vmm S.

(** ** One entry *)
(** Where the active translation sends the bytes of a mapped page. *)
Lemma translate_page st i t j k :
  current_space st = Some i -> space_ok (spaces st).[i] -> 0 <= t < 8 -> 0 <= j < 1024 -> 0 <= k < 4096 ->
  has (entry (spaces st).[i] t j) PAGE_PRESENT = true ->
  translate (entry_va t j + k) st = page_base (entry (spaces st).[i] t j) + k.
Proof.
  intros Hc Hs Ht Hj Hk Hp.
  assert (dir_index (entry_va t j + k) = t + 1) as Ed by (rewrite dir_index_div; unfold entry_va; autounfold with kconst; word_lia).
  assert (tab_index (entry_va t j + k) = j) as Et by (rewrite tab_index_mod; unfold entry_va; autounfold with kconst; word_lia).
  assert (page_off (entry_va t j + k) = k) as Eo by (rewrite page_off_mod; unfold entry_va; autounfold with kconst; word_lia).
  unfold translate. rewrite Hc. cbn zeta. rewrite Ed, Et, Eo. replace (t + 1 - 1) with t by lia.
  assert (slot_ok (t + 1) = true) as -> by (unfold slot_ok; lia).
  rewrite (entry_unused _ t j Hs Ht Hj Hp). cbn [andb].
  change (user_tables (spaces st).[i]).[t].[j] with (entry (spaces st).[i] t j). rewrite Hp.
  by apply lor_base_flags.
Qed.

(** The effect of copying one present entry onto the frame [p]. *)
Record copied_entry st st' (src dst t j p : Z) (f : S) : Prop := {
  ce_inv : vmm_inv st';
  ce_used : space_used st' = space_used st;
  ce_frames : frames st' = f;
  ce_entry i t' j' : 0 <= i < 32 -> 0 <= t' < 8 -> 0 <= j' < 1024 ->
    entry (spaces st').[i] t' j' =
      if (dst =? i) && (t =? t') && (j =? j') then user_pte p (page_off (entry (spaces st).[src] t j))
      else entry (spaces st).[i] t' j';
  ce_refs : refs (spaces st').[dst] = refs (spaces st).[dst];
  ce_mem a : mem st' !! a =
    if (p <=? a) && (a <? p + 4096) then Some (mem st !!! (page_base (entry (spaces st).[src] t j) + (a - p))) else mem st !! a;
}.

Lemma clone_entry_copies src dst t j old st p f :
  vmm_inv st -> live st src -> live st dst -> src <> dst -> 0 <= t < 8 -> 0 <= j < 1024 ->
  has (entry (spaces st).[src] t j) PAGE_PRESENT = true -> alloc_page (frames st) = (p, f) -> p <> 0 ->
  exists st', clone_entry utab_addr src dst (t, j) old st = inr st' /\ copied_entry st st' src dst t j p f.
Proof.
  intros Hinv Hs Hd Hsd Ht Hj Hp Ha Hp0. pose proof Hinv as [Hw _].
  set (pte := entry (spaces st).[src] t j) in *. assert (space_ok (spaces st).[src]) as Hso by (apply Hw, Hs).
  destruct (entry_va_page utab_addr t j Ht Hj) as (Hup & Hdi & Hti).
  destruct (vmm_map_user utab_addr (Some dst) (entry_va t j) p (page_off pte) (with_frames f st)) as [rc st1] eqn:Hm.
  assert (rc = 0) as -> by (rewrite vmm_map_user_eq, Hup in Hm; congruence).
  assert (flags_ok (page_off pte)) as Hf by apply page_off_bound.
  destruct (alloc_map_inv utab_addr _ _ _ _ _ _ _ _ Hinv Hd Hf Ha Hp0 Hm) as (Hinv1 & Hd1 & _).
  destruct (alloc_unmapped utab_addr _ _ _ Hinv Ha Hp0) as (Hinvf & Hpb & Hpr & Hpm & _).
  destruct (map_user_same utab_addr _ _ _ _ _ _ Hm) as (Ek & Eu & _ & Ef & Em).
  pose proof (map_user_entry utab_addr _ _ _ _ _ _ (proj1 Hinvf) (proj1 Hd) Hm) as He.
  pose proof (map_user_other utab_addr _ _ _ _ _ _ (proj1 Hinvf) (proj1 Hd) Hm) as Ho.
  rewrite Hdi, Hti in He.
  assert (forall i t' j', 0 <= i < 32 -> 0 <= t' < 8 -> 0 <= j' < 1024 -> entry (spaces st1).[i] t' j' =
    if (dst =? i) && (t =? t') && (j =? j') then user_pte p (page_off pte) else entry (spaces st).[i] t' j') as Hent.
  { intros i t' j' Hi Ht' Hj'. destruct (Z.eqb_spec dst i) as [<-|Hne]; [by rewrite He|]. by rewrite Ho by lia. }
  set (sa := vmm_switch_address_space (Some src) st1). set (sb := vmm_switch_address_space (Some dst) sa).
  set (bytes := read_page (entry_va t j) sa). exists (write_page (entry_va t j) bytes sb). split.
  { unfold clone_entry. change ((user_tables (spaces st).[src]).[t].[j]) with pte.
    rewrite (entry_unused _ t j Hso Ht Hj Hp), Hp, Ha. cbn [andb negb]. destruct (Z.eqb_spec p 0); [done|]. by rewrite Hm. }
  assert (entry (spaces st1).[src] t j = pte) as Es.
  { rewrite Hent by (done || apply Hs). by destruct (Z.eqb_spec dst src); [congruence|]. }
  assert (entry (spaces st1).[dst] t j = user_pte p (page_off pte)) as Ed by (rewrite Hent, !Z.eqb_refl by (done || apply Hd); done).
  assert (has (user_pte p (page_off pte)) PAGE_PRESENT = true /\ page_base (user_pte p (page_off pte)) = p) as [Hdp Hdb].
  { unfold user_pte. pose proof (user_flags _ Hf). rewrite has_flags, user_flags_present, pte_base by (done || const_lia). done. }
  assert (forall k, 0 <= k < 4096 -> translate (entry_va t j + k) sa = page_base pte + k) as Hra.
  { intros k Hk. rewrite (translate_page sa src t j k); change (spaces sa) with (spaces st1); rewrite ?Es; try done. apply Hinv1, Hs. }
  assert (forall k, 0 <= k < 4096 -> translate (entry_va t j + k) sb = p + k) as Hrb.
  { intros k Hk. rewrite (translate_page sb dst t j k); change (spaces sb) with (spaces st1); rewrite ?Ed, ?Hdb; try done. apply Hinv1, Hd. }
  split.
  - apply mem_inv, switch_inv; [apply switch_inv; [exact Hinv1|]|].
    + intros i [= <-]. rewrite Eu. exact Hs.
    + intros i [= <-]. exact Hd1.
  - exact Eu.
  - exact Ef.
  - exact Hent.
  - change (refs (spaces st1).[dst] = refs (spaces st).[dst]). rewrite vmm_map_user_eq, Hup in Hm. injection Hm as <-.
    destruct Hd as [Hd _]. rewrite spaces_set, Z.eqb_refl by (lia || apply Hinvf). cbn. unfold use_table. by case_match.
  - intros a. rewrite (write_page_mem _ p _ _ Hrb). change (mem sb) with (mem st1). rewrite Em. cbn [mem with_frames].
    destruct ((p <=? a) && (a <? p + 4096)) eqn:E; [|done]. unfold bytes.
    rewrite (read_page_at _ _ _ _ Hra) by lia. change (mem sa) with (mem st1). by rewrite Em.
Qed.

(** ** The loop *)
(** What entry [(t, j)] of the clone holds once it was copied from [pte] of state [st0]. *)
Definition entry_copy st0 st (pte e : Z) : Prop :=
  if has pte PAGE_PRESENT then
    exists p, e = user_pte p (page_off pte) /\ page_base p = p /\ 0 < p /\ frame_refs (frames st0) (p / 4096) = 0 /\
      forall o, 0 <= o < 4096 -> mem st !! (p + o) = Some (mem st0 !!! (page_base pte + o))
  else e = 0.

(** The loop has copied the entries [done_] of [src] to [dst] since state [st0]. *)
Record copying st0 st (src dst : Z) (done_ : list (Z * Z)) : Prop := {
  cp_inv : vmm_inv st;
  cp_used : space_used st = space_used st0;
  cp_other i t j : 0 <= i < 32 -> i <> dst -> 0 <= t < 8 -> 0 <= j < 1024 ->
    entry (spaces st).[i] t j = entry (spaces st0).[i] t j;
  cp_refs q : frame_refs (frames st) q = frame_refs (frames st0) q + space_count st dst entries q;
  cp_single : refs (spaces st).[dst] = 1;
  cp_mem a : 0 < frame_refs (frames st0) (a / 4096) -> mem st !! a = mem st0 !! a;
  cp_todo t j : 0 <= t < 8 -> 0 <= j < 1024 -> (t, j) ∉ done_ -> entry (spaces st).[dst] t j = 0;
  cp_done t j : 0 <= t < 8 -> 0 <= j < 1024 -> (t, j) ∈ done_ ->
    entry_copy st0 st (entry (spaces st0).[src] t j) (entry (spaces st).[dst] t j);
}.

Lemma count_entry st i t j q :
  0 <= t < 8 -> 0 <= j < 1024 -> forall st',
  (forall t' j', 0 <= t' < 8 -> 0 <= j' < 1024 -> (t', j') <> (t, j) -> entry (spaces st').[i] t' j' = entry (spaces st).[i] t' j') ->
  space_count st' i entries q = space_count st i entries q - b2z (maps q (entry (spaces st).[i] t j)) + b2z (maps q (entry (spaces st').[i] t j)).
Proof.
  intros Ht Hj st' He. unfold space_count.
  rewrite (count_flip (fun x => maps q (entry (spaces st).[i] x.1 x.2)) _ entries (t, j)); [done|apply entries_NoDup|by apply elem_of_entries|].
  intros [t' j'] [Ht' Hj']%elem_of_entries Hne. cbn [fst snd]. by rewrite He.
Qed.

Lemma page_frame p o : p mod 4096 = 0 -> 0 <= o < 4096 -> (p + o) / 4096 = p / 4096.
Proof. intros Hp Ho. Z.to_euclidean_division_equations. lia. Qed.

Lemma space_count_nonneg st i es q : 0 <= space_count st i es q.
Proof. apply count_nonneg. Qed.

(** Present entries of the source and of the clone are on frames with references. *)
Lemma copying_referenced st0 st src dst done_ t j :
  copying st0 st src dst done_ -> vmm_inv st0 -> live st0 src -> 0 <= t < 8 -> 0 <= j < 1024 ->
  has (entry (spaces st0).[src] t j) PAGE_PRESENT = true ->
  0 < frame_refs (frames st0) (page_base (entry (spaces st0).[src] t j) / 4096) /\
  forall o, 0 <= o < 4096 -> mem st !!! (page_base (entry (spaces st0).[src] t j) + o) = mem st0 !!! (page_base (entry (spaces st0).[src] t j) + o).
Proof.
  intros Hc Hinv Hl Ht Hj Hp. pose proof (entry_referenced st0 src t j Hinv Hl Ht Hj Hp) as Hr.
  split; [exact Hr|]. intros o Ho. rewrite !lookup_total_alt, (cp_mem _ _ _ _ _ Hc); [done|].
  rewrite page_frame by (apply page_base_mod || exact Ho). exact Hr.
Qed.

(** A page that was copied keeps its contents as long as the frames in use do. *)
Lemma entry_copy_stays st0 st st' dst t j pte :
  vmm_inv st -> live st dst -> 0 <= t < 8 -> 0 <= j < 1024 ->
  (forall a, 0 < frame_refs (frames st) (a / 4096) -> mem st' !! a = mem st !! a) ->
  entry_copy st0 st pte (entry (spaces st).[dst] t j) -> entry_copy st0 st' pte (entry (spaces st).[dst] t j).
Proof.
  intros Hinv Hd Ht Hj Hmem. unfold entry_copy. destruct (has pte PAGE_PRESENT); [|done].
  intros (p & E & Hb & Hp & Hf & Hm). exists p. split_and!; try done. intros o Ho. rewrite Hmem; [by apply Hm|].
  assert (p mod 4096 = 0) as Hpm by (rewrite <- Hb; apply page_base_mod). rewrite page_frame by done.
  pose proof (entry_referenced st dst t j Hinv) as Href. rewrite E in Href. unfold user_pte in Href.
  pose proof (user_flags _ (page_off_bound pte)).
  rewrite has_flags, user_flags_present, pte_base, Hb in Href by (done || const_lia). by apply Href.
Qed.

Lemma copying_step st0 st src dst done_ t j p f st' :
  copying st0 st src dst done_ -> vmm_inv st0 -> live st0 src -> live st0 dst -> src <> dst ->
  0 <= t < 8 -> 0 <= j < 1024 -> (t, j) ∉ done_ -> has (entry (spaces st0).[src] t j) PAGE_PRESENT = true ->
  alloc_page (frames st) = (p, f) -> p <> 0 -> copied_entry st st' src dst t j p f ->
  copying st0 st' src dst ((t, j) :: done_).
Proof.
  intros Hc Hinv0 Hs Hd Hsd Ht Hj Hnew Hp Ha Hp0 Hce. pose proof (cp_inv _ _ _ _ _ Hc) as Hinv.
  set (pte := entry (spaces st0).[src] t j) in *.
  assert (entry (spaces st).[src] t j = pte) as Epte by (apply Hc; [apply Hs|done..]).
  destruct (alloc_some _ _ _ (vw_frames _ (proj1 Hinv)) Ha Hp0) as (_ & Hpr & Hpm & Hz & Hq).
  destruct (alloc_unmapped utab_addr _ _ _ Hinv Ha Hp0) as (_ & Hpb & _). change PAGE_SIZE with 4096 in *.
  pose proof (cp_refs _ _ _ _ _ Hc (p / 4096)) as Hfree. rewrite Hz in Hfree.
  pose proof (space_count_nonneg st dst entries (p / 4096)) as Hcn.
  pose proof (refs_nonneg (frames st0) (p / 4096) (vw_frames _ (proj1 Hinv0))) as Hrn.
  assert (forall a, 0 < frame_refs (frames st) (a / 4096) -> (p <=? a) && (a <? p + 4096) = false) as Hout.
  { intros a Hra. destruct ((p <=? a) && (a <? p + 4096)) eqn:E; [|done].
    replace a with (p + (a - p)) in Hra by lia. rewrite page_frame in Hra by lia. lia. }
  pose proof (ce_entry _ _ _ _ _ _ _ _ Hce) as He. rewrite Epte in He.
  assert (flags_ok (page_off pte)) as Hfl by apply page_off_bound.
  split.
  - apply Hce.
  - rewrite (ce_used _ _ _ _ _ _ _ _ Hce). apply Hc.
  - intros i t' j' Hi Hne Ht' Hj'. rewrite He by done. destruct (Z.eqb_spec dst i); [congruence|]. by apply Hc.
  - intros q. rewrite (ce_frames _ _ _ _ _ _ _ _ Hce), Hq, (count_entry st dst t j q Ht Hj st').
    + rewrite He, !Z.eqb_refl by (done || apply Hd). cbn [andb].
      rewrite (cp_todo _ _ _ _ _ Hc) by done. rewrite maps_0, (user_pte_maps q p _ Hfl), Hpb. change PAGE_SIZE with 4096.
      rewrite (cp_refs _ _ _ _ _ Hc) in *. rewrite (Z.eqb_sym q). unfold b2z. destruct (Z.eqb_spec (p / 4096) q) as [<-|]; lia.
    + intros t' j' Ht' Hj' Hne. rewrite He by (done || apply Hd). rewrite Z.eqb_refl.
      destruct (Z.eqb_spec t t'), (Z.eqb_spec j j'); try done. congruence.
  - rewrite (ce_refs _ _ _ _ _ _ _ _ Hce). apply Hc.
  - intros a Hra. rewrite (ce_mem _ _ _ _ _ _ _ _ Hce), Hout; [by apply Hc|].
    rewrite (cp_refs _ _ _ _ _ Hc). pose proof (space_count_nonneg st dst entries (a / 4096)). lia.
  - intros t' j' Ht' Hj' Hn. rewrite He by (done || apply Hd).
    apply not_elem_of_cons in Hn as [Hne Hn]. rewrite Z.eqb_refl.
    destruct (Z.eqb_spec t t'), (Z.eqb_spec j j'); [congruence|exact (cp_todo _ _ _ _ _ Hc t' j' Ht' Hj' Hn)..].
  - intros t' j' Ht' Hj' Hin. rewrite He by (done || apply Hd). rewrite Z.eqb_refl. cbn [andb].
    destruct (decide ((t', j') = (t, j))) as [[= -> ->]|Hne].
    + rewrite !Z.eqb_refl. cbn [andb]. fold pte. unfold entry_copy. rewrite Hp. exists p.
      split; [done|]. split; [done|]. split; [lia|]. split; [lia|]. intros o Ho.
      rewrite (ce_mem _ _ _ _ _ _ _ _ Hce), Epte.
      assert ((p <=? p + o) && (p + o <? p + 4096) = true) as -> by lia. f_equal. rewrite Z.add_simpl_l.
      by apply (copying_referenced st0 st src dst done_ t j).
    + apply elem_of_cons in Hin as [?|Hin]; [done|]. pose proof (cp_done _ _ _ _ _ Hc t' j' Ht' Hj' Hin) as Hcp.
      destruct ((t =? t') && (j =? j')) eqn:E; [exfalso; apply Hne; f_equal; lia|].
      apply (entry_copy_stays st0 st); try done; [|by intros a Hra; rewrite (ce_mem _ _ _ _ _ _ _ _ Hce), Hout].
      split; [apply Hd|]. rewrite (cp_used _ _ _ _ _ Hc). apply Hd.
Qed.

(** ** Giving up *)
(** The state after a failed clone, against the one before the loop. *)
Record given_back st0 st' (dst : Z) : Prop := {
  gb_refs q : frame_refs (frames st') q = frame_refs (frames st0) q;
  gb_used : space_used st' = (space_used st0).[dst <- false];
  gb_entry i t j : 0 <= i < 32 -> i <> dst -> 0 <= t < 8 -> 0 <= j < 1024 -> entry (spaces st').[i] t j = entry (spaces st0).[i] t j;
  gb_mem a : 0 < frame_refs (frames st0) (a / 4096) -> mem st' !! a = mem st0 !! a;
}.

(** Destroying a space with one owner releases one reference per page it maps. *)
Lemma destroy_releases st i :
  vmm_inv st -> live st i -> refs (spaces st).[i] = 1 ->
  let st' := vmm_destroy_address_space (Some i) st in
  (forall q, frame_refs (frames st') q = frame_refs (frames st) q - space_count st i entries q) /\
  space_used st' = (space_used st).[i <- false] /\ mem st' = mem st /\
  (forall i', 0 <= i' -> i' <> i -> (spaces st').[i'] = (spaces st).[i']).
Proof.
  intros Hinv [Hi Hu] Hr. cbn zeta. pose proof Hinv as [Hw _].
  unfold vmm_destroy_address_space. rewrite Hr. change (1 =? 0) with false. change (negb (1 - 1 =? 0)) with false. cbv iota.
  set (st1 := set_space i _ st). change (space_used st1) with (space_used st). rewrite Hu.
  set (st2 := if decide _ then _ else _).
  assert (frames st2 = frames st /\ spaces st2 = spaces st1 /\ space_used st2 = space_used st /\ mem st2 = mem st) as (Ef & Es & Eu & Em)
    by (unfold st2; by destruct (decide _)).
  cbn [frames with_space_used with_frames space_used mem spaces]. rewrite Ef, Eu, Em, Es. split; [|split; [done|split; [done|]]].
  - intros q. rewrite free_tables_entries by (by apply Hw).
    destruct (free_entries_spec (spaces st).[i] entries (frames st)) as [_ ->]; [apply Hw|intros q'; by apply count_space_le|done].
  - intros i' Hi' Hne. unfold st1. rewrite spaces_set by (lia || apply Hw). destruct (Z.eqb_spec i i'); [congruence|done].
Qed.

Lemma copying_abandoned st0 st src dst done_ old :
  copying st0 st src dst done_ -> live st0 dst ->
  given_back st0 (restore_space old (vmm_destroy_address_space (Some dst) st)) dst.
Proof.
  intros Hc Hd. assert (live st dst) as Hd' by (unfold live; rewrite (cp_used _ _ _ _ _ Hc); exact Hd).
  destruct (destroy_releases st dst (cp_inv _ _ _ _ _ Hc) Hd' (cp_single _ _ _ _ _ Hc)) as (Hr & Hu & Hm & Hs).
  set (st' := vmm_destroy_address_space (Some dst) st) in *.
  assert (frames (restore_space old st') = frames st' /\ space_used (restore_space old st') = space_used st' /\
    spaces (restore_space old st') = spaces st' /\ mem (restore_space old st') = mem st') as (Ef & Eu & Es & Em) by (by destruct old).
  split.
  - intros q. rewrite Ef, Hr, (cp_refs _ _ _ _ _ Hc). lia.
  - by rewrite Eu, Hu, (cp_used _ _ _ _ _ Hc).
  - intros i t j Hi Hne Ht Hj. rewrite Es, Hs by lia. by apply Hc.
  - intros a Ha. rewrite Em, Hm. by apply Hc.
Qed.

Lemma clone_entries_copies src dst es old st0 :
  vmm_inv st0 -> live st0 src -> live st0 dst -> src <> dst ->
  forall done_ st, copying st0 st src dst done_ -> NoDup es ->
  (forall t j, (t, j) ∈ es -> 0 <= t < 8 /\ 0 <= j < 1024 /\ (t, j) ∉ done_) ->
  match clone_entries utab_addr src dst es old st with
  | (Some d, st') => d = dst /\ exists st1 done', st' = vmm_switch_address_space old st1 /\
      copying st0 st1 src dst done' /\ forall x, x ∈ es \/ x ∈ done_ -> x ∈ done'
  | (None, st') => given_back st0 st' dst
  end.
Proof.
  intros Hinv0 Hs Hd Hsd. induction es as [|[t j] es IH]; intros done_ st Hc Hnd Hes.
  { cbn [clone_entries]. split; [done|]. exists st, done_. split; [by destruct old|]. split; [done|]. set_solver. }
  apply NoDup_cons in Hnd as [Hnin Hnd]. destruct (Hes t j ltac:(by left)) as (Ht & Hj & Hnew).
  pose proof (cp_inv _ _ _ _ _ Hc) as Hinv.
  assert (live st src /\ live st dst) as [Hs' Hd'] by (unfold live; rewrite (cp_used _ _ _ _ _ Hc); done).
  assert (entry (spaces st).[src] t j = entry (spaces st0).[src] t j) as Epte by (apply Hc; [apply Hs|done..]).
  assert (forall st', copying st0 st' src dst ((t, j) :: done_) ->
    match clone_entries utab_addr src dst es old st' with
    | (Some d, st') => d = dst /\ exists st1 done', st' = vmm_switch_address_space old st1 /\
        copying st0 st1 src dst done' /\ forall x, x ∈ (t, j) :: es \/ x ∈ done_ -> x ∈ done'
    | (None, st') => given_back st0 st' dst
    end) as Hnext.
  { intros st' Hc'. specialize (IH ((t, j) :: done_) st' Hc' Hnd).
    destruct (clone_entries utab_addr src dst es old st') as [[d|] st2]; [|apply IH].
    - destruct IH as (-> & st1 & done' & E & Hc1 & Hin).
      + intros t' j' Hin. destruct (Hes t' j' ltac:(by right)) as (? & ? & ?). split; [done|split; [done|]].
        apply not_elem_of_cons. split; [congruence|done].
      + split; [done|]. exists st1, done'. split; [done|]. split; [done|]. intros x Hx. apply Hin. set_solver.
    - intros t' j' Hin. destruct (Hes t' j' ltac:(by right)) as (? & ? & ?). split; [done|split; [done|]].
      apply not_elem_of_cons. split; [congruence|done]. }
  cbn [clone_entries]. destruct (has (entry (spaces st).[src] t j) PAGE_PRESENT) eqn:Hp.
  - destruct (alloc_page (frames st)) as [p f] eqn:Ha. destruct (decide (p = 0)) as [->|Hp0].
    + assert (clone_entry utab_addr src dst (t, j) old st = inl (restore_space old (vmm_destroy_address_space (Some dst) st))) as ->.
      { unfold clone_entry. change ((user_tables (spaces st).[src]).[t].[j]) with (entry (spaces st).[src] t j).
        rewrite (entry_unused _ t j), Hp, Ha by (done || apply Hinv, Hs). cbn [andb negb]. change (0 =? 0) with true. cbv iota.
        rewrite (alloc_fail _ _ (vw_frames _ (proj1 Hinv)) Ha). by destruct st. }
      by apply (copying_abandoned st0 st src dst done_).
    + destruct (clone_entry_copies src dst t j old st p f Hinv Hs' Hd' Hsd Ht Hj Hp Ha Hp0) as (st' & -> & Hce).
      apply Hnext. rewrite Epte in Hp. by apply (copying_step st0 st src dst done_ t j p f).
  - assert (clone_entry utab_addr src dst (t, j) old st = inr st) as ->.
    { unfold clone_entry. change ((user_tables (spaces st).[src]).[t].[j]) with (entry (spaces st).[src] t j). by rewrite Hp, andb_false_r. }
    apply Hnext. split; try apply Hc.
    + intros t' j' Ht' Hj' Hn. apply (cp_todo _ _ _ _ _ Hc); [done..|]. set_solver.
    + intros t' j' Ht' Hj' [[= -> ->]|Hin]%elem_of_cons; [|by apply (cp_done _ _ _ _ _ Hc)].
      unfold entry_copy. rewrite <- Epte, Hp. by apply (cp_todo _ _ _ _ _ Hc).
Qed.

(** ** The clone *)
(** The state the loop starts in. *)
Lemma copying_start st src dst st0 :
  vmm_inv st -> live st src -> vmm_create_address_space st = (Some dst, st0) ->
  let st1 := set_space dst (with_vmas (vmas (spaces st0).[src]) (spaces st0).[dst]) st0 in
  copying st1 st1 src dst [] /\ mem st1 = mem st /\ space_used st1 = (space_used st).[dst <- true].
Proof.
  intros Hinv Hl Hc st1. destruct (clone_prepared st dst st0 src Hinv Hl Hc) as (Hinv1 & _ & Hd1 & _ & _ & _ & _ & Ee).
  destruct (create_same _ _ _ Hc) as (_ & _ & _ & Em & Eu). destruct (create_space _ _ _ Hc) as (d & vs & Es & _).
  destruct Hd1 as [Hd _]. split; [|by split]. split; try done.
  - intros q. unfold space_count. rewrite count_none; [lia|]. intros [t j] [Ht Hj]%elem_of_entries. cbn [fst snd].
    fold st1 in Ee. rewrite Ee, Z.eqb_refl by done. apply maps_0.
  - pose proof (create_inv _ _ _ Hc Hinv) as [Hw0 _].
    unfold st1. rewrite spaces_set, Z.eqb_refl by (lia || apply Hw0). cbn [refs with_vmas]. rewrite Es, aget_aset_eq; [done|].
    rewrite (vw_spaces _ (proj1 Hinv)). lia.
  - intros t j Ht Hj _. fold st1 in Ee. by rewrite Ee, Z.eqb_refl.
  - intros t j _ _ Hin. by apply not_elem_of_nil in Hin.
Qed.

(** A page of a live space that the loop left alone. *)
Lemma kept_page st st' i v :
  vmm_inv st -> live st i -> space_ok (spaces st').[i] -> mapped st i v ->
  (forall t j, 0 <= t < 8 -> 0 <= j < 1024 -> entry (spaces st').[i] t j = entry (spaces st).[i] t j) ->
  (forall a, 0 < frame_refs (frames st) (a / 4096) -> mem st' !! a = mem st !! a) ->
  vmm_get_user_physical (Some i) v st' = vmm_get_user_physical (Some i) v st /\ view st' i v = view st i v /\
  0 < frame_refs (frames st) (vmm_get_user_physical (Some i) v st / 4096).
Proof.
  intros Hinv Hl Hs' Hm He Hmem. assert (space_ok (spaces st).[i]) as Hs by (apply Hinv, Hl).
  destruct (mapped_page st i v Hs Hm) as (Hup & Hp & Hx).
  pose proof (user_page_slot v Hup) as Ht. pose proof (tab_index_range v) as Hj.
  assert (vmm_get_user_physical (Some i) v st' = vmm_get_user_physical (Some i) v st) as Ep.
  { rewrite !phys_entry by (rewrite ?He; done). by rewrite He. }
  assert (0 < frame_refs (frames st) (vmm_get_user_physical (Some i) v st / 4096)) as Hr.
  { rewrite (phys_entry st i v Hs Hup Hp Hx), page_frame by (apply page_base_mod || apply page_offset).
    by apply entry_referenced. }
  split; [exact Ep|]. split; [|exact Hr].
  rewrite !view_mapped by (done || (unfold mapped; by rewrite Ep)). rewrite Ep, !lookup_total_alt. by rewrite Hmem.
Qed.

(** An address of the clone, from the entry the loop left. *)
Lemma copied_page st0 st dst v pte :
  space_ok (spaces st).[dst] -> user_page v = true -> has pte PAGE_PRESENT = true ->
  let e := entry (spaces st).[dst] (dir_index v - 1) (tab_index v) in
  entry_copy st0 st pte e ->
  mapped st dst v /\ has e PAGE_WRITE = has pte PAGE_WRITE /\
  frame_refs (frames st0) (vmm_get_user_physical (Some dst) v st / 4096) = 0 /\
  view st dst v = mem st0 !!! (page_base pte + v mod 4096).
Proof.
  intros Hs Hup Hp e Hcp. unfold entry_copy in Hcp. rewrite Hp in Hcp. destruct Hcp as (p & Ee & Hpb & Hp0 & Hfree & Hmem).
  pose proof (user_flags _ (page_off_bound pte)) as Huf. pose proof (page_offset v) as Ho.
  assert (p mod 4096 = 0) as Hpm by (rewrite <- Hpb; apply page_base_mod).
  assert (forall flag, 0 <= flag < 4096 -> has e flag = has pte flag || has PAGE_PRESENT flag || has PAGE_USER flag) as Hfl.
  { intros flag Hf. rewrite Ee. unfold user_pte. rewrite has_flags, !has_lor, has_page_off by (done || const_lia). done. }
  assert (vmm_get_user_physical (Some dst) v st = p + v mod 4096) as Ep.
  { rewrite phys_entry; [fold e; rewrite Ee; unfold user_pte; by rewrite pte_base, Hpb|done|done|..]; fold e; rewrite Hfl by const_lia.
    - change (has PAGE_PRESENT PAGE_PRESENT) with true. by rewrite orb_true_r.
    - change (has PAGE_USER PAGE_USER) with true. by rewrite orb_true_r. }
  assert (mapped st dst v) as Hm by (unfold mapped; rewrite Ep; lia).
  split; [exact Hm|]. split; [rewrite Hfl by const_lia; change (has PAGE_PRESENT PAGE_WRITE) with false;
    change (has PAGE_USER PAGE_WRITE) with false; by rewrite !orb_false_r|].
  rewrite (view_mapped st dst v Hm), Ep, page_frame by done. split; [exact Hfree|].
  rewrite lookup_total_alt, Hmem by done. done.
Qed.

(** The result of the loop, against the state before the clone. *)
Section finish.
Context (st stp st' : vmm S) (src dst : Z).
Hypothesis (Hinv : vmm_inv st) (Hinv' : vmm_inv st') (Hl : live st src) (Hdu : (space_used st).[dst] = false).
Hypothesis (Ef : frames stp = frames st) (Em : mem stp = mem st).
Hypothesis (Ee : forall i t j, live st i -> 0 <= t < 8 -> 0 <= j < 1024 -> entry (spaces stp).[i] t j = entry (spaces st).[i] t j).

Lemma live_ne_dst i : live st i -> i <> dst.
Proof. intros [_ Hi] ->. congruence. Qed.

(** Every other space keeps its pages. *)
Lemma others_kept i w :
  (forall i t j, 0 <= i < 32 -> i <> dst -> 0 <= t < 8 -> 0 <= j < 1024 -> entry (spaces st').[i] t j = entry (spaces stp).[i] t j) ->
  (forall a, 0 < frame_refs (frames stp) (a / 4096) -> mem st' !! a = mem stp !! a) ->
  live st i -> mapped st i w ->
  vmm_get_user_physical (Some i) w st' = vmm_get_user_physical (Some i) w st /\ view st' i w = view st i w /\
  0 < frame_refs (frames st) (vmm_get_user_physical (Some i) w st / 4096).
Proof.
  intros He Hm Hi Hw. apply kept_page; [done|done|apply Hinv', Hi|done|..].
  - intros t j Ht Hj. rewrite He by (done || apply Hi || by apply live_ne_dst). by apply Ee.
  - intros a Ha. rewrite Hm, Em by (by rewrite Ef). done.
Qed.

(** The clone has the pages of the source. *)
Lemma clone_has v done_ :
  copying stp st' src dst done_ -> (forall x, x ∈ entries -> x ∈ done_) -> 0 <= dst < 32 -> mapped st src v ->
  mapped st' dst v /\ view st' dst v = view st src v /\
  has (entry (spaces st').[dst] (dir_index v - 1) (tab_index v)) PAGE_WRITE =
    has (entry (spaces st).[src] (dir_index v - 1) (tab_index v)) PAGE_WRITE /\
  frame_refs (frames st) (vmm_get_user_physical (Some dst) v st' / 4096) = 0.
Proof.
  intros Hcp Hall Hd Hm. assert (space_ok (spaces st).[src]) as Hs by (apply Hinv, Hl).
  destruct (mapped_page st src v Hs Hm) as (Hup & Hp & Hx).
  pose proof (user_page_slot v Hup) as Ht. pose proof (tab_index_range v) as Hj.
  pose proof (cp_done _ _ _ _ _ Hcp _ _ Ht Hj (Hall _ (proj2 (elem_of_entries _ _) (conj Ht Hj)))) as Hcpy.
  rewrite (Ee src _ _ Hl Ht Hj) in Hcpy. assert (space_ok (spaces st').[dst]) as Hsd by (by apply Hinv').
  destruct (copied_page stp st' dst v _ Hsd Hup Hp Hcpy) as (Hm' & Hw & Hfree & Hview).
  split; [exact Hm'|]. split; [|split; [exact Hw|by rewrite <- Ef]].
  etrans; [exact Hview|]. by rewrite (view_mapped st src v Hm), (phys_entry st src v Hs Hup Hp Hx), Em.
Qed.
End finish.

(** C10: [vmm_clone_address_space] makes a deep copy or none at all.  If it succeeds, the new
    space reads the same byte as the source at every address the source maps, with the same
    permission to write, on frames that no page of any other space is on; if memory runs
    out, every reference it took is given back and no space is left behind.  In either case
    every other space, the source included, keeps its mappings and its contents. *)
Theorem clone_deep_copy st src dst st0 :
  vmm_inv st -> live st src -> vmm_create_address_space st = (Some dst, st0) ->
  let '(r, st') := vmm_clone_address_space utab_addr (Some src) st in
  (forall i w, live st i -> mapped st i w ->
     vmm_get_user_physical (Some i) w st' = vmm_get_user_physical (Some i) w st /\ view st' i w = view st i w) /\
  match r with
  | Some d => d = dst /\ live st' dst /\ vmm_inv st' /\
      forall v, mapped st src v ->
        mapped st' dst v /\ view st' dst v = view st src v /\
        has (entry (spaces st').[dst] (dir_index v - 1) (tab_index v)) PAGE_WRITE =
          has (entry (spaces st).[src] (dir_index v - 1) (tab_index v)) PAGE_WRITE /\
        forall i w, live st i -> mapped st i w ->
          vmm_get_user_physical (Some dst) v st' / 4096 <> vmm_get_user_physical (Some i) w st / 4096
  | None => (forall q, frame_refs (frames st') q = frame_refs (frames st) q) /\
      forall i, 0 <= i < 32 -> (space_used st').[i] = (space_used st).[i]
  end.
Proof.
  intros Hinv Hl Hc. pose proof (clone_inv utab_addr st src Hinv Hl) as Hinv'. revert Hinv'.
  unfold vmm_clone_address_space. rewrite Hc. cbn zeta.
  destruct (clone_prepared st dst st0 src Hinv Hl Hc) as (Hinv1 & Hs1 & Hd1 & Hsd & Hdu & Ef & Ec & Ee).
  destruct (copying_start st src dst st0 Hinv Hl Hc) as (Hstart & Em & Eu). set (stp := set_space dst _ st0) in *.
  pose proof (clone_entries_copies src dst entries (current_space stp) stp Hinv1 Hs1 Hd1 Hsd [] stp Hstart entries_NoDup) as Hloop.
  assert (forall i t j, live st i -> 0 <= t < 8 -> 0 <= j < 1024 -> entry (spaces stp).[i] t j = entry (spaces st).[i] t j) as Ep.
  { intros i t j Hi Ht Hj. rewrite Ee by (done || apply Hi). destruct (Z.eqb_spec dst i) as [<-|]; [|done].
    by destruct (live_ne_dst st dst Hdu dst Hi). }
  specialize (Hloop ltac:(intros t j [Ht Hj]%elem_of_entries; split; [done|split; [done|apply not_elem_of_nil]])).
  destruct (clone_entries utab_addr src dst entries (current_space stp) stp) as [[d|] st']; cbn [snd]; intros Hinv'.
  - destruct Hloop as (-> & st1 & done' & -> & Hcp & Hin). pose proof (cp_inv _ _ _ _ _ Hcp) as Hinv2.
    pose proof (fun i w => others_kept st stp st1 dst Hinv Hinv2 Hdu Ef Em Ep i w (cp_other _ _ _ _ _ Hcp) (cp_mem _ _ _ _ _ Hcp)) as Hkeep.
    split; [intros i w Hi Hm; destruct (Hkeep i w Hi Hm) as (E1 & E2 & _); by split|].
    split; [done|]. split; [split; [apply Hd1|change (space_used _) with (space_used st1); rewrite (cp_used _ _ _ _ _ Hcp); apply Hd1]|].
    split; [exact Hinv'|]. intros v Hm.
    destruct (clone_has st stp st1 src dst Hinv Hinv2 Hl Ef Em Ep v done' Hcp (fun x Hx => Hin x (or_introl Hx)) (proj1 Hd1) Hm)
      as (Hm' & Hview & Hw & Hfree). split; [exact Hm'|]. split; [exact Hview|]. split; [exact Hw|].
    intros i w Hi Hmw E. destruct (Hkeep i w Hi Hmw) as (_ & _ & Href). rewrite <- E in Href.
    change (vmm_get_user_physical (Some dst) v (vmm_switch_address_space (current_space stp) st1))
      with (vmm_get_user_physical (Some dst) v st1) in Href. lia.
  - split; [|split].
    + intros i w Hi Hm. destruct (others_kept st stp st' dst Hinv Hinv' Hdu Ef Em Ep i w (gb_entry _ _ _ Hloop) (gb_mem _ _ _ Hloop) Hi Hm)
        as (E1 & E2 & _). by split.
    + intros q. by rewrite (gb_refs _ _ _ Hloop), Ef.
    + intros i Hi. rewrite (gb_used _ _ _ Hloop), Eu, aset_aset. destruct (decide (i = dst)) as [->|Hne].
      * rewrite aget_aset_eq; [done|]. rewrite (vw_used _ (proj1 Hinv)). lia.
      * by rewrite aget_aset_ne by (destruct Hd1; lia).
Qed.
End clone.

(** The page at [0x401000] of the small machine is copied. *)
Lemma clone_deep_copy_witness :
  exists st', vmm_clone_address_space demo_tables (Some 0) demo = (Some 1, st') /\
    mapped st' 1 4198400 /\ view st' 1 4198400 = view demo 0 4198400 /\
    vmm_get_user_physical (Some 1) 4198400 st' / 4096 <> vmm_get_user_physical (Some 0) 4198400 demo / 4096.
Proof.
  assert (mapped demo 0 4198400) as Hm by (unfold mapped; vm_compute; discriminate).
  assert (exists st0, vmm_create_address_space demo = (Some 1, st0)) as [st0 Hc].
  { destruct (vmm_create_address_space demo) as [o st0] eqn:E. exists st0. f_equal.
    change o with (fst (o, st0)). rewrite <- E. vm_compute. reflexivity. }
  assert (fst (vmm_clone_address_space demo_tables (Some 0) demo) = Some 1) as Hf by (vm_compute; reflexivity).
  pose proof (clone_deep_copy demo_tables demo 0 1 st0 demo_inv demo_space_live Hc) as Hcopy.
  destruct (vmm_clone_address_space demo_tables (Some 0) demo) as [r st']. cbn [fst] in Hf. subst r.
  destruct Hcopy as (_ & _ & _ & _ & Hall). destruct (Hall _ Hm) as (H1 & H2 & _ & H4).
  exists st'. split; [reflexivity|]. split; [exact H1|]. split; [exact H2|]. exact (H4 0 4198400 demo_space_live Hm).
Defined.
