(* ===== verification/VmmTypes.v ===== *)
(** The words of [mm/vmm.c] keep their widths: in every state the kernel reaches, the
    entries of the kernel's and of the users' page tables, the bounds of the areas and the
    reference counts are 32-bit words, and memory holds bytes. *)
From S2P Require Import Prelude Frames Pmm Paging KernelMap Vmm VmmCount VmmSafe VmmTheorems VmmAreas VmmDemo.

Definition vma_typed (v : vma) : Prop := is_u32 (start v) /\ is_u32 (end_ v).
Record space_typed (s : address_space) : Prop := {
  ty_directory : Forall is_u32 (page_directory s);
  ty_tables : Forall (Forall is_u32) (user_tables s);
  ty_vmas : Forall vma_typed (vmas s);
  ty_refs : is_u32 (refs s);
}.
Definition kmap_typed (k : kmap) : Prop :=
  Forall is_u32 (kernel_directory k) /\ forall t, Forall is_u32 (table_of k t).
Definition mem_typed (m : gmap Z Z) : Prop := map_Forall (fun _ b => is_u8 b) m.

Lemma vma_inhabitant_typed : vma_typed inhabitant.
Proof. done. Qed.
Lemma space_inhabitant_typed : space_typed inhabitant.
Proof. split; constructor; done. Qed.

Lemma aget_u32 (l : list Z) i : Forall is_u32 l -> is_u32 l.[i].
Proof. intros Hl. by apply Forall_aget_default. Qed.
Lemma u32_lor a b : is_u32 a -> is_u32 b -> is_u32 (Z.lor a b).
Proof. apply (lor_bound 32). lia. Qed.
Lemma flags_u32 f : flags_ok f -> is_u32 f.
Proof. unfold flags_ok, is_u32. lia. Qed.
Lemma user_pte_u32 phys flags : is_u32 flags -> is_u32 (user_pte phys flags).
Proof. intros Hf. unfold user_pte. repeat apply u32_lor; (apply page_base_range || assumption || done). Qed.
#[local] Hint Resolve aget_u32 u32_lor flags_u32 user_pte_u32 page_base_range : kernel.

Lemma set_pte_typed s t j pte : space_typed s -> is_u32 pte -> space_typed (set_pte t j pte s).
Proof.
  intros [H1 H2 H3 H4] Hp. split; cbn; try done. apply Forall_aset; [done|]. apply Forall_aset; [|done].
  by apply Forall_aget_default.
Qed.
Lemma entry_u32 s t j : space_typed s -> is_u32 (entry s t j).
Proof. intros [_ H2 _ _]. apply aget_u32. by apply Forall_aget_default. Qed.

Section types.
Context {S : Type} `{FrameAllocatorLaws S}.
Variable utab_addr : Z -> Z -> Z.
Hypothesis Hutab : forall i t, is_u32 (utab_addr i t).
Implicit Types st : vmm S.

Record typed st : Prop := {
  ty_kmaps : kmap_typed (kmaps st);
  ty_spaces : Forall space_typed (spaces st);
  ty_mem : mem_typed (mem st);
}.

Lemma space_of st i : typed st -> space_typed (spaces st).[i].
Proof. intros Ht. apply Forall_aget_default; [apply Ht|apply space_inhabitant_typed]. Qed.
Lemma typed_set st i s : typed st -> space_typed s -> typed (set_space i s st).
Proof. intros [H1 H2 H3] Hs. split; [done| |done]. by apply Forall_aset. Qed.
Lemma typed_frames st f : typed st -> typed (with_frames f st).
Proof. intros [? ? ?]. by split. Qed.
Lemma typed_switch st o : typed st -> typed (vmm_switch_address_space o st).
Proof. intros [? ? ?]. by split. Qed.
Lemma typed_used st l : typed st -> typed (with_space_used l st).
Proof. intros [? ? ?]. by split. Qed.
Hint Resolve space_of typed_set typed_frames typed_switch typed_used set_pte_typed : kernel.

Lemma mem_at st a : typed st -> is_u8 (mem st !!! a).
Proof.
  intros Ht. rewrite lookup_total_alt. destruct (mem st !! a) eqn:E; [|done]. exact (ty_mem _ Ht _ _ E).
Qed.
Lemma kmap_do_typed st virt phys flags : is_u32 flags -> typed st -> typed (kmap_do virt phys flags st).
Proof.
  intros Hf [[H1 H1'] H2 H3]. split; [|done..]. cbn [kmaps kmap_do with_kmaps]. unfold vmm_map. case_match; [|done].
  split; [by rewrite kernel_directory_set|]. intros t. destruct (decide (k = t)) as [->|Hne].
  - rewrite table_of_set_eq. apply Forall_aset; [done|]. repeat apply u32_lor; (apply page_base_range || done).
  - by rewrite table_of_set_ne.
Qed.
Lemma write_page_typed va bytes st : Forall is_u8 bytes -> typed st -> typed (write_page va bytes st).
Proof.
  intros Hb [H1 H2 H3]. split; [done..|]. cbn [mem write_page with_mem].
  apply (for_range_pres mem_typed); [done|]. intros i m _ Hm. apply map_Forall_insert_2; [|exact Hm].
  by apply Forall_aget_default.
Qed.
Lemma read_page_typed va st : typed st -> Forall is_u8 (read_page va st).
Proof. intros Ht. apply Forall_u8_fmap. intros i. by apply mem_at. Qed.

(** ** The operations *)
Lemma create_typed st : typed st -> typed (snd (vmm_create_address_space st)).
Proof.
  intros Ht. unfold vmm_create_address_space. case_match; [|done]. cbn [snd]. apply typed_used, typed_set; [done|].
  split; cbn [page_directory user_tables vmas refs].
  - apply Ht.
  - apply Forall_replicate, Forall_replicate. done.
  - apply Forall_fmap. eapply Forall_impl; [apply (ty_vmas _ (space_of st z Ht))|]. by intros v [].
  - done.
Qed.
Lemma refs_typed n s : is_u32 n -> space_typed s -> space_typed (with_refs_of n s).
Proof. intros Hn [? ? ? ?]. by split. Qed.
Lemma vmas_typed l s : Forall vma_typed l -> space_typed s -> space_typed (with_vmas l s).
Proof. intros Hl [? ? ? ?]. by split. Qed.

Lemma retain_typed st i : typed st -> typed (vmm_retain_address_space (Some i) st).
Proof. intros Ht. apply typed_set; [done|]. apply refs_typed; [apply u32_range|by apply space_of]. Qed.
Lemma destroy_typed st i : typed st -> typed (vmm_destroy_address_space (Some i) st).
Proof.
  intros Ht. unfold vmm_destroy_address_space. cbn zeta. destruct (Z.eqb_spec (refs (spaces st).[i]) 0); [done|].
  assert (typed (set_space i (with_refs_of (refs (spaces st).[i] - 1) (spaces st).[i]) st)) as Ht1.
  { apply typed_set, refs_typed; [done| |by apply space_of]. pose proof (ty_refs _ (space_of st i Ht)) as Hr.
    unfold is_u32 in *. lia. }
  destruct (negb _); [done|]. destruct (space_used _).[i]; [|done].
  apply typed_used, typed_frames. destruct (decide _); [by apply typed_switch|done].
Qed.

Lemma map_user_typed i virt phys flags st :
  is_u32 flags -> typed st -> typed (snd (vmm_map_user utab_addr (Some i) virt phys flags st)).
Proof using Hutab.
  intros Hf Ht. rewrite vmm_map_user_eq. case_match; [|done]. cbn [snd]. apply typed_set; [done|].
  apply set_pte_typed; [|by apply user_pte_u32]. pose proof (space_of st i Ht) as [A B C D].
  unfold use_table. case_match; [by split|]. split; cbn; try done. apply Forall_aset; [done|].
  repeat apply u32_lor; (apply Hutab || done).
Qed.
Lemma unmap_user_typed i virt st : typed st -> typed (snd (vmm_unmap_user (Some i) virt st)).
Proof.
  intros Ht. unfold vmm_unmap_user. repeat case_match; try done. cbn [snd].
  apply typed_set; [by apply typed_frames|]. by apply set_pte_typed; [apply space_of|].
Qed.
Lemma user_alloc_typed n i flags : is_u32 flags -> forall virt st, typed st ->
  typed (snd (user_alloc_loop utab_addr n (Some i) virt flags st)).
Proof using Hutab.
  intros Hf. induction n as [|n IH]; intros virt st Ht; [done|]. cbn [user_alloc_loop].
  destruct (alloc_page (frames st)) as [p f]. destruct (p =? 0); [by apply typed_frames|].
  pose proof (map_user_typed i virt p flags _ Hf (typed_frames _ f Ht)) as Hm.
  destruct (vmm_map_user _ _ _ _ _ _) as [rc st1]. cbn [snd] in Hm.
  destruct (negb _); [by apply typed_frames|by apply IH].
Qed.
Lemma rollback_typed n i base : forall st, typed st -> typed (rollback n i base st).
Proof. induction n as [|n IH]; intros st Ht; [done|]. cbn [rollback]. by apply IH, unmap_user_typed. Qed.
Lemma map_pages_typed n i base flags : is_u32 flags -> forall k st, typed st ->
  typed (snd (map_pages utab_addr n k i base flags st)).
Proof using Hutab.
  intros Hf. induction n as [|n IH]; intros k st Ht; [done|]. cbn [map_pages].
  destruct (alloc_page (frames st)) as [p f]. destruct (p =? 0); [by apply rollback_typed, typed_frames|].
  pose proof (map_user_typed i (u32 (base + Z.of_nat k * PAGE_SIZE)) p (Z.lor flags PAGE_WRITE) _
    ltac:(by apply u32_lor) (typed_frames _ f Ht)) as Hm.
  destruct (vmm_map_user _ _ _ _ _ _) as [rc st1]. cbn [snd] in Hm.
  destruct (negb _); [by apply rollback_typed, typed_frames|by apply IH].
Qed.

(** A range that passes the checks has 32-bit bounds. *)
Lemma range_u32 base e : is_u32 e -> bad_range base e = false -> is_u32 base.
Proof. unfold bad_range, is_u32. intros He Hb. rewrite !orb_false_iff in Hb. autounfold with kconst in *. lia. Qed.
Lemma add_area_typed st i slot base e flags :
  typed st -> is_u32 base -> is_u32 e ->
  typed (set_space i (with_vmas ((vmas (spaces st).[i]).[slot <- mkVma base e flags true]) (spaces st).[i]) st).
Proof.
  intros Ht Hb He. pose proof (space_of st i Ht) as Hs. apply typed_set; [done|]. apply vmas_typed; [|done].
  by apply Forall_aset; [apply Hs|].
Qed.

Lemma map_range_typed i virt pages flags st :
  is_u32 flags -> typed st -> typed (snd (vmm_map_range utab_addr (Some i) virt pages flags st)).
Proof using Hutab.
  intros Hf Ht. unfold vmm_map_range. destruct (_ || _); [done|]. cbn zeta.
  set (base := if virt =? 0 then _ else _). set (e := u32 (base + _)).
  destruct (bad_range base e || _ || _ || _) eqn:Hbad; [done|]. rewrite !orb_false_iff in Hbad.
  destruct (free_vma_slot _) as [slot|]; [|done].
  pose proof (map_pages_typed (Z.to_nat pages) i base flags Hf 0 st Ht) as Hm.
  destruct (map_pages _ _ _ _ _ _ _) as [ok st1]. cbn [snd] in Hm. destruct (negb ok); [done|]. cbn [snd].
  apply add_area_typed; [done| |apply u32_range]. apply (range_u32 base e); [apply u32_range|tauto].
Qed.
Lemma map_lazy_typed i virt pages flags st :
  typed st -> typed (snd (vmm_map_lazy_range (Some i) virt pages flags st)).
Proof.
  intros Ht. unfold vmm_map_lazy_range. destruct (_ || _); [done|]. cbn zeta.
  set (base := if virt =? 0 then _ else _). set (e := u32 (base + _)).
  destruct (bad_range base e || _) eqn:Hbad; [done|]. rewrite !orb_false_iff in Hbad.
  destruct (free_vma_slot _) as [slot|]; [|done]. cbn [snd].
  apply add_area_typed; [done| |apply u32_range]. apply (range_u32 base e); [apply u32_range|tauto].
Qed.
Lemma trim_typed slot virt e l : is_u32 virt -> is_u32 e -> Forall vma_typed l -> Forall vma_typed (trim_vma slot virt e l).
Proof.
  intros Hv He Hl. assert (vma_typed l.[slot]) as [Hs He'] by (by apply Forall_aget_default).
  unfold trim_vma. repeat case_match; repeat apply Forall_aset; done.
Qed.
Lemma unmap_range_typed i virt pages st : typed st -> typed (snd (vmm_unmap_range (Some i) virt pages st)).
Proof.
  intros Ht. unfold vmm_unmap_range. destruct (_ || _ || _) eqn:Hbad; [done|]. rewrite !orb_false_iff, negb_false_iff in Hbad.
  cbn zeta. destruct (_ || _); [done|]. destruct (existsb _ _); [done|]. destruct (find_from _ _ _) as [slot|]; [|done]. cbn [snd].
  match goal with |- typed (set_space i (with_vmas (trim_vma _ _ _ (vmas (spaces ?s).[i])) _) _) => set (st1 := s) end.
  assert (typed st1) as Ht1 by (apply for_range_pres; [done|]; intros; by apply unmap_user_typed).
  clearbody st1. pose proof (space_of st1 i Ht1) as Hs. apply typed_set; [done|]. apply vmas_typed; [|done].
  apply trim_typed; [|apply u32_range|apply Hs]. destruct Hbad as [_ Hu]. unfold user_range in Hu. unfold is_u32.
  autounfold with kconst in *. lia.
Qed.

Lemma restore_typed old st : typed st -> typed (restore_space old st).
Proof. intros Ht. destruct old; [by apply typed_switch|done]. Qed.
Lemma clone_entry_typed src dst e old st :
  typed st -> match clone_entry utab_addr src dst e old st with inl st' | inr st' => typed st' end.
Proof using Hutab.
  intros Ht. destruct e as [t j]. unfold clone_entry. cbn zeta. destruct (negb _); [done|].
  destruct (alloc_page (frames st)) as [p f]. destruct (p =? 0).
  { by apply restore_typed, destroy_typed, typed_frames. }
  pose proof (map_user_typed dst (entry_va t j) p (page_off (user_tables (spaces st).[src]).[t].[j]) _
    (flags_u32 _ (page_off_bound _)) (typed_frames _ f Ht)) as Hm.
  destruct (vmm_map_user _ _ _ _ _ _) as [rc st1]. cbn [snd] in Hm. destruct (negb _).
  { by apply restore_typed, destroy_typed, typed_frames. }
  apply write_page_typed; [apply read_page_typed|]; by repeat apply typed_switch.
Qed.
Lemma clone_entries_typed src dst es old : forall st, typed st -> typed (snd (clone_entries utab_addr src dst es old st)).
Proof using Hutab.
  induction es as [|e es IH]; intros st Ht; cbn [clone_entries]; [destruct old; by apply typed_switch|].
  pose proof (clone_entry_typed src dst e old st Ht) as He.
  destruct (clone_entry utab_addr src dst e old st); [done|by apply IH].
Qed.

Lemma cow_entry_typed src dst e old st :
  typed st -> match cow_entry utab_addr src dst e old st with inl st' | inr st' => typed st' end.
Proof using Hutab.
  intros Ht. destruct e as [t j]. unfold cow_entry. cbn zeta. destruct (negb _); [done|].
  set (pte := (user_tables (spaces st).[src]).[t].[j]). fold (cow_flags pte).
  pose proof (flags_u32 _ (cow_flags_ok pte)) as Hf.
  assert (typed (set_space src (set_pte t j (Z.lor (page_base pte) (cow_flags pte)) (spaces st).[src]) st)) as Ht1.
  { apply typed_set; [done|]. apply set_pte_typed; [by apply space_of|]. apply u32_lor; [apply page_base_range|done]. }
  pose proof (map_user_typed dst (entry_va t j) (page_base pte) (cow_flags pte) _ Hf Ht1) as Hm.
  destruct (vmm_map_user _ _ _ _ _ _) as [rc st1]. cbn [snd] in Hm.
  destruct (negb _); [by apply restore_typed, destroy_typed|by apply typed_frames].
Qed.
Lemma cow_entries_typed src dst es old : forall st, typed st -> typed (snd (cow_entries utab_addr src dst es old st)).
Proof using Hutab.
  induction es as [|e es IH]; intros st Ht; cbn [cow_entries]; [destruct old; by apply typed_switch|].
  pose proof (cow_entry_typed src dst e old st Ht) as He.
  destruct (cow_entry utab_addr src dst e old st); [done|by apply IH].
Qed.

(** Both clones start from a new space with the areas of the source. *)
Lemma clone_start_typed st src dst st0 :
  typed st -> vmm_create_address_space st = (Some dst, st0) ->
  typed (set_space dst (with_vmas (vmas (spaces st0).[src]) (spaces st0).[dst]) st0).
Proof.
  intros Ht Hc. pose proof (create_typed st Ht) as H1'. rewrite Hc in H1'. cbn [snd] in H1'.
  apply typed_set; [done|]. apply vmas_typed; [apply (space_of st0 src H1')|by apply space_of].
Qed.
Lemma clones_typed st src : typed st ->
  typed (snd (vmm_clone_address_space utab_addr (Some src) st)) /\
  typed (snd (vmm_clone_address_space_cow utab_addr (Some src) st)).
Proof using Hutab.
  intros Ht. pose proof (create_typed st Ht) as H1'. unfold vmm_clone_address_space, vmm_clone_address_space_cow.
  destruct (vmm_create_address_space st) as [[dst|] st0] eqn:Hc; [|done].
  pose proof (clone_start_typed st src dst st0 Ht Hc) as Hs.
  split; [by apply clone_entries_typed|by apply cow_entries_typed].
Qed.

Lemma cow_page_typed st i page pte st' :
  vmm_inv st -> typed st -> cow_page i page pte st = Done tt st' -> typed st'.
Proof.
  intros Hinv Ht. rewrite cow_page_eq. destruct (alloc_page (frames st)) as [p f] eqn:Ha.
  destruct (Z.eqb_spec p 0) as [|Hp]; [done|]. cbn zeta. intros <-%Done_inj.
  destruct (alloc_some _ _ _ (vw_frames _ (proj1 Hinv)) Ha Hp) as (_ & Hr & _).
  assert (is_u32 p) as Hpu by (unfold is_u32; lia).
  assert (typed (copied pte p f st)) as Hc.
  { unfold copied. cbn zeta.
    assert (typed (kmap_do COPY_WINDOW (page_base pte) 0 (with_frames f st))) as H1'
      by (apply kmap_do_typed; [done|by apply typed_frames]).
    apply kmap_do_typed; [done|]. apply write_page_typed; [by apply read_page_typed|]. by apply kmap_do_typed. }
  apply typed_frames, typed_set; [done|]. apply set_pte_typed; [by apply space_of|].
  unfold private_pte. repeat apply u32_lor; done.
Qed.

Lemma step_typed st st' : vmm_inv st -> typed st -> vmm_step utab_addr st st' -> typed st'.
Proof using H0 Hutab.
  intros Hinv Ht Hstep. destruct Hstep.
  - by apply create_typed.
  - by apply retain_typed.
  - by apply destroy_typed.
  - by apply typed_switch.
  - by apply typed_switch.
  - unfold vmm_user_alloc. pose proof (user_alloc_typed (Z.to_nat pages) i flags (flags_u32 _ H2) virt st Ht) as Hu.
    by destruct (user_alloc_loop _ _ _ _ _ _).
  - by apply unmap_user_typed.
  - apply map_range_typed; [by apply flags_u32|done].
  - by apply map_lazy_typed.
  - by apply unmap_range_typed.
  - exact (proj1 (clones_typed st i Ht)).
  - exact (proj2 (clones_typed st i Ht)).
  - destruct (fault_mapped utab_addr _ _ _ _ _ _ H1 H2 H3) as (_ & _ & _ & Hcow).
    by eapply cow_page_typed.
Qed.

Lemma boot_typed addr_of (f : S) : (forall t, is_u32 (addr_of t)) -> typed (vmm_boot addr_of f).
Proof.
  intros Ha. split; cbn [kmaps spaces mem vmm_boot].
  - unfold vmm_init. split.
    + do 4 (apply Forall_aset; [|repeat apply u32_lor; (apply Ha || done)]). apply Forall_replicate. done.
    + intros []; cbn [table_of first_table heap_table lapic_table ioapic_table].
      * apply Forall_forall. intros x (i & -> & Hi)%list_elem_of_fmap. apply elem_of_seqZ in Hi.
        repeat apply u32_lor; [|done..]. unfold is_u32. const_lia.
      * apply Forall_replicate. done.
      * do 2 (apply Forall_aset; [|repeat apply u32_lor; done]). apply Forall_replicate. done.
      * apply Forall_replicate. done.
  - apply Forall_replicate. split; cbn [empty_space page_directory user_tables vmas refs].
    + apply Forall_replicate. done.
    + apply Forall_replicate, Forall_replicate. done.
    + apply Forall_replicate. done.
    + done.
  - apply map_Forall_empty.
Qed.

End types.

(** One space with a page, on the small machine. *)
Definition demo_words (i slot : Z) : Z := u32 (demo_tables i slot).
Definition demo_page : vmm pmm := snd (vmm_user_alloc demo_words (Some 0) 4198400 1 PAGE_WRITE demo_space).

