(* ===== verification/Ring.v ===== *)
(** Ring buffers: the contents of a circular array seen as a queue.

    The keyboard buffer and the loopback packet queue are arrays with a head and a
    tail that wrap around; [ring_view] reads the live part from the head on, and the
    two lemmas say what a store at the tail and an advance of the head do to it. *)
From S2P Require Import Prelude.

Section ring.
Context {A : Type} `{Inhabited A}.
Variable N : Z.
Implicit Types buf : list A.

Definition ring_view buf (head n : Z) : list A :=
  (fun k => buf.[(head + k) mod N]) <$> seqZ 0 n.

Lemma ring_view_length buf head n : 0 <= n -> Z.of_nat (length (ring_view buf head n)) = n.
Proof. intros Hn. unfold ring_view. rewrite length_fmap, length_seqZ. lia. Qed.

Lemma ring_view_ext buf buf' head n :
  0 < N -> (forall k, 0 <= k < n -> buf'.[(head + k) mod N] = buf.[(head + k) mod N]) ->
  ring_view buf' head n = ring_view buf head n.
Proof.
  intros HN Hk. unfold ring_view. apply list_fmap_ext. intros i k Hl.
  apply lookup_seqZ in Hl as [-> Hi]. apply Hk. lia.
Qed.

(** Distinct offsets below the size are distinct slots. *)
Lemma ring_slots_ne head j k :
  0 < N -> 0 <= j < N -> 0 <= k < N -> j <> k -> (head + j) mod N <> (head + k) mod N.
Proof.
  intros HN Hj Hk Hne E. apply Hne.
  assert ((j - k) mod N = 0) as Hm.
  { replace (j - k) with ((head + j) - (head + k)) by lia. rewrite Zminus_mod, E, Z.sub_diag. apply Z.mod_0_l. lia. }
  apply (Zmod_divides _ N ltac:(lia)) in Hm as [c Hc].
  destruct (Z.lt_trichotomy c 0) as [|[->|]]; nia.
Qed.

Lemma ring_view_push buf head n v :
  0 < N -> Z.of_nat (length buf) = N -> 0 <= n < N ->
  ring_view (buf.[(head + n) mod N <- v]) head (n + 1) = ring_view buf head n ++ [v].
Proof.
  intros HN Hl Hn. unfold ring_view at 1. rewrite seqZ_app, fmap_app by lia. f_equal.
  - apply ring_view_ext; [done|]. intros k Hk.
    pose proof (Z.mod_pos_bound (head + n) N HN). pose proof (Z.mod_pos_bound (head + k) N HN).
    apply aget_aset_ne; [lia|lia|]. apply ring_slots_ne; lia.
  - rewrite Z.add_0_l, seqZ_cons, seqZ_nil by lia. cbn [fmap list_fmap]. f_equal. rewrite aget_aset_eq; [done|]. rewrite Hl. by apply Z.mod_pos_bound.
Qed.

Lemma ring_view_pop buf head n :
  0 < N -> 0 <= head < N -> 0 < n ->
  ring_view buf head n = buf.[head] :: ring_view buf ((head + 1) mod N) (n - 1).
Proof.
  intros HN Hh Hn. unfold ring_view. rewrite (seqZ_cons 0) by lia. cbn. f_equal.
  - by rewrite Z.add_0_r, Z.mod_small.
  - replace (Z.pred n) with (n - 1) by lia. replace (Z.succ 0) with (0 + 1) by lia.
    replace (0 + 1) with (1 + 0) by lia.
    rewrite <- (fmap_add_seqZ 1 0 (n - 1)), <- list_fmap_compose. apply list_fmap_ext. intros i k _. unfold compose.
    f_equal. rewrite Zplus_mod_idemp_l. f_equal. lia.
Qed.
End ring.
