(* ===== verification/Keyboard.v ===== *)
(** The keyboard driver, [drivers/keyboard/keyboard.c]: scan codes from the interrupt
    go through a translation table into a 64-byte ring that [keyboard_getc] drains.

    The byte read from port [0x60] is the argument of the interrupt handler. *)
From S2P Require Import Prelude Ring.

Definition KEY_BUF_SIZE : Z := 64.
#[export] Hint Unfold KEY_BUF_SIZE : kconst.

(** [map]: scan code to character; the elements the initialiser leaves out are 0. *)
Definition map : list Z :=
  [
    0; 27; 49; 50; 51; 52; 53; 54; 55; 56; 57; 48; 45; 61; 8; 9; 113; 119; 101; 114; 116; 121;
    117; 105; 111; 112; 91; 93; 10; 0; 97; 115; 100; 102; 103; 104; 106; 107; 108; 59; 39; 96;
    0; 92; 122; 120; 99; 118; 98; 110; 109; 44; 46; 47; 0; 42; 0; 32; 95
  ] ++ replicate (128 - 59) 0.

Record keyboard := mkKeyboard { key_buf : list Z; key_head : Z; key_tail : Z }.

Definition keyboard_boot : keyboard := mkKeyboard (replicate 64 0) 0 0.

Definition keyboard_irq (sc : Z) (k : keyboard) : keyboard :=
  if negb (Z.land sc 128 =? 0) then k
  else if (sc <? 128) && negb (map.[sc] =? 0) then
    let n := u8 ((key_tail k + 1) mod KEY_BUF_SIZE) in
    if negb (n =? key_head k)
    then mkKeyboard ((key_buf k).[key_tail k <- map.[sc]]) (key_head k) n
    else k
  else k.

Definition keyboard_getc (k : keyboard) : Z * keyboard :=
  if key_head k =? key_tail k then (0, k)
  else ((key_buf k).[key_head k],
        mkKeyboard (key_buf k) (u8 ((key_head k + 1) mod KEY_BUF_SIZE)) (key_tail k)).

(** ** The queue the ring stands for *)
Record keyboard_ok (k : keyboard) : Prop := {
  kb_length : length (key_buf k) = 64%nat;
  kb_head : 0 <= key_head k < 64;
  kb_tail : 0 <= key_tail k < 64;
}.

Definition pending_count (k : keyboard) : Z := (key_tail k - key_head k) mod 64.
Definition pending (k : keyboard) : list Z := ring_view 64 (key_buf k) (key_head k) (pending_count k).

(** The character a scan code types, if it is a key press that types one. *)
Definition typed (sc : Z) : option Z :=
  if (sc <? 128) && negb (map.[sc] =? 0) then Some map.[sc] else None.

Lemma release_code sc : 0 <= sc < 256 -> (Z.land sc 128 =? 0) = (sc <? 128).
Proof.
  intros Hsc. apply eqb_prop.
  exact (forall_seqZ (fun sc => eqb (Z.land sc 128 =? 0) (sc <? 128)) 0 256 eq_refl sc ltac:(lia)).
Qed.

Lemma irq_cases sc k :
  0 <= sc < 256 -> keyboard_ok k ->
  keyboard_irq sc k =
    match typed sc with
    | Some c => if pending_count k <? 63
                then mkKeyboard ((key_buf k).[key_tail k <- c]) (key_head k) ((key_tail k + 1) mod 64)
                else k
    | None => k
    end.
Proof.
  intros Hsc [Hl Hh Ht]. unfold keyboard_irq, typed, pending_count. rewrite release_code by done.
  destruct (sc <? 128); [|done]. cbn [negb andb]. destruct (map.[sc] =? 0); [done|]. cbn [negb].
  assert (u8 ((key_tail k + 1) mod KEY_BUF_SIZE) = (key_tail k + 1) mod 64) as -> by word_lia.
  assert ((((key_tail k + 1) mod 64 =? key_head k) = negb ((key_tail k - key_head k) mod 64 <? 63))) as -> by word_lia.
  rewrite negb_involutive. by case_match.
Qed.

Lemma keyboard_irq_ok sc k : 0 <= sc < 256 -> keyboard_ok k -> keyboard_ok (keyboard_irq sc k).
Proof.
  intros Hsc Hk. rewrite irq_cases by done. destruct Hk as [Hl Hh Ht].
  destruct (typed sc); [|done]. destruct (_ <? 63); [|done].
  split; cbn; [by rewrite aset_length|done|word_lia].
Qed.

Lemma keyboard_getc_ok k : keyboard_ok k -> keyboard_ok (keyboard_getc k).2.
Proof.
  intros [Hl Hh Ht]. unfold keyboard_getc. destruct (_ =? _); [done|].
  split; cbn; [done|word_lia|done].
Qed.

Lemma irq_pending sc k :
  0 <= sc < 256 -> keyboard_ok k ->
  pending (keyboard_irq sc k) =
    pending k ++ match typed sc with
                 | Some c => if pending_count k <? 63 then [c] else []
                 | None => []
                 end.
Proof.
  intros Hsc Hk. rewrite irq_cases by done. destruct (typed sc) as [c|]; [|by rewrite app_nil_r].
  destruct (Z.ltb_spec (pending_count k) 63); [|by rewrite app_nil_r].
  destruct Hk as [Hl Hh Ht]. set (n := pending_count k) in *.
  assert (key_tail k = (key_head k + n) mod 64) as Et by (unfold n, pending_count; word_lia).
  unfold pending at 1. unfold pending_count. cbn [key_buf key_head key_tail].
  replace (((key_tail k + 1) mod 64 - key_head k) mod 64) with (n + 1) by (unfold n, pending_count in *; word_lia).
  rewrite Et. apply ring_view_push; [lia|lia|]. unfold n, pending_count. word_lia.
Qed.

Lemma getc_pending k :
  keyboard_ok k ->
  pending k = match pending (keyboard_getc k).2 with
              | l => if key_head k =? key_tail k then l else (keyboard_getc k).1 :: l
              end.
Proof.
  intros [Hl Hh Ht]. unfold keyboard_getc. destruct (Z.eqb_spec (key_head k) (key_tail k)); [done|].
  cbn [fst snd]. unfold pending. unfold pending_count at 1.
  rewrite ring_view_pop by (lia || word_lia). f_equal. unfold pending_count. cbn [key_buf key_head key_tail].
  assert (u8 ((key_head k + 1) mod KEY_BUF_SIZE) = (key_head k + 1) mod 64) as -> by word_lia.
  f_equal. word_lia.
Qed.

(** ** Histories *)
Inductive key_event := Irq (sc : Z) | Getc.

Fixpoint run_keys (es : list key_event) (k : keyboard) : list Z * keyboard :=
  match es with
  | [] => ([], k)
  | Irq sc :: es => run_keys es (keyboard_irq sc k)
  | Getc :: es => let '(c, k) := keyboard_getc k in
                  let '(cs, k) := run_keys es k in (c :: cs, k)
  end.

(** The specification: a bounded queue of characters. *)
Fixpoint spec_keys (es : list key_event) (q : list Z) : list Z * list Z :=
  match es with
  | [] => ([], q)
  | Irq sc :: es =>
      spec_keys es (q ++ match typed sc with
                         | Some c => if Z.of_nat (length q) <? 63 then [c] else []
                         | None => []
                         end)
  | Getc :: es =>
      match q with
      | [] => let '(cs, q) := spec_keys es [] in (0 :: cs, q)
      | c :: q => let '(cs, q) := spec_keys es q in (c :: cs, q)
      end
  end.

(** Under any interleaving of interrupts and reads the keyboard is a first-in
    first-out queue of the characters typed: each press is appended unless 63
    characters wait, releases and keys without a character are ignored, and each read
    returns the oldest character, or 0 when none waits. *)
Theorem keyboard_is_fifo es k :
  keyboard_ok k -> (forall sc, Irq sc ∈ es -> 0 <= sc < 256) ->
  (run_keys es k).1 = (spec_keys es (pending k)).1 /\
  pending (run_keys es k).2 = (spec_keys es (pending k)).2 /\ keyboard_ok (run_keys es k).2.
Proof.
  revert k. induction es as [|[sc|] es IH]; intros k Hk Hsc; [done|..].
  - assert (0 <= sc < 256) as Hr by (apply Hsc; left).
    cbn [run_keys spec_keys]. 
    assert (Z.of_nat (length (pending k)) = pending_count k) as ->
      by (apply ring_view_length; unfold pending_count; word_lia).
    rewrite <- irq_pending by done. apply IH; [by apply keyboard_irq_ok|].
    intros sc' Hin. apply Hsc. by right.
  - cbn [run_keys]. pose proof (getc_pending k Hk) as Hp. pose proof (keyboard_getc_ok k Hk) as Hk'.
    destruct (IH (keyboard_getc k).2 Hk') as (H1 & H2 & H3); [intros sc' Hin; apply Hsc; by right|].
    destruct (keyboard_getc k) as [c k'] eqn:Hg. cbn [fst snd] in *.
    destruct (run_keys es k') as [cs k'']. cbn [fst snd] in *. cbn [spec_keys].
    destruct (Z.eqb_spec (key_head k) (key_tail k)) as [E|E].
    + assert (pending k = []) as Hnil.
      { unfold pending, pending_count. rewrite E, Z.sub_diag. done. }
      rewrite Hnil in Hp |- *. rewrite <- Hp in H1, H2.
      unfold keyboard_getc in Hg. rewrite E, Z.eqb_refl in Hg. injection Hg as <- <-.
      destruct (spec_keys es []) as [cs' q']. cbn in *. split_and!; congruence.
    + rewrite Hp. destruct (spec_keys es (pending k')) as [cs' q']. cbn in *. split_and!; congruence.
Qed.

Lemma keyboard_is_fifo_witness :
  (run_keys [Irq 30; Irq 158; Irq 48; Getc; Getc; Getc] keyboard_boot).1 = [97; 98; 0].
Proof.
  destruct (keyboard_is_fifo [Irq 30; Irq 158; Irq 48; Getc; Getc; Getc] keyboard_boot) as [H _].
  - split; [reflexivity|cbn; lia|cbn; lia].
  - intros sc Hin. rewrite !elem_of_cons in Hin.
    repeat destruct Hin as [[= ->]|Hin]; try lia; try discriminate. by apply not_elem_of_nil in Hin.
  - rewrite H. vm_compute. reflexivity.
Defined.
