(* ===== verification/Net.v ===== *)
(** The network foundation, [net/net.c] and [include/net.h]: the Internet checksum,
    the header validators, the loopback packet queue and the sockets on top of it.

    Packets and headers are byte lists in memory order; a null pointer is [None].  [serial_write] in [net_init] is output only. *)
From S2P Require Import Prelude Ring.

Definition NET_QUEUE_SIZE : Z := 4.
Definition NET_PACKET_SIZE : Z := 1536.
Definition NET_IPV6_HEADER_SIZE : Z := 40.
#[export] Hint Unfold NET_QUEUE_SIZE NET_PACKET_SIZE NET_IPV6_HEADER_SIZE : kconst.

(** ** Checksums *)
Definition swap16 (x : Z) : Z := u16 (Z.lor (Z.shiftl x 8) (Z.shiftr x 8)).

(** [((uint16_t)p[0] << 8) | p[1]] *)
Definition word_be (hi lo : Z) : Z := u16 (Z.lor (Z.shiftl hi 8) lo).

Fixpoint add_words (sum : Z) (p : list Z) : Z :=
  match p with
  | hi :: lo :: p' =>
      let sum := u32 (sum + word_be hi lo) in
      let sum := if 65535 <? sum then u32 (Z.land sum 65535 + Z.shiftr sum 16) else sum in
      add_words sum p'
  | [hi] => u32 (sum + u16 (Z.shiftl hi 8))
  | [] => sum
  end.

(** [while (sum >> 16)]: the sum at least halves while it has more than 17 bits. *)
Fixpoint fold_loop (fuel : nat) (sum : Z) : option Z :=
  match fuel with
  | O => None
  | S fuel' => if Z.shiftr sum 16 =? 0 then Some sum
               else fold_loop fuel' (u32 (Z.land sum 65535 + Z.shiftr sum 16))
  end.
Definition fold_checksum (sum : Z) : Z :=
  match fold_loop 4 sum with
  | Some sum => u16 (Z.lnot sum)
  | None => 0
  end.

Definition net_checksum (data : list Z) : Z := fold_checksum (add_words 0 data).

(** ** Headers *)
(** A packed little-endian [uint16_t] field at byte [off]. *)
Definition field16 (p : list Z) (off : Z) : Z := le16 p.[off] p.[off + 1].

Definition net_ipv6_validate (packet : option (list Z)) (length : Z) : Z :=
  match packet with
  | None => -1
  | Some p =>
      if length <? NET_IPV6_HEADER_SIZE then -1
      else if negb (Z.shiftr p.[0] 4 =? 6) then -1
      else
        let payload := swap16 (field16 p 4) in
        if u32 (length - NET_IPV6_HEADER_SIZE) <? payload then -1 else 0
  end.

(** The fields of [net_tcp_t] the validator reads: [source] at 0, [destination] at 2,
    [data_offset] at 12. *)
Definition net_tcp_validate (h : option (list Z)) (length : Z) : Z :=
  match h with
  | None => -1
  | Some h =>
      if length <? 20 then -1
      else
        let offset := u32 (Z.shiftr h.[12] 4 * 4) in
        if (offset <? 20) || (length <? offset) then -1
        else if (field16 h 0 =? 0) || (field16 h 2 =? 0) then -1 else 0
  end.

(** The pseudo header of a packet: both addresses (bytes 8 to 39 of the IPv6 header),
    the length and the protocol. *)
Definition pseudo (h : list Z) (length proto : Z) : list Z :=
  ((fun i => h.[8 + i]) <$> seqZ 0 16) ++ ((fun i => h.[24 + i]) <$> seqZ 0 16) ++
  [u8 (Z.shiftr length 24); u8 (Z.shiftr length 16); u8 (Z.shiftr length 8); u8 length; 0; 0; 0; proto].

Definition net_tcp_checksum (h t : option (list Z)) (length : Z) : Z :=
  match h, t with
  | Some h, Some t =>
      if 65535 <? length then 0
      else fold_checksum (add_words (add_words 0 (pseudo h length 6)) (take (Z.to_nat length) t))
  | _, _ => 0
  end.

Definition net_icmpv6_checksum (h payload : option (list Z)) (length : Z) : Z :=
  match h with
  | None => 0
  | Some h =>
      match payload with
      | None => if negb (length =? 0) then 0
                else fold_checksum (add_words (add_words 0 (pseudo h length 58)) [])
      | Some d => fold_checksum (add_words (add_words 0 (pseudo h length 58)) (take (Z.to_nat length) d))
      end
  end.

Definition net_ipv6_selftest : Z :=
  let packet := (replicate 40 0).[0 <- 96] in
  if (net_ipv6_validate (Some packet) 40 =? 0) && negb (net_icmpv6_checksum (Some packet) None 0 =? 0)
  then 0 else -1.

(** ** The loopback queue *)
Record arp_entry := mkArp { address : Z; mac : list Z; valid : bool }.
#[global] Instance arp_inhabited : Inhabited arp_entry := populate (mkArp 0 [] false).

Record net := mkNet {
  queue : list (list Z);
  queue_len : list Z;
  queue_head : Z;
  queue_tail : Z;
  queue_count : Z;
  arp : list arp_entry;
  ready : bool;
}.
#[global] Instance bytes_inhabited : Inhabited (list Z) := populate [].

Definition net_boot : net :=
  mkNet (replicate 4 (replicate 1536 0)) (replicate 4 0) 0 0 0 (replicate 4 (mkArp 0 (replicate 6 0) false)) false.

Definition net_init (n : net) : net :=
  mkNet (queue n) (queue_len n) 0 0 0
    ((fun e => mkArp (address e) (mac e) false) <$> arp n) true.

(** [for (i = 0; i < length; i++) queue[queue_tail][i] = packet[i]] *)
Definition store_packet (dst packet : list Z) (length : Z) : list Z :=
  for_range 0 length (fun i dst => dst.[i <- packet.[i]]) dst.

Definition net_loopback_send (packet : option (list Z)) (length : Z) (n : net) : Z * net :=
  match packet with
  | None => (-1, n)
  | Some packet =>
      if negb (ready n) || (length =? 0) || (NET_PACKET_SIZE <? length) || (NET_QUEUE_SIZE <=? queue_count n)
      then (-1, n)
      else
        (0, mkNet ((queue n).[queue_tail n <- store_packet (queue n).[queue_tail n] packet length])
              ((queue_len n).[queue_tail n <- length]) (queue_head n)
              (u32 (queue_tail n + 1) mod NET_QUEUE_SIZE) (queue_count n + 1) (arp n) (ready n))
  end.

Definition net_loopback_received (n : net) : Z * net :=
  if queue_count n =? 0 then (0, n)
  else ((queue_len n).[queue_head n],
        mkNet (queue n) (queue_len n) (u32 (queue_head n + 1) mod NET_QUEUE_SIZE) (queue_tail n)
          (queue_count n - 1) (arp n) (ready n)).

Definition net_htons (value : Z) : Z := swap16 value.

(** ** Sockets *)
Inductive socket_state := NET_SOCKET_CLOSED | NET_SOCKET_SYN_SENT | NET_SOCKET_ESTABLISHED | NET_SOCKET_FIN_WAIT.
#[global] Instance socket_state_eq_dec : EqDecision socket_state.
Proof. solve_decision. Defined.

Record net_socket := mkSocket {
  local_port : Z; remote_port : Z; sequence : Z; acknowledgement : Z;
  state : socket_state; sused : bool;
}.
#[global] Instance socket_inhabited : Inhabited net_socket :=
  populate (mkSocket 0 0 0 0 NET_SOCKET_CLOSED false).

Definition net_socket_open (s : option net_socket) (port : Z) (n : net) : Z * option net_socket :=
  match s with
  | None => (-1, s)
  | Some _ =>
      if negb (ready n) || (port =? 0) then (-1, s)
      else (0, Some (mkSocket port 0 1 0 NET_SOCKET_CLOSED true))
  end.

Definition net_socket_connect (s : option net_socket) (port : Z) : Z * option net_socket :=
  match s with
  | None => (-1, s)
  | Some k =>
      if negb (sused k) || (port =? 0) || negb (bool_decide (state k = NET_SOCKET_CLOSED)) then (-1, s)
      else (0, Some (mkSocket (local_port k) port (sequence k) 1 NET_SOCKET_ESTABLISHED (sused k)))
  end.

Definition net_socket_send (s : option net_socket) (data : option (list Z)) (length : Z) (n : net)
  : Z * option net_socket * net :=
  match s with
  | None => (-1, s, n)
  | Some k =>
      if negb (sused k) || negb (bool_decide (state k = NET_SOCKET_ESTABLISHED))
         || bool_decide (data = None) || (length =? 0)
      then (-1, s, n)
      else
        let '(rc, n) := net_loopback_send data length n in
        if negb (rc =? 0) then (-1, s, n)
        else (i32 length,
              Some (mkSocket (local_port k) (remote_port k) (u32 (sequence k + length))
                      (acknowledgement k) (state k) (sused k)), n)
  end.

Definition net_socket_close (s : option net_socket) : Z * option net_socket :=
  match s with
  | None => (-1, s)
  | Some k =>
      if negb (sused k) then (-1, s)
      else (0, Some (mkSocket (local_port k) (remote_port k) (sequence k) (acknowledgement k)
                       NET_SOCKET_CLOSED false))
  end.

(** ** One's complement sums *)
(** The 16-bit words of a byte string, the last byte padded with zero. *)
Fixpoint words_sum (p : list Z) : Z :=
  match p with
  | hi :: lo :: p' => hi * 256 + lo + words_sum p'
  | [hi] => hi * 256
  | [] => 0
  end.

(** The end-around-carry sum of a total: its representative in [1, 65535], 0 for 0. *)
Definition ones_sum (s : Z) : Z := if s =? 0 then 0 else (s - 1) mod 65535 + 1.

Definition oc_equiv (a b : Z) : Prop :=
  0 <= a /\ 0 <= b /\ a mod 65535 = b mod 65535 /\ (a = 0 <-> b = 0).

#[global] Instance oc_equiv_refl_pos : Transitive oc_equiv.
Proof. intros a b c (H1 & H2 & H3 & H4) (H5 & H6 & H7 & H8). split_and!; [done|done|congruence|tauto]. Qed.

Lemma oc_equiv_refl a : 0 <= a -> oc_equiv a a.
Proof. done. Qed.

Lemma oc_equiv_add a b c : oc_equiv a b -> 0 <= c -> oc_equiv (a + c) (b + c).
Proof.
  intros (H1 & H2 & H3 & H4) Hc. split_and!; [lia|lia| |lia].
  rewrite Zplus_mod, H3, <- Zplus_mod. done.
Qed.

Lemma carry_step s : 0 <= s -> Z.land s 65535 + Z.shiftr s 16 = s mod 65536 + s / 65536.
Proof. intros Hs. change 65535 with (2 ^ 16 - 1). rewrite (land_mask s 16), shiftr_div by lia. done. Qed.

Lemma oc_equiv_carry s : 0 <= s -> oc_equiv (s mod 65536 + s / 65536) s.
Proof. intros Hs. split_and!; word_lia. Qed.

Lemma word_be_sum hi lo : is_u8 hi -> is_u8 lo -> word_be hi lo = hi * 256 + lo.
Proof.
  intros Hh Hl. unfold word_be. rewrite Z.shiftl_mul_pow2 by lia. change (2 ^ 8) with 256.
  assert (Z.lor (hi * 256) lo = hi * 256 + lo) as ->; [|word_lia].
  rewrite <- Z.add_nocarry_lor; [lia|]. apply Z.bits_inj'. intros n Hn.
  change 256 with (2 ^ 8). rewrite Z.land_spec, Z.bits_0. destruct (Z.ltb_spec n 8).
  - by rewrite Z.mul_pow2_bits_low.
  - rewrite (testbit_high 8 lo n) by (unfold is_u8 in *; lia). apply andb_false_r.
Qed.

Lemma words_sum_nonneg p : Forall is_u8 p -> 0 <= words_sum p.
Proof.
  revert p. fix IH 1. intros [|hi [|lo p]] Hp; cbn [words_sum]; [lia|..].
  - inversion Hp; subst. unfold is_u8 in *. lia.
  - inversion Hp as [|? ? Hh Hp']; subst. inversion Hp' as [|? ? Hl Hp'']; subst.
    specialize (IH p Hp''). unfold is_u8 in *. lia.
Qed.

Lemma words_sum_app p q : Nat.Even (length p) -> words_sum (p ++ q) = words_sum p + words_sum q.
Proof.
  revert p. fix IH 1. intros [|hi [|lo p]] Hev; cbn [app words_sum].
  - lia.
  - exfalso. destruct Hev as [k Hk]. cbn in Hk. lia.
  - rewrite IH; [lia|]. destruct Hev as [k Hk]. exists (k - 1)%nat. cbn in Hk. lia.
Qed.

(** The running sum never overflows and keeps the one's complement value. *)
Lemma add_words_equiv p sum :
  Forall is_u8 p -> 0 <= sum <= 131070 ->
  0 <= add_words sum p <= 196350 /\ oc_equiv (add_words sum p) (sum + words_sum p).
Proof.
  revert p sum. fix IH 1. intros [|hi [|lo p]] sum Hp Hs; cbn [add_words words_sum].
  - rewrite Z.add_0_r. split; [lia|]. apply oc_equiv_refl. lia.
  - inversion Hp as [|? ? Hh _]; subst. rewrite Z.shiftl_mul_pow2 by lia. change (2 ^ 8) with 256.
    assert (u32 (sum + u16 (hi * 256)) = sum + hi * 256) as -> by word_lia.
    split; [unfold is_u8 in *; lia|]. apply oc_equiv_refl. unfold is_u8 in *. lia.
  - inversion Hp as [|? ? Hh Hp']; subst. inversion Hp' as [|? ? Hl Hp'']; subst.
    rewrite word_be_sum by done. set (w := hi * 256 + lo).
    assert (0 <= w <= 65535) as Hw by (unfold w, is_u8 in *; lia).
    rewrite (u32_small (sum + w)) by word_lia.
    pose proof (words_sum_nonneg p Hp'') as Hnn. rewrite Z.add_assoc.
    destruct (Z.ltb_spec 65535 (sum + w)).
    + rewrite carry_step by lia. rewrite u32_small by word_lia.
      destruct (IH p ((sum + w) mod 65536 + (sum + w) / 65536) Hp'' ltac:(word_lia)) as [Hb He].
      split; [exact Hb|]. etransitivity; [exact He|]. apply oc_equiv_add; [|done].
      apply oc_equiv_carry. lia.
    + apply IH; [done|lia].
Qed.

Lemma fold_loop_spec sum :
  0 <= sum < 4294967296 -> exists r, fold_loop 4 sum = Some r /\ 0 <= r <= 65535 /\ oc_equiv r sum.
Proof.
  intros Hs.
  assert (forall n s, 0 <= s < 4294967296 ->
    fold_loop (S n) s = if s <? 65536 then Some s else fold_loop n (s mod 65536 + s / 65536)) as Hstep.
  { intros n s Hr. cbn [fold_loop]. rewrite carry_step, shiftr_div, u32_small by word_lia.
    change (2 ^ 16) with 65536. destruct (Z.ltb_spec s 65536).
    - by assert ((s / 65536 =? 0) = true) as -> by word_lia.
    - by assert ((s / 65536 =? 0) = false) as -> by word_lia. }
  rewrite Hstep by done. destruct (Z.ltb_spec sum 65536); [exists sum; split; [done|split; [lia|apply oc_equiv_refl; lia]]|].
  set (s1 := sum mod 65536 + sum / 65536).
  assert (oc_equiv s1 sum) as He1 by (apply oc_equiv_carry; lia).
  assert (0 <= s1 <= 131070) as H1 by (unfold s1; word_lia).
  rewrite Hstep by lia. destruct (Z.ltb_spec s1 65536); [exists s1; split; [done|split; [lia|exact He1]]|].
  set (s2 := s1 mod 65536 + s1 / 65536).
  assert (oc_equiv s2 s1) as He2 by (apply oc_equiv_carry; lia).
  assert (0 <= s2 <= 65535) as H2 by (unfold s2; word_lia).
  rewrite Hstep by lia. destruct (Z.ltb_spec s2 65536); [|lia].
  exists s2. split; [done|split; [lia|by etransitivity]].
Qed.

Lemma ones_sum_equiv r s : 0 <= r <= 65535 -> oc_equiv r s -> r = ones_sum s.
Proof. intros Hr (_ & Hs & Hm & Hz). unfold ones_sum. destruct (Z.eqb_spec s 0); word_lia. Qed.

Lemma fold_checksum_spec s : 0 <= s < 4294967296 -> fold_checksum s = 65535 - ones_sum s.
Proof.
  intros Hs. unfold fold_checksum. destruct (fold_loop_spec s Hs) as (r & -> & Hr & He).
  rewrite <- (ones_sum_equiv r s) by done.
  unfold Z.lnot. word_lia.
Qed.

Lemma net_checksum_sum data : Forall is_u8 data -> net_checksum data = 65535 - ones_sum (words_sum data).
Proof.
  intros Hd. unfold net_checksum. destruct (add_words_equiv data 0 Hd ltac:(lia)) as [Hb He].
  rewrite fold_checksum_spec by lia. f_equal. symmetry. rewrite Z.add_0_l in He.
  destruct He as (H1 & H2 & H3 & H4). unfold ones_sum.
  destruct (Z.eqb_spec (words_sum data) 0), (Z.eqb_spec (add_words 0 data) 0); try tauto; try lia. word_lia.
Qed.

(** C35: [net_checksum] is the Internet checksum: the complement of the end-around-carry
    sum of the big-endian 16-bit words, with an odd last byte padded by zero; and a
    receiver that sums a block of even length together with the checksum stored
    behind it gets 0. *)
Theorem net_checksum_is_internet_checksum data :
  Forall is_u8 data ->
  net_checksum data = 65535 - ones_sum (words_sum data) /\
  (Nat.Even (length data) ->
   let c := net_checksum data in net_checksum (data ++ [c / 256; c mod 256]) = 0).
Proof.
  intros Hd. split; [by apply net_checksum_sum|]. intros Hev c.
  assert (c = 65535 - ones_sum (words_sum data)) as Hc by (by apply net_checksum_sum).
  pose proof (words_sum_nonneg data Hd) as Hnn.
  assert (0 <= c <= 65535) as Hcr by (rewrite Hc; unfold ones_sum; case_match; word_lia).
  rewrite net_checksum_sum.
  2: { apply Forall_app_2; [done|]. repeat constructor; word_lia. }
  rewrite words_sum_app by done. cbn [words_sum].
  replace (c / 256 * 256 + c mod 256 + 0) with c by word_lia.
  unfold ones_sum at 1. rewrite Hc. unfold ones_sum. repeat case_match; word_lia.
Qed.

Lemma net_checksum_is_internet_checksum_witness :
  net_checksum [69; 0; 0; 60] = 47811 /\ net_checksum ([69; 0; 0; 60] ++ [47811 / 256; 47811 mod 256]) = 0.
Proof.
  destruct (net_checksum_is_internet_checksum [69; 0; 0; 60]) as [Hc Hv].
  - repeat constructor; discriminate.
  - split; [exact Hc|]. apply Hv. exists 2%nat. reflexivity.
Defined.

(** ** The queue the ring stands for *)
Record net_ok (n : net) : Prop := {
  nq_queue : length (queue n) = 4%nat;
  nq_slot : forall i, 0 <= i < 4 -> length (queue n).[i] = 1536%nat;
  nq_len : length (queue_len n) = 4%nat;
  nq_head : 0 <= queue_head n < 4;
  nq_count : 0 <= queue_count n <= 4;
  nq_tail : queue_tail n = (queue_head n + queue_count n) mod 4;
  nq_lens : forall i, 0 <= i < 4 -> 0 <= (queue_len n).[i] <= 1536;
}.

Definition slot_packet (n : net) (i : Z) : list Z := take (Z.to_nat (queue_len n).[i]) (queue n).[i].
Definition slots (n : net) : list (list Z) := slot_packet n <$> seqZ 0 4.
Definition packets (n : net) : list (list Z) := ring_view 4 (slots n) (queue_head n) (queue_count n).

Lemma slots_get n i : 0 <= i < 4 -> (slots n).[i] = slot_packet n i.
Proof. intros Hi. unfold slots. rewrite aget_fmap_seqZ by lia. done. Qed.

Lemma store_packet_length dst p len : length (store_packet dst p len) = length dst.
Proof.
  unfold store_packet. apply (for_range_pres (fun d => length d = length dst)); [done|].
  intros i d _ Hd. by rewrite aset_length.
Qed.

Lemma store_packet_take dst p :
  (length p <= length dst)%nat ->
  take (length p) (store_packet dst p (Z.of_nat (length p))) = p.
Proof.
  intros Hl. apply list_eq. intros k.
  assert (forall k, (k < length p)%nat -> store_packet dst p (Z.of_nat (length p)) !! k = p !! k) as Hk.
  { clear k. intros k Hk.
    apply (for_range_ind (fun n d => length d = length dst /\
      forall k, Z.of_nat k < n -> (k < length p)%nat -> d !! k = p !! k)); [lia|..].
    - split; [done|]. lia.
    - intros i d Hi [Hd IH]. split; [by rewrite aset_length|]. intros m Hm Hmp.
      destruct (decide (Z.of_nat m = i)) as [<-|Hne].
      + unfold aset, aget. rewrite Nat2Z.id, list_lookup_insert_eq by lia.
        symmetry. by apply list_lookup_lookup_total_lt.
      + unfold aset. rewrite list_lookup_insert_ne by lia. apply IH; lia.
    - lia.
    - lia. }
  destruct (decide (k < length p)%nat).
  - rewrite lookup_take_lt by done. by apply Hk.
  - rewrite lookup_take_ge, lookup_ge_None_2 by lia. done.
Qed.

Lemma list_eq_aget {A} `{Inhabited A} (l l' : list A) n :
  length l = n -> length l' = n -> (forall i, 0 <= i < Z.of_nat n -> l.[i] = l'.[i]) -> l = l'.
Proof.
  intros Hl Hl' He. apply (list_eq_same_length _ _ n); [done..|]. intros i x y Hi Hx Hy.
  specialize (He (Z.of_nat i) ltac:(lia)). unfold aget in He. rewrite Nat2Z.id in He.
  by rewrite (list_lookup_total_correct l i x), (list_lookup_total_correct l' i y) in He.
Qed.

Lemma slots_send n p t len :
  net_ok n -> 0 <= t < 4 -> len = Z.of_nat (length p) -> len <= 1536 ->
  forall q l h c a r,
    q = (queue n).[t <- store_packet (queue n).[t] p len] -> l = (queue_len n).[t <- len] ->
    slots (mkNet q l h (queue_tail n) c a r) = (slots n).[t <- p].
Proof.
  intros Hn Ht -> Hle q l h c a r -> ->.
  apply (list_eq_aget _ _ 4); [done|by rewrite aset_length|]. intros i Hi.
  rewrite (aget_aset (slots n)) by (unfold slots; rewrite ?length_fmap, ?length_seqZ; lia).
  rewrite !slots_get by lia. unfold slot_packet. cbn [queue queue_len].
  rewrite (aget_aset (queue_len n)) by (rewrite ?(nq_len _ Hn); lia).
  rewrite (aget_aset (queue n)) by (rewrite ?(nq_queue _ Hn); lia).
  destruct (Z.eqb_spec t i) as [<-|]; [|done]. rewrite Nat2Z.id.
  apply store_packet_take. rewrite (nq_slot _ Hn) by done. lia.
Qed.

Lemma send_ok n p rc n' :
  net_ok n -> net_loopback_send (Some p) (Z.of_nat (length p)) n = (rc, n') -> net_ok n'.
Proof.
  intros Hn. unfold net_loopback_send. destruct (_ || _ || _ || _) eqn:Hg; intros [= <- <-]; [done|].
  destruct Hn as [H1 H2 H3 H4 H5 H6 H7].
  assert (0 <= queue_tail n < 4) as Ht by (rewrite H6; word_lia).
  split; cbn [queue queue_len queue_head queue_tail queue_count]; rewrite ?aset_length; try done; try const_lia.
  - intros i Hi. rewrite (aget_aset (queue n)) by (rewrite ?H1; lia).
    destruct (_ =? i); [rewrite store_packet_length|]; by apply H2.
  - rewrite u32_small by word_lia. rewrite H6. autounfold with kconst. word_lia.
  - intros i Hi. rewrite (aget_aset (queue_len n)) by (rewrite ?H3; lia).
    destruct (_ =? i); [const_lia|by apply H7].
Qed.

Lemma received_ok n : net_ok n -> net_ok (net_loopback_received n).2.
Proof.
  intros Hn. unfold net_loopback_received. destruct (Z.eqb_spec (queue_count n) 0); [done|].
  destruct Hn as [H1 H2 H3 H4 H5 H6 H7].
  split; cbn [snd queue queue_len queue_head queue_tail queue_count]; try done; try lia.
  - rewrite u32_small by word_lia. autounfold with kconst. word_lia.
  - rewrite u32_small by word_lia. rewrite H6. autounfold with kconst. word_lia.
Qed.

(** C36: the loopback queue is a first-in first-out queue of at most four packets of 1
    to 1536 bytes: a packet is accepted exactly when the stack is initialised, its
    size is in range and fewer than four wait, is then stored intact behind the
    others, and is refused without any change otherwise; receiving removes the oldest
    packet and reports its length, or reports 0 when none waits. *)
Theorem loopback_is_fifo n p :
  net_ok n ->
  (let '(rc, n') := net_loopback_send (Some p) (Z.of_nat (length p)) n in
   net_ok n' /\
   if ready n && (0 <? Z.of_nat (length p)) && (Z.of_nat (length p) <=? 1536)
      && (Z.of_nat (length (packets n)) <? 4)
   then rc = 0 /\ packets n' = packets n ++ [p]
   else rc = -1 /\ n' = n) /\
  (let '(len, n') := net_loopback_received n in
   net_ok n' /\
   match packets n with
   | [] => len = 0 /\ n' = n
   | q :: qs => len = Z.of_nat (length q) /\ packets n' = qs
   end).
Proof.
  intros Hn. pose proof Hn as [H1 H2 H3 H4 H5 H6 H7].
  assert (Z.of_nat (length (packets n)) = queue_count n) as Hlen by (apply ring_view_length; lia).
  assert (0 <= queue_tail n < 4) as Ht by (rewrite H6; word_lia). split.
  - destruct (net_loopback_send _ _ n) as [rc n'] eqn:Hs. split; [by eapply send_ok|].
    revert Hs. unfold net_loopback_send. rewrite Hlen. destruct (_ || _ || _ || _) eqn:Hg.
    + intros [= <- <-]. destruct (_ && _) eqn:Hc; [|done]. exfalso.
      autounfold with kconst in Hg. destruct (ready n); cbn in Hg, Hc; lia.
    + intros [= <- <-]. assert (ready n = true) as Hr by (destruct (ready n); [done|discriminate]).
      rewrite Hr. autounfold with kconst in Hg. assert (Z.of_nat (length p) <= 1536) by lia.
      destruct (_ && _) eqn:Hc; [|exfalso; cbn in Hc; lia]. split; [done|].
      unfold packets. cbn [queue_head queue_count].
      rewrite <- (ring_view_push 4 (slots n) (queue_head n) (queue_count n) p) by (done || lia).
      rewrite <- H6, <- (slots_send n p (queue_tail n) (Z.of_nat (length p)) Hn Ht eq_refl H
        _ _ (queue_head n) (queue_count n + 1) (arp n) (ready n) eq_refl eq_refl).
      done.
  - destruct (net_loopback_received n) as [len n'] eqn:Hs.
    assert (net_ok n') as Hn' by (change n' with (len, n').2; rewrite <- Hs; by apply received_ok).
    split; [exact Hn'|]. revert Hs. unfold net_loopback_received.
    destruct (Z.eqb_spec (queue_count n) 0) as [E|E]; intros [= <- <-].
    + destruct (packets n); [done|]. cbn in Hlen. lia.
    + unfold packets at 1. rewrite ring_view_pop by lia. rewrite slots_get by lia. split.
      * unfold slot_packet. rewrite length_take, H2 by lia. specialize (H7 (queue_head n) H4). lia.
      * unfold packets. cbn [queue_head queue_count]. rewrite u32_small by word_lia.
        autounfold with kconst. done.
Qed.

Lemma net_init_ok n :
  length (queue n) = 4%nat -> (forall i, 0 <= i < 4 -> length (queue n).[i] = 1536%nat) ->
  length (queue_len n) = 4%nat -> (forall i, 0 <= i < 4 -> 0 <= (queue_len n).[i] <= 1536) ->
  net_ok (net_init n) /\ packets (net_init n) = [].
Proof. intros H1 H2 H3 H4. split; [|done]. split; cbn; try done; lia. Qed.

Lemma loopback_is_fifo_witness :
  (net_loopback_send (Some [1; 2; 3]) 3 (net_init net_boot)).1 = 0 /\
  packets (net_loopback_send (Some [1; 2; 3]) 3 (net_init net_boot)).2 = [[1; 2; 3]].
Proof.
  destruct (loopback_is_fifo (net_init net_boot) [1; 2; 3]) as [Hs _].
  - apply net_init_ok; [done| |done|].
    + intros i Hi. cbn [queue net_boot]. rewrite (aget_replicate 4) by lia. done.
    + intros i Hi. cbn [queue_len net_boot]. rewrite (aget_replicate 4) by lia. lia.
  - change (Z.of_nat (length [1; 2; 3])) with 3 in Hs.
    destruct (net_loopback_send (Some [1; 2; 3]) 3 (net_init net_boot)) as [rc n'].
    destruct Hs as [_ Hs]. exact Hs.
Defined.

(** ** Header validation *)
Lemma swap16_le b0 b1 : is_u8 b0 -> is_u8 b1 -> swap16 (le16 b0 b1) = b0 * 256 + b1.
Proof.
  intros H0 H1. unfold le16. rewrite Z.lor_comm.
  replace (Z.lor (Z.shiftl b1 8) b0) with (b1 * 256 + b0).
  2: { rewrite <- (word_be_sum b1 b0) by done. unfold word_be, u16. rewrite Z.mod_small; [done|].
       apply (lor_bound 16); [lia| |unfold is_u8 in *; lia].
       rewrite Z.shiftl_mul_pow2 by lia. unfold is_u8 in *. lia. }
  unfold swap16. rewrite shiftr_div by lia. change (2 ^ 8) with 256.
  replace ((b1 * 256 + b0) / 256) with b1 by word_lia.
  rewrite Z.shiftl_mul_pow2 by lia. change (2 ^ 8) with 256.
  replace ((b1 * 256 + b0) * 256) with (Z.shiftl (b1 * 256 + b0) 8) by (by rewrite Z.shiftl_mul_pow2).
  rewrite <- (word_be_sum b0 b1) by done. unfold word_be, u16.
  rewrite !Z.shiftl_mul_pow2 by lia. change (2 ^ 8) with 256.
  apply Z.bits_inj'. intros n Hn. change 65536 with (2 ^ 16). change 256 with (2 ^ 8).
  destruct (Z.ltb_spec n 16).
  - rewrite !Z.mod_pow2_bits_low, !Z.lor_spec by lia. f_equal.
    destruct (Z.ltb_spec n 8); [by rewrite !Z.mul_pow2_bits_low by lia|].
    rewrite !Z.mul_pow2_bits_add || rewrite !Z.mul_pow2_bits by lia.
    replace (b1 * 2 ^ 8 + b0) with (b0 + b1 * 2 ^ 8) by lia.
    rewrite <- (Z.mod_pow2_bits_low (b0 + b1 * 2 ^ 8) 8) by lia. rewrite Z_mod_plus_full.
    by rewrite (Z.mod_small b0) by (unfold is_u8 in *; lia).
  - by rewrite !Z.mod_pow2_bits_high by lia.
Qed.

(** The IPv6 validator accepts a packet exactly when it has room for the 40-byte
    header, carries version 6, and the big-endian payload length announced in bytes 4
    and 5 does not exceed the bytes that follow the header. *)
Theorem ipv6_validate_iff p len :
  Forall is_u8 p -> 0 <= len < 4294967296 ->
  net_ipv6_validate (Some p) len = 0 <->
  40 <= len /\ p.[0] / 16 = 6 /\ p.[4] * 256 + p.[5] <= len - 40.
Proof.
  intros Hp Hlen. unfold net_ipv6_validate, field16. autounfold with kconst.
  assert (forall i, is_u8 p.[i]) as Hb by (intros i; apply Forall_aget_default; [done|done]).
  rewrite swap16_le by apply Hb. rewrite shiftr_div by lia. change (2 ^ 4) with 16.
  destruct (Z.ltb_spec len 40); [split; [lia|intros; lia]|].
  destruct (Z.eqb_spec (p.[0] / 16) 6); cbn [negb]; [|split; [lia|intros; lia]].
  rewrite u32_small by word_lia. change (4 + 1) with 5.
  destruct (Z.ltb_spec (len - 40) (p.[4] * 256 + p.[5])); split; intros; lia.
Qed.

Lemma ipv6_validate_iff_witness :
  net_ipv6_validate (Some ((replicate 48 0).[0 <- 96].[5 <- 8])) 48 = 0.
Proof.
  apply (ipv6_validate_iff ((replicate 48 0).[0 <- 96].[5 <- 8]) 48).
  - apply Forall_aset; [apply Forall_aset; [apply Forall_replicate|]|]; unfold is_u8; lia.
  - lia.
  - vm_compute. split; [discriminate|split; [reflexivity|discriminate]].
Defined.
