(* ===== verification/Console.v ===== *)
(** Output: the text screen of [drivers/vga/vga.c] and the formatter of
    [kernel/kprintf.c].

    Video memory is a map from cell number to the 16-bit cell, so that a store
    outside the 80 by 25 screen is visible as a change of a cell that is not on it.
    The cursor registers written through ports [0x3d4/0x3d5] are the field [cursor].
    [kprintf] sends every character to the screen and to the serial port; its output
    is the list of characters sent. *)
From S2P Require Import Prelude.

(** ** The screen *)
Record vga := mkVga { video : gmap Z Z; row : Z; col : Z; color : Z; cursor : Z }.

Definition vga_set_color (fg bg : Z) (v : vga) : vga :=
  mkVga (video v) (row v) (col v) (u8 (Z.lor (Z.shiftl bg 4) (Z.land fg 15))) (cursor v).

Definition vga_set_cursor (r c : Z) (v : vga) : vga :=
  mkVga (video v) (row v) (col v) (color v) (u16 (r * 80 + c)).

(** [((uint16_t)color << 8) | c] *)
Definition cell (v : vga) (c : Z) : Z := Z.lor (Z.shiftl (color v) 8) c.

Definition put_cell (i x : Z) (v : vga) : vga :=
  mkVga (<[i := x]> (video v)) (row v) (col v) (color v) (cursor v).
Definition at_pos (r c : Z) (v : vga) : vga := mkVga (video v) r c (color v) (cursor v).

Definition vga_scroll (v : vga) : vga :=
  let v := for_range 1 25 (fun r v =>
             for_range 0 80 (fun c v => put_cell ((r - 1) * 80 + c) (video v !!! (r * 80 + c)) v) v) v in
  let v := for_range 0 80 (fun c v => put_cell (24 * 80 + c) (cell v 32) v) v in
  at_pos 24 (col v) v.

Definition vga_clear (v : vga) : vga :=
  let v := for_range 0 2000 (fun i v => put_cell i (cell v 32) v) v in
  vga_set_cursor 0 0 (at_pos 0 0 v).
Definition vga_init (v : vga) : vga := vga_clear v.

(** [c] is the character code, 0 to 255. *)
Definition vga_putc (c : Z) (v : vga) : vga :=
  let v :=
    if c =? 10 then at_pos (u8 (row v + 1)) 0 v
    else if c =? 13 then at_pos (row v) 0 v
    else if c =? 9 then at_pos (row v) (u8 (Z.land (col v + 8) 4294967288)) v
    else
      let v := put_cell (row v * 80 + col v) (cell v c) v in
      let col' := u8 (col v + 1) in
      if 80 <=? col' then at_pos (u8 (row v + 1)) 0 v else at_pos (row v) col' v in
  let v := if 25 <=? row v then vga_scroll v else v in
  vga_set_cursor (row v) (col v) v.

Definition vga_write (s : list Z) (v : vga) : vga := foldl (fun v c => vga_putc c v) v s.

(** ** The formatter *)
(** The digit loop: least significant digit first. *)
Definition digit (d : Z) : Z := if d <? 10 then 48 + d else 97 + d - 10.

Fixpoint digits (fuel : nat) (n base : Z) : list Z :=
  match fuel with
  | O => []
  | S fuel' => digit (n mod base) :: (if n / base =? 0 then [] else digits fuel' (n / base) base)
  end.

(** [b] after the padding loop, and its contents printed backwards. *)
Definition out_buf (n base width : Z) : list Z :=
  let b := digits 32 n base in b ++ replicate (Z.to_nat width - length b) 48.
Definition out_u (n base width : Z) : list Z := rev (out_buf n base width).

(** An argument of the variadic call. *)
Inductive arg := AInt (n : Z) | AStr (s : list Z).

(** Taking the next integer or string argument; [None]: the argument list is
    exhausted or the argument has the other kind. *)
Definition arg_int (args : list arg) : option (Z * list arg) :=
  match args with AInt n :: args => Some (u32 n, args) | _ => None end.
Definition arg_str (args : list arg) : option (list Z * list arg) :=
  match args with AStr s :: args => Some (s, args) | _ => None end.

(** The decimal digits of a field width. *)
Fixpoint parse_width (fmt : list Z) (width : Z) : Z * list Z :=
  match fmt with
  | c :: fmt' => if (48 <=? c) && (c <=? 57) then parse_width fmt' (u32 (width * 10 + (c - 48))) else (width, fmt)
  | [] => (width, [])
  end.

(** One conversion, with [fmt] just behind the percent sign: the characters sent, the rest of
    the format and the rest of the arguments.  [None]: the scan ran past the end of
    the format or took an argument that is not there. *)
Definition convert (fmt : list Z) (args : list arg) : option (list Z * list Z * list arg) :=
  let '(width, fmt) := match fmt with
                       | 48 :: fmt' => parse_width fmt' 0
                       | _ => (0, fmt)
                       end in
  match fmt with
  | 37 :: r => Some ([37], r, args)
  | 115 :: r => '(s, args) ← arg_str args; Some (s, r, args)
  | 99 :: r => '(n, args) ← arg_int args; Some ([u8 n], r, args)
  | 100 :: r | 105 :: r =>
      '(n, args) ← arg_int args;
      Some (if i32 n <? 0 then 45 :: out_u (u32 (- i32 n)) 10 width else out_u n 10 width, r, args)
  | 117 :: r => '(n, args) ← arg_int args; Some (out_u n 10 width, r, args)
  | 120 :: r => '(n, args) ← arg_int args; Some (out_u n 16 width, r, args)
  | 112 :: r => '(n, args) ← arg_int args; Some ([48; 120] ++ out_u n 16 8, r, args)
  | 108 :: r =>
      match r with
      | 117 :: r | 100 :: r => '(n, args) ← arg_int args; Some (out_u n 10 width, r, args)
      | _ :: r => Some ([], r, args)
      | [] => None
      end
  | _ :: r => Some ([], r, args)
  | [] => None
  end.

Fixpoint kprintf_loop (fuel : nat) (fmt : list Z) (args : list arg) : option (list Z) :=
  match fuel with
  | O => None
  | S fuel' =>
      match fmt with
      | [] => Some []
      | 37 :: fmt' =>
          '(out, fmt', args) ← convert fmt' args;
          rest ← kprintf_loop fuel' fmt' args; Some (out ++ rest)
      | c :: fmt' => rest ← kprintf_loop fuel' fmt' args; Some (c :: rest)
      end
  end.
Definition kprintf (fmt : list Z) (args : list arg) : option (list Z) :=
  kprintf_loop (S (length fmt)) fmt args.

(** ** What the kernel sends out *)
Inductive event :=
  | OnScreen (s : list Z)   (* [vga_write], [vga_putc] *)
  | OnLine (s : list Z)     (* [serial_write] *)
  | OnBoth (s : list Z)     (* [kprintf] *)
  | ClearScreen             (* [vga_clear] *)
  | ResetPort.              (* 0xfe to port 0x64 *)

(** The characters of a text. *)
Definition text (s : string) : list Z := (fun c => Z.of_N (Ascii.N_of_ascii c)) <$> String.list_ascii_of_string s.

(** ** Numbers *)
Definition undigit (c : Z) : Z := if c <? 58 then c - 48 else c - 87.
(** The number a digit string denotes, most significant digit first. *)
Definition value (base : Z) (l : list Z) : Z := foldl (fun a c => a * base + undigit c) 0 l.

Fixpoint value_lsf (base : Z) (l : list Z) : Z :=
  match l with [] => 0 | c :: l => undigit c + base * value_lsf base l end.

Lemma value_rev base l : value base (rev l) = value_lsf base l.
Proof.
  unfold value. induction l as [|c l IH]; [done|]. cbn [rev value_lsf].
  rewrite foldl_app, IH. cbn. lia.
Qed.

Lemma undigit_digit d : 0 <= d < 16 -> undigit (digit d) = d.
Proof. intros Hd. unfold undigit, digit. repeat case_match; lia. Qed.

Lemma digits_value fuel n base :
  2 <= base <= 16 -> 0 <= n < base ^ Z.of_nat fuel -> value_lsf base (digits fuel n base) = n.
Proof.
  intros Hb. revert n. induction fuel as [|fuel IH]; intros n Hn.
  { cbn in *. lia. }
  cbn [digits value_lsf]. pose proof (Z.mod_pos_bound n base ltac:(lia)) as Hm.
  pose proof (Z.div_mod n base ltac:(lia)) as Hdm. rewrite undigit_digit by lia.
  destruct (Z.eqb_spec (n / base) 0) as [E|E]; [cbn; lia|]. rewrite IH; [lia|].
  split; [apply Z.div_pos; lia|]. apply Z.div_lt_upper_bound; [lia|].
  rewrite Nat2Z.inj_succ, Z.pow_succ_r in Hn by lia. lia.
Qed.

(** A number below [base ^ k] has at most [k] digits. *)
Lemma digits_length fuel n base k :
  2 <= base -> 0 <= n < base ^ Z.of_nat k -> (1 <= k)%nat -> (length (digits fuel n base) <= k)%nat.
Proof.
  intros Hb. revert n k. induction fuel as [|fuel IH]; intros n k Hn Hk; [cbn; lia|].
  cbn [digits length]. destruct (Z.eqb_spec (n / base) 0) as [E|E]; [cbn; lia|].
  destruct k as [|[|k]]; [lia| |].
  { change (base ^ Z.of_nat 1) with (base ^ 1) in Hn. rewrite Z.pow_1_r in Hn.
    rewrite Z.div_small in E by lia. lia. }
  assert (length (digits fuel (n / base) base) <= S k)%nat; [|lia]. apply IH; [|lia].
  split; [apply Z.div_pos; lia|]. apply Z.div_lt_upper_bound; [lia|].
  rewrite (Nat2Z.inj_succ (S k)), Z.pow_succ_r in Hn by lia. lia.
Qed.

Lemma value_lsf_zeros base l k : value_lsf base (l ++ replicate k 48) = value_lsf base l.
Proof.
  induction l as [|c l IH]; cbn [app value_lsf]; [|by rewrite IH].
  induction k as [|k IH]; cbn [replicate value_lsf]; [done|]. rewrite IH. change (undigit 48) with 0. lia.
Qed.

(** The digits [kprintf] prints for a 32-bit number in base 10 or 16 denote that
    number, are at least as many as the field width asks for, and fit the 16-byte
    buffer of [out_u] exactly when the width is at most 16. *)
Theorem out_u_roundtrip n base width :
  is_u32 n -> base = 10 \/ base = 16 -> 0 <= width ->
  value base (out_u n base width) = n /\
  width <= Z.of_nat (length (out_u n base width)) /\
  (Z.of_nat (length (out_buf n base width)) <= 16 <-> width <= 16).
Proof.
  intros Hn Hb Hw. assert (2 <= base <= 16) as Hbr by lia.
  assert (n < base ^ Z.of_nat 32) as Hbig.
  { apply Z.lt_le_trans with (10 ^ Z.of_nat 32); [unfold is_u32 in Hn; lia|].
    apply Z.pow_le_mono_l. lia. }
  assert (length (digits 32 n base) <= 10)%nat as Hlen.
  { apply digits_length; [lia| |lia]. split; [unfold is_u32 in Hn; lia|].
    apply Z.lt_le_trans with (10 ^ Z.of_nat 10); [unfold is_u32 in Hn; lia|].
    apply Z.pow_le_mono_l. lia. }
  unfold out_u. rewrite value_rev, length_rev. unfold out_buf. cbn zeta.
  rewrite value_lsf_zeros, length_app, length_replicate. split_and!.
  - apply digits_value; [lia|]. unfold is_u32 in Hn. lia.
  - lia.
  - lia.
Qed.

Lemma out_u_roundtrip_witness :
  value 16 (out_u 48879 16 8) = 48879 /\ out_u 48879 16 8 = [48; 48; 48; 48; 98; 101; 101; 102].
Proof.
  split; [|reflexivity]. destruct (out_u_roundtrip 48879 16 8) as [Hv _]; [|right; reflexivity|lia|exact Hv].
  split; [discriminate|reflexivity].
Defined.

(** A format that ends in a percent sign is read past its terminator. *)
Lemma kprintf_trailing_percent : kprintf [37] [] = None.
Proof. reflexivity. Qed.

(** ** The screen stays on the screen *)
Definition screen_ok (v : vga) : Prop := 0 <= row v < 25 /\ 0 <= col v <= 248.
Definition off_screen_same (limit : Z) (v v' : vga) : Prop :=
  forall i, i < 0 \/ limit <= i -> video v' !! i = video v !! i.

Lemma put_cell_same limit i x v : 0 <= i < limit -> off_screen_same limit v (put_cell i x v).
Proof. intros Hi j Hj. cbn. apply lookup_insert_ne. lia. Qed.

(** Copying the cells below: an in-place move by one row. *)
Definition shifted (v0 v : vga) (k : Z) : Prop :=
  (forall i, video v !!! i = if (0 <=? i) && (i <? k) then video v0 !!! (i + 80) else video v0 !!! i) /\
  off_screen_same 2000 v0 v /\ col v = col v0 /\ color v = color v0.

Lemma shifted_step v0 v k : 0 <= k < 1920 ->
  shifted v0 v k -> shifted v0 (put_cell k (video v !!! (k + 80)) v) (k + 1).
Proof.
  intros Hk (Hv & Ho & Hc & Hcl). split_and!; [|..|done|done].
  - intros i. cbn [video put_cell]. destruct (decide (i = k)) as [->|Hne].
    + rewrite lookup_total_insert_eq, Hv.
      assert ((0 <=? k + 80) && (k + 80 <? k) = false) as -> by lia.
      assert ((0 <=? k) && (k <? k + 1) = true) as -> by lia. done.
    + rewrite lookup_total_insert_ne, Hv by done.
      assert ((0 <=? i) && (i <? k + 1) = (0 <=? i) && (i <? k)) as -> by lia. done.
  - intros i Hi. rewrite (put_cell_same 2000); [by apply Ho| |exact Hi]. lia.
Qed.

Lemma shifted_refl v : shifted v v 0.
Proof.
  split_and!; try done. intros i.
  destruct ((0 <=? i) && (i <? 0)) eqn:E; [lia|done].
Qed.

Lemma scroll_rows v :
  shifted v (for_range 1 25 (fun r v =>
    for_range 0 80 (fun c v => put_cell ((r - 1) * 80 + c) (video v !!! (r * 80 + c)) v) v) v) 1920.
Proof.
  apply (for_range_ind (fun r v' => shifted v v' ((r - 1) * 80))); [lia|exact (shifted_refl v)|].
  intros r v1 Hr H1. replace ((r + 1 - 1) * 80) with ((r - 1) * 80 + 80) by lia.
  apply (for_range_ind (fun c v' => shifted v v' ((r - 1) * 80 + c))); [lia|by rewrite Z.add_0_r|].
  intros c v2 Hc H2. replace (r * 80 + c) with ((r - 1) * 80 + c + 80) by lia.
  rewrite (Z.add_assoc _ c 1). apply shifted_step; [lia|done].
Qed.

(** Filling the last row. *)
Lemma scroll_blank v :
  let v' := for_range 0 80 (fun c v => put_cell (24 * 80 + c) (cell v 32) v) v in
  (forall i, video v' !!! i = if (1920 <=? i) && (i <? 2000) then cell v 32 else video v !!! i) /\
  off_screen_same 2000 v v' /\ col v' = col v.
Proof.
  cbn zeta.
  assert (forall n, 0 <= n <= 80 ->
    let v' := for_range 0 n (fun c v => put_cell (24 * 80 + c) (cell v 32) v) v in
    (forall i, video v' !!! i = if (1920 <=? i) && (i <? 1920 + n) then cell v 32 else video v !!! i) /\
    off_screen_same 2000 v v' /\ col v' = col v /\ color v' = color v) as Hall.
  { intros n Hn. cbn zeta.
    apply (for_range_ind (fun c v' =>
      (forall i, video v' !!! i = if (1920 <=? i) && (i <? 1920 + c) then cell v 32 else video v !!! i) /\
      off_screen_same 2000 v v' /\ col v' = col v /\ color v' = color v)); [lia|..].
    - split_and!; try done. intros i. destruct ((1920 <=? i) && (i <? 1920 + 0)) eqn:E; [lia|done].
    - intros c v1 Hc (H1 & H2 & H3 & H4). assert (cell v1 32 = cell v 32) as Ec by (unfold cell; by rewrite H4).
      rewrite Ec. change (24 * 80 + c) with (1920 + c). split_and!; [|..|done|done].
      + intros i. cbn [video put_cell]. destruct (decide (i = 1920 + c)) as [->|Hne].
        * rewrite lookup_total_insert_eq.
          assert ((1920 <=? 1920 + c) && (1920 + c <? 1920 + (c + 1)) = true) as -> by lia. done.
        * rewrite lookup_total_insert_ne, H1 by done.
          assert ((1920 <=? i) && (i <? 1920 + (c + 1)) = (1920 <=? i) && (i <? 1920 + c)) as -> by lia. done.
      + intros i Hi. rewrite (put_cell_same 2000); [by apply H2| |exact Hi]. lia. }
  destruct (Hall 80 ltac:(lia)) as (H1 & H2 & H3 & _). done.
Qed.

Lemma scroll_spec v :
  (forall i, 0 <= i < 1920 -> video (vga_scroll v) !!! i = video v !!! (i + 80)) /\
  (forall i, 1920 <= i < 2000 -> video (vga_scroll v) !!! i = cell v 32) /\
  off_screen_same 2000 v (vga_scroll v) /\ row (vga_scroll v) = 24 /\ col (vga_scroll v) = col v.
Proof.
  unfold vga_scroll. pose proof (scroll_rows v) as (Hs & Ho & Hc & Hcl).
  set (v1 := for_range 1 25 _ v) in *. pose proof (scroll_blank v1) as (Hb & Ho' & Hc').
  set (v2 := for_range 0 80 _ v1) in *. clearbody v2. clearbody v1. cbn zeta. cbn [video row col at_pos].
  assert (cell v1 32 = cell v 32) as Ec by (unfold cell; by rewrite Hcl).
  split_and!; try done; try congruence.
  - intros i Hi. rewrite Hb, Hs. assert ((1920 <=? i) && (i <? 2000) = false) as -> by lia.
    assert ((0 <=? i) && (i <? 1920) = true) as -> by lia. done.
  - intros i Hi. rewrite Hb. assert ((1920 <=? i) && (i <? 2000) = true) as -> by lia. done.
  - intros i Hi. rewrite Ho', Ho by done. done.
Qed.

Lemma tab_col c : 0 <= c <= 248 -> 0 <= u8 (Z.land (c + 8) 4294967288) <= 248.
Proof.
  intros Hc.
  assert (forallb (fun x => (0 <=? u8 (Z.land (x + 8) 4294967288)) && (u8 (Z.land (x + 8) 4294967288) <=? 248))
    (seqZ 0 249) = true) as Hall by (vm_compute; reflexivity).
  pose proof (forall_seqZ _ _ _ Hall c ltac:(lia)) as Hb. cbv beta in Hb.
  apply andb_true_iff in Hb as [H1 H2]. apply Z.leb_le in H1, H2. done.
Qed.

Lemma off_screen_weaken l l' v v' : l <= l' -> off_screen_same l v v' -> off_screen_same l' v v'.
Proof. intros Hl Ho i Hi. apply Ho. lia. Qed.

(** The part of [vga_putc] before the scroll. *)
Definition place_char (c : Z) (v : vga) : vga :=
  if c =? 10 then at_pos (u8 (row v + 1)) 0 v
  else if c =? 13 then at_pos (row v) 0 v
  else if c =? 9 then at_pos (row v) (u8 (Z.land (col v + 8) 4294967288)) v
  else
    let v := put_cell (row v * 80 + col v) (cell v c) v in
    let col' := u8 (col v + 1) in
    if 80 <=? col' then at_pos (u8 (row v + 1)) 0 v else at_pos (row v) col' v.

Lemma place_char_screen c v :
  screen_ok v ->
  0 <= row (place_char c v) <= 25 /\ 0 <= col (place_char c v) <= 248 /\
  off_screen_same 2169 v (place_char c v) /\
  (c <> 9 -> col v < 80 -> col (place_char c v) < 80 /\ off_screen_same 2000 v (place_char c v)).
Proof.
  intros [Hr Hc]. unfold place_char.
  assert (u8 (row v + 1) = row v + 1) as -> by word_lia.
  destruct (c =? 10); [cbn [row col at_pos]; split_and!; try lia; [done|]; split; [lia|done]|].
  destruct (c =? 13); [cbn [row col at_pos]; split_and!; try lia; [done|]; split; [lia|done]|].
  destruct (Z.eqb_spec c 9).
  { pose proof (tab_col (col v) Hc). cbn [row col at_pos]. split_and!; try lia. done. }
  cbn zeta. cbn [row col put_cell]. 
  assert (u8 (row v + 1) = row v + 1) as -> by word_lia. assert (u8 (col v + 1) = col v + 1) as -> by word_lia.
  assert (forall l, row v * 80 + col v < l -> forall r k,
    off_screen_same l v (at_pos r k (put_cell (row v * 80 + col v) (cell v c) v))) as Hput.
  { intros l Hl r k. apply put_cell_same. lia. }
  destruct (Z.leb_spec 80 (col v + 1)); cbn [row col at_pos];
    (split_and!; try lia; [apply Hput; lia|]; intros _ Hlt; split; [lia|apply Hput; lia]).
Qed.

Lemma vga_putc_eq c v :
  vga_putc c v =
    let v := place_char c v in
    let v := if 25 <=? row v then vga_scroll v else v in vga_set_cursor (row v) (col v) v.
Proof. reflexivity. Qed.

Lemma putc_screen c v :
  screen_ok v ->
  screen_ok (vga_putc c v) /\ off_screen_same 2169 v (vga_putc c v) /\
  (c <> 9 -> col v < 80 -> col (vga_putc c v) < 80 /\ off_screen_same 2000 v (vga_putc c v)).
Proof.
  intros Hok. destruct (place_char_screen c v Hok) as (Hr & Hc & Ho & Ht). rewrite vga_putc_eq. cbn zeta.
  generalize dependent (place_char c v). intros v1 Hr Hc Ho Ht.
  change (off_screen_same ?l v (vga_set_cursor ?a ?b ?w)) with (off_screen_same l v w).
  destruct (Z.leb_spec 25 (row v1)).
  - pose proof (scroll_spec v1) as (_ & _ & Hos & Hrow & Hcol). generalize dependent (vga_scroll v1).
    intros v2 Hos Hrow Hcol. cbn [row col vga_set_cursor]. split; [split; cbn; lia|]. split.
    + intros i Hi. rewrite Hos by lia. by apply Ho.
    + intros Hn Hlt. destruct (Ht Hn Hlt) as [Hc80 Ho']. rewrite Hcol. split; [done|].
      intros i Hi. rewrite Hos by lia. by apply Ho'.
  - cbn [row col vga_set_cursor]. split; [split; cbn; lia|]. split; [done|]. exact Ht.
Qed.

(** Whatever bytes are written, the screen cursor stays in rows 0 to 24, and text
    without tabs, starting left of column 80, changes only the 2000 cells of the
    screen; only tabs can push the column past the line end, and then by no more than
    169 cells beyond the screen. *)
Theorem vga_write_on_screen s v :
  screen_ok v ->
  screen_ok (vga_write s v) /\ off_screen_same 2169 v (vga_write s v) /\
  (9 ∉ s -> col v < 80 -> col (vga_write s v) < 80 /\ off_screen_same 2000 v (vga_write s v)).
Proof.
  unfold vga_write. revert v. induction s as [|c s IH]; intros v Hok; [done|].
  cbn [foldl]. destruct (putc_screen c v Hok) as (Hok1 & Ho1 & Ht1).
  destruct (IH _ Hok1) as (Hok2 & Ho2 & Ht2). split; [done|]. split.
  - intros i Hi. rewrite Ho2 by done. by apply Ho1.
  - intros Hn Hlt. apply not_elem_of_cons in Hn as [Hc Hn].
    destruct (Ht1 ltac:(congruence) Hlt) as [Hc1 Hs1]. destruct (Ht2 Hn Hc1) as [Hc2 Hs2].
    split; [done|]. intros i Hi. rewrite Hs2 by done. by apply Hs1.
Qed.

Definition blank_screen : vga := mkVga ∅ 24 0 7 0.

Lemma vga_write_on_screen_witness :
  col (vga_write [72; 105; 10] blank_screen) < 80 /\
  off_screen_same 2000 blank_screen (vga_write [72; 105; 10] blank_screen).
Proof.
  destruct (vga_write_on_screen [72; 105; 10] blank_screen) as (_ & _ & Ht).
  - split; cbn; lia.
  - apply Ht; [|cbn; lia]. rewrite !not_elem_of_cons. split_and!; try discriminate. apply not_elem_of_nil.
Defined.

(** Ten tabs and a letter on the last row store outside the screen. *)
Lemma vga_tabs_leave_screen :
  video (vga_write (replicate 10 9 ++ [65]) blank_screen) !! 2000 = Some 1857.
Proof. vm_compute. reflexivity. Qed.
