(* ===== verification/Sync.v ===== *)
(** Synchronisation: the interrupt-safe spin lock of [kernel/spinlock.c] on several
    processors, and the per-processor record of [kernel/percpu.c].

    One processor executes the four functions instruction by instruction; the steps of
    different processors interleave freely.  The atomic instructions are [pushf/cli],
    the locked exchange, the store of zero and [popf].  [eflags] is the flags word,
    with the interrupt flag at bit 9. *)
From S2P Require Import Prelude.

Definition IF_BIT : Z := 512.
Definition if_set (eflags : Z) : bool := Z.testbit eflags 9.

(** [pushf; pop flags; cli]: the old flags and the new ones. *)
Definition irq_save_disable (eflags : Z) : Z * Z := (eflags, Z.ldiff eflags IF_BIT).
(** [push flags; popf] *)
Definition irq_restore (flags eflags : Z) : Z := flags.

(** [lock xchg]: one turn of the loop of [spin_lock_irqsave]; true when it returns. *)
Definition spin_try (value : Z) : bool * Z := (value =? 0, 1).
(** [movl $0, lock->value] *)
Definition spin_release (value : Z) : Z := 0.

(** Where a processor is: outside, in the loop of [spin_lock_irqsave] with its saved
    flags, holding the lock, or between the store and [popf] of
    [spin_unlock_irqrestore]. *)
Inductive place := Outside | Waiting (flags : Z) | Holding (flags : Z) | Leaving (flags : Z).

Record cpu := mkCpu { pc : place; eflags : Z }.
Record machine := mkMachine { lock : Z; cpus : list cpu }.

Inductive lock_step : machine -> machine -> Prop :=
  | step_enter m i c : cpus m !! i = Some c -> pc c = Outside ->
      lock_step m (mkMachine (lock m)
        (<[i := let '(flags, e) := irq_save_disable (eflags c) in mkCpu (Waiting flags) e]> (cpus m)))
  | step_xchg m i c flags : cpus m !! i = Some c -> pc c = Waiting flags ->
      lock_step m (let '(got, v) := spin_try (lock m) in
        mkMachine v (<[i := mkCpu (if got then Holding flags else Waiting flags) (eflags c)]> (cpus m)))
  | step_store m i c flags : cpus m !! i = Some c -> pc c = Holding flags ->
      lock_step m (mkMachine (spin_release (lock m)) (<[i := mkCpu (Leaving flags) (eflags c)]> (cpus m)))
  | step_popf m i c flags : cpus m !! i = Some c -> pc c = Leaving flags ->
      lock_step m (mkMachine (lock m) (<[i := mkCpu Outside (irq_restore flags (eflags c))]> (cpus m))).

Definition holds (c : cpu) : bool := match pc c with Holding _ => true | _ => false end.
Definition saved (c : cpu) : option Z :=
  match pc c with Outside => None | Waiting f | Holding f | Leaving f => Some f end.

(** [value] is 1 exactly while somebody holds the lock, and then one processor does;
    inside, interrupts are off and the saved flags are those of the entry. *)
Record lock_inv (e0 : list Z) (m : machine) : Prop := {
  li_count : count holds (cpus m) = lock m;
  li_value : lock m = 0 \/ lock m = 1;
  li_flags : Forall2 (fun e c => match saved c with
                                 | None => eflags c = e
                                 | Some f => f = e /\ eflags c = Z.ldiff e IF_BIT
                                 end) e0 (cpus m);
}.

Lemma count_insert {A} (f : A -> bool) (l : list A) i x y :
  l !! i = Some x -> count f (<[i := y]> l) = count f l - (if f x then 1 else 0) + (if f y then 1 else 0).
Proof.
  revert i. induction l as [|z l IH]; intros [|i] Hl; cbn in Hl; [done..| |].
  - injection Hl as ->. change (<[0%nat := y]> (x :: l)) with (y :: l). rewrite !count_cons. lia.
  - change (<[S i := y]> (z :: l)) with (z :: <[i := y]> l). rewrite !count_cons, (IH i) by done. lia.
Qed.

Lemma holder_counted (f : cpu -> bool) l i c : l !! i = Some c -> f c = true -> 0 < count f l.
Proof.
  revert i. induction l as [|z l IH]; intros [|i] Hl Hf; cbn in Hl; [done..| |]; rewrite count_cons;
    pose proof (count_nonneg f l).
  - injection Hl as ->. rewrite Hf. lia.
  - specialize (IH i Hl Hf). case_match; lia.
Qed.

Lemma Forall2_insert_r' {A B} (P : A -> B -> Prop) l k i x y :
  Forall2 P l k -> k !! i = Some x -> (forall a, P a x -> P a y) -> Forall2 P l (<[i := y]> k).
Proof.
  intros HF. revert i. induction HF as [|a b l k Hab HF IH]; intros [|i] Hk Hp; cbn in *; try done.
  - injection Hk as ->. constructor; auto.
  - constructor; eauto.
Qed.

Lemma holds_mk p e : holds (mkCpu p e) = match p with Holding _ => true | _ => false end.
Proof. done. Qed.

Lemma lock_step_inv e0 m m' : lock_inv e0 m -> lock_step m m' -> lock_inv e0 m'.
Proof.
  intros [Hc Hv Hf] Hs. destruct Hs as [m i c Hi Hp|m i c f Hi Hp|m i c f Hi Hp|m i c f Hi Hp];
    assert (holds c = match pc c with Holding _ => true | _ => false end) as Hh by done; rewrite Hp in Hh;
    cbn [irq_save_disable spin_try spin_release irq_restore] in *;
    split; cbn [lock cpus]; try (rewrite (count_insert holds _ _ c _ Hi), Hh, holds_mk).
  - lia.
  - done.
  - eapply Forall2_insert_r'; [exact Hf|exact Hi|]. intros e. unfold saved. rewrite Hp. cbn. intros ->. done.
  - destruct (Z.eqb_spec (lock m) 0); lia.
  - by right.
  - eapply Forall2_insert_r'; [exact Hf|exact Hi|]. intros e. unfold saved. rewrite Hp. cbn.
    by destruct (lock m =? 0).
  - pose proof (holder_counted holds _ _ _ Hi Hh). unfold spin_release. lia.
  - by left.
  - eapply Forall2_insert_r'; [exact Hf|exact Hi|]. intros e. unfold saved. rewrite Hp. cbn. done.
  - lia.
  - done.
  - eapply Forall2_insert_r'; [exact Hf|exact Hi|]. intros e. unfold saved. rewrite Hp. cbn. intros [-> _]. done.
Qed.

Definition lock_start (es : list Z) : machine := mkMachine 0 (mkCpu Outside <$> es).

Lemma lock_start_inv es : lock_inv es (lock_start es).
Proof.
  split; cbn [lock cpus lock_start].
  - apply count_none. intros c Hc. apply list_elem_of_fmap in Hc as (e & -> & _). done.
  - by left.
  - induction es as [|e es IH]; [constructor|]. cbn [fmap list_fmap]. by constructor.
Qed.

Lemma two_holders (l : list cpu) i j c d :
  l !! i = Some c -> l !! j = Some d -> i <> j -> holds c = true -> holds d = true -> 2 <= count holds l.
Proof.
  intros Hi Hj Hne Hc Hd.
  pose proof (count_insert holds l i c (mkCpu Outside 0) Hi) as Hins. rewrite Hc, holds_mk in Hins.
  assert (0 < count holds (<[i := mkCpu Outside 0]> l)); [|lia].
  eapply holder_counted; [|exact Hd]. by rewrite list_lookup_insert_ne.
Qed.

(** C34: under every interleaving of any number of processors, at most one holds the
    spin lock, interrupts are disabled on every processor between entering
    [spin_lock_irqsave] and leaving [spin_unlock_irqrestore], outside them each
    processor has the flags it started with, and a waiting processor gets a lock
    nobody holds with its next exchange. *)
Theorem spinlock_mutual_exclusion es m :
  rtc lock_step (lock_start es) m ->
  (forall i j c d, cpus m !! i = Some c -> cpus m !! j = Some d ->
     holds c = true -> holds d = true -> i = j) /\
  (forall i c, cpus m !! i = Some c -> pc c <> Outside -> if_set (eflags c) = false) /\
  (forall i c, cpus m !! i = Some c -> pc c = Outside -> es !! i = Some (eflags c)) /\
  ((forall i c, cpus m !! i = Some c -> holds c = false) -> (spin_try (lock m)).1 = true).
Proof.
  intros Hr. assert (lock_inv es m) as [Hc Hv Hf].
  { pose proof (lock_start_inv es) as H0. revert H0. induction Hr as [|x y z Hxy _ IH]; [done|].
    intros Hx. apply IH. by eapply lock_step_inv. }
  split_and!.
  - intros i j c d Hi Hj Hhc Hhd. destruct (decide (i = j)) as [|Hne]; [done|].
    pose proof (two_holders _ _ _ _ _ Hi Hj Hne Hhc Hhd). lia.
  - intros i c Hi Hp. destruct (Forall2_lookup_r _ _ _ _ _ Hf Hi) as (e & He & Hs). unfold saved in Hs.
    assert (eflags c = Z.ldiff e IF_BIT) as -> by (destruct (pc c); [done|tauto..]).
    unfold if_set. rewrite Z.ldiff_spec. change (Z.testbit IF_BIT 9) with true. apply andb_false_r.
  - intros i c Hi Hp. destruct (Forall2_lookup_r _ _ _ _ _ Hf Hi) as (e & He & Hs). unfold saved in Hs.
    rewrite Hp in Hs. by rewrite Hs.
  - intros Hn. unfold spin_try. cbn. rewrite <- Hc, count_none; [done|].
    intros c [i Hi]%list_elem_of_lookup. by eapply Hn.
Qed.

Lemma spinlock_mutual_exclusion_witness :
  let m := mkMachine 1 [mkCpu (Holding 514) 2; mkCpu Outside 514] in
  rtc lock_step (lock_start [514; 514]) m /\ if_set 2 = false.
Proof.
  intros m. assert (rtc lock_step (lock_start [514; 514]) m) as Hr.
  { eapply rtc_l; [apply (step_enter _ 0 (mkCpu Outside 514)); reflexivity|].
    eapply rtc_l; [apply (step_xchg _ 0 (mkCpu (Waiting 514) 2) 514); reflexivity|].
    apply rtc_refl. }
  split; [exact Hr|].
  destruct (spinlock_mutual_exclusion [514; 514] m Hr) as (_ & Hif & _).
  apply (Hif 0%nat (mkCpu (Holding 514) 2)); [reflexivity|discriminate].
Defined.

(** ** Per-processor data *)
Record cpu_local := mkLocal { id : Z; apic_id : Z; online : bool; irq_depth : Z; current : option Z }.

Definition percpu_init (i apic : Z) (_ : cpu_local) : cpu_local := mkLocal i apic true 0 None.
Definition percpu_current (b : cpu_local) : cpu_local := b.
Definition percpu_set_current (p : option Z) (b : cpu_local) : cpu_local :=
  mkLocal (id b) (apic_id b) (online b) (irq_depth b) p.
Definition percpu_irq_enter (b : cpu_local) : cpu_local :=
  mkLocal (id b) (apic_id b) (online b) (u32 (irq_depth b + 1)) (current b).
Definition percpu_irq_leave (b : cpu_local) : cpu_local :=
  if irq_depth b =? 0 then b
  else mkLocal (id b) (apic_id b) (online b) (irq_depth b - 1) (current b).
