(* ===== verification/Block.v ===== *)
(** The generic sector layer, [drivers/block.c] and [include/block.h].

    A device is the record the drivers register: its two operations are function
    pointers, here functions on the type [W] of the state behind all devices.  A read
    takes the buffer it is given and returns a code with the buffer's new contents; a
    write gets the bytes at its buffer argument. *)
From S2P Require Import Prelude.

Definition BLOCK_MAX_DEVICES : Z := 4.
#[export] Hint Unfold BLOCK_MAX_DEVICES : kconst.

Record block_device (W : Type) := mkDevice {
  name : string;
  sector_size : Z;
  sector_count : Z;
  read_sector : option (Z -> list Z -> W -> Z * list Z * W);
  write_sector : option (Z -> list Z -> W -> Z * W);
  present : bool;
}.
Arguments mkDevice {W}.
Arguments name {W}. Arguments sector_size {W}. Arguments sector_count {W}.
Arguments read_sector {W}. Arguments write_sector {W}. Arguments present {W}.

Record block (W : Type) := mkBlockLayer { devices : list (option (block_device W)); device_count : Z }.
Arguments mkBlockLayer {W}. Arguments devices {W}. Arguments device_count {W}.

Section block.
Context {W : Type}.
Implicit Types (b : block W) (w : W).
#[global] Instance device_inhabited : Inhabited (option (block_device W)) := populate None.

Definition block_init b : block W := mkBlockLayer (replicate 4 None) 0.

Definition block_register (d : option (block_device W)) b : Z * block W :=
  match d with
  | None => (-1, b)
  | Some dev =>
      if negb (present dev) || negb (sector_size dev =? 512)
         || (match read_sector dev with None => true | _ => false end)
         || (BLOCK_MAX_DEVICES <=? device_count b)
      then (-1, b)
      else (0, mkBlockLayer ((devices b).[device_count b <- d]) (device_count b + 1))
  end.

Definition block_default b : option (block_device W) :=
  if device_count b =? 0 then None else (devices b).[0].

Definition block_read_sector b (lba : Z) (buffer : option (list Z)) w : Z * list Z * W :=
  match block_default b, buffer with
  | Some d, Some buf =>
      match read_sector d with
      | Some read => read lba buf w
      | None => (-1, buf, w)
      end
  | _, buf => (-1, default [] buf, w)
  end.

Definition block_write_sector b (lba : Z) (buffer : option (list Z)) w : Z * W :=
  match block_default b, buffer with
  | Some d, Some buf =>
      match write_sector d with
      | Some write => write lba buf w
      | None => (-1, w)
      end
  | _, _ => (-1, w)
  end.
End block.

(** ** What clients rely on

    [sector_at w l] is the 512 bytes of sector [l] in device state [w], [disk_end] the
    number of sectors, [disk_ready w]: the device takes requests. *)
Class Disk (W : Type) (b : block W) := {
  sector_at : W -> Z -> list Z;
  disk_end : Z;
  disk_ready : W -> Prop;
}.
Arguments disk_end {W} b {_}.

(** Device states that hold the same sectors.  A transfer may change the rest: the
    registers of a drive, the indices of a queue. *)
Definition same_disk {W : Type} {b : block W} `{Disk W b} (w w' : W) : Prop :=
  forall l, sector_at w' l = sector_at w l.

(** A device that works: a read stores the sector at the start of the buffer, a write
    from a buffer of at least 512 bytes changes that sector to the first 512 of them and
    no other. *)
Class DiskLaws (W : Type) (b : block W) `{Disk W b} := {
  disk_present : block_default b <> None;
  disk_writable : match block_default b with Some d => write_sector d <> None | None => False end;
  disk_range : 0 <= disk_end b <= 4294967296;
  disk_sector w l : length (sector_at w l) = 512%nat;
  disk_bytes w l : Forall is_u8 (sector_at w l);
  disk_read w l buf :
    disk_ready w -> 0 <= l < disk_end b -> (512 <= length buf)%nat ->
    exists w', block_read_sector b l (Some buf) w = (0, sector_at w l ++ drop 512 buf, w') /\
      disk_ready w' /\ same_disk w w';
  disk_write w l buf :
    disk_ready w -> 0 <= l < disk_end b -> (512 <= length buf)%nat -> Forall is_u8 buf ->
    exists w', block_write_sector b l (Some buf) w = (0, w') /\ disk_ready w' /\
      forall k, sector_at w' k = if k =? l then take 512 buf else sector_at w k;
}.

Section same_disk.
Context {W : Type} {b : block W} `{Disk W b}.
#[global] Instance same_disk_equivalence : Equivalence (same_disk (b := b)).
Proof.
  split.
  - by intros w l.
  - intros w w' Hs l. by rewrite Hs.
  - intros w1 w2 w3 H12 H23 l. by rewrite H23, H12.
Qed.
#[global] Instance sector_at_proper : Proper (same_disk (b := b) ==> eq ==> eq) sector_at.
Proof. intros w w' Hs l ? <-. by rewrite Hs. Qed.
End same_disk.

(** ** Registration *)
Section registered.
Context {W : Type}.
Implicit Types b : block W.

Definition block_ok b : Prop :=
  length (devices b) = 4%nat /\ 0 <= device_count b <= 4 /\
  (forall i, 0 <= i < device_count b -> exists d, (devices b).[i] = Some d /\
     present d = true /\ sector_size d = 512 /\ read_sector d <> None).

Lemma block_init_ok b : block_ok (block_init b).
Proof. split; [done|]. split; [cbn; lia|]. cbn. lia. Qed.

(** The sector layer only ever holds present devices with 512-byte sectors and a
    read routine, at most four of them; a registration that succeeds adds the device
    behind the others, one that fails changes nothing, and the first device registered
    stays the default. *)
Theorem block_register_sound b d rc b' :
  block_ok b -> block_register d b = (rc, b') ->
  block_ok b' /\
  (rc = 0 -> device_count b' = device_count b + 1 /\ (devices b').[device_count b] = d /\
     (forall i, 0 <= i < device_count b -> (devices b').[i] = (devices b).[i])) /\
  (rc <> 0 -> b' = b) /\
  (0 < device_count b -> block_default b' = block_default b).
Proof.
  intros (Hl & Hc & Hd). unfold block_register.
  destruct d as [dev|]; [|by intros [= <- <-]].
  destruct (_ || _ || _ || _) eqn:Hg; intros [= <- <-]; [done|].
  rewrite !orb_false_iff in Hg. destruct Hg as [[[Hp Hs] Hr] Hn].
  assert (forall i, 0 <= i -> (devices b).[device_count b <- Some dev].[i] =
    if device_count b =? i then Some dev else (devices b).[i]) as Hget.
  { intros i Hi. apply aget_aset; [rewrite Hl; const_lia|done]. }
  split; [|split; [|split; [done|]]].
  - split; [cbn [devices]; by rewrite aset_length|]. split; [cbn [device_count]; const_lia|].
    cbn [devices device_count]. intros i Hi. rewrite Hget by lia. destruct (Z.eqb_spec (device_count b) i).
    + exists dev. split; [done|]. split; [by destruct (present dev)|]. split; [lia|].
      by destruct (read_sector dev).
    + apply Hd. lia.
  - intros _. cbn [devices device_count]. split; [done|]. split; [by rewrite Hget, Z.eqb_refl by lia|].
    intros i Hi. rewrite Hget by lia. destruct (Z.eqb_spec (device_count b) i); [lia|done].
  - intros Hpos. unfold block_default. cbn [devices device_count]. rewrite Hget by lia.
    destruct (Z.eqb_spec (device_count b) 0), (Z.eqb_spec (device_count b + 1) 0); try lia. done.
Qed.
End registered.

(** ** A memory disk *)
Definition ram_sector (w : gmap Z (list Z)) (l : Z) : list Z :=
  take 512 ((u8 <$> default [] (w !! l)) ++ replicate 512 0).
Definition ram_read (l : Z) (buf : list Z) (w : gmap Z (list Z)) : Z * list Z * gmap Z (list Z) :=
  (0, ram_sector w l ++ drop 512 buf, w).
Definition ram_write (l : Z) (buf : list Z) (w : gmap Z (list Z)) : Z * gmap Z (list Z) :=
  (0, <[l := take 512 buf]> w).
Definition ram_device : block_device (gmap Z (list Z)) :=
  mkDevice "ram" 512 65536 (Some ram_read) (Some ram_write) true.
Definition ram_block : block (gmap Z (list Z)) := (block_register (Some ram_device) (block_init (mkBlockLayer [] 0))).2.

Lemma ram_sector_length w l : length (ram_sector w l) = 512%nat.
Proof. unfold ram_sector. rewrite length_take, length_app, length_replicate. lia. Qed.

Lemma ram_sector_bytes w l : Forall is_u8 (ram_sector w l).
Proof.
  apply Forall_take, Forall_app. split; [|by apply Forall_replicate].
  apply Forall_fmap, Forall_forall. intros x _. apply Z.mod_pos_bound. lia.
Qed.

Lemma ram_sector_insert w l buf k :
  (512 <= length buf)%nat -> Forall is_u8 buf ->
  ram_sector (<[l := take 512 buf]> w) k = if k =? l then take 512 buf else ram_sector w k.
Proof.
  intros Hb Hu. unfold ram_sector. destruct (Z.eqb_spec k l) as [->|Hne].
  - rewrite lookup_insert_eq. change (default [] (Some ?x)) with x.
    rewrite take_app_le by (rewrite length_fmap, length_take; lia).
    rewrite <- fmap_take, take_take, map_u8_id by (by apply Forall_take). done.
  - by rewrite lookup_insert_ne by done.
Qed.

#[export] Instance ram_disk : Disk (gmap Z (list Z)) ram_block :=
  { sector_at := ram_sector; disk_end := 4294967296; disk_ready _ := True }.
#[export] Instance ram_disk_laws : DiskLaws (gmap Z (list Z)) ram_block.
Proof.
  split.
  - discriminate.
  - discriminate.
  - done.
  - apply ram_sector_length.
  - apply ram_sector_bytes.
  - intros w l buf _ _ _. by exists w.
  - intros w l buf _ _ Hb Hu. eexists. split; [reflexivity|]. split; [done|]. intros k. by apply ram_sector_insert.
Qed.

Lemma block_register_sound_witness :
  block_ok ram_block /\ device_count ram_block = 1.
Proof.
  destruct (block_register (Some ram_device) (block_init (mkBlockLayer [] 0))) as [rc b'] eqn:E.
  assert (ram_block = b') as -> by (unfold ram_block; rewrite E; reflexivity).
  destruct (block_register_sound _ _ rc b' (block_init_ok _) E) as (Hok & Hs & _).
  split; [exact Hok|]. assert (rc = 0) as -> by (vm_compute in E; congruence).
  destruct (Hs eq_refl) as [Hc _]. exact Hc.
Defined.
