(* ===== verification/Journal.v ===== *)
(** The recovery log, [fs/journal.c].

    A [journal_record_t] is its 532 bytes in memory: magic, sequence, target and
    checksum as little-endian words at 0, 4, 8 and 12, the commit mark at 16, and 512
    data bytes from 20 on.  Sector transfers move 512 bytes, so only the first 512
    bytes of a record reach the disk; the 20 bytes behind them are whatever the local
    variable held, the argument [junk] of [journal_replay]. *)
From S2P Require Import Prelude Block.

Definition JOURNAL_MAGIC : Z := 1128943180. (* 0x434a4e4c *)
Definition JOURNAL_COMMITTED : Z := 165. (* 0xa5 *)
Definition JOURNAL_MAX_SLOTS : Z := 64.
#[export] Hint Unfold JOURNAL_MAX_SLOTS : kconst.

Definition bytes32 (z : Z) : list Z := [z mod 256; z / 256 mod 256; z / 65536 mod 256; z / 16777216 mod 256].
Definition word_at (r : list Z) (off : Z) : Z := le32 r.[off] r.[off + 1] r.[off + 2] r.[off + 3].

Record journal := mkJournal { base : Z; slot_count : Z; sequence : Z; ready : bool }.

(** The record [r] whose fields are written one by one. *)
Definition make_record (seq target csum committed : Z) (reserved data : list Z) : list Z :=
  bytes32 JOURNAL_MAGIC ++ bytes32 seq ++ bytes32 target ++ bytes32 csum ++ [committed] ++ reserved ++ data.

Definition magic (r : list Z) : Z := word_at r 0.
Definition rsequence (r : list Z) : Z := word_at r 4.
Definition target_lba (r : list Z) : Z := word_at r 8.
Definition rchecksum (r : list Z) : Z := word_at r 12.
Definition committed (r : list Z) : Z := r.[16].
Definition data (r : list Z) : list Z := drop 20 r.

Definition fnv (h x : Z) : Z := u32 (Z.lxor h x * 16777619).
Definition checksum (r : list Z) : Z :=
  let h := foldl fnv 2166136261 (take 512 (data r)) in
  let h := fnv h (target_lba r) in
  Z.lxor h (rsequence r).

Section journal.
Context {W : Type}.
Variable blk : block W.
Implicit Types (w : W) (j : journal).

Definition journal_init (start_lba slots : Z) j : Z * journal :=
  let slot_count := if JOURNAL_MAX_SLOTS <? slots then JOURNAL_MAX_SLOTS else slots in
  let ready := (match block_default blk with Some _ => true | None => false end) && negb (slot_count =? 0) in
  (if ready then 0 else -1, mkJournal start_lba slot_count 1 ready).

Definition journal_is_ready j : bool := ready j.

(** One slot of [journal_replay]: the record buffer, the count and the device after. *)
Definition replay_slot j (i : Z) (s : list Z * Z * W) : list Z * Z * W :=
  let '(r, applied, w) := s in
  let '(rc, r, w) := block_read_sector blk (u32 (base j + i)) (Some r) w in
  if negb (rc =? 0) then (r, applied, w)
  else if negb (magic r =? JOURNAL_MAGIC) || negb (committed r =? JOURNAL_COMMITTED)
          || negb (rchecksum r =? checksum r)
  then (r, applied, w)
  else
    let '(rc, w) := block_write_sector blk (target_lba r) (Some (data r)) w in
    if rc =? 0 then
      let r := r.[16 <- 0] in
      let '(_, w) := block_write_sector blk (u32 (base j + i)) (Some r) w in
      (r, applied + 1, w)
    else (r, applied, w).

Definition journal_replay (junk : list Z) j w : Z * W :=
  if negb (ready j) then (-1, w)
  else let '(_, applied, w) := for_range 0 (slot_count j) (replay_slot j) (junk, 0, w) in (applied, w).

(** [reserved] is what the three padding bytes of the local record held. *)
Definition journal_write (reserved : list Z) (target : Z) (sector : option (list Z)) j w : Z * journal * W :=
  let can_write := match block_default blk with
                   | Some d => match write_sector d with Some _ => true | None => false end
                   | None => false
                   end in
  match sector with
  | None => (-1, j, w)
  | Some sector =>
      if negb (ready j) || negb can_write then (-1, j, w)
      else
        let seq := sequence j in
        let j := mkJournal (base j) (slot_count j) (u32 (sequence j + 1)) (ready j) in
        let r0 := make_record seq target 0 JOURNAL_COMMITTED reserved (take 512 sector) in
        let r := make_record seq target (checksum r0) JOURNAL_COMMITTED reserved (take 512 sector) in
        let slot := u32 (base j + seq mod slot_count j) in
        let '(rc, w) := block_write_sector blk slot (Some r) w in
        if negb (rc =? 0) then (-1, j, w)
        else
          let '(rc, w) := block_write_sector blk target (Some sector) w in
          if negb (rc =? 0) then (-1, j, w)
          else
            let '(rc, w) := block_write_sector blk slot (Some (r.[16 <- 0])) w in
            (rc, j, w)
  end.

Fixpoint clear_slots (n : nat) (lba : Z) w : Z * W :=
  match n with
  | O => (0, w)
  | S n' =>
      let '(rc, w) := block_write_sector blk (u32 lba) (Some (replicate 532 0)) w in
      if negb (rc =? 0) then (-1, w) else clear_slots n' (lba + 1) w
  end.
Definition journal_clear j w : Z * W :=
  if negb (ready j) then (-1, w) else clear_slots (Z.to_nat (slot_count j)) (base j) w.
End journal.

(** ** Records in memory and on disk *)
Section records.
Context (seq target : Z) (reserved dat : list Z).
Hypothesis (Hseq : is_u32 seq) (Htgt : is_u32 target) (Hres : length reserved = 3%nat).
Let rec_ (csum mark : Z) : list Z := make_record seq target csum mark reserved dat.

Lemma record_fields csum mark : is_u32 csum ->
  magic (rec_ csum mark) = JOURNAL_MAGIC /\ rsequence (rec_ csum mark) = seq /\
  target_lba (rec_ csum mark) = target /\ rchecksum (rec_ csum mark) = csum /\
  committed (rec_ csum mark) = mark /\ data (rec_ csum mark) = dat.
Proof using Hseq Htgt Hres.
  intros Hc. destruct reserved as [|x [|y [|z [|? ?]]]]; try discriminate.
  unfold rec_, magic, rsequence, target_lba, rchecksum, committed, data, word_at, make_record, bytes32.
  cbn [app aget]. split_and!.
  - reflexivity.
  - exact (le32_bytes seq Hseq).
  - exact (le32_bytes target Htgt).
  - exact (le32_bytes csum Hc).
  - reflexivity.
  - reflexivity.
Qed.
End records.

(** Whether [journal_replay] takes a record to be committed and intact. *)
Definition valid_record (r : list Z) : bool :=
  (magic r =? JOURNAL_MAGIC) && (committed r =? JOURNAL_COMMITTED) && (rchecksum r =? checksum r).

Lemma fnv_range h x : is_u32 (fnv h x).
Proof. apply u32_range. Qed.

Lemma checksum_range seq target csum mark reserved dat :
  is_u32 seq -> is_u32 target -> length reserved = 3%nat -> is_u32 csum ->
  is_u32 (checksum (make_record seq target csum mark reserved dat)).
Proof.
  intros H1 H2 H3 H4. unfold checksum.
  destruct (record_fields seq target reserved dat H1 H2 H3 csum mark H4) as (_ & -> & _).
  set (h := fnv _ _). pose proof (fnv_range (foldl fnv 2166136261 (take 512 (data (make_record seq target csum mark reserved dat))))
    (target_lba (make_record seq target csum mark reserved dat))) as Hh. fold h in Hh.
  assert (0 <= Z.lxor h seq) by (apply Z.lxor_nonneg; unfold is_u32 in *; lia).
  split; [done|]. change 4294967296 with (2 ^ 32). apply (Z.bounded_iff_bits_nonneg 32); [lia|done|].
  intros l Hl. rewrite Z.lxor_spec, (testbit_high 32 h l), (testbit_high 32 seq l); [done|unfold is_u32 in *; lia..].
Qed.

Lemma bytes32_u8 z : Forall is_u8 (bytes32 z).
Proof. repeat constructor; apply u8_range. Qed.

Lemma make_record_u8 seq target csum mark reserved dat :
  is_u8 mark -> Forall is_u8 reserved -> Forall is_u8 dat -> Forall is_u8 (make_record seq target csum mark reserved dat).
Proof.
  intros Hm Hr Hd. unfold make_record. rewrite !Forall_app. split_and!; try apply bytes32_u8; try done. by constructor.
Qed.

Lemma checksum_ext r r' :
  data r' = data r -> target_lba r' = target_lba r -> rsequence r' = rsequence r -> checksum r' = checksum r.
Proof. intros Hd Ht Hs. unfold checksum. by rewrite Hd, Ht, Hs. Qed.

Lemma made_record_valid seq target reserved dat c0 :
  is_u32 seq -> is_u32 target -> length reserved = 3%nat -> is_u32 c0 ->
  valid_record (make_record seq target (checksum (make_record seq target c0 JOURNAL_COMMITTED reserved dat))
                  JOURNAL_COMMITTED reserved dat) = true.
Proof.
  intros H1 H2 H3 H0. set (c := checksum (make_record _ _ c0 _ _ _)).
  assert (is_u32 c) as Hc by (by apply checksum_range).
  destruct (record_fields seq target reserved dat H1 H2 H3 c JOURNAL_COMMITTED Hc) as (E1 & E2 & E3 & E4 & E5 & E6).
  destruct (record_fields seq target reserved dat H1 H2 H3 c0 JOURNAL_COMMITTED H0) as (_ & F2 & F3 & _ & _ & F6).
  unfold valid_record. rewrite E1, E4, E5. assert (c = checksum (make_record seq target c JOURNAL_COMMITTED reserved dat)) as <-.
  { symmetry. apply checksum_ext; congruence. }
  by rewrite !Z.eqb_refl.
Qed.

(** ** Replay on a working disk *)
Section replay.
Context {W : Type} (blk : block W) `{DiskLaws W blk}.
Implicit Types (w : W) (j : journal).

Definition journal_ok j : Prop :=
  ready j = true /\ 0 < slot_count j <= 64 /\ 0 <= base j /\ base j + slot_count j <= disk_end blk /\ is_u32 (sequence j).

(** The record the replay sees in slot [i]: the sector and the leftover bytes. *)
Definition slot_record w j (tail : list Z) (i : Z) : list Z := sector_at w (base j + i) ++ tail.
Definition clean_slot w j tail i : Prop := valid_record (slot_record w j tail i) = false.

#[global] Instance slot_record_proper : Proper (same_disk (b := blk) ==> eq ==> eq ==> eq ==> eq) slot_record.
Proof. intros w w' Hs j ? <- t ? <- i ? <-. unfold slot_record. by rewrite Hs. Qed.

Lemma slot_lba j i : journal_ok j -> 0 <= i < slot_count j -> u32 (base j + i) = base j + i /\ 0 <= base j + i < disk_end blk.
Proof using H0.
  intros (_ & Hs & Hb & He & _) Hi. pose proof disk_range. split; [apply u32_small; unfold is_u32|]; lia.
Qed.

(** One slot: the sector is read, over the buffer's first 512 bytes, and judged. *)
Lemma replay_slot_eq j i r applied w :
  journal_ok j -> 0 <= i < slot_count j -> disk_ready w -> (512 <= length r)%nat ->
  exists w0, disk_ready w0 /\ same_disk w w0 /\
  replay_slot blk j i (r, applied, w) =
    let r := slot_record w j (drop 512 r) i in
    if valid_record r then
      let '(rc, w) := block_write_sector blk (target_lba r) (Some (data r)) w0 in
      if rc =? 0 then
        let r := r.[16 <- 0] in
        (r, applied + 1, (block_write_sector blk (base j + i) (Some r) w).2)
      else (r, applied, w)
    else (r, applied, w0).
Proof using H0.
  intros Hj Hi Hw Hl. destruct (slot_lba j i Hj Hi) as [Hu Hr].
  destruct (disk_read w (base j + i) r Hw Hr Hl) as (w0 & E & Hw0 & Hs0). exists w0. split; [done|]. split; [done|].
  unfold replay_slot. rewrite Hu, E. cbn [Z.eqb negb]. fold (slot_record w j (drop 512 r) i). cbn zeta.
  set (rr := slot_record _ _ _ _). unfold valid_record.
  destruct (magic rr =? JOURNAL_MAGIC), (committed rr =? JOURNAL_COMMITTED), (rchecksum rr =? checksum rr);
    cbn [negb orb andb]; try done.
  destruct (block_write_sector blk (target_lba rr) (Some (data rr)) w0) as [rc w1].
  destruct (rc =? 0); [|done]. by destruct (block_write_sector blk (base j + i) (Some (rr.[16 <- 0])) w1).
Qed.

Lemma slot_record_drop w j tail i : drop 512 (slot_record w j tail i) = tail.
Proof using H0. unfold slot_record. rewrite drop_app_ge by (rewrite disk_sector; lia). by rewrite disk_sector. Qed.

Lemma slot_record_length w j tail i : length (slot_record w j tail i) = (512 + length tail)%nat.
Proof using H0. unfold slot_record. by rewrite length_app, disk_sector. Qed.

Lemma slot_record_u8 w j tail i : Forall is_u8 tail -> Forall is_u8 (slot_record w j tail i).
Proof using H0. intros Ht. apply Forall_app. split; [apply disk_bytes|done]. Qed.

(** A run over slots that are all clean. *)
Lemma replay_clean j lo hi r w applied :
  journal_ok j -> 0 <= lo <= hi -> hi <= slot_count j -> disk_ready w -> (512 <= length r)%nat ->
  (forall i, lo <= i < hi -> clean_slot w j (drop 512 r) i) ->
  exists r' w', for_range lo hi (replay_slot blk j) (r, applied, w) = (r', applied, w') /\
    disk_ready w' /\ same_disk w w' /\ (512 <= length r')%nat /\ drop 512 r' = drop 512 r.
Proof using H0.
  intros Hj Hlo Hhi Hw Hl Hclean.
  apply (for_range_ind (fun n s => exists r' w', s = (r', applied, w') /\
    disk_ready w' /\ same_disk w w' /\ (512 <= length r')%nat /\ drop 512 r' = drop 512 r));
    [lia|by exists r, w|].
  intros i s Hi (r' & w' & -> & Hw' & Hs & Hl' & Hd).
  destruct (replay_slot_eq j i r' applied w' Hj ltac:(lia) Hw' Hl') as (w0 & Hw0 & Hs0 & ->). rewrite Hd. cbn zeta.
  assert (valid_record (slot_record w' j (drop 512 r) i) = false) as -> by (rewrite <- Hs; by apply Hclean).
  eexists _, w0. split; [done|]. split; [done|]. split; [by etrans|].
  split; [rewrite slot_record_length; lia|]. apply slot_record_drop.
Qed.

(** Exactly one slot holds a valid record. *)
Lemma replay_single j k junk w :
  journal_ok j -> 0 <= k < slot_count j -> length (drop 512 junk) = 20%nat -> disk_ready w -> Forall is_u8 junk ->
  let r := slot_record w j (drop 512 junk) k in
  valid_record r = true -> 0 <= target_lba r < disk_end blk ->
  (forall i, 0 <= i < slot_count j -> target_lba r <> base j + i) ->
  (forall i, 0 <= i < slot_count j -> i <> k -> clean_slot w j (drop 512 junk) i) ->
  exists w', journal_replay blk junk j w = (1, w') /\ disk_ready w' /\
    forall l, sector_at w' l = if l =? base j + k then take 512 (r.[16 <- 0])
                               else if l =? target_lba r then take 512 (data r) else sector_at w l.
Proof using H0.
  intros Hj Hk Ht Hw Hu r Hv Hend Htgt Hclean. pose proof Hj as (Hr & Hs & _). unfold journal_replay. rewrite Hr. cbn [negb].
  assert (512 <= length junk)%nat as Hlj by (rewrite length_drop in Ht; lia).
  rewrite (for_range_split 0 k) by lia.
  destruct (replay_clean j 0 k junk w 0 Hj ltac:(lia) ltac:(lia) Hw Hlj) as (r1 & w1 & -> & Hw1 & Hs1 & Hl1 & Hd1).
  { intros i Hi. apply Hclean; lia. }
  destruct (replay_slot_eq j k r1 0 w1 Hj Hk Hw1 Hl1) as (w0 & Hw0 & Hs0 & E).
  rewrite for_range_cons, E, Hd1 by lia. cbn zeta.
  assert (slot_record w1 j (drop 512 junk) k = r) as -> by (unfold r; by rewrite <- Hs1). rewrite Hv.
  assert (length r = 532%nat) as Hlr by (unfold r; rewrite slot_record_length; lia).
  assert (Forall is_u8 r) as Hur by (apply slot_record_u8; by apply Forall_drop).
  destruct (disk_write w0 (target_lba r) (data r)) as (w2 & Hw2 & Hrd2 & Hs2); [done|done| |by apply Forall_drop|].
  { unfold data. rewrite length_drop. lia. }
  rewrite Hw2. cbn [Z.eqb].
  destruct (disk_write w2 (base j + k) (r.[16 <- 0])) as (w3 & Hw3 & Hrd3 & Hs3);
    [done|by apply slot_lba|rewrite aset_length; lia|by apply Forall_aset|].
  rewrite Hw3. cbn [snd].
  assert (drop 512 (r.[16 <- 0]) = drop 512 junk) as Hd2.
  { unfold aset. change (Z.to_nat 16) with 16%nat. rewrite drop_insert_lt by lia. apply slot_record_drop. }
  assert (forall l, sector_at w3 l = if l =? base j + k then take 512 (r.[16 <- 0])
                               else if l =? target_lba r then take 512 (data r) else sector_at w l) as Hsec.
  { intros l. by rewrite Hs3, Hs2, <- Hs0, <- Hs1. }
  destruct (replay_clean j (k + 1) (slot_count j) (r.[16 <- 0]) w3 (0 + 1) Hj ltac:(lia) ltac:(lia) Hrd3)
    as (r2 & w4 & -> & Hw4 & Hs4 & _).
  { rewrite aset_length. lia. }
  { intros i Hi. unfold clean_slot, slot_record. rewrite Hsec, Hd2.
    destruct (Z.eqb_spec (base j + i) (base j + k)); [lia|].
    destruct (Z.eqb_spec (base j + i) (target_lba r)) as [Et|]; [exfalso; apply (Htgt i); [lia|done]|].
    apply Hclean; lia. }
  exists w4. split; [done|]. split; [done|]. intros l. by rewrite <- Hs4, Hsec.
Qed.

Lemma replay_none j junk w :
  journal_ok j -> length (drop 512 junk) = 20%nat -> disk_ready w ->
  (forall i, 0 <= i < slot_count j -> clean_slot w j (drop 512 junk) i) ->
  exists w', journal_replay blk junk j w = (0, w') /\ disk_ready w' /\ same_disk w w'.
Proof using H0.
  intros Hj Hl Hw Hclean. pose proof Hj as (Hr & Hs & _). unfold journal_replay. rewrite Hr. cbn [negb].
  destruct (replay_clean j 0 (slot_count j) junk w 0 Hj ltac:(lia) ltac:(lia) Hw) as (r1 & w1 & -> & Hw1 & Hs1 & _);
    [rewrite length_drop in Hl; lia|done|].
  by exists w1.
Qed.

(** ** Writing and crashing *)
(** The sector writes [journal_write] issues, in order. *)
Definition journal_slot j : Z := base j + sequence j mod slot_count j.
Definition journal_record (reserved : list Z) (target : Z) (sector : list Z) j : list Z :=
  make_record (sequence j) target
    (checksum (make_record (sequence j) target 0 JOURNAL_COMMITTED reserved (take 512 sector)))
    JOURNAL_COMMITTED reserved (take 512 sector).
Definition journal_plan reserved target sector j : list (Z * list Z) :=
  let r := journal_record reserved target sector j in
  [(journal_slot j, r); (target, sector); (journal_slot j, r.[16 <- 0])].

Fixpoint run_writes (l : list (Z * list Z)) w : W :=
  match l with [] => w | (lba, buf) :: l => run_writes l (block_write_sector blk lba (Some buf) w).2 end.

Lemma journal_slot_u32 j : journal_ok j -> u32 (base j + sequence j mod slot_count j) = journal_slot j /\
  exists k, 0 <= k < slot_count j /\ journal_slot j = base j + k.
Proof.
  intros Hj. pose proof Hj as (Hr & Hs & _). pose proof (Z.mod_pos_bound (sequence j) (slot_count j) ltac:(lia)) as Hm.
  split; [by apply slot_lba|]. by exists (sequence j mod slot_count j).
Qed.

Lemma journal_record_length reserved target sector j :
  length reserved = 3%nat -> length sector = 512%nat -> length (journal_record reserved target sector j) = 532%nat.
Proof. intros H1 H2. unfold journal_record, make_record. rewrite (take_ge sector 512) by lia.
  rewrite !length_app, H1, H2. reflexivity. Qed.

Lemma journal_record_u8 reserved target sector j :
  Forall is_u8 reserved -> Forall is_u8 sector -> Forall is_u8 (journal_record reserved target sector j).
Proof. intros H1 H2. apply make_record_u8; [done|done|by apply Forall_take]. Qed.

(** On a working disk [journal_write] runs its whole plan and succeeds. *)
Lemma journal_write_plan reserved target sector j w :
  journal_ok j -> length reserved = 3%nat -> length sector = 512%nat ->
  Forall is_u8 reserved -> Forall is_u8 sector -> disk_ready w -> 0 <= target < disk_end blk ->
  journal_write blk reserved target (Some sector) j w =
    (0, mkJournal (base j) (slot_count j) (u32 (sequence j + 1)) (ready j),
     run_writes (journal_plan reserved target sector j) w).
Proof using H0.
  intros Hj Hres Hsec Hru Hsu Hw Htgt. destruct (journal_slot_u32 j Hj) as [Hslot (k & Hk & Ek)].
  destruct (slot_lba j k Hj Hk) as [_ Hrange]. rewrite <- Ek in Hrange. destruct Hj as (Hr & _).
  pose proof (journal_record_length reserved target sector j Hres Hsec) as Hlr.
  pose proof (journal_record_u8 reserved target sector j Hru Hsu) as Hur.
  unfold journal_write. pose proof disk_writable as Hdw.
  destruct (block_default blk) as [d|]; [|done]. destruct (write_sector d); [|done].
  rewrite Hr. cbn [negb orb base slot_count sequence]. cbn zeta. rewrite Hslot.
  fold (journal_record reserved target sector j). set (r := journal_record _ _ _ _) in *.
  unfold journal_plan. fold r. cbn [run_writes].
  destruct (disk_write w (journal_slot j) r) as (w1 & -> & Hw1 & _); [done|done|lia|done|]. cbn [Z.eqb negb snd].
  destruct (disk_write w1 target sector) as (w2 & -> & Hw2 & _); [done|done|lia|done|]. cbn [Z.eqb negb snd].
  destruct (disk_write w2 (journal_slot j) (r.[16 <- 0])) as (w3 & -> & _ & _);
    [done|done|by rewrite aset_length; lia|by apply Forall_aset|].
  done.
Qed.

(** A record as the replay finds it after only its first sector was stored. *)
Definition reread (r tail : list Z) : list Z := take 512 r ++ tail.

Lemma reread_get r tail i : (512 <= length r)%nat -> 0 <= i < 512 -> (reread r tail).[i] = r.[i].
Proof.
  intros Hr Hi. unfold reread, aget. rewrite list_lookup_total_alt, lookup_app_l by (rewrite length_take; lia).
  by rewrite lookup_take_lt, <- list_lookup_total_alt by lia.
Qed.

Lemma reread_fields r tail : (512 <= length r)%nat ->
  magic (reread r tail) = magic r /\ committed (reread r tail) = committed r /\
  target_lba (reread r tail) = target_lba r /\ rchecksum (reread r tail) = rchecksum r.
Proof.
  intros Hr. unfold magic, committed, target_lba, rchecksum, word_at.
  rewrite !reread_get by (done || lia). done.
Qed.

Lemma reread_same r tail : (512 <= length r)%nat -> tail = drop 512 r -> reread r tail = r.
Proof. intros Hr ->. unfold reread. apply take_drop. Qed.

Section crash.
Context (reserved sector junk : list Z) (target : Z) (j : journal) (w : W).
Hypothesis (Hj : journal_ok j) (Hres : length reserved = 3%nat) (Hsec : length sector = 512%nat).
Hypothesis (Hru : Forall is_u8 reserved) (Hsu : Forall is_u8 sector) (Hju : Forall is_u8 junk) (Hw : disk_ready w).
Hypothesis (Htgt : 0 <= target < disk_end blk) (Hout : forall i, 0 <= i < slot_count j -> target <> base j + i).
Hypothesis (Hjunk : length (drop 512 junk) = 20%nat).
Hypothesis (Hclean : forall i, 0 <= i < slot_count j -> clean_slot w j (drop 512 junk) i).
Let r := journal_record reserved target sector j.
Let tail := drop 512 junk.

Lemma crash_record :
  length r = 532%nat /\ valid_record r = true /\ target_lba r = target /\ data r = sector /\ drop 512 r = drop 492 sector.
Proof using All.
  pose proof (journal_record_length reserved target sector j Hres Hsec) as Hl. fold r in Hl.
  destruct Hj as (_ & _ & _ & _ & Hq). assert (is_u32 0) as H00 by done.
  assert (is_u32 target) as Ht by (pose proof disk_range; unfold is_u32; lia).
  pose proof (checksum_range (sequence j) target 0 JOURNAL_COMMITTED reserved (take 512 sector) Hq Ht Hres H00) as Hc.
  destruct (record_fields (sequence j) target reserved (take 512 sector) Hq Ht Hres _ JOURNAL_COMMITTED Hc)
    as (_ & _ & E3 & _ & _ & E6). fold (journal_record reserved target sector j) in E3, E6. fold r in E3, E6.
  assert (data r = sector) as Ed by (rewrite E6; apply take_ge; lia).
  split; [done|]. split; [by apply made_record_valid|]. split; [done|]. split; [done|].
  rewrite <- Ed. unfold data. by rewrite drop_drop.
Qed.

(** The slot of the interrupted write as the replay sees it in device state [w']. *)
Lemma crash_slot w' k :
  sector_at w' (base j + k) = take 512 r ->
  (tail <> drop 492 sector -> checksum (reread r tail) <> rchecksum r) ->
  valid_record (slot_record w' j tail k) = bool_decide (tail = drop 492 sector).
Proof using All.
  intros Hs Hcol. destruct crash_record as (Hl & Hv & _ & _ & Hd).
  unfold slot_record. rewrite Hs. fold (reread r tail). case_bool_decide as Heq.
  - rewrite reread_same; [done|lia|congruence].
  - unfold valid_record. destruct (reread_fields r tail ltac:(lia)) as (_ & _ & _ & ->).
    destruct (Z.eqb_spec (rchecksum r) (checksum (reread r tail))) as [E|E]; [|apply andb_false_r].
    exfalso. by apply (Hcol Heq).
Qed.

(** The cleared record never counts. *)
Lemma cleared_slot w' k :
  sector_at w' (base j + k) = take 512 (r.[16 <- 0]) -> valid_record (slot_record w' j tail k) = false.
Proof using All.
  intros Hs. destruct crash_record as (Hl & _). unfold slot_record. rewrite Hs. fold (reread (r.[16 <- 0]) tail).
  unfold valid_record. destruct (reread_fields (r.[16 <- 0]) tail) as (_ & -> & _); [rewrite aset_length; lia|].
  unfold committed. rewrite aget_aset_eq by (rewrite Hl; lia). by rewrite andb_false_r.
Qed.

(** Other slots are as clean as before the write. *)
Lemma other_slots w' k i :
  (forall l, l <> base j + k -> l <> target -> sector_at w' l = sector_at w l) ->
  0 <= i < slot_count j -> i <> k -> clean_slot w' j tail i.
Proof using All.
  intros Hsame Hi Hne. unfold clean_slot, slot_record. rewrite Hsame; [by apply Hclean|lia|].
  intros E. by apply (Hout i).
Qed.

(** Recovery with the record still in its slot: it is applied exactly when the
    leftover bytes complete it. *)
Lemma replay_pending w' k :
  disk_ready w' -> 0 <= k < slot_count j -> sector_at w' (base j + k) = take 512 r ->
  (forall l, l <> base j + k -> l <> target -> sector_at w' l = sector_at w l) ->
  (tail <> drop 492 sector -> checksum (reread r tail) <> rchecksum r) ->
  sector_at (journal_replay blk junk j w').2 target =
    if bool_decide (tail = drop 492 sector) then sector else sector_at w' target.
Proof using All.
  intros Hw' Hk Hslot Hsame Hcol. pose proof (crash_slot w' k Hslot Hcol) as Hv.
  destruct crash_record as (Hl & Hvr & Htr & Hdr & Hd512). case_bool_decide as Heq.
  - assert (slot_record w' j tail k = r) as Er.
    { unfold slot_record. rewrite Hslot. fold (reread r tail). apply reread_same; [lia|congruence]. }
    destruct (replay_single j k junk w' Hj Hk Hjunk Hw' Hju) as (w2 & -> & _ & Hs2).
    + exact Hv.
    + fold tail. by rewrite Er, Htr.
    + fold tail. rewrite Er, Htr. intros i Hi. by apply Hout.
    + intros i Hi Hne. by apply (other_slots w' k).
    + cbn [snd]. rewrite Hs2. fold tail. rewrite Er, Htr, Hdr, Z.eqb_refl.
      destruct (Z.eqb_spec target (base j + k)) as [E|]; [exfalso; by apply (Hout k)|]. apply take_ge. lia.
  - destruct (replay_none j junk w' Hj Hjunk Hw') as (w2 & -> & _ & Hs2); [|apply Hs2]. fold tail. intros i Hi.
    destruct (decide (i = k)) as [->|Hne]; [exact Hv|by apply (other_slots w' k)].
Qed.

Lemma replay_finished w' k :
  disk_ready w' -> 0 <= k < slot_count j -> sector_at w' (base j + k) = take 512 (r.[16 <- 0]) ->
  (forall l, l <> base j + k -> l <> target -> sector_at w' l = sector_at w l) ->
  sector_at (journal_replay blk junk j w').2 target = sector_at w' target.
Proof using All.
  intros Hw' Hk Hslot Hsame. destruct (replay_none j junk w' Hj Hjunk Hw') as (w2 & -> & _ & Hs2); [|apply Hs2]. fold tail. intros i Hi.
  destruct (decide (i = k)) as [->|Hne]; [by apply cleared_slot|by apply (other_slots w' k)].
Qed.

Lemma plan_states :
  exists k w1 w2 w3, 0 <= k < slot_count j /\ disk_ready w1 /\ disk_ready w2 /\ disk_ready w3 /\
    run_writes (take 1 (journal_plan reserved target sector j)) w = w1 /\
    run_writes (take 2 (journal_plan reserved target sector j)) w = w2 /\
    run_writes (journal_plan reserved target sector j) w = w3 /\
    (forall l, sector_at w1 l = if l =? base j + k then take 512 r else sector_at w l) /\
    (forall l, sector_at w2 l = if l =? target then sector else sector_at w1 l) /\
    (forall l, sector_at w3 l = if l =? base j + k then take 512 (r.[16 <- 0]) else sector_at w2 l).
Proof using All.
  destruct (journal_slot_u32 j Hj) as [_ (k & Hk & Hslot)]. destruct crash_record as (Hl & _).
  destruct (slot_lba j k Hj Hk) as [_ Hrange].
  assert (Forall is_u8 r) as Hur by (by apply journal_record_u8).
  destruct (disk_write w (base j + k) r) as (w1 & E1 & R1 & S1); [done|done|lia|done|].
  destruct (disk_write w1 target sector) as (w2 & E2 & R2 & S2); [done|done|lia|done|].
  destruct (disk_write w2 (base j + k) (r.[16 <- 0])) as (w3 & E3 & R3 & S3);
    [done|done|rewrite aset_length; lia|by apply Forall_aset|].
  exists k, w1, w2, w3. unfold journal_plan. fold r. rewrite Hslot. cbn [take run_writes].
  rewrite E1. cbn [snd]. rewrite E2. cbn [snd]. rewrite E3. cbn [snd].
  split_and!; try done; try lia. intros l. rewrite S2. case_match; [apply take_ge; lia|done].
Qed.
End crash.

End replay.

(** ** On the memory disk *)
Definition demo_journal : journal := (journal_init ram_block 100 4 (mkJournal 0 0 0 false)).2.

Lemma demo_journal_ok : journal_ok ram_block demo_journal.
Proof. unfold journal_ok. cbn. unfold is_u32. split_and!; try lia. done. Qed.

Lemma demo_clean tail i : clean_slot ram_block ∅ demo_journal tail i.
Proof. reflexivity. Qed.


(** A committed record whose data ends in other bytes than the stack holds is not
    replayed: after a power failure between the log write and the target write the
    log applies nothing and the write is lost. *)
Theorem journal_record_truncated :
  let sector := replicate 512 7 in
  let w := run_writes ram_block (take 1 (journal_plan (replicate 3 0) 50 sector demo_journal)) ∅ in
  let '(applied, w') := journal_replay ram_block (replicate 532 0) demo_journal w in
  applied = 0 /\ ram_sector w' 50 = replicate 512 0.
Proof. vm_compute. split; reflexivity. Qed.
