(* ===== verification/Fat32.v ===== *)
(** The FAT32 reader, [fs/fat32/fat32.c].

    The driver's statics are the record [fat]; its one sector buffer and the device
    state are threaded with it.  The loops over cluster chains follow links stored on
    the disk, so [scan_root] takes the number of clusters it may visit as fuel and
    returns [None] when that is not enough; [fat32_read_file] stops after the bytes
    asked for and needs none. *)
From S2P Require Import Prelude Block Journal.

Definition FAT32_EOC : Z := 268435448. (* 0x0ffffff8 *)
Definition FAT32_MAX_CLUSTER : Z := 268435446. (* 0x0ffffff6 *)

Record fat := mkFat {
  partition_lba : Z; fat_lba : Z; data_lba : Z; sectors_per_cluster : Z;
  bytes_per_sector : Z; fat_size : Z; root_cluster : Z; mounted : bool;
}.

Record fat32_file := mkFile { first_cluster : Z; size : Z; position : Z; directory : bool }.

Definition le16_at (p : list Z) (o : Z) : Z := le16 p.[o] p.[o + 1].
Definition le32_at (p : list Z) (o : Z) : Z := le32 p.[o] p.[o + 1] p.[o + 2] p.[o + 3].

Definition cluster_lba (f : fat) (c : Z) : Z := u32 (data_lba f + u32 (c - 2) * sectors_per_cluster f).
Definition valid_cluster (c : Z) : bool := (2 <=? c) && (c <=? FAT32_MAX_CLUSTER).

(** ** Names *)
Definition upper (c : Z) : Z := if (97 <=? c) && (c <=? 122) then c - 97 + 65 else c.

(** The part before the dot: at most 8 characters, up to the end, a slash or a dot; the
    dot is consumed.  Returns the characters and the rest of the path. *)
Fixpoint base_83 (n : nat) (p : list Z) : list Z * list Z :=
  match n, p with
  | S n', c :: p' =>
      if c =? 47 then ([], p)
      else if upper c =? 46 then ([], p')
      else let '(l, r) := base_83 n' p' in (upper c :: l, r)
  | _, _ => ([], p)
  end.
Fixpoint ext_83 (n : nat) (p : list Z) : list Z :=
  match n, p with
  | S n', c :: p' => if c =? 47 then [] else upper c :: ext_83 n' p'
  | _, _ => []
  end.
Definition pad (n : nat) (l : list Z) : list Z := l ++ replicate (n - length l) 32.
Definition make_83 (p : list Z) : list Z :=
  let '(b, r) := base_83 8 p in
  let r := match r with 46 :: r' => r' | _ => r end in
  pad 8 b ++ pad 3 (ext_83 3 r).

(** Characters up to a blank, at most [n] and at most [room]. *)
Fixpoint until_blank (n : nat) (room : nat) (e : list Z) : list Z :=
  match n, room, e with
  | S n', S room', c :: e' => if c =? 32 then [] else c :: until_blank n' room' e'
  | _, _, _ => []
  end.
(** [short_name(e, n, cap)]: the characters stored before the terminator. *)
Definition short_name (e : list Z) (cap : Z) : list Z :=
  let room := Z.to_nat (cap - 1) in
  let b := until_blank 8 room e in
  if negb (e.[8] =? 32) && (length b <? room)%nat
  then b ++ 46 :: until_blank 3 (room - length b - 1) (drop 8 e)
  else b.

Section fat32.
Context {W : Type}.
Variable blk : block W.

Record fstate := mkF { fs : fat; sector : list Z; dev : W }.
Implicit Types s : fstate.

(** [block_read_sector(lba, sector)] *)
Definition load_sector (lba : Z) s : Z * fstate :=
  let '(rc, buf, w) := block_read_sector blk lba (Some (sector s)) (dev s) in (rc, mkF (fs s) buf w).

Definition next_cluster (c : Z) s : Z * fstate :=
  let f := fs s in
  let l := u32 (fat_lba f + u32 (c * 4) / bytes_per_sector f) in
  let o := u32 (c * 4) mod bytes_per_sector f in
  let '(rc, s) := load_sector l s in
  if negb (rc =? 0) then (0, s) else (Z.land (le32_at (sector s) o) 268435455, s).

(** What a scan of the root directory is for: a file by its 8.3 name, or the entry of a
    given index. *)
Inductive query := ByName (wanted : list Z) | ByIndex (index cap : Z).
Inductive answer := Found (f : fat32_file) | Entry (name : list Z) (size : Z) | Missing.

(** One directory entry: an answer, or the index to go on with. *)
Definition scan_entry (q : query) (d : list Z) (index : Z) : answer + Z :=
  if d.[0] =? 0 then inl Missing
  else if (d.[0] =? 229) || (d.[11] =? 15) || negb (Z.land d.[11] 8 =? 0) then inr index
  else if negb (Z.land d.[11] 16 =? 0) then
    match q with
    | ByIndex wanted cap =>
        if wanted =? index then inl (Entry (short_name d cap) (le32_at d 28)) else inr (u32 (index + 1))
    | ByName _ => inr (u32 (index + 1))
    end
  else
    match q with
    | ByName wanted =>
        if bool_decide (take 11 d = take 11 wanted)
        then inl (Found (mkFile (Z.lor (Z.shiftl (le16_at d 20) 16) (le16_at d 26)) (le32_at d 28) 0 false))
        else inr (u32 (index + 1))
    | ByIndex _ _ => inr (u32 (index + 1))
    end.

(** The entries at byte offsets [0, 32, ..., 480] of the sector. *)
Fixpoint scan_entries (q : query) (offs : list Z) (sec : list Z) (index : Z) : answer + Z :=
  match offs with
  | [] => inr index
  | e :: offs' =>
      match scan_entry q (drop (Z.to_nat e) sec) index with
      | inl a => inl a
      | inr index => scan_entries q offs' sec index
      end
  end.
Definition entry_offsets (f : fat) : list Z := (fun k => k * 32) <$> seqZ 0 (bytes_per_sector f / 32).

Fixpoint scan_sectors (q : query) (n : nat) (lba : Z) (index : Z) s : (answer + Z) * fstate :=
  match n with
  | O => (inr index, s)
  | S n' =>
      let '(rc, s) := load_sector (u32 lba) s in
      if negb (rc =? 0) then (inl Missing, s)
      else
        match scan_entries q (entry_offsets (fs s)) (sector s) index with
        | inl a => (inl a, s)
        | inr index => scan_sectors q n' (lba + 1) index s
        end
  end.

Fixpoint scan_clusters (fuel : nat) (q : query) (cluster index : Z) s : option (answer * fstate) :=
  match fuel with
  | O => None
  | S fuel' =>
      if negb (valid_cluster cluster) then Some (Missing, s)
      else
        match scan_sectors q (Z.to_nat (sectors_per_cluster (fs s))) (cluster_lba (fs s) cluster) index s with
        | (inl a, s) => Some (a, s)
        | (inr index, s) =>
            let '(c, s) := next_cluster cluster s in
            if FAT32_EOC <=? c then Some (Missing, s) else scan_clusters fuel' q c index s
        end
  end.
Definition scan_root (fuel : nat) (q : query) s : option (answer * fstate) :=
  scan_clusters fuel q (root_cluster (fs s)) 0 s.

(** ** Mounting *)
(** The first FAT32 partition of the table at byte 446. *)
Fixpoint find_partition (n : nat) (p : Z) (sec : list Z) : option Z :=
  match n with
  | O => None
  | S n' =>
      let e := 446 + p * 16 in
      if (sec.[e + 4] =? 11) || (sec.[e + 4] =? 12) then Some (le32_at sec (e + 8))
      else find_partition n' (p + 1) sec
  end.

Definition fat32_mount s : Z * fstate :=
  match block_default blk with
  | None => (-1, s)
  | Some _ =>
      let '(rc, s) := load_sector 0 s in
      if negb (rc =? 0) then (-1, s)
      else
        let sec := sector s in
        let part :=
          if (sec.[510] =? 85) && (sec.[511] =? 170) && negb (sec.[450] =? 0)
          then default 0 (find_partition 4 0 sec) else 0 in
        let f := fs s in
        let s := mkF (mkFat part (fat_lba f) (data_lba f) (sectors_per_cluster f) (bytes_per_sector f)
                        (fat_size f) (root_cluster f) (mounted f)) sec (dev s) in
        let '(rc, s) := load_sector part s in
        if negb (rc =? 0) then (-1, s)
        else
          let sec := sector s in let f := fs s in
          let bps := le16_at sec 11 in let spc := sec.[13] in
          let reserved := le16_at sec 14 in let fats := sec.[16] in
          let fsz := le32_at sec 36 in let root := le32_at sec 44 in
          let s := mkF (mkFat part (fat_lba f) (data_lba f) spc bps fsz root (mounted f)) sec (dev s) in
          if negb (bps =? 512) || (spc =? 0) || (fats =? 0) || (fsz =? 0) || negb (valid_cluster root)
          then (-1, s)
          else
            let fat_lba := u32 (part + reserved) in
            (0, mkF (mkFat part fat_lba (u32 (fat_lba + fats * fsz)) spc bps fsz root true) sec (dev s))
  end.

Definition fat32_is_mounted s : bool := mounted (fs s).

Definition fat32_write_sector (reserved : list Z) (j : journal) (lba : Z) (buffer : option (list Z)) s
  : Z * journal * fstate :=
  match buffer with
  | None => (-1, j, s)
  | Some _ =>
      if negb (mounted (fs s)) then (-1, j, s)
      else if journal_is_ready j then
        let '(rc, j, w) := journal_write blk reserved lba buffer j (dev s) in (rc, j, mkF (fs s) (sector s) w)
      else let '(rc, w) := block_write_sector blk lba buffer (dev s) in (rc, j, mkF (fs s) (sector s) w)
  end.

(** ** Files *)
Fixpoint skip_slashes (p : list Z) : list Z :=
  match p with c :: p' => if c =? 47 then skip_slashes p' else p | [] => [] end.

Definition fat32_open (fuel : nat) (path : option (list Z)) s : option (option fat32_file * fstate) :=
  match path with
  | None => Some (None, s)
  | Some path =>
      if negb (mounted (fs s)) then Some (None, s)
      else
        match skip_slashes path with
        | [] => Some (None, s)
        | p =>
            match scan_root fuel (ByName (make_83 p)) s with
            | Some (Found f, s) => Some (Some f, s)
            | Some (_, s) => Some (None, s)
            | None => None
            end
        end
  end.

Definition fat32_readdir (fuel : nat) (index capacity : Z) s : option (answer * fstate) :=
  if negb (mounted (fs s)) || (capacity =? 0) then Some (Missing, s)
  else scan_root fuel (ByIndex index capacity) s.

(** [while (skip-- && valid_cluster(cluster)) cluster = next_cluster(cluster)] *)
Fixpoint skip_clusters (skip : nat) (cluster : Z) s : Z * fstate :=
  match skip with
  | O => (cluster, s)
  | S skip' => if valid_cluster cluster
               then let '(c, s) := next_cluster cluster s in skip_clusters skip' c s
               else (cluster, s)
  end.

(** The state of the read: bytes copied so far, the file position; [inl] = a read
    failed and the call returns the bytes so far or -1. *)
Definition read_one (f : fat) (lba pos length : Z) (out : list Z) s : (list Z * Z * fstate) + fstate :=
  let offset := pos mod bytes_per_sector f in
  let '(rc, s) := load_sector (u32 lba) s in
  if negb (rc =? 0) then inr s
  else
    let done_ := Z.of_nat (List.length out) in
    let take_ := bytes_per_sector f - offset in
    let take_ := if length - done_ <? take_ then length - done_ else take_ in
    inl (out ++ ((fun i => (sector s).[offset + i]) <$> seqZ 0 take_), u32 (pos + take_), s).

(** The sectors of one cluster from [sec] on. *)
Fixpoint read_sectors (n : nat) (lba pos length : Z) (out : list Z) s : (list Z * Z * fstate) + (list Z * Z * fstate) :=
  match n with
  | O => inl (out, pos, s)
  | S n' =>
      if Z.of_nat (List.length out) <? length then
        match read_one (fs s) lba pos length out s with
        | inl (out, pos, s) => read_sectors n' (lba + 1) pos length out s
        | inr s => inr (out, pos, s)
        end
      else inl (out, pos, s)
  end.

(** Every turn copies at least one byte, so [length] turns are enough. *)
Fixpoint read_clusters (fuel : nat) (cluster pos length : Z) (out : list Z) s
  : (list Z * Z * fstate) + (list Z * Z * fstate) :=
  match fuel with
  | O => inl (out, pos, s)
  | S fuel' =>
      if (Z.of_nat (List.length out) <? length) && valid_cluster cluster then
        let f := fs s in
        let first := (pos / bytes_per_sector f) mod sectors_per_cluster f in
        match read_sectors (Z.to_nat (sectors_per_cluster f - first)) (cluster_lba f cluster + first) pos length out s with
        | inl (out, pos, s) =>
            let '(c, s) := next_cluster cluster s in read_clusters fuel' c pos length out s
        | inr r => inr r
        end
      else inl (out, pos, s)
  end.

(** The return value, the bytes stored in the buffer, the file and the driver after. *)
Definition fat32_read_file (file : option fat32_file) (length : Z) s
  : Z * list Z * option fat32_file * fstate :=
  match file with
  | None => (0, [], file, s)
  | Some f =>
      if negb (mounted (fs s)) || directory f || (size f <=? position f) then (0, [], file, s)
      else
        let length := if size f - position f <? length then size f - position f else length in
        let skip := position f / u32 (sectors_per_cluster (fs s) * bytes_per_sector (fs s)) in
        let '(c, s) := skip_clusters (Z.to_nat skip) (first_cluster f) s in
        match read_clusters (Z.to_nat length) c (position f) length [] s with
        | inl (out, pos, s) =>
            (i32 (Z.of_nat (List.length out)), out, Some (mkFile (first_cluster f) (size f) pos (directory f)), s)
        | inr (out, pos, s) =>
            ((if Z.of_nat (List.length out) =? 0 then -1 else i32 (Z.of_nat (List.length out))), out,
             Some (mkFile (first_cluster f) (size f) pos (directory f)), s)
        end
  end.
End fat32.

(** ** Reading files correctly *)
Section read.
Context {W : Type} (blk : block W) `{DiskLaws W blk}.
Implicit Types s : @fstate W.

(** The link stored for cluster [c] in the first FAT. *)
Definition fat_link (f : fat) (w : W) (c : Z) : Z :=
  Z.land (le32_at (sector_at w (u32 (fat_lba f + u32 (c * 4) / 512))) (u32 (c * 4) mod 512)) 268435455.

(** The device takes requests and the sector buffer is one. *)
Definition usable s : Prop := disk_ready (dev s) /\ length (sector s) = 512%nat.
(** [s'] is [s] with another sector in the buffer. *)
Definition same_fs s s' : Prop := fs s' = fs s /\ same_disk (dev s) (dev s') /\ usable s'.

#[global] Instance fat_link_proper : Proper (eq ==> same_disk (b := blk) ==> eq ==> eq) fat_link.
Proof. intros f ? <- w w' Hs c ? <-. unfold fat_link. by rewrite Hs. Qed.

Lemma load_sector_spec lba s : usable s -> 0 <= lba < disk_end blk ->
  exists s', load_sector blk lba s = (0, s') /\ same_fs s s' /\
    sector s' = sector_at (dev s) lba.
Proof using H0.
  intros [Hr Hl] Hlba. unfold load_sector.
  destruct (disk_read (dev s) lba (sector s) Hr Hlba ltac:(lia)) as (w' & -> & Hr' & Hs').
  rewrite drop_ge, app_nil_r by lia. eexists. split; [done|]. split; [|done]. split; [done|]. split; [done|].
  split; [done|apply disk_sector].
Qed.

(** Where the link of cluster [c] is stored. *)
Definition link_lba (f : fat) (c : Z) : Z := u32 (fat_lba f + u32 (c * 4) / 512).

Lemma next_cluster_eq c s :
  bytes_per_sector (fs s) = 512 -> usable s -> link_lba (fs s) c < disk_end blk ->
  exists s', next_cluster blk c s = (fat_link (fs s) (dev s) c, s') /\ same_fs s s'.
Proof using H0.
  intros Hb Hus He. unfold next_cluster. rewrite Hb. fold (link_lba (fs s) c).
  destruct (load_sector_spec (link_lba (fs s) c) s Hus) as (s' & -> & Hs & Es);
    [pose proof (u32_range (fat_lba (fs s) + u32 (c * 4) / 512)); unfold link_lba, is_u32 in *; lia|].
  cbn [Z.eqb negb]. rewrite Es.
  eexists. split; [apply f_equal2; [|reflexivity]|done]. unfold fat_link, le32_at. fold (link_lba (fs s) c).
  done.
Qed.

Section file.
Context (f : fat) (w : W) (chain : list Z).
Hypothesis (Hbps : bytes_per_sector f = 512) (Hspc : 0 < sectors_per_cluster f < 256).
Hypothesis (Hchain : forall i, 0 <= i < Z.of_nat (length chain) ->
  valid_cluster chain.[i] = true /\ cluster_lba f chain.[i] + sectors_per_cluster f <= disk_end blk /\
  link_lba f chain.[i] < disk_end blk).
Hypothesis (Hlink : forall i, 0 <= i -> i + 1 < Z.of_nat (length chain) -> fat_link f w chain.[i] = chain.[i + 1]).
Let spc := sectors_per_cluster f.
Let clusters := Z.of_nat (length chain).

(** Byte [k] of the file whose clusters are [chain]. *)
Definition file_byte (k : Z) : Z :=
  (sector_at w (cluster_lba f chain.[k / 512 / spc] + (k / 512) mod spc)).[k mod 512].

Definition at_fs s : Prop := fs s = f /\ same_disk w (dev s) /\ usable s.

Lemma at_fs_same s s' : at_fs s -> same_fs s s' -> at_fs s'.
Proof. intros (Hf & Hd & _) (Hf' & Hd' & Hu'). split; [congruence|]. split; [by etrans|done]. Qed.

Lemma next_in_file i s :
  at_fs s -> 0 <= i < clusters -> exists s', next_cluster blk chain.[i] s = (fat_link f w chain.[i], s') /\ at_fs s'.
Proof using Hbps Hchain H0.
  intros Hs Hi. pose proof Hs as (Hf & Hd & Hus). destruct (Hchain i Hi) as (_ & _ & Hend).
  destruct (next_cluster_eq chain.[i] s) as (s' & -> & Hsame); [by rewrite Hf|done|by rewrite Hf|].
  exists s'. split; [|by eapply at_fs_same]. rewrite Hf.
  assert (fat_link f (dev s) chain.[i] = fat_link f w chain.[i]) as -> by (by rewrite <- Hd). done.
Qed.

Lemma next_in_chain i s :
  at_fs s -> 0 <= i -> i + 1 < clusters -> exists s', next_cluster blk chain.[i] s = (chain.[i + 1], s') /\ at_fs s'.
Proof using Hbps Hchain Hlink H0.
  intros Hs Hi Hl. destruct (next_in_file i s Hs ltac:(lia)) as (s' & -> & Hs'). exists s'. by rewrite Hlink.
Qed.

Lemma skip_chain k i s :
  at_fs s -> 0 <= i -> i + Z.of_nat k < clusters ->
  exists s', skip_clusters blk k chain.[i] s = (chain.[i + Z.of_nat k], s') /\ at_fs s'.
Proof using Hbps Hlink Hchain H0.
  revert i s. induction k as [|k IH]; intros i s Hs Hi Hl.
  - exists s. cbn. by rewrite Z.add_0_r.
  - cbn [skip_clusters]. destruct (Hchain i) as [-> _]; [unfold clusters in Hl; lia|].
    destruct (next_in_chain i s Hs Hi ltac:(lia)) as (s1 & -> & Hs1).
    destruct (IH (i + 1) s1 Hs1 ltac:(lia) ltac:(lia)) as (s2 & -> & Hs2).
    exists s2. split; [|done]. do 2 f_equal. lia.
Qed.

(** How far a read of [L] bytes from [pos0] has come. *)
Record progress (pos0 L : Z) (out : list Z) (pos : Z) : Prop := {
  pg_pos : pos = pos0 + Z.of_nat (length out);
  pg_len : Z.of_nat (length out) <= L;
  pg_out : out = file_byte <$> seqZ pos0 (Z.of_nat (length out));
}.

Lemma read_one_spec pos0 L out pos s :
  at_fs s -> progress pos0 L out pos -> Z.of_nat (length out) < L -> 0 <= pos0 -> pos0 + L <= 4294967295 ->
  pos / 512 / spc < clusters ->
  let q := pos / 512 in
  exists out' pos' s', read_one blk f (cluster_lba f chain.[q / spc] + q mod spc) pos L out s = inl (out', pos', s') /\
    at_fs s' /\ progress pos0 L out' pos' /\
    (Z.of_nat (length out') = L \/ pos' = (q + 1) * 512).
Proof using Hbps Hspc Hchain H0.
  intros Hs [Hp Hl Ho] Hlt H0' Hmax Hcl q. unfold read_one. rewrite Hbps.
  assert (0 <= q) as Hq by (apply Z.div_pos; lia).
  assert (0 <= q mod spc < spc) as Hm by (apply Z.mod_pos_bound; unfold spc; lia).
  assert (0 <= q / spc) as Hqd by (apply Z.div_pos; unfold spc; lia).
  destruct (Hchain (q / spc)) as (_ & Hbound & _); [unfold clusters in Hcl; fold q in Hcl; lia|].
  assert (0 <= cluster_lba f chain.[q / spc]) by apply u32_range.
  pose proof (disk_range (b := blk)) as Hrange.
  rewrite (u32_small (_ + q mod spc)) by (unfold is_u32, spc in *; lia).
  pose proof Hs as (Hfs & Hd & Hus).
  destruct (load_sector_spec (cluster_lba f chain.[q / spc] + q mod spc) s Hus) as (s1 & -> & Hs1 & Es1);
    [unfold spc in *; lia|].
  cbn [Z.eqb negb]. rewrite Es1, (Hd _).
  set (off := pos mod 512). set (dn := Z.of_nat (length out)) in *.
  assert (0 <= off < 512) as Hoff by (apply Z.mod_pos_bound; lia).
  assert (pos = q * 512 + off) as Hdm by (unfold q, off; word_lia).
  set (tk := if L - dn <? 512 - off then L - dn else 512 - off).
  assert (0 < tk <= 512 - off /\ tk <= L - dn /\ (tk = L - dn \/ tk = 512 - off)) as (Htk & Htk2 & Htk3)
    by (unfold tk; case_match; lia).
  do 3 eexists. split; [reflexivity|]. split; [by eapply at_fs_same|].
  assert (u32 (pos + tk) = pos + tk) as Hu by (apply u32_small; unfold is_u32; lia).
  assert (Z.of_nat (length (out ++ ((λ i, (sector_at w (cluster_lba f chain.[q / spc] + q mod spc)).[off + i])
    <$> seqZ 0 tk))) = dn + tk) as Hlen.
  { rewrite length_app, length_fmap, length_seqZ. unfold dn. lia. }
  split; [split|].
  - rewrite Hu, Hlen. lia.
  - rewrite Hlen. lia.
  - rewrite Hlen, seqZ_app, fmap_app by lia. f_equal; [exact Ho|].
    replace (pos0 + dn) with (pos + 0) by lia.
    rewrite <- (fmap_add_seqZ pos 0 tk), <- list_fmap_compose. apply list_fmap_ext. intros i k Hk.
    apply lookup_seqZ in Hk as [-> Hk]. unfold compose, file_byte.
    assert ((pos + (0 + Z.of_nat i)) / 512 = q) as -> by (rewrite Hdm; word_lia).
    f_equal. rewrite Hdm. word_lia.
  - rewrite Hlen, Hu. destruct Htk3; [left|right]; lia.
Qed.

(** Where the sector loop of cluster [ci] stands with [n] sectors to go. *)
Definition sector_at_hand (ci : Z) (n : nat) (L : Z) (out : list Z) (pos : Z) : Prop :=
  Z.of_nat (length out) = L \/
  (0 < Z.of_nat n /\ pos / 512 = ci * spc + (spc - Z.of_nat n)) \/
  (Z.of_nat n = 0 /\ pos = (ci + 1) * spc * 512).

Lemma cluster_split ci k : 0 <= k < spc -> (ci * spc + k) / spc = ci /\ (ci * spc + k) mod spc = k.
Proof.
  intros Hk. replace (ci * spc + k) with (k + ci * spc) by lia.
  rewrite Z.div_add, Z.mod_add, Z.div_small, Z.mod_small by lia. lia.
Qed.

Lemma read_sectors_spec pos0 L n ci out pos s :
  0 <= pos0 -> pos0 + L <= 4294967295 -> 0 <= ci < clusters -> Z.of_nat n <= spc ->
  at_fs s -> progress pos0 L out pos -> sector_at_hand ci n L out pos ->
  exists out' pos' s', read_sectors blk n (cluster_lba f chain.[ci] + (spc - Z.of_nat n)) pos L out s = inl (out', pos', s') /\
    at_fs s' /\ progress pos0 L out' pos' /\
    (Z.of_nat (length out') = L \/ pos' = (ci + 1) * spc * 512).
Proof using Hbps Hspc Hchain H0.
  intros H0' Hmax Hci. revert out pos s. induction n as [|n IH]; intros out pos s Hn Hs Hp Hat.
  { exists out, pos, s. cbn [read_sectors]. split_and!; try done; try apply Hs; try apply Hp.
    destruct Hat as [|[[]|[_ ->]]]; [by left|lia|by right]. }
  cbn [read_sectors]. destruct (Z.ltb_spec (Z.of_nat (length out)) L) as [Hlt|Hge].
  2: { exists out, pos, s. split; [done|]. split; [done|]. split; [done|]. left. pose proof (pg_len _ _ _ _ Hp). lia. }
  destruct Hat as [|[[_ Hq]|[]]]; [lia| |lia].
  destruct (cluster_split ci (spc - Z.of_nat (S n)) ltac:(lia)) as [Hdiv Hmod].
  assert (pos / 512 / spc = ci /\ (pos / 512) mod spc = spc - Z.of_nat (S n)) as [Hd Hm] by (rewrite Hq; done).
  destruct (read_one_spec pos0 L out pos s Hs Hp Hlt H0' Hmax ltac:(rewrite Hd; lia))
    as (out1 & pos1 & s1 & Hr & Hs1 & Hp1 & Hnext).
  rewrite Hd, Hm in Hr. pose proof Hs as [Hfs _]. rewrite Hfs, Hr.
  destruct (IH out1 pos1 s1) as (out2 & pos2 & s2 & Heq & Hs2 & Hp2 & Hend); [lia|done|done|..].
  { destruct Hnext as [|E]; [by left|]. right. rewrite Hq in E. destruct n as [|n].
    - right. split; [done|]. rewrite E. lia.
    - left. split; [lia|]. rewrite E, Z.div_mul by lia. lia. }
  exists out2, pos2, s2. split; [|done]. rewrite <- Heq. f_equal. lia.
Qed.

Lemma read_clusters_spec pos0 L fuel ci cluster out pos s :
  0 <= pos0 -> pos0 + L <= 4294967295 -> pos0 + L <= clusters * spc * 512 ->
  at_fs s -> progress pos0 L out pos -> L - Z.of_nat (length out) <= Z.of_nat fuel ->
  (Z.of_nat (length out) < L -> pos / 512 / spc = ci /\ cluster = chain.[ci]) ->
  exists out' pos' s', read_clusters blk fuel cluster pos L out s = inl (out', pos', s') /\
    at_fs s' /\ progress pos0 L out' pos' /\ Z.of_nat (length out') = L.
Proof using Hbps Hspc Hchain Hlink H0.
  intros H0' Hmax Htot. revert ci cluster out pos s.
  induction fuel as [|fuel IH]; intros ci cluster out pos s Hs Hp Hfuel Hat; pose proof (pg_len _ _ _ _ Hp) as Hle.
  { exists out, pos, s. split; [done|]. split; [done|]. split; [done|]. lia. }
  cbn [read_clusters]. destruct (Z.ltb_spec (Z.of_nat (length out)) L) as [Hlt|Hge]; cbn [andb].
  2: { exists out, pos, s. split; [done|]. split; [done|]. split; [done|]. lia. }
  destruct (Hat Hlt) as [Hci ->]. pose proof (pg_pos _ _ _ _ Hp) as Hpos.
  assert (0 <= pos / 512) as Hq by (apply Z.div_pos; lia).
  pose proof (Z.div_mod (pos / 512) spc ltac:(unfold spc; lia)) as Hdm. rewrite Hci in Hdm.
  pose proof (Z.mod_pos_bound (pos / 512) spc ltac:(unfold spc; lia)) as Hm.
  assert (0 <= ci < clusters) as Hcir.
  { split; [rewrite <- Hci; apply Z.div_pos; [lia|unfold spc; lia]|].
    assert (pos / 512 * 512 <= pos) by word_lia. nia. }
  destruct (Hchain ci) as [-> _]; [unfold clusters in Hcir; lia|].
  pose proof Hs as [-> _]. rewrite Hbps. fold spc.
  set (n := Z.to_nat (spc - (pos / 512) mod spc)).
  destruct (read_sectors_spec pos0 L n ci out pos s H0' Hmax Hcir ltac:(lia) Hs Hp) as
    (out1 & pos1 & s1 & Hr & Hs1 & Hp1 & Hend); [right; left; lia|].
  replace (spc - Z.of_nat n) with ((pos / 512) mod spc) in Hr by lia. rewrite Hr.
  destruct (decide (Z.of_nat (length out1) = L)) as [Hfull|Hmore].
  - destruct (next_in_file ci s1 Hs1 Hcir) as (s2 & -> & Hs2).
    apply (IH ci); [done|done|lia|lia].
  - destruct Hend as [|Hpos1]; [lia|]. pose proof (pg_pos _ _ _ _ Hp1) as Hp1'. pose proof (pg_len _ _ _ _ Hp1).
    assert (ci + 1 < clusters) as Hnext by nia.
    destruct (next_in_chain ci s1 Hs1 ltac:(lia) Hnext) as (s2 & -> & Hs2).
    apply (IH (ci + 1)); [done|done| |].
    + assert (pos < pos1); [|lia]. rewrite Hpos1. assert (pos < (pos / 512 + 1) * 512) by word_lia. nia.
    + intros _. split; [|done]. rewrite Hpos1, Z.div_mul by lia. apply Z.div_mul. unfold spc. lia.
Qed.
(** Reading the file whose clusters are [chain], from its position on. *)
Lemma read_file_at s file len :
  at_fs s -> mounted f = true -> directory file = false -> first_cluster file = chain.[0] ->
  0 <= position file < size file -> size file < 2147483648 -> size file <= clusters * spc * 512 -> 0 <= len ->
  let n := Z.min len (size file - position file) in
  exists s', fat32_read_file blk (Some file) len s =
      (n, file_byte <$> seqZ (position file) n,
       Some (mkFile (first_cluster file) (size file) (position file + n) false), s') /\ at_fs s'.
Proof using Hbps Hspc Hchain Hlink H0.
  intros Hs Hm Hdir Hfc Hpos Hsz Hfit Hlen n. pose proof Hs as (Hf & _).
  unfold fat32_read_file. rewrite Hf, Hm, Hdir. cbn [negb orb].
  destruct (Z.leb_spec (size file) (position file)); [lia|].
  assert ((if size file - position file <? len then size file - position file else len) = n) as ->
    by (unfold n; case_match; lia).
  rewrite Hbps. fold spc. assert (0 < spc < 256) as Hspc' by done.
  rewrite (u32_small (spc * 512)) by (unfold is_u32; lia).
  assert (position file / (spc * 512) = position file / 512 / spc) as ->
    by (rewrite Z.div_div by lia; f_equal; lia).
  set (ci := position file / 512 / spc).
  assert (0 <= ci) as Hci by (unfold ci; repeat apply Z.div_pos; lia).
  assert (ci < clusters) as Hcl.
  { pose proof (Z.mul_div_le (position file / 512) spc ltac:(lia)) as Hle. fold ci in Hle.
    assert (position file / 512 * 512 <= position file) by word_lia. nia. }
  destruct (skip_chain (Z.to_nat ci) 0 s Hs ltac:(lia) ltac:(lia)) as (s1 & Hskip & Hs1).
  rewrite Hfc, Hskip. replace (0 + Z.of_nat (Z.to_nat ci)) with ci by lia.
  destruct (read_clusters_spec (position file) n (Z.to_nat n) ci chain.[ci] [] (position file) s1)
    as (out & pos & s2 & -> & Hs2 & [Hp _ Ho] & Hfull); [lia..|exact Hs1| |cbn; lia|done|].
  { split; cbn; [lia|lia|done]. }
  exists s2. split; [|exact Hs2]. rewrite Hfull in Hp, Ho. rewrite Hfull, <- Ho, Hp, i32_small by lia. by rewrite <- Hfc.
Qed.
End file.

(** C17: reading an open file on a mounted volume returns exactly the bytes of its
    cluster chain from the file position on: as many as were asked for or, near the
    end, as are left of the file; the position advances by that number and nothing else
    of the volume changes. *)
Theorem fat32_read_file_correct s file len chain :
  let f := fs s in let w := dev s in
  usable s -> mounted f = true -> bytes_per_sector f = 512 -> 0 < sectors_per_cluster f < 256 ->
  (forall i, 0 <= i < Z.of_nat (length chain) ->
     valid_cluster chain.[i] = true /\ cluster_lba f chain.[i] + sectors_per_cluster f <= disk_end blk /\
     link_lba f chain.[i] < disk_end blk) ->
  (forall i, 0 <= i -> i + 1 < Z.of_nat (length chain) -> fat_link f w chain.[i] = chain.[i + 1]) ->
  directory file = false -> first_cluster file = chain.[0] ->
  0 <= position file < size file -> size file < 2147483648 ->
  size file <= Z.of_nat (length chain) * sectors_per_cluster f * 512 -> 0 <= len ->
  let n := Z.min len (size file - position file) in
  exists s', fat32_read_file blk (Some file) len s =
      (n, file_byte f w chain <$> seqZ (position file) n,
       Some (mkFile (first_cluster file) (size file) (position file + n) false), s') /\
    fs s' = f /\ same_disk w (dev s') /\ usable s'.
Proof.
  intros f w Hus Hm Hb Hspc Hchain Hlink Hdir Hfc Hpos Hsz Hfit Hlen n.
  destruct (read_file_at f w chain Hb Hspc Hchain Hlink s file len) as (s' & -> & Hs'); [by split_and!|done..|].
  by exists s'.
Qed.
End read.

(** ** A small volume

    One-sector clusters, the FAT in sector 10, data from sector 20 on; a file in
    clusters 3 and 4, and a root directory in cluster 2 that holds one file entry. *)
Definition demo_fat : fat := mkFat 0 10 20 1 512 1 2 true.
Definition demo_dirent : list Z :=
  [72; 69; 76; 76; 79; 32; 32; 32; 84; 88; 84; 32] ++ replicate 14 0 ++ [3; 0; 88; 2; 0; 0].
Definition demo_volume : gmap Z (list Z) :=
  <[10 := replicate 8 0 ++ [248; 255; 255; 15; 4; 0; 0; 0; 248; 255; 255; 15]]>
  (<[20 := demo_dirent]> (<[21 := replicate 512 65]> (<[22 := replicate 512 66]> ∅))).
Definition demo_state : @fstate (gmap Z (list Z)) := mkF demo_fat (replicate 512 0) demo_volume.

Lemma fat32_read_file_correct_witness :
  exists s', fat32_read_file ram_block (Some (mkFile 3 600 510 false)) 4 demo_state =
    (4, [65; 65; 66; 66], Some (mkFile 3 600 514 false), s').
Proof.
  destruct (fat32_read_file_correct ram_block demo_state (mkFile 3 600 510 false) 4 [3; 4]) as (s' & Hr & _).
  - split; [exact I|reflexivity].
  - reflexivity.
  - reflexivity.
  - cbn. lia.
  - intros i Hi. cbn in Hi. assert (i = 0 \/ i = 1) as [->| ->] by lia; vm_compute; split_and!; (reflexivity || discriminate).
  - intros i H1 H2. cbn in H2. assert (i = 0) as -> by lia. vm_compute. reflexivity.
  - reflexivity.
  - reflexivity.
  - cbn. lia.
  - cbn. lia.
  - cbn. lia.
  - lia.
  - exists s'. rewrite Hr. vm_compute. reflexivity.
Defined.

(** Opening and reading through the directory. *)
Lemma demo_open :
  match fat32_open ram_block 2 (Some [47; 104; 101; 108; 108; 111; 46; 116; 120; 116]) demo_state with
  | Some (Some f, _) => f = mkFile 3 600 0 false
  | _ => False
  end.
Proof. vm_compute. reflexivity. Qed.

(** Listing the root directory reports subdirectories only: no index of a volume
    whose root holds just the regular file HELLO.TXT yields an entry, although opening
    the file by name succeeds. *)
Theorem readdir_skips_files index :
  0 <= index < 16 ->
  match fat32_readdir ram_block 2 index 13 demo_state with
  | Some (Missing, _) => True
  | _ => False
  end.
Proof.
  intros Hi.
  assert (forallb (fun index => match fat32_readdir ram_block 2 index 13 demo_state with
    | Some (Missing, _) => true | _ => false end) (seqZ 0 16) = true) as Hall by (vm_compute; reflexivity).
  pose proof (forall_seqZ _ _ _ Hall index ltac:(lia)) as Hb. cbv beta in Hb.
  destruct (fat32_readdir _ _ _ _ _) as [[[| |] ?]|]; done.
Qed.

Lemma readdir_skips_files_witness :
  match fat32_readdir ram_block 2 0 13 demo_state with Some (Missing, _) => True | _ => False end.
Proof. apply (readdir_skips_files 0). lia. Defined.

(** ** Names *)
(** A character of a canonical 8.3 name. *)
Definition name_char (c : Z) : Prop := c <> 47 /\ c <> 46 /\ c <> 32 /\ ~ (97 <= c <= 122).

Lemma upper_id c : name_char c -> upper c = c.
Proof. intros (_ & _ & _ & Hc). unfold upper. case_match; lia. Qed.

Lemma base_83_dot n b r :
  Forall name_char b -> (length b <= n)%nat ->
  base_83 n (b ++ 46 :: r) = (b, if (length b <? n)%nat then r else 46 :: r).
Proof.
  revert b. induction n as [|n IH]; intros [|c b] Hb Hl; cbn [length] in *; [done|lia|done|].
  inversion Hb as [|? ? Hc Hb']; subst. cbn [app base_83].
  destruct (Z.eqb_spec c 47); [by destruct Hc|]. rewrite upper_id by done.
  destruct (Z.eqb_spec c 46); [by destruct Hc as (_ & ? & _)|].
  rewrite IH by (done || lia). done.
Qed.

Lemma ext_83_id n e : Forall name_char e -> (length e <= n)%nat -> ext_83 n e = e.
Proof.
  revert e. induction n as [|n IH]; intros [|c e] He Hl; cbn [length] in *; [done|lia|done|].
  inversion He as [|? ? Hc He']; subst. cbn [ext_83].
  destruct (Z.eqb_spec c 47); [by destruct Hc|]. rewrite upper_id, IH by (done || lia). done.
Qed.

Lemma make_83_name b e :
  Forall name_char b -> Forall name_char e -> (length b <= 8)%nat -> (0 < length e <= 3)%nat ->
  make_83 (b ++ 46 :: e) = pad 8 b ++ pad 3 e.
Proof.
  intros Hb He Hlb Hle. unfold make_83. rewrite base_83_dot by done.
  destruct e as [|c e]; [cbn in Hle; lia|]. inversion He as [|? ? (_ & Hdot & _) _]; subst.
  assert ((if (length b <? 8)%nat then c :: e else 46 :: c :: e) = c :: e \/
          (if (length b <? 8)%nat then c :: e else 46 :: c :: e) = 46 :: c :: e) as [-> | ->]
    by (destruct (length b <? 8)%nat; auto).
  - assert (match c :: e with 46 :: r' => r' | _ => c :: e end = c :: e) as ->.
    { destruct c as [|p|p]; try done. repeat (destruct p as [p|p|]; try done). }
    by rewrite ext_83_id by (done || apply Hle).
  - by rewrite ext_83_id by (done || apply Hle).
Qed.

Lemma until_blank_pad n room l x :
  Forall name_char l -> (length l <= n)%nat -> (length l <= room)%nat -> (length l < n \/ n <= length l)%nat ->
  until_blank n room (pad n l ++ x) = l.
Proof.
  unfold pad. revert room l. induction n as [|n IH]; intros room [|c l] Hl H1 H2 _; cbn [length] in *.
  - done.
  - lia.
  - destruct room; reflexivity.
  - destruct room as [|room]; [lia|]. inversion Hl as [|? ? Hc Hl']; subst. cbn [app until_blank Nat.sub].
    destruct (Z.eqb_spec c 32); [by destruct Hc as (_ & _ & ? & _)|]. f_equal.
    apply IH; [done|lia|lia|lia].
Qed.

Lemma pad_length n l : (length l <= n)%nat -> length (pad n l) = n.
Proof. intros Hl. unfold pad. rewrite length_app, length_replicate. lia. Qed.

(** The two name conversions are inverse on canonical names: a path component
    NAME.EXT of up to eight and up to three upper-case characters, turned into its
    directory form and printed back into a 13-byte buffer, is the same string. *)
Theorem short_name_roundtrip b e :
  Forall name_char b -> Forall name_char e -> (length b <= 8)%nat -> (0 < length e <= 3)%nat ->
  short_name (make_83 (b ++ 46 :: e)) 13 = b ++ 46 :: e.
Proof.
  intros Hb He Hlb Hle. rewrite make_83_name by done. unfold short_name. change (Z.to_nat (13 - 1)) with 12%nat.
  rewrite until_blank_pad by (done || lia).
  assert ((pad 8 b ++ pad 3 e).[8] = e.[0]) as E8.
  { unfold aget. rewrite !list_lookup_total_alt, lookup_app_r by (rewrite pad_length; lia).
    rewrite pad_length by done. change (Z.to_nat 8 - 8)%nat with 0%nat. unfold pad.
    by rewrite lookup_app_l by lia. }
  rewrite E8. destruct e as [|c e]; [cbn in Hle; lia|]. cbn [aget lookup_total list_lookup_total Z.to_nat].
  inversion He as [|? ? (_ & _ & Hc & _) _]; subst.
  change ((c :: e).[0]) with c. destruct (Z.eqb_spec c 32); [done|].
  destruct (Nat.ltb_spec (length b) 12); [|lia]. cbn [negb andb]. do 2 f_equal.
  rewrite drop_app_ge by (rewrite pad_length; lia). rewrite pad_length by done.
  change (drop (8 - 8) (pad 3 (c :: e))) with (pad 3 (c :: e)). rewrite <- (app_nil_r (pad 3 (c :: e))).
  apply until_blank_pad; [done|lia|lia|lia].
Qed.

Lemma short_name_roundtrip_witness :
  short_name (make_83 [75; 69; 82; 78; 69; 76; 46; 69; 76; 70]) 13 = [75; 69; 82; 78; 69; 76; 46; 69; 76; 70].
Proof.
  apply (short_name_roundtrip [75; 69; 82; 78; 69; 76] [69; 76; 70]);
    [repeat constructor; lia|repeat constructor; lia|cbn; lia|cbn; lia].
Defined.

(** ** A directory that never ends *)
Definition loop_volume : gmap Z (list Z) :=
  <[10 := replicate 8 0 ++ [2; 0; 0; 0]]> (<[20 := replicate 512 229]> ∅).

(** Only deleted entries: the scan of the sector finds nothing and counts nothing. *)
Lemma scan_deleted q offs sec index :
  (forall e, e ∈ offs -> sec.[e] = 229) -> (forall e, e ∈ offs -> 0 <= e) ->
  scan_entries q offs sec index = inr index.
Proof.
  intros Hdel Hpos. induction offs as [|e offs IH]; [done|]. cbn [scan_entries].
  assert ((drop (Z.to_nat e) sec).[0] = 229) as E0.
  { rewrite <- (Hdel e) by (by left). unfold aget. rewrite !list_lookup_total_alt, lookup_drop.
    do 2 f_equal. lia. }
  unfold scan_entry. rewrite E0. cbn [Z.eqb orb Pos.eqb]. apply IH; intros; [apply Hdel|apply Hpos]; by right.
Qed.

Lemma loop_entries q index :
  scan_entries q (entry_offsets demo_fat) (sector_at loop_volume 20) index = inr index.
Proof.
  assert (forallb (fun e => (0 <=? e) && (e <? 512)) (entry_offsets demo_fat) = true) as Hoff by reflexivity.
  rewrite forallb_forall in Hoff.
  assert (forall e, e ∈ entry_offsets demo_fat -> 0 <= e < 512) as Hr.
  { intros e He. apply list_elem_of_In, Hoff in He. lia. }
  apply scan_deleted; intros e He; specialize (Hr e He); [|lia].
  change (sector_at loop_volume 20) with (ram_sector loop_volume 20).
  assert (ram_sector loop_volume 20 = replicate 512 229) as -> by reflexivity.
  apply aget_replicate. lia.
Qed.

Lemma loop_step fuel q index s :
  fs s = demo_fat -> same_disk (b := ram_block) loop_volume (dev s) -> usable ram_block s ->
  scan_clusters ram_block fuel q 2 index s = None.
Proof.
  revert index s. induction fuel as [|fuel IH]; intros index s Hf Hd Hus; [done|].
  cbn [scan_clusters]. rewrite Hf. change (valid_cluster 2) with true. cbn [negb].
  change (Z.to_nat (sectors_per_cluster demo_fat)) with 1%nat. change (cluster_lba demo_fat 2) with 20.
  cbn [scan_sectors]. change (u32 20) with 20.
  destruct (load_sector_spec ram_block 20 s Hus) as (s1 & -> & (Hf1 & Hd1 & Hus1) & Es1); [split; [done|reflexivity]|].
  rewrite Es1, Hf1, Hf, (Hd _). cbn [Z.eqb negb]. rewrite loop_entries.
  destruct (next_cluster_eq ram_block 2 s1) as (s2 & -> & Hf2 & Hd2 & Hus2);
    [by rewrite Hf1, Hf|done|rewrite Hf1, Hf; reflexivity|].
  assert (fat_link ram_block (fs s1) (dev s1) 2 = 2) as ->.
  { rewrite Hf1, Hf. rewrite <- Hd1, <- Hd. reflexivity. }
  change (FAT32_EOC <=? 2) with false. cbv iota. apply IH; [congruence| |done].
  etrans; [exact Hd|]. by etrans.
Qed.

(** A root directory whose cluster chain links back to itself and has no end mark
    keeps [scan_root] going for ever: no number of cluster visits is enough, so
    opening any file on such a volume hangs. *)
Theorem scan_root_cyclic_hangs fuel path :
  fat32_open ram_block fuel (Some (65 :: path)) (mkF demo_fat (replicate 512 0) loop_volume) = None.
Proof.
  unfold fat32_open. cbn [mounted fs demo_fat negb skip_slashes]. change (65 =? 47) with false. cbv iota.
  unfold scan_root. by rewrite loop_step.
Qed.
