(* ===== verification/FatDir.v ===== *)
(** Mounting a FAT32 volume and opening its files, [fs/fat32/fat32.c], on any device that
    satisfies [DiskLaws]: what [fat32_mount] accepts and computes, and that [fat32_open]
    is the search of the directory as a list of entries. *)
From S2P Require Import Prelude Block Journal Fat32.

(** ** The boot sector *)
(** Where the volume starts: the first FAT32 partition, or sector 0. *)
Definition partition_of (sec : list Z) : Z :=
  if (sec.[510] =? 85) && (sec.[511] =? 170) && negb (sec.[450] =? 0) then default 0 (find_partition 4 0 sec) else 0.

Definition bpb_valid (sec : list Z) : bool :=
  (le16_at sec 11 =? 512) && negb (sec.[13] =? 0) && negb (sec.[16] =? 0) && negb (le32_at sec 36 =? 0)
  && valid_cluster (le32_at sec 44).

(** The volume a valid boot sector describes: the FATs follow the reserved sectors, the
    data follows the FATs. *)
Definition bpb_fat (part : Z) (sec : list Z) : fat :=
  let first := u32 (part + le16_at sec 14) in
  mkFat part first (u32 (first + sec.[16] * le32_at sec 36)) sec.[13] (le16_at sec 11) (le32_at sec 36) (le32_at sec 44) true.

(** ** Directories as lists *)
(** The sixteen entries of a sector. *)
Definition dirents (sec : list Z) : list (list Z) := (fun k => take 32 (drop (Z.to_nat (k * 32)) sec)) <$> seqZ 0 16.

(** An entry of a regular file: not deleted, not part of a long name, no label, no
    directory. *)
Definition is_file (e : list Z) : bool :=
  negb (e.[0] =? 229) && negb (e.[11] =? 15) && (Z.land e.[11] 8 =? 0) && (Z.land e.[11] 16 =? 0).
Definition entry_file (e : list Z) : fat32_file :=
  mkFile (Z.lor (Z.shiftl (le16_at e 20) 16) (le16_at e 26)) (le32_at e 28) 0 false.

(** The file named [name]: its first entry before the end mark. *)
Fixpoint dir_find (name : list Z) (es : list (list Z)) : option fat32_file :=
  match es with
  | [] => None
  | e :: es =>
      if e.[0] =? 0 then None
      else if is_file e && bool_decide (take 11 e = take 11 name) then Some (entry_file e)
      else dir_find name es
  end.

(** The scan of the driver over a list of entries. *)
Fixpoint scan_list (q : query) (es : list (list Z)) (index : Z) : answer + Z :=
  match es with
  | [] => inr index
  | e :: es => match scan_entry q e index with inl a => inl a | inr index => scan_list q es index end
  end.

Lemma scan_list_app q es1 es2 index :
  scan_list q (es1 ++ es2) index =
    match scan_list q es1 index with inl a => inl a | inr index => scan_list q es2 index end.
Proof.
  revert index. induction es1 as [|e es1 IH]; intros index; cbn [app scan_list]; [done|].
  by destruct (scan_entry q e index).
Qed.

(** Looking for a name reads only the 32 bytes of an entry. *)
Lemma scan_entry_take name d index : scan_entry (ByName name) (take 32 d) index = scan_entry (ByName name) d index.
Proof.
  unfold scan_entry, le16_at, le32_at. rewrite !aget_take by lia. rewrite take_take. done.
Qed.

Lemma scan_entries_list name sec index :
  scan_entries (ByName name) ((fun k => k * 32) <$> seqZ 0 16) sec index = scan_list (ByName name) (dirents sec) index.
Proof.
  unfold dirents. generalize (seqZ 0 16). intros l. revert index.
  induction l as [|k l IH]; intros index; [done|]. cbn [fmap list_fmap scan_entries scan_list].
  rewrite scan_entry_take. by destruct (scan_entry _ _ _).
Qed.

(** The answer of a search that ran through the entries. *)
Definition settled (r : answer + Z) : answer := match r with inl a => a | inr _ => Missing end.
Definition found (a : answer) : option fat32_file := match a with Found f => Some f | _ => None end.

Lemma scan_list_find name es index : found (settled (scan_list (ByName name) es index)) = dir_find name es.
Proof.
  revert index. induction es as [|e es IH]; intros index; [done|]. cbn [scan_list dir_find]. unfold scan_entry.
  destruct (e.[0] =? 0); [done|]. unfold is_file.
  destruct (e.[0] =? 229), (e.[11] =? 15), (Z.land e.[11] 8 =? 0); cbn [orb negb andb]; try apply IH.
  destruct (Z.land e.[11] 16 =? 0); cbn [negb andb]; [|apply IH].
  destruct (bool_decide _); [done|apply IH].
Qed.

Section volume.
Context {W : Type} (blk : block W) `{DiskLaws W blk}.
Implicit Types s : @fstate W.

(** Mounting reads the boot sector of the volume, found through the partition table, and
    succeeds exactly when it describes a volume the driver can read, whose geometry is
    then the driver's; a refused volume leaves the driver unmounted if it was, and no
    sector of the disk changes. *)
Theorem fat32_mount_spec s :
  usable blk s -> 0 < disk_end blk ->
  let w := dev s in let part := partition_of (sector_at w 0) in let sec := sector_at w part in
  0 <= part < disk_end blk ->
  exists s', fat32_mount blk s = (if bpb_valid sec then 0 else -1, s') /\
    same_disk (b := blk) w (dev s') /\ usable blk s' /\
    if bpb_valid sec then fs s' = bpb_fat part sec else mounted (fs s') = mounted (fs s).
Proof using H0.
  intros Hus He w part sec Hp. unfold fat32_mount. pose proof (disk_present (b := blk)) as Hd.
  destruct (block_default blk) as [d|]; [clear Hd|done].
  destruct (load_sector_spec blk 0 s Hus ltac:(lia)) as (s1 & -> & (F1 & D1 & U1) & E1). cbn [Z.eqb negb].
  cbn zeta. rewrite E1. fold w.
  match goal with |- context [load_sector blk ?l _] => change l with part end.
  match goal with |- context [load_sector blk part ?x] => set (s2 := x) end.
  assert (usable blk s2) as U2 by (split; [apply U1|apply disk_sector]).
  destruct (load_sector_spec blk part s2 U2 Hp) as (s3 & -> & (F3 & D3 & U3) & E3). cbn [Z.eqb negb].
  change (dev s2) with (dev s1) in *. rewrite (D1 _) in E3. fold w sec in E3. rewrite E3.
  set (bad := negb _ || _ || _ || _ || _).
  assert (bad = negb (bpb_valid sec)) as ->
    by (unfold bad, bpb_valid; rewrite !negb_andb, !negb_involutive; done).
  assert (usable blk (mkF (fs s1) sec (dev s3))) as U4 by (split; [apply U3|apply disk_sector]).
  assert (same_disk (b := blk) w (dev s3)) as D4 by (by etrans).
  destruct (bpb_valid sec); cbn [negb]; eexists; (split; [reflexivity|]).
  - split; [done|]. split; [exact U4|]. done.
  - split; [done|]. split; [exact U4|]. cbn [fs mounted]. rewrite F3. cbn [fs mounted s2]. by rewrite F1.
Qed.

Section directory.
Context (f : fat) (w : W).
Hypothesis (Hbps : bytes_per_sector f = 512) (Hspc : 0 < sectors_per_cluster f < 256).

Definition cluster_dirents (c : Z) : list (list Z) :=
  concat ((fun k => dirents (sector_at w (cluster_lba f c + k))) <$> seqZ 0 (sectors_per_cluster f)).
Definition dir_entries (chain : list Z) : list (list Z) := concat (cluster_dirents <$> chain).

(** A cluster of the volume, with its link, lies on the disk. *)
Definition on_disk (c : Z) : Prop :=
  valid_cluster c = true /\ cluster_lba f c + sectors_per_cluster f <= disk_end blk /\ link_lba f c < disk_end blk.

(** The clusters from the first to one with an end mark. *)
Fixpoint ended_chain (chain : list Z) : Prop :=
  match chain with
  | [] => False
  | c :: rest =>
      on_disk c /\
      match rest with
      | [] => FAT32_EOC <= fat_link blk f w c
      | c' :: _ => fat_link blk f w c = c' /\ ended_chain rest
      end
  end.

Lemma scan_sectors_spec name n lba index s :
  at_fs blk f w s -> 0 <= lba -> lba + Z.of_nat n <= disk_end blk ->
  exists s', scan_sectors blk (ByName name) n lba index s =
    (scan_list (ByName name) (concat ((fun k => dirents (sector_at w (lba + k))) <$> seqZ 0 (Z.of_nat n))) index, s') /\ at_fs blk f w s'.
Proof using H0 Hbps.
  revert lba index s. induction n as [|n IH]; intros lba index s Hs Hl He; cbn [scan_sectors]; [by exists s|].
  pose proof (disk_range (b := blk)). pose proof Hs as (Hf & Hd & Hus).
  rewrite (u32_small lba) by (unfold is_u32; lia).
  destruct (load_sector_spec blk lba s Hus ltac:(lia)) as (s1 & -> & Hs1 & E1). cbn [Z.eqb negb].
  assert (at_fs blk f w s1) as Ha1 by (by eapply at_fs_same). pose proof Ha1 as (Hf1 & _).
  unfold entry_offsets. rewrite Hf1, Hbps, E1, (Hd _). change (512 / 32) with 16. rewrite scan_entries_list.
  replace (Z.of_nat (S n)) with (1 + Z.of_nat n) by lia. rewrite seqZ_app by lia.
  assert (seqZ 0 1 = [0]) as -> by reflexivity. cbn [app]. rewrite fmap_cons. cbn [concat]. rewrite scan_list_app, Z.add_0_r.
  destruct (scan_list _ (dirents _) _) as [a|index1]; [by exists s1|].
  destruct (IH (lba + 1) index1 s1 Ha1 ltac:(lia) ltac:(lia)) as (s2 & -> & Ha2). exists s2. split; [|done].
  do 3 f_equal. rewrite <- (fmap_add_seqZ 1 0), <- list_fmap_compose. apply list_fmap_ext. intros i k _. cbn [compose].
  do 2 f_equal. lia.
Qed.

Lemma scan_clusters_spec name fuel chain index s :
  at_fs blk f w s -> ended_chain chain -> (length chain <= fuel)%nat ->
  exists s', scan_clusters blk fuel (ByName name) chain.[0] index s =
    Some (settled (scan_list (ByName name) (dir_entries chain) index), s') /\ at_fs blk f w s'.
Proof using H0 Hbps Hspc.
  revert fuel index s. induction chain as [|c chain IH]; intros fuel index s Hs Hc Hfuel; [done|].
  destruct fuel as [|fuel]; [cbn in Hfuel; lia|]. destruct Hc as [(Hv & Hend & Hlink) Hrest].
  change ((c :: chain).[0]) with c. cbn [scan_clusters]. rewrite Hv. cbn [negb]. pose proof Hs as (Hf & Hd & Hus).
  rewrite Hf. pose proof (u32_range (data_lba f + u32 (c - 2) * sectors_per_cluster f)) as Hr.
  destruct (scan_sectors_spec name (Z.to_nat (sectors_per_cluster f)) (cluster_lba f c) index s Hs) as (s1 & -> & Hs1);
    [apply Hr|lia|].
  rewrite Z2Nat.id by lia. unfold dir_entries. cbn [fmap list_fmap concat]. rewrite scan_list_app.
  fold (cluster_dirents c). destruct (scan_list _ (cluster_dirents c) _) as [a|index1]; [by exists s1|].
  pose proof Hs1 as (Hf1 & Hd1 & Hus1).
  destruct (next_cluster_eq blk c s1) as (s2 & -> & Hs2); [by rewrite Hf1|done|by rewrite Hf1|].
  assert (fat_link blk (fs s1) (dev s1) c = fat_link blk f w c) as -> by (rewrite Hf1; by rewrite <- Hd1).
  assert (at_fs blk f w s2) as Ha2 by (by eapply at_fs_same).
  destruct chain as [|c' chain].
  - destruct (Z.leb_spec FAT32_EOC (fat_link blk f w c)); [|lia]. by exists s2.
  - destruct Hrest as [-> Hrest]. destruct (Z.leb_spec FAT32_EOC c') as [Hbad|_].
    { destruct Hrest as [(Hv' & _) _]. unfold valid_cluster, FAT32_MAX_CLUSTER, FAT32_EOC in *. lia. }
    destruct (IH fuel index1 s2 Ha2 Hrest) as (s3 & E3 & Hs3); [cbn in *; lia|].
    change ((c' :: chain).[0]) with c' in E3. exists s3. by rewrite E3.
Qed.
(** Opening a path, on a driver whose disk has the sectors of [w]. *)
Lemma open_at s path chain fuel :
  at_fs blk f w s -> mounted f = true -> ended_chain chain -> root_cluster f = chain.[0] -> (length chain <= fuel)%nat ->
  skip_slashes path <> [] ->
  exists s', fat32_open blk fuel (Some path) s = Some (dir_find (make_83 (skip_slashes path)) (dir_entries chain), s') /\
    at_fs blk f w s'.
Proof using H0 Hbps Hspc.
  intros Hs Hm Hc Hroot Hfuel Hp. pose proof Hs as (Hf & _). unfold fat32_open. rewrite Hf, Hm. cbn [negb].
  destruct (skip_slashes path) as [|x p]; [done|]. set (name := make_83 _). unfold scan_root. rewrite Hf, Hroot.
  destruct (scan_clusters_spec name fuel chain 0 s) as (s' & -> & Hs'); [done..|].
  exists s'. split; [|exact Hs']. rewrite <- (scan_list_find name (dir_entries chain) 0).
  by destruct (settled _).
Qed.
End directory.

(** C18: opening a file searches the root directory as a list: on a mounted volume whose
    root chain ends, [fat32_open] returns, and finds exactly the first entry of a regular
    file with the 8.3 form of the name before the end mark, with its first cluster and
    size; or reports that there is none.  The number of clusters of the chain is enough
    fuel, and no sector changes. *)
Theorem fat32_open_finds s path chain fuel :
  let f := fs s in let w := dev s in
  usable blk s -> mounted f = true -> bytes_per_sector f = 512 -> 0 < sectors_per_cluster f < 256 ->
  ended_chain f w chain -> root_cluster f = chain.[0] -> (length chain <= fuel)%nat -> skip_slashes path <> [] ->
  exists s', fat32_open blk fuel (Some path) s =
      Some (dir_find (make_83 (skip_slashes path)) (dir_entries f w chain), s') /\
    fs s' = f /\ same_disk (b := blk) w (dev s') /\ usable blk s'.
Proof using H0.
  intros f w Hus Hm Hb Hspc Hc Hroot Hfuel Hp.
  destruct (open_at f w Hb Hspc s path chain fuel) as (s' & -> & Hs'); [by split_and!|done..|]. by exists s'.
Qed.
End volume.

(** The root directory of [Fat32.demo_volume], one cluster, and a path with a slash. *)
Lemma fat32_open_finds_witness :
  exists s', fat32_open ram_block 1 (Some [47; 72; 69; 76; 76; 79; 46; 84; 88; 84]) demo_state =
    Some (Some (mkFile 3 600 0 false), s').
Proof.
  destruct (fat32_open_finds ram_block demo_state [47; 72; 69; 76; 76; 79; 46; 84; 88; 84] [2] 1) as (s' & Ho & _).
  - split; [exact I|reflexivity].
  - reflexivity.
  - reflexivity.
  - cbn. lia.
  - vm_compute. split_and!; (reflexivity || discriminate).
  - reflexivity.
  - cbn. lia.
  - discriminate.
  - exists s'. rewrite Ho. vm_compute. reflexivity.
Defined.
