(* ===== verification/Vfs.v ===== *)
(** File descriptors, [fs/vfs.c] and [include/vfs.h]: a table of eight descriptors for
    each of 32 process slots; 0 to 2 are the console, 3 the raw first disk, 4 to 7 files.

    The state contains the FAT driver with the device behind it, the screen, and the two
    directions of the serial port.  Buffers are byte lists; a read returns the bytes
    stored in the caller's buffer. *)
From S2P Require Import Prelude Block Journal Fat32 Console.

Definition VFS_MAX_PROCESSES : Z := 32.
Definition VFS_FD_RAW_HDA : Z := 3.
Definition VFS_FD_FIRST_FILE : Z := 4.
#[export] Hint Unfold VFS_MAX_PROCESSES VFS_FD_RAW_HDA VFS_FD_FIRST_FILE : kconst.

Record vfs_file := mkVfsFile {
  fname : option (list Z); flags : Z; vposition : Z; kind : Z; ffile : fat32_file;
}.
Definition no_file : fat32_file := mkFile 0 0 0 false.
#[global] Instance vfs_file_inhabited : Inhabited vfs_file := populate (mkVfsFile None 0 0 0 no_file).
#[global] Instance vfs_table_inhabited : Inhabited (list vfs_file) := populate [].

Definition hda : list Z := [104; 100; 97].
Definition fat_file_name : list Z := [102; 97; 116; 45; 102; 105; 108; 101].

(** [pid & 0xff], less one; slot 0 for what does not fit. *)
Definition slot_for_pid (pid : Z) : Z :=
  let slot := Z.land pid 255 in
  if slot =? 0 then 0 else if slot - 1 <? VFS_MAX_PROCESSES then slot - 1 else 0.

Section vfs.
Context {W : Type}.
Variable blk : block W.

Record vfs := mkVfs {
  files : list (list vfs_file);
  vsector : list Z;
  active_pid : Z;
  fatfs : @fstate W;
  screen : vga;
  serial_in : list Z;
  serial_out : list Z;
}.
Implicit Types v : vfs.

Definition with_files (l : list (list vfs_file)) v : vfs :=
  mkVfs l (vsector v) (active_pid v) (fatfs v) (screen v) (serial_in v) (serial_out v).
Definition with_fatfs (f : @fstate W) v : vfs :=
  mkVfs (files v) (vsector v) (active_pid v) f (screen v) (serial_in v) (serial_out v).
Definition with_vsector (s : list Z) v : vfs :=
  mkVfs (files v) s (active_pid v) (fatfs v) (screen v) (serial_in v) (serial_out v).
Definition with_dev (w : W) v : vfs := with_fatfs (mkF (fs (fatfs v)) (sector (fatfs v)) w) v.

Definition table v : list vfs_file := (files v).[slot_for_pid (active_pid v)].
(** [t[fd] = e] in the active process's table *)
Definition set_entry (fd : Z) (e : vfs_file) v : vfs :=
  with_files ((files v).[slot_for_pid (active_pid v) <- (table v).[fd <- e]]) v.

Definition vfs_set_process (pid : Z) v : vfs :=
  mkVfs (files v) (vsector v) (if pid =? 0 then 1 else pid) (fatfs v) (screen v) (serial_in v) (serial_out v).

(** [name = 0; kind = 0; position = 0] *)
Definition clear_entry (e : vfs_file) : vfs_file := mkVfsFile None (flags e) 0 0 (ffile e).

Definition vfs_init v : vfs :=
  let l := (fun t => clear_entry <$> t) <$> files v in
  let l := match block_default blk with
           | Some _ => (fun t => let e := t.[VFS_FD_RAW_HDA] in
                          t.[VFS_FD_RAW_HDA <- mkVfsFile (Some hda) (flags e) (vposition e) 1 (ffile e)]) <$> l
           | None => l
           end in
  with_files l v.

Definition vfs_inherit_process (parent child : Z) v : vfs :=
  let p := slot_for_pid parent in let c := slot_for_pid child in
  if (VFS_MAX_PROCESSES <=? p) || (VFS_MAX_PROCESSES <=? c) then v
  else with_files ((files v).[c <- (files v).[p]]) v.

Definition vfs_release_process (pid : Z) v : vfs :=
  let p := slot_for_pid pid in
  if VFS_MAX_PROCESSES <=? p then v
  else with_files ((files v).[p <- for_range VFS_FD_FIRST_FILE 8
         (fun i t => t.[i <- clear_entry t.[i]]) (files v).[p]]) v.

(** The first free descriptor from 4 on. *)
Definition free_fd (t : list vfs_file) : option Z :=
  find_from (fun i => match fname t.[i] with None => true | _ => false end) VFS_FD_FIRST_FILE 4.

Definition is_hda_path (n : list Z) : bool :=
  match n with 104 :: 100 :: 97 :: 47 :: _ => true | _ => false end.

(** [None]: the directory scan did not end within [fuel] clusters. *)
Definition vfs_open (fuel : nat) (name : option (list Z)) (f : Z) v : option (Z * vfs) :=
  match name with
  | None => Some (-1, v)
  | Some n =>
      let t := table v in
      match (if is_hda_path n && fat32_is_mounted (fatfs v) then free_fd t else None) with
      | Some i =>
          let e := t.[i] in
          let v := set_entry i (mkVfsFile (Some fat_file_name) f 0 2 (ffile e)) v in
          match fat32_open blk fuel (Some (drop 4 n)) (fatfs v) with
          | None => None
          | Some (Some file, s) =>
              Some (i, set_entry i (mkVfsFile (Some fat_file_name) f 0 2 file) (with_fatfs s v))
          | Some (None, s) =>
              Some (-1, set_entry i (mkVfsFile None f 0 2 (ffile e)) (with_fatfs s v))
          end
      | None =>
          if bool_decide (n = hda) then
            Some (match fname t.[VFS_FD_RAW_HDA] with Some _ => VFS_FD_RAW_HDA | None => -1 end, v)
          else
            match free_fd t with
            | Some i => Some (i, set_entry i (mkVfsFile (Some n) f 0 0 (ffile t.[i])) v)
            | None => Some (-1, v)
            end
      end
  end.

Definition vfs_close (fd : Z) v : Z * vfs :=
  let e := (table v).[fd] in
  if (fd <? VFS_FD_FIRST_FILE) || (8 <=? fd) || (match fname e with None => true | _ => false end) then (-1, v)
  else (0, set_entry fd (mkVfsFile None (flags e) (vposition e) 0 (ffile e)) v).

(** [t[3].position += n] *)
Definition advance (n : Z) v : vfs :=
  let e := (table v).[VFS_FD_RAW_HDA] in
  set_entry VFS_FD_RAW_HDA (mkVfsFile (fname e) (flags e) (u32 (vposition e + n)) (kind e) (ffile e)) v.

(** How many of the remaining bytes lie in the sector at hand. *)
Definition chunk (pos left : Z) : Z := if left <? 512 - pos mod 512 then left else 512 - pos mod 512.

(** [block_read_sector(lba, sector)] into the driver's own buffer *)
Definition vfs_load (lba : Z) v : Z * vfs :=
  let '(rc, buf, w) := block_read_sector blk lba (Some (vsector v)) (dev (fatfs v)) in
  (rc, with_dev w (with_vsector buf v)).

(** The raw read loop: every turn copies at least one byte. *)
Fixpoint raw_read (fuel : nat) (n : Z) (out : list Z) v : Z * list Z * vfs :=
  match fuel with
  | O => (i32 (Z.of_nat (length out)), out, v)
  | S fuel' =>
      let done_ := Z.of_nat (length out) in
      if done_ <? n then
        let pos := vposition (table v).[VFS_FD_RAW_HDA] in
        let take_ := chunk pos (n - done_) in
        let '(rc, v) := vfs_load (pos / 512) v in
        if negb (rc =? 0) then ((if done_ =? 0 then -1 else i32 done_), out, v)
        else raw_read fuel' n (out ++ ((fun i => (vsector v).[pos mod 512 + i]) <$> seqZ 0 take_)) (advance take_ v)
      else (i32 done_, out, v)
  end.

(** [serial_read]: a pending byte, if any. *)
Definition serial_read v : option Z * vfs :=
  match serial_in v with
  | c :: l => (Some c, mkVfs (files v) (vsector v) (active_pid v) (fatfs v) (screen v) l (serial_out v))
  | [] => (None, v)
  end.

(** [b]: the buffer pointer is not null. *)
Definition vfs_read (fd : Z) (b : bool) (n : Z) v : Z * list Z * vfs :=
  let e := (table v).[fd] in
  if negb b then (-1, [], v)
  else if (fd =? 0) && negb (n =? 0) then
    match serial_read v with
    | (Some c, v) => (1, [u8 c], v)
    | (None, v) => (0, [], v)
    end
  else if (fd =? VFS_FD_RAW_HDA) && (match fname e with Some _ => true | None => false end) then
    raw_read (Z.to_nat n) n [] v
  else if (VFS_FD_FIRST_FILE <=? fd) && (fd <? 8) && (kind e =? 2) then
    let '(rc, out, file, s) := fat32_read_file blk (Some (ffile e)) n (fatfs v) in
    (rc, out, set_entry fd (mkVfsFile (fname e) (flags e) (vposition e) (kind e) (default (ffile e) file))
                (with_fatfs s v))
  else (-1, [], v).

(** The raw write loop: partial sectors are read first. *)
Fixpoint raw_write (fuel : nat) (data : list Z) (done_ : Z) v : Z * vfs :=
  match fuel with
  | O => (i32 done_, v)
  | S fuel' =>
      let n := Z.of_nat (length data) in
      if done_ <? n then
        let pos := vposition (table v).[VFS_FD_RAW_HDA] in
        let off := pos mod 512 in
        let take_ := chunk pos (n - done_) in
        let '(rc, v) := if negb (off =? 0) || (take_ <? 512) then vfs_load (pos / 512) v else (0, v) in
        if negb (rc =? 0) then ((if done_ =? 0 then -1 else i32 done_), v)
        else
          let sec := for_range 0 take_ (fun i s => s.[off + i <- data.[done_ + i]]) (vsector v) in
          let v := with_vsector sec v in
          let '(rc, w) := block_write_sector blk (pos / 512) (Some sec) (dev (fatfs v)) in
          let v := with_dev w v in
          if negb (rc =? 0) then ((if done_ =? 0 then -1 else i32 done_), v)
          else raw_write fuel' data (done_ + take_) (advance take_ v)
      else (i32 done_, v)
  end.

Definition vfs_write (fd : Z) (buffer : option (list Z)) v : Z * vfs :=
  match buffer with
  | None => (-1, v)
  | Some data =>
  let n := Z.of_nat (length data) in
  if fd =? 1 then
    (i32 n, mkVfs (files v) (vsector v) (active_pid v) (fatfs v) (vga_write data (screen v)) (serial_in v) (serial_out v))
  else if fd =? 2 then
    (i32 n, mkVfs (files v) (vsector v) (active_pid v) (fatfs v) (screen v) (serial_in v) (serial_out v ++ data))
  else if (fd =? VFS_FD_RAW_HDA) && (match fname (table v).[fd] with Some _ => true | None => false end) then
    raw_write (length data) data 0 v
  else (-1, v)
  end.
End vfs.

(** ** The tables *)
Section tables.
Context {W : Type} (blk : block W).
Implicit Types v : @vfs W.

Definition tables_ok v : Prop :=
  length (files v) = 32%nat /\ forall p, 0 <= p < 32 -> length (files v).[p] = 8%nat.

Lemma slot_range pid : 0 <= slot_for_pid pid < 32.
Proof.
  unfold slot_for_pid. pose proof (land_bound 8 pid 255 ltac:(lia) ltac:(lia)).
  destruct (Z.eqb_spec (Z.land pid 255) 0); [lia|]. destruct (Z.ltb_spec (Z.land pid 255 - 1) VFS_MAX_PROCESSES); const_lia.
Qed.

Lemma set_entry_table fd e v :
  tables_ok v -> table (set_entry fd e v) = (table v).[fd <- e].
Proof.
  intros [Hl _]. unfold table, set_entry. cbn [files with_files active_pid].
  rewrite aget_aset_eq; [done|]. rewrite Hl. pose proof (slot_range (active_pid v)). lia.
Qed.

Lemma set_entry_ok fd e v : tables_ok v -> tables_ok (set_entry fd e v).
Proof.
  intros [Hl Hp]. split; cbn [files set_entry with_files]; [by rewrite aset_length|].
  intros p Hr. pose proof (slot_range (active_pid v)).
  rewrite (aget_aset (files v)) by (rewrite ?Hl; lia). destruct (Z.eqb_spec (slot_for_pid (active_pid v)) p) as [<-|].
  - unfold table. rewrite aset_length. by apply Hp.
  - by apply Hp.
Qed.

Lemma set_entry_other fd e v p :
  tables_ok v -> 0 <= p -> p <> slot_for_pid (active_pid v) -> (files (set_entry fd e v)).[p] = (files v).[p].
Proof.
  intros _ Hp Hne. cbn [files set_entry with_files]. pose proof (slot_range (active_pid v)).
  apply aget_aset_ne; lia.
Qed.

Lemma table_length v : tables_ok v -> length (table v) = 8%nat.
Proof. intros [_ Hp]. apply Hp, slot_range. Qed.

(** [v'] differs from [v] in nothing but entry [fd] of the active table and the file
    system behind it. *)
Definition only_entry (fd : Z) v v' : Prop :=
  tables_ok v' /\ active_pid v' = active_pid v /\ screen v' = screen v /\ serial_out v' = serial_out v /\
  (forall p, 0 <= p < 32 -> p <> slot_for_pid (active_pid v) -> (files v').[p] = (files v).[p]) /\
  (forall i, 0 <= i < 8 -> i <> fd -> (table v').[i] = (table v).[i]).

Lemma only_entry_set fd e f v :
  tables_ok v -> 0 <= fd < 8 -> only_entry fd v (set_entry fd e (with_fatfs f v)).
Proof.
  intros Hv Hfd. assert (tables_ok (with_fatfs f v)) as Hv' by exact Hv.
  split; [by apply set_entry_ok|]. split_and!; try done.
  - intros p Hp Hne. by rewrite set_entry_other by (done || lia).
  - intros i Hi Hne. rewrite set_entry_table by done. by apply aget_aset_ne; lia.
Qed.

Lemma only_entry_set' fd e v : tables_ok v -> 0 <= fd < 8 -> only_entry fd v (set_entry fd e v).
Proof.
  intros Hv Hfd. pose proof (only_entry_set fd e (fatfs v) v Hv Hfd) as Ho.
  by destruct v.
Qed.

Lemma only_entry_trans fd v v1 v2 : only_entry fd v v1 -> only_entry fd v1 v2 -> only_entry fd v v2.
Proof.
  intros (H1 & H2 & H3 & H4 & H5 & H6) (G1 & G2 & G3 & G4 & G5 & G6).
  split; [done|]. split_and!; try congruence.
  - intros p Hp Hne. rewrite G5, H5 by (congruence || done). done.
  - intros i Hi Hne. rewrite G6, H6 by done. done.
Qed.

Lemma free_fd_range t i : free_fd t = Some i -> 4 <= i < 8 /\ fname t.[i] = None /\
  forall k, 4 <= k < i -> fname t.[k] <> None.
Proof.
  intros Hf. apply find_from_Some in Hf as (Hr & Hi & Hk). autounfold with kconst in *.
  split; [lia|]. split; [by destruct (fname t.[i])|]. intros k Hk'. specialize (Hk k ltac:(lia)).
  by destruct (fname t.[k]).
Qed.

(** Opening a file by a process either returns the lowest descriptor from 4 to 7 that
    was free, now in use, or the raw disk's descriptor 3, or -1; in every case no other
    descriptor of that process and no descriptor of a process in another slot changes.
    Closing a descriptor in use frees it for the next open. *)
Theorem vfs_open_isolated fuel name f v fd v' :
  tables_ok v -> vfs_open blk fuel name f v = Some (fd, v') ->
  (exists i, 4 <= i < 8 /\ fname (table v).[i] = None /\ only_entry i v v' /\
     (forall k, 4 <= k < i -> fname (table v).[k] <> None) /\
     ((fd = i /\ fname (table v').[i] <> None /\ (vfs_close fd v').1 = 0) \/
      (fd = -1 /\ fname (table v').[i] = None))) \/
  (v' = v /\ (fd = -1 \/ fd = 3)).
Proof.
  intros Hv. unfold vfs_open. destruct name as [n|]; [|by intros [= <- <-]; right; auto]. cbn zeta.
  assert (forall i e w, free_fd (table v) = Some i -> fname e <> None -> only_entry i v (set_entry i e w) ->
    tables_ok w -> (vfs_close i (set_entry i e w)).1 = 0 /\
    fname (table (set_entry i e w)).[i] <> None) as Hclose.
  { intros i e w Hf He Ho Hw. apply free_fd_range in Hf as (Hr & _).
    assert ((table (set_entry i e w)).[i] = e) as Et.
    { rewrite set_entry_table by done. apply aget_aset_eq. rewrite table_length by done. lia. }
    unfold vfs_close. rewrite Et. split; [|done]. autounfold with kconst.
    destruct (Z.ltb_spec i 4), (Z.leb_spec 8 i); try lia. by destruct (fname e). }
  destruct (if is_hda_path n && fat32_is_mounted (fatfs v) then free_fd (table v) else None) as [i|] eqn:Hp.
  - assert (free_fd (table v) = Some i) as Hf by (by destruct (is_hda_path n && _)).
    destruct (free_fd_range _ _ Hf) as (Hr & Hn & Hlow).
    set (v1 := set_entry i _ v). assert (only_entry i v v1) as Ho1 by (apply only_entry_set'; [done|lia]).
    destruct (fat32_open _ _ _ _) as [[[file|] s]|]; [| |done]; intros [= <- <-]; left; exists i;
      (split; [done|]; split; [done|]).
    + assert (only_entry i v (set_entry i (mkVfsFile (Some fat_file_name) f 0 2 file) (with_fatfs s v1))) as Ho.
      { eapply only_entry_trans; [exact Ho1|]. apply only_entry_set; [apply Ho1|lia]. }
      split; [exact Ho|]. split; [done|]. left. split; [done|].
      destruct (Hclose i (mkVfsFile (Some fat_file_name) f 0 2 file) (with_fatfs s v1) Hf) as [H1 H2]; try done.
      apply Ho1.
    + split; [eapply only_entry_trans; [exact Ho1|]; apply only_entry_set; [apply Ho1|lia]|]. split; [done|].
      right. split; [done|]. rewrite set_entry_table by apply Ho1.
      rewrite aget_aset_eq; [done|]. rewrite table_length by apply Ho1. lia.
  - case_bool_decide; [intros [= <- <-]; right; split; [done|]; destruct (fname _); auto|].
    destruct (free_fd (table v)) as [i|] eqn:Hf; intros [= <- <-]; [|right; auto].
    destruct (free_fd_range _ _ Hf) as (Hr & Hn & Hlow). left. exists i.
    assert (only_entry i v (set_entry i (mkVfsFile (Some n) f 0 0 (ffile (table v).[i])) v)) as Ho
      by (apply only_entry_set'; [done|lia]).
    split; [done|]. split; [done|]. split; [done|]. split; [done|]. left. split; [done|].
    by destruct (Hclose i (mkVfsFile (Some n) f 0 0 (ffile (table v).[i])) v eq_refl) as [H1 H2].
Qed.
End tables.

(** Every table as the loader leaves it: all descriptors free. *)
Definition vfs_boot : @vfs (gmap Z (list Z)) :=
  mkVfs (replicate 32 (replicate 8 (mkVfsFile None 0 0 0 no_file))) (replicate 512 0) 1
    demo_state blank_screen [] [].

Lemma tables_ok_boot : tables_ok (vfs_init ram_block vfs_boot).
Proof.
  split; [reflexivity|]. intros p Hp.
  assert (forallb (fun p => Nat.eqb (length (files (vfs_init ram_block vfs_boot)).[p]) 8) (seqZ 0 32) = true)
    as Hall by (vm_compute; reflexivity).
  by apply Nat.eqb_eq, (forall_seqZ _ _ _ Hall).
Qed.

Lemma vfs_open_isolated_witness :
  exists v', vfs_open ram_block 4 (Some (hda ++ [47; 72; 69; 76; 76; 79; 46; 84; 88; 84])) 0 (vfs_init ram_block vfs_boot) = Some (4, v') /\
    (vfs_close 4 v').1 = 0.
Proof.
  destruct (vfs_open ram_block 4 (Some (hda ++ [47; 72; 69; 76; 76; 79; 46; 84; 88; 84])) 0 (vfs_init ram_block vfs_boot)) as [[fd v']|] eqn:E.
  2: { exfalso. vm_compute in E. discriminate E. }
  assert (fd = 4) as ->.
  { apply (f_equal (fun r => match r with Some (x, _) => x | None => 0 end)) in E. vm_compute in E. congruence. }
  exists v'. split; [reflexivity|].
  destruct (vfs_open_isolated ram_block 4 _ 0 _ 4 v' tables_ok_boot E) as [(i & Hi & _ & _ & _ & Hr)|[_ Hr]].
  - destruct Hr as [(_ & _ & Hc)|[Hr _]]; [exact Hc|discriminate Hr].
  - lia.
Defined.
