(* ===== verification/VfsRaw.v ===== *)
(** The raw disk descriptor of [fs/vfs.c]: descriptor 3 reads and writes the disk as one
    array of bytes, whatever the position and the length. *)
From S2P Require Import Prelude Block Journal Fat32 Console Vfs.

Section raw.
Context {W : Type} (blk : block W) `{DiskLaws W blk}.
Implicit Types v : @vfs W.

(** The disk as one array of bytes. *)
Definition disk_byte (w : W) (k : Z) : Z := (sector_at w (k / 512)).[k mod 512].
Definition disk v : W := dev (fatfs v).
Definition raw_pos v : Z := vposition (table v).[VFS_FD_RAW_HDA].

#[global] Instance disk_byte_proper : Proper (same_disk (b := blk) ==> eq ==> eq) disk_byte.
Proof. intros w w' Hs k ? <-. unfold disk_byte. by rewrite Hs. Qed.

(** The driver's own sector buffer. *)
Definition buffer_ok v : Prop := length (vsector v) = 512%nat /\ Forall is_u8 (vsector v).

(** [v'] is [v] but for the position of the raw descriptor, the sector buffer and the disk. *)
Record raw_frame v v' : Prop := {
  raw_entry : only_entry VFS_FD_RAW_HDA v v';
  raw_name : fname (table v').[VFS_FD_RAW_HDA] = fname (table v).[VFS_FD_RAW_HDA];
  raw_buffer : buffer_ok v -> buffer_ok v';
}.

Lemma only_entry_refl fd v : tables_ok v -> only_entry fd v v.
Proof. intros Hv. split; [done|]. by split_and!. Qed.

Lemma raw_frame_refl v : tables_ok v -> raw_frame v v.
Proof. intros Hv. split; [by apply only_entry_refl|done|done]. Qed.

Lemma raw_frame_trans v v1 v2 : raw_frame v v1 -> raw_frame v1 v2 -> raw_frame v v2.
Proof.
  intros [A B C] [D E F]. split; [by eapply only_entry_trans|congruence|auto].
Qed.

Lemma advance_pos n v : tables_ok v -> raw_pos (advance n v) = u32 (raw_pos v + n).
Proof.
  intros Hv. unfold raw_pos, advance. rewrite set_entry_table by done.
  rewrite aget_aset_eq; [done|]. rewrite table_length by done. const_lia.
Qed.

Lemma advance_frame n v : tables_ok v -> raw_frame v (advance n v).
Proof.
  intros Hv. split; [apply only_entry_set'; [done|const_lia]| |done].
  unfold advance. rewrite set_entry_table by done.
  rewrite aget_aset_eq; [done|]. rewrite table_length by done. const_lia.
Qed.

(** A new buffer and a new disk leave the tables alone. *)
Lemma buffer_frame w b v : tables_ok v -> length b = 512%nat -> Forall is_u8 b -> raw_frame v (with_dev w (with_vsector b v)).
Proof. intros Hv Hb Hu. split; [|done|done]. split; [exact Hv|]. by split_and!. Qed.

Lemma vfs_load_spec lba v : disk_ready (disk v) -> buffer_ok v -> 0 <= lba < disk_end blk ->
  exists w', vfs_load blk lba v = (0, with_dev w' (with_vsector (sector_at (disk v) lba) v)) /\
    disk_ready w' /\ same_disk (disk v) w'.
Proof using H0.
  intros Hr [Hl _] Hlba. destruct (disk_read (disk v) lba (vsector v) Hr Hlba ltac:(lia)) as (w' & E & Hr' & Hs').
  exists w'. split; [|done]. unfold vfs_load. fold (disk v). rewrite E, drop_ge, app_nil_r by lia. done.
Qed.

Lemma loaded_frame w lba v : tables_ok v -> raw_frame v (with_dev w (with_vsector (sector_at (disk v) lba) v)).
Proof using H0. intros Hv. apply buffer_frame; [done|apply disk_sector|apply disk_bytes]. Qed.

Lemma pos_lba pos : 0 <= pos < disk_end blk * 512 -> 0 <= pos / 512 < disk_end blk.
Proof. intros Hp. split; [apply Z.div_pos|apply Z.div_lt_upper_bound]; lia. Qed.

Lemma chunk_bounds pos left : 0 <= pos -> 0 < left ->
  0 < chunk pos left <= left /\ pos mod 512 + chunk pos left <= 512.
Proof. intros Hp Hl. unfold chunk. pose proof (Z.mod_pos_bound pos 512 ltac:(lia)). destruct (Z.ltb_spec left (512 - pos mod 512)); lia. Qed.

(** Offsets within one sector. *)
Lemma same_sector pos i : 0 <= pos -> 0 <= i -> pos mod 512 + i < 512 ->
  (pos + i) / 512 = pos / 512 /\ (pos + i) mod 512 = pos mod 512 + i.
Proof. intros. Z.to_euclidean_division_equations. lia. Qed.

(** The bytes one turn of the read loop copies. *)
Lemma chunk_bytes w pos n : 0 <= pos -> pos mod 512 + n <= 512 ->
  (fun i => (sector_at w (pos / 512)).[pos mod 512 + i]) <$> seqZ 0 n = disk_byte w <$> seqZ pos n.
Proof.
  intros Hp Hn. pose proof (fmap_add_seqZ pos 0 n) as E. rewrite Z.add_0_r in E. rewrite <- E, <- list_fmap_compose.
  apply list_fmap_ext. intros k i [-> Hi]%lookup_seqZ. cbn [compose]. unfold disk_byte.
  pose proof (Z.mod_pos_bound pos 512 ltac:(lia)).
  destruct (same_sector pos (0 + Z.of_nat k)) as [-> ->]; [lia..|]. done.
Qed.

Lemma same_bytes w w' (l : list Z) : same_disk (b := blk) w w' -> disk_byte w' <$> l = disk_byte w <$> l.
Proof. intros Hs. apply list_fmap_ext. intros i k _. by rewrite <- Hs. Qed.

Lemma raw_read_spec fuel n out v :
  tables_ok v -> buffer_ok v -> disk_ready (disk v) -> 0 <= raw_pos v ->
  0 <= n - Z.of_nat (length out) <= Z.of_nat fuel -> n < 2147483648 ->
  raw_pos v + (n - Z.of_nat (length out)) < 4294967296 ->
  raw_pos v + (n - Z.of_nat (length out)) <= disk_end blk * 512 ->
  exists v', raw_read blk fuel n out v =
      (n, out ++ (disk_byte (disk v) <$> seqZ (raw_pos v) (n - Z.of_nat (length out))), v') /\
    raw_frame v v' /\ same_disk (disk v) (disk v') /\ disk_ready (disk v') /\
    raw_pos v' = raw_pos v + (n - Z.of_nat (length out)).
Proof using H0.
  revert out v. induction fuel as [|fuel IH]; intros out v Hv Hb Hr Hp Hf Hn Hw He; cbn [raw_read].
  - exists v. replace (n - Z.of_nat (length out)) with 0 by lia. rewrite app_nil_r, Z.add_0_r.
    split; [|by split; [apply raw_frame_refl|]]. rewrite i32_small by lia. repeat f_equal. lia.
  - destruct (Z.ltb_spec (Z.of_nat (length out)) n) as [Hlt|Hge].
    2: { exists v. replace (n - Z.of_nat (length out)) with 0 by lia. rewrite app_nil_r, Z.add_0_r.
         split; [|by split; [apply raw_frame_refl|]]. rewrite i32_small by lia. repeat f_equal. lia. }
    cbn zeta. fold (raw_pos v). set (c := chunk _ _). set (pos := raw_pos v) in *.
    destruct (chunk_bounds pos (n - Z.of_nat (length out)) ltac:(lia) ltac:(lia)) as [Hc Hs]. fold c in Hc, Hs.
    destruct (vfs_load_spec (pos / 512) v Hr Hb) as (w1 & -> & Hr1 & Hs1); [apply pos_lba; lia|].
    cbn [Z.eqb negb vsector with_dev with_fatfs with_vsector].
    rewrite chunk_bytes by lia. set (v1 := with_dev _ _).
    assert (raw_frame v v1) as F1 by (by apply loaded_frame).
    assert (tables_ok v1) as Hv1 by apply F1.
    assert (raw_pos (advance c v1) = pos + c) as Ep.
    { rewrite advance_pos by done. change (raw_pos v1) with pos. apply u32_small. unfold is_u32. lia. }
    assert (length (disk_byte (disk v) <$> seqZ pos c) = Z.to_nat c) as El by (by rewrite length_fmap, length_seqZ).
    destruct (IH (out ++ (disk_byte (disk v) <$> seqZ pos c)) (advance c v1)) as (v' & -> & F2 & Hd & Hr' & Hp').
    + apply (advance_frame c v1 Hv1).
    + apply (advance_frame c v1 Hv1). by apply F1.
    + exact Hr1.
    + rewrite Ep. lia.
    + rewrite length_app, El. lia.
    + done.
    + rewrite Ep, length_app, El. lia.
    + rewrite Ep, length_app, El. lia.
    + exists v'. rewrite Ep, length_app, El in *. change (disk (advance c v1)) with w1 in *.
      split; [|split; [|split; [by etrans|split; [done|lia]]]].
      * f_equal. f_equal. rewrite (same_bytes (disk v) w1) by done. rewrite <- app_assoc, <- fmap_app. do 2 f_equal.
        replace (n - Z.of_nat (length out)) with (c + (n - Z.of_nat (length out + Z.to_nat c))) by lia.
        by rewrite seqZ_app by lia.
      * eapply raw_frame_trans; [exact F1|]. eapply raw_frame_trans; [by apply advance_frame|done].
Qed.

(** The disk after one turn of the write loop. *)
Lemma write_turn w w' pos n b f :
  0 <= pos -> 0 < n -> pos mod 512 + n <= 512 -> length b = 512%nat ->
  (n = 512 \/ b = sector_at w (pos / 512)) ->
  (forall k, sector_at w' k = if k =? pos / 512
     then take 512 (for_range 0 n (fun i s => s.[pos mod 512 + i <- f i]) b) else sector_at w k) ->
  forall k, 0 <= k -> disk_byte w' k = if (pos <=? k) && (k <? pos + n) then f (k - pos) else disk_byte w k.
Proof.
  intros Hp Hn Hs Hl Hb Hw k Hk. pose proof (Z.mod_pos_bound pos 512 ltac:(lia)).
  destruct (fill_range f (pos mod 512) n b) as [Hfl Hfk]; [lia..|].
  unfold disk_byte. rewrite Hw. destruct (Z.eqb_spec (k / 512) (pos / 512)) as [E|E].
  - rewrite take_ge by lia. rewrite Hfk by (apply Z.mod_pos_bound; lia).
    assert (k - pos = k mod 512 - pos mod 512) as Hd by (Z.to_euclidean_division_equations; lia).
    destruct (Z.leb_spec (pos mod 512) (k mod 512)), (Z.leb_spec pos k); try lia; cbn [andb].
    + destruct (Z.ltb_spec (k mod 512) (pos mod 512 + n)), (Z.ltb_spec k (pos + n)); try lia; [by rewrite Hd|].
      rewrite E. destruct Hb as [-> | ->]; [pose proof (Z.mod_pos_bound k 512 ltac:(lia)); lia|done].
    + rewrite E. destruct Hb as [-> | ->]; [pose proof (Z.mod_pos_bound k 512 ltac:(lia)); lia|done].
  - destruct (Z.leb_spec pos k), (Z.ltb_spec k (pos + n)); try done.
    exfalso. apply E. Z.to_euclidean_division_equations. lia.
Qed.

(** One turn of the write loop: the buffer is loaded if the turn is partial, filled and
    written. *)
Lemma raw_write_step fuel data done_ v :
  tables_ok v -> buffer_ok v -> disk_ready (disk v) -> Forall is_u8 data ->
  0 <= raw_pos v < disk_end blk * 512 -> 0 <= done_ < Z.of_nat (length data) ->
  let c := chunk (raw_pos v) (Z.of_nat (length data) - done_) in
  exists v1, raw_write blk (S fuel) data done_ v = raw_write blk fuel data (done_ + c) (advance c v1) /\
    raw_frame v v1 /\ raw_pos v1 = raw_pos v /\ disk_ready (disk v1) /\
    forall k, 0 <= k -> disk_byte (disk v1) k =
      if (raw_pos v <=? k) && (k <? raw_pos v + c) then data.[done_ + (k - raw_pos v)] else disk_byte (disk v) k.
Proof using H0.
  intros Hv Hb Hr Hu Hp Hd c. cbn [raw_write]. destruct (Z.ltb_spec done_ (Z.of_nat (length data))); [|lia].
  cbn zeta. fold (raw_pos v). fold c. set (pos := raw_pos v) in *.
  destruct (chunk_bounds pos (Z.of_nat (length data) - done_) ltac:(lia) ltac:(lia)) as [Hc Hs]. fold c in Hc, Hs.
  pose proof (Z.mod_pos_bound pos 512 ltac:(lia)) as Hm. pose proof (pos_lba pos Hp) as Hlba.
  assert (exists v0, (if negb (pos mod 512 =? 0) || (c <? 512) then vfs_load blk (pos / 512) v else (0, v)) = (0, v0) /\
    raw_frame v v0 /\ raw_pos v0 = pos /\ same_disk (disk v) (disk v0) /\ disk_ready (disk v0) /\
    (c = 512 \/ vsector v0 = sector_at (disk v) (pos / 512))) as (v0 & -> & F0 & P0 & D0 & R0 & B0).
  { destruct (negb _ || _) eqn:Hpart.
    - destruct (vfs_load_spec (pos / 512) v Hr Hb Hlba) as (w1 & -> & Hr1 & Hs1). eexists. split; [reflexivity|].
      split; [by apply loaded_frame|]. split; [done|]. split; [done|]. split; [done|]. by right.
    - exists v. split; [done|]. split; [by apply raw_frame_refl|]. split; [done|]. split; [done|]. split; [done|].
      left. lia. }
  cbn [Z.eqb negb]. set (sec := for_range _ _ _ _). destruct (raw_buffer _ _ F0 Hb) as [L0 U0].
  destruct (fill_range (fun i => data.[done_ + i]) (pos mod 512) c (vsector v0)) as [Lsec _]; [lia..|].
  fold sec in Lsec.
  assert (Forall is_u8 sec) as Usec.
  { apply (for_range_pres (Forall is_u8)); [done|]. intros i l _ Hl. apply Forall_aset; [done|].
    by apply Forall_aget_default. }
  destruct (disk_write (disk v0) (pos / 512) sec) as (w' & Ew & Rw & Hw'); [done|done|lia|done|].
  change (dev (fatfs (with_vsector sec v0))) with (disk v0). rewrite Ew. cbn [Z.eqb negb].
  exists (with_dev w' (with_vsector sec v0)). split; [done|]. split.
  { eapply raw_frame_trans; [exact F0|]. apply buffer_frame; [apply F0|congruence|done]. }
  split; [exact P0|]. split; [exact Rw|]. intros k Hk. rewrite D0.
  apply (write_turn (disk v0) w' pos c (vsector v0) (fun i => data.[done_ + i])); try lia; [|exact Hw'].
  by rewrite (D0 _).
Qed.

Lemma raw_write_done fuel data v done_ :
  done_ = Z.of_nat (length data) -> done_ < 2147483648 ->
  raw_write blk fuel data done_ v = (Z.of_nat (length data), v).
Proof.
  intros -> Hlt. destruct fuel; cbn [raw_write]; rewrite ?Z.ltb_irrefl, i32_small by lia; done.
Qed.

Lemma raw_write_spec fuel data done_ v :
  let left := Z.of_nat (length data) - done_ in
  tables_ok v -> buffer_ok v -> disk_ready (disk v) -> Forall is_u8 data -> 0 <= raw_pos v -> 0 <= done_ ->
  0 <= left <= Z.of_nat fuel -> Z.of_nat (length data) < 2147483648 -> raw_pos v + left < 4294967296 ->
  raw_pos v + left <= disk_end blk * 512 ->
  exists v', raw_write blk fuel data done_ v = (Z.of_nat (length data), v') /\
    raw_frame v v' /\ disk_ready (disk v') /\ raw_pos v' = raw_pos v + left /\
    forall k, 0 <= k -> disk_byte (disk v') k =
      if (raw_pos v <=? k) && (k <? raw_pos v + left) then data.[done_ + (k - raw_pos v)] else disk_byte (disk v) k.
Proof.
  revert done_ v. induction fuel as [|fuel IH]; intros done_ v left Hv Hb Hr Hu Hp Hd0 Hf Hn Hw He; subst left.
  all: destruct (decide (Z.of_nat (length data) - done_ = 0)) as [Hz|Hz]; [exists v|try lia].
  1,2: rewrite raw_write_done by lia; split; [done|]; split; [by apply raw_frame_refl|]; split; [done|]; split; [lia|].
  1,2: intros k Hk; rewrite Hz;
    destruct (Z.leb_spec (raw_pos v) k), (Z.ltb_spec k (raw_pos v + 0)); (lia || done).
  destruct (raw_write_step fuel data done_ v) as (v1 & -> & F1 & P1 & R1 & D1); [done..|lia|lia|].
  destruct (chunk_bounds (raw_pos v) (Z.of_nat (length data) - done_) ltac:(lia) ltac:(lia)) as [Hc Hs].
  set (c := chunk _ _) in *.
  assert (tables_ok v1) as Hv1 by apply F1.
  assert (raw_frame v (advance c v1)) as F2 by (eapply raw_frame_trans; [exact F1|by apply advance_frame]).
  assert (raw_pos (advance c v1) = raw_pos v + c) as P2.
  { rewrite advance_pos, P1 by done. apply u32_small. unfold is_u32. lia. }
  destruct (IH (done_ + c) (advance c v1)) as (v' & -> & F3 & R3 & P3 & D3); rewrite ?P2; try lia; try done.
  { apply F2. } { by apply F2. }
  exists v'. split; [done|]. split; [by eapply raw_frame_trans|]. split; [done|]. split; [lia|].
  intros k Hk. rewrite D3, P2 by done. change (disk (advance c v1)) with (disk v1). rewrite D1 by done.
  destruct (Z.leb_spec (raw_pos v) k), (Z.ltb_spec k (raw_pos v + c)), (Z.leb_spec (raw_pos v + c) k);
    try lia; cbn [andb]; [| |done].
  - destruct (Z.ltb_spec k (raw_pos v + (Z.of_nat (length data) - done_))); [done|lia].
  - destruct (Z.ltb_spec k (raw_pos v + c + (Z.of_nat (length data) - (done_ + c)))),
      (Z.ltb_spec k (raw_pos v + (Z.of_nat (length data) - done_))); try lia; [f_equal; lia|..]; done.
Qed.

(** The raw descriptor is open and its state is sound. *)
Definition raw_ready v : Prop :=
  tables_ok v /\ buffer_ok v /\ disk_ready (disk v) /\ 0 <= raw_pos v /\ fname (table v).[VFS_FD_RAW_HDA] <> None.

(** Descriptor 3 reads the disk as one array of bytes: a read of any length at any
    position, across any number of sectors, returns that many bytes, exactly the bytes of
    the disk from that position on, advances the position by the length, and changes
    neither the disk nor any other descriptor. *)
Theorem vfs_raw_read_bytes v n :
  raw_ready v -> 0 <= n < 2147483648 -> raw_pos v + n < 4294967296 -> raw_pos v + n <= disk_end blk * 512 ->
  exists v', vfs_read blk VFS_FD_RAW_HDA true n v = (n, disk_byte (disk v) <$> seqZ (raw_pos v) n, v') /\
    only_entry VFS_FD_RAW_HDA v v' /\ same_disk (disk v) (disk v') /\ raw_pos v' = raw_pos v + n.
Proof.
  intros (Hv & Hb & Hd & Hp & Hn) Hr Hw He.
  destruct (raw_read_spec (Z.to_nat n) n [] v) as (v' & E & F & D & _ & P); cbn [length]; try done; try lia.
  cbn [length app] in *. rewrite Z.sub_0_r in *. exists v'. split; [|by split; [apply F|]].
  rewrite <- E. unfold vfs_read. cbn [negb Z.eqb VFS_FD_RAW_HDA Pos.eqb andb].
  change (Z.pos 3) with VFS_FD_RAW_HDA. by destruct (fname _).
Qed.

(** C23: a write to descriptor 3 stores exactly its bytes at the position, in full and in
    partial sectors alike: afterwards every byte of the range holds the byte written and
    every other byte of the disk is what it was; no other descriptor changes. *)
Theorem vfs_raw_write_bytes v data :
  raw_ready v -> Forall is_u8 data -> Z.of_nat (length data) < 2147483648 ->
  raw_pos v + Z.of_nat (length data) < 4294967296 -> raw_pos v + Z.of_nat (length data) <= disk_end blk * 512 ->
  exists v', vfs_write blk VFS_FD_RAW_HDA (Some data) v = (Z.of_nat (length data), v') /\
    only_entry VFS_FD_RAW_HDA v v' /\ raw_pos v' = raw_pos v + Z.of_nat (length data) /\
    forall k, 0 <= k -> disk_byte (disk v') k =
      if (raw_pos v <=? k) && (k <? raw_pos v + Z.of_nat (length data))
      then data.[k - raw_pos v] else disk_byte (disk v) k.
Proof.
  intros (Hv & Hb & Hd & Hp & Hn) Hu Hr Hw He.
  destruct (raw_write_spec (length data) data 0 v) as (v' & E & F & _ & P & D); try done; try lia.
  rewrite Z.sub_0_r in *. exists v'. split; [|by split; [apply F|]].
  rewrite <- E. unfold vfs_write. cbn [negb Z.eqb VFS_FD_RAW_HDA Pos.eqb andb].
  change (Z.pos 3) with VFS_FD_RAW_HDA. by destruct (fname _).
Qed.
End raw.

Lemma raw_ready_boot : raw_ready ram_block (vfs_init ram_block vfs_boot).
Proof.
  split; [exact tables_ok_boot|]. split; [split; [reflexivity|by apply Forall_replicate]|]. split; [exact I|]. split; [vm_compute; discriminate|].
  vm_compute. discriminate.
Qed.

Lemma vfs_raw_read_bytes_witness :
  exists v', vfs_read ram_block 3 true 600 (vfs_init ram_block vfs_boot) =
    (600, disk_byte ram_block demo_volume <$> seqZ 0 600, v').
Proof.
  destruct (vfs_raw_read_bytes ram_block (vfs_init ram_block vfs_boot) 600 raw_ready_boot) as (v' & E & _);
    [lia|reflexivity|discriminate|].
  exists v'. exact E.
Defined.

Lemma vfs_raw_write_bytes_witness :
  exists v', vfs_write ram_block 3 (Some (replicate 600 7)) (vfs_init ram_block vfs_boot) = (600, v') /\
    disk_byte ram_block (disk v') 599 = 7 /\ disk_byte ram_block (disk v') 600 = 0.
Proof.
  destruct (vfs_raw_write_bytes ram_block (vfs_init ram_block vfs_boot) (replicate 600 7) raw_ready_boot)
    as (v' & E & _ & _ & D); [by apply Forall_replicate|reflexivity|reflexivity|discriminate|].
  exists v'. split; [exact E|]. split; (rewrite D by lia; reflexivity).
Defined.
