(* ===== verification/Timer.v ===== *)
(** The interval timer, [drivers/timer/pit.c]: ticks since boot and the clock derived
    from them. *)
From S2P Require Import Prelude.

Record timer := mkTimer { uptime_ticks : Z; timer_hz : Z; pit_divisor : Z }.
Definition timer_boot : timer := mkTimer 0 100 0.

(** The divisor is sent in two bytes to port 0x40. *)
Definition pit_init (hz : Z) (t : timer) : timer :=
  let hz := if hz =? 0 then 100 else hz in
  mkTimer (uptime_ticks t) hz (u16 (1193182 / hz)).

Definition timer_irq (t : timer) : timer := mkTimer (u32 (uptime_ticks t + 1)) (timer_hz t) (pit_divisor t).

Definition timer_uptime_ms (t : timer) : Z := u32 (uptime_ticks t * 1000) / timer_hz t.

(** [ksleep_ms]: the tick to wait for, and whether the wait goes on at a later state of
    the timer. *)
Definition sleep_target (ms : Z) (t : timer) : Z :=
  u32 (uptime_ticks t + u32 (u32 (ms * timer_hz t) + 999) / 1000).
Definition asleep (target : Z) (t : timer) : bool := uptime_ticks t <? target.

(** [ksleep_ms] over [n] timer interrupts: the number it waits for. *)
Fixpoint ksleep (n : nat) (target : Z) (t : timer) : option (nat * timer) :=
  if asleep target t then
    match n with
    | O => None
    | S n' => match ksleep n' target (timer_irq t) with
              | Some (k, t') => Some (S k, t')
              | None => None
              end
    end
  else Some (O, t).
Definition ksleep_ms (n : nat) (ms : Z) (t : timer) : option (nat * timer) := ksleep n (sleep_target ms t) t.

(** After [n] ticks the clock reads [n] periods, as long as the counter of
    milliseconds does not wrap. *)
Lemma ksleep_ticks n target t :
  uptime_ticks t <= target < 4294967296 -> 0 <= uptime_ticks t -> Z.of_nat n = target - uptime_ticks t ->
  ksleep n target t = Some (n, mkTimer target (timer_hz t) (pit_divisor t)).
Proof.
  revert t. induction n as [|n IH]; intros t Ht H0 Hn; cbn [ksleep]; unfold asleep.
  - destruct (Z.ltb_spec (uptime_ticks t) target); [lia|]. destruct t as [u h d]. cbn in *. do 3 f_equal. lia.
  - destruct (Z.ltb_spec (uptime_ticks t) target); [|lia].
    assert (uptime_ticks (timer_irq t) = uptime_ticks t + 1) as E
      by (cbn; apply u32_small; unfold is_u32; lia).
    rewrite IH by (rewrite E; lia). done.
Qed.

(** [ksleep_ms] returns after exactly the number of timer interrupts whose periods
    add up to at least the time asked for and to less than one period more, provided
    neither the product nor the target tick wraps. *)
Theorem ksleep_ms_duration ms t :
  0 < timer_hz t -> 0 <= ms -> ms * timer_hz t + 999 < 4294967296 -> 0 <= uptime_ticks t ->
  uptime_ticks t + ms * timer_hz t / 1000 + 1 < 4294967296 ->
  exists n t', ksleep_ms n ms t = Some (n, t') /\ uptime_ticks t' = uptime_ticks t + Z.of_nat n /\
    ms * timer_hz t <= Z.of_nat n * 1000 < ms * timer_hz t + 1000.
Proof.
  intros Hz Hm Hp H0 Ht. unfold ksleep_ms. assert (0 <= ms * timer_hz t) as Hx by nia.
  assert (sleep_target ms t = uptime_ticks t + (ms * timer_hz t + 999) / 1000) as ->.
  { unfold sleep_target. rewrite (u32_small (ms * timer_hz t)) by (unfold is_u32; nia).
    rewrite (u32_small (ms * timer_hz t + 999)) by (unfold is_u32; nia). apply u32_small. unfold is_u32.
    set (x := ms * timer_hz t) in *. clearbody x. Z.to_euclidean_division_equations. lia. }
  set (x := ms * timer_hz t) in *. clearbody x.
  exists (Z.to_nat ((x + 999) / 1000)). eexists. rewrite ksleep_ticks; [split; [reflexivity|]|..]; cbn [uptime_ticks];
    Z.to_euclidean_division_equations; lia.
Qed.

Lemma ksleep_ms_duration_witness :
  exists n t', ksleep_ms n 500 timer_boot = Some (n, t') /\ 500 * 100 <= Z.of_nat n * 1000 < 500 * 100 + 1000.
Proof.
  destruct (ksleep_ms_duration 500 timer_boot) as (n & t' & E & _ & Hb); [first [reflexivity | vm_compute; discriminate]..|].
  exists n, t'. split; [exact E|exact Hb].
Defined.

(** The millisecond clock restarts from 0 after 2^32/1000 ticks, about twelve hours at
    100 Hz, not after 2^32 milliseconds. *)
Lemma timer_uptime_restarts :
  timer_uptime_ms (mkTimer 4294967 100 0) = 42949670 /\ timer_uptime_ms (mkTimer 4294968 100 0) = 7.
Proof. split; reflexivity. Qed.
