(* ===== verification/Process.v ===== *)
(** Processes and the round-robin scheduler: the data and operations of
    [kernel/process.c], [scheduler/round_robin.c], [include/scheduler.h] and
    [arch/x86/context_switch.S].

    A [pcb_t *] is the idle process or the index of the process in the static array
    [processes].  A [registers_t *] is the address of the saved frame, 0 for the null
    pointer; the frames themselves are the fifteen words at that address, in [regs].
    The kernel's other stores through pointers go to physical memory by the active
    translation.  The operations call the callbacks of the round-robin scheduler directly;
    [scheduler_register], which replaces the callbacks and which nothing in the kernel
    calls, and the calls through them are at the end.  Lookups that follow [next] pointers get one unit of fuel more
    than there are processes. *)
From S2P Require Import Prelude Frames Paging KernelMap Vmm Fat32 Console Vfs Sync Timer.
From coqutil Require Import Datatypes.RecordSetters.
Import DoubleBraceUpdate.

(** ** Data *)
Inductive process_state := PROCESS_READY | PROCESS_RUNNING | PROCESS_BLOCKED | PROCESS_ZOMBIE.
#[global] Instance process_state_eq_dec : EqDecision process_state.
Proof. solve_decision. Defined.

Record credentials_t := mkCred { uid : Z; gid : Z; euid : Z; egid : Z; capabilities : Z }.
Definition CAP_KILL : Z := 1.
Definition CAP_SYS_ADMIN : Z := 2.

Record cpu_state_t := mkCpuState {
  ceax : Z; cebx : Z; cecx : Z; cedx : Z; cesi : Z; cedi : Z; cebp : Z; cesp : Z; ceip : Z; ceflags : Z;
}.

Record pcb := mkPcb {
  pid : Z; state : process_state; ticks : Z; pname : option string; cpu : cpu_state_t;
  next : option Z; entry_point : Z; user_stack : Z; user_mode : bool; space : option Z;
  parent_pid : Z; exit_code : Z; wait_for_pid : Z; wait_status_ptr : Z; wait_status : Z;
  credentials : credentials_t; pending_signals : Z; signal_mask : Z;
  futex_key : Z; futex_expected : Z; started : Z; interrupt_frame : Z;
  allocated : bool; generation : Z;
  signal_handlers : list Z; signal_saved_frame : list Z; signal_active : bool; futex_deadline : Z;
}.
Definition no_pcb : pcb :=
  mkPcb 0 PROCESS_READY 0 None (mkCpuState 0 0 0 0 0 0 0 0 0 0) None 0 0 false None 0 0 0 0 0
    (mkCred 0 0 0 0 0) 0 0 0 0 0 0 false 0 (replicate 32 0) (replicate 15 0) false 0.
#[global] Instance pcb_inhabited : Inhabited pcb := populate no_pcb.

Inductive pcb_ptr := Idle | Proc (i : Z).
#[global] Instance pcb_ptr_eq_dec : EqDecision pcb_ptr.
Proof. solve_decision. Defined.

(** Indices of the words of a [registers_t]. *)
Definition R_EAX : Z := 7.
Definition R_EBX : Z := 4.
Definition R_ECX : Z := 6.
Definition R_EDX : Z := 5.
Definition R_EIP : Z := 10.
Definition R_CS : Z := 11.
Definition R_EFLAGS : Z := 12.
Definition R_USERESP : Z := 13.
Definition R_SS : Z := 14.
Definition SIZEOF_REGISTERS : Z := 60.

Definition MAX_PROCESSES : Z := 32.
Definition USER_STACK_TOP : Z := 12578816. (* 0x00bff000 *)
Definition quantum_ticks : Z := 1.
#[export] Hint Unfold MAX_PROCESSES USER_STACK_TOP quantum_ticks SIZEOF_REGISTERS : kconst.
#[export] Hint Unfold R_EAX R_EBX R_ECX R_EDX R_EIP R_CS R_EFLAGS R_USERESP R_SS : kconst.

Record kernel {S W : Type} := mkKernel {
  processes : list pcb;
  process_count : Z;
  idle : pcb;
  running : pcb_ptr;
  ready_head : option Z;
  vm : vmm S;
  fds : @vfs W;
  regs : gmap Z (list Z);
  clock : timer;
  tss_esp0 : Z;
  boot_cpu_current : option pcb_ptr;
  cpu_regs : cpu_state_t;
}.
Arguments kernel S W : clear implicits.

Section process.
Context {S W : Type} `{FrameAllocator S}.
Implicit Types k : kernel S W.

(** Addresses the compiler and the linker choose: [&p->kernel_stack[4096]] and
    [p->initial_frame], and those of the user page tables.  [cr2] is the processor's
    fault address register. *)
Variable stack_top : pcb_ptr -> Z.
Variable initial_frame_at : pcb_ptr -> Z.
Variable utab_addr : Z -> Z -> Z.
Variable cr2 : Z.

Definition pcb_of (p : pcb_ptr) k : pcb :=
  match p with Idle => idle k | Proc i => (processes k).[i] end.
Definition upd (p : pcb_ptr) (f : pcb -> pcb) k : kernel S W :=
  match p with
  | Idle => k {{ idle ::= f }}
  | Proc i => k {{ processes := (processes k).[i <- f (processes k).[i]] }}
  end.

Definition lift {A} (f : vmm S -> outcome (vmm S) A) k : outcome (kernel S W) A :=
  match f (vm k) with
  | Done a s => Done a (k {{ vm := s }})
  | Panicked m s => Panicked m (k {{ vm := s }})
  end.
Definition on_vm (f : vmm S -> vmm S) k : kernel S W := k {{ vm ::= f }}.
Definition on_fds (f : @vfs W -> @vfs W) k : kernel S W := k {{ fds ::= f }}.

(** 32-bit accesses through the active translation *)
Definition store32 (va x : Z) (st : vmm S) : vmm S :=
  with_mem (for_range 0 4 (fun i m => <[translate (va + i) st := u8 (Z.shiftr x (8 * i))]> m) (mem st)) st.
Definition load32 (va : Z) (st : vmm S) : Z :=
  let b i := mem st !!! translate (va + i) st in le32 (b 0) (b 1) (b 2) (b 3).

(** The frame at [r], and [r->field = x]. *)
Definition frame_at (r : Z) k : list Z := default (replicate 15 0) (regs k !! r).
Definition set_frame (r : Z) (f : list Z) k : kernel S W := k {{ regs := <[r := f]> (regs k) }}.
Definition set_reg (r i x : Z) k : kernel S W := set_frame r ((frame_at r k).[i <- x]) k.

Definition tss_set_kernel_stack (esp : Z) k : kernel S W := k {{ tss_esp0 := esp }}.
Definition scheduler_current k : pcb_ptr := running k.

(** *** The ready queue *)
(** [q = ready_head; while (q->next) q = q->next;] *)
Fixpoint last_ready (fuel : nat) (q : Z) (l : list pcb) : option Z :=
  match fuel with
  | O => None
  | Datatypes.S fuel' =>
      match next l.[q] with
      | None => Some q
      | Some q' => last_ready fuel' q' l
      end
  end.

(** The idle process is not allocated, so it is never enqueued.  The walk does not end on
    a cyclic queue; the state is then left as it is. *)
Definition enqueue (p : pcb_ptr) k : kernel S W :=
  let x := pcb_of p k in
  if negb (allocated x) || bool_decide (state x = PROCESS_ZOMBIE) || (cesp (cpu x) =? 0) then k
  else
    match p with
    | Idle => k
    | Proc i =>
        let k := upd p (fun x => x {{ next := None }}) k in
        match ready_head k with
        | None => k {{ ready_head := Some i }}
        | Some h =>
            match last_ready 33 h (processes k) with
            | Some q => upd (Proc q) (fun x => x {{ next := Some i }}) k
            | None => k
            end
        end
    end.

Fixpoint next_ready (fuel : nat) k : pcb_ptr * kernel S W :=
  match fuel with
  | O => (Idle, k)
  | Datatypes.S fuel' =>
      match ready_head k with
      | None => (Idle, k)
      | Some i =>
          let p := (processes k).[i] in
          let k := upd (Proc i) (fun x => x {{ next := None }}) (k {{ ready_head := next p }}) in
          if allocated p && bool_decide (state p = PROCESS_READY) then (Proc i, k)
          else next_ready fuel' k
      end
  end.

(** *** Switching *)
Definition activate (p : pcb_ptr) k : kernel S W :=
  let k := upd p (fun x => x {{ state := PROCESS_RUNNING }}) k in
  let k := on_vm (vmm_switch_address_space (space (pcb_of p k))) k in
  let k := tss_set_kernel_stack (stack_top p) k in
  let k := k {{ running := p }} in
  let k := k {{ boot_cpu_current := Some p }} in
  on_fds (vfs_set_process (pid (pcb_of p k))) k.

Definition process_initial_frame (p : pcb_ptr) k : Z :=
  if user_mode (pcb_of p k) then initial_frame_at p else stack_top p - SIZEOF_REGISTERS.

(** [context_switch.S]: the callee-saved registers and the stack pointer are saved in
    one process and loaded from the other; the routine keeps [esi] in the word of
    [edi] and [edi] in the word of [esi]. *)
Definition context_switch (from to : pcb_ptr) k : kernel S W :=
  let r := cpu_regs k in
  let k := upd from (fun x => x {{ cpu ::= fun c =>
             mkCpuState (ceax c) (cebx r) (cecx c) (cedx c) (cedi r) (cesi r) (cebp r) (cesp r) (ceip c) (ceflags c) }}) k in
  let c := cpu (pcb_of to k) in
  k {{ cpu_regs ::= fun r =>
         mkCpuState (ceax r) (cebx c) (cecx r) (cedx r) (cedi c) (cesi c) (cebp c) (cesp c) (ceip r) (ceflags r) }}.

Definition rr_init k : kernel S W := k {{ running := Idle; ready_head := None }}.

(** [++p->ticks] *)
Definition count_tick (p : pcb_ptr) k : kernel S W := upd p (fun x => x {{ ticks := u32 (ticks x + 1) }}) k.
Definition reset_ticks (p : pcb_ptr) k : kernel S W := upd p (fun x => x {{ ticks := 0 }}) k.
Definition set_state (p : pcb_ptr) (s : process_state) k : kernel S W := upd p (fun x => x {{ state := s }}) k.
Definition set_interrupt_frame (p : pcb_ptr) (r : Z) k : kernel S W := upd p (fun x => x {{ interrupt_frame := r }}) k.

(** A running process other than idle goes to the back of the queue. *)
Definition requeue (p : pcb_ptr) k : kernel S W :=
  if bool_decide (p <> Idle) && bool_decide (state (pcb_of p k) = PROCESS_RUNNING)
  then enqueue p (set_state p PROCESS_READY k) else k.

Definition rr_tick k : kernel S W :=
  let previous := running k in
  let k := count_tick previous k in
  if ticks (pcb_of previous k) <? quantum_ticks then k
  else
    let k := requeue previous (reset_ticks previous k) in
    let '(n, k) := next_ready 33 k in
    if bool_decide (n = previous) then k
    else context_switch previous n (activate n k).

Definition scheduler_tick k : kernel S W := rr_tick k.

Definition scheduler_add (p : option pcb_ptr) k : Z * kernel S W :=
  match p with
  | None => (-1, k)
  | Some p =>
      let x := pcb_of p k in
      if negb (allocated x) || (cesp (cpu x) =? 0) then (-1, k) else (0, enqueue p k)
  end.

(** *** Timeouts *)
(** [if (f) f->eax = x] for the saved frame of a process *)
Definition set_result (i x : Z) k : kernel S W :=
  let f := interrupt_frame (processes k).[i] in
  if f =? 0 then k else set_reg f R_EAX x k.

Definition poll_one (now : Z) (i : Z) k : kernel S W :=
  let p := (processes k).[i] in
  if allocated p && bool_decide (state p = PROCESS_BLOCKED) && negb (futex_key p =? 0)
     && negb (futex_deadline p =? 0) && (0 <=? i32 (now - futex_deadline p))
  then
    let k := upd (Proc i) (fun x => x {{ futex_key := 0; futex_expected := 0; futex_deadline := 0 }}) k in
    if bool_decide (running k = Proc i) then set_state (Proc i) PROCESS_RUNNING k
    else
      let k := set_state (Proc i) PROCESS_READY k in
      let k := set_result i (u32 (-110)) k in
      (scheduler_add (Some (Proc i)) k).2
  else k.
Definition process_poll_timeouts k : kernel S W :=
  for_range 0 (process_count k) (poll_one (timer_uptime_ms (clock k))) k.

(** The frame a switch to [n] resumes. *)
Definition resume_frame (n : pcb_ptr) k : Z :=
  let f := interrupt_frame (pcb_of n k) in
  if f =? 0 then process_initial_frame n k else f.

Definition scheduler_timer_tick (r : Z) k : Z * kernel S W :=
  let k := process_poll_timeouts k in
  let previous := running k in
  let k := set_interrupt_frame previous r k in
  let k := count_tick previous k in
  if ticks (pcb_of previous k) <? quantum_ticks then (r, k)
  else
    let k := requeue previous (reset_ticks previous k) in
    let '(n, k) := next_ready 33 k in
    if bool_decide (n = previous) then (r, k)
    else if bool_decide (n = Idle) then
      let k := if bool_decide (previous <> Idle) && bool_decide (state (pcb_of previous k) = PROCESS_READY)
               then set_state previous PROCESS_RUNNING k else k in
      (r, k {{ running := if bool_decide (state (pcb_of previous k) = PROCESS_RUNNING) then previous else Idle }})
    else
      let k := activate n k in (resume_frame n k, k).

Definition switch_from_current (r : Z) k : Z * kernel S W :=
  let previous := running k in
  let k := set_interrupt_frame previous r k in
  let k := if bool_decide (state (pcb_of previous k) = PROCESS_RUNNING)
           then set_state previous PROCESS_BLOCKED k else k in
  let '(n, k) := next_ready 33 k in
  if bool_decide (n = Idle) then
    let s := state (pcb_of previous k) in
    let k := if bool_decide (previous <> Idle) && bool_decide (s <> PROCESS_BLOCKED) && bool_decide (s <> PROCESS_ZOMBIE)
             then set_state previous PROCESS_RUNNING k else k in
    (r, k {{ running := if bool_decide (state (pcb_of previous k) = PROCESS_RUNNING) then previous else Idle }})
  else
    let k := activate n k in (resume_frame n k, k).
Definition scheduler_block_current (r : Z) k : Z * kernel S W := switch_from_current r k.

Definition scheduler_set_current (p : option pcb_ptr) k : kernel S W :=
  match p with
  | None => k
  | Some p =>
      let k := k {{ running := p; boot_cpu_current := Some p }} in
      let k := upd p (fun x => x {{ state := PROCESS_RUNNING; interrupt_frame := 0 }}) k in
      on_fds (vfs_set_process (pid (pcb_of p k))) k
  end.

Definition scheduler_yield k : kernel S W :=
  scheduler_tick (upd (running k) (fun x => x {{ ticks := quantum_ticks }}) k).

(** *** Creation *)
(** [f->eip = entry; ...] on fifteen zero words *)
Definition first_frame (entry stack : Z) (user : bool) : list Z :=
  (replicate 15 0).[R_EIP <- entry].[R_CS <- if user then 27 else 8].[R_EFLAGS <- 514]
    .[R_USERESP <- stack].[R_SS <- if user then 35 else 16].
Definition frame_for (p : pcb_ptr) (entry stack : Z) (user : bool) k : kernel S W :=
  let f := if user then initial_frame_at p else stack_top p - SIZEOF_REGISTERS in
  set_interrupt_frame p 0 (set_frame f (first_frame entry stack user) k).

Definition next_generation (g : Z) : Z :=
  let g := Z.land (u32 (g + 1)) 16777215 in if g =? 0 then 1 else g.
Definition make_pid (g i : Z) : Z := Z.lor (u32 (Z.shiftl g 8)) (i + 1).

Definition new_pcb (name : option string) k : option Z * kernel S W :=
  match find_from (fun i => negb (allocated (processes k).[i])) 0 (Z.to_nat MAX_PROCESSES) with
  | None => (None, k)
  | Some i =>
      let grew := i =? process_count k in
      let k := if grew then k {{ process_count := process_count k + 1 }} else k in
      let g := next_generation (generation (processes k).[i]) in
      let k := upd (Proc i) (fun x => x {{ generation := g; pid := make_pid g i; allocated := true;
                 state := PROCESS_READY; ticks := 0; pname := name; next := None; entry_point := 0;
                 user_stack := 0; user_mode := false }}) k in
      let '(a, vm') := vmm_create_address_space (vm k) in
      let k := upd (Proc i) (fun x => x {{ space := a }}) (k {{ vm := vm' }}) in
      match a with
      | None =>
          let k := upd (Proc i) (fun x => x {{ allocated := false }}) k in
          (None, if grew then k {{ process_count := process_count k - 1 }} else k)
      | Some _ =>
          (Some i, upd (Proc i) (fun x => x {{ parent_pid := 0; exit_code := 0; wait_for_pid := 0;
             wait_status_ptr := 0; wait_status := 0;
             credentials := mkCred 0 0 0 0 (Z.lor CAP_KILL CAP_SYS_ADMIN);
             pending_signals := 0; signal_mask := 0; futex_key := 0; futex_expected := 0; started := 0;
             interrupt_frame := 0; signal_active := false; futex_deadline := 0;
             signal_handlers := replicate 32 0; signal_saved_frame := replicate 15 0 }}) k)
      end
  end.

Definition set_cpu (f : cpu_state_t -> cpu_state_t) (p : pcb_ptr) k : kernel S W := upd p (fun x => x {{ cpu ::= f }}) k.

Definition process_create_entry (name : option string) (entry : Z) k : option Z * kernel S W :=
  match new_pcb name k with
  | (None, k) => (None, k)
  | (Some i, k) =>
      let p := Proc i in
      let k := upd p (fun x => x {{ entry_point := entry }}) k in
      let k := set_cpu (fun c => c {{ ceip := entry; ceflags := 514 }}) p k in
      if entry =? 0 then (Some i, k)
      else
        let top := stack_top p - 64 in
        let k := on_vm (store32 top entry) k in
        let k := set_cpu (fun c => c {{ cesp := top }}) p k in
        (Some i, frame_for p entry top false k)
  end.
Definition process_create (name : option string) k : option Z * kernel S W := process_create_entry name 0 k.

Definition process_create_thread (name : option string) (entry : Z) k : option Z * kernel S W :=
  let owner := scheduler_current k in
  if bool_decide (space (pcb_of owner k) = None) || user_mode (pcb_of owner k) || (entry =? 0) then (None, k)
  else
    match process_create_entry name entry k with
    | (None, k) => (None, k)
    | (Some i, k) =>
        let k := on_vm (vmm_destroy_address_space (space (pcb_of (Proc i) k))) k in
        let k := upd (Proc i) (fun x => x {{ space := space (pcb_of owner k) }}) k in
        let k := on_vm (vmm_retain_address_space (space (pcb_of (Proc i) k))) k in
        (Some i, upd (Proc i) (fun x => x {{ parent_pid := pid (pcb_of owner k) }}) k)
    end.

Definition process_create_user (name : option string) (entry : Z) k : option Z * kernel S W :=
  match new_pcb name k with
  | (None, k) => (None, k)
  | (Some i, k) =>
      let p := Proc i in
      let '(page, f') := alloc_page (frames (vm k)) in
      let k := on_vm (with_frames f') k in
      if page =? 0 then (None, k)
      else
        let '(rc, vm') := vmm_map_user utab_addr (space (pcb_of p k)) (USER_STACK_TOP - PAGE_SIZE) page PAGE_WRITE (vm k) in
        let k := k {{ vm := vm' }} in
        if negb (rc =? 0) then (None, on_vm (fun s => with_frames (free_page page (frames s)) s) k)
        else
          let k := upd p (fun x => x {{ entry_point := entry; user_stack := USER_STACK_TOP; user_mode := true }}) k in
          let k := set_cpu (fun c => c {{ ceip := entry; cesp := USER_STACK_TOP; ceflags := 514 }}) p k in
          (Some i, frame_for p entry USER_STACK_TOP true k)
  end.

(** The jump to ring 3 goes to the returned entry point and stack. *)
Definition process_enter_user (p : pcb_ptr) k : option (Z * Z) * kernel S W :=
  if negb (user_mode (pcb_of p k)) || bool_decide (space (pcb_of p k) = None) then (None, k)
  else
    let k := scheduler_set_current (Some p) k in
    let k := on_vm (vmm_switch_address_space (space (pcb_of p k))) k in
    let k := set_state p PROCESS_RUNNING (tss_set_kernel_stack (stack_top p) k) in
    (Some (entry_point (pcb_of p k), user_stack (pcb_of p k)), k).

(** *** Exit and wait *)
(** The loops over [processes[0 .. process_count - 1]] that stop at an allocated process
    with the given pid. *)
Definition find_pid (id : Z) k : option Z :=
  find_from (fun i => let p := (processes k).[i] in allocated p && (pid p =? id)) 0 (Z.to_nat (process_count k)).

Definition process_get_credentials (id : Z) k : Z * option credentials_t :=
  match find_pid id k with
  | Some i => (0, Some (credentials (processes k).[i]))
  | None => (-1, None)
  end.

Definition orphan_zombie (id j : Z) k : kernel S W :=
  let c := (processes k).[j] in
  if allocated c && (parent_pid c =? id) && bool_decide (state c = PROCESS_ZOMBIE)
  then upd (Proc j) (fun x => x {{ parent_pid := 0 }}) k else k.

Definition wake_waiter (id i j : Z) k : kernel S W :=
  let c := (processes k).[j] in
  if allocated c && (parent_pid c =? id) && bool_decide (state c = PROCESS_BLOCKED) && (wait_for_pid c =? id) then
    let code := exit_code (processes k).[i] in
    let k := upd (Proc j) (fun x => x {{ state := PROCESS_READY; wait_for_pid := 0; wait_status := code }}) k in
    let k := if wait_status_ptr c =? 0 then k else on_vm (store32 (wait_status_ptr c) code) k in
    let k := set_result j id k in
    (scheduler_add (Some (Proc j)) k).2
  else k.

Definition process_exit_with_status (id status : Z) k : Z * kernel S W :=
  match find_pid id k with
  | None => (-1, k)
  | Some i =>
      let k := upd (Proc i) (fun x => x {{ state := PROCESS_ZOMBIE; exit_code := status }}) k in
      let k := on_fds (vfs_release_process id) k in
      let k := for_range 0 (process_count k) (orphan_zombie id) k in
      (0, for_range 0 (process_count k) (wake_waiter id i) k)
  end.
Definition process_exit (id : Z) k : Z * kernel S W := process_exit_with_status id 0 k.

Definition process_wait (child status : Z) k : Z * kernel S W :=
  let parent := scheduler_current k in
  match find_from (fun i => let p := (processes k).[i] in
          allocated p && (pid p =? child) && (parent_pid p =? pid (pcb_of parent k))) 0 (Z.to_nat (process_count k)) with
  | None => (-1, k)
  | Some i =>
      let p := (processes k).[i] in
      if bool_decide (state p = PROCESS_ZOMBIE) then
        let k := if status =? 0 then k else on_vm (store32 status (exit_code p)) k in
        let k := match space p with
                 | None => k
                 | Some _ => upd (Proc i) (fun x => x {{ space := None }}) (on_vm (vmm_destroy_address_space (space p)) k)
                 end in
        let k := on_fds (vfs_release_process child) k in
        let k := upd (Proc i) (fun x => x {{ parent_pid := 0; state := PROCESS_READY; next := None;
                   interrupt_frame := 0; allocated := false }}) k in
        (i32 child, k)
      else
        (0, upd parent (fun x => x {{ wait_for_pid := child; wait_status_ptr := status; state := PROCESS_BLOCKED }}) k)
  end.

(** *** Signals *)
Definition process_send_signal (id signal : Z) k : Z * kernel S W :=
  if (signal =? 0) || (31 <? signal) then (-1, k)
  else if signal =? 9 then
    let '(rc, k) := process_exit_with_status id (128 + 9) k in (if rc =? 0 then 0 else -1, k)
  else
    match find_from (fun i => let p := (processes k).[i] in
            allocated p && (pid p =? id) && bool_decide (state p <> PROCESS_ZOMBIE)) 0 (Z.to_nat (process_count k)) with
    | None => (-1, k)
    | Some i =>
        let k := upd (Proc i) (fun x => x {{ pending_signals := Z.lor (pending_signals x) (Z.shiftl 1 signal) }}) k in
        if bool_decide (state (processes k).[i] = PROCESS_BLOCKED) then
          let k := upd (Proc i) (fun x => x {{ state := PROCESS_READY; futex_key := 0; futex_deadline := 0 }}) k in
          (0, (scheduler_add (Some (Proc i)) k).2)
        else (0, k)
    end.

Definition process_signal_action (id signal handler : Z) k : outcome (kernel S W) Z :=
  if (signal =? 0) || (31 <? signal) || (signal =? 9) then Done (-1) k
  else
    match find_pid id k with
    | None => Done (-1) k
    | Some i =>
        let set k := Done 0 (upd (Proc i) (fun x => x {{ signal_handlers := (signal_handlers x).[signal <- handler] }}) k) in
        if handler =? 0 then set k
        else if (handler <? USER_BASE) || (USER_END <=? handler) || bool_decide (space (processes k).[i] = None)
        then Done (-1) k
        else
          let* (rc, k) := lift (vmm_validate_user_ptr utab_addr cr2 (space (processes k).[i]) handler 1 false) k in
          if negb (rc =? 0) then Done (-1) k else set k
    end.

Definition process_signal_set_mask (id mask : Z) k : Z * kernel S W :=
  match find_pid id k with
  | None => (-1, k)
  | Some i => (0, upd (Proc i) (fun x => x {{ signal_mask := Z.land mask (u32 (Z.lnot (Z.shiftl 1 9))) }}) k)
  end.

(** The loop over the signals 1 to 31; [pending] is fixed before it. *)
Fixpoint deliver_loop (signals : list Z) (pending : Z) (p : pcb_ptr) (r : Z) k : outcome (kernel S W) unit :=
  match signals with
  | [] => Done tt k
  | signal :: rest =>
      if Z.land pending (Z.shiftl 1 signal) =? 0 then deliver_loop rest pending p r k
      else
        let k := upd p (fun x => x {{ pending_signals := Z.land (pending_signals x) (u32 (Z.lnot (Z.shiftl 1 signal))) }}) k in
        let handler := (signal_handlers (pcb_of p k)).[signal] in
        if handler =? 0 then deliver_loop rest pending p r k
        else
          let useresp := (frame_at r k).[R_USERESP] in
          if useresp <? 4194312 then deliver_loop rest pending p r k
          else
            let* (rc, k) := lift (vmm_validate_user_ptr utab_addr cr2 (space (pcb_of p k)) (useresp - 8) 8 true) k in
            if negb (rc =? 0) then deliver_loop rest pending p r k
            else
              let k := upd p (fun x => x {{ signal_saved_frame := frame_at r k }}) k in
              let new_stack := useresp - 8 in
              let k := on_vm (store32 (new_stack + 4) signal) (on_vm (store32 new_stack 0) k) in
              let k := set_reg r R_EAX signal (set_reg r R_EIP handler (set_reg r R_USERESP new_stack k)) in
              Done tt (upd p (fun x => x {{ signal_active := true }}) k)
  end.

Definition process_deliver_signal (r : Z) k : outcome (kernel S W) unit :=
  let p := scheduler_current k in
  let x := pcb_of p k in
  if (r =? 0) || negb (user_mode x) || signal_active x then Done tt k
  else
    let pending := Z.land (Z.land (pending_signals x) (u32 (Z.lnot (signal_mask x)))) 4294967294 in
    deliver_loop (seqZ 1 31) pending p r k.

Definition process_signal_return (r : Z) k : kernel S W :=
  let p := scheduler_current k in
  if (r =? 0) || negb (signal_active (pcb_of p k)) then k
  else upd p (fun x => x {{ signal_active := false }}) (set_frame r (signal_saved_frame (pcb_of p k)) k).

(** *** Futexes *)
Definition process_futex_wait (key expected timeout_ms : Z) k : outcome (kernel S W) Z :=
  let p := scheduler_current k in
  if key =? 0 then Done (-11) k
  else
    let* (rc, k) := lift (vmm_validate_user_ptr utab_addr cr2 (space (pcb_of p k)) key 4 true) k in
    if negb (rc =? 0) || negb (load32 key (vm k) =? expected) then Done (-11) k
    else
      let deadline := if timeout_ms =? 0 then 0 else u32 (timer_uptime_ms (clock k) + timeout_ms) in
      Done 0 (upd p (fun x => x {{ futex_key := key; futex_expected := expected; futex_deadline := deadline;
                                    state := PROCESS_BLOCKED }}) k).

(** One turn of the wake loop over the state and the number woken so far. *)
Definition wake_one (key count : Z) (i : Z) (ks : Z * kernel S W) : Z * kernel S W :=
  let '(woken, k) := ks in
  let p := (processes k).[i] in
  if ((count =? 0) || (woken <? count)) && bool_decide (state p = PROCESS_BLOCKED) && (futex_key p =? key) then
    let k := upd (Proc i) (fun x => x {{ futex_key := 0; futex_deadline := 0; state := PROCESS_READY }}) k in
    let k := set_result i 0 k in
    (woken + 1, (scheduler_add (Some (Proc i)) k).2)
  else (woken, k).
Definition process_futex_wake (key count : Z) k : Z * kernel S W :=
  if key =? 0 then (-1, k)
  else for_range 0 (process_count k) (wake_one key count) (0, k).

(** *** Fork *)
(** The child's first frame and the pid [process_fork] returns. *)
Definition fork_start (parent : pcb_ptr) (i : Z) k : Z * kernel S W :=
  let c := pcb_of (Proc i) k in
  let k := if user_mode (pcb_of parent k) then frame_for (Proc i) (entry_point c) (user_stack c) true k
           else if entry_point c =? 0 then k
           else frame_for (Proc i) (entry_point c) (cesp (cpu c)) false k in
  (i32 (pid (pcb_of (Proc i) k)), k).
(** What the child takes over from the parent [x]. *)
Definition inherit (x c : pcb) : pcb :=
  c {{ cpu := (cpu x) {{ ceax := 0 }}; entry_point := entry_point x; user_mode := user_mode x;
       credentials := credentials x; user_stack := user_stack x; parent_pid := pid x }}.

Definition process_fork k : Z * kernel S W :=
  let parent := scheduler_current k in
  match new_pcb (Some "fork-child"%string) k with
  | (None, k) => (-1, k)
  | (Some i, k) =>
      let child := Proc i in
      let x := pcb_of parent k in
      let k := upd child (inherit x) k in
      let k := on_fds (vfs_inherit_process (pid x) (pid (pcb_of child k))) k in
      match space x with
      | None => fork_start parent i k
      | Some _ =>
          let '(clone, vm') := vmm_clone_address_space_cow utab_addr (space x) (vm k) in
          let k := k {{ vm := vm' }} in
          match clone with
          | None => (-1, (process_exit (pid (pcb_of child k)) k).2)
          | Some _ =>
              let k := on_vm (vmm_destroy_address_space (space (pcb_of child k))) k in
              fork_start parent i (upd child (fun c => c {{ space := clone }}) k)
          end
      end
  end.

(** *** The scheduler interface *)
Record scheduler_t := mkScheduler {
  sname : string;
  sinit : option (kernel S W -> Z * kernel S W);
  stick : option (kernel S W -> kernel S W);
  scurrent : option (kernel S W -> pcb_ptr);
}.
Definition rr_current k : pcb_ptr := running k.
Definition rr : scheduler_t :=
  mkScheduler "round-robin" (Some (fun k => (0, rr_init k))) (Some rr_tick) (Some rr_current).

(** The registered callbacks are [r] before the call. *)
Definition scheduler_register (s : option scheduler_t) (r : scheduler_t) k : Z * scheduler_t * kernel S W :=
  match s with
  | None => (-1, r, k)
  | Some s => match sinit s with
              | Some init => let '(rc, k) := init k in (rc, s, k)
              | None => (0, s, k)
              end
  end.
Definition tick_through (r : scheduler_t) k : kernel S W := match stick r with Some f => f k | None => k end.
Definition current_through (r : scheduler_t) k : pcb_ptr := match scurrent r with Some f => f k | None => running k end.

(** With the callbacks the kernel starts with, the calls through the interface are the
    round-robin operations; registering them again empties the ready queue. *)
Lemma rr_dispatch k :
  tick_through rr k = scheduler_tick k /\ current_through rr k = scheduler_current k /\
  forall r, exists k', scheduler_register (Some rr) r k = (0, rr, k') /\ ready_head k' = None /\ running k' = Idle /\
    processes k' = processes k.
Proof. split; [done|]. split; [done|]. intros r. eexists. split; [done|]. by destruct k. Qed.
End process.
