(* ===== verification/ReadyQueue.v ===== *)
(** The ready queue of [scheduler/round_robin.c] is a first-in first-out queue.

    The queue is threaded through the [next] fields of the process array; [chain] relates
    it to the list of slots in it. *)
From S2P Require Import Prelude Frames Paging KernelMap Vmm Fat32 Console Vfs Sync Timer Process.
From coqutil Require Import Datatypes.RecordSetters.
Import DoubleBraceUpdate.

Definition in_table (i : Z) : Prop := 0 <= i < 32.

Fixpoint chain (l : list pcb) (h : option Z) (q : list Z) : Prop :=
  match q with
  | [] => h = None
  | i :: q' => h = Some i /\ in_table i /\ chain l (next l.[i]) q'
  end.

Record queue_ok (l : list pcb) (h : option Z) (q : list Z) : Prop := {
  queue_len : length l = 32%nat;
  queue_nodup : NoDup q;
  queue_chain : chain l h q;
}.

(** Equal but for the link. *)
Definition same_but_next (x y : pcb) : Prop := x {{ next := None }} = y {{ next := None }}.
#[global] Instance same_but_next_equiv : Equivalence same_but_next.
Proof. split; unfold same_but_next; [done|by intros x y|intros x y z; congruence]. Qed.

(** The queue operations change links only. *)
Definition links_only (l l' : list pcb) : Prop :=
  length l' = length l /\ forall i, in_table i -> same_but_next l.[i] l'.[i].
#[global] Instance links_only_trans : Transitive links_only.
Proof.
  intros l l1 l2 [E1 H1] [E2 H2]. split; [congruence|]. intros i Hi. etrans; [by apply H1|by apply H2].
Qed.
#[global] Instance links_only_refl : Reflexive links_only.
Proof. intros l. by split. Qed.

Lemma same_field {A} (f : pcb -> A) x y :
  (forall z, f (z {{ next := None }}) = f z) -> same_but_next x y -> f x = f y.
Proof. intros Hf Hs. rewrite <- (Hf x), <- (Hf y). by rewrite Hs. Qed.

Lemma link_same n x : same_but_next x (x {{ next := n }}).
Proof. reflexivity. Qed.

Lemma links_only_set l i n :
  length l = 32%nat -> in_table i -> links_only l (l.[i <- (l.[i]) {{ next := n }}]).
Proof.
  intros Hl Hi. unfold in_table in *. split; [apply aset_length|]. intros j Hj. rewrite aget_aset by (unfold in_table in *; lia).
  destruct (Z.eqb_spec i j) as [->|]; [apply link_same|done].
Qed.

(** ** Chains *)
Lemma chain_slots l h q i : chain l h q -> i ∈ q -> in_table i.
Proof.
  revert h. induction q as [|j q IH]; intros h; [set_solver|].
  intros (_ & Hj & Hc) [->|Hi]%elem_of_cons; [done|by eapply IH].
Qed.

Lemma slots_bounded q : NoDup q -> (forall i, i ∈ q -> in_table i) -> (length q <= 32)%nat.
Proof.
  intros Hnd Hr. change 32%nat with (length (seqZ 0 32)). apply submseteq_length, NoDup_submseteq; [done|].
  intros i Hi. apply elem_of_seqZ. specialize (Hr i Hi). unfold in_table in Hr. lia.
Qed.

Lemma queue_length l h q : queue_ok l h q -> (length q <= 32)%nat.
Proof. intros [Hl Hn Hc]. apply slots_bounded; [done|]. intros i. by apply (chain_slots _ _ _ _ Hc). Qed.

Lemma chain_set l h q j x : length l = 32%nat -> in_table j -> j ∉ q -> chain l h q -> chain (l.[j <- x]) h q.
Proof.
  intros Hl Hj. revert h. induction q as [|i q IH]; intros h Hni; [done|].
  intros (-> & Hi & Hc). split; [done|]. split; [done|].
  assert (j <> i) as Hne by set_solver. rewrite aget_aset_ne by (unfold in_table in *; lia).
  apply IH; [set_solver|done].
Qed.

Lemma last_ready_chain l i q fuel :
  (length q < fuel)%nat -> chain l (Some i) (i :: q) -> last_ready fuel i l = Some (List.last (i :: q) 0).
Proof.
  revert i fuel. induction q as [|j q IH]; intros i fuel Hf (_ & Hi & Hc); destruct fuel as [|fuel]; try (cbn in Hf; lia);
    cbn [last_ready].
  - cbn in Hc. by rewrite Hc.
  - destruct Hc as (E & Hj & Hc). rewrite E. rewrite IH; [done|cbn in Hf; lia|]. by split.
Qed.

Lemma last_in (i : Z) q : List.last (i :: q) 0 ∈ i :: q.
Proof.
  revert i. induction q as [|j q IH]; intros i; [by left|]. right. apply IH.
Qed.

Lemma chain_snoc l i q j :
  length l = 32%nat -> NoDup (i :: q) -> in_table j -> j ∉ i :: q -> next l.[j] = None -> chain l (Some i) (i :: q) ->
  let z := List.last (i :: q) 0 in
  chain (l.[z <- (l.[z]) {{ next := Some j }}]) (Some i) (i :: q ++ [j]).
Proof.
  intros Hl Hnd Hj Hni Hn Hc z. assert (in_table z) as Hz by (eapply chain_slots; [exact Hc|apply last_in]).
  subst z. revert i Hnd Hni Hc Hz. induction q as [|i' q IH]; intros i Hnd Hni (_ & Hi & Hc) Hz.
  - cbn [List.last app chain] in *. split; [done|]. split; [done|].
    rewrite aget_aset_eq by (unfold in_table in *; lia). split; [done|]. split; [done|].
    assert (i <> j) as Hne by set_solver. rewrite aget_aset_ne by (unfold in_table in *; lia). done.
  - apply NoDup_cons in Hnd as [Hni' Hnd].
    change (List.last (i :: i' :: q) 0) with (List.last (i' :: q) 0) in *.
    assert (List.last (i' :: q) 0 <> i) as Hne by (intros E; apply Hni'; rewrite <- E; apply last_in).
    split; [done|]. split; [done|]. rewrite aget_aset_ne by (unfold in_table in *; lia).
    assert (next l.[i] = Some i') as E by apply Hc. rewrite E. apply IH; [done|set_solver| |done]. by rewrite <- E.
Qed.

(** ** The operations on the queue *)
Section queue.
Context {S W : Type} `{FrameAllocator S}.
Implicit Types k : kernel S W.

(** What [enqueue] and [next_ready] may change. *)
Definition with_queue (l : list pcb) (h : option Z) k : kernel S W := k {{ processes := l; ready_head := h }}.

Definition kqueue k (q : list Z) : Prop := queue_ok (processes k) (ready_head k) q.

Lemma with_queue_id k : with_queue (processes k) (ready_head k) k = k.
Proof. by destruct k. Qed.

(** A process that [enqueue] accepts. *)
Definition enqueueable (p : pcb) : bool :=
  allocated p && negb (bool_decide (state p = PROCESS_ZOMBIE)) && negb (cesp (cpu p) =? 0).

Lemma enqueue_spec k q i :
  kqueue k q -> in_table i -> i ∉ q -> enqueueable (processes k).[i] = true ->
  exists l h, enqueue (Proc i) k = with_queue l h k /\ links_only (processes k) l /\ queue_ok l h (q ++ [i]).
Proof.
  intros Hq Hi Hni He. pose proof (queue_length _ _ _ Hq) as Hlen. destruct Hq as [Hl Hnd Hc].
  assert (NoDup (q ++ [i])) as Hnd'.
  { apply NoDup_app. split; [done|]. split; [set_solver|apply NoDup_singleton]. }
  unfold enqueue, pcb_of. unfold enqueueable in He.
  assert (negb (allocated (processes k).[i]) || bool_decide (state (processes k).[i] = PROCESS_ZOMBIE)
    || (cesp (cpu (processes k).[i]) =? 0) = false) as ->.
  { destruct (allocated _), (bool_decide _), (_ =? 0); done. }
  set (l0 := (processes k).[i <- ((processes k).[i]) {{ next := None }}]).
  assert (links_only (processes k) l0) as Hlo by (by apply links_only_set).
  assert (length l0 = 32%nat) as Hl0 by (rewrite <- Hl; apply Hlo).
  assert (next l0.[i] = None) as Hn0.
  { unfold l0. rewrite aget_aset_eq by (unfold in_table in *; lia). done. }
  assert (chain l0 (ready_head k) q) as Hc0 by (by apply chain_set).
  change (upd (Proc i) _ k) with (k {{ processes := l0 }}).
  change (ready_head (k {{ processes := l0 }})) with (ready_head k).
  destruct q as [|h q].
  - cbn in Hc0. rewrite Hc0. exists l0, (Some i). split; [by destruct k|]. split; [done|].
    split; [done|done|]. cbn [app chain]. done.
  - assert (ready_head k = Some h) as Hh by apply Hc0. rewrite Hh in Hc0. rewrite Hh.
    change (processes (k {{ processes := l0 }})) with l0.
    rewrite (last_ready_chain l0 h q) by (done || cbn in Hlen; lia).
    set (z := List.last (h :: q) 0). assert (in_table z) as Hz by (eapply chain_slots; [exact Hc0|apply last_in]).
    exists (l0.[z <- (l0.[z]) {{ next := Some i }}]), (Some h).
    split; [destruct k; cbn in Hh; by subst|].
    split; [etrans; [exact Hlo|by apply links_only_set]|].
    split; [by rewrite aset_length|done|]. by apply chain_snoc.
Qed.

(** The slots [next_ready] passes over, the one it returns, and those left. *)
Fixpoint pick (l : list pcb) (q : list Z) : option Z * list Z :=
  match q with
  | [] => (None, [])
  | i :: q' => if allocated l.[i] && bool_decide (state l.[i] = PROCESS_READY) then (Some i, q') else pick l q'
  end.

Lemma pick_links l l' q : links_only l l' -> (forall i, i ∈ q -> in_table i) -> pick l' q = pick l q.
Proof.
  intros [_ Hs]. induction q as [|i q IH]; intros Hr; [done|]. cbn [pick].
  specialize (Hs i (Hr i ltac:(by left))).
  rewrite <- (same_field allocated _ _ (fun _ => eq_refl) Hs), <- (same_field state _ _ (fun _ => eq_refl) Hs).
  rewrite IH; [done|]. intros j Hj. apply Hr. by right.
Qed.

Lemma next_ready_spec fuel k q :
  kqueue k q -> (length q < fuel)%nat ->
  exists l h, next_ready fuel k =
      (match (pick (processes k) q).1 with Some i => Proc i | None => Idle end, with_queue l h k) /\
    links_only (processes k) l /\ queue_ok l h (pick (processes k) q).2.
Proof.
  revert k q. induction fuel as [|fuel IH]; intros k q Hq Hf; [lia|]. destruct Hq as [Hl Hnd Hc].
  cbn [next_ready]. destruct q as [|i q].
  - cbn in Hc. rewrite Hc. exists (processes k), None. cbn [pick fst snd]. split; [|split; [done|by split]].
    f_equal. destruct k; cbn in Hc; by subst.
  - destruct Hc as (Hh & Hi & Hc). rewrite Hh. apply NoDup_cons in Hnd as [Hni Hnd].
    set (l0 := (processes k).[i <- ((processes k).[i]) {{ next := None }}]).
    change (upd (Proc i) _ _) with (with_queue l0 (next (processes k).[i]) k).
    assert (links_only (processes k) l0) as Hlo by (by apply links_only_set).
    assert (queue_ok l0 (next (processes k).[i]) q) as Hq0.
    { split; [rewrite <- Hl; apply Hlo|done|by apply chain_set]. }
    cbn [pick]. destruct (allocated _ && _).
    + exists l0, (next (processes k).[i]). done.
    + destruct (IH (with_queue l0 (next (processes k).[i]) k) q Hq0 ltac:(cbn in Hf; lia)) as (l & h & E & Hlo' & Hq').
      change (processes (with_queue l0 (next (processes k).[i]) k)) with l0 in *.
      assert (pick l0 q = pick (processes k) q) as Ep
        by (apply pick_links; [done|intros j; by apply (chain_slots _ _ _ _ Hc)]).
      rewrite Ep in E, Hq'.
      exists l, h. split; [exact E|]. split; [by etrans|done].
Qed.

(** C28: the ready queue is first-in first-out: the slots enqueued since the queue was empty
    come out of [next_ready] in the order they went in, those that are no longer ready
    are passed over and dropped, and nothing but links between processes changes. *)
Theorem ready_queue_fifo k q i :
  kqueue k q -> in_table i -> i ∉ q -> enqueueable (processes k).[i] = true ->
  kqueue (enqueue (Proc i) k) (q ++ [i]) /\ links_only (processes k) (processes (enqueue (Proc i) k)) /\
  let '(n, k') := next_ready 33 (enqueue (Proc i) k) in
  n = match (pick (processes k) (q ++ [i])).1 with Some j => Proc j | None => Idle end /\
  kqueue k' (pick (processes k) (q ++ [i])).2 /\ links_only (processes k) (processes k').
Proof.
  intros Hq Hi Hni He. destruct (enqueue_spec k q i Hq Hi Hni He) as (l & h & -> & Hlo & Hq').
  split; [exact Hq'|]. split; [exact Hlo|].
  destruct (next_ready_spec 33 (with_queue l h k) (q ++ [i]) Hq') as (l' & h' & -> & Hlo' & Hq'').
  { pose proof (queue_length _ _ _ Hq'). lia. }
  change (processes (with_queue l h k)) with l in *.
  assert (pick l (q ++ [i]) = pick (processes k) (q ++ [i])) as E.
  { apply pick_links; [done|]. intros j. apply (chain_slots _ _ _ _ (queue_chain _ _ _ Hq')). }
  rewrite E in *. split; [done|]. split; [exact Hq''|]. change (links_only (processes k) l'). by etrans.
Qed.
End queue.
