(* ===== verification/Scheduler.v ===== *)
(** Preemption by the timer, [scheduler/round_robin.c]: every ready process runs within as
    many timer interrupts as there are processes before it in the queue, and resumes at
    the frame it was interrupted at. *)
From S2P Require Import Prelude Frames Paging KernelMap Vmm Fat32 Console Vfs Sync Timer Process ReadyQueue.
From coqutil Require Import Datatypes.RecordSetters.
Import DoubleBraceUpdate.

Section scheduler.
Context {S W : Type} `{FrameAllocator S}.
Variable stack_top : pcb_ptr -> Z.
Variable initial_frame_at : pcb_ptr -> Z.
Implicit Types k : kernel S W.
Local Abbreviation tick := (scheduler_timer_tick stack_top initial_frame_at).
Local Abbreviation resume := (resume_frame stack_top initial_frame_at).

(** No timed futex wait is under way. *)
Definition quiet k : Prop :=
  forall i, in_table i -> state (processes k).[i] = PROCESS_BLOCKED -> futex_deadline (processes k).[i] = 0.

(** [c] runs, the processes in [q] are ready and queued in that order. *)
Record round_robin k (c : Z) (q : list Z) : Prop := {
  rr_running : running k = Proc c;
  rr_queue : kqueue k q;
  rr_current : in_table c /\ c ∉ q;
  rr_state : state (processes k).[c] = PROCESS_RUNNING;
  rr_ready i : i ∈ q -> state (processes k).[i] = PROCESS_READY;
  rr_live i : i ∈ c :: q -> allocated (processes k).[i] = true /\ cesp (cpu (processes k).[i]) <> 0 /\
                            ticks (processes k).[i] = 0;
  rr_quiet : quiet k;
  rr_count : 0 <= process_count k <= 32;
}.

Lemma poll_quiet k : quiet k -> 0 <= process_count k <= 32 -> process_poll_timeouts k = k.
Proof.
  intros Hq Hc. unfold process_poll_timeouts. apply (for_range_pres (fun k' => k' = k)); [done|].
  intros i ? Hi ->. unfold poll_one.
  destruct (bool_decide (state _ = PROCESS_BLOCKED)) eqn:Hb; [|by rewrite andb_false_r].
  apply bool_decide_eq_true in Hb. rewrite (Hq i) by (done || unfold in_table; lia).
  by rewrite andb_false_r.
Qed.

Lemma upd_upd i f g k :
  length (processes k) = 32%nat -> in_table i -> upd (Proc i) f (upd (Proc i) g k) = upd (Proc i) (fun x => f (g x)) k.
Proof.
  intros Hl Hi. unfold in_table in Hi. cbn [upd].
  change (processes (k {{ processes := ?l }})) with l.
  rewrite aget_aset_eq, aset_aset by lia. done.
Qed.

Lemma pcb_upd i f k : length (processes k) = 32%nat -> in_table i -> pcb_of (Proc i) (upd (Proc i) f k) = f (processes k).[i].
Proof. intros Hl Hi. unfold in_table in Hi. cbn [pcb_of upd]. apply aget_aset_eq. lia. Qed.

(** What a timer interrupt does to the process it interrupts before it looks for another. *)
Definition charged (r : Z) (x : pcb) : pcb := x {{ interrupt_frame := r; ticks := 0 }}.
(** What the current process becomes when it is preempted. *)
Definition preempted (r : Z) (x : pcb) : pcb := (charged r x) {{ state := PROCESS_READY }}.

Lemma tick_charge r k c :
  length (processes k) = 32%nat -> in_table c -> ticks (processes k).[c] = 0 ->
  let k1 := count_tick (Proc c) (set_interrupt_frame (Proc c) r k) in
  (ticks (pcb_of (Proc c) k1) <? quantum_ticks) = false /\ reset_ticks (Proc c) k1 = upd (Proc c) (charged r) k.
Proof.
  intros Hl Hc Ht k1. subst k1. unfold count_tick, set_interrupt_frame, reset_ticks. rewrite !upd_upd by done.
  split; [|done]. rewrite pcb_upd by done.
  change ((u32 (ticks (processes k).[c] + 1) <? quantum_ticks) = false). by rewrite Ht.
Qed.

Lemma requeue_running r k c :
  length (processes k) = 32%nat -> in_table c -> state (processes k).[c] = PROCESS_RUNNING ->
  requeue (Proc c) (upd (Proc c) (charged r) k) = enqueue (Proc c) (upd (Proc c) (preempted r) k).
Proof.
  intros Hl Hc Hs. unfold requeue. rewrite pcb_upd by done. change (state _) with (state (processes k).[c]).
  rewrite Hs. cbn [bool_decide andb decide]. unfold set_state. by rewrite upd_upd.
Qed.

Lemma requeue_ready r k c :
  length (processes k) = 32%nat -> in_table c -> state (processes k).[c] = PROCESS_READY ->
  requeue (Proc c) (upd (Proc c) (charged r) k) = upd (Proc c) (charged r) k.
Proof.
  intros Hl Hc Hs. unfold requeue. rewrite pcb_upd by done. change (state _) with (state (processes k).[c]).
  by rewrite Hs.
Qed.

Lemma tick_requeue r k c q :
  round_robin k c q ->
  let k1 := count_tick (Proc c) (set_interrupt_frame (Proc c) r k) in
  (ticks (pcb_of (Proc c) k1) <? quantum_ticks) = false /\
  requeue (Proc c) (reset_ticks (Proc c) k1) = enqueue (Proc c) (upd (Proc c) (preempted r) k).
Proof.
  intros Hr k1. subst k1. destruct (rr_queue _ _ _ Hr) as [Hl _ _]. destruct (rr_current _ _ _ Hr) as [Hc _].
  destruct (rr_live _ _ _ Hr c ltac:(by left)) as (_ & _ & Ht).
  destruct (tick_charge r k c Hl Hc Ht) as [E ->]. split; [exact E|]. apply requeue_running; [done|done|apply Hr].
Qed.

(** The queue after the current process went to its back and its head came off. *)
Lemma preempt_queue r k c j q :
  round_robin k c (j :: q) ->
  let k1 := upd (Proc c) (preempted r) k in
  exists l h, next_ready 33 (enqueue (Proc c) k1) = (Proc j, with_queue l h k1) /\ queue_ok l h (q ++ [c]) /\
    forall i, in_table i -> same_but_next (if i =? c then preempted r (processes k).[c] else (processes k).[i]) l.[i].
Proof.
  intros Hr k1. pose proof (rr_queue _ _ _ Hr) as [Hl Hnd Hch]. destruct (rr_current _ _ _ Hr) as [Hc Hcq].
  assert (in_table j) as Hj by apply Hch. assert (c <> j) as Hcj by set_solver.
  destruct (rr_live _ _ _ Hr c ltac:(by left)) as (Hac & Hec & _).
  destruct (rr_live _ _ _ Hr j ltac:(by right; left)) as (Haj & _).
  set (l1 := (processes k).[c <- preempted r (processes k).[c]]). assert (processes k1 = l1) as El1 by reflexivity.
  assert (forall i, in_table i -> l1.[i] = if i =? c then preempted r (processes k).[c] else (processes k).[i]) as Hget1.
  { intros i Hi. unfold l1, in_table in *. rewrite aget_aset, (Z.eqb_sym c i) by lia. done. }
  assert (kqueue k1 (j :: q)) as Hq1.
  { split; [change (length l1 = 32%nat); unfold l1; by rewrite aset_length|done|by apply chain_set]. }
  assert (enqueueable (processes k1).[c] = true) as He.
  { rewrite El1, Hget1, Z.eqb_refl by done. unfold enqueueable.
    change (allocated _) with (allocated (processes k).[c]). change (cpu _) with (cpu (processes k).[c]).
    rewrite Hac. destruct (Z.eqb_spec (cesp (cpu (processes k).[c])) 0); done. }
  destruct (enqueue_spec k1 (j :: q) c Hq1 Hc Hcq He) as (l2 & h2 & -> & Hlo2 & Hq2). rewrite El1 in Hlo2.
  destruct (next_ready_spec 33 (with_queue l2 h2 k1) _ Hq2) as (l3 & h3 & -> & Hlo3 & Hq3).
  { pose proof (queue_length _ _ _ Hq2). lia. }
  change (processes (with_queue l2 h2 k1)) with l2 in *.
  assert (pick l2 ((j :: q) ++ [c]) = (Some j, q ++ [c])) as Ep.
  { rewrite (pick_links l1) by (done || intros i; apply (chain_slots _ _ _ _ (queue_chain _ _ _ Hq2))).
    cbn [pick app]. rewrite Hget1 by done. destruct (Z.eqb_spec j c); [lia|].
    by rewrite Haj, (rr_ready _ _ _ Hr j) by (by left). }
  rewrite Ep in *. exists l3, h3. split; [reflexivity|]. split; [exact Hq3|].
  intros i Hi. rewrite <- Hget1 by done. assert (links_only l1 l3) as [_ Hs] by (by etrans). by apply Hs.
Qed.

Lemma activate_get l h k j i :
  length l = 32%nat -> in_table j -> in_table i ->
  (processes (activate stack_top (Proc j) (with_queue l h k))).[i] =
    if i =? j then (l.[j]) {{ state := PROCESS_RUNNING }} else l.[i].
Proof.
  intros Hl Hj Hi. unfold in_table in *.
  change (processes (activate stack_top (Proc j) (with_queue l h k))) with (l.[j <- (l.[j]) {{ state := PROCESS_RUNNING }}]).
  rewrite aget_aset, (Z.eqb_sym j i) by lia. done.
Qed.

(** Switching to a process installs its address space and its descriptors and resumes it
    where it was. *)
Lemma activate_installs l h k j x :
  length l = 32%nat -> in_table j -> same_but_next x l.[j] ->
  let k' := activate stack_top (Proc j) (with_queue l h k) in
  resume (Proc j) k' = (if interrupt_frame x =? 0
    then if user_mode x then initial_frame_at (Proc j) else stack_top (Proc j) - SIZEOF_REGISTERS
    else interrupt_frame x) /\
  current_space (vm k') = space x /\ active_pid (fds k') = active_pid (vfs_set_process (pid x) (fds k)).
Proof.
  intros Hl Hj Hs k'. assert (pcb_of (Proc j) k' = (l.[j]) {{ state := PROCESS_RUNNING }}) as E.
  { unfold pcb_of, k'. by rewrite activate_get, Z.eqb_refl. }
  rewrite (same_field interrupt_frame _ _ (fun _ => eq_refl) Hs), (same_field user_mode _ _ (fun _ => eq_refl) Hs),
    (same_field space _ _ (fun _ => eq_refl) Hs), (same_field pid _ _ (fun _ => eq_refl) Hs).
  split; [unfold resume_frame, process_initial_frame; by rewrite E|]. split.
  - change (space (pcb_of (Proc j) k') = space l.[j]). by rewrite E.
  - change (active_pid (vfs_set_process (pid (pcb_of (Proc j) k')) (fds k)) = active_pid (vfs_set_process (pid l.[j]) (fds k))).
    by rewrite E.
Qed.

(** The process table after a switch from [c] to [j]. *)
Definition turned (r c j : Z) (l : list pcb) (i : Z) : pcb :=
  if i =? c then preempted r l.[c] else if i =? j then (l.[j]) {{ state := PROCESS_RUNNING }} else l.[i].

Lemma tick_switch r k c j q :
  round_robin k c (j :: q) ->
  exists k', tick r k = (resume (Proc j) k, k') /\
    running k' = Proc j /\ kqueue k' (q ++ [c]) /\
    (forall i, in_table i -> same_but_next (turned r c j (processes k) i) (processes k').[i]) /\
    process_count k' = process_count k /\ regs k' = regs k /\
    current_space (vm k') = space (processes k).[j] /\
    active_pid (fds k') = active_pid (vfs_set_process (pid (processes k).[j]) (fds k)).
Proof.
  intros Hr. pose proof (rr_queue _ _ _ Hr) as [Hl Hnd Hch]. destruct (rr_current _ _ _ Hr) as [Hc Hcq].
  assert (in_table j) as Hj by apply Hch. assert (j <> c) as Hcj by set_solver.
  unfold scheduler_timer_tick. rewrite poll_quiet by (apply Hr). rewrite (rr_running _ _ _ Hr).
  destruct (tick_requeue r k c (j :: q) Hr) as [-> ->].
  destruct (preempt_queue r k c j q Hr) as (l & h & -> & Hq & Hs).
  set (k1 := upd (Proc c) (preempted r) k). pose proof Hq as [Hl' Hnd' Hch'].
  assert (bool_decide (Proc j = Proc c) = false) as -> by (apply bool_decide_eq_false; congruence).
  change (bool_decide (Proc j = Idle)) with false. cbv iota zeta.
  assert (same_but_next (processes k).[j] l.[j]) as Hsj.
  { specialize (Hs j Hj). by destruct (Z.eqb_spec j c). }
  destruct (activate_installs l h k1 j _ Hl' Hj Hsj) as (Er & Es & Ef).
  exists (activate stack_top (Proc j) (with_queue l h k1)). split; [by rewrite Er|].
  split; [done|]. split.
  { split; [|exact Hnd'|].
    - change (length (l.[j <- (l.[j]) {{ state := PROCESS_RUNNING }}]) = 32%nat). by rewrite aset_length.
    - change (chain (l.[j <- (l.[j]) {{ state := PROCESS_RUNNING }}]) h (q ++ [c])).
      apply chain_set; [done|done| |done]. apply NoDup_cons in Hnd as [Hn _]. set_solver. }
  split; [|by split_and!].
  intros i Hi. rewrite activate_get by done. specialize (Hs i Hi). unfold turned.
  destruct (Z.eqb_spec i c) as [Ei|Ni]; [subst i; destruct (Z.eqb_spec c j); [lia|done]|].
  destruct (Z.eqb_spec i j) as [Ej|Nj]; [subst i|done]. unfold same_but_next in *.
  exact (f_equal (fun x => x {{ state := PROCESS_RUNNING }}) Hs).
Qed.

Lemma turned_round_robin r k k' c j q :
  round_robin k c (j :: q) -> running k' = Proc j -> kqueue k' (q ++ [c]) ->
  (forall i, in_table i -> same_but_next (turned r c j (processes k) i) (processes k').[i]) ->
  process_count k' = process_count k -> round_robin k' j (q ++ [c]).
Proof.
  intros Hr Hrun Hq Hs Hcnt. pose proof (rr_queue _ _ _ Hr) as [Hl Hnd Hch]. destruct (rr_current _ _ _ Hr) as [Hc Hcq].
  assert (in_table j) as Hj by apply Hch. assert (j <> c) as Hcj by set_solver.
  assert (forall i, i ∈ q -> in_table i /\ i <> c /\ i <> j) as Hin.
  { intros i Hi. split; [|split; [set_solver|apply NoDup_cons in Hnd as [Hn _]; set_solver]].
    apply (chain_slots _ _ _ _ Hch). by right. }
  assert (forall {A} (f : pcb -> A) i, (forall z, f (z {{ next := None }}) = f z) -> in_table i ->
    f (processes k').[i] = f (turned r c j (processes k) i)) as Hf.
  { intros A f i Hf Hi. symmetry. apply same_field; [done|by apply Hs]. }
  assert (forall i, i ∈ q -> turned r c j (processes k) i = (processes k).[i]) as Tq.
  { intros i Hi. destruct (Hin i Hi) as (_ & N1 & N2). unfold turned.
    destruct (Z.eqb_spec i c), (Z.eqb_spec i j); try lia; done. }
  assert (turned r c j (processes k) c = preempted r (processes k).[c]) as Tc by (unfold turned; by rewrite Z.eqb_refl).
  assert (turned r c j (processes k) j = ((processes k).[j]) {{ state := PROCESS_RUNNING }}) as Tj.
  { unfold turned. destruct (Z.eqb_spec j c); [lia|]. by rewrite Z.eqb_refl. }
  split; [done|done| | | | | |by rewrite Hcnt; apply Hr].
  - split; [done|]. apply NoDup_cons in Hnd as [Hn _]. set_solver.
  - rewrite (Hf _ state j), Tj by done. done.
  - intros i [Hi|Hi]%elem_of_app.
    + rewrite (Hf _ state i), Tq by (done || apply Hin; done). apply Hr. by right.
    + apply list_elem_of_singleton in Hi. subst i. by rewrite (Hf _ state c), Tc by done.
  - intros i Hi. assert (i = j \/ i ∈ q \/ i = c) as [->|[Hi'| ->]] by set_solver.
    + rewrite (Hf _ allocated j), (Hf _ cpu j), (Hf _ ticks j), Tj by done. apply (rr_live _ _ _ Hr). by right; left.
    + destruct (Hin i Hi') as [Ht _]. rewrite (Hf _ allocated i), (Hf _ cpu i), (Hf _ ticks i), (Tq i Hi') by done.
      apply (rr_live _ _ _ Hr). by right; right.
    + rewrite (Hf _ allocated c), (Hf _ cpu c), (Hf _ ticks c), Tc by done.
      destruct (rr_live _ _ _ Hr c ltac:(by left)) as (? & ? & ?). done.
  - intros i Hi. rewrite (Hf _ state i), (Hf _ futex_deadline i) by done. unfold turned.
    destruct (Z.eqb_spec i c); [done|]. destruct (Z.eqb_spec i j); [done|]. by apply (rr_quiet _ _ _ Hr).
Qed.

(** A series of timer interrupts; each pushes the frame it is given and returns the one to
    resume. *)
Fixpoint run_ticks (rs : list Z) (r0 : Z) k : Z * kernel S W :=
  match rs with
  | [] => (r0, k)
  | r :: rs' => let '(r', k') := tick r k in run_ticks rs' r' k'
  end.

(** C7: preemption is fair: with no other events, the process at position [n] of the ready
    queue runs after exactly [n + 1] timer interrupts, whatever is interrupted in between;
    it resumes at the frame it was last interrupted at, or at its first frame if it never
    ran, in its own address space and with its own descriptors. *)
Theorem round_robin_fair k c q n j rs r0 :
  round_robin k c q -> q !! n = Some j -> length rs = Datatypes.S n ->
  let '(r', k') := run_ticks rs r0 k in
  running k' = Proc j /\ r' = resume (Proc j) k /\ state (processes k').[j] = PROCESS_RUNNING /\
  current_space (vm k') = space (processes k).[j] /\
  active_pid (fds k') = active_pid (vfs_set_process (pid (processes k).[j]) (fds k)) /\ regs k' = regs k.
Proof.
  revert k c q rs r0. induction n as [|n IH]; intros k c q rs r0 Hr Hj Hlen;
    destruct rs as [|r rs]; try discriminate Hlen; destruct q as [|j0 q]; try discriminate Hj; cbn [run_ticks];
    destruct (tick_switch r k c j0 q Hr) as (k' & -> & Hrun & Hq & Hs & Hcnt & Hreg & Hsp & Hfd).
  - destruct rs; [|discriminate Hlen]. injection Hj as ->. cbn [run_ticks]. split_and!; try done.
    pose proof (rr_state _ _ _ (turned_round_robin _ _ _ _ _ _ Hr Hrun Hq Hs Hcnt)). done.
  - cbn in Hj, Hlen. injection Hlen as Hlen.
    pose proof (turned_round_robin _ _ _ _ _ _ Hr Hrun Hq Hs Hcnt) as Hr'.
    pose proof (rr_queue _ _ _ Hr) as [_ Hnd Hch]. destruct (rr_current _ _ _ Hr) as [_ Hcq].
    assert (j ∈ q) as Hjq by (by eapply list_elem_of_lookup_2).
    assert (in_table j) as Htj by (apply (chain_slots _ _ _ _ Hch); by right).
    assert (turned r c j0 (processes k) j = (processes k).[j]) as Tj.
    { apply NoDup_cons in Hnd as [Hn _]. unfold turned. destruct (Z.eqb_spec j c) as [->|]; [set_solver|].
      destruct (Z.eqb_spec j j0) as [->|]; [set_solver|done]. }
    specialize (Hs j Htj). rewrite Tj in Hs.
    assert (resume (Proc j) k' = resume (Proc j) k) as Eres.
    { unfold resume_frame, process_initial_frame, pcb_of.
      by rewrite (same_field interrupt_frame _ _ (fun _ => eq_refl) Hs), (same_field user_mode _ _ (fun _ => eq_refl) Hs). }
    specialize (IH k' j0 (q ++ [c]) rs (resume (Proc j0) k) Hr').
    rewrite lookup_app_l in IH by (by apply lookup_lt_is_Some; eexists). specialize (IH Hj Hlen).
    destruct (run_ticks rs _ k') as [r' k'']. destruct IH as (H1 & H2 & H3 & H4 & H5 & H6).
    split; [done|]. split; [congruence|]. split; [done|]. split_and!.
    + by rewrite H4, (same_field space _ _ (fun _ => eq_refl) Hs).
    + by rewrite H5, (same_field pid _ _ (fun _ => eq_refl) Hs).
    + congruence.
Qed.

(** ** A process alone on the processor *)
Record alone k (c : Z) : Prop := {
  al_running : running k = Proc c;
  al_queue : kqueue k [];
  al_slot : in_table c;
  al_state : state (processes k).[c] = PROCESS_RUNNING \/ state (processes k).[c] = PROCESS_READY;
  al_live : enqueueable (processes k).[c] = true /\ ticks (processes k).[c] = 0;
  al_quiet : quiet k;
  al_count : 0 <= process_count k <= 32;
}.

(** Only process [c] changed, and neither its stack nor its futex. *)
Definition only_current (c : Z) k k' : Prop :=
  length (processes k') = 32%nat /\ process_count k' = process_count k /\
  (forall i, in_table i -> i <> c -> same_but_next (processes k).[i] (processes k').[i]) /\
  allocated (processes k').[c] = allocated (processes k).[c] /\ cpu (processes k').[c] = cpu (processes k).[c].

Lemma only_current_quiet c k k' :
  only_current c k k' -> quiet k -> state (processes k').[c] <> PROCESS_BLOCKED -> quiet k'.
Proof.
  intros (_ & _ & Hs & _) Hq Hc i Hi. destruct (decide (i = c)) as [->|Hne]; [done|].
  specialize (Hs i Hi Hne). rewrite <- (same_field state _ _ (fun _ => eq_refl) Hs),
    <- (same_field futex_deadline _ _ (fun _ => eq_refl) Hs). by apply Hq.
Qed.

Lemma alone_after c k k' s :
  alone k c -> only_current c k k' -> running k' = Proc c -> kqueue k' [] ->
  state (processes k').[c] = s -> (s = PROCESS_RUNNING \/ s = PROCESS_READY) -> ticks (processes k').[c] = 0 -> alone k' c.
Proof.
  intros Ha Ho Hr Hq Hs Hs' Ht. pose proof Ho as (_ & Hcnt & _ & Hal & Hcpu).
  split; [done|done|apply Ha|by rewrite Hs| | |by rewrite Hcnt; apply Ha].
  - split; [|done]. destruct (al_live _ _ Ha) as [He _]. revert He. unfold enqueueable.
    rewrite Hal, Hcpu, Hs, !andb_true_iff. intros [[H1 _] H2].
    split; [|exact H2]. split; [exact H1|]. destruct Hs' as [-> | ->]; done.
  - eapply only_current_quiet; [exact Ho|apply Ha|]. rewrite Hs. destruct Hs' as [-> | ->]; done.
Qed.

Lemma upd_facts c f k :
  length (processes k) = 32%nat -> in_table c ->
  length (processes (upd (Proc c) f k)) = 32%nat /\ (processes (upd (Proc c) f k)).[c] = f (processes k).[c] /\
  (forall i, in_table i -> i <> c -> (processes (upd (Proc c) f k)).[i] = (processes k).[i]).
Proof.
  intros Hl Hc. split; [|split; [by apply pcb_upd|]].
  - change (length ((processes k).[c <- f (processes k).[c]]) = 32%nat). by rewrite aset_length.
  - intros i Hi Hn. unfold in_table in *. cbn [upd]. apply aget_aset_ne; lia.
Qed.

Lemma next_ready_empty fuel k : ready_head k = None -> next_ready fuel k = (Idle, k).
Proof. intros Hh. destruct fuel; cbn [next_ready]; [done|by rewrite Hh]. Qed.

(** A running process is queued, found again at once and left [PROCESS_READY]. *)
Lemma alone_tick_running r k c :
  alone k c -> state (processes k).[c] = PROCESS_RUNNING ->
  exists k', tick r k = (r, k') /\ alone k' c /\ only_current c k k' /\ state (processes k').[c] = PROCESS_READY.
Proof.
  intros Ha Hs. pose proof (al_queue _ _ Ha) as [Hl _ Hh]. cbn in Hh. pose proof (al_slot _ _ Ha) as Hc.
  destruct (al_live _ _ Ha) as [He Ht]. unfold scheduler_timer_tick.
  rewrite poll_quiet by (apply Ha). rewrite (al_running _ _ Ha). destruct (tick_charge r k c Hl Hc Ht) as [-> ->].
  rewrite requeue_running by done. set (k1 := upd (Proc c) (preempted r) k).
  destruct (upd_facts c (preempted r) k Hl Hc) as (Hlen & Hget & Hne). fold k1 in Hlen, Hget, Hne.
  assert (enqueueable (processes k1).[c] = true) as He1.
  { rewrite Hget. revert He. unfold enqueueable. rewrite Hs. done. }
  destruct (enqueue_spec k1 [] c) as (l & h & -> & Hlo & Hq); [by split; [|constructor|]|done|set_solver|done|].
  destruct (next_ready_spec 33 (with_queue l h k1) _ Hq ltac:(cbn; lia)) as (l' & h' & -> & Hlo' & Hq').
  change (processes (with_queue l h k1)) with l in *.
  assert (pick l ([] ++ [c]) = (Some c, [])) as Ep.
  { rewrite (pick_links (processes k1)) by (done || set_solver). cbn [pick app]. rewrite Hget.
    change (allocated (preempted r _)) with (allocated (processes k).[c]). unfold enqueueable in He.
    destruct (allocated _); [done|discriminate He]. }
  assert (links_only (processes k1) l') as [_ Hsame] by (by etrans).
  pose proof (Hsame c Hc) as Hsc. rewrite Hget in Hsc.
  rewrite Ep in *. cbn [fst snd] in *. rewrite bool_decide_true by done.
  set (k' := with_queue l' h' _). assert (only_current c k k') as Ho.
  { split; [apply Hq'|]. split; [done|]. split; [intros i Hi Hn; rewrite <- (Hne i Hi Hn); by apply Hsame|].
    split; symmetry; [exact (same_field allocated _ _ (fun _ => eq_refl) Hsc)|exact (same_field cpu _ _ (fun _ => eq_refl) Hsc)]. }
  assert (state (processes k').[c] = PROCESS_READY) as Es
    by (symmetry; exact (same_field state _ _ (fun _ => eq_refl) Hsc)).
  exists k'. split; [done|]. split; [|done].
  eapply alone_after; [exact Ha|exact Ho|apply (al_running _ _ Ha)|exact Hq'|exact Es|by right|].
  symmetry. exact (same_field ticks _ _ (fun _ => eq_refl) Hsc).
Qed.

(** A process left [PROCESS_READY] finds the queue empty and becomes running again. *)
Lemma alone_tick_ready r k c :
  alone k c -> state (processes k).[c] = PROCESS_READY ->
  exists k', tick r k = (r, k') /\ alone k' c /\ only_current c k k' /\ state (processes k').[c] = PROCESS_RUNNING.
Proof.
  intros Ha Hs. pose proof (al_queue _ _ Ha) as [Hl _ Hh]. cbn in Hh. pose proof (al_slot _ _ Ha) as Hc.
  destruct (al_live _ _ Ha) as [He Ht]. unfold scheduler_timer_tick.
  rewrite poll_quiet by (apply Ha). rewrite (al_running _ _ Ha). destruct (tick_charge r k c Hl Hc Ht) as [-> ->].
  rewrite requeue_ready, next_ready_empty by done.
  change (bool_decide (Idle = Proc c)) with false. change (bool_decide (Idle = Idle)) with true. cbv iota.
  change (bool_decide (Proc c <> Idle)) with true. unfold set_state. rewrite pcb_upd by done.
  change (state (charged r _)) with (state (processes k).[c]). rewrite Hs. cbn [bool_decide decide andb].
  rewrite (bool_decide_true (PROCESS_READY = PROCESS_READY)) by done. rewrite upd_upd by done. set (f := fun x : pcb => _). rewrite pcb_upd by done. rewrite bool_decide_true by done.
  destruct (upd_facts c f k Hl Hc) as (Hlen & Hget & Hne).
  set (k2 := (upd (Proc c) f k) {{ running := Proc c }}). change (processes (upd (Proc c) f k)) with (processes k2) in *.
  assert (only_current c k k2) as Ho.
  { split; [done|]. split; [done|]. split; [intros i Hi Hn; by rewrite Hne|]. by rewrite Hget. }
  assert (state (processes k2).[c] = PROCESS_RUNNING) as Es by (by rewrite Hget).
  exists k2. split; [done|]. split; [|done].
  eapply alone_after; [exact Ha|exact Ho|done|by split; [|constructor|]|exact Es|by left|by rewrite Hget].
Qed.

(** A process alone keeps the processor through any number of ticks, and the others stay
    as they are. *)
Lemma alone_ticks rs r0 k c :
  alone k c -> let k' := (run_ticks rs r0 k).2 in alone k' c /\
    forall i, in_table i -> i <> c -> same_but_next (processes k).[i] (processes k').[i].
Proof.
  revert r0 k. induction rs as [|r rs IH]; intros r0 k Ha; cbn [run_ticks]; [done|].
  assert (exists k', tick r k = (r, k') /\ alone k' c /\ only_current c k k') as (k' & -> & Ha' & Ho).
  { destruct (al_state _ _ Ha) as [Hs|Hs];
      [destruct (alone_tick_running r k c Ha Hs) as (k' & ? & ? & ? & _)
      |destruct (alone_tick_ready r k c Ha Hs) as (k' & ? & ? & ? & _)]; by exists k'. }
  destruct (IH r k' Ha') as [Ha2 Hs2]. split; [exact Ha2|]. intros i Hi Hn.
  etrans; [by apply Ho|by apply Hs2].
Qed.

(** A tick that takes the processor from [c], which is not requeued, and gives it to [j]. *)
Lemma lost_tick r k l h c j :
  alone k c -> state (processes k).[c] = PROCESS_READY -> in_table j -> j <> c ->
  links_only (processes k) l -> queue_ok l h [j] ->
  state (processes k).[j] = PROCESS_READY -> enqueueable (processes k).[j] = true ->
  exists l2 h2 r', tick r (with_queue l h k) = (r', activate stack_top (Proc j) (with_queue l2 h2 k)) /\ queue_ok l2 h2 [] /\
    forall A (f : pcb -> A) i, (forall z, f (z {{ next := None }}) = f z) -> in_table i ->
      f l2.[i] = f (if i =? c then charged r l.[c] else l.[i]).
Proof.
  intros Ha Hs Hj Hjc [Hll Hlo] Hq Hsj Hej. pose proof (al_slot _ _ Ha) as Hc. pose proof Hq as [Hl _ Hch].
  assert (forall {A} (f : pcb -> A) i, (forall z, f (z {{ next := None }}) = f z) -> in_table i ->
    f l.[i] = f (processes k).[i]) as Hf.
  { intros A f i Hf Hi. symmetry. apply same_field; [done|by apply Hlo]. }
  assert (quiet (with_queue l h k)) as Hqt.
  { intros i Hi. change (processes (with_queue l h k)) with l. rewrite (Hf _ state i), (Hf _ futex_deadline i) by done.
    by apply (al_quiet _ _ Ha). }
  unfold scheduler_timer_tick. rewrite poll_quiet by (done || apply Ha).
  change (running (with_queue l h k)) with (running k). rewrite (al_running _ _ Ha).
  destruct (tick_charge r (with_queue l h k) c Hl Hc) as [-> ->]; [change (ticks l.[c] = 0); rewrite (Hf _ ticks c) by done; apply Ha|].
  rewrite requeue_ready by (done || change (state l.[c] = PROCESS_READY); by rewrite (Hf _ state c)).
  set (l1 := l.[c <- charged r l.[c]]). change (upd (Proc c) (charged r) (with_queue l h k)) with (with_queue l1 h k).
  assert (queue_ok l1 h [j]) as Hq1.
  { split; [unfold l1; by rewrite aset_length|apply Hq|apply chain_set; [done|done|set_solver|done]]. }
  assert (forall i, in_table i -> l1.[i] = if i =? c then charged r l.[c] else l.[i]) as Hget1.
  { intros i Hi. unfold l1, in_table in *. rewrite aget_aset, (Z.eqb_sym c i) by lia. done. }
  assert (l1.[j] = l.[j]) as Ej by (rewrite Hget1 by done; by destruct (Z.eqb_spec j c)).
  destruct (next_ready_spec 33 (with_queue l1 h k) [j] Hq1 ltac:(cbn; lia)) as (l2 & h2 & -> & [_ Hlo2] & Hq2).
  change (processes (with_queue l1 h k)) with l1 in *.
  assert (pick l1 [j] = (Some j, [])) as Ep.
  { cbn [pick]. rewrite Ej, (Hf _ allocated j), (Hf _ state j), Hsj by done. unfold enqueueable in Hej.
    by destruct (allocated _). }
  rewrite Ep in *. cbn [fst snd] in *.
  assert (bool_decide (Proc j = Proc c) = false) as -> by (apply bool_decide_eq_false; congruence).
  change (bool_decide (Proc j = Idle)) with false. cbv iota zeta. eexists l2, h2, _. split; [reflexivity|]. split; [done|].
  intros A f i Hf2 Hi. rewrite <- Hget1 by done. symmetry. apply same_field; [done|by apply Hlo2].
Qed.

(** With another process in the queue, a current process in state [PROCESS_READY] is
    switched away from without being queued. *)
Lemma lost_switch r k l h c j :
  alone k c -> state (processes k).[c] = PROCESS_READY -> in_table j -> j <> c ->
  links_only (processes k) l -> queue_ok l h [j] ->
  state (processes k).[j] = PROCESS_READY -> enqueueable (processes k).[j] = true -> ticks (processes k).[j] = 0 ->
  exists r' k', tick r (with_queue l h k) = (r', k') /\ alone k' j /\ state (processes k').[c] = PROCESS_READY.
Proof.
  intros Ha Hs Hj Hjc Hlinks Hq Hsj Hej Htj. pose proof (al_slot _ _ Ha) as Hc.
  destruct (lost_tick r k l h c j Ha Hs Hj Hjc Hlinks Hq Hsj Hej) as (l2 & h2 & r' & -> & Hq2 & Hf2). eexists r', _. split; [reflexivity|].
  assert (forall {A} (f : pcb -> A) i, (forall z, f (z {{ next := None }}) = f z) -> in_table i -> f l.[i] = f (processes k).[i]) as Hf.
  { intros A f i Hf Hi. symmetry. apply same_field; [done|by apply Hlinks]. }
  set (k' := activate stack_top (Proc j) (with_queue l2 h2 k)). assert (Hl2 : length l2 = 32%nat) by apply Hq2.
  assert (forall i, in_table i -> (processes k').[i] = if i =? j then (l2.[j]) {{ state := PROCESS_RUNNING }} else l2.[i])
    as Hget by (intros; by apply activate_get).
  assert ((j =? c) = false) as Ejc by lia. assert ((c =? j) = false) as Ecj by lia.
  assert (state (processes k').[c] = PROCESS_READY) as Hsc.
  { rewrite Hget, Ecj, (Hf2 _ state c), Z.eqb_refl by done. change (state l.[c] = PROCESS_READY). by rewrite (Hf _ state c). }
  split; [|exact Hsc]. split; [done| |done| | | |apply Ha].
  - split; [change (length (l2.[j <- (l2.[j]) {{ state := PROCESS_RUNNING }}]) = 32%nat); by rewrite aset_length|constructor|apply Hq2].
  - left. by rewrite Hget, Z.eqb_refl by done.
  - rewrite Hget, Z.eqb_refl by done. unfold enqueueable.
    change (allocated (l2.[j] {{ state := PROCESS_RUNNING }})) with (allocated l2.[j]).
    change (cpu (l2.[j] {{ state := PROCESS_RUNNING }})) with (cpu l2.[j]).
    change (ticks (l2.[j] {{ state := PROCESS_RUNNING }})) with (ticks l2.[j]).
    rewrite (Hf2 _ allocated j), (Hf2 _ cpu j), (Hf2 _ ticks j), Ejc, (Hf _ allocated j), (Hf _ cpu j), (Hf _ ticks j) by done.
    split; [|done]. revert Hej. unfold enqueueable. rewrite Hsj. done.
  - intros i Hi. rewrite Hget by done. destruct (Z.eqb_spec i j); [done|].
    rewrite (Hf2 _ state i), (Hf2 _ futex_deadline i) by done. pose proof (al_quiet _ _ Ha i Hi) as Hqi.
    destruct (Z.eqb_spec i c); [change (state (charged r l.[c])) with (state l.[c]); rewrite (Hf _ state c), Hs by done; done|].
    by rewrite (Hf _ state i), (Hf _ futex_deadline i) by done.
Qed.

(** A process alone on the processor is lost if another becomes ready after an odd
    number of ticks: the first tick leaves it [PROCESS_READY] but in no queue, the tick
    after another process [j] is added switches to [j] without enqueueing it, and it never
    runs again, however many timer interrupts follow. *)
Theorem timer_tick_loses_process k c j r1 r2 rs r0 :
  alone k c -> state (processes k).[c] = PROCESS_RUNNING ->
  in_table j -> j <> c -> state (processes k).[j] = PROCESS_READY -> enqueueable (processes k).[j] = true ->
  ticks (processes k).[j] = 0 ->
  let k1 := (tick r1 k).2 in
  let k2 := (scheduler_add (Some (Proc j)) k1).2 in
  let k' := (run_ticks (r2 :: rs) r0 k2).2 in
  running k' = Proc j /\ state (processes k').[c] = PROCESS_READY /\ ready_head k' = None.
Proof.
  intros Ha Hs Hj Hjc Hsj Hej Htj.
  destruct (alone_tick_running r1 k c Ha Hs) as (k1 & -> & Ha1 & Ho1 & Hs1). cbn [snd]. clear Ha Hs.
  destruct Ho1 as (_ & _ & Hsame & _). specialize (Hsame j Hj Hjc).
  pose proof (al_queue _ _ Ha1) as [Hl _ Hh]. cbn in Hh. pose proof (al_slot _ _ Ha1) as Hc.
  assert (enqueueable (processes k1).[j] = true) as Hej1.
  { rewrite <- (same_field enqueueable _ _ (fun _ => eq_refl) Hsame). done. }
  rewrite (same_field state _ _ (fun _ => eq_refl) Hsame) in Hsj.
  rewrite (same_field ticks _ _ (fun _ => eq_refl) Hsame) in Htj. clear Hsame Hej.
  assert ((scheduler_add (Some (Proc j)) k1).2 = enqueue (Proc j) k1) as ->.
  { unfold scheduler_add, pcb_of. unfold enqueueable in Hej1. destruct (allocated _), (_ =? 0); try done.
    by rewrite andb_false_r in Hej1. }
  destruct (enqueue_spec k1 [] j (al_queue _ _ Ha1) Hj ltac:(set_solver) Hej1) as (l & h & -> & Hlo & Hq).
  destruct (lost_switch r2 k1 l h c j Ha1 Hs1 Hj Hjc Hlo Hq Hsj Hej1 Htj) as (r' & k' & E & Ha' & Hsc).
  cbn [run_ticks]. rewrite E. destruct (alone_ticks rs r' k' j Ha') as [Ha2 Hs2].
  split; [apply Ha2|]. split; [|apply (queue_chain _ _ _ (al_queue _ _ Ha2))].
  rewrite <- (same_field state _ _ (fun _ => eq_refl) (Hs2 c Hc ltac:(congruence))). exact Hsc.
Qed.
End scheduler.
