(* ===== verification/ProcessIds.v ===== *)
(** Process identifiers, [kernel/process.c]: whatever the kernel does, the pid of a live
    process names its slot, so pids are unique and no two live processes share a table of
    descriptors; a slot that is used again gets another pid. *)
From S2P Require Import Prelude Frames Paging KernelMap Vmm Fat32 Console Vfs Sync Timer Process ReadyQueue.
From coqutil Require Import Datatypes.RecordSetters.
Import DoubleBraceUpdate.

(** ** Pids as numbers *)
Lemma make_pid_eq g i : 0 <= g < 16777216 -> in_table i -> make_pid g i = g * 256 + (i + 1).
Proof.
  unfold in_table. intros Hg Hi. unfold make_pid. rewrite Z.shiftl_mul_pow2, u32_small by (unfold is_u32; lia).
  rewrite Z.lor_comm, <- Z.shiftl_mul_pow2, (lor_shiftl_add (i + 1) g 8) by lia. lia.
Qed.

Lemma slot_make_pid g i : 0 <= g < 16777216 -> in_table i -> slot_for_pid (make_pid g i) = i.
Proof.
  intros Hg Hi. rewrite make_pid_eq by done. unfold slot_for_pid, in_table in *.
  change 255 with (2 ^ 8 - 1). rewrite land_mask by lia. change (2 ^ 8) with 256.
  replace ((g * 256 + (i + 1)) mod 256) with (i + 1) by (Z.to_euclidean_division_equations; lia).
  destruct (Z.eqb_spec (i + 1) 0); [lia|]. destruct (Z.ltb_spec (i + 1 - 1) VFS_MAX_PROCESSES); const_lia.
Qed.

Lemma next_generation_range g : 0 <= g < 16777216 -> 0 < next_generation g < 16777216 /\ next_generation g <> g.
Proof.
  intros Hg. unfold next_generation. change 16777215 with (2 ^ 24 - 1). rewrite land_mask by lia.
  rewrite u32_small by (unfold is_u32; lia). change (2 ^ 24) with 16777216.
  destruct (Z.eqb_spec ((g + 1) mod 16777216) 0); Z.to_euclidean_division_equations; lia.
Qed.

Section ids.
Context {S W : Type} `{FrameAllocator S}.
Variable stack_top : pcb_ptr -> Z.
Variable initial_frame_at : pcb_ptr -> Z.
Variable utab_addr : Z -> Z -> Z.
Variable cr2 : Z.
Implicit Types k : kernel S W.

(** What identifies a process; and, with it, the program the process runs. *)
Definition ids (x : pcb) : Z * bool * Z := (pid x, allocated x, generation x).
Definition image (x : pcb) : (Z * bool * Z) * (Z * Z * bool * option Z) :=
  (ids x, (entry_point x, user_stack x, user_mode x, space x)).

(** Tables of processes that agree on what [v] shows of each. *)
Definition same_on {V} (v : pcb -> V) k k' : Prop :=
  process_count k' = process_count k /\ length (processes k') = length (processes k) /\
  forall i, v (processes k').[i] = v (processes k).[i].
Notation same_ids := (same_on ids).
Notation same_image := (same_on image).
#[global] Instance same_on_preorder {V} (v : pcb -> V) : PreOrder (same_on v).
Proof.
  split; [by intros k|]. intros k1 k2 k3 (A & B & C) (D & E & F).
  split_and!; congruence.
Qed.

Lemma image_ids k k' : same_image k k' -> same_ids k k'.
Proof. intros (A & B & C). split; [done|]. split; [done|]. intros i. exact (f_equal fst (C i)). Qed.

Section same.
Context {V : Type} (v : pcb -> V).
Lemma same_eq k k' : processes k' = processes k -> process_count k' = process_count k -> same_on v k k'.
Proof. intros E1 E2. unfold same_on. by rewrite E1, E2. Qed.

Lemma same_upd p f k : (forall x, v (f x) = v x) -> same_on v k (upd p f k).
Proof.
  intros Hf. destruct p as [|i]; [by apply same_eq|]. split; [done|].
  change (processes (upd (Proc i) f k)) with ((processes k).[i <- f (processes k).[i]]).
  split; [apply aset_length|]. intros j. unfold aset, aget.
  destruct (decide (Z.to_nat i = Z.to_nat j)) as [E|Hne].
  - rewrite <- E. destruct (decide (Z.to_nat i < length (processes k))%nat).
    + rewrite list_lookup_total_insert_eq by done. apply Hf.
    + by rewrite list_insert_ge by lia.
  - by rewrite list_lookup_total_insert_ne by done.
Qed.

(** One step further from a state already reached. *)
Lemma same_upd' p f k k0 : (forall x, v (f x) = v x) -> same_on v k0 k -> same_on v k0 (upd p f k).
Proof. intros Hf Hk. etrans; [exact Hk|by apply same_upd]. Qed.

Lemma same_range lo hi (f : Z -> kernel S W -> kernel S W) k0 k :
  (forall i k, same_on v k (f i k)) -> same_on v k0 k -> same_on v k0 (for_range lo hi f k).
Proof. intros Hf Hk. apply for_range_pres; [done|]. intros i k' _ Hk'. etrans; [exact Hk'|apply Hf]. Qed.
End same.

(** *** What keeps every process's identity and program *)
Lemma kept_enqueue p k : same_image k (enqueue p k).
Proof.
  unfold enqueue. destruct (_ || _ || _); [done|]. destruct p as [|i]; [done|].
  set (k1 := upd _ _ k). assert (same_image k k1) as E1 by (by apply same_upd).
  change (ready_head k1) with (ready_head k).
  destruct (ready_head k); [|exact E1]. destruct (last_ready _ _ _); [|exact E1]. by apply same_upd'.
Qed.

Lemma kept_next_ready fuel k : same_image k (next_ready fuel k).2.
Proof.
  revert k. induction fuel as [|fuel IH]; intros k; cbn [next_ready]; [done|].
  destruct (ready_head k) as [i|]; [|done]. set (k1 := upd _ _ _).
  assert (same_image k k1) as E1 by (apply same_upd'; [done|by apply same_eq]).
  destruct (_ && _); [exact E1|]. etrans; [exact E1|apply IH].
Qed.

Lemma kept_activate p k : same_image k (activate stack_top p k).
Proof.
  etrans; [apply (same_upd image p (fun x => x {{ state := PROCESS_RUNNING }})); done|]. by apply same_eq; destruct p.
Qed.

Lemma kept_add p k : same_image k (scheduler_add p k).2.
Proof. destruct p as [p|]; [|done]. cbn [scheduler_add]. destruct (_ || _); [done|apply kept_enqueue]. Qed.

Lemma kept_set_result i x k : same_image k (set_result i x k).
Proof. unfold set_result. destruct (_ =? 0); [done|by apply same_eq]. Qed.

Lemma kept_requeue p k : same_image k (requeue p k).
Proof.
  unfold requeue. destruct (_ && _); [|done]. etrans; [|apply kept_enqueue]. by apply same_upd.
Qed.

Lemma kept_poll_one now i k : same_image k (poll_one now i k).
Proof.
  unfold poll_one. destruct (_ && _); [|done]. destruct (bool_decide _).
  - apply same_upd'; [done|]. by apply same_upd.
  - etrans; [|apply kept_add]. etrans; [|apply kept_set_result]. apply same_upd'; [done|]. by apply same_upd.
Qed.

Lemma kept_poll k : same_image k (process_poll_timeouts k).
Proof. apply same_range; [intros; apply kept_poll_one|done]. Qed.

(** The two ways a processor is given away end alike: the next process is activated, or
    there is none and [running] is set. *)
Lemma kept_charge p r k : same_image k (reset_ticks p (count_tick p (set_interrupt_frame p r k))).
Proof. do 3 (apply same_upd'; [done|]). done. Qed.

Lemma kept_tick r k : same_image k (scheduler_timer_tick stack_top initial_frame_at r k).2.
Proof.
  unfold scheduler_timer_tick. etrans; [apply kept_poll|]. set (k0 := process_poll_timeouts k). clearbody k0.
  destruct (_ <? _); [cbn [snd]; do 2 (apply same_upd'; [done|]); done|].
  etrans; [apply (kept_charge (running k0) r)|]. etrans; [apply (kept_requeue (running k0))|]. etrans; [apply (kept_next_ready 33)|].
  destruct (next_ready 33 _) as [n k2]. cbn [snd].
  destruct (bool_decide (n = running k0)); [done|]. destruct (bool_decide (n = Idle)); [|apply kept_activate].
  cbn [snd]. destruct (_ && _); [|by apply same_eq].
  etrans; [apply (same_upd image (running k0) (fun x => x {{ state := PROCESS_RUNNING }})); done|]. by apply same_eq.
Qed.

Lemma kept_block r k : same_image k (scheduler_block_current stack_top initial_frame_at r k).2.
Proof.
  unfold scheduler_block_current, switch_from_current. cbn zeta.
  set (k0 := set_interrupt_frame _ _ _). assert (same_image k k0) as E0 by (by apply same_upd).
  set (k1 := if bool_decide _ then _ else _).
  assert (same_image k k1) as E1 by (unfold k1; destruct (bool_decide _); [by apply same_upd'|done]).
  etrans; [exact E1|]. etrans; [apply (kept_next_ready 33)|]. destruct (next_ready 33 k1) as [n k2]. cbn [snd].
  destruct (bool_decide (n = Idle)); [|apply kept_activate].
  cbn [snd]. destruct (_ && _); [|by apply same_eq].
  etrans; [apply (same_upd image (running k) (fun x => x {{ state := PROCESS_RUNNING }})); done|]. by apply same_eq.
Qed.

Lemma kept_yield k : same_image k (scheduler_yield stack_top k).
Proof.
  unfold scheduler_yield, scheduler_tick, rr_tick. set (k0 := upd _ _ k).
  assert (same_image k k0) as E0 by (by apply same_upd). etrans; [exact E0|]. clearbody k0.
  destruct (_ <? _); [by apply same_upd|].
  etrans; [|etrans; [apply (kept_requeue (running k0))|etrans; [apply (kept_next_ready 33)|]]].
  { apply (same_upd' image (running k0) (fun x => x {{ ticks := 0 }})); [done|].
    by apply (same_upd image (running k0) (fun x => x {{ ticks := u32 (ticks x + 1) }})). }
  destruct (next_ready 33 _) as [n k2]. cbn [snd].
  destruct (bool_decide (n = running k0)); [done|]. etrans; [apply (kept_activate n)|].
  unfold context_switch. etrans; [apply same_upd|by apply same_eq]. done.
Qed.

Lemma kept_set_current p k : same_image k (scheduler_set_current p k).
Proof.
  destruct p as [p|]; [|done]. cbn [scheduler_set_current].
  set (k0 := k {{ running := p; boot_cpu_current := Some p }}). etrans; [by apply (same_eq image k k0)|].
  set (k1 := upd p _ k0). etrans; [by apply (same_upd image p (fun x => x {{ state := PROCESS_RUNNING; interrupt_frame := 0 }}))|].
  by apply (same_eq image k1).
Qed.

Lemma kept_enter_user p k : same_image k (process_enter_user stack_top p k).2.
Proof.
  unfold process_enter_user. destruct (_ || _); [done|]. cbn [snd]. apply same_upd'; [done|].
  etrans; [apply (kept_set_current (Some p))|]. by apply same_eq.
Qed.

Lemma kept_frame_for p entry stack user k : same_image k (frame_for stack_top initial_frame_at p entry stack user k).
Proof. unfold frame_for. apply same_upd'; [done|]. by apply same_eq. Qed.

Lemma kept_exit id status k : same_image k (process_exit_with_status id status k).2.
Proof.
  unfold process_exit_with_status. destruct (find_pid id k) as [i|]; [|done]. cbn [snd].
  apply same_range; [|apply same_range].
  - intros j k'. unfold wake_waiter. destruct (_ && _); [|done].
    etrans; [|apply kept_add]. etrans; [|apply kept_set_result]. set (k1 := upd _ _ k').
    assert (same_image k' k1) as E1 by (by apply same_upd). etrans; [exact E1|].
    destruct (_ =? 0); [done|by apply same_eq].
  - intros j k'. unfold orphan_zombie. destruct (_ && _); [by apply same_upd|done].
  - set (k1 := upd _ _ k). etrans; [by apply (same_upd image (Proc i) (fun x => x {{ state := PROCESS_ZOMBIE; exit_code := status }}))|].
    by apply same_eq.
Qed.

Lemma kept_send_signal id signal k : same_image k (process_send_signal id signal k).2.
Proof.
  unfold process_send_signal. destruct (_ || _); [done|]. destruct (signal =? 9).
  { pose proof (kept_exit id (128 + 9) k) as E. destruct (process_exit_with_status _ _ k). exact E. }
  destruct (find_from _ _ _) as [i|]; [|done]. set (k1 := upd _ _ k).
  assert (same_image k k1) as E1 by (by apply same_upd).
  destruct (bool_decide _); [|exact E1]. cbn [snd]. etrans; [|apply kept_add]. by apply same_upd'.
Qed.

Lemma kept_set_mask id mask k : same_image k (process_signal_set_mask id mask k).2.
Proof. unfold process_signal_set_mask. destruct (find_pid id k); [by apply same_upd|done]. Qed.

(** The outcomes a computation can have from [k] on, panics included. *)
Definition result_image {A} k (o : outcome (kernel S W) A) : Prop :=
  match o with Done _ k' | Panicked _ k' => same_image k k' end.

Lemma result_lift {A B} (f : vmm S -> outcome (vmm S) A) (g : A -> kernel S W -> outcome (kernel S W) B) k k0 :
  same_image k0 k -> (forall a k', same_image k0 k' -> result_image k0 (g a k')) -> result_image k0 (obind (lift f k) g).
Proof.
  intros Hk Hg. unfold lift. destruct (f (vm k)); cbn [obind result_image]; [apply Hg|]; (etrans; [exact Hk|by apply same_eq]).
Qed.

Lemma kept_signal_action id signal handler k : result_image k (process_signal_action utab_addr cr2 id signal handler k).
Proof.
  unfold process_signal_action. destruct (_ || _ || _); [done|]. destruct (find_pid id k) as [i|]; [|done].
  cbn zeta. destruct (handler =? 0); [by apply same_upd|]. destruct (_ || _ || _); [done|].
  apply result_lift; [done|]. intros rc k' E. destruct (negb _); [exact E|]. by apply same_upd'.
Qed.

Lemma kept_deliver r k : result_image k (process_deliver_signal utab_addr cr2 r k).
Proof.
  unfold process_deliver_signal. destruct (_ || _ || _); [done|]. cbn zeta.
  set (pending := Z.land _ _). set (p := scheduler_current k). clearbody pending p. generalize (seqZ 1 31). intros signals.
  assert (forall k', same_image k k' -> result_image k (deliver_loop utab_addr cr2 signals pending p r k')) as Hloop; [|by apply Hloop].
  induction signals as [|s rest IH]; intros k' E; cbn [deliver_loop]; [exact E|].
  destruct (_ =? 0); [by apply IH|]. set (k1 := upd _ _ k').
  assert (same_image k k1) as E1 by (by apply same_upd').
  destruct (_ =? 0); [by apply IH|]. destruct (_ <? _); [by apply IH|].
  apply result_lift; [exact E1|]. intros rc k2 E2. destruct (negb _); [by apply IH|]. cbn [result_image].
  set (k3 := upd p _ k2). assert (same_image k k3) as E3 by (by apply same_upd').
  apply same_upd'; [done|]. etrans; [exact E3|]. by apply same_eq.
Qed.

Lemma kept_signal_return r k : same_image k (process_signal_return r k).
Proof. unfold process_signal_return. destruct (_ || _); [done|]. apply same_upd'; [done|]. by apply same_eq. Qed.

Lemma kept_futex_wait key expected timeout k : result_image k (process_futex_wait utab_addr cr2 key expected timeout k).
Proof.
  unfold process_futex_wait. destruct (key =? 0); [done|]. apply result_lift; [done|].
  intros rc k' E. destruct (_ || _); [exact E|]. by apply same_upd'.
Qed.

Lemma kept_futex_wake key count k : same_image k (process_futex_wake key count k).2.
Proof.
  unfold process_futex_wake. destruct (key =? 0); [done|].
  apply (for_range_pres (fun ks => same_image k ks.2)); [done|]. intros i [woken k'] _ E. cbn [snd] in E. unfold wake_one.
  destruct (_ && _); [|exact E]. cbn [snd]. etrans; [|apply kept_add]. etrans; [|apply kept_set_result].
  by apply same_upd'.
Qed.

(** ** The invariant *)
Record pid_inv k : Prop := {
  pid_len : length (processes k) = 32%nat;
  pid_count : 0 <= process_count k <= 32;
  pid_live i : in_table i -> allocated (processes k).[i] = true -> i < process_count k /\ generation (processes k).[i] <> 0;
  pid_gen i : in_table i -> 0 <= generation (processes k).[i] < 16777216;
  pid_make i : in_table i -> pid (processes k).[i] =
    if generation (processes k).[i] =? 0 then 0 else make_pid (generation (processes k).[i]) i;
}.

Lemma pid_inv_same k k' : same_ids k k' -> pid_inv k -> pid_inv k'.
Proof.
  intros (Hc & Hl & Hi) [A B C D E].
  assert (forall i, pid (processes k').[i] = pid (processes k).[i] /\ allocated (processes k').[i] = allocated (processes k).[i] /\
    generation (processes k').[i] = generation (processes k).[i]) as F.
  { intros i. specialize (Hi i). unfold ids in Hi. by injection Hi. }
  split; [congruence|congruence| | |]; intros i; destruct (F i) as (F1 & F2 & F3); rewrite ?F1, ?F2, ?F3, ?Hc; auto.
Qed.

Lemma pid_inv_kept k k' : same_image k k' -> pid_inv k -> pid_inv k'.
Proof. intros E. apply pid_inv_same. by apply image_ids. Qed.

(** A change of one slot that keeps to its name. *)
Lemma pid_inv_upd i f k :
  pid_inv k -> in_table i ->
  (let y := f (processes k).[i] in
   (allocated y = true -> i < process_count k /\ generation y <> 0) /\ 0 <= generation y < 16777216 /\
   pid y = (if generation y =? 0 then 0 else make_pid (generation y) i)) ->
  pid_inv (upd (Proc i) f k).
Proof.
  intros [A B C D E] Hi (F & G & I).
  assert (forall j, in_table j -> (processes (upd (Proc i) f k)).[j] = if i =? j then f (processes k).[i] else (processes k).[j]) as Hget.
  { intros j Hj. unfold in_table in *. cbn [upd]. apply aget_aset; lia. }
  split; [|exact B|..].
  - change (length ((processes k).[i <- f (processes k).[i]]) = 32%nat). by rewrite aset_length.
  - intros j Hj. rewrite Hget by done. destruct (Z.eqb_spec i j) as [->|]; [exact F|by apply C].
  - intros j Hj. rewrite Hget by done. destruct (Z.eqb_spec i j) as [->|]; [exact G|by apply D].
  - intros j Hj. rewrite Hget by done. destruct (Z.eqb_spec i j) as [->|]; [exact I|by apply E].
Qed.

(** The first free slot is at most [process_count]. *)
Lemma free_slot k i :
  pid_inv k -> find_from (fun i => negb (allocated (processes k).[i])) 0 (Z.to_nat MAX_PROCESSES) = Some i ->
  in_table i /\ i <= process_count k /\ allocated (processes k).[i] = false.
Proof.
  intros [A B C D E] (Hr & Ht & Hlow)%find_from_Some. autounfold with kconst in *.
  split; [unfold in_table; lia|]. split; [|by destruct (allocated _)].
  destruct (Z.leb_spec i (process_count k)); [done|]. exfalso.
  specialize (Hlow (process_count k) ltac:(lia)). apply negb_false_iff in Hlow.
  apply C in Hlow as [Hlt _]; [lia|unfold in_table; lia].
Qed.

Definition with_count (n : Z) k : kernel S W := k {{ process_count := n }}.

(** The state between the change of the count and the naming of the slot. *)
Lemma pid_inv_count n k : pid_inv k -> process_count k <= n <= 32 -> pid_inv (with_count n k).
Proof.
  intros [A B C D E] Hn. split; [exact A| | |exact D|exact E].
  - change (0 <= n <= 32). lia.
  - intros i Hi Ha. destruct (C i Hi Ha). change (i < n /\ generation (processes k).[i] <> 0). lia.
Qed.

Lemma pid_inv_uncount n k :
  pid_inv k -> 0 <= n <= process_count k -> (forall i, in_table i -> n <= i -> allocated (processes k).[i] = false) ->
  pid_inv (with_count n k).
Proof.
  intros [A B C D E] Hn Hf. split; [exact A| | |exact D|exact E].
  - change (0 <= n <= 32). lia.
  - intros i Hi Ha. destruct (C i Hi Ha). change (i < n /\ generation (processes k).[i] <> 0).
    destruct (Z.ltb_spec i n); [done|]. change (allocated (processes k).[i] = true) in Ha.
    rewrite Hf in Ha by done. discriminate Ha.
Qed.

(** Naming a slot: the first assignments of [new_pcb]. *)
Definition named (name : option string) (g i : Z) (x : pcb) : pcb :=
  x {{ generation := g; pid := make_pid g i; allocated := true; state := PROCESS_READY; ticks := 0; pname := name;
       next := None; entry_point := 0; user_stack := 0; user_mode := false }}.
Definition grown (i : Z) k : kernel S W := if i =? process_count k then with_count (process_count k + 1) k else k.

Lemma named_inv name k i :
  pid_inv k -> in_table i -> i <= process_count k ->
  let g := next_generation (generation (processes k).[i]) in
  pid_inv (upd (Proc i) (named name g i) (grown i k)) /\ i < process_count (grown i k).
Proof.
  intros Hk Hi Hle g. pose proof (pid_gen _ Hk i Hi) as Hg. apply next_generation_range in Hg as [Hg _]. fold g in Hg.
  assert (pid_inv (grown i k) /\ i < process_count (grown i k)) as [Hgr Hlt].
  { unfold grown. destruct (Z.eqb_spec i (process_count k)) as [E|Hne].
    - split; [apply pid_inv_count; [done|unfold in_table in *; lia]|change (i < process_count k + 1); lia].
    - split; [done|]. lia. }
  split; [|exact Hlt]. apply pid_inv_upd; [done|done|]. cbn zeta.
  set (x := (processes (grown i k)).[i]). clearbody x.
  change (generation (named name g i x)) with g. change (allocated (named name g i x)) with true.
  change (pid (named name g i x)) with (make_pid g i). split; [intros _; lia|]. split; [lia|].
  destruct (Z.eqb_spec g 0); [lia|done].
Qed.

(** Giving the last slot back. *)
Lemma pid_inv_ungrow i k :
  pid_inv k -> in_table i -> allocated (processes k).[i] = false -> process_count k = i + 1 ->
  pid_inv (with_count (process_count k - 1) k).
Proof.
  intros Hk Hi Ha Ec. rewrite Ec. apply pid_inv_uncount; [done|unfold in_table in *; lia|]. intros j Hj Hij.
  destruct (decide (j = i)) as [->|Hne]; [done|].
  destruct (allocated (processes k).[j]) eqn:Haj; [|done]. apply (pid_live _ Hk j Hj) in Haj as [Hlt' _]. lia.
Qed.

Lemma new_pcb_inv name k r k' :
  pid_inv k -> new_pcb name k = (r, k') ->
  pid_inv k' /\
  match r with
  | None => True
  | Some i => in_table i /\ allocated (processes k).[i] = false /\ allocated (processes k').[i] = true /\
              pid (processes k').[i] <> pid (processes k).[i]
  end.
Proof.
  intros Hk. unfold new_pcb. destruct (find_from _ _ _) as [i|] eqn:Hf; [|by intros [= <- <-]].
  destruct (free_slot k i Hk Hf) as (Hi & Hle & Ha).
  destruct (named_inv name k i Hk Hi Hle) as [H2 Hlt]. cbn zeta in H2. set (g := next_generation _) in H2.
  assert ((if i =? process_count k then k {{ process_count := process_count k + 1 }} else k) = grown i k) as -> by done.
  assert (processes (grown i k) = processes k) as Ep by (unfold grown; by destruct (_ =? _)). rewrite Ep. fold g.
  set (k2 := upd (Proc i) _ (grown i k)). change (pid_inv k2) in H2.
  destruct (vmm_create_address_space (vm k2)) as [a vm'].
  set (k3 := upd (Proc i) (fun x => x {{ space := a }}) (k2 {{ vm := vm' }})).
  assert (same_ids k2 k3) as E3.
  { etrans; [by apply (same_eq ids k2 (k2 {{ vm := vm' }}))|]. unfold k3. by apply same_upd. }
  pose proof (pid_inv_same _ _ E3 H2) as H3. destruct a as [s|].
  - set (k4 := upd (Proc i) _ k3). assert (same_ids k2 k4) as E4 by (by apply same_upd').
    intros [= <- <-]. split; [by eapply pid_inv_same|]. split; [done|]. split; [done|].
    assert (ids (processes k4).[i] = (make_pid g i, true, g)) as Eid.
    { destruct E4 as (_ & _ & E4). rewrite E4.
      change (processes k2) with ((processes (grown i k)).[i <- named name g i (processes (grown i k)).[i]]).
      rewrite aget_aset_eq; [done|]. rewrite Ep, (pid_len _ Hk). unfold in_table in Hi. lia. }
    split; [exact (f_equal (fun t => t.1.2) Eid)|].
    assert (pid (processes k4).[i] = make_pid g i) as -> by exact (f_equal (fun t => t.1.1) Eid).
    clearbody k4. clear E4 Eid.
    rewrite (pid_make _ Hk i Hi). pose proof (pid_gen _ Hk i Hi) as Hg0.
    pose proof (next_generation_range _ Hg0) as [Hg Hgne]. fold g in Hg, Hgne.
    rewrite (make_pid_eq g i) by (done || lia). destruct (Z.eqb_spec (generation (processes k).[i]) 0).
    + unfold in_table in *. lia.
    + rewrite make_pid_eq by done. lia.
  - set (k4 := upd (Proc i) _ k3). assert (pid_inv k4) as H4.
    { apply pid_inv_upd; [done|done|]. cbn zeta. split; [done|]. split; [exact (pid_gen _ H3 i Hi)|exact (pid_make _ H3 i Hi)]. }
    assert (allocated (processes k4).[i] = false) as Ha4.
    { change (processes k4) with ((processes k3).[i <- ((processes k3).[i]) {{ allocated := false }}]).
      rewrite aget_aset_eq; [done|]. rewrite (pid_len _ H3). unfold in_table in Hi. lia. }
    assert (process_count k4 = process_count (grown i k)) as Ec by done.
    clearbody k4. destruct (Z.eqb_spec i (process_count k)) as [E|]; intros [= <- <-]; (split; [|done]); [|exact H4].
    apply (pid_inv_ungrow i k4); [done|done|done|]. rewrite Ec. unfold grown. rewrite <- E, Z.eqb_refl. done.
Qed.

(** *** Creation, fork and wait *)
Lemma create_entry_inv name entry k : pid_inv k -> pid_inv (process_create_entry stack_top initial_frame_at name entry k).2.
Proof.
  intros Hk. unfold process_create_entry. destruct (new_pcb name k) as [[i|] k'] eqn:E;
    destruct (new_pcb_inv _ _ _ _ Hk E) as [Hk' _]; [|exact Hk']. cbn zeta.
  set (k1 := set_cpu _ _ _). assert (same_ids k' k1) as E1 by (apply same_upd'; [done|by apply same_upd]).
  destruct (entry =? 0); cbn [snd]; eapply pid_inv_same; try exact Hk'; [exact E1|]. etrans; [|apply image_ids, kept_frame_for].
  apply same_upd'; [done|]. etrans; [exact E1|by apply same_eq].
Qed.

Lemma create_thread_inv name entry k : pid_inv k -> pid_inv (process_create_thread stack_top initial_frame_at name entry k).2.
Proof.
  intros Hk. unfold process_create_thread. destruct (_ || _ || _); [done|].
  pose proof (create_entry_inv name entry k Hk) as Hk'. destruct (process_create_entry _ _ _ _ k) as [[i|] k']; [|done].
  cbn [snd] in *. eapply pid_inv_same; [|exact Hk']. apply same_upd'; [done|].
  set (k1 := upd (Proc i) _ (on_vm _ k')). assert (same_ids k' k1) as E1 by (apply same_upd'; [done|by apply same_eq]).
  etrans; [exact E1|by apply same_eq].
Qed.

Lemma create_user_inv name entry k : pid_inv k -> pid_inv (process_create_user stack_top initial_frame_at utab_addr name entry k).2.
Proof.
  intros Hk. unfold process_create_user. destruct (new_pcb name k) as [[i|] k'] eqn:E;
    destruct (new_pcb_inv _ _ _ _ Hk E) as [Hk' _]; [|exact Hk']. cbn zeta.
  destruct (alloc_page _) as [page f']. set (k1 := on_vm (with_frames f') k').
  assert (same_ids k' k1) as E1 by (by apply same_eq).
  destruct (page =? 0); [by eapply pid_inv_same|]. destruct (vmm_map_user _ _ _ _ _ _) as [rc vm'].
  set (k2 := k1 {{ vm := vm' }}). assert (same_ids k' k2) as E2 by (by apply same_eq).
  destruct (negb _); cbn [snd]; eapply pid_inv_same; try exact Hk'; [by apply same_eq|].
  etrans; [|apply image_ids, kept_frame_for]. apply same_upd'; [done|]. by apply same_upd'.
Qed.

Lemma fork_start_kept p i k : same_image k (fork_start stack_top initial_frame_at p i k).2.
Proof.
  unfold fork_start. cbn [snd]. destruct (user_mode _); [apply kept_frame_for|].
  destruct (_ =? 0); [done|apply kept_frame_for].
Qed.

Lemma fork_inv k : pid_inv k -> pid_inv (process_fork stack_top initial_frame_at utab_addr k).2.
Proof.
  intros Hk. unfold process_fork. destruct (new_pcb _ k) as [[i|] k'] eqn:E;
    destruct (new_pcb_inv _ _ _ _ Hk E) as [Hk' _]; [|exact Hk'].
  generalize (scheduler_current k). intros parent. cbn zeta. set (x := pcb_of parent k'). clearbody x.
  set (k1 := upd (Proc i) (inherit x) k'). assert (same_ids k' k1) as E1 by (by apply same_upd).
  set (k2 := on_fds _ k1). assert (same_ids k' k2) as E2 by (etrans; [exact E1|by apply same_eq]).
  clearbody k2. eapply pid_inv_same; [|exact Hk']. destruct (space x) as [s|].
  - destruct (vmm_clone_address_space_cow _ _ _) as [[c|] vm'].
    + etrans; [|apply image_ids, fork_start_kept]. apply same_upd'; [done|]. etrans; [exact E2|by apply same_eq].
    + cbn [snd]. etrans; [exact E2|]. etrans; [by apply (same_eq ids k2 (k2 {{ vm := vm' }}))|apply image_ids, kept_exit].
  - etrans; [exact E2|apply image_ids, fork_start_kept].
Qed.

Lemma wait_inv child status k : pid_inv k -> pid_inv (process_wait child status k).2.
Proof.
  intros Hk. unfold process_wait. destruct (find_from _ _ _) as [i|] eqn:Hf; [|done].
  apply find_from_Some in Hf as (Hr & _). pose proof (pid_count _ Hk). assert (in_table i) as Hi by (unfold in_table; lia).
  destruct (bool_decide _); [|eapply pid_inv_same; [|exact Hk]; by apply same_upd]. cbn [snd]. cbn zeta.
  set (k1 := if status =? 0 then k else _).
  assert (same_ids k k1) as E1 by (unfold k1; destruct (status =? 0); [done|by apply same_eq]).
  set (k2 := match space _ with Some _ => _ | None => _ end).
  assert (same_ids k k2) as E2.
  { unfold k2. destruct (space _); [|exact E1]. apply same_upd'; [done|]. etrans; [exact E1|by apply same_eq]. }
  assert (pid_inv (on_fds (vfs_release_process child) k2)) as H2.
  { eapply pid_inv_same; [|exact Hk]. etrans; [exact E2|by apply same_eq]. }
  apply pid_inv_upd; [done|done|]. cbn zeta. split; [done|]. split; [exact (pid_gen _ H2 i Hi)|exact (pid_make _ H2 i Hi)].
Qed.

(** ** Everything the kernel does with processes *)
Inductive process_step : kernel S W -> kernel S W -> Prop :=
  | step_create k name entry : process_step k (process_create_entry stack_top initial_frame_at name entry k).2
  | step_thread k name entry : process_step k (process_create_thread stack_top initial_frame_at name entry k).2
  | step_user k name entry : process_step k (process_create_user stack_top initial_frame_at utab_addr name entry k).2
  | step_fork k : process_step k (process_fork stack_top initial_frame_at utab_addr k).2
  | step_exit k id status : process_step k (process_exit_with_status id status k).2
  | step_wait k child status : process_step k (process_wait child status k).2
  | step_signal k id signal : process_step k (process_send_signal id signal k).2
  | step_action k id signal handler rc k' :
      process_signal_action utab_addr cr2 id signal handler k = Done rc k' -> process_step k k'
  | step_mask k id mask : process_step k (process_signal_set_mask id mask k).2
  | step_deliver k r k' : process_deliver_signal utab_addr cr2 r k = Done tt k' -> process_step k k'
  | step_sigreturn k r : process_step k (process_signal_return r k)
  | step_futex_wait k key expected timeout rc k' :
      process_futex_wait utab_addr cr2 key expected timeout k = Done rc k' -> process_step k k'
  | step_futex_wake k key count : process_step k (process_futex_wake key count k).2
  | step_enter_user k p : process_step k (process_enter_user stack_top p k).2
  | step_set_current k p : process_step k (scheduler_set_current p k)
  | step_add k p : process_step k (scheduler_add p k).2
  | step_yield k : process_step k (scheduler_yield stack_top k)
  | step_tick k r : process_step k (scheduler_timer_tick stack_top initial_frame_at r k).2
  | step_block k r : process_step k (scheduler_block_current stack_top initial_frame_at r k).2
  | step_memory k s : process_step k (k {{ vm := s }})
  | step_descriptors k v : process_step k (k {{ fds := v }})
  | step_clock k t : process_step k (k {{ clock := t }}).

Lemma process_step_inv k k' : process_step k k' -> pid_inv k -> pid_inv k'.
Proof.
  intros Hs Hk. destruct Hs.
  - by apply create_entry_inv.
  - by apply create_thread_inv.
  - by apply create_user_inv.
  - by apply fork_inv.
  - eapply pid_inv_kept; [apply kept_exit|done].
  - by apply wait_inv.
  - eapply pid_inv_kept; [apply kept_send_signal|done].
  - pose proof (kept_signal_action id signal handler k) as E. rewrite H0 in E. by eapply pid_inv_kept.
  - eapply pid_inv_kept; [apply kept_set_mask|done].
  - pose proof (kept_deliver r k) as E. rewrite H0 in E. by eapply pid_inv_kept.
  - eapply pid_inv_kept; [apply kept_signal_return|done].
  - pose proof (kept_futex_wait key expected timeout k) as E. rewrite H0 in E. by eapply pid_inv_kept.
  - eapply pid_inv_kept; [apply kept_futex_wake|done].
  - eapply pid_inv_kept; [apply kept_enter_user|done].
  - eapply pid_inv_kept; [apply kept_set_current|done].
  - eapply pid_inv_kept; [apply kept_add|done].
  - eapply pid_inv_kept; [apply kept_yield|done].
  - eapply pid_inv_kept; [apply kept_tick|done].
  - eapply pid_inv_kept; [apply kept_block|done].
  - apply (pid_inv_same k); [by apply (same_eq ids)|exact Hk].
  - apply (pid_inv_same k); [by apply (same_eq ids)|exact Hk].
  - apply (pid_inv_same k); [by apply (same_eq ids)|exact Hk].
Qed.

(** The tables as the loader leaves them. *)
Definition no_processes k : Prop := processes k = replicate 32 no_pcb /\ process_count k = 0.

Lemma no_processes_inv k : no_processes k -> pid_inv k.
Proof.
  intros [E1 E2]. assert (forall i, in_table i -> (processes k).[i] = no_pcb) as Hget.
  { intros i Hi. rewrite E1. apply aget_replicate. exact Hi. }
  split; [by rewrite E1|rewrite E2; lia| | |]; intros i Hi; rewrite (Hget i Hi).
  - intros Ha. discriminate Ha.
  - change (0 <= 0 < 16777216). lia.
  - done.
Qed.

End ids.
