(* ===== verification/Signals.v ===== *)
(** Signals and futexes, [kernel/process.c]: a signal handler runs on a frame that
    [process_signal_return] undoes, and [process_futex_wake] wakes the first waiters. *)
From S2P Require Import Prelude Frames Paging KernelMap Vmm Fat32 Console Vfs Sync Timer Process ReadyQueue.
From coqutil Require Import Datatypes.RecordSetters.
Import DoubleBraceUpdate.

Section signals.
Context {S W : Type} `{FrameAllocator S}.
Variable utab_addr : Z -> Z -> Z.
Variable cr2 : Z.
Implicit Types k : kernel S W.

Definition ptr_ok (p : pcb_ptr) k : Prop :=
  length (processes k) = 32%nat /\ match p with Idle => True | Proc i => in_table i end.

Lemma pcb_of_upd p f k : ptr_ok p k -> pcb_of p (upd p f k) = f (pcb_of p k).
Proof. intros [Hl Hp]. destruct p as [|i]; [done|]. unfold in_table in Hp. apply aget_aset_eq. lia. Qed.

Lemma ptr_ok_upd p q f k : ptr_ok p k -> ptr_ok p (upd q f k).
Proof.
  intros [Hl Hp]. split; [|done]. destruct q as [|i]; [exact Hl|].
  change (length ((processes k).[i <- f (processes k).[i]]) = 32%nat). by rewrite aset_length.
Qed.

Lemma regs_upd p f k : regs (upd p f k) = regs k.
Proof. by destruct p. Qed.
Lemma frame_upd r p f k : frame_at r (upd p f k) = frame_at r k.
Proof. unfold frame_at. by rewrite regs_upd. Qed.
Lemma running_upd p f k : running (upd p f k) = running k.
Proof. by destruct p. Qed.

(** Everything a pass over the pending signals keeps. *)
Record undelivered (p : pcb_ptr) (r : Z) k k' : Prop := {
  und_ok : ptr_ok p k';
  und_running : running k' = running k;
  und_frame : frame_at r k' = frame_at r k;
  und_pcb : pcb_of p k' = (pcb_of p k) {{ pending_signals := pending_signals (pcb_of p k') }};
}.

Lemma undelivered_refl p r k : ptr_ok p k -> undelivered p r k k.
Proof. intros Hp. split; [done|done|done|]. by destruct (pcb_of p k). Qed.

Lemma undelivered_clear p r m k k' :
  undelivered p r k k' -> undelivered p r k (upd p (fun x => x {{ pending_signals := m (pending_signals x) }}) k').
Proof.
  intros [A B C D]. split; [by apply ptr_ok_upd|by rewrite running_upd|by rewrite frame_upd|].
  rewrite pcb_of_upd by done. rewrite D. done.
Qed.

Lemma undelivered_vm p r k k' s : undelivered p r k k' -> undelivered p r k (k' {{ vm := s }}).
Proof.
  intros [A B C D]. assert (pcb_of p (k' {{ vm := s }}) = pcb_of p k') as E by (by destruct p).
  split; [exact A|exact B|exact C|]. by rewrite E.
Qed.

(** The state after signal [s] was set up on the user stack. *)
Record delivered (p : pcb_ptr) (r : Z) (signals : list Z) (pending : Z) k k' : Prop := {
  del_ok : ptr_ok p k';
  del_running : running k' = running k;
  del_active : signal_active (pcb_of p k') = true;
  del_saved : signal_saved_frame (pcb_of p k') = frame_at r k;
  del_frame : exists s, s ∈ signals /\ Z.land pending (Z.shiftl 1 s) <> 0 /\
    (signal_handlers (pcb_of p k)).[s] <> 0 /\ Z.land (pending_signals (pcb_of p k')) (Z.shiftl 1 s) = 0 /\
    frame_at r k' = (frame_at r k).[R_USERESP <- (frame_at r k).[R_USERESP] - 8]
                      .[R_EIP <- (signal_handlers (pcb_of p k)).[s]].[R_EAX <- s];
}.

Lemma set_reg_frame r i x k : frame_at r (set_reg r i x k) = (frame_at r k).[i <- x].
Proof.
  unfold set_reg, set_frame, frame_at. change (regs (k {{ regs := ?m }})) with m. by rewrite lookup_insert_eq.
Qed.

Lemma clear_bit x s : 0 <= s < 32 -> Z.land (Z.land x (u32 (Z.lnot (Z.shiftl 1 s)))) (Z.shiftl 1 s) = 0.
Proof.
  intros Hs. apply Z.bits_inj'. intros n Hn. rewrite !Z.land_spec, Z.bits_0, testbit_one_shl by lia.
  destruct (Z.eqb_spec n s) as [->|]; [|by rewrite andb_false_r].
  unfold u32. change 4294967296 with (2 ^ 32). rewrite Z.mod_pow2_bits_low by lia.
  rewrite Z.lnot_spec, testbit_one_shl, Z.eqb_refl by lia. by rewrite andb_false_r.
Qed.

Lemma deliver_loop_spec signals pending p r k k1 k' :
  (forall s, s ∈ signals -> 0 <= s < 32) -> signal_active (pcb_of p k) = false ->
  undelivered p r k k1 -> deliver_loop utab_addr cr2 signals pending p r k1 = Done tt k' ->
  undelivered p r k k' \/ delivered p r signals pending k k'.
Proof.
  intros Hs Hact. revert k1. induction signals as [|s rest IH]; intros k1 Hu; cbn [deliver_loop].
  { intros <-%Done_inj. by left. }
  assert (forall k2, undelivered p r k k2 -> deliver_loop utab_addr cr2 rest pending p r k2 = Done tt k' ->
    undelivered p r k k' \/ delivered p r (s :: rest) pending k k') as Hrest.
  { intros k2 Hu2 E. destruct (IH ltac:(intros x Hx; apply Hs; by right) k2 Hu2 E) as [?|[A B C D (x & Hx & F)]]; [by left|].
    right. split; [done|done|done|done|]. exists x. split; [by right|exact F]. }
  destruct (Z.eqb_spec (Z.land pending (Z.shiftl 1 s)) 0) as [|Hbit]; [by apply Hrest|].
  set (k2 := upd p _ k1). assert (undelivered p r k k2) as Hu2.
  { apply (undelivered_clear p r (fun m => Z.land m (u32 (Z.lnot (Z.shiftl 1 s)))) k k1 Hu). }
  assert (Z.land (pending_signals (pcb_of p k2)) (Z.shiftl 1 s) = 0) as Hclear.
  { unfold k2. rewrite pcb_of_upd by apply Hu. apply clear_bit, Hs. by left. }
  clearbody k2. destruct (Z.eqb_spec (signal_handlers (pcb_of p k2)).[s] 0) as [|Hh]; [by apply Hrest|].
  destruct (_ <? _); [by apply Hrest|]. unfold lift. destruct (vmm_validate_user_ptr _ _ _ _ _ _ _) as [rc s'|]; [|done].
  cbn [obind]. set (k3 := k2 {{ vm := s' }}). assert (undelivered p r k k3) as Hu3 by (by apply undelivered_vm).
  destruct (negb _); [by apply Hrest|]. intros <-%Done_inj. right.
  assert (pcb_of p k3 = pcb_of p k2) as E32 by (by destruct p). destruct Hu3 as [A B C D].
  set (k4 := upd p (fun x => x {{ signal_saved_frame := frame_at r k3 }}) k3).
  set (k5 := on_vm _ (on_vm _ k4)). set (k6 := set_reg r R_EAX s _).
  assert (pcb_of p k6 = (pcb_of p k3) {{ signal_saved_frame := frame_at r k3 }}) as E6.
  { transitivity (pcb_of p k4); [by destruct p|]. unfold k4. by rewrite pcb_of_upd. }
  assert (ptr_ok p k6) as Hok6 by (apply (ptr_ok_upd p p (fun x => x {{ signal_saved_frame := frame_at r k3 }}) k3 A)).
  assert (signal_handlers (pcb_of p k3) = signal_handlers (pcb_of p k)) as Eh by (rewrite D; done).
  assert (frame_at r k5 = frame_at r k) as E5.
  { transitivity (frame_at r k4); [done|]. unfold k4. by rewrite frame_upd. }
  split.
  - by apply ptr_ok_upd.
  - rewrite running_upd. transitivity (running k4); [done|]. unfold k4. by rewrite running_upd.
  - by rewrite pcb_of_upd.
  - rewrite pcb_of_upd, E6 by done. exact C.
  - exists s. split; [by left|]. split; [done|]. rewrite <- Eh, E32. split; [done|]. split.
    + rewrite pcb_of_upd, E6, E32 by done. exact Hclear.
    + rewrite frame_upd. unfold k6. rewrite !set_reg_frame, E5. rewrite <- (und_frame _ _ _ _ Hu2). done.
Qed.

Lemma pending_bit x mask s : 1 <= s <= 31 ->
  Z.land (Z.land (Z.land x (u32 (Z.lnot mask))) 4294967294) (Z.shiftl 1 s) <> 0 ->
  Z.testbit x s = true /\ Z.testbit mask s = false.
Proof.
  intros Hs Hne. destruct (Z.testbit x s && negb (Z.testbit mask s)) eqn:E.
  { apply andb_true_iff in E as [-> E]. by rewrite negb_true_iff in E. }
  exfalso. apply Hne, Z.bits_inj'. intros n Hn. rewrite Z.land_spec, Z.bits_0, testbit_one_shl by lia.
  destruct (Z.eqb_spec n s) as [->|]; [|apply andb_false_r]. rewrite andb_true_r, !Z.land_spec.
  unfold u32. change 4294967296 with (2 ^ 32). rewrite Z.mod_pow2_bits_low, Z.lnot_spec, E by lia. done.
Qed.

(** C13: delivering a signal and returning from its handler is a round trip.  A delivery
    that sets up a handler takes a signal that is pending and not masked, clears it,
    makes the frame continue in the handler with the signal number in [eax] on a stack
    eight bytes lower, and [process_signal_return] then restores every word of the
    interrupted frame and allows signals again; a delivery that sets up none leaves the
    frame as it is. *)
Theorem signal_delivery_roundtrip r k k' :
  let p := running k in
  ptr_ok p k -> process_deliver_signal utab_addr cr2 r k = Done tt k' ->
  frame_at r k' = frame_at r k \/
  (exists s, 1 <= s <= 31 /\
    Z.testbit (pending_signals (pcb_of p k)) s = true /\ Z.testbit (signal_mask (pcb_of p k)) s = false /\
    Z.testbit (pending_signals (pcb_of p k')) s = false /\ (signal_handlers (pcb_of p k)).[s] <> 0 /\
    frame_at r k' = (frame_at r k).[R_USERESP <- (frame_at r k).[R_USERESP] - 8]
                      .[R_EIP <- (signal_handlers (pcb_of p k)).[s]].[R_EAX <- s] /\
    signal_active (pcb_of p k') = true /\
    frame_at r (process_signal_return r k') = frame_at r k /\
    signal_active (pcb_of p (process_signal_return r k')) = false).
Proof.
  intros p Hp. unfold process_deliver_signal, scheduler_current. fold p.
  destruct (Z.eqb_spec r 0) as [|Hr]; [intros <-%Done_inj; by left|].
  destruct (user_mode _); [|intros <-%Done_inj; by left].
  destruct (signal_active _) eqn:Hact; [intros <-%Done_inj; by left|]. cbn [orb negb]. intros Hd.
  apply (deliver_loop_spec _ _ _ _ k) in Hd; [|intros s [??]%elem_of_seqZ; lia|done|by apply undelivered_refl].
  destruct Hd as [Hu|[Hok Hrun Ha Hsaved (s & Hs & Hbit & Hh & Hclear & Hf)]]; [left; apply Hu|right].
  apply elem_of_seqZ in Hs. exists s. destruct (pending_bit _ _ s ltac:(lia) Hbit) as [H1 H2].
  split; [lia|]. split; [done|]. split; [done|]. split.
  { apply (f_equal (fun z => Z.testbit z s)) in Hclear. rewrite Z.land_spec, Z.bits_0, testbit_one_shl, Z.eqb_refl in Hclear by lia.
    by rewrite andb_true_r in Hclear. }
  split; [done|]. split; [done|]. split; [done|].
  unfold process_signal_return, scheduler_current. rewrite Hrun. fold p. rewrite Ha.
  destruct (Z.eqb_spec r 0); [done|]. cbn [orb negb]. rewrite frame_upd, Hsaved. split.
  - unfold frame_at at 1, set_frame. change (regs (k' {{ regs := ?m }})) with m. by rewrite lookup_insert_eq.
  - rewrite pcb_of_upd; [done|]. destruct Hok as [A B]. split; [exact A|exact B].
Qed.
End signals.
