(* ===== verification/Futex.v ===== *)
(** Waking and waiting, [kernel/process.c]: [process_futex_wake] moves the first waiters, in
    slot order, to the back of the ready queue; [process_exit_with_status] leaves a
    parent that waits for the process blocked. *)
From S2P Require Import Prelude Frames Paging KernelMap Vmm Fat32 Console Vfs Sync Timer Process ReadyQueue.
From coqutil Require Import Datatypes.RecordSetters.
Import DoubleBraceUpdate.

Section futex.
Context {S W : Type} `{FrameAllocator S}.
Implicit Types k : kernel S W.

Definition waiting (key : Z) (x : pcb) : bool := bool_decide (state x = PROCESS_BLOCKED) && (futex_key x =? key).
Definition awake (x : pcb) : pcb := x {{ futex_key := 0; futex_deadline := 0; state := PROCESS_READY }}.

(** The slots below [n] that wait on [key], the first [count] of them if [count] is not 0. *)
Definition waiters (key n : Z) (l : list pcb) : list Z := List.filter (fun i => waiting key l.[i]) (seqZ 0 n).
Definition first_waiters (key count n : Z) (l : list pcb) : list Z :=
  if count =? 0 then waiters key n l else take (Z.to_nat count) (waiters key n l).

Lemma waiters_succ key n l : 0 <= n ->
  waiters key (n + 1) l = waiters key n l ++ (if waiting key l.[n] then [n] else []).
Proof. intros Hn. unfold waiters. rewrite seqZ_app by lia. rewrite List.filter_app. cbn. by rewrite Z.add_0_l. Qed.

Lemma waiters_lt key n l i : i ∈ waiters key n l -> 0 <= i < n /\ waiting key l.[i] = true.
Proof. intros [Hi Hw]%list_elem_of_In%List.filter_In. apply list_elem_of_In, elem_of_seqZ in Hi. split; [lia|done]. Qed.

Lemma first_waiters_lt key count n l i : i ∈ first_waiters key count n l -> 0 <= i < n /\ waiting key l.[i] = true.
Proof.
  unfold first_waiters. destruct (count =? 0); [apply waiters_lt|]. intros Hi.
  apply (waiters_lt key). by eapply elem_of_take in Hi as (j & Hj & _); eapply list_elem_of_lookup_2.
Qed.

(** One slot further: the next waiter is taken as long as fewer than [count] were. *)
Lemma first_waiters_succ key count n l : 0 <= n -> 0 <= count ->
  first_waiters key count (n + 1) l = first_waiters key count n l ++
    (if ((count =? 0) || (Z.of_nat (length (first_waiters key count n l)) <? count)) && waiting key l.[n] then [n] else []).
Proof.
  intros Hn Hc. unfold first_waiters. rewrite waiters_succ by done. destruct (Z.eqb_spec count 0); [done|]. cbn [orb].
  rewrite take_app, length_take. f_equal.
  destruct (Z.ltb_spec (Z.of_nat (Z.to_nat count `min` length (waiters key n l))) count) as [Hlt|Hge]; cbn [andb].
  - destruct (waiting key l.[n]); [|apply take_nil].
    assert (exists m, (Z.to_nat count - length (waiters key n l) = Datatypes.S m)%nat) as [m ->]
      by (exists (Z.to_nat count - length (waiters key n l) - 1)%nat; lia). cbn. by destruct m.
  - replace (Z.to_nat count - length (waiters key n l))%nat with 0%nat by lia. done.
Qed.

(** The state of the wake loop before slot [n]. *)
Record wake_inv (key count : Z) k (q : list Z) (n : Z) (ks : Z * kernel S W) : Prop := {
  wk_count : ks.1 = Z.of_nat (length (first_waiters key count n (processes k)));
  wk_queue : kqueue ks.2 (q ++ first_waiters key count n (processes k));
  wk_slots i : in_table i -> same_but_next
    (if bool_decide (i ∈ first_waiters key count n (processes k)) then awake (processes k).[i] else (processes k).[i])
    (processes ks.2).[i];
}.

(** Adding a process that was just woken. *)
Lemma wake_add k q i :
  kqueue k q -> in_table i -> i ∉ q -> enqueueable (processes k).[i] = true ->
  let k' := (scheduler_add (Some (Proc i)) (set_result i 0 (upd (Proc i) awake k))).2 in
  kqueue k' (q ++ [i]) /\
  (forall j, in_table j -> same_but_next (if i =? j then awake (processes k).[i] else (processes k).[j]) (processes k').[j]).
Proof.
  intros Hq Hi Hni He k'. pose proof Hq as [Hl Hnd Hc].
  set (l1 := (processes k).[i <- awake (processes k).[i]]).
  set (k1 := set_result i 0 (upd (Proc i) awake k)).
  assert (processes k1 = l1 /\ ready_head k1 = ready_head k) as [E1 E2] by (unfold k1, set_result; by destruct (_ =? 0)).
  assert (kqueue k1 q) as Hq1.
  { unfold kqueue. rewrite E1, E2. split; [unfold l1; by rewrite aset_length|done|by apply chain_set]. }
  assert (forall j, in_table j -> l1.[j] = if i =? j then awake (processes k).[i] else (processes k).[j]) as Hget.
  { intros j Hj. unfold l1, in_table in *. apply aget_aset; lia. }
  assert (allocated (processes k).[i] = true /\ (cesp (cpu (processes k).[i]) =? 0) = false) as [Ha Hs].
  { unfold enqueueable in He. destruct (allocated _); [|done]. split; [done|].
    apply andb_true_iff in He as [_ He]. by apply negb_true_iff in He. }
  assert (enqueueable (processes k1).[i] = true) as He1.
  { rewrite E1, Hget, Z.eqb_refl by done. unfold enqueueable.
    change (allocated (awake ?x)) with (allocated x). change (cpu (awake ?x)) with (cpu x). by rewrite Ha, Hs. }
  assert (k' = enqueue (Proc i) k1) as ->.
  { unfold k'. fold k1. cbn [scheduler_add pcb_of]. rewrite E1, Hget, Z.eqb_refl by done.
    change (allocated (awake ?x)) with (allocated x). change (cpu (awake ?x)) with (cpu x). by rewrite Ha, Hs. }
  destruct (enqueue_spec k1 q i Hq1 Hi Hni He1) as (l & h & -> & [_ Hlo] & Hq').
  split; [exact Hq'|]. intros j Hj. rewrite <- Hget by done. rewrite <- E1. by apply Hlo.
Qed.

Lemma wake_step key count k q n ks :
  0 <= n < 32 -> 0 <= count -> kqueue k q ->
  (forall i, in_table i -> waiting key (processes k).[i] = true -> enqueueable (processes k).[i] = true /\ i ∉ q) ->
  wake_inv key count k q n ks -> wake_inv key count k q (n + 1) (wake_one key count n ks).
Proof.
  intros Hn Hc Hq Hw [Hcnt Hqueue Hslots]. destruct ks as [woken k1]. cbn [fst snd] in *. subst woken.
  assert (in_table n) as Hin by exact Hn. set (ws := first_waiters key count n (processes k)) in *.
  assert (n ∉ ws) as Hnw by (intros Hi; apply first_waiters_lt in Hi; lia).
  assert (same_but_next (processes k).[n] (processes k1).[n]) as Hsn.
  { specialize (Hslots n Hin). by rewrite bool_decide_false in Hslots by done. }
  unfold wake_one. cbn zeta. fold (waiting key (processes k1).[n]).
  assert (waiting key (processes k1).[n] = waiting key (processes k).[n]) as Ew.
  { symmetry. by apply (same_field (waiting key)). }
  rewrite <- andb_assoc. fold (waiting key (processes k1).[n]). rewrite Ew.
  pose proof (first_waiters_succ key count n (processes k) ltac:(lia) Hc) as Hsucc. fold ws in Hsucc.
  destruct (((count =? 0) || _) && waiting key _) eqn:Hgo.
  - apply andb_true_iff in Hgo as [_ Hwn]. destruct (Hw n Hin Hwn) as [He Hnq].
    assert (enqueueable (processes k1).[n] = true) as He1.
    { rewrite <- (same_field enqueueable _ _ (fun _ => eq_refl) Hsn). done. }
    destruct (wake_add k1 (q ++ ws) n Hqueue Hin ltac:(set_solver) He1) as [Hq' Hs'].
    split; cbn [fst snd]; rewrite Hsucc.
    + rewrite length_app. cbn. lia.
    + rewrite app_assoc. exact Hq'.
    + intros i Hi. etrans; [|by apply Hs']. destruct (Z.eqb_spec n i) as [<-|Hne].
      * rewrite bool_decide_true by set_solver. exact (f_equal awake Hsn).
      * specialize (Hslots i Hi). destruct (decide (i ∈ ws)) as [Hiw|Hiw].
        -- rewrite bool_decide_true in Hslots by done. rewrite bool_decide_true by set_solver. done.
        -- rewrite bool_decide_false in Hslots by done. rewrite bool_decide_false by set_solver. done.
  - rewrite app_nil_r in Hsucc. split; cbn [fst snd]; rewrite Hsucc; [done|done|exact Hslots].
Qed.

(** C29: [process_futex_wake] wakes exactly the first [count] processes, in slot order, that
    are blocked on the key, all of them if [count] is 0, and returns their number: they
    are ready, no longer wait, and are at the back of the ready queue in that order; no
    other process changes. *)
Theorem futex_wake_first_waiters key count k q :
  key <> 0 -> 0 <= count -> 0 <= process_count k <= 32 -> kqueue k q ->
  (forall i, in_table i -> waiting key (processes k).[i] = true -> enqueueable (processes k).[i] = true /\ i ∉ q) ->
  let ws := first_waiters key count (process_count k) (processes k) in
  let '(n, k') := process_futex_wake key count k in
  n = Z.of_nat (length ws) /\ kqueue k' (q ++ ws) /\
  forall i, in_table i -> same_but_next
    (if bool_decide (i ∈ ws) then awake (processes k).[i] else (processes k).[i]) (processes k').[i].
Proof.
  intros Hkey Hc Hn Hq Hw ws. unfold process_futex_wake. destruct (Z.eqb_spec key 0); [done|].
  destruct (for_range_ind (wake_inv key count k q) 0 (process_count k) (wake_one key count) (0, k)) as [A B C].
  - lia.
  - assert (first_waiters key count 0 (processes k) = []) as E.
    { unfold first_waiters, waiters. cbn. destruct (count =? 0); [done|apply take_nil]. }
    split; cbn [fst snd]; rewrite E; [done|by rewrite app_nil_r|].
    intros i Hi. by rewrite bool_decide_false by set_solver.
  - intros i ks Hi Hks. apply wake_step; [lia|done|done|done|done].
  - destruct (for_range 0 (process_count k) _ _) as [n' k']. cbn [fst snd] in *. done.
Qed.

(** ** Exit *)
(** An update of slot [i] leaves slot [j] alone, or changes no more than the update does. *)
Lemma upd_other i j f k : 0 <= i -> 0 <= j -> i <> j -> (processes (upd (Proc i) f k)).[j] = (processes k).[j].
Proof. intros Hi Hj Hne. cbn [upd]. apply aget_aset_ne; lia. Qed.

Lemma upd_link p f k j : (forall x, same_but_next x (f x)) -> same_but_next (processes k).[j] (processes (upd p f k)).[j].
Proof.
  intros Hf. destruct p as [|i]; [done|].
  change (processes (upd (Proc i) f k)) with ((processes k).[i <- f (processes k).[i]]). unfold aset, aget.
  destruct (decide (Z.to_nat i = Z.to_nat j)) as [E|Hne]; [|by rewrite list_lookup_total_insert_ne by done].
  rewrite <- E. destruct (decide (Z.to_nat i < length (processes k))%nat).
  - rewrite list_lookup_total_insert_eq by done. apply Hf.
  - by rewrite list_insert_ge by lia.
Qed.

Lemma enqueue_links p k j : same_but_next (processes k).[j] (processes (enqueue p k)).[j].
Proof.
  unfold enqueue. destruct (_ || _ || _); [done|]. destruct p as [|i]; [done|].
  set (k1 := upd _ _ k). assert (same_but_next (processes k).[j] (processes k1).[j]) as E1 by (by apply upd_link).
  destruct (ready_head k1) as [h|]; [|exact E1]. destruct (last_ready _ _ _) as [z|]; [|exact E1].
  etrans; [exact E1|]. by apply upd_link.
Qed.

Lemma add_links p k j : same_but_next (processes k).[j] (processes (scheduler_add p k).2).[j].
Proof. destruct p as [p|]; [|done]. cbn [scheduler_add]. destruct (_ || _); [done|apply enqueue_links]. Qed.

Lemma processes_set_result i x k : processes (set_result i x k) = processes k.
Proof. unfold set_result. by destruct (_ =? 0). Qed.

Lemma wake_waiter_other id i m k j :
  0 <= m -> 0 <= j -> parent_pid (processes k).[j] <> id ->
  same_but_next (processes k).[j] (processes (wake_waiter id i m k)).[j].
Proof.
  intros Hm Hj Hp. unfold wake_waiter. destruct (decide (m = j)) as [->|Hne].
  { destruct (Z.eqb_spec (parent_pid (processes k).[j]) id); [done|]. by rewrite andb_false_r. }
  destruct (_ && _); [|done]. etrans; [|apply add_links].
  rewrite processes_set_result. destruct (_ =? 0); [|change (processes (on_vm ?f ?k)) with (processes k)];
    by rewrite upd_other.
Qed.

Lemma orphan_zombie_other id m k j :
  0 <= m -> 0 <= j -> state (processes k).[j] <> PROCESS_ZOMBIE -> (processes (orphan_zombie id m k)).[j] = (processes k).[j].
Proof.
  intros Hm Hj Hs. unfold orphan_zombie. destruct (decide (m = j)) as [->|Hne].
  - by rewrite (bool_decide_false (state _ = _)), andb_false_r by done.
  - destruct (_ && _); [by apply upd_other|done].
Qed.

(** The exit of a process does not wake a parent that waits for it: the loop that looks
    for the waiter asks for a process whose own parent is the exiting one, so a parent
    [j] blocked in [process_wait] on the child stays blocked, still waiting for it. *)
Theorem exit_leaves_parent_blocked child status i j k :
  find_pid child k = Some i -> 0 <= j -> j <> i ->
  state (processes k).[j] = PROCESS_BLOCKED -> wait_for_pid (processes k).[j] = child ->
  parent_pid (processes k).[i] = pid (processes k).[j] -> parent_pid (processes k).[j] <> child ->
  let k' := (process_exit_with_status child status k).2 in
  state (processes k').[j] = PROCESS_BLOCKED /\ wait_for_pid (processes k').[j] = child.
Proof.
  intros Hf Hj Hne Hs Hw _ Hp k'. assert (0 <= i) as Hi by (apply find_from_Some in Hf as [Hr _]; lia).
  assert (same_but_next (processes k).[j] (processes k').[j]) as E.
  2: { by rewrite <- (same_field state _ _ (fun _ => eq_refl) E), <- (same_field wait_for_pid _ _ (fun _ => eq_refl) E). }
  unfold k', process_exit_with_status. rewrite Hf. cbn [snd].
  set (k1 := upd (Proc i) _ k). set (k2 := on_fds _ k1).
  assert ((processes k2).[j] = (processes k).[j]) as E2 by (change (processes k2) with (processes k1); by apply upd_other).
  set (k3 := for_range 0 (process_count k2) (orphan_zombie child) k2).
  assert ((processes k3).[j] = (processes k).[j]) as E3.
  { apply (for_range_pres (fun k' => (processes k').[j] = (processes k).[j])); [done|].
    intros m k0 Hm E. rewrite orphan_zombie_other; [done|lia|done|]. by rewrite E, Hs. }
  apply (for_range_pres (fun k' => same_but_next (processes k).[j] (processes k').[j])); [by rewrite E3|].
  intros m k4 Hm E. etrans; [exact E|]. apply wake_waiter_other; [lia|done|].
  by rewrite <- (same_field parent_pid _ _ (fun _ => eq_refl) E).
Qed.
End futex.
