(* ===== verification/ProcessDemo.v ===== *)
(** Concrete kernels: small machines on which the properties of processes and of the
    scheduler are applied. *)
From S2P Require Import Prelude Frames Pmm Paging KernelMap Vmm VmmTheorems VmmDemo Fat32 Console Vfs Sync Timer Process ReadyQueue Scheduler ProcessIds Signals Futex.
From coqutil Require Import Datatypes.RecordSetters.
Import DoubleBraceUpdate.

(** ** Boot *)
Definition demo_top (p : pcb_ptr) : Z := match p with Idle => 2097152 | Proc i => 2097152 + (i + 1) * 8192 end.
Definition demo_initial (p : pcb_ptr) : Z := demo_top p + 84.
Definition idle_process : pcb := no_pcb {{ state := PROCESS_RUNNING; pname := Some "idle"%string }}.
Definition demo_kernel : kernel pmm (gmap Z (list Z)) :=
  mkKernel _ _ (replicate 32 no_pcb) 0 idle_process Idle None (vmm_boot (fun _ => 1048576) small_pmm) vfs_boot ∅ timer_boot 0 None
    (mkCpuState 0 0 0 0 0 0 0 0 0 0).

(** Three kernel workers, the last two of them queued, the first running. *)
Definition worker (k : kernel pmm (gmap Z (list Z))) : kernel pmm (gmap Z (list Z)) :=
  (process_create_entry demo_top demo_initial (Some "worker"%string) 1114112 k).2.
Definition add (i : Z) (k : kernel pmm (gmap Z (list Z))) : kernel pmm (gmap Z (list Z)) := (scheduler_add (Some (Proc i)) k).2.
Definition demo_workers : kernel pmm (gmap Z (list Z)) :=
  scheduler_set_current (Some (Proc 0)) (worker (worker (worker demo_kernel))).
Definition demo_queued : kernel pmm (gmap Z (list Z)) := add 2 (add 1 demo_workers).

(** A test of every slot, decided by running it. *)
Lemma all_slots (f : Z -> bool) : forallb f (seqZ 0 32) = true -> forall i, in_table i -> f i = true.
Proof. intros Hall i Hi. apply (forall_seqZ f 0 32); [done|]. unfold in_table in Hi. lia. Qed.

Definition not_blocked (k : kernel pmm (gmap Z (list Z))) (i : Z) : bool := negb (bool_decide (state (processes k).[i] = PROCESS_BLOCKED)).
Lemma quiet_by_test k : forallb (not_blocked k) (seqZ 0 32) = true -> quiet k.
Proof.
  intros Hall i Hi Hb. apply (all_slots _ Hall) in Hi. unfold not_blocked in Hi. by rewrite Hb in Hi.
Qed.

Lemma demo_workers_queue : kqueue demo_workers [].
Proof. split; [vm_compute; reflexivity|constructor|vm_compute; reflexivity]. Qed.

Lemma demo_queued_queue : kqueue demo_queued [1; 2].
Proof.
  split; [vm_compute; reflexivity|repeat constructor; set_solver|].
  split; [vm_compute; reflexivity|]. split; [split; lia|].
  split; [vm_compute; reflexivity|]. split; [split; lia|]. vm_compute. reflexivity.
Qed.

Lemma ready_queue_fifo_witness :
  kqueue (enqueue (Proc 1) demo_workers) [1] /\ (next_ready 33 (enqueue (Proc 1) demo_workers)).1 = Proc 1.
Proof.
  destruct (ready_queue_fifo demo_workers [] 1 demo_workers_queue) as (Hq & _ & Hn);
    [split; lia|set_solver|vm_compute; reflexivity|].
  split; [exact Hq|]. destruct (next_ready 33 (enqueue (Proc 1) demo_workers)) as [n k']. destruct Hn as [-> _].
  vm_compute. reflexivity.
Defined.

Lemma demo_queued_round_robin : round_robin demo_queued 0 [1; 2].
Proof.
  split.
  - vm_compute. reflexivity.
  - exact demo_queued_queue.
  - split; [split; lia|set_solver].
  - vm_compute. reflexivity.
  - intros i Hi. assert (i = 1 \/ i = 2) as [-> | ->] by set_solver; vm_compute; reflexivity.
  - intros i Hi. assert (i = 0 \/ i = 1 \/ i = 2) as [-> | [-> | ->]] by set_solver;
      (split; [vm_compute; reflexivity|split; [vm_compute; discriminate|vm_compute; reflexivity]]).
  - apply quiet_by_test. vm_compute. reflexivity.
  - split; vm_compute; discriminate.
Qed.

Lemma round_robin_fair_witness :
  running (run_ticks demo_top demo_initial [4096; 8192] 0 demo_queued).2 = Proc 2.
Proof.
  pose proof (round_robin_fair demo_top demo_initial demo_queued 0 [1; 2] 1 2 [4096; 8192] 0
    demo_queued_round_robin eq_refl eq_refl) as Hf.
  destruct (run_ticks demo_top demo_initial [4096; 8192] 0 demo_queued) as [r' k']. exact (proj1 Hf).
Defined.

Lemma demo_workers_alone : alone demo_workers 0.
Proof.
  split.
  - vm_compute. reflexivity.
  - exact demo_workers_queue.
  - split; lia.
  - left. vm_compute. reflexivity.
  - split; vm_compute; reflexivity.
  - apply quiet_by_test. vm_compute. reflexivity.
  - split; vm_compute; discriminate.
Qed.

Lemma timer_tick_loses_process_witness :
  let k1 := (scheduler_timer_tick demo_top demo_initial 4096 demo_workers).2 in
  let k2 := (scheduler_add (Some (Proc 1)) k1).2 in
  state (processes (run_ticks demo_top demo_initial [4096; 8192; 4096] 0 k2).2).[0] = PROCESS_READY.
Proof.
  apply (timer_tick_loses_process demo_top demo_initial demo_workers 0 1 4096 4096 [8192; 4096] 0 demo_workers_alone);
    [vm_compute; reflexivity|split; lia|discriminate|vm_compute; reflexivity|vm_compute; reflexivity|vm_compute; reflexivity].
Defined.


(** ** A user process with a pending signal *)
Definition demo_user : kernel pmm (gmap Z (list Z)) :=
  let k := (process_create_user demo_top demo_initial demo_tables (Some "init"%string) 4194304 demo_kernel).2 in
  let k := (process_enter_user demo_top (Proc 0) k).2 in
  let k := upd (Proc 0) (fun x => x {{ signal_handlers := (signal_handlers x).[1 <- 4194560]; pending_signals := 2 }}) k in
  set_frame 4096 (first_frame 4194304 USER_STACK_TOP true) k.

Lemma demo_user_ok : ptr_ok (running demo_user) demo_user.
Proof.
  assert (running demo_user = Proc 0) as -> by (vm_compute; reflexivity).
  split; [|split; lia]. assert (Nat.eqb (length (processes demo_user)) 32 = true) as El by (vm_compute; reflexivity).
  by apply Nat.eqb_eq.
Qed.

Lemma signal_delivery_roundtrip_witness :
  exists k', process_deliver_signal demo_tables 0 4096 demo_user = Done tt k' /\
    frame_at 4096 (process_signal_return 4096 k') = frame_at 4096 demo_user.
Proof.
  assert (match process_deliver_signal demo_tables 0 4096 demo_user with
          | Done _ k' => (frame_at 4096 k').[R_EIP] =? 4194560 | _ => false end = true) as Hgo by (vm_compute; reflexivity).
  destruct (process_deliver_signal demo_tables 0 4096 demo_user) as [[] k'|] eqn:E; [|discriminate Hgo].
  exists k'. split; [reflexivity|].
  destruct (signal_delivery_roundtrip demo_tables 0 4096 demo_user k') as [Hs|(s & _ & _ & _ & _ & _ & _ & _ & Hr & _)].
  - exact demo_user_ok.
  - exact E.
  - exfalso. rewrite Hs in Hgo. vm_compute in Hgo. discriminate Hgo.
  - exact Hr.
Defined.

(** ** Two waiters on one futex *)
Definition demo_waiters : kernel pmm (gmap Z (list Z)) :=
  let block i := upd (Proc i) (fun x => x {{ state := PROCESS_BLOCKED; futex_key := 4198400 }}) in
  block 2 (block 1 demo_workers).

Lemma waiters_by_test key (k : kernel pmm (gmap Z (list Z))) :
  forallb (fun i => negb (waiting key (processes k).[i]) || enqueueable (processes k).[i]) (seqZ 0 32) = true ->
  forall i, in_table i -> waiting key (processes k).[i] = true -> enqueueable (processes k).[i] = true /\ i ∉ [].
Proof.
  intros Hall i Hi Hw. split; [|apply not_elem_of_nil]. pose proof (all_slots _ Hall i Hi) as Ht. cbv beta in Ht. by rewrite Hw in Ht.
Qed.

Lemma futex_wake_first_waiters_witness : (process_futex_wake 4198400 1 demo_waiters).1 = 1.
Proof.
  pose proof (futex_wake_first_waiters 4198400 1 demo_waiters []) as Hw.
  destruct (process_futex_wake 4198400 1 demo_waiters) as [n k']. destruct Hw as [-> _].
  - discriminate.
  - lia.
  - split; vm_compute; discriminate.
  - split; [vm_compute; reflexivity|constructor|vm_compute; reflexivity].
  - apply waiters_by_test. vm_compute. reflexivity.
  - vm_compute. reflexivity.
Defined.

(** ** A parent that waits *)
Definition demo_parent : kernel pmm (gmap Z (list Z)) :=
  (process_wait 258 0 (upd (Proc 1) (fun x => x {{ parent_pid := 257 }}) demo_workers)).2.

Lemma exit_leaves_parent_blocked_witness :
  state (processes (process_exit_with_status 258 0 demo_parent).2).[0] = PROCESS_BLOCKED.
Proof.
  apply (exit_leaves_parent_blocked 258 0 1 0 demo_parent);
    [vm_compute; reflexivity|lia|discriminate|vm_compute; reflexivity|vm_compute; reflexivity|vm_compute; reflexivity
    |vm_compute; discriminate].
Defined.
