(* ===== verification/Elf.v ===== *)
(** The program loader, [kernel/elf.c] and [include/elf.h], and the program image the
    kernel carries, [userspace/user_image.c].

    The image is the list of its bytes; fields are read where the packed structures of
    [elf.h] put them.  The loader stores through the tables of the space it has switched
    to; the kernel runs without write protection, so read-only pages are stored to as
    well. *)
From S2P Require Import Prelude Frames Pmm Paging KernelMap Vmm VmmTheorems VmmDemo Fat32.

Definition PT_LOAD : Z := 1.
Definition ELFCLASS32 : Z := 1.
Definition EM_386 : Z := 3.
Definition SIZEOF_HEADER : Z := 52.
Definition SIZEOF_PROGRAM : Z := 32.
#[export] Hint Unfold PT_LOAD ELFCLASS32 EM_386 SIZEOF_HEADER SIZEOF_PROGRAM : kconst.

Record elf32_header := mkHeader {
  ident : list Z; machine : Z; entry_at : Z; phoff : Z; phentsize : Z; phnum : Z;
}.
Record elf32_program := mkProgram {
  ptype : Z; poffset : Z; vaddr : Z; filesz : Z; memsz : Z; pflags : Z;
}.
Definition header_of (image : list Z) : elf32_header :=
  mkHeader (take 16 image) (le16_at image 18) (le32_at image 24) (le32_at image 28) (le16_at image 42) (le16_at image 44).
Definition program_of (image : list Z) (off : Z) : elf32_program :=
  mkProgram (le32_at image off) (le32_at image (off + 4)) (le32_at image (off + 8)) (le32_at image (off + 16))
    (le32_at image (off + 20)) (le32_at image (off + 24)).

Definition down (x : Z) : Z := Z.land x 4294963200.
Definition up (x : Z) : Z := Z.land (u32 (x + PAGE_SIZE - 1)) 4294963200.

Definition valid_header (h : elf32_header) : bool :=
  ((ident h).[0] =? 127) && ((ident h).[1] =? 69) && ((ident h).[2] =? 76) && ((ident h).[3] =? 70)
  && ((ident h).[4] =? ELFCLASS32) && (machine h =? EM_386) && (phentsize h =? SIZEOF_PROGRAM).
Definition valid_table (h : elf32_header) (size : Z) : bool :=
  negb (size <? phoff h) && negb ((size - phoff h) / SIZEOF_PROGRAM <? phnum h).

(** The program headers, in order. *)
Definition programs (image : list Z) : list elf32_program :=
  let h := header_of image in (fun i => program_of image (phoff h + i * SIZEOF_PROGRAM)) <$> seqZ 0 (phnum h).

(** The checks on one loadable segment. *)
Definition bad_flags (p : elf32_program) : bool := Z.land (pflags p) 6 =? 6.
Definition bad_bounds (p : elf32_program) (size : Z) : bool :=
  (memsz p <? filesz p) || (size <? poffset p) || (size - poffset p <? filesz p) || (vaddr p <? USER_BASE)
  || (u32 (vaddr p + memsz p) <? vaddr p) || (USER_END <=? u32 (vaddr p + memsz p)).

Section load.
Context {S : Type} `{FrameAllocator S}.
Variable utab_addr : Z -> Z -> Z.
Implicit Types st : vmm S.

(** [zero] and [copy] *)
Definition store_bytes (va : Z) (bytes : list Z) st : vmm S :=
  with_mem (for_range 0 (Z.of_nat (length bytes)) (fun i m => <[translate (va + i) st := bytes.[i]]> m) (mem st)) st.
Definition zero (va n : Z) st : vmm S := store_bytes va (replicate (Z.to_nat n) 0) st.
Definition copy (va : Z) (image : list Z) (off n : Z) st : vmm S :=
  store_bytes va ((fun i => image.[off + i]) <$> seqZ 0 n) st.

(** One page of a segment: [true] = go on.  The test for an earlier mapping looks in the
    kernel's tables. *)
Definition load_page (sp : Z) (fl va : Z) st : bool * vmm S :=
  if vmm_get_physical va (kmaps st) =? 0 then
    let '(page, f') := alloc_page (frames st) in
    let st := with_frames f' st in
    if page =? 0 then (false, st)
    else
      let '(rc, st) := vmm_map_user utab_addr (Some sp) va page (if has fl 2 then PAGE_WRITE else 0) st in
      if negb (rc =? 0) then (false, with_frames (free_page page (frames st)) st)
      else (true, zero va PAGE_SIZE st)
  else (true, st).

Fixpoint load_pages (n : nat) (sp : Z) (fl va : Z) st : bool * vmm S :=
  match n with
  | O => (true, st)
  | Datatypes.S n' =>
      let '(ok, st) := load_page sp fl va st in
      if ok then load_pages n' sp fl (u32 (va + PAGE_SIZE)) st else (false, st)
  end.

Definition load_segment (image : list Z) (size sp : Z) (p : elf32_program) st : bool * vmm S :=
  if negb (ptype p =? PT_LOAD) then (true, st)
  else if bad_flags p || bad_bounds p size then (false, st)
  else
    let first := down (vaddr p) in let last := up (vaddr p + memsz p) in
    let '(ok, st) := load_pages (Z.to_nat ((last - first) / PAGE_SIZE)) sp (pflags p) first st in
    if negb ok then (false, st)
    else
      let st := copy (vaddr p) image (poffset p) (filesz p) st in
      (true, zero (vaddr p + filesz p) (memsz p - filesz p) st).

Fixpoint load_segments (image : list Z) (size sp : Z) (ps : list elf32_program) st : bool * vmm S :=
  match ps with
  | [] => (true, st)
  | p :: ps' =>
      let '(ok, st) := load_segment image size sp p st in
      if ok then load_segments image size sp ps' st else (false, st)
  end.

(** The result and the entry point stored for the caller. *)
Definition elf32_load (image : option (list Z)) (size : Z) (sp : option Z) st : Z * option Z * vmm S :=
  match image, sp with
  | Some image, Some i =>
      let h := header_of image in
      if (size <? SIZEOF_HEADER) || negb (valid_header h) || negb (valid_table h size) then (-1, None, st)
      else
        let st := vmm_switch_address_space (Some i) st in
        let '(ok, st) := load_segments image size i (programs image) st in
        let st := vmm_switch_address_space None st in
        if ok then (0, Some (entry_at h), st) else (-1, None, st)
  | _, _ => (-1, None, st)
  end.

(** ** What a load accepts *)
Lemma load_segments_ok image size sp ps st st' :
  load_segments image size sp ps st = (true, st') ->
  forall p, p ∈ ps -> ptype p = PT_LOAD -> bad_flags p = false /\ bad_bounds p size = false.
Proof.
  revert st. induction ps as [|p0 ps IH]; intros st; cbn [load_segments]; [set_solver|].
  destruct (load_segment image size sp p0 st) as [ok st1] eqn:E. destruct ok; [|done]. intros Hl p Hp Ht.
  apply elem_of_cons in Hp as [->|Hp]; [|by eapply IH].
  unfold load_segment in E. destruct (Z.eqb_spec (ptype p0) PT_LOAD); [|done]. cbn [negb] in E.
  destruct (bad_flags p0 || bad_bounds p0 size) eqn:Hb; [discriminate E|]. by apply orb_false_iff in Hb.
Qed.

(** C31: an image is accepted only if every loadable segment lies within the image in the
    file and within the user range in memory, with no arithmetic wrapping round: the
    bytes copied come from inside the image and the pages touched are user pages. *)
Theorem elf32_load_bounds image size sp st e st' :
  Forall is_u8 image -> is_u32 size -> elf32_load (Some image) size (Some sp) st = (0, e, st') ->
  e = Some (entry_at (header_of image)) /\ SIZEOF_HEADER <= size /\
  (let h := header_of image in phoff h + phnum h * SIZEOF_PROGRAM <= size) /\
  forall p, p ∈ programs image -> ptype p = PT_LOAD ->
    poffset p + filesz p <= size /\ filesz p <= memsz p /\
    USER_BASE <= vaddr p /\ vaddr p + memsz p < USER_END.
Proof.
  intros Hb Hsz. unfold elf32_load.
  destruct (Z.ltb_spec size SIZEOF_HEADER) as [|Hlen]; [done|]. destruct (valid_header _) eqn:Hh; [|done].
  destruct (valid_table _ _) eqn:Ht; [|done]. cbn [orb negb].
  destruct (load_segments _ _ _ _ _) as [[] st1] eqn:El; [|done]. intros [= <- <-].
  split; [done|]. split; [done|]. cbn zeta.
  assert (forall o, is_u8 image.[o]) as Hbyte by (intros o; apply Forall_aget_default; [done|split; [done|reflexivity]]).
  assert (forall o, is_u32 (le32_at image o)) as H32.
  { intros o. unfold le32_at. rewrite le32_add by apply Hbyte.
    pose proof (Hbyte o). pose proof (Hbyte (o + 1)). pose proof (Hbyte (o + 2)). pose proof (Hbyte (o + 3)).
    unfold is_u8, is_u32 in *. lia. }
  assert (0 <= le16_at image 44) as H16.
  { unfold le16_at. rewrite le16_add by apply Hbyte. pose proof (Hbyte 44). pose proof (Hbyte (44 + 1)). unfold is_u8 in *. lia. }
  split.
  { unfold valid_table in Ht. apply andb_true_iff in Ht as [Ht1 Ht2]. apply negb_true_iff, Z.ltb_ge in Ht1, Ht2.
    change (phnum (header_of image)) with (le16_at image 44) in *. autounfold with kconst in *.
    Z.to_euclidean_division_equations. lia. }
  intros p Hp Htype. destruct (load_segments_ok _ _ _ _ _ _ El p Hp Htype) as [_ Hbd]. unfold bad_bounds in Hbd.
  rewrite !orb_false_iff, !Z.ltb_ge in Hbd. rewrite Z.leb_gt in Hbd.
  destruct Hbd as [[[[[B1 B2] B3] B4] B5] B6].
  unfold programs in Hp. apply list_elem_of_fmap in Hp as (i & -> & _).
  pose proof (H32 (phoff (header_of image) + i * SIZEOF_PROGRAM + 8)) as V.
  pose proof (H32 (phoff (header_of image) + i * SIZEOF_PROGRAM + 20)) as M.
  cbn [vaddr memsz poffset filesz program_of] in *. autounfold with kconst in *.
  unfold is_u32, u32 in *. split_and!; try lia. Z.to_euclidean_division_equations. lia.
Qed.

(** Any image with a segment that is both readable and writable is refused, however
    well formed: the mask of the write-and-execute check is that of read and write. *)
Lemma elf32_refuses_data_segments image size sp st p :
  p ∈ programs image -> ptype p = PT_LOAD -> pflags p = 6 -> (elf32_load (Some image) size (Some sp) st).1.1 = -1.
Proof.
  intros Hp Ht Hf. unfold elf32_load. destruct (_ || _ || _); [done|].
  destruct (load_segments _ _ _ _ _) as [[] st1] eqn:El; [|done].
  destruct (load_segments_ok _ _ _ _ _ _ El p Hp Ht) as [Hb _]. unfold bad_flags in Hb. by rewrite Hf in Hb.
Qed.
End load.

(** ** The embedded program *)
Definition user_image : list Z := [
  127; 69; 76; 70; 1; 1; 1; 0; 0; 0; 0; 0;
  0; 0; 0; 0; 2; 0; 3; 0; 1; 0; 0; 0;
  0; 0; 64; 0; 52; 0; 0; 0; 0; 0; 0; 0;
  0; 0; 0; 0; 52; 0; 32; 0; 1; 0; 0; 0;
  0; 0; 0; 0; 1; 0; 0; 0; 84; 0; 0; 0;
  0; 0; 64; 0; 0; 0; 64; 0; 36; 0; 0; 0;
  36; 0; 0; 0; 5; 0; 0; 0; 0; 16; 0; 0;
  184; 1; 0; 0; 0; 187; 2; 0; 0; 0; 185; 24;
  0; 64; 0; 186; 12; 0; 0; 0; 205; 128; 235; 254;
  117; 115; 101; 114; 58; 32; 104; 101; 108; 108; 111; 10
].
Definition user_image_size : Z := Z.of_nat (length user_image).

Definition demo_elf_space : vmm pmm := (vmm_create_address_space (vmm_boot (fun _ => 1048576) small_pmm)).2.

Lemma elf32_load_bounds_witness :
  (forall p, p ∈ programs user_image -> ptype p = PT_LOAD -> poffset p + filesz p <= user_image_size) /\
  (elf32_load demo_tables (Some user_image) user_image_size (Some 0) demo_elf_space).1 = (0, Some 4194304).
Proof.
  destruct (elf32_load demo_tables (Some user_image) user_image_size (Some 0) demo_elf_space) as [[rc e] st'] eqn:E.
  assert ((rc, e) = (0, Some 4194304)) as Hrc.
  { change ((rc, e, st').1 = (0, Some 4194304)). rewrite <- E. vm_compute. reflexivity. }
  injection Hrc as -> ->. split; [|reflexivity].
  destruct (elf32_load_bounds demo_tables user_image user_image_size 0 demo_elf_space (Some 4194304) st') as (_ & _ & _ & Hp).
  - repeat constructor; discriminate.
  - split; [discriminate|reflexivity].
  - exact E.
  - intros p Hin Ht. apply (Hp p Hin Ht).
Defined.
