(* ===== verification/ElfLoad.v ===== *)
(** What [elf32_load] leaves in memory: every byte of every loadable segment, as the
    program will see it through its own page tables. *)
From S2P Require Import Prelude Frames Pmm Paging KernelMap Vmm VmmCount VmmSafe VmmTheorems VmmDemo Fat32 Elf.

Section contents.
Context {S : Type} `{FrameAllocatorLaws S}.
Variable utab_addr : Z -> Z -> Z.
Implicit Types st : vmm S.

(** A loader at work: the space [i] is active. *)
Record loading (i : Z) st : Prop := {
  ld_inv : vmm_inv st;
  ld_live : live st i;
  ld_current : current_space st = Some i;
}.

Local Abbreviation phys i v st := (vmm_get_user_physical (Some i) v st).

Lemma translate_user i v st :
  loading i st -> phys i v st <> 0 -> translate v st = phys i v st.
Proof.
  intros Hl. apply translate_mapped, Hl.
Qed.

(** ** Stores *)
Lemma phys_mem i v m st : phys i v (with_mem m st) = phys i v st.
Proof. reflexivity. Qed.

Lemma loading_mem i m st : loading i st -> loading i (with_mem m st).
Proof. intros [A B C]. split; [by apply mem_inv|exact B|exact C]. Qed.

(** A store through an injective translation changes the bytes of its range only. *)
Lemma store_bytes_spec va bytes st :
  (forall a b, 0 <= a < Z.of_nat (length bytes) -> 0 <= b < Z.of_nat (length bytes) ->
     translate (va + a) st = translate (va + b) st -> a = b) ->
  let st' := store_bytes va bytes st in
  (forall a, 0 <= a < Z.of_nat (length bytes) -> mem st' !!! translate (va + a) st = bytes.[a]) /\
  (forall x, (forall a, 0 <= a < Z.of_nat (length bytes) -> translate (va + a) st <> x) -> mem st' !!! x = mem st !!! x).
Proof.
  intros Hinj st'. set (n := Z.of_nat (length bytes)) in *.
  change (mem st') with (for_range 0 n (fun i m => <[translate (va + i) st := bytes.[i]]> m) (mem st)).
  apply (for_range_ind (fun k m => k <= n -> (forall a, 0 <= a < k -> m !!! translate (va + a) st = bytes.[a]) /\
    (forall x, (forall a, 0 <= a < k -> translate (va + a) st <> x) -> m !!! x = mem st !!! x))); [lia| |.. |lia].
  - intros _. split; [lia|done].
  - intros k m Hk IH Hle. destruct (IH ltac:(lia)) as [IH1 IH2]. split.
    + intros a Ha. destruct (decide (a = k)) as [->|Hne]; [by rewrite lookup_total_insert_eq|].
      rewrite lookup_total_insert_ne; [apply IH1; lia|]. intros E. apply Hne. symmetry. apply Hinj; [lia|lia|done].
    + intros x Hx. rewrite lookup_total_insert_ne by (apply Hx; lia). apply IH2. intros a Ha. apply Hx. lia.
Qed.

(** ** Pages *)
(** The pages [lo, hi) of space [i] are in frames of their own, taken from the allocator
    between [st] and [st']. *)
Record fresh_pages (i lo hi : Z) st st' : Prop := {
  fp_loading : loading i st';
  fp_kmaps : kmaps st' = kmaps st;
  fp_other v : v / 4096 < lo \/ hi <= v / 4096 -> phys i v st' = phys i v st;
  fp_mapped v : lo <= v / 4096 < hi -> phys i v st' <> 0 /\ phys i v st' mod 4096 = v mod 4096 /\
    frame_refs (frames st) (phys i v st' / 4096) = 0 /\ 0 < frame_refs (frames st') (phys i v st' / 4096);
  fp_same v w : lo <= v / 4096 < hi -> lo <= w / 4096 < hi ->
    phys i v st' / 4096 = phys i w st' / 4096 -> v / 4096 = w / 4096;
  fp_refs q : frame_refs (frames st) q <= frame_refs (frames st') q;
  fp_mem x : 0 < frame_refs (frames st) (x / 4096) -> mem st' !!! x = mem st !!! x;
}.

Lemma fresh_pages_nil i lo st : loading i st -> fresh_pages i lo lo st st.
Proof. intros Hl. split; try done; try lia. Qed.

Lemma loading_refs i st q : loading i st -> 0 <= frame_refs (frames st) q.
Proof. intros [[Hw _] _ _]. pose proof (refs_nonneg (frames st) q (vw_frames _ Hw)). lia. Qed.

Lemma fresh_pages_trans i lo mid hi st st1 st2 :
  loading i st -> lo <= mid <= hi -> fresh_pages i lo mid st st1 -> fresh_pages i mid hi st1 st2 -> fresh_pages i lo hi st st2.
Proof.
  intros Hl Hm [A1 A2 A3 A4 A5 A6 A7] [B1 B2 B3 B4 B5 B6 B7].
  assert (forall v, lo <= v / 4096 < mid -> phys i v st2 = phys i v st1) as Hold by (intros v Hv; apply B3; lia).
  split; [done|congruence| | | | |].
  - intros v Hv. rewrite B3, A3 by lia. done.
  - intros v Hv. destruct (Z.ltb_spec (v / 4096) mid).
    + rewrite Hold by lia. destruct (A4 v ltac:(lia)) as (F1 & F2 & F3 & F4).
      specialize (B6 (phys i v st1 / 4096)). split_and!; (done || lia).
    + destruct (B4 v ltac:(lia)) as (F1 & F2 & F3 & F4). split_and!; try done.
      specialize (A6 (phys i v st2 / 4096)). pose proof (loading_refs i st (phys i v st2 / 4096) Hl). lia.
  - assert (forall v w, lo <= v / 4096 < mid -> mid <= w / 4096 < hi -> phys i v st2 / 4096 <> phys i w st2 / 4096) as Hx.
    { intros v w Hv Hw E. rewrite (Hold v Hv) in E. destruct (A4 v Hv) as (_ & _ & _ & F4).
      destruct (B4 w Hw) as (_ & _ & F3 & _). rewrite E in F4. lia. }
    intros v w Hv Hw E. destruct (Z.ltb_spec (v / 4096) mid), (Z.ltb_spec (w / 4096) mid).
    + rewrite !Hold in E by lia. apply A5; [lia|lia|done].
    + exfalso. apply (Hx v w); [lia|lia|done].
    + exfalso. apply (Hx w v); [lia|lia|done].
    + apply B5; [lia|lia|done].
  - intros q. specialize (A6 q). specialize (B6 q). lia.
  - intros x Hr. rewrite B7, A7; [done|done|]. specialize (A6 (x / 4096)). lia.
Qed.

(** Two addresses of fresh pages in one place are one address. *)
Lemma fresh_injective i lo hi st st' v w :
  fresh_pages i lo hi st st' -> lo <= v / 4096 < hi -> lo <= w / 4096 < hi -> phys i v st' = phys i w st' -> v = w.
Proof.
  intros Hf Hv Hw E. destruct (fp_mapped _ _ _ _ _ Hf v Hv) as (_ & Hv1 & _). destruct (fp_mapped _ _ _ _ _ Hf w Hw) as (_ & Hw1 & _).
  assert (v / 4096 = w / 4096) as Ep by (apply (fp_same _ _ _ _ _ Hf); [done|done|by rewrite E]).
  rewrite E, Hw1 in Hv1. rewrite (Z.div_mod v 4096), (Z.div_mod w 4096) by lia. lia.
Qed.

(** A store to fresh pages keeps them so. *)
Lemma fresh_store i lo hi st st' va bytes :
  fresh_pages i lo hi st st' -> (forall a, 0 <= a < Z.of_nat (length bytes) -> lo <= (va + a) / 4096 < hi) ->
  let st'' := store_bytes va bytes st' in
  fresh_pages i lo hi st st'' /\
  (forall a, 0 <= a < Z.of_nat (length bytes) -> mem st'' !!! phys i (va + a) st' = bytes.[a]) /\
  (forall v, lo <= v / 4096 < hi -> (forall a, 0 <= a < Z.of_nat (length bytes) -> va + a <> v) ->
     mem st'' !!! phys i v st' = mem st' !!! phys i v st').
Proof.
  intros Hf Hr st''. pose proof (fp_loading _ _ _ _ _ Hf) as Hl.
  assert (forall v, lo <= v / 4096 < hi -> translate v st' = phys i v st') as Ht.
  { intros v Hv. apply translate_user; [done|]. apply (fp_mapped _ _ _ _ _ Hf v Hv). }
  destruct (store_bytes_spec va bytes st') as [Hin Hout].
  { intros a b Ha Hb E. rewrite !Ht in E by auto. apply (fresh_injective i lo hi st st') in E; [lia|done|auto|auto]. }
  fold st'' in Hin, Hout. split; [|split].
  - destruct Hf as [A1 A2 A3 A4 A5 A6 A7]. split; [by apply loading_mem|exact A2|exact A3|exact A4|exact A5|exact A6|].
    intros x Hx. rewrite Hout; [by apply A7|]. intros a Ha E. specialize (Hr a Ha). rewrite Ht in E by done.
    destruct (A4 _ Hr) as (_ & _ & Hz & _). rewrite E in Hz. lia.
  - intros a Ha. rewrite <- Ht by auto. by apply Hin.
  - intros v Hv Hne. apply Hout. intros a Ha E. rewrite Ht in E by auto.
    apply (fresh_injective i lo hi st st') in E; [|done|auto|done]. by apply (Hne a).
Qed.

Lemma load_page_fresh i fl va st st' :
  loading i st -> va mod 4096 = 0 -> vmm_get_physical va (kmaps st) = 0 ->
  load_page utab_addr i fl va st = (true, st') -> fresh_pages i (va / 4096) (va / 4096 + 1) st st'.
Proof.
  intros Hl Hal Hk. unfold load_page. rewrite Hk. cbn [Z.eqb].
  destruct (alloc_page (frames st)) as [page f'] eqn:Ha. destruct (Z.eqb_spec page 0) as [|Hp]; [done|].
  set (flags := if has fl 2 then PAGE_WRITE else 0).
  assert (flags_ok flags) as Hfl by (unfold flags, flags_ok; destruct (has fl 2); const_lia).
  destruct (vmm_map_user utab_addr (Some i) va page flags (with_frames f' st)) as [rc st1] eqn:Hm.
  destruct (Z.eqb_spec rc 0) as [->|]; [|done]. cbn [negb]. intros [= <-].
  pose proof Hl as [Hinv Hlive Hcur]. destruct (alloc_map_inv utab_addr _ _ _ _ _ _ _ _ Hinv Hlive Hfl Ha Hp Hm) as (Hinv1 & Hlive1 & _).
  destruct (alloc_some _ _ _ (vw_frames _ (proj1 Hinv)) Ha Hp) as (Hok & Hr & Hpal & Hz & Hq).
  destruct (alloc_unmapped utab_addr _ _ _ Hinv Ha Hp) as ([Hw' _] & _).
  destruct (map_user_physical utab_addr (with_frames f' st) i va page flags 0 st1 Hw') as [Hup Hph];
    [apply Hlive|unfold is_u32; lia|unfold is_u32, flags_ok in *; lia|exact Hm|].
  assert (user_page va = true) as Hpage by (destruct (user_page va); [done|lia]).
  rewrite vmm_map_user_eq, Hpage in Hm. injection Hm as <-.
  set (st1 := set_space _ _ _) in *.
  assert (page_base (Z.lor page flags) = page) as Hbase.
  { rewrite <- (page_base_aligned page) at 1 by (unfold is_u32; word_lia). rewrite pte_base by exact Hfl.
    apply page_base_aligned; [unfold is_u32; lia|exact Hpal]. }
  assert (forall v, phys i v st1 = if v / 4096 =? va / 4096 then page + v mod 4096 else phys i v st) as Hphys.
  { intros v. rewrite Hph by apply Hlive. rewrite !Z.eqb_refl, Hbase. done. }
  change PAGE_SIZE with 4096 in *.
  assert (forall v, 0 <= v mod 4096 < 4096) as Hmod by (intros; apply Z.mod_pos_bound; lia).
  assert (fresh_pages i (va / 4096) (va / 4096 + 1) st st1) as Hf.
  { split; [by split|done| | | | |done].
    - intros v Hv. rewrite Hphys. destruct (Z.eqb_spec (v / 4096) (va / 4096)); [lia|done].
    - intros v Hv. rewrite Hphys. destruct (Z.eqb_spec (v / 4096) (va / 4096)); [|lia].
      specialize (Hmod v). assert ((page + v mod 4096) / 4096 = page / 4096) as -> by word_lia.
      split; [lia|]. split; [word_lia|]. split; [done|].
      change (frames st1) with f'. rewrite Hq, Z.eqb_refl. lia.
    - lia.
    - intros q. change (frames st1) with f'. rewrite Hq. destruct (Z.eqb_spec q (page / 4096)) as [->|]; lia. }
  apply (fresh_store i _ _ st st1 va); [exact Hf|]. rewrite length_replicate. change (Z.to_nat 4096) with 4096%nat.
  intros a Ha'. word_lia.
Qed.

(** The kernel's own tables do not cover user addresses. *)
Definition user_clear (k : kmap) : Prop := forall v, USER_BASE <= v < USER_END -> vmm_get_physical v k = 0.

Lemma load_pages_fresh n i fl va st st' :
  loading i st -> user_clear (kmaps st) -> va mod 4096 = 0 -> USER_BASE <= va -> va + Z.of_nat n * 4096 <= USER_END ->
  load_pages utab_addr n i fl va st = (true, st') -> fresh_pages i (va / 4096) (va / 4096 + Z.of_nat n) st st'.
Proof.
  revert va st. induction n as [|n IH]; intros va st Hl Hk Hal Hlo Hhi; cbn [load_pages].
  - intros [= <-]. rewrite Z.add_0_r. by apply fresh_pages_nil.
  - destruct (load_page utab_addr i fl va st) as [ok st1] eqn:E. destruct ok; [|done].
    apply load_page_fresh in E; [|done|done|apply Hk; lia].
    rewrite u32_small by (unfold is_u32; const_lia). intros Hn.
    apply IH in Hn; [|apply E|by rewrite (fp_kmaps _ _ _ _ _ E)|autounfold with kconst; word_lia|const_lia|const_lia].
    assert ((va + PAGE_SIZE) / 4096 = va / 4096 + 1) as Ev by (autounfold with kconst; word_lia). rewrite Ev in Hn.
    eapply fresh_pages_trans; [exact Hl| |exact E|]; [lia|].
    by replace (va / 4096 + Z.of_nat (Datatypes.S n)) with (va / 4096 + 1 + Z.of_nat n) by lia.
Qed.

(** The pages of a segment, as page numbers. *)
Definition first_page (p : elf32_program) : Z := vaddr p / 4096.
Definition last_page (p : elf32_program) : Z := (vaddr p + memsz p + 4095) / 4096.

(** The byte a program expects at offset [o] of a segment. *)
Definition segment_byte (image : list Z) (p : elf32_program) (o : Z) : Z :=
  if o <? filesz p then image.[poffset p + o] else 0.

(** The fields of a program header are 32-bit words. *)
Definition program_ok (p : elf32_program) : Prop := is_u32 (vaddr p) /\ is_u32 (memsz p) /\ 0 <= filesz p.

Lemma segment_range p size : program_ok p -> bad_bounds p size = false ->
  USER_BASE <= vaddr p /\ vaddr p + memsz p < USER_END /\ filesz p <= memsz p.
Proof.
  intros (Hv & Hm & _). unfold bad_bounds. rewrite !orb_false_iff, !Z.ltb_ge, Z.leb_gt. intros [[[[[B1 B2] B3] B4] B5] B6].
  autounfold with kconst in *. unfold is_u32, u32 in *. split_and!; [lia| |lia]. Z.to_euclidean_division_equations. lia.
Qed.

Lemma load_segment_fresh image size i p st st' :
  loading i st -> user_clear (kmaps st) -> program_ok p -> ptype p = PT_LOAD ->
  load_segment utab_addr image size i p st = (true, st') ->
  fresh_pages i (first_page p) (last_page p) st st' /\
  forall o, 0 <= o < memsz p -> mem st' !!! phys i (vaddr p + o) st' = segment_byte image p o.
Proof.
  intros Hl Hk Hok Hty. unfold load_segment. rewrite Hty, Z.eqb_refl. cbn [negb].
  destruct (bad_flags p || bad_bounds p size) eqn:Hb; [done|]. apply orb_false_iff in Hb as [_ Hb].
  destruct (segment_range p size Hok Hb) as (Hlo & Hhi & Hfm). destruct Hok as (Hv & Hm & Hf0).
  assert (down (vaddr p) = first_page p * 4096) as Ed.
  { change (down (vaddr p)) with (page_base (vaddr p)). by apply page_base_div. }
  assert (up (vaddr p + memsz p) = last_page p * 4096) as Eu.
  { change (up (vaddr p + memsz p)) with (page_base (u32 (vaddr p + memsz p + PAGE_SIZE - 1))).
    rewrite u32_small by (unfold is_u32 in *; const_lia). rewrite page_base_div by (unfold is_u32 in *; const_lia).
    unfold last_page. autounfold with kconst. do 2 f_equal. lia. }
  rewrite Ed, Eu. change PAGE_SIZE with 4096.
  set (n := Z.to_nat ((last_page p * 4096 - first_page p * 4096) / 4096)).
  assert (first_page p <= last_page p /\ last_page p * 4096 <= USER_END /\ USER_BASE <= first_page p * 4096) as (Hle & Hend & Hbeg).
  { unfold first_page, last_page, is_u32 in *. autounfold with kconst in *. word_lia. }
  assert (Z.of_nat n = last_page p - first_page p) as En.
  { unfold n. rewrite Z2Nat.id by (apply Z.div_pos; lia). word_lia. }
  destruct (load_pages utab_addr n i (pflags p) (first_page p * 4096) st) as [ok st1] eqn:E. destruct ok; [|done].
  cbn [negb]. intros [= <-].
  apply load_pages_fresh in E; [|done|done|word_lia|lia|lia].
  replace (first_page p * 4096 / 4096) with (first_page p) in E by word_lia.
  rewrite En in E. replace (first_page p + (last_page p - first_page p)) with (last_page p) in E by lia.
  assert (forall o, 0 <= o < memsz p -> first_page p <= (vaddr p + o) / 4096 < last_page p) as Hin.
  { intros o Ho. unfold first_page, last_page, is_u32 in *. word_lia. }
  set (bytes := (fun j => image.[poffset p + j]) <$> seqZ 0 (filesz p)).
  assert (Z.of_nat (length bytes) = filesz p) as Eb by (unfold bytes; rewrite length_fmap, length_seqZ; lia).
  destruct (fresh_store i _ _ st st1 (vaddr p) bytes E) as (F2 & C2 & _); [rewrite Eb; intros a Ha; apply Hin; lia|].
  set (st2 := store_bytes (vaddr p) bytes st1) in *. change (copy _ _ _ _ st1) with st2.
  set (zs := replicate (Z.to_nat (memsz p - filesz p)) 0).
  assert (Z.of_nat (length zs) = memsz p - filesz p) as Ez by (unfold zs; rewrite length_replicate; lia).
  destruct (fresh_store i _ _ st st2 (vaddr p + filesz p) zs F2) as (F3 & C3 & K3).
  { rewrite Ez. intros a Ha. rewrite <- Z.add_assoc. apply Hin. lia. }
  change (zero _ _ st2) with (store_bytes (vaddr p + filesz p) zs st2). split; [exact F3|].
  intros o Ho. unfold segment_byte. change (phys i (vaddr p + o) (store_bytes _ zs st2)) with (phys i (vaddr p + o) st2).
  destruct (Z.ltb_spec o (filesz p)).
  - rewrite K3 by (auto; intros; lia). change (phys i (vaddr p + o) st2) with (phys i (vaddr p + o) st1).
    rewrite C2 by lia. unfold bytes. rewrite aget_fmap_seqZ by lia. f_equal.
  - specialize (C3 (o - filesz p) ltac:(lia)). replace (vaddr p + filesz p + (o - filesz p)) with (vaddr p + o) in C3 by lia.
    rewrite C3. unfold zs. apply aget_replicate. lia.
Qed.

(** ** All segments *)
(** No page belongs to two loadable segments. *)
Definition apart (p q : elf32_program) : Prop :=
  ptype p = PT_LOAD -> ptype q = PT_LOAD -> last_page p <= first_page q \/ last_page q <= first_page p.
Fixpoint all_apart (ps : list elf32_program) : Prop :=
  match ps with [] => True | p :: ps' => Forall (apart p) ps' /\ all_apart ps' end.

(** Bytes in place: where they are mapped is theirs. *)
Definition holds_byte (i v b : Z) st : Prop :=
  mem st !!! phys i v st = b /\ 0 < frame_refs (frames st) (phys i v st / 4096).

Lemma holds_byte_fresh i lo hi v b st st' :
  fresh_pages i lo hi st st' -> v / 4096 < lo \/ hi <= v / 4096 -> holds_byte i v b st -> holds_byte i v b st'.
Proof.
  intros Hf Hv [Hm Hr]. unfold holds_byte. rewrite (fp_other _ _ _ _ _ Hf v Hv). split.
  - by rewrite (fp_mem _ _ _ _ _ Hf).
  - pose proof (fp_refs _ _ _ _ _ Hf (phys i v st / 4096)). lia.
Qed.

Lemma load_segments_contents image size i ps st st' :
  loading i st -> user_clear (kmaps st) -> Forall program_ok ps -> all_apart ps ->
  load_segments utab_addr image size i ps st = (true, st') ->
  loading i st' /\
  (forall v b, holds_byte i v b st -> Forall (fun p => ptype p = PT_LOAD -> v / 4096 < first_page p \/ last_page p <= v / 4096) ps ->
     holds_byte i v b st') /\
  (forall p o, p ∈ ps -> ptype p = PT_LOAD -> 0 <= o < memsz p -> holds_byte i (vaddr p + o) (segment_byte image p o) st').
Proof.
  revert st. induction ps as [|p ps IH]; intros st Hl Hk Hok Hap; cbn [load_segments].
  - intros [= <-]. split; [done|]. split; [done|]. intros p o Hp. set_solver.
  - destruct (load_segment utab_addr image size i p st) as [ok st1] eqn:E. destruct ok; [|done]. intros Hrest.
    apply Forall_cons in Hok as [Hpok Hok]. destruct Hap as [Hp Hap].
    destruct (decide (ptype p = PT_LOAD)) as [Hty|Hty].
    + destruct (load_segment_fresh _ _ _ _ _ _ Hl Hk Hpok Hty E) as [Hf Hc].
      destruct (IH st1) as (L' & Hold & Hnew); [apply Hf|by rewrite (fp_kmaps _ _ _ _ _ Hf)|done|done|done|].
      split; [done|]. split.
      * intros v b Hb [Hv Hvs]%Forall_cons. apply Hold; [|done]. eapply holds_byte_fresh; [exact Hf|by apply Hv|done].
      * intros q o Hq Htq Ho. apply elem_of_cons in Hq as [->|Hq]; [|by apply Hnew].
        unfold load_segment in E. rewrite Hty, Z.eqb_refl in E. cbn [negb] in E.
        destruct (bad_flags p || bad_bounds p size) eqn:Hb; [done|]. apply orb_false_iff in Hb as [_ Hb].
        destruct (segment_range p size Hpok Hb) as (Hlo & Hhi & _). destruct Hpok as (Hv & Hm & _).
        assert (first_page p <= (vaddr p + o) / 4096 < last_page p) as Hin
          by (unfold first_page, last_page, is_u32 in *; word_lia).
        apply Hold; [split; [by apply Hc|by apply (fp_mapped _ _ _ _ _ Hf)]|].
        eapply Forall_impl; [exact Hp|]. intros r Hr Htr. destruct (Hr Hty Htr); lia.
    + unfold load_segment in E. destruct (Z.eqb_spec (ptype p) PT_LOAD); [done|]. injection E as <-.
      destruct (IH st Hl Hk Hok Hap Hrest) as (L' & Hold & Hnew). split; [done|]. split.
      * intros v b Hb [_ Hvs]%Forall_cons. by apply Hold.
      * intros q o Hq Htq. apply elem_of_cons in Hq as [->|Hq]; [done|by apply Hnew].
Qed.

(** C19: a successful load puts the program in place: if no page belongs to two segments,
    every byte of every loadable segment, read through the tables of the new address
    space, is the byte of the image or, past the part stored in the file, zero, each in
    a frame that belongs to the space. *)
Theorem elf32_load_contents image size i st e st' :
  vmm_inv st -> live st i -> user_clear (kmaps st) -> Forall program_ok (programs image) -> all_apart (programs image) ->
  elf32_load utab_addr (Some image) size (Some i) st = (0, e, st') ->
  forall p o, p ∈ programs image -> ptype p = PT_LOAD -> 0 <= o < memsz p ->
    mem st' !!! vmm_get_user_physical (Some i) (vaddr p + o) st' = segment_byte image p o /\
    0 < frame_refs (frames st') (vmm_get_user_physical (Some i) (vaddr p + o) st' / PAGE_SIZE).
Proof.
  intros Hinv Hlive Hk Hok Hap. unfold elf32_load. destruct (_ || _ || _); [done|].
  set (st0 := vmm_switch_address_space (Some i) st).
  assert (loading i st0) as Hl by (split; [apply switch_inv; [done|by intros ? [= <-]]|exact Hlive|done]).
  destruct (load_segments utab_addr image size i (programs image) st0) as [[] st1] eqn:E; [|done].
  intros [= _ <-] p o Hp Hty Ho.
  destruct (load_segments_contents _ _ _ _ _ _ Hl Hk Hok Hap E) as (_ & _ & Hnew). by apply (Hnew p o Hp Hty Ho).
Qed.
End contents.

(** ** The embedded program, loaded *)
Lemma demo_elf_inv : vmm_inv demo_elf_space /\ live demo_elf_space 0.
Proof.
  assert (vmm_inv (vmm_boot (fun _ => 1048576) small_pmm)) as Hb by (apply vmm_boot_inv; exact small_pmm_ok).
  destruct (vmm_create_address_space (vmm_boot (fun _ => 1048576) small_pmm)) as [r st'] eqn:E.
  assert (demo_elf_space = st') as Es by (unfold demo_elf_space; by rewrite E).
  assert (r = Some 0) as -> by (apply (f_equal fst) in E; vm_compute in E; congruence).
  rewrite Es. split; [by eapply create_inv|]. split; [lia|]. rewrite <- Es. vm_compute. reflexivity.
Qed.

Lemma demo_user_clear : user_clear (kmaps demo_elf_space).
Proof.
  intros v Hv. unfold vmm_get_physical.
  assert (forallb (fun d => negb (bool_decide (is_Some (kernel_tables (kmaps demo_elf_space)).[d]))) (seqZ 1 767) = true)
    as Hall by (vm_compute; reflexivity).
  pose proof (forall_seqZ _ _ _ Hall (dir_index v)) as Hd. rewrite dir_index_div in Hd.
  specialize (Hd ltac:(autounfold with kconst in *; word_lia)). apply negb_true_iff, bool_decide_eq_false in Hd.
  rewrite dir_index_div. destruct ((kernel_tables (kmaps demo_elf_space)).[v / 4194304]); [|done].
  exfalso. apply Hd. by eexists.
Qed.

Lemma elf32_load_contents_witness :
  exists st', elf32_load demo_tables (Some user_image) user_image_size (Some 0) demo_elf_space = (0, Some 4194304, st') /\
    mem st' !!! vmm_get_user_physical (Some 0) 4194328 st' = 117.
Proof.
  destruct (elf32_load demo_tables (Some user_image) user_image_size (Some 0) demo_elf_space) as [[rc e] st'] eqn:E.
  assert ((rc, e) = (0, Some 4194304)) as Hrc.
  { change ((rc, e, st').1 = (0, Some 4194304)). rewrite <- E. vm_compute. reflexivity. }
  injection Hrc as -> ->. exists st'. split; [reflexivity|].
  set (p := mkProgram 1 84 4194304 36 36 5). assert (programs user_image = [p]) as Ep by (vm_compute; reflexivity).
  destruct (elf32_load_contents demo_tables user_image user_image_size 0 demo_elf_space (Some 4194304) st'
    (proj1 demo_elf_inv) (proj2 demo_elf_inv) demo_user_clear) with (p := p) (o := 24) as [Hm _].
  - rewrite Ep. apply Forall_singleton. split; [split; [discriminate|reflexivity]|].
    split; [split; [discriminate|reflexivity]|discriminate].
  - rewrite Ep. split; [constructor|exact I].
  - exact E.
  - rewrite Ep. left.
  - reflexivity.
  - split; [discriminate|reflexivity].
  - exact Hm.
Defined.
