(* ===== verification/Syscall.v ===== *)
(** System calls, [kernel/syscall.c] and [include/syscall.h], the program loading of
    [kernel/process.c], and the user's side of the calls, [userspace/libc/syscalls.c].

    The state adds the kernel sockets, the pending [exec], the network and the kernel heap
    to the processes.  A routine that never returns is [Panicked]: a panic, and also a
    loop that waits for interrupts while the handler runs with interrupts disabled (vector
    128 is an interrupt gate).  [fuel] bounds the walk of a directory and the growth of the
    heap.  The image buffer of [exec] is freed before the call returns, so its bytes are
    only passed on as a list. *)
From S2P Require Import Prelude Frames Paging KernelMap Heap Net Vmm Block Fat32 Console Vfs Sync Timer Elf Process.
From coqutil Require Import Datatypes.RecordSetters.
Import DoubleBraceUpdate.

Definition SYS_READ : Z := 0.
Definition SYS_WRITE : Z := 1.
Definition SYS_OPEN : Z := 2.
Definition SYS_CLOSE : Z := 3.
Definition SYS_FORK : Z := 4.
Definition SYS_EXIT : Z := 5.
Definition SYS_GETPID : Z := 6.
Definition SYS_YIELD : Z := 7.
Definition SYS_SLEEP : Z := 8.
Definition SYS_WAIT : Z := 9.
Definition SYS_EXEC : Z := 10.
Definition SYS_MMAP : Z := 11.
Definition SYS_UNAME : Z := 12.
Definition SYS_MUNMAP : Z := 13.
Definition SYS_KILL : Z := 14.
Definition SYS_FUTEX_WAIT : Z := 15.
Definition SYS_FUTEX_WAKE : Z := 16.
Definition SYS_SIGACTION : Z := 17.
Definition SYS_SIGRETURN : Z := 18.
Definition SYS_GETCRED : Z := 19.
Definition SYS_SOCKET : Z := 20.
Definition SYS_CONNECT : Z := 21.
Definition SYS_SEND : Z := 22.
Definition SYS_CLOSE_SOCKET : Z := 23.
Definition SYS_COUNT : Z := 24.

Definition EXEC_MAX_IMAGE : Z := 262144. (* 256 * 1024 *)
Definition ERR_ENOENT : Z := 2.
Definition ERR_ENOEXEC : Z := 8.
Definition ERR_ENOMEM : Z := 12.

(** ["ceblar-20 0.6.0 x86"] *)
Definition uname_text : list Z :=
  [99; 101; 98; 108; 97; 114; 45; 50; 48; 32; 48; 46; 54; 46; 48; 32; 120; 56; 54].

Record sys {S W : Type} := mkSys {
  kern : kernel S W;
  network : net;
  kernel_sockets : list net_socket;
  exec_pending_process : option pcb_ptr;
  exec_pending_entry : Z;
  kheap : heap;
}.
Arguments sys S W : clear implicits.

Section syscall.
Context {S W : Type} `{FrameAllocator S}.
Variable blk : block W.
Variable stack_top : pcb_ptr -> Z.
Variable initial_frame_at : pcb_ptr -> Z.
Variable utab_addr : Z -> Z -> Z.
Variable heap_area : Z.
Variable cr2 : Z.
Variable fuel : nat.
Implicit Types s : sys S W.

Definition current_process s : pcb_ptr := scheduler_current (kern s).
Definition current_space_of s : option Z := space (pcb_of (current_process s) (kern s)).

(** Running an operation of another component. *)
Definition on_kern {A} (f : kernel S W -> A * kernel S W) s : outcome (sys S W) A :=
  let '(r, k) := f (kern s) in Done r (s {{ kern := k }}).
Definition lift_kern {A} (f : kernel S W -> outcome (kernel S W) A) s : outcome (sys S W) A :=
  match f (kern s) with
  | Done r k => Done r (s {{ kern := k }})
  | Panicked m k => Panicked m (s {{ kern := k }})
  end.
Definition set_kern (f : kernel S W -> kernel S W) s : sys S W := s {{ kern ::= f }}.
Definition run_vm {A} (f : vmm S -> A * vmm S) s : A * sys S W :=
  let '(r, v) := f (vm (kern s)) in (r, set_kern (fun k => k {{ vm := v }}) s).
Definition set_vm (f : vmm S -> vmm S) s : sys S W := set_kern (on_vm f) s.
Definition run_fds {A} (f : @vfs W -> A * @vfs W) s : A * sys S W :=
  let '(r, v) := f (fds (kern s)) in (r, set_kern (fun k => k {{ fds := v }}) s).

(** The heap works on the kernel's page tables and on the page frames. *)
Definition hstate_of s : hstate S := mkH (kheap s) (kmaps (vm (kern s))) (frames (vm (kern s))).
Definition put_hstate (h : hstate S) s : sys S W :=
  set_vm (fun v => with_frames (fr h) (with_kmaps (km h) v)) (s {{ kheap := hp h }}).
Definition sys_kmalloc (n : Z) s : outcome (sys S W) Z :=
  match kmalloc heap_area fuel n (hstate_of s) with
  | None => Panicked "the heap does not stop growing" s
  | Some (Done p h) => Done p (put_hstate h s)
  | Some (Panicked m h) => Panicked m (put_hstate h s)
  end.
Definition sys_kfree (p : Z) s : sys S W := put_hstate (kfree p (hstate_of s)) s.

(** *** User memory *)
Definition load_byte (va : Z) (v : vmm S) : Z := mem v !!! translate va v.
Definition load_bytes (va n : Z) (v : vmm S) : list Z := (fun i => load_byte (va + i) v) <$> seqZ 0 n.
Fixpoint string_at (n : nat) (va : Z) (v : vmm S) : list Z :=
  match n with
  | O => []
  | Datatypes.S n' => let c := load_byte va v in if c =? 0 then [] else c :: string_at n' (va + 1) v
  end.

Definition user_buf (p n : Z) (write : bool) s : outcome (sys S W) bool :=
  if n =? 0 then Done ((USER_BASE <=? p) && (p <? USER_END)) s
  else
    let* (rc, s) := lift_kern (lift (vmm_validate_user_ptr utab_addr cr2 (current_space_of s) p n write)) s in
    Done (rc =? 0) s.

(** The loop over at most 256 bytes; [n] is what is left of them. *)
Fixpoint user_string_loop (n : nat) (p : Z) s : outcome (sys S W) Z :=
  match n with
  | O => Done (-1) s
  | Datatypes.S n' =>
      if negb (p <? USER_END) then Done (-1) s
      else
        let* (rc, s) := lift_kern (lift (vmm_validate_user_ptr utab_addr cr2 (current_space_of s) p 1 false)) s in
        if negb (rc =? 0) then Done (-1) s
        else if load_byte p (vm (kern s)) =? 0 then Done 0 s
        else user_string_loop n' (p + 1) s
  end.
Definition user_string (p : Z) s : outcome (sys S W) Z :=
  if (p <? USER_BASE) || (USER_END <=? p) then Done (-1) s else user_string_loop 256 p s.

(** *** The calls *)
Definition rd (a b c : Z) s : outcome (sys S W) Z :=
  let* (ok, s) := user_buf b c true s in
  if negb ok then Done (-1) s
  else
    let '(rc, out, v) := vfs_read blk (i32 a) (negb (b =? 0)) c (fds (kern s)) in
    Done rc (set_vm (store_bytes b out) (set_kern (fun k => k {{ fds := v }}) s)).

Definition wr (a b c : Z) s : outcome (sys S W) Z :=
  let* (ok, s) := user_buf b c false s in
  if negb ok then Done (-1) s
  else
    let data := if b =? 0 then None else Some (load_bytes b c (vm (kern s))) in
    let '(rc, s) := run_fds (vfs_write blk (i32 a) data) s in Done rc s.

(** [vfs_open] on a string in memory *)
Definition open_path (path : list Z) (flags : Z) s : outcome (sys S W) Z :=
  match vfs_open blk fuel (Some path) flags (fds (kern s)) with
  | None => Panicked "the directory has no end" s
  | Some (fd, v) => Done fd (set_kern (fun k => k {{ fds := v }}) s)
  end.
Definition op (a b c : Z) s : outcome (sys S W) Z :=
  let* (rc, s) := user_string a s in
  if negb (rc =? 0) then Done (-1) s else open_path (string_at 256 a (vm (kern s))) b s.
Definition close_fd (fd : Z) s : Z * sys S W := run_fds (vfs_close fd) s.
Definition cl (a b c : Z) s : outcome (sys S W) Z := let '(rc, s) := close_fd (i32 a) s in Done rc s.

Definition fk (a b c : Z) s : outcome (sys S W) Z := on_kern (process_fork stack_top initial_frame_at utab_addr) s.
Definition ex (a b c : Z) s : outcome (sys S W) Z :=
  on_kern (process_exit_with_status (pid (pcb_of (current_process s) (kern s))) (i32 a)) s.
Definition gp (a b c : Z) s : outcome (sys S W) Z := Done (i32 (pid (pcb_of (current_process s) (kern s)))) s.
Definition yl (a b c : Z) s : outcome (sys S W) Z := Done 0 (set_kern (scheduler_yield stack_top) s).
(** No timer interrupt arrives while the call runs. *)
Definition sl (a b c : Z) s : outcome (sys S W) Z :=
  match ksleep_ms 0 a (clock (kern s)) with
  | Some _ => Done 0 s
  | None => Panicked "halted with interrupts disabled" s
  end.
Definition wt (a b c : Z) s : outcome (sys S W) Z :=
  let* (ok, s) := (if b =? 0 then Done true s else user_buf b 4 true s) in
  if negb ok then Done (-1) s else on_kern (process_wait a b) s.

(** *** Loading programs *)
(** The file at [path], read whole through a kernel buffer; [inl] is an error, [inr] the
    image and the buffer's address.  The errors differ between the callers. *)
Definition read_image (path : list Z) (enoent : Z) s : outcome (sys S W) (Z + list Z * Z) :=
  let* (fd, s) := open_path path 0 s in
  if fd <? 0 then Done (inl enoent) s
  else
    let* (image, s) := sys_kmalloc EXEC_MAX_IMAGE s in
    if image =? 0 then Done (inl (- ERR_ENOMEM)) (close_fd fd s).2
    else
      let '(n, out, v) := vfs_read blk fd true EXEC_MAX_IMAGE (fds (kern s)) in
      let s := (close_fd fd (set_kern (fun k => k {{ fds := v }}) s)).2 in
      if (n <=? 0) || (n =? EXEC_MAX_IMAGE) then Done (inl (- ERR_ENOEXEC)) (sys_kfree image s)
      else Done (inr (out, image)) s.

(** A fresh space with a stack page and the program; [inl b]: failed, and [b] tells that
    it was the stack.  Nothing of the space is left then. *)
Definition load_program (image : list Z) (sp : Z) s : (bool + Z) * sys S W :=
  let '(stack, s) := run_vm (vmm_user_alloc utab_addr (Some sp) (USER_STACK_TOP - PAGE_SIZE) 1 PAGE_WRITE) s in
  if stack =? 0 then (inl true, set_vm (vmm_destroy_address_space (Some sp)) s)
  else
    let '(rc, e, v) := elf32_load utab_addr (Some image) (Z.of_nat (length image)) (Some sp) (vm (kern s)) in
    let s := set_kern (fun k => k {{ vm := v }}) s in
    match e with
    | Some entry => if rc =? 0 then (inr entry, s) else (inl false, set_vm (vmm_destroy_address_space (Some sp)) s)
    | None => (inl false, set_vm (vmm_destroy_address_space (Some sp)) s)
    end.

(** [q->address_space = space; q->entry_point = entry; ...] *)
Definition new_image (sp : option Z) (entry : Z) (x : pcb) : pcb :=
  x {{ space := sp; entry_point := entry; user_stack := USER_STACK_TOP; user_mode := true;
       cpu ::= fun c => c {{ ceip := entry; cesp := USER_STACK_TOP }} }}.

Definition ee (a b c : Z) s : outcome (sys S W) Z :=
  let q := current_process s in
  let* (rc, s) := user_string a s in
  if negb (rc =? 0) then Done (- ERR_ENOENT) s
  else
    let* (r, s) := read_image (string_at 256 a (vm (kern s))) (- ERR_ENOENT) s in
    match r with
    | inl e => Done e s
    | inr (image, buffer) =>
        let '(sp, s) := run_vm vmm_create_address_space s in
        match sp with
        | None => Done (- ERR_ENOMEM) (sys_kfree buffer s)
        | Some i =>
            match load_program image i s with
            | (inl stack, s) => Done (if stack then - ERR_ENOMEM else - ERR_ENOEXEC) (sys_kfree buffer s)
            | (inr entry, s) =>
                let old := space (pcb_of q (kern s)) in
                let s := set_kern (upd q (new_image sp entry)) s in
                let s := set_vm (vmm_switch_address_space sp) s in
                let s := set_kern (tss_set_kernel_stack (stack_top q)) s in
                let s := set_vm (vmm_destroy_address_space old) s in
                Done 0 (sys_kfree buffer (s {{ exec_pending_process := Some q; exec_pending_entry := entry }}))
            end
        end
    end.

(** [process_exec_path]: the new program is entered at once; the second component is
    the jump to ring 3. *)
Definition process_exec_path (path : option (list Z)) s : outcome (sys S W) (Z * option (Z * Z)) :=
  let q := current_process s in
  match path with
  | None => Done (-1, None) s
  | Some path =>
      let* (r, s) := read_image path (-2) s in
      match r with
      | inl e => Done (e, None) s
      | inr (image, buffer) =>
          let '(sp, s) := run_vm vmm_create_address_space s in
          match sp with
          | None => Done (-12, None) (sys_kfree buffer s)
          | Some i =>
              match load_program image i s with
              | (inl _, s) => Done (-8, None) (sys_kfree buffer s)
              | (inr entry, s) =>
                  let old := space (pcb_of q (kern s)) in
                  let s := sys_kfree buffer (set_kern (upd q (new_image sp entry)) s) in
                  let s := set_vm (vmm_destroy_address_space old) s in
                  let* (jump, s) := on_kern (process_enter_user stack_top q) s in
                  Done (0, jump) s
              end
          end
      end
  end.

(** [process_create_from_path]: a process created for no program first, whose space is
    then replaced. *)
Definition process_create_from_path (name : option string) (path : option (list Z)) s : outcome (sys S W) (option Z) :=
  match name, path with
  | Some _, Some path =>
      let* (r, s) := read_image path 0 s in
      match r with
      | inl _ => Done None s
      | inr (image, buffer) =>
          let* (p, s) := on_kern (process_create_user stack_top initial_frame_at utab_addr name 0) s in
          match p with
          | None => Done None (sys_kfree buffer s)
          | Some i =>
              let old := space (pcb_of (Proc i) (kern s)) in
              let '(sp, s) := run_vm vmm_create_address_space s in
              match sp with
              | None => Done None (sys_kfree buffer s)
              | Some j =>
                  match load_program image j s with
                  | (inl _, s) => Done None (sys_kfree buffer s)
                  | (inr entry, s) =>
                      let s := set_vm (vmm_destroy_address_space old) s in
                      let s := set_kern (upd (Proc i) (fun x => x {{ space := sp; entry_point := entry;
                                 cpu ::= fun c => c {{ ceip := entry; cesp := USER_STACK_TOP }} }})) s in
                      let s := set_kern (frame_for stack_top initial_frame_at (Proc i) entry USER_STACK_TOP true) s in
                      Done (Some i) (sys_kfree buffer s)
                  end
              end
          end
      end
  | _, _ => Done None s
  end.

(** *** Memory *)
Definition pages_of (b : Z) : Z := u32 (b + PAGE_SIZE - 1) / PAGE_SIZE.
Definition mm (a b c : Z) s : outcome (sys S W) Z :=
  if b =? 0 then Done (-1) s
  else if negb (a =? 0) && negb (Z.land a 4095 =? 0) then Done (-1) s
  else
    let pages := pages_of b in
    if (pages =? 0) || (524288 <? pages) then Done (-1) s
    else let '(r, s) := run_vm (vmm_map_lazy_range (current_space_of s) a pages (Z.lor c PAGE_WRITE)) s in Done r s.
Definition mu (a b c : Z) s : outcome (sys S W) Z :=
  if (b =? 0) || negb (Z.land a 4095 =? 0) || (a <? USER_BASE) || (USER_END <=? a) then Done (-1) s
  else
    let pages := pages_of b in
    if (pages =? 0) || (524288 <? pages) then Done (-1) s
    else let '(r, s) := run_vm (vmm_unmap_range (current_space_of s) a pages) s in Done r s.

Definition un (a b c : Z) s : outcome (sys S W) Z :=
  let n := Z.of_nat (length uname_text) in
  let* (ok, s) := user_buf a (n + 1) true s in
  if negb ok then Done (-1) s else Done 0 (set_vm (store_bytes a (uname_text ++ [0])) s).

(** *** Sockets *)
Definition socket_sys (a b c : Z) s : outcome (sys S W) Z :=
  let try i := let k := (kernel_sockets s).[i] in
               negb (sused k) && ((net_socket_open (Some k) (u16 a) (network s)).1 =? 0) in
  match find_from try 0 8 with
  | None => Done (-1) s
  | Some i =>
      let k := default (kernel_sockets s).[i] (net_socket_open (Some (kernel_sockets s).[i]) (u16 a) (network s)).2 in
      Done (i32 i) (s {{ kernel_sockets := (kernel_sockets s).[i <- k] }})
  end.
Definition on_socket (a : Z) (f : net_socket -> Z * option net_socket) s : outcome (sys S W) Z :=
  if 8 <=? a then Done (-1) s
  else
    let '(rc, k) := f (kernel_sockets s).[a] in
    Done rc (s {{ kernel_sockets := (kernel_sockets s).[a <- default (kernel_sockets s).[a] k] }}).
Definition connect_sys (a b c : Z) s : outcome (sys S W) Z :=
  on_socket a (fun k => net_socket_connect (Some k) (u16 b)) s.
Definition send_sys (a b c : Z) s : outcome (sys S W) Z :=
  if 8 <=? a then Done (-1) s
  else
    let* (ok, s) := user_buf b c false s in
    if negb ok then Done (-1) s
    else
      let data := if b =? 0 then None else Some (load_bytes b c (vm (kern s))) in
      let '(rc, k, n) := net_socket_send (Some (kernel_sockets s).[a]) data c (network s) in
      Done rc (s {{ kernel_sockets := (kernel_sockets s).[a <- default (kernel_sockets s).[a] k]; network := n }}).
Definition close_socket_sys (a b c : Z) s : outcome (sys S W) Z := on_socket a (fun k => net_socket_close (Some k)) s.

(** *** Processes *)
Definition kill_sys (a b c : Z) s : outcome (sys S W) Z :=
  if (b =? 0) || (31 <? b) then Done (-1) s else on_kern (process_send_signal a b) s.
Definition words_bytes (l : list Z) : list Z :=
  w ← l; (fun i => u8 (Z.shiftr w (8 * i))) <$> seqZ 0 4.
Definition getcred_sys (a b c : Z) s : outcome (sys S W) Z :=
  let q := pid (pcb_of (current_process s) (kern s)) in
  let* (ok, s) := user_buf a 20 true s in
  if negb ok then Done (-1) s
  else
    match process_get_credentials q (kern s) with
    | (rc, Some r) =>
        Done rc (set_vm (store_bytes a (words_bytes [uid r; gid r; euid r; egid r; capabilities r])) s)
    | (rc, None) => Done rc s
    end.
Definition sigaction_sys (a b c : Z) s : outcome (sys S W) Z :=
  let q := pid (pcb_of (current_process s) (kern s)) in
  let* (rc, s) := lift_kern (process_signal_action utab_addr cr2 q a b) s in
  if negb (rc =? 0) then Done (-1) s
  else let* (rc, s) := on_kern (process_signal_set_mask q c) s in Done (if rc =? 0 then 0 else -1) s.
Definition sigreturn_sys (a b c : Z) s : outcome (sys S W) Z := Done 0 s.
(** The check on the futex word both futex calls make. *)
Definition futex_word (a : Z) s : outcome (sys S W) bool :=
  if (a <? USER_BASE) || (USER_END <=? a) then Done false s
  else
    let* (rc, s) := lift_kern (lift (vmm_validate_user_ptr utab_addr cr2 (current_space_of s) a 4 true)) s in
    Done (rc =? 0) s.
Definition futex_wait_sys (a b c : Z) s : outcome (sys S W) Z :=
  let* (ok, s) := futex_word a s in
  if negb ok then Done (-1) s else lift_kern (process_futex_wait utab_addr cr2 a b c) s.
Definition futex_wake_sys (a b c : Z) s : outcome (sys S W) Z :=
  let* (ok, s) := futex_word a s in
  if negb ok then Done (-1) s else on_kern (process_futex_wake a b) s.

(** *** Dispatch *)
Definition table : list (Z -> Z -> Z -> sys S W -> outcome (sys S W) Z) :=
  [rd; wr; op; cl; fk; ex; gp; yl; sl; wt; ee; mm; un; mu; kill_sys; futex_wait_sys; futex_wake_sys; sigaction_sys;
   sigreturn_sys; getcred_sys; socket_sys; connect_sys; send_sys; close_socket_sys].

Definition syscall_dispatch (n a b c : Z) s : outcome (sys S W) Z :=
  if n <? SYS_COUNT then
    match table !! Z.to_nat n with
    | Some f => f a b c s
    | None => Done (-1) s
    end
  else Done (-1) s.

(** The registers of a process that starts a new program *)
Definition exec_frame (entry : Z) (f : list Z) : list Z :=
  f.[R_EIP <- entry].[R_CS <- 27].[R_EFLAGS <- 514].[R_USERESP <- USER_STACK_TOP].[R_SS <- 35].

Definition syscall_from_interrupt (r : Z) s : outcome (sys S W) Z :=
  let q := current_process s in
  let called :=
    if r =? 0 then Done tt s
    else
      let f := frame_at r (kern s) in
      let number := f.[R_EAX] in
      let* (rc, s) := syscall_dispatch number f.[R_EBX] f.[R_ECX] f.[R_EDX] s in
      let s := set_kern (set_reg r R_EAX (u32 rc)) s in
      if number =? SYS_SIGRETURN then Done tt (set_kern (process_signal_return r) s)
      else lift_kern (process_deliver_signal utab_addr cr2 r) s in
  let* (_, s) := called in
  let s := if negb (r =? 0) && bool_decide (exec_pending_process s = Some q)
           then set_kern (fun k => set_frame r (exec_frame (exec_pending_entry s) (frame_at r k)) k)
                  (s {{ exec_pending_process := None }})
           else s in
  let st := state (pcb_of q (kern s)) in
  if bool_decide (st = PROCESS_BLOCKED) || bool_decide (st = PROCESS_ZOMBIE)
  then on_kern (scheduler_block_current stack_top initial_frame_at r) s
  else Done r s.

(** ** The user's side

    [int $0x80] with the number and the arguments in registers. *)
Definition call3 (r number a b c : Z) s : outcome (sys S W) Z :=
  let f := (frame_at r (kern s)).[R_EAX <- number].[R_EBX <- a].[R_ECX <- b].[R_EDX <- c] in
  syscall_from_interrupt r (set_kern (set_frame r f) s).
End syscall.

(** The register values each wrapper of [syscalls.c] passes. *)
Record request := mkRequest { number : Z; arg_a : Z; arg_b : Z; arg_c : Z }.
Definition u_read (fd buffer length : Z) : request := mkRequest SYS_READ fd buffer length.
Definition u_write (fd buffer length : Z) : request := mkRequest SYS_WRITE fd buffer length.
Definition u_open (path flags : Z) : request := mkRequest SYS_OPEN path flags 0.
Definition u_close (fd : Z) : request := mkRequest SYS_CLOSE fd 0 0.
Definition u_fork : request := mkRequest SYS_FORK 0 0 0.
Definition u_exit (status : Z) : request := mkRequest SYS_EXIT status 0 0.
Definition u_getpid : request := mkRequest SYS_GETPID 0 0 0.
Definition u_yield : request := mkRequest SYS_YIELD 0 0 0.
Definition u_sleep (ms : Z) : request := mkRequest SYS_SLEEP ms 0 0.
Definition u_wait (pid status : Z) : request := mkRequest SYS_WAIT pid status 0.
Definition u_exec (path : Z) : request := mkRequest SYS_EXEC path 0 0.
Definition u_mmap (address length flags : Z) : request := mkRequest SYS_MMAP address length flags.
Definition u_uname (buffer : Z) : request := mkRequest SYS_UNAME buffer 0 0.
Definition u_munmap (address length : Z) : request := mkRequest SYS_MUNMAP address length 0.
Definition u_getcred (credentials : Z) : request := mkRequest SYS_GETCRED credentials 0 0.
Definition u_socket (local_port : Z) : request := mkRequest SYS_SOCKET local_port 0 0.
Definition u_connect (socket remote_port : Z) : request := mkRequest SYS_CONNECT socket remote_port 0.
Definition u_send (socket data length : Z) : request := mkRequest SYS_SEND socket data length.
Definition u_socket_close (socket : Z) : request := mkRequest SYS_CLOSE_SOCKET socket 0 0.
Definition u_kill (pid signal : Z) : request := mkRequest SYS_KILL pid signal 0.
Definition u_sigaction (signal handler mask : Z) : request := mkRequest SYS_SIGACTION signal handler mask.
Definition u_sigreturn : request := mkRequest SYS_SIGRETURN 0 0 0.
Definition u_futex_wait (word expected : Z) : request := mkRequest SYS_FUTEX_WAIT word expected 0.
Definition u_futex_wait_timeout (word expected timeout_ms : Z) : request := mkRequest SYS_FUTEX_WAIT word expected timeout_ms.
Definition u_futex_wake (word count : Z) : request := mkRequest SYS_FUTEX_WAKE word count 0.
