(* ===== verification/SyscallTheorems.v ===== *)
(** Theorems about the system calls of [Syscall.v]: a failed [exec] and the process that
    made it, the memory a [read] may change, and calls that do not come back. *)
From S2P Require Import Prelude Frames Paging KernelMap Heap Net Vmm VmmCount VmmSafe VmmTheorems Block Fat32 Console Vfs Sync Timer Elf Process Syscall VmmDemo Pmm ProcessDemo.
From coqutil Require Import Datatypes.RecordSetters.
Import DoubleBraceUpdate.

Section theorems.
Context {S W : Type} `{FrameAllocator S}.
Variable blk : block W.
Variable stack_top : pcb_ptr -> Z.
Variable initial_frame_at : pcb_ptr -> Z.
Variable utab_addr : Z -> Z -> Z.
Variable heap_area : Z.
Variable cr2 : Z.
Variable fuel : nat.
Implicit Types s : sys S W.

(** ** What a step leaves alone

    Memory, open files and the kernel heap may change; processes, the ready queue, the
    running process, saved frames, sockets and a pending [exec] do not. *)
Record same_processes s s' : Prop := {
  sp_kern : kern s' = (kern s) {{ vm := vm (kern s'); fds := fds (kern s') }};
  sp_network : network s' = network s;
  sp_sockets : kernel_sockets s' = kernel_sockets s;
  sp_pending : exec_pending_process s' = exec_pending_process s;
  sp_entry : exec_pending_entry s' = exec_pending_entry s;
}.

#[global] Instance same_processes_preorder : PreOrder same_processes.
Proof.
  split.
  - intros s. split; [|done..]. by destruct s as [[]].
  - intros s1 s2 s3 [A1 A2 A3 A4 A5] [B1 B2 B3 B4 B5]. split; [|congruence..]. rewrite B1, A1. done.
Qed.

Lemma same_vm (f : vmm S -> vmm S) s : same_processes s (set_vm f s).
Proof. split; done. Qed.
Lemma same_put_vm (v : vmm S) s : same_processes s (set_kern (fun k => k {{ vm := v }}) s).
Proof. split; done. Qed.
Lemma same_put_fds (v : @vfs W) s : same_processes s (set_kern (fun k => k {{ fds := v }}) s).
Proof. split; done. Qed.
Lemma same_heap (h : hstate S) s : same_processes s (put_hstate h s).
Proof. split; done. Qed.

Lemma same_run_vm {A} (f : vmm S -> A * vmm S) s r s' : run_vm f s = (r, s') -> same_processes s s'.
Proof. unfold run_vm. destruct (f _) as [x v]. intros [= <- <-]. apply same_put_vm. Qed.
Lemma same_run_fds {A} (f : @vfs W -> A * @vfs W) s : same_processes s (run_fds f s).2.
Proof. unfold run_fds. destruct (f _) as [x v]. apply same_put_fds. Qed.
Lemma same_lift {A} (f : vmm S -> outcome (vmm S) A) s r s' : lift_kern (lift f) s = Done r s' -> same_processes s s'.
Proof. unfold lift_kern, lift. destruct (f _) as [x v|]; [|done]. intros [= <- <-]. apply same_put_vm. Qed.

Lemma same_kmalloc n s p s' : sys_kmalloc heap_area fuel n s = Done p s' -> same_processes s s'.
Proof. unfold sys_kmalloc. destruct (kmalloc _ _ _ _) as [[q h|]|]; [|done..]. intros [= <- <-]. apply same_heap. Qed.
Lemma same_kfree p s : same_processes s (sys_kfree p s).
Proof. apply same_heap. Qed.
Lemma same_open path flags s fd s' : open_path blk fuel path flags s = Done fd s' -> same_processes s s'.
Proof. unfold open_path. destruct (vfs_open _ _ _ _ _) as [[x v]|]; [|done]. intros [= <- <-]. apply same_put_fds. Qed.

Lemma same_user_string_loop n p s rc s' : user_string_loop utab_addr cr2 n p s = Done rc s' -> same_processes s s'.
Proof.
  revert p s. induction n as [|n IH]; intros p s; cbn [user_string_loop]; [by intros [= _ <-]|].
  destruct (negb _); [by intros [= _ <-]|].
  destruct (lift_kern _ s) as [x s1|] eqn:E; [|done]. cbn [obind]. apply same_lift in E.
  destruct (negb _); [by intros [= _ <-]|]. destruct (_ =? 0); [by intros [= _ <-]|].
  intros Hl%IH. by etrans.
Qed.
Lemma same_user_string p s rc s' : user_string utab_addr cr2 p s = Done rc s' -> same_processes s s'.
Proof. unfold user_string. destruct (_ || _); [by intros [= _ <-]|]. apply same_user_string_loop. Qed.

Lemma same_read_image path e s r s' : read_image blk heap_area fuel path e s = Done r s' -> same_processes s s'.
Proof.
  unfold read_image. destruct (open_path _ _ _ _ s) as [fd s1|] eqn:E1; [|done]. cbn [obind]. apply same_open in E1.
  destruct (fd <? 0); [by intros [= _ <-]|].
  destruct (sys_kmalloc _ _ _ s1) as [p s2|] eqn:E2; [|done]. cbn [obind]. apply same_kmalloc in E2.
  destruct (p =? 0); [intros [= _ <-]; etrans; [exact E1|]; etrans; [exact E2|]; apply same_run_fds|].
  destruct (vfs_read _ _ _ _ _) as [[n out] v].
  assert (same_processes s (close_fd fd (set_kern (fun k => k {{ fds := v }}) s2)).2) as Hc.
  { etrans; [exact E1|]. etrans; [exact E2|]. etrans; [apply (same_put_fds v)|apply same_run_fds]. }
  destruct (_ || _); intros [= _ <-]; [|exact Hc]. etrans; [exact Hc|apply same_kfree].
Qed.

Lemma same_load_program image sp s r s' : load_program utab_addr image sp s = (r, s') -> same_processes s s'.
Proof.
  unfold load_program. destruct (run_vm _ s) as [stack s1] eqn:E1. apply same_run_vm in E1.
  destruct (stack =? 0); [intros [= _ <-]; etrans; [exact E1|apply same_vm]|].
  destruct (elf32_load _ _ _ _ _) as [[rc e] v].
  pose proof (same_put_vm v s1) as E2. pose proof (transitivity E1 E2) as E3.
  destruct e as [entry|]; [destruct (rc =? 0)|]; intros [= _ <-]; [exact E3| |]; (etrans; [exact E3|apply same_vm]).
Qed.


Lemma destroy_without_current sp (v : vmm S) :
  current_space v = None -> current_space (vmm_destroy_address_space sp v) = None.
Proof.
  intros Hc. unfold vmm_destroy_address_space. destruct sp as [i|]; [|done]. cbn zeta.
  destruct (refs (spaces v).[i] =? 0); [done|]. destruct (negb _); [done|].
  destruct (space_used (set_space i _ v)).[i]; [|done]. by destruct (decide _).
Qed.

(** But when the image has a good header and a segment that is refused, the space the
    process runs in is not made current again: the call returns to the user with the
    kernel's page directory loaded. *)
Lemma failed_load_drops_space image sp s s' :
  valid_header (header_of image) = true -> valid_table (header_of image) (Z.of_nat (length image)) = true ->
  SIZEOF_HEADER <= Z.of_nat (length image) ->
  load_program utab_addr image sp s = (inl false, s') -> current_space (vm (kern s')) = None.
Proof.
  intros Hh Ht Hs. unfold load_program. destruct (run_vm _ s) as [stack s1].
  destruct (stack =? 0); [done|]. unfold elf32_load. rewrite Hh, Ht.
  destruct (Z.ltb_spec (Z.of_nat (length image)) SIZEOF_HEADER) as [|_]; [lia|]. cbn [orb negb].
  destruct (load_segments _ _ _ _ _ _) as [[] v]; [done|]. intros [= <-].
  apply destroy_without_current. reflexivity.
Qed.

(** A call to sleep for any time at all does not come back: the wait is for timer
    interrupts, and the handler runs with interrupts disabled. *)
Lemma sleep_never_returns a b c s :
  uptime_ticks (clock (kern s)) < sleep_target a (clock (kern s)) ->
  sl a b c s = Panicked "halted with interrupts disabled" s.
Proof. intros Hw. unfold sl, ksleep_ms, ksleep, asleep. by destruct (Z.ltb_spec (uptime_ticks (clock (kern s))) (sleep_target a (clock (kern s)))); [|lia]. Qed.

(** ** Reading *)
Lemma raw_read_length n m out v : Z.of_nat (length out) <= m ->
  Z.of_nat (length (raw_read blk n m out v).1.2) <= m.
Proof.
  revert out v. induction n as [|n IH]; intros out v Hm; cbn [raw_read]; [done|].
  destruct (Z.ltb_spec (Z.of_nat (length out)) m); [|done].
  destruct (vfs_load _ _ _) as [rc v1]. destruct (negb _); [done|]. apply IH.
  rewrite length_app, length_fmap, length_seqZ. unfold chunk. destruct (_ <? _) eqn:?; lia.
Qed.

Lemma read_sectors_length n lba pos m out (st : @fstate W) r : Z.of_nat (length out) <= m ->
  (read_sectors blk n lba pos m out st = inl r \/ read_sectors blk n lba pos m out st = inr r) ->
  Z.of_nat (length r.1.1) <= m.
Proof.
  revert lba pos out st. induction n as [|n IH]; intros lba pos out st Hm; cbn [read_sectors].
  { by intros [[= <-] | [=]]. }
  destruct (Z.ltb_spec (Z.of_nat (length out)) m); [|by intros [[= <-] | [=]]].
  unfold read_one. destruct (load_sector _ _ _) as [rc st1]. destruct (negb _); [by intros [[=] | [= <-]]|].
  apply IH. rewrite length_app, length_fmap, length_seqZ. destruct (_ <? _) eqn:?; lia.
Qed.

Lemma read_clusters_length n c pos m out (st : @fstate W) r : Z.of_nat (length out) <= m ->
  (read_clusters blk n c pos m out st = inl r \/ read_clusters blk n c pos m out st = inr r) ->
  Z.of_nat (length r.1.1) <= m.
Proof.
  revert c pos out st. induction n as [|n IH]; intros c pos out st Hm; cbn [read_clusters].
  { by intros [[= <-] | [=]]. }
  destruct (_ && _); [|by intros [[= <-] | [=]]].
  destruct (read_sectors _ _ _ _ _ _ _) as [[[out1 pos1] st1]|q] eqn:E.
  - pose proof (read_sectors_length _ _ _ _ _ _ _ Hm (or_introl E)) as Hl.
    destruct (next_cluster _ _ _) as [c1 st2]. by apply IH.
  - intros [[=] | [= <-]]. exact (read_sectors_length _ _ _ _ _ _ _ Hm (or_intror E)).
Qed.

Lemma fat32_read_length file n (st : @fstate W) : 0 <= n ->
  Z.of_nat (length (fat32_read_file blk file n st).1.1.2) <= n.
Proof.
  intros Hn. unfold fat32_read_file. destruct file as [f|]; [|done]. destruct (_ || (size f <=? _)) eqn:Hg; [done|].
  apply orb_false_iff in Hg as [_ Hg]. destruct (skip_clusters _ _ _ _) as [c st1].
  set (m := if _ <? n then _ else _).
  assert (0 <= m <= n) as Hm by (subst m; destruct (Z.ltb_spec (size f - position f) n); lia).
  assert (Z.of_nat (length (@nil Z)) <= m) as H0 by (cbn [length]; lia).
  destruct (read_clusters _ _ _ _ m _ _) as [[[out pos] st2]|[[out pos] st2]] eqn:E; cbn [fst snd].
  - pose proof (read_clusters_length _ _ _ _ _ _ _ H0 (or_introl E)) as Hl. cbn [fst] in Hl. lia.
  - pose proof (read_clusters_length _ _ _ _ _ _ _ H0 (or_intror E)) as Hl. cbn [fst] in Hl. lia.
Qed.

(** A read never produces more bytes than asked for, whatever is on the disk. *)
Lemma vfs_read_length fd b n (v : @vfs W) : 0 <= n -> Z.of_nat (length (vfs_read blk fd b n v).1.2) <= n.
Proof.
  intros Hn. unfold vfs_read. destruct (negb b); [done|].
  destruct ((fd =? 0) && negb (n =? 0)) eqn:E0.
  { destruct (serial_read v) as [[x|] v1]; cbn [fst snd length]; lia. }
  destruct ((fd =? VFS_FD_RAW_HDA) && _); [by apply raw_read_length|].
  destruct (_ && (kind _ =? 2)); [|done]. pose proof (fat32_read_length (Some (ffile (Vfs.table v).[fd])) n (fatfs v) Hn) as Hl.
  by destruct (fat32_read_file _ _ _ _) as [[[rc out] file] st].
Qed.

(** A store changes memory only where the bytes it covers are. *)
Lemma store_bytes_outside va bytes (v : vmm S) q :
  (forall j, 0 <= j < Z.of_nat (length bytes) -> translate (va + j) v <> q) ->
  mem (store_bytes va bytes v) !!! q = mem v !!! q.
Proof.
  intros Hq. unfold store_bytes. cbn [with_mem mem].
  apply (for_range_ind (fun k m => k <= Z.of_nat (length bytes) -> m !!! q = mem v !!! q)); [lia|done| |lia].
  intros k m Hk IH Hle. rewrite lookup_total_insert_ne by (apply Hq; lia). apply IH. lia.
Qed.

(** The processor goes where the page tables of the current space say. *)
Lemma translate_accessible i va write (v : vmm S) :
  space_ok (spaces v).[i] -> current_space v = Some i -> accessible v i va write ->
  translate va v = vmm_get_user_physical (Some i) va v.
Proof.
  intros Hs Hc (Hu & Hp & Hx & _). unfold translate, vmm_get_user_physical. rewrite Hc. cbn zeta.
  pose proof (user_page_slot va Hu) as Hslot. unfold user_page in Hu. apply andb_true_iff in Hu as [-> ->].
  rewrite (entry_unused _ _ _ Hs Hslot (tab_index_range va) Hp). cbn [negb orb andb].
  unfold entry in *. by rewrite Hp, Hx.
Qed.

(** A buffer the kernel accepted. *)
Lemma user_buf_sound b c s s1 i :
  VmmTheorems.tables_ok (vm (kern s)) -> 0 <= i < 32 -> current_space (vm (kern s)) = Some i -> current_space_of s = Some i ->
  is_u32 b -> is_u32 c -> user_buf utab_addr cr2 b c true s = Done true s1 ->
  space_ok (spaces (vm (kern s1))).[i] /\ current_space (vm (kern s1)) = Some i /\
  forall va, b <= va < b + c -> accessible (vm (kern s1)) i va true.
Proof.
  intros Hok Hi Hc Hs Hb Hn. unfold user_buf. destruct (Z.eqb_spec c 0) as [->|Hne].
  { intros [= _ <-]. split; [by apply Hok|split; [done|lia]]. }
  rewrite Hs. unfold lift_kern, lift. destruct (vmm_validate_user_ptr _ _ _ _ _ _ _) as [rc v|] eqn:Ev; [|done]. cbn [obind].
  intros [= Hrc <-]. apply Z.eqb_eq in Hrc as ->.
  destruct (validate_sound utab_addr _ i cr2 b c true v Hok Hi Hc Hb Hn Ev) as (_ & _ & _ & Hok1 & Hc1 & Ha).
  split; [by apply Hok1|split; [exact Hc1|exact Ha]].
Qed.

(** C12: a [read] system call changes no memory outside the caller's buffer: a byte of
    physical memory that differs after the kernel has checked the buffer is one to which
    an address of the buffer is mapped in the caller's own space, present, user
    accessible and writable.  The processes themselves do not change. *)
Theorem read_stays_in_buffer a b c s r s' i :
  VmmTheorems.tables_ok (vm (kern s)) -> 0 <= i < 32 -> current_space (vm (kern s)) = Some i -> current_space_of s = Some i ->
  is_u32 b -> is_u32 c -> rd blk utab_addr cr2 a b c s = Done r s' ->
  same_processes s s' /\
  exists s1, (exists ok, user_buf utab_addr cr2 b c true s = Done ok s1) /\
    forall q, mem (vm (kern s')) !!! q <> mem (vm (kern s1)) !!! q ->
      exists va, b <= va < b + c /\ accessible (vm (kern s1)) i va true /\
                 vmm_get_user_physical (Some i) va (vm (kern s1)) = q.
Proof.
  intros Hok Hi Hc Hs Hb Hn. unfold rd. destruct (user_buf _ _ b c true s) as [ok s1|] eqn:Eu; [|done]. cbn [obind].
  intros E. assert (same_processes s s1) as Hsame.
  { revert Eu. unfold user_buf. destruct (c =? 0); [by intros [= _ <-]|].
    destruct (lift_kern _ s) as [x s2|] eqn:El; [|done]. intros [= _ <-]. by apply same_lift in El. }
  destruct ok; cbn [negb] in E; [|injection E as _ <-; split; [done|exists s1; split; [by eexists|done]]].
  pose proof (vfs_read_length (i32 a) (negb (b =? 0)) c (fds (kern s1)) ltac:(unfold is_u32 in *; lia)) as Hlen.
  destruct (vfs_read _ _ _ _ _) as [[rc out] v] eqn:Er. cbn [fst snd] in Hlen. injection E as _ <-. split.
  { etrans; [exact Hsame|]. etrans; [apply (same_put_fds v)|apply same_vm]. }
  exists s1. split; [by eexists|]. intros q Hq.
  destruct (user_buf_sound b c s s1 i) as (Hs1 & Hc1 & Hacc); try done.
  assert (exists j, 0 <= j < Z.of_nat (length out) /\ translate (b + j) (vm (kern s1)) = q) as (j & Hj & Hjq).
  { destruct (decide (Exists (fun j => translate (b + j) (vm (kern s1)) = q) (seqZ 0 (Z.of_nat (length out))))) as [He|He].
    - apply Exists_exists in He as (j & Hj%elem_of_seqZ & Hjq). exists j. split; [lia|done].
    - exfalso. apply Hq. apply store_bytes_outside. intros j Hj Hjq. apply He, Exists_exists. exists j.
      split; [apply elem_of_seqZ; lia|done]. }
  exists (b + j). split; [lia|]. assert (accessible (vm (kern s1)) i (b + j) true) as Ha by (apply Hacc; lia).
  split; [exact Ha|]. by rewrite <- (translate_accessible i (b + j) true).
Qed.

(** ** The user's library and the kernel's table agree

    Each wrapper reaches the handler of its call, with its arguments in place. *)
Definition dispatch (q : request) s : outcome (sys S W) Z :=
  syscall_dispatch blk stack_top initial_frame_at utab_addr heap_area cr2 fuel (number q) (arg_a q) (arg_b q) (arg_c q) s.

Lemma user_calls_reach_handlers x y z s :
  dispatch (u_read x y z) s = rd blk utab_addr cr2 x y z s /\
  dispatch (u_write x y z) s = wr blk utab_addr cr2 x y z s /\
  dispatch (u_open x y) s = op blk utab_addr cr2 fuel x y 0 s /\
  dispatch (u_close x) s = cl x 0 0 s /\
  dispatch u_fork s = fk stack_top initial_frame_at utab_addr 0 0 0 s /\
  dispatch (u_exit x) s = ex x 0 0 s /\
  dispatch u_getpid s = gp 0 0 0 s /\
  dispatch u_yield s = yl stack_top 0 0 0 s /\
  dispatch (u_sleep x) s = sl x 0 0 s /\
  dispatch (u_wait x y) s = wt utab_addr cr2 x y 0 s /\
  dispatch (u_exec x) s = ee blk stack_top utab_addr heap_area cr2 fuel x 0 0 s /\
  dispatch (u_mmap x y z) s = mm x y z s /\
  dispatch (u_uname x) s = un utab_addr cr2 x 0 0 s /\
  dispatch (u_munmap x y) s = mu x y 0 s /\
  dispatch (u_kill x y) s = kill_sys x y 0 s /\
  dispatch (u_futex_wait_timeout x y z) s = futex_wait_sys utab_addr cr2 x y z s /\
  dispatch (u_futex_wake x y) s = futex_wake_sys utab_addr cr2 x y 0 s /\
  dispatch (u_sigaction x y z) s = sigaction_sys utab_addr cr2 x y z s /\
  dispatch u_sigreturn s = sigreturn_sys 0 0 0 s /\
  dispatch (u_getcred x) s = getcred_sys utab_addr cr2 x 0 0 s /\
  dispatch (u_socket x) s = socket_sys x 0 0 s /\
  dispatch (u_connect x y) s = connect_sys x y 0 s /\
  dispatch (u_send x y z) s = send_sys utab_addr cr2 x y z s /\
  dispatch (u_socket_close x) s = close_socket_sys x 0 0 s.
Proof. by repeat split. Qed.
End theorems.

(** ** A process that calls

    One user process in the address space of [VmmDemo], with a character waiting on the
    serial line. *)
Definition demo_caller : kernel pmm (gmap Z (list Z)) :=
  demo_workers {{ vm := demo;
                  fds := (vfs_init ram_block vfs_boot) {{ serial_in := [65; 66] }};
                  processes ::= fun l => l.[0 <- (l.[0]) {{ space := Some 0; user_mode := true }}] }}.
Definition demo_sys : sys pmm (gmap Z (list Z)) :=
  mkSys _ _ demo_caller net_boot (replicate 8 inhabitant) None 0 (mkHeap ∅ ∅ 0 0).

Lemma read_stays_in_buffer_witness :
  exists s', rd ram_block demo_tables 0 0 4198400 4 demo_sys = Done 1 s' /\ same_processes demo_sys s' /\ mem (vm (kern s')) !!! vmm_get_user_physical (Some 0) 4198400 demo = 65.
Proof.
  destruct (rd ram_block demo_tables 0 0 4198400 4 demo_sys) as [r s'|m s'] eqn:E.
  2: { exfalso. assert (match rd ram_block demo_tables 0 0 4198400 4 demo_sys with Done _ _ => true | _ => false end = true) as Hb
         by (vm_compute; reflexivity). by rewrite E in Hb. }
  assert (match rd ram_block demo_tables 0 0 4198400 4 demo_sys with
          | Done x y => (x =? 1) && (mem (vm (kern y)) !!! vmm_get_user_physical (Some 0) 4198400 demo =? 65) | _ => false end = true) as Hb
    by (vm_compute; reflexivity).
  rewrite E in Hb. apply andb_true_iff in Hb as [H1%Z.eqb_eq H2%Z.eqb_eq]. subst r. exists s'. split; [reflexivity|]. split; [|exact H2].
  destruct (read_stays_in_buffer ram_block demo_tables 0 0 4198400 4 demo_sys 1 s' 0) as [Hs _].
  - exact demo_tables_ok.
  - lia.
  - vm_compute. reflexivity.
  - vm_compute. reflexivity.
  - split; [discriminate|reflexivity].
  - split; [discriminate|reflexivity].
  - exact E.
  - exact Hs.
Defined.

