(* ===== verification/SelfTests.v ===== *)
(** The self-tests the kernel runs while it boots: [vmm_clone_selftest] and
    [vmm_cow_selftest] of [mm/vmm.c], the futex, pid and signal tests of
    [kernel/process.c].  Each is the whole routine; the machine of the examples runs them. *)
From S2P Require Import Prelude Frames Pmm Paging KernelMap Vmm VmmCount VmmSafe VmmTheorems VmmDemo Isolation Fat32 Console Vfs Sync Timer Process ProcessDemo.
From coqutil Require Import Datatypes.RecordSetters.
Import DoubleBraceUpdate.

Section vmm_tests.
Context {S : Type} `{FrameAllocator S}.
Variable utab_addr : Z -> Z -> Z.
Variable cr2 : Z.
Implicit Types st : vmm S.

Definition release_page (p : Z) st : vmm S := with_frames (free_page p (frames st)) st.
Definition switch_to (sp : option Z) st : vmm S := vmm_switch_address_space sp st.

Definition vmm_clone_selftest st : Z * vmm S :=
  let '(a, st) := vmm_create_address_space st in
  match a with
  | None => (-1, st)
  | Some _ =>
      let '(p, f) := alloc_page (frames st) in
      let st := with_frames f st in
      if p =? 0 then (-1, vmm_destroy_address_space a st)
      else
        let '(rc, st) := vmm_map_user utab_addr a 4198400 p PAGE_WRITE st in
        if negb (rc =? 0) then (-1, vmm_destroy_address_space a (release_page p st))
        else
          let st := store8 4198400 90 (switch_to a st) in
          let '(b, st) := vmm_clone_address_space utab_addr a st in
          match b with
          | None => (-1, vmm_destroy_address_space a st)
          | Some _ =>
              let st := switch_to b st in
              let ok := load8 4198400 st =? 90 in
              let st := switch_to a (store8 4198400 165 st) in
              let ok := ok && (load8 4198400 st =? 90) in
              let st := vmm_destroy_address_space a (vmm_destroy_address_space b st) in
              (if ok then 0 else -1, st)
          end
  end.

Definition vmm_cow_selftest st : outcome (vmm S) Z :=
  let '(a, st) := vmm_create_address_space st in
  match a with
  | None => Done (-1) st
  | Some _ =>
      let '(p, f) := alloc_page (frames st) in
      let st := with_frames f st in
      let '(rc, st) := if p =? 0 then (-1, st) else vmm_map_user utab_addr a 4202496 p PAGE_WRITE st in
      if negb (rc =? 0) then
        Done (-1) (vmm_destroy_address_space a (if p =? 0 then st else release_page p st))
      else
        let st := store8 4202496 17 (switch_to a st) in
        let '(b, st) := vmm_clone_address_space_cow utab_addr a st in
        match b with
        | None => Done (-1) (switch_to None (vmm_destroy_address_space a st))
        | Some _ =>
            let* (_, st) := vmm_page_fault utab_addr cr2 6 4202496 (switch_to b st) in
            let st := switch_to a (store8 4202496 34 st) in
            let ok := load8 4202496 st =? 17 in
            let st := vmm_destroy_address_space a (vmm_destroy_address_space b st) in
            Done (if ok then 0 else -1) (switch_to None st)
        end
  end.
End vmm_tests.

Section process_tests.
Context {S W : Type} `{FrameAllocator S}.
Variable stack_top : pcb_ptr -> Z.
Variable initial_frame_at : pcb_ptr -> Z.
Variable utab_addr : Z -> Z -> Z.
Variable cr2 : Z.
Implicit Types k : kernel S W.

(** [if (old) vmm_switch_address_space(old); else vmm_switch_address_space(0);] *)
Definition switch_back (old : option Z) k : kernel S W := on_vm (switch_to old) k.

Definition FUTEX_TEST_KEY : Z := 4227072. (* 0x00408000 *)

Definition process_futex_selftest k : outcome (kernel S W) Z :=
  let p := scheduler_current k in
  let sp := space (pcb_of p k) in
  match sp with
  | None => Done (-1) k
  | Some _ =>
      let old := vmm_current_address_space (vm k) in
      let k := on_vm (switch_to sp) k in
      if negb (vmm_get_user_physical sp FUTEX_TEST_KEY (vm k) =? 0) then Done (-1) k
      else
        let '(page, f) := alloc_page (frames (vm k)) in
        let k := on_vm (with_frames f) k in
        let '(rc, v) := if page =? 0 then (-1, vm k)
                        else vmm_map_user utab_addr sp FUTEX_TEST_KEY page PAGE_WRITE (vm k) in
        let k := k {{ vm := v }} in
        if negb (rc =? 0) then
          Done (-1) (switch_back old (if page =? 0 then k else on_vm (release_page page) k))
        else
          let k := on_vm (store32 FUTEX_TEST_KEY 0) k in
          let* (mismatch, k) := process_futex_wait utab_addr cr2 FUTEX_TEST_KEY 1 0 k in
          let* (equal, k) := process_futex_wait utab_addr cr2 FUTEX_TEST_KEY 0 1 k in
          let k := upd p (fun x => x {{ futex_deadline := u32 (timer_uptime_ms (clock k) - 1) }}) k in
          let k := process_poll_timeouts k in
          let x := pcb_of p k in
          let ok := (mismatch =? -11) && (equal =? 0) && bool_decide (state x = PROCESS_RUNNING)
                    && (futex_key x =? 0) && (futex_expected x =? 0) && (futex_deadline x =? 0) in
          let k := upd p (fun x => x {{ state := PROCESS_RUNNING; futex_key := 0; futex_expected := 0;
                                         futex_deadline := 0 }}) k in
          let k := on_vm (fun v => (vmm_unmap_user sp FUTEX_TEST_KEY v).2) k in
          Done (if ok then 0 else -1) (switch_back old k)
  end.

(** A child that exits and is waited for: its pid, unless a step fails. *)
Definition child_lives (name : string) k : option Z * kernel S W :=
  let p := scheduler_current k in
  match process_create_entry stack_top initial_frame_at (Some name) 0 k with
  | (None, k) => (None, k)
  | (Some c, k) =>
      let k := upd (Proc c) (fun x => x {{ parent_pid := pid (pcb_of p k) }}) k in
      (Some (pid (pcb_of (Proc c) k)), k)
  end.
Definition child_ends (id : Z) k : bool * kernel S W :=
  let '(rc, k) := process_exit_with_status id 0 k in
  if negb (rc =? 0) then (false, k)
  else
    let '(waited, k) := process_wait id 0 k in (waited =? i32 id, k).

Definition process_pid_selftest k : Z * kernel S W :=
  if negb (allocated (pcb_of (scheduler_current k) k)) then (-1, k)
  else
    match child_lives "pid-test" k with
    | (None, k) => (-1, k)
    | (Some first, k) =>
        let '(ok, k) := child_ends first k in
        if negb ok then (-1, k)
        else
          match child_lives "pid-test-reuse" k with
          | (None, k) => (-1, k)
          | (Some second, k) =>
              if second =? first then (-1, k)
              else let '(ok, k) := child_ends second k in (if ok then 0 else -1, k)
          end
    end.

(** [r] is the address of the local [frame]. *)
Definition process_signal_selftest (r : Z) k : outcome (kernel S W) Z :=
  let p := scheduler_current k in
  let x := pcb_of p k in
  if negb (user_mode x) || bool_decide (space x = None) || (entry_point x =? 0) then Done (-1) k
  else
    let* (rc, k) := process_signal_action utab_addr cr2 (pid x) 1 (entry_point x) k in
    if negb (rc =? 0) then Done (-1) k
    else
      let k := upd p (fun x => x {{ pending_signals := Z.lor (pending_signals x) (Z.shiftl 1 1) }}) k in
      let old_eip := u32 (entry_point (pcb_of p k) + 4) in
      let old_esp := USER_STACK_TOP in
      let k := set_frame r ((replicate 15 0).[R_EIP <- old_eip].[R_CS <- 27].[R_EFLAGS <- 514]
                 .[R_USERESP <- old_esp].[R_SS <- 35]) k in
      let old_space := vmm_current_address_space (vm k) in
      let k := on_vm (switch_to (space (pcb_of p k))) k in
      let* (_, k) := process_deliver_signal utab_addr cr2 r k in
      let ok := signal_active (pcb_of p k) && ((frame_at r k).[R_EIP] =? entry_point (pcb_of p k))
                && ((frame_at r k).[R_EAX] =? 1) && ((frame_at r k).[R_USERESP] =? old_esp - 8) in
      let k := process_signal_return r k in
      let ok := ok && negb (signal_active (pcb_of p k)) && ((frame_at r k).[R_EIP] =? old_eip)
                && ((frame_at r k).[R_USERESP] =? old_esp) in
      let k := on_vm (switch_to old_space) k in
      let k := upd p (fun x => x {{ pending_signals := Z.land (pending_signals x) (u32 (Z.lnot (Z.shiftl 1 1)));
                                     signal_handlers := (signal_handlers x).[1 <- 0] }}) k in
      Done (if ok then 0 else -1) k.
End process_tests.

(** ** The tests on the small machine

    Both tests of the address spaces pass from the state after [vmm_init], and give back
    every page frame and space they took. *)
Definition all_given_back (st0 st : vmm pmm) : bool :=
  bool_decide (page_refs (frames st) = page_refs (frames st0)) && bool_decide (space_used st = space_used st0)
  && bool_decide (current_space st = None).

Lemma vmm_clone_selftest_passes :
  let '(rc, st) := vmm_clone_selftest demo_tables demo_boot in rc = 0 /\ all_given_back demo_boot st = true.
Proof.
  assert ((let '(rc, st) := vmm_clone_selftest demo_tables demo_boot in (rc =? 0) && all_given_back demo_boot st) = true)
    as Hb by (vm_compute; reflexivity).
  destruct (vmm_clone_selftest demo_tables demo_boot) as [rc st]. apply andb_true_iff in Hb as [Hr Hb].
  split; [by apply Z.eqb_eq|exact Hb].
Qed.

Lemma vmm_cow_selftest_passes :
  exists st, vmm_cow_selftest demo_tables 0 demo_boot = Done 0 st /\ all_given_back demo_boot st = true.
Proof.
  assert (match vmm_cow_selftest demo_tables 0 demo_boot with
          | Done rc st => (rc =? 0) && all_given_back demo_boot st | Panicked _ _ => false end = true)
    as Hb by (vm_compute; reflexivity).
  destruct (vmm_cow_selftest demo_tables 0 demo_boot) as [rc st|m st]; [|discriminate Hb].
  apply andb_true_iff in Hb as [Hr Hb]. apply Z.eqb_eq in Hr as ->. exists st. split; [reflexivity|exact Hb].
Qed.
