(* ===== verification/Boot.v ===== *)
(** Parts of the boot sequence, [kernel/main.c]: the self-tests of memory, the preemption
    test and the body of its workers, the program started from the disk, and the launch of
    the embedded user program with the self-tests in between, composed from the operations
    they call.

    A failed step of [kmain] is a panic with its message. *)
From S2P Require Import Prelude Frames Pmm Paging KernelMap Heap Net Vmm VmmTheorems VmmDemo Isolation Block Fat32 Console Vfs Sync Timer Elf Process ProcessDemo Syscall SyscallTheorems SelfTests.
From coqutil Require Import Datatypes.RecordSetters.
Import DoubleBraceUpdate.

Section boot.
Context {S W : Type} `{FrameAllocator S}.
Variable blk : block W.
Variable stack_top : pcb_ptr -> Z.
Variable initial_frame_at : pcb_ptr -> Z.
Variable utab_addr : Z -> Z -> Z.
Variable heap_area : Z.
Variable cr2 : Z.
Variable fuel : nat.
(** The address of [worker_body], and of the local frame of the signal test. *)
Variable worker_body : Z.
Variable frame_addr : Z.
Implicit Types s : sys S W.

Definition worker_process (name : string) s : option Z * sys S W :=
  let '(p, k) := process_create_entry stack_top initial_frame_at (Some name) worker_body (kern s) in
  (p, s {{ kern := k }}).
Definition queue_process (p : Z) s : bool * sys S W :=
  let '(rc, k) := scheduler_add (Some (Proc p)) (kern s) in (rc =? 0, s {{ kern := k }}).

Definition run_preemption_test s : outcome (sys S W) unit :=
  let '(a, s) := worker_process "worker-a" s in
  let '(b, s) := worker_process "worker-b" s in
  match a, b with
  | Some a, Some b =>
      let '(ok, s) := queue_process a s in
      if negb ok then Panicked "preemption test setup failed" s
      else
        let '(ok, s) := queue_process b s in
        if negb ok then Panicked "preemption test setup failed" s else Done tt s
  | _, _ => Panicked "preemption test setup failed" s
  end.

(** ["hda/HELLO.ELF"] *)
Definition hello_elf : list Z := [104; 100; 97; 47; 72; 69; 76; 76; 79; 46; 69; 76; 70].

(** Whether the program on the disk was queued. *)
Definition disk_exec_smoke s : outcome (sys S W) bool :=
  let* (p, s) := process_create_from_path blk stack_top initial_frame_at utab_addr heap_area fuel
                   (Some "disk-init"%string) (Some hello_elf) s in
  match p with
  | None => Done false s
  | Some i => let '(ok, s) := queue_process i s in Done ok s
  end.

(** A test that must return 0. *)
Definition must_pass (message : string) (test : kernel S W -> outcome (kernel S W) Z) s : outcome (sys S W) unit :=
  let* (rc, s) := lift_kern test s in
  if negb (rc =? 0) then Panicked message s else Done tt s.

(** [process_create_user("init", 0)] and the load of the embedded image into it. *)
Definition load_init (image : list Z) s : outcome (sys S W) Z :=
  let '(user, k) := process_create_user stack_top initial_frame_at utab_addr (Some "init"%string) 0 (kern s) in
  let s := s {{ kern := k }} in
  match user with
  | None => Panicked "embedded ELF load failed" s
  | Some u =>
      let '(rc, entry, v) := elf32_load utab_addr (Some image) (Z.of_nat (length image)) (space (pcb_of (Proc u) k)) (vm k) in
      let s := set_vm (fun _ => v) s in
      match entry with
      | Some e =>
          if negb (rc =? 0) then Panicked "embedded ELF load failed" s
          else
            let s := set_kern (upd (Proc u) (fun x => x {{ entry_point := e; cpu ::= fun c => c {{ ceip := e }} }})) s in
            Done u (set_kern (scheduler_set_current (Some (Proc u))) s)
      | None => Panicked "embedded ELF load failed" s
      end
  end.

(** The end of [kmain] from the creation of the init process on; the result is the jump to
    ring 3. *)
Definition launch_init (image : list Z) s : outcome (sys S W) (option (Z * Z)) :=
  let* (u, s) := load_init image s in
  let* (_, s) := must_pass "futex compare self-test failed" (process_futex_selftest utab_addr cr2) s in
  let* (_, s) := must_pass "pid reuse self-test failed"
                   (fun k => let '(rc, k) := process_pid_selftest stack_top initial_frame_at k in Done rc k) s in
  let* (_, s) := must_pass "signal frame self-test failed" (process_signal_selftest utab_addr cr2 frame_addr) s in
  let* (_, s) := disk_exec_smoke s in
  on_kern (process_enter_user stack_top (Proc u)) s.
End boot.

(** ** Memory

    The two self-tests of address spaces [kmain] runs once memory is set up. *)
Definition memory_selftests (utab_addr : Z -> Z -> Z) (cr2 : Z) (st : vmm pmm) : outcome (vmm pmm) unit :=
  let '(rc, st) := vmm_clone_selftest utab_addr st in
  if negb (rc =? 0) then Panicked "address-space clone self-test failed" st
  else
    let* (rc, st) := vmm_cow_selftest utab_addr cr2 st in
    if negb (rc =? 0) then Panicked "COW self-test failed" st else Done tt st.

(** ** The body of the test workers

    [asleep ms] is what the rest of the machine does while the worker sleeps: timer
    interrupts, which the worker lets in first of all, and the other processes they switch
    to.  There is always a current process.  The result is what was sent, in
    order, and the state in which the worker halts. *)
Section worker.
Context {S W : Type} `{FrameAllocator S}.
Variable asleep : Z -> kernel S W -> kernel S W.

Definition worker_format : list Z := text "worker pid=%u tick=%u" ++ [10].
Definition worker_turn (p : pcb_ptr) (i : Z) (x : list event * kernel S W) : list event * kernel S W :=
  let '(sent, k) := x in
  (sent ++ [OnBoth (default [] (kprintf worker_format [AInt (pid (pcb_of p k)); AInt (timer_uptime_ms (clock k))]))], asleep 500 k).
Definition worker_body (k : kernel S W) : list event * kernel S W :=
  let p := scheduler_current k in
  let '(sent, k) := for_range 0 3 (worker_turn p) ([OnLine (text "scheduler: worker online" ++ [10])], k) in
  (sent ++ [OnLine (text "worker: sleep cycle complete" ++ [10])], (process_exit (pid (pcb_of p k)) k).2).
End worker.

(** A worker that is the only one at work: with fifty timer interrupts in each sleep it
    reports at 0, 500 and 1000 milliseconds, and ends as a zombie. *)
Definition fifty_ticks (ms : Z) (k : kernel pmm (gmap Z (list Z))) : kernel pmm (gmap Z (list Z)) :=
  k {{ clock ::= fun t => for_range 0 (ms / 10) (fun _ => timer_irq) t }}.
Lemma worker_reports :
  let '(sent, k) := worker_body fifty_ticks demo_workers in
  sent = [OnLine (text "scheduler: worker online" ++ [10]); OnBoth (text "worker pid=257 tick=0" ++ [10]);
          OnBoth (text "worker pid=257 tick=500" ++ [10]); OnBoth (text "worker pid=257 tick=1000" ++ [10]);
          OnLine (text "worker: sleep cycle complete" ++ [10])] /\
  state (processes k).[0] = PROCESS_ZOMBIE.
Proof. vm_compute. split; reflexivity. Qed.

(** [userspace/init.c] *)
Definition user_init : Z := 0.
