(* ===== verification/Launch.v ===== *)
(** The launch of the init process, the end of [kmain] in [kernel/main.c]: whatever happened
    before and whatever the self-tests and the program on the disk do in between, the
    processor enters ring 3 with the program that was loaded. *)
From S2P Require Import Prelude Frames Pmm Paging KernelMap Heap Net Vmm VmmDemo Block Fat32 Console Vfs Sync Timer Elf Process ReadyQueue ProcessIds Futex ProcessDemo Syscall SyscallTheorems SelfTests Boot.
From coqutil Require Import Datatypes.RecordSetters.
Import DoubleBraceUpdate.

Section launch.
Context {S W : Type} `{FrameAllocator S}.
Variable blk : block W.
Variable stack_top : pcb_ptr -> Z.
Variable initial_frame_at : pcb_ptr -> Z.
Variable utab_addr : Z -> Z -> Z.
Variable heap_area : Z.
Variable cr2 : Z.
Variable fuel : nat.
Variable frame_addr : Z.
Implicit Types (k : kernel S W) (s : sys S W).

(** ** Creation leaves the live processes alone

    States that differ in the table of processes at slot [i] only. *)
Definition only (i : Z) k k' : Prop := forall j, in_table j -> j <> i -> (processes k').[j] = (processes k).[j].
#[local] Instance only_preorder i : PreOrder (only i).
Proof. split; [by intros k j|]. intros k1 k2 k3 A B j Hj Hne. by rewrite B, A. Qed.

Lemma only_eq i k k' : processes k' = processes k -> only i k k'.
Proof. intros E j _ _. by rewrite E. Qed.
Lemma only_upd i f k0 k : in_table i -> only i k0 k -> only i k0 (upd (Proc i) f k).
Proof. intros Hi E. etrans; [exact E|]. intros j Hj Hne. unfold in_table in *. apply upd_other; lia. Qed.
Lemma only_vm i f k0 k : only i k0 k -> only i k0 (on_vm f k).
Proof. intros E. etrans; [exact E|]. by apply only_eq. Qed.
Lemma only_frame_for i entry stack user k0 k :
  in_table i -> only i k0 k -> only i k0 (frame_for stack_top initial_frame_at (Proc i) entry stack user k).
Proof. intros Hi E. apply only_upd; [done|]. etrans; [exact E|]. by apply only_eq. Qed.

(** What a creation that takes slot [r], if any, does to the others. *)
Definition created k (r : option Z) k' : Prop :=
  exists i, in_table i /\ allocated (processes k).[i] = false /\ only i k k' /\ forall c, r = Some c -> c = i.
Definition creates k (p : option Z * kernel S W) : Prop := created k p.1 p.2 \/ p = (None, k).

Lemma new_pcb_creates name k : pid_inv k -> creates k (new_pcb name k).
Proof.
  intros Hk. unfold new_pcb. destruct (find_from _ _ _) as [i|] eqn:Hf; [left|by right].
  destruct (free_slot k i Hk Hf) as (Hi & _ & Ha). exists i. split; [done|]. split; [done|]. cbn zeta.
  set (k1 := if i =? process_count k then _ else k).
  assert (only i k k1) as E1 by (apply only_eq; unfold k1; by destruct (_ =? _)). clearbody k1.
  set (k2 := upd (Proc i) _ k1). assert (only i k k2) as E2 by (by apply only_upd). clearbody k2.
  destruct (vmm_create_address_space (vm k2)) as [a v].
  assert (only i k (k2 {{ vm := v }})) as E3 by (etrans; [exact E2|by apply only_eq]).
  set (k3 := upd (Proc i) _ (k2 {{ vm := v }})). assert (only i k k3) as E4 by (by apply only_upd). clearbody k3.
  destruct a as [a|]; cbn [fst snd].
  - split; [by apply only_upd|]. by intros ? [= <-].
  - split; [|done]. set (k4 := upd (Proc i) _ k3). assert (only i k k4) as E5 by (by apply only_upd). clearbody k4.
    destruct (_ =? _); [etrans; [exact E5|by apply only_eq]|exact E5].
Qed.

(** A creation goes on in the slot it took. *)
Lemma creates_more k q (f : Z -> kernel S W -> option Z * kernel S W) :
  creates k q -> (forall i k1, q = (Some i, k1) -> in_table i -> only i k1 (f i k1).2 /\ forall c, (f i k1).1 = Some c -> c = i) ->
  creates k (match q with (Some i, k1) => f i k1 | (None, k1) => (None, k1) end).
Proof.
  intros Hq Hf. destruct q as [[i|] k1].
  - destruct Hq as [(i' & Hi & Ha & Ho & E)|[=]]. cbn [fst snd] in *. specialize (E i eq_refl) as <-.
    destruct (Hf i k1 eq_refl Hi) as [Ho1 Hc]. left. exists i. split; [done|]. split; [done|]. split; [by etrans|exact Hc].
  - destruct Hq as [Hq|[= ->]]; [by left|by right].
Qed.

Lemma create_entry_creates name entry k : pid_inv k -> creates k (process_create_entry stack_top initial_frame_at name entry k).
Proof.
  intros Hk. apply creates_more; [by apply new_pcb_creates|]. intros i k1 _ Hi. cbn zeta. destruct (entry =? 0); cbn [fst snd].
  - split; [|by intros ? [= <-]]. by do 2 (apply only_upd; [done|]).
  - split; [|by intros ? [= <-]]. apply only_frame_for, only_upd, only_vm, only_upd, only_upd; done.
Qed.

Lemma create_user_creates name entry k : pid_inv k -> creates k (process_create_user stack_top initial_frame_at utab_addr name entry k).
Proof.
  intros Hk. apply creates_more; [by apply new_pcb_creates|]. intros i k1 _ Hi. cbn zeta.
  destruct (alloc_page _) as [page f]. set (k2 := on_vm (with_frames f) k1).
  assert (only i k1 k2) as E2 by (by apply only_eq). clearbody k2. destruct (page =? 0); [by split|].
  destruct (vmm_map_user _ _ _ _ _ _) as [rc v]. set (k3 := k2 {{ vm := v }}).
  assert (only i k1 k3) as E3 by (etrans; [exact E2|by apply only_eq]). clearbody k3.
  destruct (negb _); cbn [fst snd]; [split; [by apply only_vm|done]|].
  split; [|by intros ? [= <-]]. apply only_frame_for, only_upd, only_upd; done.
Qed.

(** ** The program of a process

    Slot [u] is a live process with identity and program [x], as [image] shows them. *)
Record has_program (u : Z) (x : (Z * bool * Z) * (Z * Z * bool * option Z)) k : Prop := {
  hp_inv : pid_inv k;
  hp_slot : in_table u;
  hp_live : allocated (processes k).[u] = true;
  hp_image : image (processes k).[u] = x;
}.

Lemma program_kept u x k k' : same_on image k k' -> has_program u x k -> has_program u x k'.
Proof.
  intros E [A B C D]. assert (image (processes k').[u] = image (processes k).[u]) as Eu by apply E.
  split; [by eapply pid_inv_kept|done| |congruence]. rewrite <- C. exact (f_equal (fun t => t.1.1.2) Eu).
Qed.

Lemma program_only u x i k k' : only i k k' -> i <> u -> pid_inv k' -> has_program u x k -> has_program u x k'.
Proof. intros E Hne Hk' [A B C D]. by split; [..|rewrite E|rewrite E]. Qed.

Lemma program_created u x k p :
  creates k p -> pid_inv p.2 -> has_program u x k ->
  has_program u x p.2 /\ forall c, p.1 = Some c -> in_table c /\ c <> u.
Proof.
  intros [(i & Hi & Ha & Ho & Hc)| ->] Hk' Hu; [|by split].
  assert (i <> u) as Hne by (intros ->; pose proof (hp_live _ _ _ Hu); congruence).
  split; [by eapply program_only|]. intros c Ec. by rewrite (Hc c Ec).
Qed.

(** Two slots, the second of a live process, have different pids. *)
Lemma pids_differ k c u : pid_inv k -> in_table c -> in_table u -> allocated (processes k).[u] = true -> c <> u ->
  pid (processes k).[c] <> pid (processes k).[u].
Proof.
  intros Hk Hc Hu Ha Hne. destruct (pid_live _ Hk u Hu Ha) as [_ Hg].
  rewrite (pid_make _ Hk c Hc), (pid_make _ Hk u Hu). pose proof (pid_gen _ Hk c Hc). pose proof (pid_gen _ Hk u Hu).
  destruct (Z.eqb_spec (generation (processes k).[u]) 0); [done|]. rewrite (make_pid_eq _ u) by done.
  unfold in_table in *. destruct (Z.eqb_spec (generation (processes k).[c]) 0); [lia|]. rewrite make_pid_eq by done. lia.
Qed.

(** Waiting for another process than [u]. *)
Lemma program_wait u x child status k :
  child <> pid (processes k).[u] -> has_program u x k -> has_program u x (process_wait child status k).2.
Proof.
  intros Hne Hu. pose proof (wait_inv child status k (hp_inv _ _ _ Hu)) as Hk'. revert Hk'. unfold process_wait.
  destruct (find_from _ _ _) as [i|] eqn:Hf; [|done]. apply find_from_Some in Hf as (Hr & Ht & _).
  pose proof (pid_count _ (hp_inv _ _ _ Hu)). assert (in_table i) as Hi by (unfold in_table; lia).
  assert (i <> u) as Hiu.
  { intros ->. rewrite !andb_true_iff, Z.eqb_eq in Ht. destruct Ht as [[_ E] _]. congruence. }
  destruct (bool_decide _); cbn [snd]; intros Hk'; [|eapply program_kept, Hu; by apply same_upd].
  eapply program_only, Hu; [|exact Hiu|exact Hk']. apply only_upd; [done|].
  set (k1 := if status =? 0 then k else _). assert (only i k k1) as E1 by (apply only_eq; unfold k1; by destruct (_ =? 0)).
  clearbody k1. set (k2 := match space _ with Some _ => _ | None => _ end).
  assert (only i k k2) as E2 by (unfold k2; destruct (space _); [by apply only_upd, only_vm|exact E1]).
  etrans; [exact E2|by apply only_eq].
Qed.

(** ** The self-tests *)
Lemma result_bind {A B} k (o : outcome (kernel S W) A) (g : A -> kernel S W -> outcome (kernel S W) B) :
  result_image k o -> (forall a k', same_on image k k' -> result_image k (g a k')) -> result_image k (obind o g).
Proof. destruct o; cbn [obind result_image]; auto. Qed.

Lemma result_from {A} k0 k (o : outcome (kernel S W) A) : same_on image k0 k -> result_image k o -> result_image k0 o.
Proof. intros E. destruct o; cbn [result_image]; intros E'; by etrans. Qed.

Lemma same_vm_image k0 k (v : vmm S) : same_on image k0 k -> same_on image k0 (k {{ vm := v }}).
Proof. intros E. etrans; [exact E|by apply same_eq]. Qed.

Lemma futex_selftest_kept k : result_image k (process_futex_selftest utab_addr cr2 k).
Proof.
  unfold process_futex_selftest. cbn zeta. set (p := scheduler_current k). set (sp := space (pcb_of p k)).
  destruct sp as [sp|]; [|by apply same_eq]. set (k1 := on_vm (switch_to _) k).
  assert (same_on image k k1) as E1 by (by apply same_eq). clearbody k1. destruct (negb _); [exact E1|].
  destruct (alloc_page _) as [page f]. set (k2 := on_vm (with_frames f) k1).
  assert (same_on image k k2) as E2 by (by apply same_vm_image). clearbody k2.
  destruct (if page =? 0 then _ else _) as [rc v]. set (k3 := k2 {{ vm := v }}).
  assert (same_on image k k3) as E3 by (by apply same_vm_image). clearbody k3.
  destruct (negb _); [cbn [result_image]; apply same_vm_image; destruct (page =? 0); [exact E3|by apply same_vm_image]|].
  apply result_bind; [eapply result_from; [|apply kept_futex_wait]; by apply same_vm_image|]. intros m k4 E4.
  apply result_bind; [eapply result_from; [exact E4|apply kept_futex_wait]|]. intros e k5 E5. cbn [result_image].
  apply same_vm_image. unfold on_vm. apply same_vm_image, same_upd'; [done|]. etrans; [|apply kept_poll]. by apply same_upd'.
Qed.

Lemma signal_selftest_kept r k : result_image k (process_signal_selftest utab_addr cr2 r k).
Proof.
  unfold process_signal_selftest. cbn zeta. set (p := scheduler_current k). destruct (_ || _ || _); [by apply same_eq|].
  apply result_bind; [apply kept_signal_action|]. intros rc k1 E1. destruct (negb _); [exact E1|].
  set (k2 := upd p _ k1). assert (same_on image k k2) as E2 by (by apply same_upd'). clearbody k2.
  set (k3 := set_frame r _ k2). assert (same_on image k k3) as E3 by (etrans; [exact E2|by apply same_eq]). clearbody k3.
  apply result_bind; [eapply result_from; [|apply kept_deliver]; by apply same_vm_image|]. intros _ k4 E4. cbn [result_image].
  apply same_upd'; [done|]. apply same_vm_image. etrans; [exact E4|apply kept_signal_return].
Qed.

Lemma child_lives_program u x name k r k' :
  child_lives stack_top initial_frame_at name k = (r, k') -> has_program u x k ->
  has_program u x k' /\ forall id, r = Some id -> id <> pid (processes k').[u].
Proof.
  unfold child_lives. intros E Hu. pose proof (hp_inv _ _ _ Hu) as Hk.
  pose proof (program_created u x k _ (create_entry_creates (Some name) 0 k Hk) (create_entry_inv _ _ _ _ k Hk) Hu) as [Hu1 Hc].
  destruct (process_create_entry _ _ _ _ k) as [[c|] k1]; cbn [fst snd] in *; apply pair_eq in E as [<- <-]; [|by split].
  destruct (Hc c eq_refl) as [Hin Hne]. set (k2 := upd (Proc c) _ k1).
  assert (has_program u x k2) as Hu2 by (eapply program_kept, Hu1; by apply same_upd). split; [exact Hu2|].
  intros id Eid. apply (inj Some) in Eid as <-. apply pids_differ; [apply Hu2|done|apply Hu2|apply Hu2|done].
Qed.

Lemma child_ends_program u x id k :
  id <> pid (processes k).[u] -> has_program u x k -> has_program u x (child_ends id k).2.
Proof.
  intros Hne Hu. unfold child_ends. pose proof (kept_exit id 0 k) as E.
  destruct (process_exit_with_status id 0 k) as [rc k1]. cbn [snd] in E. pose proof (program_kept u x _ _ E Hu) as Hu1.
  destruct (negb _); [exact Hu1|]. assert (id <> pid (processes k1).[u]) as Hne1.
  { destruct E as (_ & _ & E). rewrite (f_equal (fun t => t.1.1.1) (E u) : pid (processes k1).[u] = _). exact Hne. }
  pose proof (program_wait u x id 0 k1 Hne1 Hu1) as Hw. by destruct (process_wait id 0 k1).
Qed.

Lemma pid_selftest_program u x k :
  has_program u x k -> has_program u x (process_pid_selftest stack_top initial_frame_at k).2.
Proof.
  intros Hu. unfold process_pid_selftest. destruct (negb _); [exact Hu|].
  destruct (child_lives _ _ _ k) as [r k1] eqn:E1. destruct (child_lives_program u x _ _ _ _ E1 Hu) as [Hu1 Hr1].
  destruct r as [id|]; [|exact Hu1]. pose proof (child_ends_program u x id k1 (Hr1 id eq_refl) Hu1) as Hu2.
  destruct (child_ends id k1) as [ok k2]. cbn [snd] in Hu2. destruct (negb ok); [exact Hu2|].
  destruct (child_lives _ _ _ k2) as [r k3] eqn:E3. destruct (child_lives_program u x _ _ _ _ E3 Hu2) as [Hu3 Hr3].
  destruct r as [id'|]; [|exact Hu3]. destruct (id' =? id); [exact Hu3|].
  pose proof (child_ends_program u x id' k3 (Hr3 id' eq_refl) Hu3) as Hu4. by destruct (child_ends id' k3).
Qed.

(** ** The program on the disk *)
Lemma program_same_processes u x s s' : same_processes s s' -> has_program u x (kern s) -> has_program u x (kern s').
Proof. intros E. apply program_kept. rewrite (sp_kern _ _ E). by apply same_eq. Qed.

Lemma create_from_path_program u x name path s r s' :
  process_create_from_path blk stack_top initial_frame_at utab_addr heap_area fuel name path s = Done r s' ->
  has_program u x (kern s) -> has_program u x (kern s').
Proof.
  unfold process_create_from_path. destruct name as [name|], path as [path|]; try by intros [= _ <-].
  destruct (read_image _ _ _ _ _ s) as [q s1|] eqn:E1; [|done]. cbn [obind]. apply same_read_image in E1.
  destruct q as [e|[im buffer]]; [intros [= _ <-]; by apply program_same_processes|].
  intros Hs Hu. apply (program_same_processes _ _ _ _ E1) in Hu. revert Hs. unfold on_kern.
  pose proof (hp_inv _ _ _ Hu) as Hk.
  pose proof (program_created u x _ _ (create_user_creates (Some name) 0 _ Hk) (create_user_inv _ _ _ _ _ _ Hk) Hu) as [Hu2 Hc].
  destruct (process_create_user _ _ _ _ _ _) as [[i|] k2]; cbn [fst snd obind] in *;
    [|intros [= _ <-]; by apply (program_same_processes _ _ (s1 {{ kern := k2 }})); [apply same_kfree|]].
  destruct (Hc i eq_refl) as [Hi Hne]. set (s2 := s1 {{ kern := k2 }}).
  assert (has_program u x (kern s2)) as Hu3 by exact Hu2. clearbody s2. cbn zeta.
  destruct (run_vm _ s2) as [sp s3] eqn:E3. apply same_run_vm in E3. apply (program_same_processes _ _ _ _ E3) in Hu3.
  destruct sp as [j|]; [|intros [= _ <-]; eapply program_same_processes, Hu3; apply same_kfree].
  destruct (load_program _ _ _ s3) as [[b|entry] s4] eqn:E4; apply same_load_program in E4;
    apply (program_same_processes _ _ _ _ E4) in Hu3;
    [intros [= _ <-]; eapply program_same_processes, Hu3; apply same_kfree|].
  intros Es. assert (same_processes (set_kern (frame_for stack_top initial_frame_at (Proc i) entry USER_STACK_TOP true)
    (set_kern (upd (Proc i) (fun x => x {{ space := Some j; entry_point := entry; cpu ::= fun c => c {{ ceip := entry; cesp := USER_STACK_TOP }} }}))
      (set_vm (vmm_destroy_address_space (space (pcb_of (Proc i) (kern s2)))) s4))) s') as E5.
  { injection Es as _ <-. apply same_kfree. }
  eapply program_same_processes; [exact E5|]. clear E5 Es. set (k5 := on_vm (vmm_destroy_address_space (space (pcb_of (Proc i) (kern s2)))) (kern s4)).
  assert (has_program u x k5) as Hu5 by (eapply program_kept, Hu3; by apply same_eq).
  change (has_program u x (frame_for stack_top initial_frame_at (Proc i) entry USER_STACK_TOP true
    (upd (Proc i) (fun x => x {{ space := Some j; entry_point := entry; cpu ::= fun c => c {{ ceip := entry; cesp := USER_STACK_TOP }} }}) k5))).
  eapply program_kept; [apply kept_frame_for|]. clearbody k5.
  eapply program_only, Hu5; [by apply only_upd|done|]. eapply pid_inv_same, Hu5. by apply same_upd.
Qed.

Lemma disk_exec_program u x s r s' :
  disk_exec_smoke blk stack_top initial_frame_at utab_addr heap_area fuel s = Done r s' ->
  has_program u x (kern s) -> has_program u x (kern s').
Proof.
  unfold disk_exec_smoke. destruct (process_create_from_path _ _ _ _ _ _ _ _ s) as [p s1|] eqn:E; [|done]. cbn [obind].
  intros Hs Hu. apply (create_from_path_program u x) in E; [|done]. destruct p as [i|]; [|by injection Hs as _ <-].
  revert Hs. unfold queue_process. pose proof (kept_add (Some (Proc i)) (kern s1)) as Ea.
  destruct (scheduler_add _ _) as [rc k2]. intros [= _ <-]. exact (program_kept u x _ _ Ea E).
Qed.

(** ** The launch *)
Lemma must_pass_done message test s r s' :
  must_pass message test s = Done r s' -> test (kern s) = Done 0 (kern s').
Proof.
  unfold must_pass, lift_kern. destruct (test (kern s)) as [rc k|]; [|done]. cbn [obind].
  destruct (Z.eqb_spec rc 0) as [->|]; [|done]. by intros [= _ <-].
Qed.

Lemma create_user_fields name entry k i k' :
  pid_inv k -> process_create_user stack_top initial_frame_at utab_addr name entry k = (Some i, k') ->
  in_table i /\ allocated (processes k).[i] = false /\ pid_inv k' /\
  allocated (processes k').[i] = true /\ user_stack (processes k').[i] = USER_STACK_TOP /\ user_mode (processes k').[i] = true.
Proof.
  intros Hk E. pose proof (create_user_inv stack_top initial_frame_at utab_addr name entry k Hk) as Hk'. rewrite E in Hk'. cbn [snd] in Hk'.
  revert E. unfold process_create_user. destruct (new_pcb name k) as [[c|] k1] eqn:En; [|done].
  destruct (new_pcb_inv _ _ _ _ Hk En) as (Hk1 & Hc & Ha & Ha' & _). cbn zeta.
  destruct (alloc_page _) as [page f]. destruct (page =? 0); [done|]. destruct (vmm_map_user _ _ _ _ _ _) as [rc v].
  destruct (negb _); [done|]. set (k2 := on_vm (with_frames f) k1). set (k3 := k2 {{ vm := v }}).
  intros E. apply pair_eq in E as [Ei Ek]. apply (inj Some) in Ei as ->. split; [done|]. split; [done|]. split; [done|].
  set (k4 := upd (Proc i) _ k3) in Ek.
  assert (image (processes k').[i] = image (processes k4).[i]) as Eim.
  { rewrite <- Ek. etrans; [apply kept_frame_for|]. by apply (same_upd image (Proc i)). }
  assert ((processes k4).[i] = ((processes k1).[i]) {{ entry_point := entry; user_stack := USER_STACK_TOP; user_mode := true }}) as E4.
  { apply aget_aset_eq. change (0 <= i < Z.of_nat (length (processes k1))). rewrite (pid_len _ Hk1). exact Hc. }
  rewrite E4 in Eim. clearbody k4. set (y := (processes k').[i]) in *. clearbody y.
  assert (ids y = ids (processes k1).[i]) as Eid by exact (f_equal fst Eim).
  split; [rewrite <- Ha'; exact (f_equal (fun t => t.1.2) Eid)|].
  split; [exact (f_equal (fun t => t.2.1.1.2) Eim)|exact (f_equal (fun t => t.2.1.2) Eim)].
Qed.

Lemma elf32_load_entry im size sp (v : vmm S) rc e v' :
  elf32_load utab_addr (Some im) size sp v = (rc, Some e, v') -> e = entry_at (header_of im) /\ sp <> None.
Proof.
  unfold elf32_load. destruct sp as [i|]; [|done]. destruct (_ || _ || _); [done|].
  destruct (load_segments _ _ _ _ _ _) as [[] st]; [|done]. by intros [= _ <- _].
Qed.

(** The program of the init process, once it is loaded. *)
Definition init_program (im : list Z) (x : (Z * bool * Z) * (Z * Z * bool * option Z)) : Prop :=
  exists sp, x.2 = (entry_at (header_of im), USER_STACK_TOP, true, Some sp).

Lemma load_init_program im s u s' :
  pid_inv (kern s) -> load_init stack_top initial_frame_at utab_addr im s = Done u s' ->
  in_table u /\ allocated (processes (kern s)).[u] = false /\
  exists x, init_program im x /\ has_program u x (kern s').
Proof.
  intros Hk. unfold load_init. destruct (process_create_user _ _ _ _ _ _) as [[c|] k1] eqn:E; [|done].
  destruct (create_user_fields _ _ _ _ _ Hk E) as (Hc & Ha & Hk1 & Ha1 & Hst & Hum). cbn zeta.
  destruct (elf32_load _ _ _ _ _) as [[rc [e|]] v] eqn:El; [|done]. destruct (elf32_load_entry _ _ _ _ _ _ _ El) as [-> Hsp].
  change (pcb_of (Proc c) k1) with (processes k1).[c] in Hsp. destruct (space (processes k1).[c]) as [sp|] eqn:Esp; [|done].
  destruct (negb _); [done|]. intros Es.
  assert (c = u) as -> by (by injection Es). split; [done|]. split; [done|].
  set (k2 := k1 {{ vm := v }}).
  set (k3 := upd (Proc u) (fun x => x {{ entry_point := entry_at (header_of im); cpu ::= fun c => c {{ ceip := entry_at (header_of im) }} }}) k2).
  assert (kern s' = scheduler_set_current (Some (Proc u)) k3) as -> by (by injection Es as <-).
  exists (image (processes k3).[u]).
  assert ((processes k3).[u] = ((processes k1).[u]) {{ entry_point := entry_at (header_of im); cpu ::= fun c => c {{ ceip := entry_at (header_of im) }} }}) as E3.
  { apply aget_aset_eq. change (0 <= u < Z.of_nat (length (processes k1))). rewrite (pid_len _ Hk1). exact Hc. }
  split.
  - exists sp. rewrite E3. change (image (((processes k1).[u]) {{ entry_point := entry_at (header_of im); cpu ::= fun c => c {{ ceip := entry_at (header_of im) }} }})).2
      with (entry_at (header_of im), user_stack (processes k1).[u], user_mode (processes k1).[u], space (processes k1).[u]).
    by rewrite Hst, Hum, Esp.
  - eapply program_kept; [apply kept_set_current|]. split; [|done| |done].
    + apply (pid_inv_same k2); [by apply same_upd|]. apply (pid_inv_same k1); [by apply same_eq|exact Hk1].
    + rewrite E3. exact Ha1.
Qed.

(** [process_enter_user] of a process with a program. *)
Lemma enter_user_program u im x k r k' :
  init_program im x -> has_program u x k -> process_enter_user stack_top (Proc u) k = (r, k') ->
  r = Some (entry_at (header_of im), USER_STACK_TOP) /\ running k' = Proc u /\
  state (processes k').[u] = PROCESS_RUNNING /\ current_space (vm k') = space (processes k').[u] /\
  space (processes k').[u] <> None /\ tss_esp0 k' = stack_top (Proc u) /\ has_program u x k'.
Proof.
  intros [sp Ex] Hu E. pose proof (kept_enter_user stack_top (Proc u) k) as Ek. rewrite E in Ek. cbn [snd] in Ek.
  pose proof (program_kept u x _ _ Ek Hu) as Hu'. pose proof (hp_image _ _ _ Hu) as Him. pose proof (hp_image _ _ _ Hu') as Him'.
  rewrite <- Him in Ex. assert (image (processes k').[u] = image (processes k).[u]) as Eim by congruence. clear Him Him'.
  assert (entry_point (processes k).[u] = entry_at (header_of im)) as E1 by exact (f_equal (fun t => t.1.1.1) Ex).
  assert (user_stack (processes k).[u] = USER_STACK_TOP) as E2 by exact (f_equal (fun t => t.1.1.2) Ex).
  assert (user_mode (processes k).[u] = true) as E3 by exact (f_equal (fun t => t.1.2) Ex).
  assert (space (processes k).[u] = Some sp) as E4 by exact (f_equal snd Ex).
  assert (space (processes k').[u] = Some sp) as E4' by (rewrite <- E4; exact (f_equal (fun t => t.2.2) Eim)).
  revert E. unfold process_enter_user. change (pcb_of (Proc u) k) with (processes k).[u]. rewrite E3, E4.
  cbn [negb orb]. rewrite bool_decide_false by done.
  set (k1 := scheduler_set_current (Some (Proc u)) k). set (k2 := on_vm _ k1).
  intros E. apply pair_eq in E as [<- Ek'].
  assert (image (processes k1).[u] = image (processes k).[u]) as Eim1 by apply kept_set_current.
  assert (space (pcb_of (Proc u) k1) = Some sp) as Esp1 by (rewrite <- E4; exact (f_equal (fun t => t.2.2) Eim1)).
  rewrite Ek'. change (pcb_of (Proc u) k') with (processes k').[u].
  split; [f_equal; f_equal; [rewrite <- E1; exact (f_equal (fun t => t.2.1.1.1) Eim)|rewrite <- E2; exact (f_equal (fun t => t.2.1.1.2) Eim)]|].
  rewrite E4'. subst k'. split; [done|]. split.
  - assert (length (processes k1) = 32%nat) as Hl1.
    { rewrite <- (pid_len _ (hp_inv _ _ _ Hu)). exact (proj1 (proj2 (kept_set_current (Some (Proc u)) k))). }
    pose proof (hp_slot _ _ _ Hu) as Hin. unfold in_table in Hin. clearbody k1.
    change (state ((processes k1).[u <- ((processes k1).[u]) {{ state := PROCESS_RUNNING }}]).[u] = PROCESS_RUNNING).
    rewrite aget_aset_eq by lia. done.
  - split; [|done]. change (current_space (vmm_switch_address_space (space (pcb_of (Proc u) k1)) (vm k1)) = Some sp). by rewrite Esp1.
Qed.

(** The launch of the init process ends in that process.  From any state with a sound
    process table, if the end of [kmain] comes to the jump to ring 3 — the image loaded,
    the three self-tests passed, the program of the disk queued or not — then the jump goes
    to the entry point of the embedded image with the stack pointer at the top of the user
    stack; the running process is the one that was created for it, in a slot that was free,
    marked as running; the active address space is its own and the kernel stack for the
    next interrupt is its own; and the process table is sound again. *)
Lemma launch_enters_init im s r s' :
  pid_inv (kern s) ->
  launch_init blk stack_top initial_frame_at utab_addr heap_area cr2 fuel frame_addr im s = Done r s' ->
  r = Some (entry_at (header_of im), USER_STACK_TOP) /\ pid_inv (kern s') /\
  exists u, in_table u /\ allocated (processes (kern s)).[u] = false /\ allocated (processes (kern s')).[u] = true /\
    running (kern s') = Proc u /\ state (processes (kern s')).[u] = PROCESS_RUNNING /\
    current_space (vm (kern s')) = space (processes (kern s')).[u] /\ space (processes (kern s')).[u] <> None /\
    tss_esp0 (kern s') = stack_top (Proc u).
Proof.
  intros Hk. unfold launch_init. destruct (load_init _ _ _ im s) as [u s1|] eqn:E1; [|done].
  destruct (load_init_program _ _ _ _ Hk E1) as (Hu & Hf & x & Hx & P1). cbn [obind].
  destruct (must_pass _ (process_futex_selftest _ _) s1) as [t s2|] eqn:E2; [|done]. cbn [obind]. apply must_pass_done in E2.
  pose proof (futex_selftest_kept (kern s1)) as K2. rewrite E2 in K2. apply (program_kept u x _ _ K2) in P1.
  destruct (must_pass _ _ s2) as [t' s3|] eqn:E3; [|done]. cbn [obind]. apply must_pass_done in E3.
  pose proof (pid_selftest_program u x _ P1) as P3. destruct (process_pid_selftest _ _ (kern s2)) as [rc k3].
  injection E3 as _ ->. cbn [snd] in P3.
  destruct (must_pass _ _ s3) as [t'' s4|] eqn:E4; [|done]. cbn [obind]. apply must_pass_done in E4.
  pose proof (signal_selftest_kept frame_addr (kern s3)) as K4. rewrite E4 in K4. apply (program_kept u x _ _ K4) in P3.
  destruct (disk_exec_smoke _ _ _ _ _ _ s4) as [b s5|] eqn:E5; [|done]. cbn [obind]. apply (disk_exec_program u x) in E5; [|done].
  unfold on_kern. destruct (process_enter_user _ _ (kern s5)) as [r' k6] eqn:E6. intros Es.
  destruct (enter_user_program u im x _ _ _ Hx E5 E6) as (-> & A & B & C & D & F & P6).
  assert (r = Some (entry_at (header_of im), USER_STACK_TOP)) as -> by (by injection Es).
  assert (kern s' = k6) as -> by (by injection Es as <-). split; [done|]. split; [apply P6|].
  exists u. repeat (split; [first [done|apply P6]|]). done.
Qed.
End launch.
