(* ===== verification/Shell.v ===== *)
(** The command shell, [userspace/shell.c], and the process listing [process_dump] of
    [kernel/process.c] it calls.

    The line buffer is the array of 64 characters of the code with its terminator; a
    string constant is the list of its characters with the terminator.  What is sent to
    the screen and to the serial line is the list of events, in order, which
    [Serial.console_write] and [Console.vga_write] carry out.  The jump into a program
    started with [exec] does not return to the shell. *)
From S2P Require Import Prelude Frames Pmm Paging KernelMap Heap Net Vmm Block Fat32 Console Vfs Sync Timer Elf Process ProcessDemo Syscall SyscallTheorems VmmDemo.
From Stdlib Require Ascii String.

(** A string constant in memory. *)
Definition cstring (s : string) : list Z := text s ++ [0].

(** ** Comparing with a constant *)
Fixpoint same_from (fuel : nat) (i : Z) (a b : list Z) : bool :=
  match fuel with
  | O => false
  | S fuel' =>
      if negb (a.[i] =? 0) && (a.[i] =? b.[i]) then same_from fuel' (i + 1) a b
      else (a.[i] =? 0) && (b.[i] =? 0)
  end.
(** Both loops end at a terminator of [b] at the latest. *)
Definition same (a b : list Z) : bool := same_from (length b) 0 a b.

Fixpoint prefix_from (fuel : nat) (i : Z) (a b : list Z) : bool :=
  match fuel with
  | O => false
  | S fuel' =>
      if negb (b.[i] =? 0) && (a.[i] =? b.[i]) then prefix_from fuel' (i + 1) a b else b.[i] =? 0
  end.
Definition prefix (a b : list Z) : bool := prefix_from (length b) 0 a b.

(** The characters from [i] up to the terminator. *)
Fixpoint chars (l : list Z) : list Z :=
  match l with [] => [] | c :: l => if c =? 0 then [] else c :: chars l end.
Definition string_from (i : Z) (a : list Z) : list Z := chars (drop (Z.to_nat i) a).

Definition print (fmt : list Z) (args : list arg) : list event :=
  match kprintf fmt args with Some l => [OnBoth l] | None => [] end.

Definition reboot : list event := [ResetPort].

(** ** [process_dump] *)
Definition state_name (s : process_state) : list Z :=
  match s with
  | PROCESS_RUNNING => text "running"
  | PROCESS_READY => text "ready"
  | PROCESS_BLOCKED => text "blocked"
  | PROCESS_ZOMBIE => text "zombie"
  end.
Definition dump_line (p : pcb) : list event :=
  if allocated p then
    print (text "%u %s %s" ++ [10])
      [AInt (pid p); AStr (state_name (state p)); AStr (match pname p with Some n => text n | None => text "?" end)]
  else [].
Definition process_dump {S W} (k : kernel S W) : list event :=
  OnLine (text "PID STATE NAME" ++ [10]) ::
  foldl (fun out i => out ++ dump_line (processes k).[i]) [] (seqZ 0 (process_count k)).

(** ** Strings in the buffer *)
Lemma aget_at (p l : list Z) : (p ++ l).[Z.of_nat (length p)] = l.[0].
Proof. rewrite aget_app_r by lia. f_equal. lia. Qed.

Lemma same_from_S n i a b :
  same_from (S n) i a b =
    if negb (a.[i] =? 0) && (a.[i] =? b.[i]) then same_from n (i + 1) a b else (a.[i] =? 0) && (b.[i] =? 0).
Proof. done. Qed.
Lemma prefix_from_S n i a b :
  prefix_from (S n) i a b = if negb (b.[i] =? 0) && (a.[i] =? b.[i]) then prefix_from n (i + 1) a b else b.[i] =? 0.
Proof. done. Qed.

Lemma same_at t : forall l p q rest,
  length p = length q -> 0 ∉ l -> 0 ∉ t ->
  same_from (S (length t)) (Z.of_nat (length p)) (p ++ l ++ 0 :: rest) (q ++ t ++ [0]) = bool_decide (l = t).
Proof.
  induction t as [|d t IH]; intros l p q rest Hpq Hl Ht; rewrite same_from_S;
    rewrite aget_at, Hpq, aget_at; destruct l as [|c l]; cbn [app aget].
  - done.
  - change ((c :: l ++ 0 :: rest).[0]) with c. change ([0].[0]) with 0.
    destruct (Z.eqb_spec c 0); [set_solver|]. done.
  - change ((0 :: rest).[0]) with 0. change ((d :: t ++ [0]).[0]) with d.
    destruct (Z.eqb_spec d 0); [set_solver|]. done.
  - change ((c :: l ++ 0 :: rest).[0]) with c. change ((d :: t ++ [0]).[0]) with d.
    destruct (Z.eqb_spec c 0); [set_solver|]. cbn [negb andb].
    destruct (Z.eqb_spec c d) as [->|Hne]; [|case_bool_decide; congruence].
    replace (Z.of_nat (length q) + 1) with (Z.of_nat (length (p ++ [d]))) by (rewrite length_app; cbn; lia).
    replace (p ++ d :: l ++ 0 :: rest) with ((p ++ [d]) ++ l ++ 0 :: rest) by (by rewrite <- app_assoc).
    replace (q ++ d :: t ++ [0]) with ((q ++ [d]) ++ t ++ [0]) by (by rewrite <- app_assoc).
    rewrite (IH l); [|rewrite !length_app; cbn; lia|set_solver..]. apply bool_decide_ext. split; congruence.
Qed.

Lemma prefix_at t : forall l p q rest,
  length p = length q -> 0 ∉ l -> 0 ∉ t ->
  prefix_from (S (length t)) (Z.of_nat (length p)) (p ++ l ++ 0 :: rest) (q ++ t ++ [0]) = bool_decide (t `prefix_of` l).
Proof.
  induction t as [|d t IH]; intros l p q rest Hpq Hl Ht; rewrite prefix_from_S;
    rewrite aget_at, Hpq, aget_at; destruct l as [|c l]; cbn [app aget].
  - done.
  - done.
  - change ((0 :: rest).[0]) with 0. change ((d :: t ++ [0]).[0]) with d.
    destruct (Z.eqb_spec d 0); [set_solver|]. destruct (Z.eqb_spec 0 d); [done|]. cbn.
    rewrite bool_decide_eq_false_2; [done|]. apply prefix_nil_not.
  - change ((c :: l ++ 0 :: rest).[0]) with c. change ((d :: t ++ [0]).[0]) with d.
    destruct (Z.eqb_spec d 0); [set_solver|]. cbn [negb andb].
    destruct (Z.eqb_spec c d) as [->|Hne].
    2:{ rewrite bool_decide_eq_false_2; [done|]. intros Hp. by apply prefix_cons_inv_1 in Hp. }
    replace (Z.of_nat (length q) + 1) with (Z.of_nat (length (p ++ [d]))) by (rewrite length_app; cbn; lia).
    replace (p ++ d :: l ++ 0 :: rest) with ((p ++ [d]) ++ l ++ 0 :: rest) by (by rewrite <- app_assoc).
    replace (q ++ d :: t ++ [0]) with ((q ++ [d]) ++ t ++ [0]) by (by rewrite <- app_assoc).
    rewrite (IH l); [|rewrite !length_app; cbn; lia|set_solver..]. apply bool_decide_ext.
    split; [apply prefix_cons|apply prefix_cons_inv_2].
Qed.

Lemma same_spec l rest t : 0 ∉ l -> 0 ∉ text t -> same (l ++ 0 :: rest) (cstring t) = bool_decide (l = text t).
Proof.
  intros Hl Ht. unfold same, cstring. rewrite length_app, Nat.add_comm.
  exact (same_at (text t) l [] [] rest eq_refl Hl Ht).
Qed.
Lemma prefix_spec l rest t :
  0 ∉ l -> 0 ∉ text t -> prefix (l ++ 0 :: rest) (cstring t) = bool_decide (text t `prefix_of` l).
Proof.
  intros Hl Ht. unfold prefix, cstring. rewrite length_app, Nat.add_comm.
  exact (prefix_at (text t) l [] [] rest eq_refl Hl Ht).
Qed.

Lemma text_free t : forallb (fun c => negb (c =? 0)) (text t) = true -> 0 ∉ text t.
Proof.
  intros Hall Hin. rewrite forallb_forall in Hall. apply list_elem_of_In in Hin. specialize (Hall 0 Hin). discriminate.
Qed.

Lemma chars_free l rest : 0 ∉ l -> chars (l ++ 0 :: rest) = l.
Proof.
  induction l as [|c l IH]; intros Hl; cbn; [done|]. destruct (Z.eqb_spec c 0); [set_solver|].
  rewrite IH by set_solver. done.
Qed.

(** ** The shell *)
Record shell := mkShell { buf : list Z; len : Z }.

Section shell.
Context {W : Type}.
Variable blk : block W.
Variable stack_top : pcb_ptr -> Z.
Variable initial_frame_at : pcb_ptr -> Z.
Variable utab_addr : Z -> Z -> Z.
Variable heap_area : Z.
Variable fuel : nat.
Let exec_path := process_exec_path blk stack_top utab_addr heap_area fuel (W := W) (S := pmm).
Implicit Types s : sys pmm W.

(** The chain of comparisons on Enter, with the number of characters typed. *)
Definition shell_command (l : list Z) (n : Z) s : outcome (sys pmm W) (list event * option (Z * Z)) :=
  let f := frames (vm (kern s)) in
  if same l (cstring "help") then
    Done (print (text "help uptime meminfo ps exec <path> clear reboot" ++ [10]) [], None) s
  else if same l (cstring "uptime") then
    Done (print (text "uptime: %u ms" ++ [10]) [AInt (timer_uptime_ms (clock (kern s)))], None) s
  else if same l (cstring "meminfo") then
    Done (print (text "memory: total=%u used=%u free=%u pages" ++ [10])
            [AInt (pmm_total_pages f); AInt (pmm_used_pages f); AInt (pmm_free_pages f)], None) s
  else if same l (cstring "ps") then Done (process_dump (kern s), None) s
  else if prefix l (cstring "exec ") then
    let* (r, s) := exec_path (Some (string_from 5 l)) s in
    Done (if r.1 =? 0 then [] else print (text "exec failed: %d" ++ [10]) [AInt r.1], r.2) s
  else if same l (cstring "clear") then Done ([ClearScreen], None) s
  else if same l (cstring "reboot") then Done (reboot, None) s
  else if negb (n =? 0) then Done (print (text "unknown command: %s" ++ [10]) [AStr (string_from 0 l)], None) s
  else Done ([], None) s.

Definition prompt : list event := [OnScreen (text "ceblar> ")].

(** One turn of the loop with the character [c] of [keyboard_getc]; a jump into a program
    leaves the loop. *)
Definition shell_key (c : Z) (sh : shell) s : outcome (sys pmm W) (list event * shell * option (Z * Z)) :=
  if c =? 0 then Done ([], sh, None) s
  else if c =? 10 then
    let l := (buf sh).[len sh <- 0] in
    let* (r, s) := shell_command l (len sh) s in
    match r.2 with
    | Some jump => Done (r.1, mkShell l (len sh), Some jump) s
    | None => Done (r.1 ++ prompt, mkShell l 0, None) s
    end
  else if c =? 8 then
    if negb (len sh =? 0) then Done ([OnScreen [8]], mkShell (buf sh) (len sh - 1), None) s else Done ([], sh, None) s
  else if len sh <? 63 then Done ([OnScreen [c]], mkShell ((buf sh).[len sh <- c]) (len sh + 1), None) s
  else Done ([], sh, None) s.

(** The loop on the characters that arrive, up to a jump into a program. *)
Fixpoint shell_loop (keys : list Z) (sh : shell) s : outcome (sys pmm W) (list event * shell * option (Z * Z)) :=
  match keys with
  | [] => Done ([], sh, None) s
  | c :: keys =>
      let* (r, s) := shell_key c sh s in
      let '(out, sh, jump) := r in
      match jump with
      | Some _ => Done (out, sh, jump) s
      | None =>
          let* (r, s) := shell_loop keys sh s in
          let '(out', sh, jump) := r in Done (out ++ out', sh, jump) s
      end
  end.

(** [line] is what the stack holds. *)
Definition shell_run (line : list Z) (keys : list Z) s : outcome (sys pmm W) (list event * shell * option (Z * Z)) :=
  let* (r, s) := shell_loop keys (mkShell line 0) s in
  let '(out, sh, jump) := r in Done (prompt ++ out, sh, jump) s.

(** ** The commands *)
Inductive command := Help | Uptime | Meminfo | Ps | Exec (path : list Z) | Clear | Reboot | Unknown (l : list Z) | Nothing.

(** The command a line stands for. *)
Definition parse (l : list Z) : command :=
  if bool_decide (l = text "help") then Help
  else if bool_decide (l = text "uptime") then Uptime
  else if bool_decide (l = text "meminfo") then Meminfo
  else if bool_decide (l = text "ps") then Ps
  else if bool_decide (text "exec " `prefix_of` l) then Exec (drop 5 l)
  else if bool_decide (l = text "clear") then Clear
  else if bool_decide (l = text "reboot") then Reboot
  else if bool_decide (l = []) then Nothing else Unknown l.

Definition run_command (c : command) s : outcome (sys pmm W) (list event * option (Z * Z)) :=
  let f := frames (vm (kern s)) in
  match c with
  | Help => Done ([OnBoth (text "help uptime meminfo ps exec <path> clear reboot" ++ [10])], None) s
  | Uptime => Done (print (text "uptime: %u ms" ++ [10]) [AInt (timer_uptime_ms (clock (kern s)))], None) s
  | Meminfo =>
      Done (print (text "memory: total=%u used=%u free=%u pages" ++ [10])
              [AInt (pmm_total_pages f); AInt (pmm_used_pages f); AInt (pmm_free_pages f)], None) s
  | Ps => Done (process_dump (kern s), None) s
  | Exec path =>
      let* (r, s) := exec_path (Some path) s in
      Done (if r.1 =? 0 then [] else print (text "exec failed: %d" ++ [10]) [AInt r.1], r.2) s
  | Clear => Done ([ClearScreen], None) s
  | Reboot => Done ([ResetPort], None) s
  | Unknown l => Done ([OnBoth (text "unknown command: " ++ l ++ [10])], None) s
  | Nothing => Done ([], None) s
  end.

Lemma shell_command_parse l rest s :
  0 ∉ l -> shell_command (l ++ 0 :: rest) (Z.of_nat (length l)) s = run_command (parse l) s.
Proof.
  intros Hl. unfold shell_command, parse.
  rewrite !(same_spec l), prefix_spec by (done || apply text_free; reflexivity).
  repeat (case_bool_decide; [try reflexivity|]).
  - cbn [run_command]. unfold string_from. change (Z.to_nat 5) with 5%nat.
    match goal with Hp : _ `prefix_of` _ |- _ => destruct Hp as [k ->] end.
    rewrite <- app_assoc. change 5%nat with (length (text "exec ")). rewrite !drop_app_length.
    rewrite chars_free; [done|]. set_solver.
  - subst l. reflexivity.
  - destruct l as [|c l]; [done|]. cbn [length].
    destruct (Z.eqb_spec (Z.of_nat (S (length l))) 0); [lia|]. cbn [negb].
    unfold string_from. change (drop (Z.to_nat 0) ?x) with x. rewrite chars_free by done. reflexivity.
Qed.

(** ** Editing *)
(** The line after one more character: backspace removes the last one, and a character
    that does not fit is ignored. *)
Definition edit_key (l : list Z) (c : Z) : list Z :=
  if c =? 0 then l
  else if c =? 8 then take (pred (length l)) l
  else if (length l <? 63)%nat then l ++ [c] else l.
Definition edit (keys : list Z) : list Z := foldl edit_key [] keys.

Record holds_line (sh : shell) (l : list Z) : Prop := {
  hl_buf : length (buf sh) = 64%nat;
  hl_len : len sh = Z.of_nat (length l);
  hl_fits : (length l <= 63)%nat;
  hl_chars : take (length l) (buf sh) = l;
  hl_free : 0 ∉ l;
}.

(** Every store into the buffer is inside it, and the buffer holds the edited line. *)
Lemma shell_key_edits c sh l s :
  c <> 10 -> holds_line sh l ->
  exists out sh', shell_key c sh s = Done (out, sh', None) s /\ holds_line sh' (edit_key l c).
Proof.
  intros Hc Hl. pose proof Hl as [Hb Hn Hf Ht H0]. unfold shell_key, edit_key.
  destruct (Z.eqb_spec c 0); [by eauto|]. destruct (Z.eqb_spec c 10); [done|]. destruct (Z.eqb_spec c 8).
  - destruct (Z.eqb_spec (len sh) 0) as [E|E]; cbn [negb].
    { destruct l; [|cbn in Hn; lia]. by eauto. }
    eexists _, _. split; [done|]. split; cbn [buf len].
    + done.
    + rewrite length_take. lia.
    + rewrite length_take. lia.
    + rewrite length_take. trans (take (pred (length l)) (take (length l) (buf sh))); [|by rewrite Ht].
      rewrite take_take. f_equal; lia.
    + intros (i & Hi & _)%elem_of_take. apply H0. by eapply list_elem_of_lookup_2.
  - destruct (Z.ltb_spec (len sh) 63).
    2:{ destruct (Nat.ltb_spec (length l) 63); [lia|]. by eauto. }
    destruct (Nat.ltb_spec (length l) 63); [|lia]. eexists _, _. split; [done|]. split; cbn [buf len].
    + by rewrite aset_length.
    + rewrite length_app. cbn. lia.
    + rewrite length_app. cbn. lia.
    + rewrite length_app. cbn [length]. rewrite Hn. unfold aset. rewrite Nat2Z.id.
      rewrite Nat.add_1_r, (take_S_r _ _ c); [|apply list_lookup_insert_eq; lia].
      rewrite take_insert_ge by lia. by rewrite Ht.
    + set_solver.
Qed.

Lemma shell_loop_edits keys : forall sh l s,
  10 ∉ keys -> holds_line sh l ->
  exists out sh', shell_loop keys sh s = Done (out, sh', None) s /\ holds_line sh' (foldl edit_key l keys).
Proof.
  induction keys as [|c keys IH]; intros sh l s Hk Hl; [by eauto|].
  destruct (shell_key_edits c sh l s ltac:(set_solver) Hl) as (o1 & sh1 & E1 & H1).
  destruct (IH sh1 _ s ltac:(set_solver) H1) as (o2 & sh2 & E2 & H2).
  exists (o1 ++ o2), sh2. split; [|done]. cbn [shell_loop]. rewrite E1. cbn. rewrite E2. done.
Qed.

Lemma holds_line_terminated sh l : holds_line sh l -> exists rest, (buf sh).[len sh <- 0] = l ++ 0 :: rest.
Proof.
  intros [Hb Hn Hf Ht _]. exists (drop (S (length l)) (buf sh)). rewrite Hn. unfold aset. rewrite Nat2Z.id.
  rewrite insert_take_drop by lia. by rewrite Ht.
Qed.

(** C38: the shell stores every character typed inside its 64-byte line buffer, whatever is
    typed, and on Enter runs the command that the edited line stands for (the characters
    typed less the ones erased, at most 63), comparing it with the command names as whole
    strings; unless a program was entered it then starts again with an empty line. *)
Theorem shell_runs_typed_line line keys s :
  length line = 64%nat -> 10 ∉ keys ->
  exists out sh,
    shell_run line keys s = Done (out, sh, None) s /\ holds_line sh (edit keys) /\
    match run_command (parse (edit keys)) s with
    | Panicked m s' => shell_key 10 sh s = Panicked m s'
    | Done (o, Some jump) s' => exists sh', shell_key 10 sh s = Done (o, sh', Some jump) s'
    | Done (o, None) s' => exists sh', shell_key 10 sh s = Done (o ++ prompt, sh', None) s' /\ holds_line sh' []
    end.
Proof.
  intros Hlen Hk.
  assert (holds_line (mkShell line 0) []) as H0 by (split; [done|done|cbn; lia|done|set_solver]).
  destruct (shell_loop_edits keys _ [] s Hk H0) as (o & sh & E & Hl). fold (edit keys) in Hl.
  exists (prompt ++ o), sh. unfold shell_run. rewrite E. split; [done|]. split; [done|].
  destruct (holds_line_terminated sh _ Hl) as [rest Er].
  unfold shell_key. change (10 =? 0) with false. change (10 =? 10) with true. cbv iota zeta.
  assert (shell_command ((buf sh).[len sh <- 0]) (len sh) s = run_command (parse (edit keys)) s) as ->.
  { rewrite Er, (hl_len _ _ Hl). apply shell_command_parse, (hl_free _ _ Hl). }
  destruct (run_command _ s) as [[o' [jump|]] s'|m s']; cbn; [by eauto|..|done].
  eexists. split; [done|]. split; [|done|cbn; lia|done|set_solver].
  cbn. rewrite aset_length. apply (hl_buf _ _ Hl).
Qed.
End shell.

(** ** Typing "hz", erasing the last character and going on with "elp" *)
Definition typed_help : list Z := [104; 122; 8; 101; 108; 112].

Lemma shell_runs_typed_line_witness :
  exists out sh sh', shell_run ram_block demo_top demo_tables 8388608 4 (replicate 64 170) typed_help demo_sys
      = Done (out, sh, None) demo_sys /\
    shell_key ram_block demo_top demo_tables 8388608 4 10 sh demo_sys
      = Done ([OnBoth (text "help uptime meminfo ps exec <path> clear reboot" ++ [10])] ++ prompt, sh', None) demo_sys.
Proof.
  destruct (shell_runs_typed_line ram_block demo_top demo_tables 8388608 4 (replicate 64 170) typed_help demo_sys)
    as (out & sh & Hr & _ & Hk).
  - reflexivity.
  - unfold typed_help. rewrite !not_elem_of_cons. split_and!; try discriminate. apply not_elem_of_nil.
  - change (parse (edit typed_help)) with Help in Hk. destruct Hk as (sh' & Hk & _).
    exists out, sh, sh'. split; [exact Hr|exact Hk].
Defined.

(** A backspace is shown as one more character: the screen's [vga_putc] has no case for it,
    so after "a" and backspace the cursor is two cells further and not back at the prompt. *)
Lemma backspace_prints :
  let v := vga_write [8] (vga_write [97] (vga_clear blank_screen)) in
  col v = 2 /\ cursor v = 2 /\ video v !! 0 = Some 1889 /\ video v !! 1 = Some 1800.
Proof. vm_compute. split_and!; reflexivity. Qed.
