(* ===== verification/Ata.v ===== *)
(** The ATA disk driver, [drivers/ata/ata.c].

    The port instructions work on the state [D] of the device behind the ports, a
    parameter ([Ports]).  What the driver relies on is the PIO protocol of the ATA
    standard, stated as laws of that state ([AtaProtocol]): the device has a phase, and
    leaves a busy phase after a number of status reads below the driver's limit.  A
    reference drive satisfies the laws.  The texts sent to the serial line are left out. *)
From S2P Require Import Prelude Block.

Definition ATA_DATA : Z := 496.
Definition ATA_SECTOR_COUNT : Z := 498.
Definition ATA_LBA0 : Z := 499.
Definition ATA_LBA1 : Z := 500.
Definition ATA_LBA2 : Z := 501.
Definition ATA_DRIVE : Z := 502.
Definition ATA_STATUS : Z := 503.
Definition ATA_COMMAND : Z := 503.
Definition ATA_CONTROL : Z := 1014.
Definition ATA_CMD_READ : Z := 32.
Definition ATA_CMD_WRITE : Z := 48.
Definition ATA_CMD_IDENTIFY : Z := 236.
Definition ATA_CMD_CACHE_FLUSH : Z := 231.
Definition ATA_STATUS_ERR : Z := 1.
Definition ATA_STATUS_DRQ : Z := 8.
Definition ATA_STATUS_DF : Z := 32.
Definition ATA_STATUS_BSY : Z := 128.
Definition ATA_TIMEOUT : Z := 100000.

(** The 28-bit sector addresses. *)
Definition LBA_END : Z := 268435456. (* 0x10000000 *)
#[export] Hint Unfold LBA_END ATA_TIMEOUT : kconst.

(** Port input and output on a device state. *)
Class Ports (D : Type) := {
  inb : Z -> D -> Z * D;
  outb : Z -> Z -> D -> D;
  inw : Z -> D -> Z * D;
  outw : Z -> Z -> D -> D;
}.

(** [static int present], and the device. *)
Record ata (D : Type) := mkAta { apresent : bool; device : D }.
Arguments mkAta {D}. Arguments apresent {D}. Arguments device {D}.

Section driver.
Context {D : Type} `{Ports D}.
Implicit Types (d : D) (w : ata D).

Definition ata_delay d : D :=
  let d := (inb ATA_CONTROL d).2 in let d := (inb ATA_CONTROL d).2 in
  let d := (inb ATA_CONTROL d).2 in (inb ATA_CONTROL d).2.

(** The poll loop with [n] turns left. *)
Fixpoint ata_poll (n : nat) (wanted : Z) d : Z * D :=
  match n with
  | O => (-1, d)
  | S n' =>
      let '(status, d) := inb ATA_STATUS d in
      if negb (Z.land status (Z.lor ATA_STATUS_ERR ATA_STATUS_DF) =? 0) then (-1, d)
      else if (Z.land status ATA_STATUS_BSY =? 0) && (Z.land status wanted =? wanted) then (0, d)
      else ata_poll n' wanted d
  end.
Definition ata_wait (wanted : Z) d : Z * D := ata_poll (Z.to_nat ATA_TIMEOUT) wanted d.

Definition ata_select (lba : Z) d : Z * D :=
  if LBA_END <=? lba then (-1, d)
  else
    let d := outb ATA_DRIVE (u8 (Z.lor 224 (Z.land (Z.shiftr lba 24) 15))) d in
    let d := ata_delay d in
    let d := outb ATA_SECTOR_COUNT 1 d in
    let d := outb ATA_LBA0 (u8 lba) d in
    let d := outb ATA_LBA1 (u8 (Z.shiftr lba 8)) d in
    (0, outb ATA_LBA2 (u8 (Z.shiftr lba 16)) d).

(** [words[i]] of the buffer at offset [off]. *)
Definition word_at (off i : Z) (buf : list Z) : Z := le16 buf.[off + 2 * i] buf.[off + 2 * i + 1].
Definition put_word (off i x : Z) (buf : list Z) : list Z :=
  buf.[off + 2 * i <- u8 x].[off + 2 * i + 1 <- u8 (Z.shiftr x 8)].
Definition out_words (off : Z) (buf : list Z) d : D :=
  for_range 0 256 (fun i d => outw ATA_DATA (word_at off i buf) d) d.
Definition in_words (off : Z) (bd : list Z * D) : list Z * D :=
  for_range 0 256 (fun i '(buf, d) => let '(x, d) := inw ATA_DATA d in (put_word off i x buf, d)) bd.

(** One sector to or from the buffer at [off]. *)
Definition ata_transfer (lba off : Z) (write : bool) (buf : list Z) w : Z * list Z * ata D :=
  if negb (apresent w) then (-1, buf, w)
  else
    let '(rc, d) := ata_select lba (device w) in
    if negb (rc =? 0) then (-1, buf, mkAta (apresent w) d)
    else
      let d := outb ATA_COMMAND (if write then ATA_CMD_WRITE else ATA_CMD_READ) d in
      let '(rc, d) := ata_wait ATA_STATUS_DRQ d in
      if negb (rc =? 0) then (-1, buf, mkAta (apresent w) d)
      else if write then
        let d := outb ATA_COMMAND ATA_CMD_CACHE_FLUSH (out_words off buf d) in
        let '(rc, d) := ata_wait 0 d in (rc, buf, mkAta (apresent w) d)
      else
        let '(buf, d) := in_words off (buf, d) in (0, buf, mkAta (apresent w) d).

(** [n] sectors from [i] on. *)
Fixpoint ata_sectors (n : nat) (lba i : Z) (write : bool) (buf : list Z) w : Z * list Z * ata D :=
  match n with
  | O => (0, buf, w)
  | S n' =>
      let '(rc, buf, w) := ata_transfer (lba + i) (i * 512) write buf w in
      if negb (rc =? 0) then (-1, buf, w) else ata_sectors n' lba (i + 1) write buf w
  end.
Definition bad_request (lba sectors : Z) : bool := (sectors =? 0) || (LBA_END <=? lba) || (LBA_END - lba <? sectors).

Definition ata_read (lba : Z) (buffer : option (list Z)) (sectors : Z) w : Z * list Z * ata D :=
  match buffer with
  | None => (-1, [], w)
  | Some buf => if bad_request lba sectors then (-1, buf, w) else ata_sectors (Z.to_nat sectors) lba 0 false buf w
  end.
Definition ata_write (lba : Z) (buffer : option (list Z)) (sectors : Z) w : Z * ata D :=
  match buffer with
  | None => (-1, w)
  | Some buf =>
      if bad_request lba sectors then (-1, w)
      else let '(rc, _, w) := ata_sectors (Z.to_nat sectors) lba 0 true buf w in (rc, w)
  end.
Definition ata_read_sector (lba : Z) (buf : list Z) w : Z * list Z * ata D := ata_read lba (Some buf) 1 w.
Definition ata_write_sector (lba : Z) (buf : list Z) w : Z * ata D := ata_write lba (Some buf) 1 w.

Definition ata_block (here : bool) : block_device (ata D) :=
  mkDevice "ata0" 512 LBA_END (Some ata_read_sector) (Some ata_write_sector) here.

(** The identify loop; [true]: the data is there. *)
Fixpoint identify_poll (n : nat) d : bool * D :=
  match n with
  | O => (false, d)
  | S n' =>
      let '(status, d) := inb ATA_STATUS d in
      if negb (Z.land status (Z.lor ATA_STATUS_ERR ATA_STATUS_DF) =? 0) then (false, d)
      else if (Z.land status ATA_STATUS_BSY =? 0) && negb (Z.land status ATA_STATUS_DRQ =? 0) then (true, d)
      else identify_poll n' d
  end.

Definition ata_init (b : block (ata D)) w : Z * block (ata D) * ata D :=
  let d := outb ATA_DRIVE 160 (device w) in
  let d := ata_delay d in
  let d := outb ATA_SECTOR_COUNT 0 d in
  let d := outb ATA_LBA0 0 d in
  let d := outb ATA_LBA1 0 d in
  let d := outb ATA_LBA2 0 d in
  let d := outb ATA_COMMAND ATA_CMD_IDENTIFY d in
  let '(status, d) := inb ATA_STATUS d in
  if (status =? 0) || (status =? 255) then (-1, b, mkAta false d)
  else
    let '(ok, d) := identify_poll (Z.to_nat ATA_TIMEOUT) d in
    if negb ok then (-1, b, mkAta false d)
    else
      let d := for_range 0 256 (fun _ d => (inw ATA_DATA d).2) d in
      (0, (block_register (Some (ata_block true)) b).2, mkAta true d).
Definition ata_present w : bool := apresent w.
End driver.

(** ** The protocol *)
Inductive phase := Ready | Busy (n : nat) (p : phase) | DataIn (ws : list Z) | DataOut (ws : list Z).
Definition not_busy (p : phase) : bool := match p with Busy _ _ => false | _ => true end.
Definition wants_data (p : phase) : bool := match p with DataIn _ | DataOut _ => true | _ => false end.
Definition task_ports : list Z := [ATA_SECTOR_COUNT; ATA_LBA0; ATA_LBA1; ATA_LBA2; ATA_DRIVE].
Definition quick (n : nat) : Prop := Z.of_nat n < ATA_TIMEOUT.

(** [taskfile d p]: the value last written to register [p]; [words_at d l]: the words of
    sector [l]. *)
Class AtaDrive (D : Type) := {
  taskfile : D -> Z -> Z;
  phase_of : D -> phase;
  words_at : D -> Z -> list Z;
}.

Section laws.
Context {D : Type} `{Ports D} `{AtaDrive D}.
Implicit Types d : D.

Definition same_media d d' : Prop := forall l, words_at d' l = words_at d l.
Definition same_task d d' : Prop := forall p, taskfile d' p = taskfile d p.
Definition same_drive d d' : Prop := same_media d d' /\ same_task d d'.

(** The sector the registers select, in LBA mode. *)
Definition task_lba d : Z :=
  taskfile d ATA_LBA0 + 256 * taskfile d ATA_LBA1 + 65536 * taskfile d ATA_LBA2 +
  16777216 * (taskfile d ATA_DRIVE mod 16).
Definition selects_one d : Prop := taskfile d ATA_SECTOR_COUNT = 1 /\ 224 <= taskfile d ATA_DRIVE < 240.
End laws.

Class AtaProtocol (D : Type) `{Ports D} `{AtaDrive D} := {
  ata_words (d : D) l : length (words_at d l) = 256%nat /\ Forall is_u16 (words_at d l);
  ata_alternate (d : D) : let d' := (inb ATA_CONTROL d).2 in phase_of d' = phase_of d /\ same_drive d d';
  ata_task (d : D) p x :
    p ∈ task_ports -> phase_of d = Ready ->
    let d' := outb p x d in
    phase_of d' = Ready /\ same_media d d' /\ forall q, taskfile d' q = if q =? p then x else taskfile d q;
  ata_busy (d : D) n p :
    phase_of d = Busy (S n) p ->
    exists status d', inb ATA_STATUS d = (status, d') /\ Z.land status 33 = 0 /\ Z.land status 128 = 128 /\
      phase_of d' = Busy n p /\ same_drive d d';
  ata_done (d : D) p :
    phase_of d = Busy 0 p \/ phase_of d = p -> not_busy p = true ->
    exists status d', inb ATA_STATUS d = (status, d') /\ Z.land status 33 = 0 /\ Z.land status 128 = 0 /\
      Z.land status 8 = (if wants_data p then 8 else 0) /\ phase_of d' = p /\ same_drive d d';
  ata_cmd_read (d : D) :
    phase_of d = Ready -> selects_one d ->
    let d' := outb ATA_COMMAND ATA_CMD_READ d in
    same_drive d d' /\ exists n, quick n /\ phase_of d' = Busy n (DataIn (words_at d (task_lba d)));
  ata_cmd_write (d : D) :
    phase_of d = Ready -> selects_one d ->
    let d' := outb ATA_COMMAND ATA_CMD_WRITE d in
    same_drive d d' /\ exists n, quick n /\ phase_of d' = Busy n (DataOut []);
  ata_data_in (d : D) x ws :
    phase_of d = DataIn (x :: ws) ->
    exists d', inw ATA_DATA d = (x, d') /\ same_drive d d' /\
      phase_of d' = match ws with [] => Ready | _ => DataIn ws end;
  ata_data_out (d : D) x ws :
    phase_of d = DataOut ws -> is_u16 x -> (length ws < 255)%nat ->
    let d' := outw ATA_DATA x d in phase_of d' = DataOut (ws ++ [x]) /\ same_drive d d';
  ata_data_last (d : D) x ws :
    phase_of d = DataOut ws -> is_u16 x -> Forall is_u16 ws -> length ws = 255%nat ->
    let d' := outw ATA_DATA x d in
    (exists n, quick n /\ phase_of d' = Busy n Ready) /\ same_task d d' /\
    forall l, words_at d' l = if l =? task_lba d then ws ++ [x] else words_at d l;
  (** The driver sends this one without waiting for the data to be taken: it is performed
      then, or ignored. *)
  ata_cmd_flush (d : D) n :
    phase_of d = Busy n Ready ->
    let d' := outb ATA_COMMAND ATA_CMD_CACHE_FLUSH d in
    same_drive d d' /\ exists m, quick m /\ phase_of d' = Busy m Ready;
  ata_cmd_identify (d : D) :
    phase_of d = Ready ->
    let d' := outb ATA_COMMAND ATA_CMD_IDENTIFY d in
    same_media d d' /\ exists n ws, quick n /\ length ws = 256%nat /\ phase_of d' = Busy n (DataIn ws);
}.
