(* ===== verification/AtaTheorems.v ===== *)
(** The ATA driver over any drive that follows the protocol: reads and writes of sectors,
    the identification at boot, and the requests it refuses; and a reference drive. *)
From S2P Require Import Prelude Block Ata.

Section correct.
Context {D : Type} `{AtaProtocol D}.
Implicit Types (d : D) (w : ata D).

#[local] Instance same_drive_preorder : PreOrder (@same_drive D _).
Proof.
  split; [by split|]. intros d1 d2 d3 [M1 T1] [M2 T2]. split; intros x; [by rewrite M2, M1|by rewrite T2, T1].
Qed.

Lemma delay_keeps d : phase_of (ata_delay d) = phase_of d /\ same_drive d (ata_delay d).
Proof.
  unfold ata_delay. cbn zeta.
  destruct (ata_alternate d) as [P1 S1]. destruct (ata_alternate (inb ATA_CONTROL d).2) as [P2 S2].
  destruct (ata_alternate (inb ATA_CONTROL (inb ATA_CONTROL d).2).2) as [P3 S3].
  destruct (ata_alternate (inb ATA_CONTROL (inb ATA_CONTROL (inb ATA_CONTROL d).2).2).2) as [P4 S4].
  split; [congruence|]. etrans; [exact S1|]. etrans; [exact S2|]. etrans; [exact S3|exact S4].
Qed.

(** What the driver waits for comes, if it polls more often than the device is busy. *)
Lemma poll_reaches n k d p wanted :
  phase_of d = Busy n p \/ n = O /\ phase_of d = p ->
  not_busy p = true -> wanted = 0 \/ wanted = 8 /\ wants_data p = true -> (n < k)%nat ->
  exists d', ata_poll k wanted d = (0, d') /\ phase_of d' = p /\ same_drive d d'.
Proof.
  revert k d. induction n as [|n IH]; intros [|k] d Hp Hn Hw Hk; try lia; cbn [ata_poll];
    change (Z.lor ATA_STATUS_ERR ATA_STATUS_DF) with 33; unfold ATA_STATUS_BSY.
  - assert (phase_of d = Busy 0 p \/ phase_of d = p) as Hp' by tauto.
    destruct (ata_done d p Hp' Hn) as (status & d' & -> & -> & -> & H8 & Hp2 & Hs). cbn [negb Z.eqb andb].
    assert ((Z.land status wanted =? wanted) = true) as ->.
    { destruct Hw as [-> | [-> Hd]]; [by rewrite Z.land_0_r|]. by rewrite H8, Hd. }
    by exists d'.
  - destruct Hp as [Hp|[]]; [|done].
    destruct (ata_busy d n p Hp) as (status & d' & -> & -> & -> & Hp' & Hs). cbn [negb Z.eqb andb].
    destruct (IH k d' (or_introl Hp') Hn Hw ltac:(lia)) as (d2 & -> & Hp2 & Hs2).
    exists d2. split; [done|]. split; [done|]. by etrans.
Qed.

Lemma wait_reaches n d p wanted :
  phase_of d = Busy n p -> quick n -> not_busy p = true -> wanted = 0 \/ wanted = 8 /\ wants_data p = true ->
  exists d', ata_wait wanted d = (0, d') /\ phase_of d' = p /\ same_drive d d'.
Proof. intros Hp Hq Hn Hw. apply (poll_reaches n); [by left|done..|]. unfold quick in Hq. lia. Qed.

(** ** Selecting a sector *)
Lemma lba_bytes lba : 0 <= lba < LBA_END ->
  u8 lba + 256 * u8 (Z.shiftr lba 8) + 65536 * u8 (Z.shiftr lba 16) + 16777216 * (Z.lor 224 (lba / 16777216) mod 16) = lba /\
  224 <= Z.lor 224 (lba / 16777216) < 240.
Proof.
  intros Hl. autounfold with kconst in Hl. unfold u8. rewrite !shiftr_div by lia. change (2 ^ 8) with 256. change (2 ^ 16) with 65536.
  assert (Z.lor 224 (lba / 16777216) = 224 + lba / 16777216) as ->.
  { assert (0 <= lba / 16777216 < 16) as Ht by (split; [apply Z.div_pos|apply Z.div_lt_upper_bound]; lia).
    generalize dependent (lba / 16777216). intros t Ht.
    rewrite Z.lor_comm. change 224 with (Z.shiftl 14 4). rewrite (lor_shiftl_add t 14 4) by (change (2 ^ 4) with 16; lia). change (Z.shiftl 14 4) with 224. change (2 ^ 4) with 16. lia. }
  Z.to_euclidean_division_equations. lia.
Qed.

Lemma select_ok lba d :
  0 <= lba < LBA_END -> phase_of d = Ready ->
  exists d', ata_select lba d = (0, d') /\ phase_of d' = Ready /\ same_media d d' /\ selects_one d' /\ task_lba d' = lba.
Proof.
  intros Hl Hr. unfold ata_select. destruct (Z.leb_spec LBA_END lba); [lia|].
  destruct (lba_bytes lba Hl) as [Hb Hd].
  assert (u8 (Z.lor 224 (Z.land (Z.shiftr lba 24) 15)) = Z.lor 224 (lba / 16777216)) as ->.
  { rewrite shiftr_div by lia. rewrite (land_mask _ 4) by lia. change (2 ^ 24) with 16777216. change (2 ^ 4) with 16.
    rewrite (Z.mod_small (lba / 16777216)) by (autounfold with kconst in Hl; split; [apply Z.div_pos|apply Z.div_lt_upper_bound]; lia).
    unfold u8. rewrite Z.mod_small by lia. done. }
  set (v := Z.lor 224 _) in *.
  destruct (ata_task d ATA_DRIVE v) as (P1 & M1 & T1); [set_solver|done|]. set (d1 := outb ATA_DRIVE _ _) in *.
  destruct (delay_keeps d1) as [P2 [M2 T2]]. set (d2 := ata_delay d1) in *. rewrite P1 in P2.
  destruct (ata_task d2 ATA_SECTOR_COUNT 1) as (P3 & M3 & T3); [set_solver|done|]. set (d3 := outb ATA_SECTOR_COUNT _ _) in *.
  destruct (ata_task d3 ATA_LBA0 (u8 lba)) as (P4 & M4 & T4); [set_solver|done|]. set (d4 := outb ATA_LBA0 _ _) in *.
  destruct (ata_task d4 ATA_LBA1 (u8 (Z.shiftr lba 8))) as (P5 & M5 & T5); [set_solver|done|]. set (d5 := outb ATA_LBA1 _ _) in *.
  destruct (ata_task d5 ATA_LBA2 (u8 (Z.shiftr lba 16))) as (P6 & M6 & T6); [set_solver|done|]. set (d6 := outb ATA_LBA2 _ _) in *.
  exists d6. split; [done|]. split; [done|]. split; [intros l; by rewrite M6, M5, M4, M3, M2, M1|].
  unfold selects_one, task_lba. rewrite !T6, !T5, !T4, !T3, !T2, !T1. cbn [Z.eqb Pos.eqb ATA_SECTOR_COUNT ATA_DRIVE ATA_LBA0 ATA_LBA1 ATA_LBA2].
  split; [split; [reflexivity|exact Hd]|exact Hb].
Qed.

(** ** Moving the data *)
(** Byte [j] of a sector of 16-bit words, the low byte of each first. *)
Definition sector_byte (ws : list Z) (j : Z) : Z := u8 (Z.shiftr ws.[j / 2] (8 * (j mod 2))).

Lemma drop_word k (ws : list Z) : 0 <= k < Z.of_nat (length ws) -> drop (Z.to_nat k) ws = ws.[k] :: drop (Z.to_nat (k + 1)) ws.
Proof.
  intros Hk. rewrite Z2Nat.inj_add by lia. rewrite Nat.add_1_r. apply drop_S. apply lookup_aget. lia.
Qed.

Lemma put_word_get off k x buf j :
  0 <= off + 2 * k -> off + 2 * k + 1 < Z.of_nat (length buf) -> 0 <= j ->
  (put_word off k x buf).[j] =
    if j =? off + 2 * k + 1 then u8 (Z.shiftr x 8) else if j =? off + 2 * k then u8 x else buf.[j].
Proof.
  intros Hlo Hhi Hj. unfold put_word. rewrite aget_aset by (rewrite ?aset_length; lia).
  rewrite (Z.eqb_sym j (off + 2 * k + 1)). destruct (Z.eqb_spec (off + 2 * k + 1) j); [done|].
  rewrite aget_aset by lia. by rewrite Z.eqb_sym.
Qed.

Lemma in_words_ok off ws buf d :
  phase_of d = DataIn ws -> length ws = 256%nat -> 0 <= off -> off + 512 <= Z.of_nat (length buf) ->
  exists buf' d', in_words off (buf, d) = (buf', d') /\ phase_of d' = Ready /\ same_drive d d' /\ length buf' = length buf /\
    forall j, 0 <= j -> buf'.[j] = if (off <=? j) && (j <? off + 512) then sector_byte ws (j - off) else buf.[j].
Proof.
  intros Hp Hw Ho Hb. unfold in_words.
  set (body := fun i '(buf, d) => _).
  set (P := fun k (bd : list Z * D) =>
    phase_of bd.2 = (if k =? 256 then Ready else DataIn (drop (Z.to_nat k) ws)) /\ same_drive d bd.2 /\ length bd.1 = length buf /\
    forall j, 0 <= j -> bd.1.[j] = if (off <=? j) && (j <? off + 2 * k) then sector_byte ws (j - off) else buf.[j]).
  enough (P 256 (for_range 0 256 body (buf, d))) as Hend.
  { destruct (for_range 0 256 body (buf, d)) as [b' d']. destruct Hend as (A & B & C & F). by exists b', d'. }
  apply (for_range_ind P); unfold P; [lia| |].
  - cbn [Z.eqb fst snd]. split; [exact Hp|]. split; [done|]. split; [done|]. intros j Hj.
    destruct (Z.leb_spec off j), (Z.ltb_spec j (off + 2 * 0)); cbn [andb]; done || lia.
  - intros k [b1 d1] Hk (A & B & C & F). cbn [fst snd] in *. destruct (Z.eqb_spec k 256); [lia|].
    rewrite (drop_word k ws) in A by lia. destruct (ata_data_in _ _ _ A) as (d2 & E & S2 & P2).
    unfold body. rewrite E. cbn [fst snd]. split; [|split; [by etrans|split; [by unfold put_word; rewrite !aset_length|]]].
    + destruct (Z.eqb_spec (k + 1) 256) as [Ek|Ek].
      * rewrite Ek in P2. change (Z.to_nat 256) with 256%nat in P2. by rewrite drop_ge in P2 by lia.
      * rewrite (drop_word (k + 1) ws) in P2 |- * by lia. exact P2.
    + intros j Hj. rewrite put_word_get by lia. rewrite F by done. unfold sector_byte.
      destruct (Z.eqb_spec j (off + 2 * k + 1)) as [->|].
      { replace (off + 2 * k + 1 - off) with (1 + k * 2) by lia. rewrite Z.div_add, Z.mod_add by lia.
        change (8 * (1 mod 2)) with 8. change (1 / 2) with 0.
        destruct (Z.leb_spec off (off + 2 * k + 1)), (Z.ltb_spec (off + 2 * k + 1) (off + 2 * (k + 1))); try lia. done. }
      destruct (Z.eqb_spec j (off + 2 * k)) as [->|].
      { replace (off + 2 * k - off) with (0 + k * 2) by lia. rewrite Z.div_add, Z.mod_add by lia.
        change (8 * (0 mod 2)) with 0. change (0 / 2) with 0. rewrite Z.shiftr_0_r.
        destruct (Z.leb_spec off (off + 2 * k)), (Z.ltb_spec (off + 2 * k) (off + 2 * (k + 1))); try lia. done. }
      destruct (Z.leb_spec off j), (Z.ltb_spec j (off + 2 * k)), (Z.ltb_spec j (off + 2 * (k + 1))); cbn [andb]; done || lia.
Qed.

(** The words of the sector-sized piece of a buffer at [off]. *)
Definition words_of (off : Z) (buf : list Z) : list Z := (fun i => word_at off i buf) <$> seqZ 0 256.

Lemma word_at_u16 off i buf : Forall is_u8 buf -> is_u16 (word_at off i buf).
Proof.
  intros Hb. assert (forall o, is_u8 buf.[o]) as Hu by (intros o; apply Forall_aget_default; [done|split; [done|reflexivity]]).
  unfold word_at. rewrite le16_add by apply Hu. pose proof (Hu (off + 2 * i)). pose proof (Hu (off + 2 * i + 1)).
  unfold is_u8, is_u16 in *. lia.
Qed.

Lemma out_words_ok off buf d :
  phase_of d = DataOut [] -> Forall is_u8 buf ->
  let d' := out_words off buf d in
  (exists n, quick n /\ phase_of d' = Busy n Ready) /\
  forall l, words_at d' l = if l =? task_lba d then words_of off buf else words_at d l.
Proof.
  intros Hp Hb d'. unfold d', out_words. change 256 with (255 + 1). rewrite for_range_snoc by lia.
  set (f := fun k => (fun i => word_at off i buf) <$> seqZ 0 k).
  assert (forall k, Forall is_u16 (f k)) as Hf.
  { intros k. apply Forall_fmap, Forall_forall. intros i _. by apply word_at_u16. }
  assert (forall k, 0 <= k -> f (k + 1) = f k ++ [word_at off k buf]) as Hsnoc.
  { intros k Hk. unfold f. rewrite seqZ_app, fmap_app by lia.
    assert (seqZ (0 + k) 1 = [k]) as -> by (rewrite seqZ_cons, seqZ_nil by lia; done). done. }
  set (d1 := for_range 0 255 _ d).
  assert (phase_of d1 = DataOut (f 255) /\ same_drive d d1) as [P1 [M1 T1]].
  { apply (for_range_ind (fun k d1 => phase_of d1 = DataOut (f k) /\ same_drive d d1)); [lia|by split|].
    intros k d0 Hk [P S]. destruct (ata_data_out d0 (word_at off k buf) (f k)) as [P' S'];
      [done|by apply word_at_u16|unfold f; rewrite length_fmap, length_seqZ; lia|].
    rewrite Hsnoc by lia. split; [done|]. by etrans. }
  destruct (ata_data_last d1 (word_at off 255 buf) (f 255)) as (Hn & T2 & M2);
    [done|by apply word_at_u16|apply Hf|by unfold f; rewrite length_fmap, length_seqZ|].
  split; [exact Hn|]. intros l. rewrite M2.
  assert (task_lba d1 = task_lba d) as -> by (unfold task_lba; by rewrite !T1).
  rewrite <- Hsnoc by lia. destruct (l =? task_lba d); [done|apply M1].
Qed.

(** ** One sector *)
Record ready w : Prop := { rd_present : apresent w = true; rd_phase : phase_of (device w) = Ready }.
Definition ata_byte w (l j : Z) : Z := sector_byte (words_at (device w) l) j.

Lemma transfer_read lba off buf w :
  ready w -> 0 <= lba < LBA_END -> 0 <= off -> off + 512 <= Z.of_nat (length buf) ->
  exists buf' w', ata_transfer lba off false buf w = (0, buf', w') /\ ready w' /\ same_media (device w) (device w') /\
    length buf' = length buf /\
    forall j, 0 <= j -> buf'.[j] = if (off <=? j) && (j <? off + 512) then ata_byte w lba (j - off) else buf.[j].
Proof.
  intros [Hpr Hph] Hl Ho Hb. unfold ata_transfer. rewrite Hpr. cbn [negb].
  destruct (select_ok lba (device w) Hl Hph) as (d1 & -> & P1 & M1 & S1 & L1). cbn [negb Z.eqb].
  destruct (ata_cmd_read d1 P1 S1) as [[M2 _] (n & Hq & P2)]. rewrite L1 in P2.
  destruct (wait_reaches n _ _ ATA_STATUS_DRQ P2 Hq eq_refl (or_intror (conj eq_refl eq_refl))) as (d3 & -> & P3 & [M3 _]).
  cbn [negb Z.eqb]. destruct (ata_words d1 lba) as [Hlen _].
  destruct (in_words_ok off _ buf d3 P3 Hlen Ho Hb) as (b4 & d4 & -> & P4 & [M4 _] & Hl4 & F4).
  exists b4, (mkAta true d4). split; [done|]. split; [by split|].
  split; [intros l; cbn [device]; by rewrite M4, M3, M2, M1|]. split; [done|].
  intros j Hj. rewrite F4 by done. unfold ata_byte. by rewrite M1.
Qed.

Lemma transfer_write lba off buf w :
  ready w -> 0 <= lba < LBA_END -> Forall is_u8 buf ->
  exists w', ata_transfer lba off true buf w = (0, buf, w') /\ ready w' /\
    forall l, words_at (device w') l = if l =? lba then words_of off buf else words_at (device w) l.
Proof.
  intros [Hpr Hph] Hl Hb. unfold ata_transfer. rewrite Hpr. cbn [negb].
  destruct (select_ok lba (device w) Hl Hph) as (d1 & -> & P1 & M1 & S1 & L1). cbn [negb Z.eqb].
  destruct (ata_cmd_write d1 P1 S1) as [[M2 T2] (n & Hq & P2)].
  destruct (wait_reaches n _ _ ATA_STATUS_DRQ P2 Hq eq_refl (or_intror (conj eq_refl eq_refl))) as (d3 & -> & P3 & [M3 T3]).
  cbn [negb Z.eqb].
  assert (task_lba d3 = lba) as L3 by (rewrite <- L1; unfold task_lba; by rewrite !T3, !T2).
  destruct (out_words_ok off buf d3 P3 Hb) as [(m & Hm & P4) M4]. rewrite L3 in M4.
  destruct (ata_cmd_flush _ m P4) as [[M5 _] (m' & Hm' & P5)].
  destruct (wait_reaches m' _ _ 0 P5 Hm' eq_refl (or_introl eq_refl)) as (d6 & -> & P6 & [M6 _]).
  exists (mkAta true d6). split; [done|]. split; [by split|]. intros l. cbn [device].
  rewrite M6, M5, M4. destruct (l =? lba); [done|]. by rewrite M3, M2, M1.
Qed.

(** ** Many sectors *)
Lemma sectors_read n lba i buf w :
  ready w -> 0 <= lba -> 0 <= i -> lba + i + Z.of_nat n <= LBA_END -> (i + Z.of_nat n) * 512 <= Z.of_nat (length buf) ->
  exists buf' w', ata_sectors n lba i false buf w = (0, buf', w') /\ ready w' /\ same_media (device w) (device w') /\
    length buf' = length buf /\
    forall j, 0 <= j -> buf'.[j] = if (i * 512 <=? j) && (j <? (i + Z.of_nat n) * 512)
                                   then ata_byte w (lba + j / 512) (j mod 512) else buf.[j].
Proof.
  revert i buf w. induction n as [|n IH]; intros i buf w Hw Hl Hi He Hb; cbn [ata_sectors].
  { exists buf, w. split; [done|]. split; [done|]. split; [done|]. split; [done|]. intros j Hj.
    destruct (Z.leb_spec (i * 512) j), (Z.ltb_spec j ((i + Z.of_nat 0) * 512)); cbn [andb]; done || lia. }
  destruct (transfer_read (lba + i) (i * 512) buf w Hw) as (b1 & w1 & -> & Hw1 & M1 & L1 & F1); try lia.
  cbn [negb Z.eqb]. destruct (IH (i + 1) b1 w1 Hw1) as (b2 & w2 & -> & Hw2 & M2 & L2 & F2); try lia.
  exists b2, w2. split; [done|]. split; [done|]. split; [intros l; by rewrite M2, M1|]. split; [congruence|].
  intros j Hj. rewrite F2, F1 by done. unfold ata_byte. rewrite M1.
  destruct (Z.leb_spec ((i + 1) * 512) j), (Z.ltb_spec j ((i + 1 + Z.of_nat n) * 512)), (Z.leb_spec (i * 512) j),
    (Z.ltb_spec j (i * 512 + 512)), (Z.ltb_spec j ((i + Z.of_nat (Datatypes.S n)) * 512)); cbn [andb]; try done; try lia.
  all: assert (j / 512 = i) as -> by (symmetry; apply (Z.div_unique _ _ _ (j - i * 512)); lia).
  all: rewrite Z.mod_eq by lia; assert (j / 512 = i) as -> by (symmetry; apply (Z.div_unique _ _ _ (j - i * 512)); lia).
  all: f_equal; lia.
Qed.

Lemma sectors_write n lba i buf w :
  ready w -> 0 <= lba -> 0 <= i -> lba + i + Z.of_nat n <= LBA_END -> Forall is_u8 buf ->
  exists w', ata_sectors n lba i true buf w = (0, buf, w') /\ ready w' /\
    forall l, words_at (device w') l = if (lba + i <=? l) && (l <? lba + i + Z.of_nat n)
                                       then words_of ((l - lba) * 512) buf else words_at (device w) l.
Proof.
  revert i w. induction n as [|n IH]; intros i w Hw Hl Hi He Hb; cbn [ata_sectors].
  { exists w. split; [done|]. split; [done|]. intros l.
    destruct (Z.leb_spec (lba + i) l), (Z.ltb_spec l (lba + i + Z.of_nat 0)); cbn [andb]; done || lia. }
  destruct (transfer_write (lba + i) (i * 512) buf w Hw) as (w1 & -> & Hw1 & F1); [lia|done|].
  cbn [negb Z.eqb]. destruct (IH (i + 1) w1 Hw1) as (w2 & -> & Hw2 & F2); [lia|lia|lia|done|].
  exists w2. split; [done|]. split; [done|]. intros l. rewrite F2, F1.
  destruct (Z.leb_spec (lba + (i + 1)) l), (Z.ltb_spec l (lba + (i + 1) + Z.of_nat n)), (Z.eqb_spec l (lba + i)),
    (Z.leb_spec (lba + i) l), (Z.ltb_spec l (lba + i + Z.of_nat (Datatypes.S n))); cbn [andb]; try done; try lia.
  f_equal. lia.
Qed.

Lemma words_of_byte off buf j : 0 <= j < 512 -> Forall is_u8 buf -> sector_byte (words_of off buf) j = buf.[off + j].
Proof.
  intros Hj Hb. assert (forall o, is_u8 buf.[o]) as Hu by (intros o; apply Forall_aget_default; [done|split; [done|reflexivity]]).
  unfold sector_byte, words_of. assert (0 <= j / 2 < 256) as Hw by (split; [apply Z.div_pos|apply Z.div_lt_upper_bound]; lia).
  rewrite aget_fmap_seqZ by lia. replace (0 + j / 2) with (j / 2) by lia. unfold word_at. rewrite le16_add by apply Hu.
  pose proof (Hu (off + 2 * (j / 2))) as Ha. pose proof (Hu (off + 2 * (j / 2) + 1)) as Hc. unfold is_u8, u8 in *.
  assert (j mod 2 = 0 \/ j mod 2 = 1) as [E | E] by (Z.to_euclidean_division_equations; lia); rewrite E.
  - rewrite Z.shiftr_0_r. replace (off + j) with (off + 2 * (j / 2)) by (Z.to_euclidean_division_equations; lia).
    generalize dependent (buf.[off + 2 * (j / 2)]). generalize dependent (buf.[off + 2 * (j / 2) + 1]). intros x Hx y Hy.
    rewrite Z.mod_add by lia. by apply Z.mod_small.
  - rewrite shiftr_div by lia. change (2 ^ (8 * 1)) with 256.
    replace (off + j) with (off + 2 * (j / 2) + 1) by (Z.to_euclidean_division_equations; lia).
    generalize dependent (buf.[off + 2 * (j / 2)]). generalize dependent (buf.[off + 2 * (j / 2) + 1]). intros x Hx y Hy.
    rewrite Z.div_add, (Z.div_small y) by lia. by apply Z.mod_small.
Qed.


(** ** Identification *)
Lemma land_8 s : Z.land s 8 = 0 \/ Z.land s 8 = 8.
Proof.
  change 8 with (Z.shiftl 1 3). assert (Z.land s (Z.shiftl 1 3) = if Z.testbit s 3 then Z.shiftl 1 3 else 0) as ->.
  { apply Z.bits_inj'. intros k Hk. rewrite Z.land_spec, testbit_one_shl by lia.
    destruct (Z.eqb_spec k 3) as [->|Hne].
    - rewrite andb_true_r. by destruct (Z.testbit s 3).
    - rewrite andb_false_r. destruct (Z.testbit s 3); [|by rewrite Z.bits_0].
      rewrite testbit_one_shl by lia. by destruct (Z.eqb_spec k 3). }
  destruct (Z.testbit s 3); tauto.
Qed.

(** The identify loop waits for the same thing as the wait for data. *)
Lemma identify_poll_eq n d : identify_poll n d = ((ata_poll n ATA_STATUS_DRQ d).1 =? 0, (ata_poll n ATA_STATUS_DRQ d).2).
Proof.
  revert d. induction n as [|n IH]; intros d; cbn [identify_poll ata_poll]; [done|].
  destruct (inb ATA_STATUS d) as [s d']. destruct (negb _); [done|].
  assert (negb (Z.land s ATA_STATUS_DRQ =? 0) = (Z.land s ATA_STATUS_DRQ =? ATA_STATUS_DRQ)) as ->.
  { unfold ATA_STATUS_DRQ. by destruct (land_8 s) as [-> | ->]. }
  by destruct (_ && _).
Qed.

Lemma in_words_device n lo d b : lo + Z.of_nat n = 256 ->
  exists b', for_range lo 256 (fun i '(buf, d) => let '(x, d) := inw ATA_DATA d in (put_word 0 i x buf, d)) (b, d) =
             (b', for_range lo 256 (fun _ d => (inw ATA_DATA d).2) d).
Proof.
  revert lo d b. induction n as [|n IH]; intros lo d b Hn.
  - exists b. by rewrite !for_range_nil by lia.
  - rewrite !(for_range_cons lo) by lia. destruct (inw ATA_DATA d) as [x d1]. apply IH. lia.
Qed.

Lemma skip_words ws d :
  phase_of d = DataIn ws -> length ws = 256%nat ->
  let d' := for_range 0 256 (fun _ d => (inw ATA_DATA d).2) d in phase_of d' = Ready /\ same_media d d'.
Proof.
  intros Hp Hw. destruct (in_words_device 256 0 d (replicate 512 0) eq_refl) as [b E].
  destruct (in_words_ok 0 ws (replicate 512 0) d Hp Hw) as (b' & d' & E' & P & [M _] & _); [lia|by rewrite length_replicate|].
  unfold in_words in E'. rewrite E in E'. injection E' as _ <-. done.
Qed.

(** A drive that answers is found, registered with the sector layer and left ready. *)
Lemma ata_init_finds b w :
  phase_of (device w) = Ready ->
  exists w', ata_init b w = (0, (block_register (Some (ata_block true)) b).2, w') /\ ready w' /\
    same_media (device w) (device w').
Proof.
  intros Hr. unfold ata_init.
  destruct (ata_task (device w) ATA_DRIVE 160) as (P1 & M1 & _); [set_solver|done|]. set (d1 := outb ATA_DRIVE _ _) in *.
  destruct (delay_keeps d1) as [P2 [M2 _]]. set (d2 := ata_delay d1) in *. rewrite P1 in P2.
  destruct (ata_task d2 ATA_SECTOR_COUNT 0) as (P3 & M3 & _); [set_solver|done|]. set (d3 := outb ATA_SECTOR_COUNT _ _) in *.
  destruct (ata_task d3 ATA_LBA0 0) as (P4 & M4 & _); [set_solver|done|]. set (d4 := outb ATA_LBA0 _ _) in *.
  destruct (ata_task d4 ATA_LBA1 0) as (P5 & M5 & _); [set_solver|done|]. set (d5 := outb ATA_LBA1 _ _) in *.
  destruct (ata_task d5 ATA_LBA2 0) as (P6 & M6 & _); [set_solver|done|]. set (d6 := outb ATA_LBA2 _ _) in *.
  destruct (ata_cmd_identify d6 P6) as [M7 (n & ws & Hq & Hw & P7)]. set (d7 := outb ATA_COMMAND _ _) in *.
  assert (exists s d8 m, inb ATA_STATUS d7 = (s, d8) /\ s <> 0 /\ s <> 255 /\ same_media d7 d8 /\ quick m /\
    (phase_of d8 = Busy m (DataIn ws) \/ m = O /\ phase_of d8 = DataIn ws)) as (s & d8 & m & -> & Hs0 & Hs1 & M8 & Hm & P8).
  { destruct n as [|n].
    - destruct (ata_done d7 _ (or_introl P7) eq_refl) as (s & d8 & -> & H33 & _ & H8 & P8 & [M8 _]). exists s, d8, O.
      split; [done|]. split; [by intros ->|]. split; [by intros ->|]. split; [done|]. split; [done|]. by right.
    - destruct (ata_busy d7 n _ P7) as (s & d8 & -> & H33 & H128 & P8 & [M8 _]). exists s, d8, n.
      split; [done|]. split; [by intros ->|]. split; [by intros ->|]. split; [done|]. split; [unfold quick in *; lia|]. by left. }
  destruct (Z.eqb_spec s 0); [done|]. destruct (Z.eqb_spec s 255); [done|]. cbn [orb].
  rewrite identify_poll_eq.
  destruct (poll_reaches m (Z.to_nat ATA_TIMEOUT) d8 (DataIn ws) ATA_STATUS_DRQ P8 eq_refl (or_intror (conj eq_refl eq_refl)))
    as (d9 & -> & P9 & [M9 _]); [unfold quick in Hm; lia|]. cbn [fst snd Z.eqb negb].
  destruct (skip_words ws d9 P9 Hw) as [P10 M10]. eexists. split; [reflexivity|]. split; [by split|].
  intros l. cbn [device]. rewrite M10, M9, M8, M7. unfold d6 in M6. by rewrite M6, M5, M4, M3, M2, M1.
Qed.
End correct.

(** Without a drive, or outside the 28-bit range, a request fails and no port is touched. *)
Lemma ata_refuses {D} `{Ports D} lba buf n (w : ata D) :
  apresent w = false \/ bad_request lba n = true ->
  0 < n -> ata_read lba (Some buf) n w = (-1, buf, w) /\ ata_write lba (Some buf) n w = (-1, w).
Proof.
  intros Hr Hn. unfold ata_read, ata_write. destruct (bad_request lba n) eqn:Hb; [done|]. destruct Hr as [Hr|]; [|done].
  destruct (Z.to_nat n) as [|m] eqn:Em; [lia|]. cbn [ata_sectors]. unfold ata_transfer. by rewrite Hr.
Qed.

(** ** A reference drive

    It is busy for three status reads after each command and after the last word. *)
Record drive := mkDrive { task : gmap Z Z; dphase : phase; sectors : gmap Z (list Z) }.

Definition drive_words (x : drive) (l : Z) : list Z :=
  (fun j => u16 (default [] (sectors x !! l)).[j]) <$> seqZ 0 256.
Definition drive_task (x : drive) (p : Z) : Z := default 0 (task x !! p).
#[global] Instance drive_view : AtaDrive drive := {
  taskfile := drive_task; phase_of := dphase; words_at := drive_words;
}.

Definition settle (p : phase) : phase := match p with Busy 0 p => p | Busy (S n) p => Busy n p | p => p end.
Definition status_of (p : phase) : Z :=
  match p with Busy (S _) _ => 128 | _ => if wants_data (settle p) then 72 else 64 end.
Definition set_phase (p : phase) (x : drive) : drive := mkDrive (task x) p (sectors x).

Definition drive_command (c : Z) (x : drive) : drive :=
  if c =? ATA_CMD_READ then set_phase (Busy 3 (DataIn (words_at x (task_lba x)))) x
  else if c =? ATA_CMD_WRITE then set_phase (Busy 3 (DataOut [])) x
  else if c =? ATA_CMD_IDENTIFY then set_phase (Busy 3 (DataIn (replicate 256 0))) x
  else if c =? ATA_CMD_CACHE_FLUSH then set_phase (Busy 3 Ready) x
  else x.
#[global] Instance drive_ports : Ports drive := {
  inb p x := if p =? ATA_STATUS then (status_of (dphase x), set_phase (settle (dphase x)) x) else (status_of (dphase x), x);
  outb p v x := if p =? ATA_COMMAND then drive_command v x else mkDrive (<[p := v]> (task x)) (dphase x) (sectors x);
  inw p x := match dphase x with
             | DataIn (w :: ws) => (w, set_phase (match ws with [] => Ready | _ => DataIn ws end) x)
             | _ => (0, x)
             end;
  outw p v x := match dphase x with
                | DataOut ws =>
                    if (length ws <? 255)%nat then set_phase (DataOut (ws ++ [v])) x
                    else mkDrive (task x) (Busy 3 Ready) (<[task_lba x := ws ++ [v]]> (sectors x))
                | _ => x
                end;
}.

Lemma drive_words_written x l ws : length ws = 256%nat -> Forall is_u16 ws ->
  drive_words (mkDrive (task x) (Busy 3 Ready) (<[l := ws]> (sectors x))) l = ws.
Proof.
  intros Hl Hu. unfold drive_words. cbn [sectors]. rewrite lookup_insert_eq. apply list_eq_same_length with 256%nat; [done|by rewrite length_fmap, length_seqZ|].
  intros i a b Hi. rewrite list_lookup_fmap, lookup_seqZ_lt by lia. intros [= <-] Hb. cbn [default].
  rewrite (aget_lookup ws (0 + Z.of_nat i) b) by (lia || by rewrite Z.add_0_l, Nat2Z.id).
  apply Z.mod_small. apply (Forall_lookup_1 _ _ _ _ Hu Hb).
Qed.

#[global] Instance drive_protocol : AtaProtocol drive.
Proof.
  split.
  - intros x l. cbn [words_at drive_view]. unfold drive_words. split; [by rewrite length_fmap, length_seqZ|]. apply Forall_fmap, Forall_forall. intros j _.
    unfold is_u16, u16, compose. apply Z.mod_pos_bound. lia.
  - done.
  - intros x p v Hp Hr. assert ((p =? ATA_COMMAND) = false) as Ec by (unfold task_ports in Hp; rewrite !elem_of_cons, elem_of_nil in Hp; naive_solver).
    cbn [outb drive_ports]. rewrite Ec. split; [exact Hr|]. split; [done|]. intros q. cbn [taskfile drive_view]. unfold drive_task. cbn [task].
    destruct (Z.eqb_spec q p) as [->|]; [by rewrite lookup_insert_eq|by rewrite lookup_insert_ne].
  - intros x n p Hp. cbn [phase_of drive_view] in Hp. eexists _, _. split; [cbn [inb drive_ports Z.eqb Pos.eqb ATA_STATUS]; reflexivity|].
    rewrite Hp. done.
  - intros x p Hp Hn. eexists _, _. split; [cbn [inb drive_ports Z.eqb Pos.eqb ATA_STATUS]; reflexivity|]. cbn [phase_of drive_view] in *.
    assert (settle (dphase x) = p /\ status_of (dphase x) = if wants_data p then 72 else 64) as [-> ->]
      by (destruct Hp as [-> | ->]; destruct p; done).
    by destruct (wants_data p).
  - intros x Hr Hs. split; [done|]. exists 3%nat. done.
  - intros x Hr Hs. split; [done|]. exists 3%nat. done.
  - intros x w ws Hp. cbn [phase_of drive_view] in Hp. cbn [inw drive_ports]. rewrite Hp. eexists. done.
  - intros x w ws Hp _ Hl. cbn [phase_of drive_view] in Hp. cbn [outw drive_ports]. rewrite Hp.
    destruct (Nat.ltb_spec (length ws) 255); [|lia]. done.
  - intros x w ws Hp Hw Hws Hl. cbn [phase_of drive_view] in Hp. cbn [outw drive_ports]. rewrite Hp.
    destruct (Nat.ltb_spec (length ws) 255); [lia|]. split; [by exists 3%nat|]. split; [done|]. intros l.
    cbn [words_at drive_view]. destruct (Z.eqb_spec l (task_lba x)) as [->|Hne].
    + apply drive_words_written; [rewrite length_app; cbn; lia|apply Forall_app; by split; [|constructor]].
    + unfold drive_words. cbn [sectors]. by rewrite lookup_insert_ne by done.
  - intros x n Hp. split; [done|]. by exists 3%nat.
  - intros x Hr. split; [done|]. by exists 3%nat, (replicate 256 0).
Qed.

Definition demo_drive : ata drive := mkAta true (mkDrive ∅ Ready {[5 := 4660 :: replicate 255 7]}).

