(* ===== verification/AtaDisk.v ===== *)
(** The ATA driver as a device of the sector layer: registered as the default device, it
    satisfies [DiskLaws], the contract the journal, FAT32 and the raw descriptor are proved
    against. *)
From S2P Require Import Prelude Block Ata AtaTheorems.

Section disk.
Context {D : Type} `{AtaProtocol D}.
Implicit Types w : ata D.

(** The bytes of sector [l]. *)
Definition ata_sector w (l : Z) : list Z := sector_byte (words_at (device w) l) <$> seqZ 0 512.

Lemma ata_sector_length w l : length (ata_sector w l) = 512%nat.
Proof. unfold ata_sector. by rewrite length_fmap, length_seqZ. Qed.

Lemma ata_sector_get w l j : 0 <= j < 512 -> (ata_sector w l).[j] = ata_byte w l j.
Proof. intros Hj. unfold ata_sector. by rewrite aget_fmap_seqZ by lia. Qed.

Lemma one_sector lba : 0 <= lba < LBA_END -> bad_request lba 1 = false.
Proof. intros Hl. unfold bad_request. const_lia. Qed.

Lemma ata_read_sector_spec lba buf w :
  ready w -> 0 <= lba < LBA_END -> (512 <= length buf)%nat ->
  exists w', ata_read_sector lba buf w = (0, ata_sector w lba ++ drop 512 buf, w') /\ ready w' /\
    forall l, ata_sector w' l = ata_sector w l.
Proof.
  intros Hw Hl Hb. unfold ata_read_sector, ata_read. rewrite one_sector by done.
  destruct (sectors_read 1 lba 0 buf w Hw) as (buf' & w' & E & Hw' & M & L & F); [lia..|].
  change (Z.to_nat 1) with 1%nat. rewrite E. exists w'. split; [|split; [done|]].
  - do 2 f_equal. apply list_aget_eq.
    { rewrite length_app, ata_sector_length, length_drop. lia. }
    intros j Hj. rewrite F by lia. destruct (Z.leb_spec (0 * 512) j); [|lia].
    destruct (Z.ltb_spec j ((0 + Z.of_nat 1) * 512)) as [Hin|Hout]; cbn [andb].
    + rewrite aget_app_l, ata_sector_get by (rewrite ?ata_sector_length; lia).
      rewrite Z.div_small, Z.mod_small, Z.add_0_r by lia. done.
    + rewrite aget_app_r by (rewrite ata_sector_length; lia). rewrite ata_sector_length, aget_drop by lia.
      f_equal. lia.
  - intros l. unfold ata_sector. apply list_fmap_ext. intros i j _. by rewrite M.
Qed.

Lemma ata_write_sector_spec lba buf w :
  ready w -> 0 <= lba < LBA_END -> (512 <= length buf)%nat -> Forall is_u8 buf ->
  exists w', ata_write_sector lba buf w = (0, w') /\ ready w' /\
    forall l, ata_sector w' l = if l =? lba then take 512 buf else ata_sector w l.
Proof.
  intros Hw Hl Hb Hu. unfold ata_write_sector, ata_write. rewrite one_sector by done.
  destruct (sectors_write 1 lba 0 buf w Hw) as (w' & E & Hw' & F); [lia..|done|].
  change (Z.to_nat 1) with 1%nat. rewrite E. exists w'. split; [done|]. split; [done|].
  intros l. unfold ata_sector. rewrite F.
  destruct (Z.leb_spec (lba + 0) l), (Z.ltb_spec l (lba + 0 + Z.of_nat 1)), (Z.eqb_spec l lba); try lia; try done.
  cbn [andb]. subst l. apply list_aget_eq.
  { rewrite length_fmap, length_seqZ, length_take. lia. }
  intros j. rewrite length_fmap, length_seqZ. intros Hj. rewrite aget_fmap_seqZ by lia.
  rewrite words_of_byte by (lia || done). unfold aget at 2. rewrite list_lookup_total_alt, lookup_take_lt by lia.
  rewrite <- list_lookup_total_alt. unfold aget. f_equal. lia.
Qed.

(** Any layer whose default device is the drive. *)
#[global] Instance ata_disk (b : block (ata D)) : Disk (ata D) b :=
  { sector_at := ata_sector; disk_end := LBA_END; disk_ready := ready }.

Lemma ata_disk_laws (b : block (ata D)) : block_default b = Some (ata_block true) -> DiskLaws (ata D) b.
Proof.
  intros Hb. split.
  - by rewrite Hb.
  - by rewrite Hb.
  - done.
  - apply ata_sector_length.
  - intros w l. apply Forall_u8_fmap. intros j. apply u8_range.
  - intros w l buf. unfold block_read_sector. rewrite Hb. apply ata_read_sector_spec.
  - intros w l buf. unfold block_write_sector. rewrite Hb. apply ata_write_sector_spec.
Qed.

(** After boot the drive is the first and only device, and takes requests. *)
Lemma ata_boot_disk (b0 : block (ata D)) w :
  phase_of (device w) = Ready ->
  exists b w', ata_init (block_init b0) w = (0, b, w') /\ block_default b = Some (ata_block true) /\ ready w' /\
    forall l, ata_sector w' l = ata_sector w l.
Proof.
  intros Hr. destruct (ata_init_finds (block_init b0) w Hr) as (w' & -> & Hw' & M).
  eexists _, w'. split; [reflexivity|]. split; [reflexivity|]. split; [done|].
  intros l. unfold ata_sector. apply list_fmap_ext. intros i j _. by rewrite M.
Qed.
End disk.
