(* ===== verification/Storage.v ===== *)
(** The storage stack put together: the ATA driver of [drivers/ata/ata.c] under the sector
    layer, with FAT32 ([fs/fat32/fat32.c]) and the journal ([fs/journal.c]) on top, in the
    order in which [kmain] starts them. *)
From S2P Require Import Prelude Block Journal Fat32 FatDir Ata AtaTheorems AtaDisk.

Section stack.
Context {D : Type} `{AtaProtocol D}.
Implicit Types w : ata D.

(** The layer after [block_init] and [ata_init] with a drive. *)
Definition ata_layer (b0 : block (ata D)) : block (ata D) := (block_register (Some (ata_block true)) (block_init b0)).2.

#[local] Instance layer_laws b0 : DiskLaws (ata D) (ata_layer b0).
Proof. apply ata_disk_laws. reflexivity. Qed.

(** A valid boot sector gives a geometry the file theorems cover. *)
Lemma bpb_geometry part sec : Forall is_u8 sec -> bpb_valid sec = true ->
  bytes_per_sector (bpb_fat part sec) = 512 /\ 0 < sectors_per_cluster (bpb_fat part sec) < 256.
Proof.
  intros Hu Hv. unfold bpb_valid in Hv. rewrite !andb_true_iff in Hv. destruct Hv as ((((Hb & Hs) & _) & _) & _).
  cbn [bpb_fat bytes_per_sector sectors_per_cluster].
  assert (is_u8 sec.[13]) as H13 by (by apply Forall_aget_default). unfold is_u8 in H13.
  destruct (Z.eqb_spec sec.[13] 0); [done|]. lia.
Qed.

(** A file found in the directory is opened at its start. *)
Lemma dir_find_fresh name es file : dir_find name es = Some file -> directory file = false /\ position file = 0.
Proof.
  induction es as [|e es IH]; cbn [dir_find]; [done|].
  destruct (e.[0] =? 0); [done|]. destruct (is_file e && _); [by intros [= <-]|exact IH].
Qed.

(** Boot: the drive is found and its volume mounted. *)
Lemma ata_boot_mount b0 w f0 buf :
  phase_of (device w) = Ready -> length buf = 512%nat ->
  let part := partition_of (ata_sector w 0) in let sec := ata_sector w part in
  0 <= part < LBA_END -> bpb_valid sec = true ->
  exists w1 s1, ata_init (block_init b0) w = (0, ata_layer b0, w1) /\
    fat32_mount (ata_layer b0) (mkF f0 buf w1) = (0, s1) /\ at_fs (ata_layer b0) (bpb_fat part sec) w s1.
Proof.
  intros Hr Hbuf part sec Hpart Hv.
  destruct (ata_init_finds (block_init b0) w Hr) as (w1 & E0 & Hw1 & M). exists w1.
  assert (same_disk (b := ata_layer b0) w w1) as D1.
  { intros l. change (ata_sector w1 l = ata_sector w l). unfold ata_sector. apply list_fmap_ext. intros i j _. by rewrite M. }
  pose proof (fat32_mount_spec (ata_layer b0) (mkF f0 buf w1)) as Hm. cbn zeta in Hm. cbn [dev fs] in Hm.
  assert (sector_at w1 0 = ata_sector w 0) as S0 by exact (D1 0).
  assert (sector_at w1 part = sec) as Sp by exact (D1 part).
  rewrite S0 in Hm. fold part in Hm. rewrite Sp, Hv in Hm.
  destruct Hm as (s1 & E1 & S1 & U1 & F1); [by split|done|done|].
  exists s1. split; [exact E0|]. split; [exact E1|]. split_and!; [exact F1|by etrans|done].
Qed.

End stack.

(** ** The order of boot

    What [kmain] does with the storage of a machine whose only disk is the ATA drive, from
    [block_init] on: the other drivers find no device and leave the table as it is.  [junk]
    is the uninitialised record of [journal_replay]. *)
Section boot_order.
Context {D : Type} `{AtaProtocol D}.

Definition boot_storage (junk : list Z) (b0 : block (ata D)) (j0 : journal) (f0 : fat) (buf : list Z) (w : ata D)
  : journal * block (ata D) * fstate :=
  let b := block_init b0 in
  let j := (journal_init b 8 32 j0).2 in
  let w := (journal_replay b junk j w).2 in
  let '(_, b, w) := ata_init b w in
  (j, b, (fat32_mount b (mkF f0 buf w)).2).

(** [storage_smoke]: whether the text is sent. *)
Definition storage_smoke {W} (b : block W) (fuel : nat) (s : @fstate W) : option (bool * @fstate W) :=
  if fat32_is_mounted s then
    '(file, s) ← fat32_open b fuel (Some [72; 69; 76; 76; 79; 46; 84; 88; 84]) s;
    match file with
    | None => Some (false, s)
    | Some f => let '(n, _, _, s) := fat32_read_file b (Some f) 64 s in Some (0 <? n, s)
    end
  else Some (false, s).

(** The journal is set up before the drive is registered, so it stays off on such a
    machine: nothing is replayed at boot, and no write is ever logged. *)
Lemma journal_off_with_ata junk b0 j0 f0 buf w :
  let '(j, b, _) := boot_storage junk b0 j0 f0 buf w in
  journal_is_ready j = false /\
  forall reserved target sector w', journal_write b reserved target sector j w' = (-1, j, w').
Proof.
  unfold boot_storage. destruct (ata_init (block_init b0) _) as [[rc b] w1]. cbn [journal_init snd].
  split; [done|]. intros reserved target [sector|] w'; done.
Qed.
End boot_order.

(** ** A drive with a small volume

    The volume of [Fat32.demo_volume] behind a boot sector. *)
Definition demo_boot_sector : list Z :=
  replicate 11 0 ++ [0; 2; 1; 10; 0; 1] ++ replicate 19 0 ++ [10; 0; 0; 0] ++ replicate 4 0 ++ [2; 0; 0; 0].
Definition demo_media : ata drive := mkAta false (mkDrive ∅ Ready (words_of 0 <$> <[0 := demo_boot_sector]> demo_volume)).

