(* ===== verification/Serial.v ===== *)
(** The serial line, [drivers/serial/serial.c], and the output of the kernel to the screen
    and the line together: [kernel/panic.c] and the sending side of [kprintf].

    The port instructions work on the state of the device, as for the disk ([Ports]).
    What the driver relies on is the documented behaviour of a 16550 port, stated as laws
    ([Uart]): the status register tells when the holding register is free, and the
    line control register's top bit turns the data port into the divisor latch.  The
    wait for a free holding register is a loop without a limit, so the operations take
    the number of status reads they may make; the theorem says that a number is enough.
    A reference port satisfies the laws. *)
From S2P Require Import Prelude Block Ata Console.

(** ** The driver *)
Section serial.
Context {D : Type} `{Ports D}.
Implicit Types d : D.

Definition serial_init d : D :=
  let d := outb 1017 0 d in
  let d := outb 1019 128 d in
  let d := outb 1016 3 d in
  let d := outb 1017 0 d in
  let d := outb 1019 3 d in
  let d := outb 1018 199 d in
  outb 1020 11 d.

(** [while(!(inb(0x3fd)&0x20)){}] with at most [fuel] reads *)
Fixpoint serial_wait (fuel : nat) d : option D :=
  match fuel with
  | O => None
  | S fuel' =>
      let '(st, d) := inb 1021 d in
      if Z.land st 32 =? 0 then serial_wait fuel' d else Some d
  end.

(** The loop over the characters that are left. *)
Fixpoint serial_write_n (fuel : nat) (s : list Z) d : option D :=
  match s with
  | [] => Some d
  | c :: s => d ← serial_wait fuel d; serial_write_n fuel s (outb 1016 (u8 c) d)
  end.

(** [s] holds the characters up to the terminator. *)
Definition serial_write (fuel : nat) (s : list Z) d : option D := serial_write_n fuel s d.

Definition serial_read d : Z * D :=
  let '(st, d) := inb 1021 d in
  if Z.land st 1 =? 0 then (-1, d) else inb 1016 d.
End serial.

(** ** The port *)
Class Uart (D : Type) `{Ports D} := {
  sent : D -> list Z;         (* the characters sent so far *)
  received : D -> list Z;     (* the characters that wait to be read *)
  busy : D -> nat;            (* status reads until the holding register is free *)
  latch : D -> bool;          (* the data port is the divisor latch *)
  divisor : D -> Z;           (* the divisor latch *)
  uart_status d :
    let '(st, d') := inb 1021 d in
    (Z.land st 32 =? 0) = negb (busy d =? 0)%nat /\
    (Z.land st 1 =? 0) = bool_decide (received d = []) /\
    sent d' = sent d /\ received d' = received d /\ latch d' = latch d /\ divisor d' = divisor d /\
    busy d' = pred (busy d);
  uart_send d c : is_u8 c -> latch d = false -> busy d = 0%nat ->
    sent (outb 1016 c d) = sent d ++ [c] /\ received (outb 1016 c d) = received d /\
    latch (outb 1016 c d) = false /\ divisor (outb 1016 c d) = divisor d;
  uart_take d c l : latch d = false -> received d = c :: l ->
    let '(x, d') := inb 1016 d in
    x = c /\ received d' = l /\ sent d' = sent d /\ latch d' = false;
  uart_latch d v : is_u8 v ->
    latch (outb 1019 v d) = Z.testbit v 7 /\ divisor (outb 1019 v d) = divisor d /\
    sent (outb 1019 v d) = sent d;
  uart_divisor_low d v : is_u8 v -> latch d = true ->
    divisor (outb 1016 v d) = divisor d / 256 * 256 + v /\ latch (outb 1016 v d) = true /\
    sent (outb 1016 v d) = sent d;
  uart_divisor_high d v : is_u8 v ->
    divisor (outb 1017 v d) = (if latch d then divisor d mod 256 + 256 * v else divisor d) /\
    latch (outb 1017 v d) = latch d /\ sent (outb 1017 v d) = sent d;
  uart_control d p v : p = 1018 \/ p = 1020 ->
    latch (outb p v d) = latch d /\ divisor (outb p v d) = divisor d /\ sent (outb p v d) = sent d;
}.

Section theorems.
Context {D : Type} `{Uart D}.
Implicit Types d : D.

Lemma serial_wait_free fuel d :
  (busy d < fuel)%nat ->
  exists d', serial_wait fuel d = Some d' /\ busy d' = 0%nat /\ sent d' = sent d /\
    received d' = received d /\ latch d' = latch d /\ divisor d' = divisor d.
Proof.
  revert d. induction fuel as [|fuel IH]; intros d Hb; [lia|]. cbn [serial_wait].
  pose proof (uart_status d) as Hs. destruct (inb 1021 d) as [st d'].
  destruct Hs as (-> & _ & Hs & Hr & Hl & Hd & Hp).
  destruct (Nat.eqb_spec (busy d) 0); cbn [negb].
  - exists d'. split_and!; congruence || lia.
  - destruct (IH d' ltac:(lia)) as (d2 & E & Hb2 & Hs2 & Hr2 & Hl2 & Hd2).
    exists d2. split_and!; congruence.
Qed.

(** More status reads do not change the result of a wait that ends. *)
Lemma serial_wait_mono f f' d d' : (f <= f')%nat -> serial_wait f d = Some d' -> serial_wait f' d = Some d'.
Proof.
  revert f' d. induction f as [|f IH]; intros f' d Hf Hw; [discriminate|].
  destruct f' as [|f']; [lia|]. cbn [serial_wait] in *. destruct (inb 1021 d) as [st d1].
  destruct (Z.land st 32 =? 0); [apply IH; [lia|done]|done].
Qed.

Lemma serial_write_n_sends s : forall d,
  latch d = false ->
  exists n d', (forall fuel, (n <= fuel)%nat -> serial_write_n fuel s d = Some d') /\
    sent d' = sent d ++ (u8 <$> s) /\ received d' = received d /\ latch d' = false /\ divisor d' = divisor d.
Proof.
  induction s as [|c s IH]; intros d Hl.
  { exists 0%nat, d. split_and!; try done. by rewrite app_nil_r. }
  destruct (serial_wait_free (S (busy d)) d) as (d1 & E & Hb & Hs & Hr & Hl1 & Hd1); [lia|].
  rewrite Hl in Hl1. destruct (uart_send d1 (u8 c) (u8_range c) Hl1 Hb) as (Hs2 & Hr2 & Hl2 & Hd2).
  destruct (IH _ Hl2) as (n & d' & Hw & Hs3 & Hr3 & Hl3 & Hd3).
  exists (S (busy d) `max` n)%nat, d'. split_and!; try congruence.
  - intros fuel Hf. cbn [serial_write_n]. rewrite (serial_wait_mono (S (busy d)) fuel d d1 ltac:(lia) E).
    apply Hw. lia.
  - rewrite Hs3, Hs2, Hs. by rewrite <- app_assoc.
Qed.

Lemma serial_init_line d :
  latch (serial_init d) = false /\ divisor (serial_init d) = 3 /\ sent (serial_init d) = sent d.
Proof.
  unfold serial_init. cbn zeta.
  destruct (uart_divisor_high d 0 ltac:(done)) as (_ & _ & S1). set (d1 := outb 1017 0 d) in *.
  destruct (uart_latch d1 128 ltac:(done)) as (L2 & _ & S2). set (d2 := outb 1019 128 d1) in *.
  destruct (uart_divisor_low d2 3 ltac:(done) L2) as (D3 & L3 & S3). set (d3 := outb 1016 3 d2) in *.
  destruct (uart_divisor_high d3 0 ltac:(done)) as (D4 & L4 & S4). set (d4 := outb 1017 0 d3) in *.
  destruct (uart_latch d4 3 ltac:(done)) as (L5 & D5 & S5). set (d5 := outb 1019 3 d4) in *.
  destruct (uart_control d5 1018 199 ltac:(by left)) as (L6 & D6 & S6). set (d6 := outb 1018 199 d5) in *.
  destruct (uart_control d6 1020 11 ltac:(by right)) as (L7 & D7 & S7).
  split_and!; [rewrite L7, L6, L5; done| |congruence].
  rewrite D7, D6, D5, D4, L3, D3, (Z.add_comm _ 3), Z.mod_add by lia. done.
Qed.

(** C40: after [serial_init] the port runs at a third of its base rate with the divisor
    latch closed, and writing a text returns after a finite number of status reads with
    exactly the bytes of the text appended to what was sent, in order, whatever the pauses
    of the port between characters; a character that waits to be read is then returned by
    [serial_read], and -1 when none waits. *)
Theorem serial_line_delivers s d :
  let d0 := serial_init d in
  divisor d0 = 3 /\
  exists n d', (forall fuel, (n <= fuel)%nat -> serial_write fuel s d0 = Some d') /\
    sent d' = sent d ++ (u8 <$> s) /\
    match received d' with
    | [] => (serial_read d').1 = -1
    | c :: l => (serial_read d').1 = c /\ received (serial_read d').2 = l
    end.
Proof.
  cbn zeta. destruct (serial_init_line d) as (Hl & Hd & Hs). split; [done|].
  destruct (serial_write_n_sends s _ Hl) as (n & d' & Hw & Hs' & _ & Hl' & _).
  exists n, d'. split; [done|]. split; [by rewrite Hs', Hs|].
  unfold serial_read. pose proof (uart_status d') as Hst. destruct (inb 1021 d') as [st d1].
  destruct Hst as (_ & -> & _ & Hr & Hl1 & _). rewrite Hl' in Hl1.
  destruct (received d') as [|c l] eqn:Er; [by rewrite bool_decide_eq_true_2|].
  rewrite bool_decide_eq_false_2 by done. pose proof (uart_take d1 c l Hl1 Hr) as Ht.
  destruct (inb 1016 d1) as [x d2]. cbn. tauto.
Qed.
End theorems.

(** ** A reference port *)
Record uart16550 := mkUart {
  out : list Z; inq : list Z; pause : nat; pauses : list nat; lcr : Z; dll : Z; dlm : Z;
}.

#[global] Instance uart_ports : Ports uart16550 := {
  inb p u :=
    if p =? 1021 then
      (Z.lor (if (pause u =? 0)%nat then 96 else 0) (if bool_decide (inq u = []) then 0 else 1),
       mkUart (out u) (inq u) (pred (pause u)) (pauses u) (lcr u) (dll u) (dlm u))
    else if (p =? 1016) && negb (Z.testbit (lcr u) 7) then
      (hd 0 (inq u), mkUart (out u) (tl (inq u)) (pause u) (pauses u) (lcr u) (dll u) (dlm u))
    else (0, u);
  outb p v u :=
    if p =? 1016 then
      if Z.testbit (lcr u) 7 then mkUart (out u) (inq u) (pause u) (pauses u) (lcr u) v (dlm u)
      else mkUart (out u ++ [v]) (inq u) (hd 0%nat (pauses u)) (tl (pauses u)) (lcr u) (dll u) (dlm u)
    else if p =? 1017 then
      if Z.testbit (lcr u) 7 then mkUart (out u) (inq u) (pause u) (pauses u) (lcr u) (dll u) v else u
    else if p =? 1019 then mkUart (out u) (inq u) (pause u) (pauses u) v (dll u) (dlm u)
    else u;
  inw _ u := (0, u);
  outw _ _ u := u;
}.

Ltac run_port := cbn -[Z.testbit u8 Z.mul Z.div Z.modulo].

#[global] Program Instance uart_reference : Uart uart16550 := {
  sent := out; received := inq; busy := pause; latch u := Z.testbit (lcr u) 7;
  divisor u := u8 (dll u) + 256 * dlm u;
}.
Next Obligation. intros u. run_port. destruct (pause u), (inq u); cbn; split_and!; done. Qed.
Next Obligation. intros u c Hc Hl Hb. run_port. rewrite Hl. done. Qed.
Next Obligation. intros u c l Hl Hr. run_port. rewrite Hl. run_port. by rewrite Hr. Qed.
Next Obligation. done. Qed.
Next Obligation.
  intros u v Hv Hl. run_port. rewrite Hl. run_port. split_and!; [|done..]. rewrite (u8_small v Hv).
  pose proof (u8_range (dll u)) as Hr. unfold is_u8 in *. Z.to_euclidean_division_equations. lia.
Qed.
Next Obligation.
  intros u v Hv. run_port. destruct (Z.testbit (lcr u) 7) eqn:El; run_port; rewrite ?El; split_and!; try done.
  pose proof (u8_range (dll u)) as Hr. unfold is_u8 in *. Z.to_euclidean_division_equations. lia.
Qed.
Next Obligation. intros u p v [-> | ->]; done. Qed.

(** A port that pauses for two reads before the first character and for one after it. *)
Definition slow_port : uart16550 := mkUart [] [] 2 [1%nat] 0 1 0.

Lemma slow_port_sends :
  (sent <$> serial_write 3 [72; 105] (serial_init slow_port)) = Some [72; 105] /\
    serial_write 2 [72; 105] (serial_init slow_port) = None.
Proof. split; vm_compute; reflexivity. Qed.

Lemma serial_line_delivers_witness :
  exists n d', (forall fuel, (n <= fuel)%nat -> serial_write fuel [72; 105] (serial_init slow_port) = Some d') /\
    sent d' = [72; 105].
Proof.
  destruct (serial_line_delivers [72; 105] slow_port) as (_ & n & d' & Hw & Hs & _). exists n, d'. exact (conj Hw Hs).
Defined.

(** ** Screen and line *)
Record console (D : Type) := mkConsole { screen : vga; line : D }.
Arguments mkConsole {D}. Arguments screen {D}. Arguments line {D}.

Section console.
Context {D : Type} `{Uart D}.
Implicit Types c : console D.

Definition console_write (fuel : nat) (on_screen on_line : list Z) c : option (console D) :=
  d ← serial_write fuel on_line (line c); Some (mkConsole (vga_write on_screen (screen c)) d).

Definition kputs (fuel : nat) (s : list Z) c : option (console D) := console_write fuel s s c.

(** ["KERNEL PANIC: "] *)
Definition panic_prefix : list Z := [75; 69; 82; 78; 69; 76; 32; 80; 65; 78; 73; 67; 58; 32].

(** The console at the halt loop, which never ends. *)
Definition panic (fuel : nat) (message : list Z) c : option (console D) :=
  let v := vga_write [10] (vga_write message (vga_write panic_prefix (screen c))) in
  d ← serial_write fuel panic_prefix (line c);
  d ← serial_write fuel message d;
  Some (mkConsole v d).

(** [kprintf] on the console: every character goes to the screen and to the line.  The
    outer [option] is the wait for the line, the inner one a format that is read past its
    end or asks for an argument that is not there. *)
Definition kprintf_console (fuel : nat) (fmt : list Z) (args : list arg) c : option (option (console D)) :=
  match kprintf fmt args with
  | None => Some None
  | Some l => c ← console_write fuel l l c; Some (Some c)
  end.

Lemma console_write_sends a b c :
  latch (line c) = false ->
  exists n d, (forall fuel, (n <= fuel)%nat -> console_write fuel a b c = Some (mkConsole (vga_write a (screen c)) d)) /\
    sent d = sent (line c) ++ (u8 <$> b) /\ latch d = false.
Proof.
  intros Hl. destruct (serial_write_n_sends b _ Hl) as (n & d & Hw & Hs & _ & Hl' & _).
  exists n, d. split; [|done]. intros fuel Hf. unfold console_write, serial_write. by rewrite Hw.
Qed.

Lemma vga_write_app a b v : vga_write (a ++ b) v = vga_write b (vga_write a v).
Proof. apply foldl_app. Qed.

(** A panic reaches the halt loop with the message on the screen and on the line. *)
Lemma panic_reports message c :
  latch (line c) = false ->
  exists n d, (forall fuel, (n <= fuel)%nat ->
      panic fuel message c = Some (mkConsole (vga_write (panic_prefix ++ message ++ [10]) (screen c)) d)) /\
    sent d = sent (line c) ++ panic_prefix ++ (u8 <$> message).
Proof.
  intros Hl. destruct (serial_write_n_sends panic_prefix _ Hl) as (n1 & d1 & Hw1 & Hs1 & _ & Hl1 & _).
  destruct (serial_write_n_sends message _ Hl1) as (n2 & d2 & Hw2 & Hs2 & _).
  exists (n1 `max` n2)%nat, d2. split.
  - intros fuel Hf. unfold panic, serial_write. rewrite Hw1 by lia. cbn [mbind option_bind].
    rewrite Hw2 by lia. by rewrite !vga_write_app.
  - rewrite Hs2, Hs1, <- app_assoc. done.
Qed.
End console.
