(* ===== verification/Dma.v ===== *)
(** Contiguous buffers for devices, [drivers/dma/dma.c] and [include/dma.h], over any
    page allocator with the contract of [Frames]. *)
From S2P Require Import Prelude Frames Pmm.

Definition DMA_MAX_ADDRESS : Z := 4194304. (* 0x00400000 *)
#[export] Hint Unfold DMA_MAX_ADDRESS : kconst.

Record dma_buffer := mkDma { virtual_address : Z; physical_address : Z; blength : Z; bpages : Z }.

Section dma.
Context {S : Type} `{FrameAllocator S}.
Implicit Types s : S.

(** [static int initialized] *)
Definition dma_init : bool := true.

Definition free_pages (first n : Z) s : S :=
  for_range 0 n (fun j s => free_page (u32 (first + j * PAGE_SIZE)) s) s.

(** The allocation loop with [n] of the pages still to come and [i] of them there. *)
Fixpoint dma_pages (n : nat) (i first : Z) s : option Z * S :=
  match n with
  | O => (Some first, s)
  | Datatypes.S n' =>
      let '(p, s) := alloc_page s in
      if (p =? 0) || (DMA_MAX_ADDRESS <=? p) || (negb (i =? 0) && negb (p =? u32 (first + i * PAGE_SIZE))) then
        let s := if p =? 0 then s else free_page p s in (None, free_pages first i s)
      else dma_pages n' (i + 1) (if i =? 0 then p else first) s
  end.

Definition dma_alloc (initialized : bool) (length : Z) (buffer : option dma_buffer) s : Z * option dma_buffer * S :=
  match buffer with
  | None => (-1, None, s)
  | Some b =>
      if negb initialized || (length =? 0) then (-1, buffer, s)
      else
        let pages := u32 (length + PAGE_SIZE - 1) / PAGE_SIZE in
        match dma_pages (Z.to_nat pages) 0 0 s with
        | (None, s) => (-1, buffer, s)
        | (Some first, s) => (0, Some (mkDma first first length pages), s)
        end
  end.

Definition dma_free (buffer : option dma_buffer) s : option dma_buffer * S :=
  match buffer with
  | None => (None, s)
  | Some b =>
      if (physical_address b =? 0) || (bpages b =? 0) then (buffer, s)
      else (Some (mkDma 0 0 0 0), free_pages (physical_address b) (bpages b) s)
  end.

(** ** Who owns the pages *)
Context `{!FrameAllocatorLaws S}.

(** The frames [first/4096 .. first/4096 + n). *)
Definition in_run (first n q : Z) : bool := (first / PAGE_SIZE <=? q) && (q <? first / PAGE_SIZE + n).

(** Between [s0] and [s] the run was allocated, and nothing else happened to the frames. *)
Record owns_run (first n : Z) s0 s : Prop := {
  or_ok : frame_ok s;
  or_aligned : first mod PAGE_SIZE = 0;
  or_bounds : 0 < n -> 0 < first /\ first + n * PAGE_SIZE <= DMA_MAX_ADDRESS;
  or_fresh q : in_run first n q = true -> frame_refs s0 q = 0;
  or_refs q : frame_refs s q = if in_run first n q then 1 else frame_refs s0 q;
}.

(** Freeing a run gives every one of its frames back. *)
Lemma free_pages_refs first n s0 s :
  0 <= n -> owns_run first n s0 s ->
  frame_ok (free_pages first n s) /\ forall q, frame_refs (free_pages first n s) q = frame_refs s0 q.
Proof.
  intros Hn [Hok Hal Hb Hf Hr]. unfold free_pages.
  enough (forall k, 0 <= k <= n -> let s' := for_range 0 k (fun j s => free_page (u32 (first + j * PAGE_SIZE)) s) s in
    frame_ok s' /\ forall q, frame_refs s' q = if in_run first k q then 0 else frame_refs s q) as Hk.
  { destruct (Hk n ltac:(lia)) as [Hok' Hq]. split; [done|]. intros q. rewrite Hq, Hr.
    destruct (in_run first n q) eqn:E; [by rewrite Hf|done]. }
  intros k Hk. apply (for_range_ind (fun k s' => k <= n -> frame_ok s' /\
    forall q, frame_refs s' q = if in_run first k q then 0 else frame_refs s q)); [lia| | |lia].
  - intros _. split; [done|]. intros q. unfold in_run. destruct (Z.leb_spec (first / PAGE_SIZE) q), (Z.ltb_spec q (first / PAGE_SIZE + 0)); cbn [andb]; done || lia.
  - intros j s' Hj IH Hjn. destruct (IH ltac:(lia)) as [Hok' Hq].
    assert (u32 (first + j * PAGE_SIZE) / PAGE_SIZE = first / PAGE_SIZE + j) as Hp.
    { rewrite u32_small by (unfold is_u32; const_lia). by rewrite Z.div_add by done. }
    assert (frame_refs s' (first / PAGE_SIZE + j) = 1) as H1.
    { rewrite Hq, Hr. unfold in_run. destruct (Z.ltb_spec (first / PAGE_SIZE + j) (first / PAGE_SIZE + j)); [lia|].
      rewrite andb_false_r. assert (((first / PAGE_SIZE <=? first / PAGE_SIZE + j) && (first / PAGE_SIZE + j <? first / PAGE_SIZE + n)) = true) as -> by lia. done. }
    destruct (free_some s' (u32 (first + j * PAGE_SIZE)) Hok') as [Hok2 Hq2]; [rewrite Hp; lia|].
    split; [done|]. intros q. rewrite Hq2, Hp. destruct (Z.eqb_spec q (first / PAGE_SIZE + j)) as [->|Hne].
    + rewrite H1. unfold in_run. assert (((first / PAGE_SIZE <=? first / PAGE_SIZE + j) && (first / PAGE_SIZE + j <? first / PAGE_SIZE + (j + 1))) = true) as -> by lia. done.
    + rewrite Hq, Z.sub_0_r. unfold in_run. replace (q <? first / PAGE_SIZE + (j + 1)) with (q <? first / PAGE_SIZE + j) by lia. done.
Qed.

Lemma dma_pages_spec n i first s0 s :
  0 <= i -> frame_ok s0 -> owns_run first i s0 s -> 
  match dma_pages n i first s with
  | (Some a, s') => owns_run a (i + Z.of_nat n) s0 s'
  | (None, s') => frame_ok s' /\ forall q, frame_refs s' q = frame_refs s0 q
  end.
Proof.
  revert i first s. induction n as [|n IH]; intros i first s Hi Hok0 Ho; cbn [dma_pages].
  { by replace (i + Z.of_nat 0) with i by lia. }
  destruct (alloc_page s) as [p s1] eqn:Ea.
  destruct (Z.eqb_spec p 0) as [->|Hp]; cbn [orb].
  { apply alloc_fail in Ea as ->; [|by apply Ho]. by apply free_pages_refs. }
  pose proof Ho as [Hok Hal Hb Hf Hr].
  destruct (alloc_some _ _ _ Hok Ea Hp) as (Hok1 & Hpr & Hpa & Hp0 & Hq1).
  destruct (_ || _) eqn:Hc.
  - assert (owns_run first i s0 (free_page p s1)) as Ho1.
    { destruct (free_some s1 p Hok1) as [Hok2 Hq2]; [by rewrite Hq1, Z.eqb_refl|].
      split; try done. intros q. rewrite Hq2, Hq1. destruct (Z.eqb_spec q (p / PAGE_SIZE)) as [->|]; [rewrite <- Hr; lia|].
      rewrite Z.sub_0_r. apply Hr. }
    by apply free_pages_refs.
  - set (a := if i =? 0 then p else first).
    assert (p = a + i * PAGE_SIZE /\ a mod PAGE_SIZE = 0) as [Ep Ha].
    { subst a. destruct (Z.eqb_spec i 0) as [->|]; [lia|]. cbn [negb andb orb] in Hc. split; [|done].
      rewrite u32_small in Hc by (unfold is_u32; const_lia). lia. }
    replace (i + Z.of_nat (Datatypes.S n)) with (i + 1 + Z.of_nat n) by lia. apply IH; [lia|done|].
    assert (p / PAGE_SIZE = a / PAGE_SIZE + i) as Edp by (rewrite Ep; by rewrite Z.div_add).
    assert (forall q, in_run a (i + 1) q = (in_run first i q || (q =? p / PAGE_SIZE))) as Hrun.
    { intros q. rewrite Edp. subst a. unfold in_run. destruct (Z.eqb_spec i 0) as [->|]; lia. }
    split; [done|done| | |].
    + intros _. assert (p + PAGE_SIZE <= DMA_MAX_ADDRESS) as Hle.
      { assert (p < DMA_MAX_ADDRESS) as Hlt by (destruct (Z.leb_spec DMA_MAX_ADDRESS p); [done|lia]).
        autounfold with kconst in *. Z.to_euclidean_division_equations. lia. }
      split; [|lia]. subst a. destruct (Z.eqb_spec i 0) as [->|]; [lia|]. apply Hb. lia.
    + intros q. rewrite Hrun. destruct (in_run first i q) eqn:E; [intros _; by apply Hf|]. cbn [orb].
      intros Eq%Z.eqb_eq. subst q. rewrite Hr in Hp0. by rewrite E in Hp0.
    + intros q. rewrite Hq1, Hr, Hrun. destruct (q =? p / PAGE_SIZE); [by rewrite orb_true_r|]. by rewrite orb_false_r.
Qed.

(** A request either gets a run of fresh frames or changes nothing. *)
Lemma dma_alloc_owns len b s rc b' s' :
  frame_ok s -> 0 < len <= 4294963200 -> dma_alloc dma_init len (Some b) s = (rc, b', s') ->
  (exists a n, rc = 0 /\ b' = Some (mkDma a a len n) /\ len <= n * PAGE_SIZE < len + PAGE_SIZE /\ owns_run a n s s') \/
  (rc = -1 /\ b' = Some b /\ frame_ok s' /\ forall q, frame_refs s' q = frame_refs s q).
Proof.
  intros Hok Hl. unfold dma_alloc, dma_init. destruct (Z.eqb_spec len 0); [lia|]. cbn [negb orb].
  rewrite u32_small by (unfold is_u32; const_lia).
  set (pages := (len + PAGE_SIZE - 1) / PAGE_SIZE).
  assert (len <= pages * PAGE_SIZE < len + PAGE_SIZE) as Hp by (subst pages; autounfold with kconst; Z.to_euclidean_division_equations; lia).
  assert (0 < pages) as Hpos by const_lia.
  assert (owns_run 0 0 s s) as H0.
  { split; try done; try lia. all: intros q; unfold in_run; change (0 / PAGE_SIZE) with 0;
      assert (((0 <=? q) && (q <? 0 + 0)) = false) as -> by lia; done. }
  pose proof (dma_pages_spec (Z.to_nat pages) 0 0 s s ltac:(lia) Hok H0) as Hs.
  destruct (dma_pages _ _ _ _) as [[a|] s1]; intros [= <- <- <-].
  - left. exists a, pages. by replace (0 + Z.of_nat (Z.to_nat pages)) with pages in Hs by lia.
  - right. by destruct Hs.
Qed.

(** Giving the run back restores the counts. *)
Lemma dma_free_restores a n len s s' : 0 < n -> owns_run a n s s' ->
  let s2 := (dma_free (Some (mkDma a a len n)) s').2 in frame_ok s2 /\ forall q, frame_refs s2 q = frame_refs s q.
Proof.
  intros Hn Hs. unfold dma_free. cbn [physical_address bpages]. destruct (or_bounds _ _ _ _ Hs Hn) as [Ha _].
  destruct (Z.eqb_spec a 0); [lia|]. destruct (Z.eqb_spec n 0); [lia|]. cbn [orb snd].
  apply (free_pages_refs a n s s'); [lia|exact Hs].
Qed.

(** C32: a buffer the allocator hands out is [pages] consecutive frames below 4 MiB that
    nobody used before and that now have exactly one reference, enough for the length
    asked for; no other frame is touched, and giving the buffer back restores every
    frame's count.  A request that fails changes neither the caller's record nor any
    count, however far it got. *)
Theorem dma_buffers_contiguous len b s rc b' s' :
  frame_ok s -> 0 < len <= 4294963200 -> dma_alloc dma_init len (Some b) s = (rc, b', s') ->
  frame_ok s' /\
  (rc = 0 -> exists x, b' = Some x /\ blength x = len /\ len <= bpages x * PAGE_SIZE < len + PAGE_SIZE /\
     owns_run (physical_address x) (bpages x) s s' /\
     forall q, frame_refs (dma_free b' s').2 q = frame_refs s q) /\
  (rc <> 0 -> b' = Some b /\ forall q, frame_refs s' q = frame_refs s q).
Proof.
  intros Hok Hl E. destruct (dma_alloc_owns len b s rc b' s' Hok Hl E) as [(a & n & -> & -> & Hn & Ho)|(-> & -> & Hok' & Hr)].
  - split; [apply Ho|]. split; [|done]. intros _. eexists. split; [reflexivity|]. split; [done|]. split; [exact Hn|].
    split; [exact Ho|]. apply (dma_free_restores a n len s s'); [const_lia|exact Ho].
  - split; [done|]. split; [done|]. by intros _.
Qed.

(** A length in the last page of the 32-bit range wraps round to no pages at all: the
    request is granted, at address 0 and with nothing behind it. *)
Lemma dma_alloc_wraps len b s :
  4294963200 < len < 4294967296 -> dma_alloc dma_init len (Some b) s = (0, Some (mkDma 0 0 len 0), s).
Proof.
  intros Hl. unfold dma_alloc, dma_init. destruct (Z.eqb_spec len 0); [lia|]. cbn [negb orb].
  assert (u32 (len + PAGE_SIZE - 1) / PAGE_SIZE = 0) as -> by (unfold u32; autounfold with kconst; Z.to_euclidean_division_equations; lia).
  done.
Qed.
End dma.

Lemma dma_buffers_contiguous_witness :
  exists x s', dma_alloc dma_init 5000 (Some (mkDma 0 0 0 0)) small_pmm = (0, Some x, s') /\
    physical_address x = 12288 /\ owns_run 12288 2 small_pmm s'.
Proof.
  destruct (dma_alloc dma_init 5000 (Some (mkDma 0 0 0 0)) small_pmm) as [[rc b'] s'] eqn:E.
  assert (frame_ok small_pmm) as Hok by exact small_pmm_ok.
  destruct (dma_buffers_contiguous 5000 (mkDma 0 0 0 0) small_pmm rc b' s' Hok ltac:(lia) E) as (_ & Hs & _).
  assert ((rc, b') = (0, Some (mkDma 12288 12288 5000 2))) as Hr.
  { change ((rc, b', s').1 = (0, Some (mkDma 12288 12288 5000 2))). rewrite <- E. vm_compute. reflexivity. }
  injection Hr as -> ->. destruct (Hs eq_refl) as (x & [= <-] & _ & _ & Ho & _).
  exists (mkDma 12288 12288 5000 2), s'. split; [reflexivity|]. split; [reflexivity|exact Ho].
Defined.
