(* ===== verification/Acpi.v ===== *)
(** The firmware tables, [drivers/acpi/acpi.c] and [include/acpi.h].

    [mem] is the byte at each physical address; the tables are only read.  The walk over
    the records of the interrupt table gets one turn of fuel per byte of the table, and a
    record is at least two bytes long.  The texts for the serial line are left out. *)
From S2P Require Import Prelude.
From coqutil Require Import Datatypes.RecordSetters.
Import DoubleBraceUpdate.

Definition ACPI_MAX_CPUS : Z := 16.
Definition ACPI_MAX_IRQ_OVERRIDES : Z := 16.
Definition SIZEOF_SDT : Z := 36.
Definition LAPIC_DEFAULT : Z := 4276092928. (* 0xfee00000 *)
Definition IOAPIC_DEFAULT : Z := 4273995776. (* 0xfec00000 *)
#[export] Hint Unfold ACPI_MAX_CPUS ACPI_MAX_IRQ_OVERRIDES SIZEOF_SDT : kconst.

Record irq_override := mkOverride { source : Z; gsi : Z; oflags : Z }.
#[global] Instance override_inhabited : Inhabited irq_override := populate (mkOverride 0 0 0).

Record acpi := mkAcpi {
  lapic_base : Z; ioapic_base : Z; ioapic_gsi_base : Z; cpu_count : Z; override_count : Z;
  cpu_apic_ids : list Z; overrides : list irq_override; madt_found : bool;
}.
Definition acpi_boot : acpi :=
  mkAcpi LAPIC_DEFAULT IOAPIC_DEFAULT 0 1 0 (replicate 16 0) (replicate 16 (mkOverride 0 0 0)) false.

Section tables.
Variable mem : Z -> Z.
Implicit Types s : acpi.

Definition word16 (p : Z) : Z := le16 (mem p) (mem (p + 1)).
Definition word32 (p : Z) : Z := le32 (mem p) (mem (p + 1)) (mem (p + 2)) (mem (p + 3)).

Definition same_text (p : Z) (text : list Z) : bool :=
  forallb (fun i => mem (p + i) =? text.[i]) (seqZ 0 (Z.of_nat (length text))).
Definition byte_sum (p n : Z) : Z := for_range 0 n (fun i sum => u8 (sum + mem (p + i))) 0.

(** ["RSD PTR "] *)
Definition signature (p : Z) : bool := same_text p [82; 83; 68; 32; 80; 84; 82; 32].
Definition valid_rsdp (p : Z) : bool := byte_sum p 20 =? 0.

Fixpoint scan_loop (n : nat) (p end_ : Z) : option Z :=
  match n with
  | O => None
  | S n' =>
      if negb (p + 20 <=? end_) then None
      else if signature p && valid_rsdp p then Some p
      else scan_loop n' (p + 16) end_
  end.
Definition scan (begin end_ : Z) : option Z := scan_loop (Z.to_nat ((end_ - begin) / 16 + 1)) begin end_.

(** [h->length] *)
Definition sdt_length (h : Z) : Z := word32 (h + 4).
Definition valid_sdt (h : Z) : bool :=
  if (h =? 0) || (sdt_length h <? SIZEOF_SDT) || (65536 <? sdt_length h) then false
  else byte_sum h (sdt_length h) =? 0.
Definition has_sig (h : Z) (sig : list Z) : bool := same_text h sig.

(** [a[n++] = x] while there is room *)
Definition push {A} `{Inhabited A} (x : A) (a : list A) (n : Z) : list A * Z :=
  if n <? 16 then (a.[n <- x], n + 1) else (a, n).
Definition add_cpu (id : Z) s : acpi :=
  let '(l, n) := push id (cpu_apic_ids s) (cpu_count s) in s {{ cpu_apic_ids := l; cpu_count := n }}.
Definition add_override (o : irq_override) s : acpi :=
  let '(l, n) := push o (overrides s) (override_count s) in s {{ overrides := l; override_count := n }}.

(** One record, at address [p]. *)
Definition parse_record (p type len : Z) s : acpi :=
  if (type =? 0) && (8 <=? len) then
    if negb (Z.land (word32 (p + 4)) 1 =? 0) then add_cpu (mem (p + 3)) s else s
  else if (type =? 1) && (12 <=? len) && (ioapic_base s =? IOAPIC_DEFAULT) then
    s {{ ioapic_base := word32 (p + 4); ioapic_gsi_base := word32 (p + 8) }}
  else if (type =? 2) && (10 <=? len) then
    add_override (mkOverride (mem (p + 3)) (word32 (p + 4)) (word16 (p + 8))) s
  else s.

Fixpoint parse_records (n : nat) (h pos len : Z) s : acpi :=
  match n with
  | O => s
  | S n' =>
      if negb (pos + 2 <=? len) then s
      else
        let type := mem (h + pos) in
        let rlen := mem (h + pos + 1) in
        if (rlen <? 2) || (len <? pos + rlen) then s
        else parse_records n' h (pos + rlen) len (parse_record (h + pos) type rlen s)
  end.

Definition parse_madt (h : Z) s : acpi :=
  let pos := SIZEOF_SDT + 8 in
  let len := sdt_length h in
  if len <? pos then s
  else
    let s := s {{ madt_found := true; lapic_base := word32 (h + 36); cpu_count := 0; override_count := 0;
                  ioapic_gsi_base := 0 }} in
    let s := parse_records (Z.to_nat len) h pos len s in
    if cpu_count s =? 0 then s {{ cpu_count := 1 }} else s.

Definition acpi_init s : acpi :=
  let ebda := word16 1038 in
  let s := s {{ madt_found := false; lapic_base := LAPIC_DEFAULT; ioapic_base := IOAPIC_DEFAULT;
                ioapic_gsi_base := 0; cpu_count := 1; override_count := 0 }} in
  let r := if ebda =? 0 then None else scan (ebda * 16) (ebda * 16 + 1024) in
  let r := match r with Some p => Some p | None => scan 917504 1048576 end in
  match r with
  | None => s
  | Some p =>
      let rsdt := word32 (p + 16) in
      if negb (valid_sdt rsdt) || negb (has_sig rsdt [82; 83; 68; 84]) then s
      else
        let entries := Z.min ((sdt_length rsdt - SIZEOF_SDT) / 4) 64 in
        let entry i := word32 (rsdt + SIZEOF_SDT + i * 4) in
        match find_from (fun i => valid_sdt (entry i) && has_sig (entry i) [65; 80; 73; 67]) 0 (Z.to_nat entries) with
        | None => s
        | Some i => parse_madt (entry i) s
        end
  end.
End tables.

Definition acpi_madt_present (s : acpi) : bool := madt_found s.
Definition acpi_lapic_base (s : acpi) : Z := lapic_base s.
Definition acpi_ioapic_base (s : acpi) : Z := ioapic_base s.
Definition acpi_ioapic_gsi_base (s : acpi) : Z := ioapic_gsi_base s.
Definition acpi_cpu_count (s : acpi) : Z := cpu_count s.
Definition acpi_cpu_apic_id (index : Z) (s : acpi) : Z := if index <? cpu_count s then (cpu_apic_ids s).[index] else 0.

(** The result with the two values stored; [out]: both pointers are given. *)
Definition acpi_irq_to_gsi (irq : Z) (out : bool) (s : acpi) : Z * option (Z * Z) :=
  if negb out then (-1, None)
  else
    match find_from (fun i => source (overrides s).[i] =? irq) 0 (Z.to_nat (override_count s)) with
    | Some i => (1, Some (gsi (overrides s).[i], oflags (overrides s).[i]))
    | None => (0, Some (irq, 0))
    end.

(** ** What the kernel knows after reading the table *)
(** [l] is what the bounded array [a] with counter [n] holds. *)
Definition holds {A} (l a : list A) (n : Z) : Prop :=
  n = Z.of_nat (length l) /\ length a = 16%nat /\ take (length l) a = l.

Lemma push_holds {A} `{Inhabited A} (x : A) l a n :
  holds (take 16 l) a n -> holds (take 16 (l ++ [x])) (push x a n).1 (push x a n).2.
Proof.
  intros (Hn & Ha & Ht). unfold push. rewrite length_take in Hn, Ht. destruct (Z.ltb_spec n 16) as [Hlt|Hge]; cbn [fst snd].
  - rewrite (take_ge l), (take_ge (l ++ [x])) in * by (rewrite ?length_app; cbn [length]; lia).
    replace (16 `min` length l)%nat with (length l) in * by lia.
    split; [rewrite length_app; cbn [length]; lia|]. split; [by rewrite aset_length|].
    rewrite length_app. cbn [length]. rewrite Nat.add_1_r.
    assert ((a.[n <- x]) !! length l = Some x) as Hx.
    { assert (length l = Z.to_nat n) as -> by lia. rewrite lookup_aget by (rewrite aset_length; lia). by rewrite aget_aset_eq by lia. }
    rewrite (take_S_r _ _ _ Hx). f_equal. unfold aset. by rewrite take_insert_ge by lia.
  - rewrite (take_app_le l) by lia. split; [rewrite length_take; lia|]. split; [done|]. rewrite length_take. exact Ht.
Qed.

(** A record of the table is its bytes, the second of them its length. *)
Definition record_ok (r : list Z) : Prop := 2 <= Z.of_nat (length r) <= 255 /\ r.[1] = Z.of_nat (length r).
Definition rec16 (r : list Z) (o : Z) : Z := le16 r.[o] r.[o + 1].
Definition rec32 (r : list Z) (o : Z) : Z := le32 r.[o] r.[o + 1] r.[o + 2] r.[o + 3].
(** The enabled processor a record declares, and the interrupt it redirects. *)
Definition cpu_of (r : list Z) : list Z :=
  if (r.[0] =? 0) && (8 <=? Z.of_nat (length r)) && negb (Z.land (rec32 r 4) 1 =? 0) then [r.[3]] else [].
Definition override_of (r : list Z) : list irq_override :=
  if (r.[0] =? 2) && (10 <=? Z.of_nat (length r)) then [mkOverride r.[3] (rec32 r 4) (rec16 r 8)] else [].

Section records.
Variable mem : Z -> Z.
Implicit Types s : acpi.

(** The bytes of [l] are at [p]. *)
Definition laid_out (p : Z) (l : list Z) : Prop := forall i, 0 <= i < Z.of_nat (length l) -> mem (p + i) = l.[i].

Lemma get_app_left (l k : list Z) i : i < Z.of_nat (length l) -> 0 <= i -> (l ++ k).[i] = l.[i].
Proof. intros Hi H0. apply aget_lookup; [done|]. rewrite lookup_app_l by lia. apply lookup_aget. lia. Qed.
Lemma get_app_right (l k : list Z) i : 0 <= i < Z.of_nat (length k) -> (l ++ k).[Z.of_nat (length l) + i] = k.[i].
Proof.
  intros Hi. apply aget_lookup; [lia|]. rewrite lookup_app_r by lia.
  replace (Z.to_nat (Z.of_nat (length l) + i) - length l)%nat with (Z.to_nat i) by lia. apply lookup_aget. lia.
Qed.

Lemma laid_out_app p l k : laid_out p (l ++ k) -> laid_out p l /\ laid_out (p + Z.of_nat (length l)) k.
Proof.
  unfold laid_out. rewrite length_app. intros Hl. split; intros i Hi.
  - rewrite Hl by lia. apply get_app_left; lia.
  - rewrite <- Z.add_assoc, Hl by lia. by apply get_app_right.
Qed.

(** What a record adds to the state. *)
Definition knows s (cpus : list Z) (ovs : list irq_override) : Prop :=
  holds (take 16 cpus) (cpu_apic_ids s) (cpu_count s) /\ holds (take 16 ovs) (overrides s) (override_count s).

Lemma add_cpu_knows x s cpus ovs : knows s cpus ovs -> knows (add_cpu x s) (cpus ++ [x]) ovs.
Proof.
  intros [Hc Ho]. pose proof (push_holds x _ _ _ Hc) as Hp. unfold add_cpu.
  destruct (push x (cpu_apic_ids s) (cpu_count s)) as [a n]. by split.
Qed.
Lemma add_override_knows x s cpus ovs : knows s cpus ovs -> knows (add_override x s) cpus (ovs ++ [x]).
Proof.
  intros [Hc Ho]. pose proof (push_holds x _ _ _ Ho) as Hp. unfold add_override.
  destruct (push x (overrides s) (override_count s)) as [a n]. by split.
Qed.

Lemma parse_record_knows p r s cpus ovs :
  record_ok r -> laid_out p r -> knows s cpus ovs ->
  knows (parse_record mem p (mem p) (mem (p + 1)) s) (cpus ++ cpu_of r) (ovs ++ override_of r).
Proof.
  intros [Hlen H1] Hl [Hc Ho]. assert (forall i, 0 <= i < Z.of_nat (length r) -> mem (p + i) = r.[i]) as Hm by exact Hl.
  assert (mem p = r.[0]) as -> by (rewrite <- (Hm 0) by lia; f_equal; lia).
  rewrite (Hm 1), H1 by lia. unfold parse_record, cpu_of, override_of, word32, word16, rec32, rec16.
  destruct (Z.eqb_spec r.[0] 0) as [E0|]; [|destruct (Z.eqb_spec r.[0] 2) as [E2|]]; cbn [andb].
  - assert ((r.[0] =? 2) = false) as -> by lia. assert ((r.[0] =? 1) = false) as -> by lia. cbn [andb]. rewrite app_nil_r.
    destruct (Z.leb_spec 8 (Z.of_nat (length r))); cbn [andb]; [|by rewrite app_nil_r].
    rewrite <- !(Z.add_assoc p), !Hm by lia. cbn [Z.add Pos.add Pos.succ].
    destruct (negb _); [|by rewrite app_nil_r]. by apply add_cpu_knows.
  - assert ((r.[0] =? 1) = false) as -> by lia. cbn [andb]. rewrite (app_nil_r cpus).
    destruct (Z.leb_spec 10 (Z.of_nat (length r))); [|by rewrite app_nil_r].
    rewrite <- !(Z.add_assoc p), !Hm by lia. cbn [Z.add Pos.add Pos.succ]. by apply add_override_knows.
  - rewrite !app_nil_r. by destruct (_ && _).
Qed.

Lemma parse_records_knows rs n h pos len s cpus ovs :
  Forall record_ok rs -> laid_out (h + pos) (concat rs) -> len = pos + Z.of_nat (length (concat rs)) -> (length rs < n)%nat ->
  knows s cpus ovs ->
  knows (parse_records mem n h pos len s) (cpus ++ (r ← rs; cpu_of r)) (ovs ++ (r ← rs; override_of r)).
Proof.
  revert n pos s cpus ovs. induction rs as [|r rs IH]; intros [|n] pos s cpus ovs Hrs Hl Hlen Hn Hk; try (cbn [length] in Hn; lia);
    cbn [parse_records].
  { cbn [concat length] in Hlen. destruct (Z.leb_spec (pos + 2) len); [lia|]. cbn. by rewrite !app_nil_r. }
  apply Forall_cons in Hrs as [Hr Hrs]. cbn [concat] in Hl, Hlen. apply laid_out_app in Hl as [Hl1 Hl2].
  rewrite length_app in Hlen. pose proof Hr as [Hrl Hr1].
  assert (mem (h + pos + 1) = Z.of_nat (length r)) as Hb by (rewrite Hl1 by lia; done).
  destruct (Z.leb_spec (pos + 2) len); [|lia]. cbn [negb]. rewrite Hb.
  destruct (Z.ltb_spec (Z.of_nat (length r)) 2); [lia|]. destruct (Z.ltb_spec len (pos + Z.of_nat (length r))); [lia|]. cbn [orb].
  pose proof (parse_record_knows (h + pos) r s cpus ovs Hr Hl1 Hk) as Hk1. rewrite Hb in Hk1.
  cbn [mbind list_bind]. rewrite !app_assoc. apply IH; [done|by rewrite Z.add_assoc|lia|cbn [length] in Hn; lia|exact Hk1].
Qed.

Lemma find_in_array {A} `{Inhabited A} (f : A -> bool) (a : list A) n start :
  0 <= start -> (Z.to_nat start + n <= length a)%nat ->
  (fun i => a.[i]) <$> find_from (fun i => f a.[i]) start n = List.find f (take n (drop (Z.to_nat start) a)).
Proof.
  revert start. induction n as [|n IH]; intros start Hs Hn; cbn [find_from]; [by rewrite take_0|].
  assert (drop (Z.to_nat start) a = a.[start] :: drop (Z.to_nat (start + 1)) a) as ->.
  { replace (Z.to_nat (start + 1)) with (Datatypes.S (Z.to_nat start)) by lia. apply drop_S, lookup_aget. lia. }
  cbn [take List.find]. destruct (f a.[start]); [done|]. apply IH; lia.
Qed.

Definition arrays_ok s : Prop := length (cpu_apic_ids s) = 16%nat /\ length (overrides s) = 16%nat.

(** C33: from a table whose records lie one after the other up to its end, the kernel
    learns the first sixteen enabled processors, in the order of the records, and counts
    at least one; and the interrupt it asks for is redirected as the first of the first
    sixteen override records for that interrupt says, or left as it is if there is none. *)
Theorem acpi_madt_records h rs s :
  arrays_ok s -> Forall record_ok rs -> laid_out (h + 44) (concat rs) ->
  sdt_length mem h = 44 + Z.of_nat (length (concat rs)) ->
  let s' := parse_madt mem h s in
  let cpus := take 16 (r ← rs; cpu_of r) in
  let ovs := take 16 (r ← rs; override_of r) in
  acpi_madt_present s' = true /\
  acpi_cpu_count s' = Z.max 1 (Z.of_nat (length cpus)) /\
  (forall i, 0 <= i < Z.of_nat (length cpus) -> acpi_cpu_apic_id i s' = cpus.[i]) /\
  forall irq, acpi_irq_to_gsi irq true s' =
    match List.find (fun o => source o =? irq) ovs with
    | Some o => (1, Some (gsi o, oflags o))
    | None => (0, Some (irq, 0))
    end.
Proof.
  intros [Ha Hb] Hrs Hl Hlen s' cpus ovs. unfold s', parse_madt. change (SIZEOF_SDT + 8) with 44.
  destruct (Z.ltb_spec (sdt_length mem h) 44) as [|_]; [lia|].
  set (s0 := s {{ madt_found := _; lapic_base := _; cpu_count := _; override_count := _; ioapic_gsi_base := _ }}).
  assert (knows s0 [] []) as H0 by (split; (split; [done|]); (split; [done|]); done).
  assert (length rs < Z.to_nat (sdt_length mem h))%nat as Hn.
  { assert (length rs <= length (concat rs))%nat as Hc; [|lia]. clear - Hrs.
    induction Hrs as [|r rs [Hr _] _ IH]; cbn [concat length]; [done|]. rewrite length_app. lia. }
  pose proof (parse_records_knows rs _ h 44 _ s0 [] [] Hrs Hl Hlen Hn H0) as [Hc Ho]. rewrite !app_nil_l in Hc, Ho.
  assert (forall n s, madt_found s = true -> forall pos, madt_found (parse_records mem n h pos (sdt_length mem h) s) = true) as Hmadt.
  { clear. intros n. induction n as [|n IH]; intros s Hs pos; cbn [parse_records]; [done|].
    destruct (negb _); [done|]. destruct (_ || _); [done|]. apply IH. unfold parse_record, add_cpu, add_override.
    repeat (case_match; try done). }
  specialize (Hmadt (Z.to_nat (sdt_length mem h)) s0 eq_refl 44).
  set (s1 := parse_records _ _ _ _ _ _) in *. fold cpus in Hc. fold ovs in Ho.
  destruct Hc as (Hc1 & Hc2 & Hc3), Ho as (Ho1 & Ho2 & Ho3).
  assert (length cpus <= 16)%nat as Hle by (unfold cpus; rewrite length_take; lia).
  assert (length ovs <= 16)%nat as Hle' by (unfold ovs; rewrite length_take; lia).
  assert (forall irq, acpi_irq_to_gsi irq true s1 = match List.find (fun o => source o =? irq) ovs with
    | Some o => (1, Some (gsi o, oflags o)) | None => (0, Some (irq, 0)) end) as Hirq.
  { intros irq. unfold acpi_irq_to_gsi. cbn [negb].
    pose proof (find_in_array (fun o => source o =? irq) (overrides s1) (Z.to_nat (override_count s1)) 0 ltac:(lia) ltac:(lia)) as Hf.
    change (Z.to_nat 0) with 0%nat in Hf. rewrite drop_0, Ho1, Nat2Z.id, Ho3 in Hf. rewrite Ho1, Nat2Z.id. rewrite <- Hf.
    by destruct (find_from _ _ _). }
  assert (forall i, 0 <= i < Z.of_nat (length cpus) -> (cpu_apic_ids s1).[i] = cpus.[i]) as Hids.
  { intros i Hi. rewrite <- Hc3 at 1. symmetry. apply aget_lookup; [lia|].
    rewrite lookup_take. destruct (decide _); [|lia]. apply lookup_aget. lia. }
  unfold acpi_madt_present, acpi_cpu_count, acpi_cpu_apic_id. destruct (Z.eqb_spec (cpu_count s1) 0) as [E|E].
  - split; [exact Hmadt|]. split; [change (1 = Z.max 1 (Z.of_nat (length cpus))); lia|]. split; [lia|exact Hirq].
  - split; [exact Hmadt|]. split; [lia|]. split; [|exact Hirq]. intros i Hi. destruct (Z.ltb_spec i (cpu_count s1)); [|lia]. by apply Hids.
Qed.

(** Whatever the firmware's tables hold, the counters stay within their arrays. *)
Definition bounded s : Prop :=
  arrays_ok s /\ 0 <= cpu_count s <= ACPI_MAX_CPUS /\ 0 <= override_count s <= ACPI_MAX_IRQ_OVERRIDES.

Lemma push_bounded {A} `{Inhabited A} (x : A) a n a' n' :
  push x a n = (a', n') -> length a = 16%nat -> 0 <= n <= 16 -> length a' = 16%nat /\ 0 <= n' <= 16.
Proof. unfold push. destruct (Z.ltb_spec n 16); intros [= <- <-] Ha Hn; rewrite ?aset_length; split; done || lia. Qed.

Lemma parse_record_bounded p type len s : bounded s -> bounded (parse_record mem p type len s).
Proof.
  intros ((Ha & Hb) & Hc & Ho). unfold parse_record, add_cpu, add_override.
  destruct (_ && (8 <=? len)); [destruct (negb _); [|done]|destruct (_ && (12 <=? len) && _); [done|destruct (_ && _); [|done]]].
  - destruct (push _ (cpu_apic_ids s) _) as [a n] eqn:E. by destruct (push_bounded _ _ _ _ _ E Ha Hc).
  - destruct (push _ (overrides s) _) as [a n] eqn:E. by destruct (push_bounded _ _ _ _ _ E Hb Ho).
Qed.

Lemma acpi_init_bounded s : arrays_ok s -> bounded (acpi_init mem s) /\ 1 <= acpi_cpu_count (acpi_init mem s).
Proof.
  intros Ha. assert (forall n h pos len s, bounded s -> bounded (parse_records mem n h pos len s)) as Hloop.
  { intros n h pos len. revert pos. induction n as [|n IH]; intros pos s0 Hs; cbn [parse_records]; [done|].
    destruct (negb _); [done|]. destruct (_ || _); [done|]. by apply IH, parse_record_bounded. }
  unfold acpi_init. set (s0 := s {{ madt_found := _; lapic_base := _; ioapic_base := _; ioapic_gsi_base := _; cpu_count := _; override_count := _ }}).
  assert (bounded s0) as H0 by (split; [exact Ha|split; [change (0 <= 1 <= 16)|change (0 <= 0 <= 16)]; lia]).
  destruct (match _ with Some _ => _ | None => scan _ _ _ end) as [p|]; [|by split].
  destruct (_ || _); [by split|]. destruct (find_from _ _ _) as [i|]; [|by split].
  unfold parse_madt. destruct (_ <? _); [by split|].
  pose proof (Hloop (Z.to_nat (sdt_length mem (word32 mem (word32 mem (p + 16) + SIZEOF_SDT + i * 4))))
    (word32 mem (word32 mem (p + 16) + SIZEOF_SDT + i * 4)) (SIZEOF_SDT + 8)
    (sdt_length mem (word32 mem (word32 mem (p + 16) + SIZEOF_SDT + i * 4)))
    (s0 {{ madt_found := true; lapic_base := word32 mem (word32 mem (word32 mem (p + 16) + SIZEOF_SDT + i * 4) + 36); cpu_count := 0; override_count := 0; ioapic_gsi_base := 0 }})) as Hb.
  destruct Hb as (Hb1 & Hb2 & Hb3); [split; [exact Ha|split; change (0 <= 0 <= 16); lia]|].
  set (s1 := parse_records _ _ _ _ _ _) in *. unfold acpi_cpu_count. destruct (Z.eqb_spec (cpu_count s1) 0).
  - split; [split; [exact Hb1|split; [change (0 <= 1 <= 16); lia|exact Hb3]]|change (1 <= 1); lia].
  - split; [by split|const_lia].
Qed.

(** The test for the first controller record compares with the default address, which is
    the address the first controller usually has: a second record then replaces it. *)
Lemma second_ioapic_replaces_first p s :
  ioapic_base s = IOAPIC_DEFAULT -> ioapic_base (parse_record mem p 1 12 s) = word32 mem (p + 4).
Proof. intros Hb. unfold parse_record. cbn [Z.eqb Z.leb Z.compare Pos.compare Pos.compare_cont andb]. by rewrite Hb, Z.eqb_refl. Qed.
End records.

(** ** A machine with two processors and the timer's interrupt redirected *)
Definition demo_records : list (list Z) :=
  [[0; 8; 0; 4; 1; 0; 0; 0]; [1; 12; 2; 0; 0; 0; 192; 254; 0; 0; 0; 0]; [0; 8; 1; 6; 1; 0; 0; 0]; [2; 10; 0; 0; 2; 0; 0; 0; 0; 0]].
Definition demo_madt : list Z :=
  [65; 80; 73; 67; 82; 0; 0; 0] ++ replicate 28 0 ++ [0; 0; 224; 254; 1; 0; 0; 0] ++ concat demo_records.
Definition demo_mem (p : Z) : Z := demo_madt.[p - 4096].

Lemma acpi_madt_records_witness :
  acpi_cpu_count (parse_madt demo_mem 4096 acpi_boot) = 2 /\ acpi_cpu_apic_id 1 (parse_madt demo_mem 4096 acpi_boot) = 6 /\
  acpi_irq_to_gsi 0 true (parse_madt demo_mem 4096 acpi_boot) = (1, Some (2, 0)).
Proof.
  destruct (acpi_madt_records demo_mem 4096 demo_records acpi_boot) as (_ & Hc & Hi & Hr).
  - split; reflexivity.
  - repeat constructor; cbn; lia.
  - intros i Hi. assert (forallb (fun i => demo_mem (4096 + 44 + i) =? (concat demo_records).[i]) (seqZ 0 38) = true) as Hall by (vm_compute; reflexivity).
    pose proof (forall_seqZ _ _ _ Hall i Hi) as Hb. by apply Z.eqb_eq in Hb.
  - vm_compute. reflexivity.
  - split; [rewrite Hc; vm_compute; reflexivity|]. split; [rewrite Hi by (vm_compute; split; [discriminate|reflexivity]); reflexivity|].
    rewrite Hr. reflexivity.
Defined.
