(* ===== verification/Apic.v ===== *)
(** Interrupt controllers and processor features: [arch/x86/apic.c],
    [arch/x86/ioapic.c] and [arch/x86/smp.c].

    The registers of the local controller are words in memory.  Those of the I/O
    controller are reached through a window of two words, on the state [D] of the device
    ([Window]); what the code relies on is that the first selects the register the second
    reads and writes ([IndirectRegisters]).  [cpuid] and [rdmsr] are arguments.  Texts for
    the serial line are left out. *)
From S2P Require Import Prelude Acpi.
From coqutil Require Import Datatypes.RecordSetters.
Import DoubleBraceUpdate.

(** ** Processor features *)
Record smp := mkSmp { smp_cpus : Z; smp_apic : bool }.
Definition smp_boot : smp := mkSmp 1 false.

(** [max_leaf] is what leaf 0 reports in eax, [features] leaf 1 in edx. *)
Definition smp_init (max_leaf features : Z) (acpi_s : acpi) (s : smp) : smp :=
  let apic := if 1 <=? max_leaf then Z.testbit features 9 else smp_apic s in
  let n := acpi_cpu_count acpi_s in
  mkSmp (if n =? 0 then 1 else n) apic.
Definition smp_cpu_count (s : smp) : Z := smp_cpus s.
Definition smp_apic_available (s : smp) : bool := smp_apic s.

(** ** The local controller *)
Definition LAPIC_DEFAULT_BASE : Z := 4276092928. (* 0xfee00000 *)
Definition LAPIC_ID : Z := 32.
Definition LAPIC_SVR : Z := 240.
Definition LAPIC_EOI : Z := 176.
Definition LAPIC_ENABLE : Z := 256.

Record local_apic := mkLapic { lapic : gmap Z Z; enabled : bool }.
Definition lapic_word (i : Z) (s : local_apic) : Z := lapic s !!! i.
Definition write_lapic (reg value : Z) (s : local_apic) : local_apic := s {{ lapic := <[reg / 4 := value]> (lapic s) }}.
(** [lo]: the low half of the base address register of the processor. *)
Definition read_apic_base (lo : Z) : Z := Z.land lo 4294963200.

Definition apic_init (lo : Z) (acpi_s : acpi) (smp_s : smp) (s : local_apic) : local_apic :=
  if negb (smp_apic_available smp_s) then s
  else
    let base := acpi_lapic_base acpi_s in
    if negb (base =? LAPIC_DEFAULT_BASE) || negb (read_apic_base lo =? base) then s
    else (write_lapic LAPIC_SVR (Z.lor (lapic_word (LAPIC_SVR / 4) s) LAPIC_ENABLE) s) {{ enabled := true }}.
Definition apic_id (s : local_apic) : Z := if enabled s then Z.shiftr (lapic_word (LAPIC_ID / 4) s) 24 else 0.
Definition apic_eoi (s : local_apic) : local_apic := if enabled s then write_lapic LAPIC_EOI 0 s else s.

(** ** The I/O controller *)
Definition IOAPIC_DEFAULT_BASE : Z := 4273995776. (* 0xfec00000 *)
Definition IOAPIC_MASK : Z := 65536.
Definition IOAPIC_TRIGGER_LEVEL : Z := 32768.
Definition IOAPIC_POLARITY_LOW : Z := 8192.

(** [ioapic[0]] and [ioapic[4]] *)
Class Window (D : Type) := { set_select : Z -> D -> D; get_data : D -> Z * D; set_data : Z -> D -> D }.

Record io_apic (D : Type) := mkIoApic { chip : D; available : bool; gsi_base : Z; max_redirection : Z }.
Arguments mkIoApic {D}. Arguments chip {D}. Arguments available {D}. Arguments gsi_base {D}. Arguments max_redirection {D}.

Section ioapic.
Context {D : Type} `{Window D}.
Implicit Types s : io_apic D.

Definition put_chip (d : D) s : io_apic D := mkIoApic d (available s) (gsi_base s) (max_redirection s).
Definition ioapic_raw_read (reg : Z) s : Z * io_apic D :=
  let '(v, d) := get_data (set_select reg (chip s)) in (v, put_chip d s).
Definition ioapic_read (reg : Z) s : Z * io_apic D :=
  if negb (available s) then (4294967295, s) else ioapic_raw_read reg s.
Definition ioapic_write (reg value : Z) s : io_apic D :=
  if negb (available s) then s else put_chip (set_data value (set_select reg (chip s))) s.

Definition redirection (vector : Z) (masked : bool) (fl : Z) : Z :=
  let value := Z.lor (if masked then IOAPIC_MASK else 0) vector in
  let value := if Z.land fl 3 =? 3 then Z.lor value IOAPIC_POLARITY_LOW else value in
  if Z.land fl 12 =? 12 then Z.lor value IOAPIC_TRIGGER_LEVEL else value.

Definition ioapic_route_irq (acpi_s : acpi) (irq vector destination : Z) (masked : bool) s : io_apic D :=
  match acpi_irq_to_gsi irq true acpi_s with
  | (_, Some (g, fl)) =>
      if negb (available s) || (g <? gsi_base s) then s
      else
        let pin := g - gsi_base s in
        if max_redirection s <? pin then s
        else
          let low := u8 (16 + pin * 2) in
          let high := u8 (low + 1) in
          ioapic_write low (redirection vector masked fl) (ioapic_write high (u32 (Z.shiftl destination 24)) s)
  | (_, None) => s
  end.

Definition ioapic_init (acpi_s : acpi) (smp_s : smp) s : io_apic D :=
  if negb (smp_apic_available smp_s) then s
  else
    let base := acpi_ioapic_base acpi_s in
    if (base =? 0) || negb (base =? IOAPIC_DEFAULT_BASE) then s
    else
      let '(version, s) := ioapic_raw_read 1 s in
      if (version =? 4294967295) || (version =? 0) then s
      else
        let s := mkIoApic (chip s) true (acpi_ioapic_gsi_base acpi_s) (Z.land (Z.shiftr version 16) 255) in
        ioapic_route_irq acpi_s 1 33 0 true (ioapic_route_irq acpi_s 0 32 0 true s).
Definition ioapic_available s : bool := available s.
Definition ioapic_enable_irq (acpi_s : acpi) (irq : Z) s : io_apic D := ioapic_route_irq acpi_s irq (u8 (32 + irq)) 0 false s.
Definition ioapic_disable_irq (acpi_s : acpi) (irq : Z) s : io_apic D := ioapic_route_irq acpi_s irq (u8 (32 + irq)) 0 true s.
End ioapic.

(** ** Routing *)
Class IndirectRegisters (D : Type) `{Window D} := {
  ireg : D -> Z -> Z;
  indirect_read (d : D) r : exists d', get_data (set_select r d) = (ireg d r, d') /\ forall q, ireg d' q = ireg d q;
  indirect_write (d : D) r v q : ireg (set_data v (set_select r d)) q = if q =? r then v else ireg d q;
}.

Section routing.
Context {D : Type} `{IndirectRegisters D}.
Implicit Types s : io_apic D.

Definition reg_of_chip s (r : Z) : Z := ireg (chip s) r.

Lemma ioapic_write_regs r v s q : available s = true -> reg_of_chip (ioapic_write r v s) q = if q =? r then v else reg_of_chip s q.
Proof. intros Ha. unfold ioapic_write, reg_of_chip. rewrite Ha. apply indirect_write. Qed.

(** Routing an interrupt writes the redirection entry of exactly one pin, the one the
    override table of ACPI gives for the line: the vector, the mask, and the polarity and
    trigger of the override in the low word, the destination in the high word.  No other
    entry changes, and a line beyond the controller's pins is left alone. *)
Theorem ioapic_route_pin acpi_s irq vector destination masked s g fl rc :
  available s = true -> acpi_irq_to_gsi irq true acpi_s = (rc, Some (g, fl)) ->
  0 <= max_redirection s < 120 -> is_u8 destination ->
  let pin := g - gsi_base s in
  let s' := ioapic_route_irq acpi_s irq vector destination masked s in
  forall q, reg_of_chip s' q =
    if (0 <=? pin) && (pin <=? max_redirection s) then
      if q =? 16 + 2 * pin then redirection vector masked fl
      else if q =? 17 + 2 * pin then destination * 16777216
      else reg_of_chip s q
    else reg_of_chip s q.
Proof.
  intros Ha Hg Hm Hd pin s' q. unfold s', ioapic_route_irq. rewrite Hg, Ha. cbn [negb orb]. fold pin.
  destruct (Z.ltb_spec g (gsi_base s)); [by destruct (Z.leb_spec 0 pin); [lia|]|].
  destruct (Z.ltb_spec (max_redirection s) pin), (Z.leb_spec 0 pin), (Z.leb_spec pin (max_redirection s)); try lia; cbn [andb]; [done|].
  assert (u8 (16 + pin * 2) = 16 + 2 * pin) as -> by (unfold u8; rewrite Z.mod_small; lia).
  assert (u8 (16 + 2 * pin + 1) = 17 + 2 * pin) as -> by (unfold u8; rewrite Z.mod_small; lia).
  assert (u32 (Z.shiftl destination 24) = destination * 16777216) as ->.
  { rewrite Z.shiftl_mul_pow2 by lia. apply u32_small. unfold is_u8, is_u32 in *. lia. }
  rewrite ioapic_write_regs by (unfold ioapic_write; by rewrite Ha). destruct (q =? 16 + 2 * pin); [done|]. by apply ioapic_write_regs.
Qed.
End routing.

(** ** A controller with 24 pins *)
Definition demo_chip : Type := Z * gmap Z Z.
#[global] Instance demo_chip_window : Window demo_chip := {
  set_select r d := (r, d.2); get_data d := (default 0 (d.2 !! d.1), d); set_data v d := (d.1, <[d.1 := v]> d.2);
}.
#[global] Instance demo_chip_registers : IndirectRegisters demo_chip.
Proof.
  refine {| ireg := fun d r => default 0 (d.2 !! r) |}.
  - intros [s m] r. by eexists.
  - intros [s m] r v q. cbn [set_data set_select demo_chip_window fst snd].
    destruct (Z.eqb_spec q r) as [->|]; [by rewrite lookup_insert_eq|by rewrite lookup_insert_ne].
Defined.

(** The timer's line is redirected to pin 2. *)
Lemma ioapic_route_pin_witness :
  let s := mkIoApic ((0, ∅) : demo_chip) true 0 23 in
  reg_of_chip (ioapic_enable_irq (parse_madt demo_mem 4096 acpi_boot) 0 s) 20 = 32.
Proof.
  intros s. unfold ioapic_enable_irq.
  rewrite (ioapic_route_pin (parse_madt demo_mem 4096 acpi_boot) 0 (u8 (32 + 0)) 0 false s 2 0 1).
  - reflexivity.
  - reflexivity.
  - vm_compute. reflexivity.
  - cbn. lia.
  - split; [discriminate|reflexivity].
Defined.
