(* ===== verification/Interrupts.v ===== *)
(** Descriptor tables and the dispatch of interrupts, [arch/x86/isr.c] and
    [arch/x86/gdt.c].

    The entry points [isr0 .. isr31], [irq0 .. irq15] and [isr128] of [isr.S] are
    addresses, parameters of [idt_init].  An [irq_handler_t] is one of the two functions
    the kernel registers.  Bytes written to ports and texts for the consoles are kept in
    the order they were sent.  The tables the processor has loaded ([lidt], [lgdt], [ltr])
    are the ones these routines leave. *)
From S2P Require Import Prelude Frames Keyboard Vmm Timer Console Process Syscall Apic.
From coqutil Require Import Datatypes.RecordSetters.
Import DoubleBraceUpdate.

(** ** The interrupt descriptor table *)
Record idt_entry := mkGate { base_low : Z; selector : Z; gzero : Z; gflags : Z; base_high : Z }.
Definition no_gate : idt_entry := mkGate 0 0 0 0 0.
#[global] Instance gate_inhabited : Inhabited idt_entry := populate no_gate.

Definition set_gate (n base fl : Z) (idt : list idt_entry) : list idt_entry :=
  idt.[n <- mkGate (u16 base) 8 0 fl (u16 (Z.shiftr base 16))].

(** The bytes [pic_remap] sends, with their ports. *)
Definition pic_remap : list (Z * Z) :=
  [(32, 17); (160, 17); (33, 32); (161, 40); (33, 4); (161, 2); (33, 1); (161, 1); (33, 255); (161, 255)].

(** What [idt_init] leaves behind: the table, the limit given to [lidt], the bytes sent to
    the interrupt controllers, and the interrupt flag. *)
Record idt_state := mkIdt { gates : list idt_entry; idt_limit : Z; pic_bytes : list (Z * Z); interrupts_on : bool }.
Definition interrupts_enable (i : idt_state) : idt_state := i {{ interrupts_on := true }}.

Definition idt_init (isr irq : Z -> Z) (isr128 : Z) : idt_state :=
  let idt := replicate 256 no_gate in
  let idt := for_range 0 32 (fun i idt => set_gate i (isr i) 142 idt) idt in
  let idt := for_range 0 16 (fun i idt => set_gate (32 + i) (irq i) 142 idt) idt in
  mkIdt (set_gate 128 isr128 238 idt) (256 * 8 - 1) pic_remap false.

(** What the processor reads from a gate. *)
Definition gate_offset (g : idt_entry) : Z := base_low g + 65536 * base_high g.
Definition gate_present (g : idt_entry) : bool := Z.testbit (gflags g) 7.
Definition gate_ring (g : idt_entry) : Z := Z.shiftr (gflags g) 5 mod 4.
(** A 32-bit interrupt gate clears the interrupt flag on entry. *)
Definition gate_masks (g : idt_entry) : bool := gflags g mod 16 =? 14.

Lemma set_gates_get lo (f : Z -> Z) fl n idt k :
  0 <= lo -> 0 <= n -> lo + n <= Z.of_nat (length idt) -> 0 <= k ->
  let idt' := for_range 0 n (fun i idt => set_gate (lo + i) (f i) fl idt) idt in
  length idt' = length idt /\
  idt'.[k] = if (lo <=? k) && (k <? lo + n) then mkGate (u16 (f (k - lo))) 8 0 fl (u16 (Z.shiftr (f (k - lo)) 16)) else idt.[k].
Proof.
  intros Hlo Hn Hl Hk.
  apply (for_range_ind (fun m idt' => m <= n -> length idt' = length idt /\
    idt'.[k] = if (lo <=? k) && (k <? lo + m) then mkGate (u16 (f (k - lo))) 8 0 fl (u16 (Z.shiftr (f (k - lo)) 16)) else idt.[k])); [lia| | |lia].
  - intros _. split; [done|]. destruct (Z.leb_spec lo k), (Z.ltb_spec k (lo + 0)); cbn [andb]; done || lia.
  - intros m idt' Hm IH Hle. destruct (IH ltac:(lia)) as [Hlen Hg]. unfold set_gate. rewrite aset_length. split; [done|].
    rewrite aget_aset by lia. rewrite Hg. destruct (Z.eqb_spec (lo + m) k) as [<-|Hne].
    + replace (lo + m - lo) with m by lia.
      destruct (Z.leb_spec lo (lo + m)), (Z.ltb_spec (lo + m) (lo + (m + 1))); cbn [andb]; done || lia.
    + destruct (Z.leb_spec lo k), (Z.ltb_spec k (lo + m)), (Z.ltb_spec k (lo + (m + 1))); cbn [andb]; done || lia.
Qed.

Lemma gate_offset_base base fl : is_u32 base -> gate_offset (mkGate (u16 base) 8 0 fl (u16 (Z.shiftr base 16))) = base.
Proof.
  unfold gate_offset, is_u32, u16. cbn [base_low base_high]. intros Hb. rewrite shiftr_div by lia. change (2 ^ 16) with 65536.
  Z.to_euclidean_division_equations. lia.
Qed.

(** Where each vector goes. *)
Definition vector_target (isr irq : Z -> Z) (isr128 n : Z) : option Z :=
  if n <? 32 then Some (isr n) else if n <? 48 then Some (irq (n - 32)) else if n =? 128 then Some isr128 else None.

(** The gate of a vector. *)
Definition gate_to (n a : Z) : idt_entry := mkGate (u16 a) 8 0 (if n =? 128 then 238 else 142) (u16 (Z.shiftr a 16)).

Lemma idt_gate_of isr irq isr128 n :
  0 <= n < 256 ->
  (gates (idt_init isr irq isr128)).[n] =
    match vector_target isr irq isr128 n with Some a => gate_to n a | None => no_gate end.
Proof.
  intros Hn. unfold idt_init. cbn [gates].
  destruct (set_gates_get 0 isr 142 32 (replicate 256 no_gate) n) as [L1 G1]; [lia|lia|rewrite length_replicate; lia|lia|].
  cbn zeta in L1, G1. change (for_range 0 32 (fun i idt => set_gate (0 + i) (isr i) 142 idt) (replicate 256 no_gate))
    with (for_range 0 32 (fun i idt => set_gate i (isr i) 142 idt) (replicate 256 no_gate)) in L1, G1.
  rewrite length_replicate in L1. set (t1 := for_range 0 32 _ _) in *.
  destruct (set_gates_get 32 irq 142 16 t1 n) as [L2 G2]; [lia|lia|lia|lia|]. cbn zeta in L2, G2. set (t2 := for_range 0 16 _ _) in *.
  assert ((set_gate 128 isr128 238 t2).[n] = if 128 =? n then mkGate (u16 isr128) 8 0 238 (u16 (Z.shiftr isr128 16)) else t2.[n]) as ->
    by (apply aget_aset; lia).
  rewrite G2, G1, aget_replicate by lia. unfold vector_target, gate_to.
  rewrite (Z.eqb_sym 128 n). destruct (Z.eqb_spec n 128) as [->|Hne]; [done|].
  destruct (Z.ltb_spec n 32); [|destruct (Z.ltb_spec n 48)].
  - assert (((32 <=? n) && (n <? 32 + 16)) = false) as -> by lia. assert (((0 <=? n) && (n <? 0 + 32)) = true) as -> by lia.
    by rewrite Z.sub_0_r.
  - by assert (((32 <=? n) && (n <? 32 + 16)) = true) as -> by lia.
  - assert (((32 <=? n) && (n <? 32 + 16)) = false) as -> by lia. by assert (((0 <=? n) && (n <? 0 + 32)) = false) as -> by lia.
Qed.

Lemma gate_to_fields n a :
  is_u32 a -> gate_present (gate_to n a) = true /\ gate_offset (gate_to n a) = a /\ selector (gate_to n a) = 8 /\
    gate_masks (gate_to n a) = true /\ gate_ring (gate_to n a) = (if n =? 128 then 3 else 0).
Proof. intros Ha. split_and!; [|by apply gate_offset_base|done|..]; unfold gate_to; by destruct (n =? 128). Qed.

Lemma vector_target_u32 isr irq isr128 n a :
  (forall i, is_u32 (isr i)) -> (forall i, is_u32 (irq i)) -> is_u32 isr128 ->
  vector_target isr irq isr128 n = Some a -> is_u32 a.
Proof. unfold vector_target. intros H1 H2 H3 E. repeat case_match; by simplify_eq. Qed.

(** The table [idt_init] builds sends the exceptions, the sixteen hardware lines and
    vector 128 to their entry points and leaves every other vector absent; all entries run
    with interrupts disabled; and the system call is the only one user code may raise with
    [int]: every other present gate needs ring 0. *)
Theorem idt_gates isr irq isr128 n :
  (forall i, is_u32 (isr i)) -> (forall i, is_u32 (irq i)) -> is_u32 isr128 -> 0 <= n < 256 ->
  let g := (gates (idt_init isr irq isr128)).[n] in
  match vector_target isr irq isr128 n with
  | Some a => gate_present g = true /\ gate_offset g = a /\ selector g = 8 /\ gate_masks g = true /\
              gate_ring g = (if n =? 128 then 3 else 0)
  | None => gate_present g = false
  end.
Proof.
  intros Hisr Hirq H128 Hn g. unfold g. rewrite idt_gate_of by done.
  destruct (vector_target isr irq isr128 n) eqn:E; [|done].
  apply gate_to_fields. exact (vector_target_u32 _ _ _ _ _ Hisr Hirq H128 E).
Qed.

Lemma idt_gates_witness :
  let idt := gates (idt_init (fun i => u32 (1048576 + 16 * i)) (fun i => u32 (1049088 + 16 * i)) 1049344) in
  gate_ring idt.[33] = 0 /\ gate_ring idt.[128] = 3.
Proof.
  assert (is_u32 1049344) as Hu by (split; [discriminate|reflexivity]).
  split.
  - apply (idt_gates (fun i => u32 (1048576 + 16 * i)) (fun i => u32 (1049088 + 16 * i)) 1049344 33
      (fun i => u32_range _) (fun i => u32_range _) Hu). lia.
  - apply (idt_gates (fun i => u32 (1048576 + 16 * i)) (fun i => u32 (1049088 + 16 * i)) 1049344 128
      (fun i => u32_range _) (fun i => u32_range _) Hu). lia.
Defined.

(** ** Segments *)
Definition make_tss_desc (base limit : Z) : Z :=
  let d := Z.land limit 65535 in
  let d := Z.lor d (Z.shiftl (Z.land base 16777215) 16) in
  let d := Z.lor d (Z.shiftl 137 40) in
  let d := Z.lor d (Z.shiftl (Z.land (Z.shiftr limit 16) 15) 48) in
  Z.lor d (Z.shiftl (Z.land (Z.shiftr base 24) 255) 56).

(** The fields of [kernel_tss] the code sets. *)
Record tss := mkTss { esp0 : Z; ss0 : Z; io_base : Z }.
Definition SIZEOF_TSS : Z := 104.
(** [current]: the stack pointer when called. *)
Definition tss_init (top current tss_addr : Z) (gdt : list Z) : tss * list Z :=
  (mkTss (if top =? 0 then current else top) 16 SIZEOF_TSS, gdt.[5 <- make_tss_desc tss_addr (SIZEOF_TSS - 1)]).
Definition gdt_init : list Z :=
  [0; 58434644969848831; 58425848876826623; 58540198086115327; 58531401993093119; 0].
Definition lgdt_limit : Z := 6 * 8 - 1.

(** What the processor reads from a descriptor. *)
Definition seg_base (d : Z) : Z := Z.shiftr d 16 mod 16777216 + 16777216 * (Z.shiftr d 56 mod 256).
Definition seg_limit (d : Z) : Z := d mod 65536 + 65536 * (Z.shiftr d 48 mod 16).
Definition seg_ring (d : Z) : Z := Z.shiftr d 45 mod 4.
Definition seg_type (d : Z) : Z := Z.shiftr d 40 mod 32.

Lemma make_tss_desc_sum base limit :
  is_u32 base -> 0 <= limit < 1048576 ->
  make_tss_desc base limit =
    limit mod 65536 + (base mod 16777216) * 65536 + 137 * 1099511627776 + (limit / 65536) * 281474976710656 + (base / 16777216) * 72057594037927936.
Proof.
  intros Hb Hl. unfold is_u32 in Hb. unfold make_tss_desc.
  change 65535 with (2 ^ 16 - 1). change 16777215 with (2 ^ 24 - 1). change 255 with (2 ^ 8 - 1). change 15 with (2 ^ 4 - 1).
  rewrite (land_mask limit 16), (land_mask base 24), (land_mask _ 4), (land_mask _ 8), !shiftr_div by lia.
  change (2 ^ 16) with 65536. change (2 ^ 24) with 16777216. change (2 ^ 4) with 16. change (2 ^ 8) with 256.
  rewrite (Z.mod_small (limit / 65536)) by (split; [apply Z.div_pos|apply Z.div_lt_upper_bound]; lia).
  rewrite (Z.mod_small (base / 16777216)) by (split; [apply Z.div_pos|apply Z.div_lt_upper_bound]; lia).
  assert (0 <= limit mod 65536 < 65536) as H1 by (apply Z.mod_pos_bound; lia).
  assert (0 <= base mod 16777216 < 16777216) as H2 by (apply Z.mod_pos_bound; lia).
  assert (0 <= limit / 65536 < 16) as H3 by (split; [apply Z.div_pos|apply Z.div_lt_upper_bound]; lia).
  assert (0 <= base / 16777216) as H4 by (apply Z.div_pos; lia).
  rewrite (lor_shiftl_add (limit mod 65536) _ 16), (lor_shiftl_add _ 137 40), (lor_shiftl_add _ (limit / 65536) 48),
    (lor_shiftl_add _ (base / 16777216) 56) by (change (2 ^ 16) with 65536; change (2 ^ 40) with 1099511627776;
      change (2 ^ 48) with 281474976710656; change (2 ^ 56) with 72057594037927936; lia).
  done.
Qed.

(** The descriptor of the task segment describes it exactly. *)
Lemma tss_desc_roundtrip base limit :
  is_u32 base -> 0 <= limit < 1048576 ->
  seg_base (make_tss_desc base limit) = base /\ seg_limit (make_tss_desc base limit) = limit /\
  seg_type (make_tss_desc base limit) = 9 /\ seg_ring (make_tss_desc base limit) = 0.
Proof.
  intros Hb Hl. rewrite make_tss_desc_sum by done. unfold is_u32 in Hb. unfold seg_base, seg_limit, seg_type, seg_ring.
  rewrite !shiftr_div by lia. change (2 ^ 16) with 65536. change (2 ^ 56) with 72057594037927936.
  change (2 ^ 48) with 281474976710656. change (2 ^ 45) with 35184372088832. change (2 ^ 40) with 1099511627776.
  Z.to_euclidean_division_equations. lia.
Qed.

(** Flat segments: the kernel's in ring 0, the user's in ring 3, each over all of memory. *)
Lemma gdt_segments :
  (fun d => (seg_base d, seg_limit d, seg_ring d, seg_type d)) <$> take 4 (drop 1 gdt_init) =
  [(0, 1048575, 0, 26); (0, 1048575, 0, 18); (0, 1048575, 3, 26); (0, 1048575, 3, 18)].
Proof. reflexivity. Qed.

(** ** Dispatch *)
(** The functions [kmain] registers. *)
Inductive irq_handler_t := Timer_irq | Keyboard_irq.

Definition R_INT_NO : Z := 8.
Definition R_ERR_CODE : Z := 9.

Definition exception_names : list string :=
  ["divide error"; "debug"; "NMI"; "breakpoint"; "overflow"; "bound range"; "invalid opcode"; "device unavailable";
   "double fault"; "coprocessor segment"; "invalid TSS"; "segment not present"; "stack fault"; "general protection";
   "page fault"; "reserved"; "x87 fault"; "alignment check"; "machine check"; "SIMD fault"; "virtualization";
   "control protection"; "reserved"; "reserved"; "reserved"; "reserved"; "reserved"; "reserved"; "reserved"; "reserved";
   "reserved"; "reserved"; "reserved"]%string.

Record machine {S W : Type} := mkMachine {
  system : sys S W;
  keys : keyboard;
  irq_handlers : list (option irq_handler_t);
  ports_out : list (Z * Z);
  controller : local_apic;
  said : list event;
}.
Arguments machine S W : clear implicits.
#[global] Instance handler_inhabited : Inhabited (option irq_handler_t) := populate None.

Section dispatch.
Context {S W : Type} `{FrameAllocator S}.
Variable blk : Block.block W.
Variable stack_top : pcb_ptr -> Z.
Variable initial_frame_at : pcb_ptr -> Z.
Variable utab_addr : Z -> Z -> Z.
Variable heap_area : Z.
Variable cr2 : Z.
Variable fuel : nat.
(** The byte at the keyboard's data port. *)
Variable scancode : Z.
Implicit Types m : machine S W.

Definition outb (port v : Z) m : machine S W := m {{ ports_out := ports_out m ++ [(port, v)] }}.

Definition register_irq_handler (irq : Z) (h : option irq_handler_t) m : machine S W :=
  if irq <? 16 then m {{ irq_handlers := (irq_handlers m).[irq <- h] }} else m.

(** [pic_unmask]; [mask1] and [mask2] are what ports 0x21 and 0xa1 read. *)
Definition pic_unmask (irq mask1 mask2 : Z) m : machine S W :=
  if irq <? 8 then outb 33 (Z.land mask1 (u8 (Z.lnot (Z.shiftl 1 irq)))) m
  else
    let m := outb 161 (Z.land mask2 (u8 (Z.lnot (Z.shiftl 1 (irq - 8))))) m in
    outb 33 (Z.land mask1 (u8 (Z.lnot (Z.shiftl 1 2)))) m.

(** Calling a registered handler. *)
Definition call_handler (h : irq_handler_t) m : machine S W :=
  match h with
  | Timer_irq => m {{ system ::= set_kern (fun k => k {{ clock ::= timer_irq }}) }}
  | Keyboard_irq => m {{ keys ::= keyboard_irq scancode }}
  end.

Definition lift_sys {A} (f : sys S W -> outcome (sys S W) A) m : outcome (machine S W) A :=
  match f (system m) with
  | Done a s => Done a (m {{ system := s }})
  | Panicked e s => Panicked e (m {{ system := s }})
  end.

Definition reg_of (r i : Z) m : Z := (frame_at r (kern (system m))).[i].

Definition say (e : event) m : machine S W := m {{ said := said m ++ [e] }}.
(** [" vector=%u eip=0x%x cs=0x%x err=0x%x"] and a line feed *)
Definition exception_format : list Z := text " vector=%u eip=0x%x cs=0x%x err=0x%x" ++ [10].
Definition exception_report (n eip cs err : Z) : list event :=
  [OnLine (text "exception: "); OnLine (text (exception_names.[n]));
   OnBoth (default [] (kprintf exception_format [AInt n; AInt eip; AInt cs; AInt err]))].

Definition isr_handler (r : Z) m : outcome (machine S W) unit :=
  if reg_of r R_INT_NO m <? 32 then
    let m := foldl (fun m e => say e m) m
      (exception_report (reg_of r R_INT_NO m) (reg_of r R_EIP m) (reg_of r R_CS m) (reg_of r R_ERR_CODE m)) in
    if reg_of r R_INT_NO m =? 14 then
      lift_sys (lift_kern (lift (vmm_page_fault utab_addr cr2 (reg_of r R_ERR_CODE m) 0))) m
    else Panicked "CPU exception" m
  else Done tt m.

Definition irq_handler (r : Z) m : machine S W :=
  let irq := u8 (reg_of r R_INT_NO m - 32) in
  let m := if irq <? 16 then
             match (irq_handlers m).[irq] with Some h => call_handler h m | None => m end
           else m in
  let m := if 8 <=? irq then outb 160 32 m else m in
  (outb 32 32 m) {{ controller ::= apic_eoi }}.

Definition interrupt_dispatch (r : Z) m : outcome (machine S W) Z :=
  let n := reg_of r R_INT_NO m in
  if n <? 32 then let* (_, m) := isr_handler r m in Done r m
  else if n =? 32 then
    lift_sys (on_kern (scheduler_timer_tick stack_top initial_frame_at r)) (irq_handler r m)
  else if n <? 48 then Done r (irq_handler r m)
  else if n =? 128 then
    lift_sys (syscall_from_interrupt blk stack_top initial_frame_at utab_addr heap_area cr2 fuel r) m
  else Done r m.

(** ** Hardware interrupts are acknowledged once *)
(** The end-of-interrupt commands of line [irq]: the second controller's first. *)
Definition eoi_of (irq : Z) : list (Z * Z) := if 8 <=? irq then [(160, 32); (32, 32)] else [(32, 32)].

Lemma call_handler_ports h m : ports_out (call_handler h m) = ports_out m /\ irq_handlers (call_handler h m) = irq_handlers m.
Proof. by destruct h. Qed.

Lemma irq_handler_ports r m :
  32 <= reg_of r R_INT_NO m < 48 ->
  ports_out (irq_handler r m) = ports_out m ++ eoi_of (reg_of r R_INT_NO m - 32).
Proof.
  intros Hn. unfold irq_handler, eoi_of. assert (u8 (reg_of r R_INT_NO m - 32) = reg_of r R_INT_NO m - 32) as -> by (apply Z.mod_small; lia).
  set (irq := reg_of r R_INT_NO m - 32) in *.
  set (m1 := if irq <? 16 then _ else m).
  assert (ports_out m1 = ports_out m) as E1 by (subst m1; repeat case_match; [apply call_handler_ports|done..]).
  change (ports_out ((outb 32 32 ?x) {{ controller ::= apic_eoi }})) with (ports_out x ++ [(32, 32)]). rewrite <- E1.
  destruct (8 <=? irq); [|done]. change (ports_out (outb 160 32 ?x)) with (ports_out x ++ [(160, 32)]). by rewrite <- app_assoc.
Qed.

(** A timer interrupt advances the clock by one tick, acknowledges the line, and then
    the scheduler chooses the frame to resume. *)
Lemma timer_interrupt r m :
  reg_of r R_INT_NO m = 32 -> (irq_handlers m).[0] = Some Timer_irq ->
  let k := (kern (system m)) {{ clock ::= timer_irq }} in
  let '(r', k') := scheduler_timer_tick stack_top initial_frame_at r k in
  exists m', interrupt_dispatch r m = Done r' m' /\ kern (system m') = k' /\ keys m' = keys m /\
    irq_handlers m' = irq_handlers m /\ ports_out m' = ports_out m ++ [(32, 32)].
Proof.
  intros Hn Hh. cbn zeta. destruct (scheduler_timer_tick _ _ r _) as [r' k'] eqn:E.
  assert (exists s, system (irq_handler r m) = s /\ kern s = (kern (system m)) {{ clock ::= timer_irq }} /\ keys (irq_handler r m) = keys m /\ irq_handlers (irq_handler r m) = irq_handlers m)
    as (s & Es & Ek & Ey & Eh).
  { unfold irq_handler. rewrite Hn. change (u8 (32 - 32)) with 0. change (0 <? 16) with true. cbv iota. rewrite Hh.
    change (8 <=? 0) with false. cbv iota. eexists. by split. }
  unfold interrupt_dispatch. rewrite Hn. change (32 <? 32) with false. change (32 =? 32) with true. cbv iota.
  unfold lift_sys, on_kern. rewrite Es, Ek, E. eexists. split; [reflexivity|]. split; [done|]. split; [exact Ey|]. split; [exact Eh|].
  change (ports_out (irq_handler r m) = ports_out m ++ eoi_of (32 - 32)).
  pose proof (irq_handler_ports r m ltac:(lia)) as Hp. by rewrite Hn in Hp.
Qed.
End dispatch.
