(* ===== verification/Trap.v ===== *)
(** The assembly routines of the kernel, [arch/x86/isr.S], [arch/x86/user_mode.S],
    [arch/x86/context_switch.S] and [arch/x86/boot.S], run instruction by instruction.

    The processor is its general registers, [eip], [eflags] and the segment registers
    [cs], [ss], [ds], [es]; memory is one 32-bit word per address.  Every access of one
    routine is a multiple of four away from every other one, so words never overlap.  The
    arithmetic flags [add] sets are left out: each routine that uses it ends by loading
    [eflags]. *)
From S2P Require Import Prelude Frames Keyboard Vmm Timer Process Syscall Apic Interrupts.
From coqutil Require Import Datatypes.RecordSetters.
Import DoubleBraceUpdate.

(** ** The processor *)
Inductive reg32 := EAX | ECX | EDX | EBX | ESP | EBP | ESI | EDI.
Record core := mkCore {
  geax : Z; gecx : Z; gedx : Z; gebx : Z; gesp : Z; gebp : Z; gesi : Z; gedi : Z;
  geip : Z; geflags : Z; gcs : Z; gss : Z; gds : Z; ges : Z;
}.
Implicit Types c : core.

Definition getr (r : reg32) c : Z :=
  match r with
  | EAX => geax c | ECX => gecx c | EDX => gedx c | EBX => gebx c
  | ESP => gesp c | EBP => gebp c | ESI => gesi c | EDI => gedi c
  end.
Definition setr (r : reg32) (v : Z) c : core :=
  match r with
  | EAX => c {{ geax := v }} | ECX => c {{ gecx := v }} | EDX => c {{ gedx := v }} | EBX => c {{ gebx := v }}
  | ESP => c {{ gesp := v }} | EBP => c {{ gebp := v }} | ESI => c {{ gesi := v }} | EDI => c {{ gedi := v }}
  end.

(** The privilege level of a selector. *)
Definition rpl (sel : Z) : Z := sel mod 4.
(** Whether a data selector is one ring 3 may hold: its descriptor has privilege 3. *)
Definition user_selector (sel : Z) : bool := (0 <? sel / 8) && (sel / 8 <? 6) && (seg_ring gdt_init.[sel / 8] =? 3).

Inductive operand := Imm (n : Z) | Reg (r : reg32) | At (r : reg32) (disp : Z).
Inductive sreg := DS | ES.
Inductive label := isr_common.
Inductive instr :=
| Push (o : operand) | Pusha | Popa | Add (r : reg32) (n : Z) | Mov (dst : reg32) (src : operand)
| Mov16 (dst : reg32) (n : Z) | Store (base : reg32) (disp : Z) (src : reg32) | MovSeg (s : sreg) (r : reg32)
| Call | Jmp (l : label) | Ret | Iretd | Cli.

(** A processor, the memory and whatever the C code works on. *)
Record cfg (X : Type) := mkCfg { pu : core; words : gmap Z Z; world : X }.
Arguments mkCfg {X}. Arguments pu {X}. Arguments words {X}. Arguments world {X}.

Section exec.
Context {X : Type}.
(** The C function [call] goes to: its argument, memory and state to its result, and the
    same; [None] if it does not return.  [ret_addr] is where it returns to, [scratch] what
    it leaves in the registers it need not keep. *)
Variable callee : Z -> gmap Z Z -> X -> option (Z * gmap Z Z * X).
Variable ret_addr : Z.
Variable scratch : Z * Z.
Implicit Types x : cfg X.

Definition operand_of (o : operand) x : Z :=
  match o with
  | Imm n => u32 n
  | Reg r => getr r (pu x)
  | At r d => words x !!! u32 (getr r (pu x) + d)
  end.
Definition push (v : Z) x : cfg X :=
  let sp := u32 (gesp (pu x) - 4) in mkCfg (setr ESP sp (pu x)) (<[sp := v]> (words x)) (world x).
Definition pushes (vs : list Z) x : cfg X := foldl (fun x v => push v x) x vs.
Definition top_word (i : Z) x : Z := words x !!! u32 (gesp (pu x) + 4 * i).
Definition with_core c x : cfg X := mkCfg c (words x) (world x).

(** [popa] leaves out the saved [esp]. *)
Definition popa x : cfg X :=
  let c := pu x in
  with_core (mkCore (top_word 7 x) (top_word 6 x) (top_word 5 x) (top_word 4 x) (u32 (gesp c + 32))
               (top_word 2 x) (top_word 1 x) (top_word 0 x) (geip c) (geflags c) (gcs c) (gss c) (gds c) (ges c)) x.

(** [iretd]: a return to an outer ring also loads the stack, and clears a data segment
    register that ring may not hold. *)
Definition outer_segment (sel : Z) : Z := if user_selector sel then sel else 0.
Definition iretd x : cfg X :=
  let c := (pu x) {{ geip := top_word 0 x; gcs := top_word 1 x; geflags := top_word 2 x }} in
  with_core
    (if rpl (gcs (pu x)) <? rpl (top_word 1 x)
     then c {{ gesp := top_word 3 x; gss := top_word 4 x; gds := outer_segment (gds c); ges := outer_segment (ges c) }}
     else c {{ gesp := u32 (gesp c + 12) }}) x.

Definition exec (i : instr) x : option (cfg X) :=
  let c := pu x in
  match i with
  | Push o => Some (push (operand_of o x) x)
  | Pusha => Some (pushes [geax c; gecx c; gedx c; gebx c; gesp c; gebp c; gesi c; gedi c] x)
  | Popa => Some (popa x)
  | Add r n => Some (with_core (setr r (u32 (getr r c + n)) c) x)
  | Mov r o => Some (with_core (setr r (operand_of o x) c) x)
  | Mov16 r n => Some (with_core (setr r (Z.shiftl (Z.shiftr (getr r c) 16) 16 + n) c) x)
  | Store b d r => Some (mkCfg c (<[u32 (getr b c + d) := getr r c]> (words x)) (world x))
  | MovSeg DS r => Some (with_core (c {{ gds := u16 (getr r c) }}) x)
  | MovSeg ES r => Some (with_core (c {{ ges := u16 (getr r c) }}) x)
  | Call =>
      let x1 := push ret_addr x in
      '(v, w, s) ← callee (top_word 1 x1) (words x1) (world x1);
      Some (mkCfg (setr EDX scratch.2 (setr ECX scratch.1 (setr EAX v c))) w s)
  | Ret => Some (with_core (c {{ geip := top_word 0 x; gesp := u32 (gesp c + 4) }}) x)
  | Iretd => Some (iretd x)
  | Cli => Some (with_core (c {{ geflags := Z.land (geflags c) (u32 (Z.lnot 512)) }}) x)
  | Jmp _ => Some x
  end.

(** [arch/x86/isr.S] *)
Definition isr_common_code : list instr :=
  [Pusha; Push (Reg ESP); Call; Add ESP 4; Mov ESP (Reg EAX); Popa; Add ESP 8; Iretd].
(** The vectors whose stub expects the processor to have pushed an error code. *)
Definition stub_has_error (n : Z) : bool := (n =? 8) || ((10 <=? n) && (n <=? 14)) || (n =? 17).
Definition stub (n : Z) : list instr :=
  (if stub_has_error n then [] else [Push (Imm 0)]) ++ [Push (Imm n); Jmp isr_common].

Definition target (l : label) : list instr := match l with isr_common => isr_common_code end.
Fixpoint run (fuel : nat) (code : list instr) x : option (cfg X) :=
  match fuel, code with
  | O, _ => None
  | Datatypes.S fuel', [] => Some x
  | Datatypes.S fuel', Jmp l :: _ => run fuel' (target l) x
  | Datatypes.S fuel', i :: code' => x ← exec i x; run fuel' code' x
  end.

(** ** Entry by the processor *)
(** An interrupt through a 32-bit interrupt gate: from ring 3 the processor first takes the
    stack of the task segment and saves the old one there; [err] is the error code, for the
    exceptions that have one.  [IF], [TF], [NT], [RF] and [VM] are cleared. *)
Definition from_user c : bool := rpl (gcs c) =? 3.
Definition entry_flags (g : idt_entry) (fl : Z) : Z :=
  if gate_masks g then Z.land fl (u32 (Z.lnot 213760)) else Z.land fl (u32 (Z.lnot 213248)).
Definition deliver (g : idt_entry) (t : tss) (err : option Z) x : cfg X :=
  let c := pu x in
  let x1 := if from_user c then pushes [gss c; gesp c] (with_core (c {{ gesp := esp0 t; gss := ss0 t }}) x) else x in
  let x2 := pushes ([geflags c; gcs c; geip c] ++ option_list err) x1 in
  with_core ((pu x2) {{ geip := gate_offset g; gcs := selector g; geflags := entry_flags g (geflags c) }}) x2.

(** ** Frames *)
(** The [n] words at [a]. *)
Definition words_at (w : gmap Z Z) (a : Z) (n : nat) : list Z := (fun i => w !!! (a + 4 * i)) <$> seqZ 0 (Z.of_nat n).

Lemma words_at_succ w a n : words_at w a (Datatypes.S n) = w !!! a :: words_at w (a + 4) n.
Proof.
  unfold words_at. rewrite Nat2Z.inj_succ, seqZ_cons by lia. rewrite fmap_cons, Z.pred_succ. f_equal.
  - by replace (a + 4 * 0) with a by lia.
  - rewrite <- (fmap_add_seqZ 1 0), <- list_fmap_compose. apply list_fmap_ext. intros i j _.
    cbn. by replace (a + 4 + 4 * j) with (a + 4 * (1 + j)) by lia.
Qed.

Lemma words_at_out w a n b v : b < a \/ a + 4 * Z.of_nat n <= b -> words_at (<[b := v]> w) a n = words_at w a n.
Proof.
  intros Hb. unfold words_at. apply list_fmap_ext. intros i j Hj. apply lookup_seqZ in Hj as [-> ?].
  apply lookup_total_insert_ne. lia.
Qed.

Lemma words_at_cons w a n v :
  words_at (<[a := v]> w) a (Datatypes.S n) = v :: words_at w (a + 4) n.
Proof. by rewrite words_at_succ, lookup_total_insert_eq, words_at_out by lia. Qed.

(** Pushing conses onto the words at the stack pointer. *)
Lemma pushes_words vs : forall n x,
  4 * Z.of_nat (length vs) <= gesp (pu x) -> is_u32 (gesp (pu x)) ->
  let x' := pushes vs x in
  pu x' = setr ESP (gesp (pu x) - 4 * Z.of_nat (length vs)) (pu x) /\ world x' = world x /\
  words_at (words x') (gesp (pu x')) (length vs + n) = rev vs ++ words_at (words x) (gesp (pu x)) n.
Proof.
  induction vs as [|v vs IH]; intros n x Hsp Hu; cbn [pushes foldl].
  - rewrite Z.sub_0_r. split; [by destruct x as [[] ? ?]|]. done.
  - rewrite length_cons in *. unfold is_u32 in *.
    assert (gesp (pu (push v x)) = gesp (pu x) - 4) as E1.
    { change (gesp (pu (push v x))) with (u32 (gesp (pu x) - 4)). apply u32_small. unfold is_u32. lia. }
    assert (pu (push v x) = setr ESP (gesp (pu x) - 4) (pu x)) as Ec by (rewrite <- E1; reflexivity).
    destruct (IH (Datatypes.S n) (push v x)) as (H1 & H2 & H3); [rewrite E1; lia|rewrite E1; unfold is_u32; lia|].
    fold (pushes vs (push v x)). split_and!.
    + rewrite H1, E1, Ec.
      by replace (gesp (pu x) - 4 - 4 * Z.of_nat (length vs)) with (gesp (pu x) - 4 * Z.of_nat (Datatypes.S (length vs))) by lia.
    + by rewrite H2.
    + replace (Datatypes.S (length vs) + n)%nat with (length vs + Datatypes.S n)%nat by lia. rewrite H3, E1.
      cbn [rev]. rewrite <- app_assoc. f_equal. cbn [app].
      change (words (push v x)) with (<[u32 (gesp (pu x) - 4) := v]> (words x)).
      rewrite u32_small by (unfold is_u32; lia). rewrite words_at_cons. by replace (gesp (pu x) - 4 + 4) with (gesp (pu x)) by lia.
Qed.

(** What the hardware and the stub put on the stack: a [registers_t] at [frame_base].  From
    ring 0 its last two words are the two on top of the interrupted stack. *)
Definition stack_before (esp0 : Z) c : Z := if from_user c then esp0 else gesp c + 8.
Definition frame_base (esp0 : Z) c : Z := stack_before esp0 c - 60.
Definition outer_words (w : gmap Z Z) c : list Z := if from_user c then [gesp c; gss c] else words_at w (gesp c) 2.
Definition saved_frame (n err esp0 : Z) (w : gmap Z Z) c : list Z :=
  [gedi c; gesi c; gebp c; frame_base esp0 c + 32; gebx c; gedx c; gecx c; geax c; n; err; geip c; gcs c; geflags c]
  ++ outer_words w c.

(** The processor in the handler: the interrupted registers on the kernel's stack. *)
Definition handler_core (g : idt_entry) (t : tss) (sp : Z) c : core :=
  c {{ gesp := sp; gss := if from_user c then ss0 t else gss c; geip := gate_offset g; gcs := selector g;
       geflags := entry_flags g (geflags c) }}.

(** The registers a frame at [r] resumes; [k] is the processor in the handler. *)
Definition resume_core (f : list Z) (r : Z) (k : core) : core :=
  let outer := rpl (gcs k) <? rpl f.[11] in
  mkCore f.[7] f.[6] f.[5] f.[4] (if outer then f.[13] else r + 52) f.[2] f.[1] f.[0] f.[10] f.[12] f.[11]
    (if outer then f.[14] else gss k) (if outer then outer_segment (gds k) else gds k)
    (if outer then outer_segment (ges k) else ges k).

(** There is room for a frame below the stack in use. *)
Definition stack_room (esp0 : Z) c : Prop := 128 <= stack_before esp0 c <= 4294967292.

Lemma deliver_words g t err x :
  stack_room (esp0 t) (pu x) ->
  let c := pu x in let x' := deliver g t err x in
  let k := (5 + length (option_list err))%nat in
  pu x' = handler_core g t (stack_before (esp0 t) c - 4 * Z.of_nat k) c /\ world x' = world x /\
  words_at (words x') (gesp (pu x')) k = option_list err ++ [geip c; gcs c; geflags c] ++ outer_words (words x) c.
Proof.
  unfold stack_room, stack_before, outer_words, deliver, handler_core. cbn zeta. intros Hr.
  assert (length (option_list err) <= 1)%nat as He by (destruct err; cbn; lia).
  assert (rev (option_list err) = option_list err) as Erev by (by destruct err).
  destruct (from_user (pu x)) eqn:Hu.
  - set (y := with_core _ x). assert (gesp (pu y) = esp0 t) as Ey by reflexivity.
    destruct (pushes_words [gss (pu x); gesp (pu x)] 0 y) as (H1 & H2 & H3); [rewrite Ey; cbn; lia|rewrite Ey; unfold is_u32; lia|].
    set (x1 := pushes _ y) in *. rewrite Ey in H1. cbn [length] in H1.
    assert (gesp (pu x1) = esp0 t - 8) as E1 by (rewrite H1; reflexivity).
    destruct (pushes_words ([geflags (pu x); gcs (pu x); geip (pu x)] ++ option_list err) 2 x1) as (H4 & H5 & H6);
      [rewrite E1, length_app; cbn [length]; lia|rewrite E1; unfold is_u32; lia|].
    set (x2 := pushes _ x1) in *.
    rewrite E1, length_app in H4. cbn [length] in H4.
    split; [|split].
    + cbn [pu with_core]. rewrite H4, H1.
      replace (esp0 t - 8 - 4 * Z.of_nat (3 + length (option_list err))) with (esp0 t - 4 * Z.of_nat (5 + length (option_list err))) by lia.
      reflexivity.
    + cbn [world with_core]. by rewrite H5, H2.
    + rewrite length_app in H6. cbn [length Nat.add] in H6.
      replace (Datatypes.S (Datatypes.S (Datatypes.S (length (option_list err) + 2)))) with (5 + length (option_list err))%nat in H6 by lia.
      change (gesp (pu (with_core _ x2))) with (gesp (pu x2)). change (words (with_core _ x2)) with (words x2).
      etrans; [exact H6|]. rewrite rev_app_distr, Erev, <- app_assoc. do 2 f_equal. exact H3.
  - destruct (pushes_words ([geflags (pu x); gcs (pu x); geip (pu x)] ++ option_list err) 2 x) as (H4 & H5 & H6);
      [rewrite length_app; cbn [length]; lia|unfold is_u32; lia|].
    set (x2 := pushes _ x) in *. rewrite length_app in H4, H6. cbn [length Nat.add] in H4, H6.
    split; [|split].
    + cbn [pu with_core]. rewrite H4.
      replace (gesp (pu x) - 4 * Z.of_nat (Datatypes.S (Datatypes.S (Datatypes.S (length (option_list err))))))
        with (gesp (pu x) + 8 - 4 * Z.of_nat (5 + length (option_list err))) by lia. reflexivity.
    + exact H5.
    + replace (Datatypes.S (Datatypes.S (Datatypes.S (length (option_list err) + 2)))) with (5 + length (option_list err))%nat in H6 by lia.
      change (gesp (pu (with_core _ x2))) with (gesp (pu x2)). change (words (with_core _ x2)) with (words x2).
      etrans; [exact H6|]. by rewrite rev_app_distr, Erev, <- app_assoc.
Qed.

Lemma words_at_get w a n i : 0 <= i < Z.of_nat n -> (words_at w a n).[i] = w !!! (a + 4 * i).
Proof. intros Hi. unfold words_at. by rewrite aget_fmap_seqZ by lia. Qed.

(** *** From the call of [interrupt_dispatch] on *)
Lemma return_from_handler fuel v w s c :
  0 <= v <= 4294967232 ->
  run (7 + fuel) (drop 3 isr_common_code) (mkCfg (setr EDX scratch.2 (setr ECX scratch.1 (setr EAX v c))) w s) =
  Some (mkCfg (resume_core (words_at w v 15) v c) w s).
Proof.
  intros Hv. assert (forall i, 0 <= i <= 60 -> u32 (v + i) = v + i) as Hu by (intros i Hi; apply u32_small; unfold is_u32; lia).
  change (Some (iretd (with_core (setr ESP (u32 (u32 (v + 32) + 8))
    (pu (popa (mkCfg (setr ESP v (setr ESP (u32 (gesp c + 4)) (setr EDX scratch.2 (setr ECX scratch.1 (setr EAX v c))))) w s)))) (mkCfg c w s))) =
    Some (mkCfg (resume_core (words_at w v 15) v c) w s)).
  rewrite (Hu 32), <- Z.add_assoc, (Hu (32 + 8)) by lia. f_equal.
  unfold iretd, popa, top_word, resume_core, with_core. cbn [pu words world].
  change (gesp (setr ESP ?z ?k)) with z. cbn [setr].
  rewrite !words_at_get by (cbn; lia).
  rewrite <- !(Z.add_assoc v), !Hu by lia.
  assert (v + 52 = u32 (v + (32 + 8) + 12)) as -> by (rewrite <- Z.add_assoc, Hu; lia).
  destruct c. change (rpl (gcs _) <? rpl (w !!! (v + (32 + 8 + 4 * 1)))) with (rpl gcs0 <? rpl (w !!! (v + 4 * 11))).
  cbn [gcs]. by destruct (rpl gcs0 <? _).
Qed.

(** *** The whole stub *)
Definition stub_words (n : Z) : list Z := (if stub_has_error n then [] else [0]) ++ [u32 n].
Definition gprs (sp : Z) c : list Z := [geax c; gecx c; gedx c; gebx c; sp; gebp c; gesi c; gedi c].

Lemma stub_pushes n x fuel :
  let sp := gesp (pu (pushes (stub_words n) x)) in
  run (5 + fuel) (stub n) x = run (match stub_has_error n with true => 2 | false => 1 end + fuel) (drop 1 isr_common_code) (pushes (stub_words n ++ gprs sp (pu x)) x).
Proof.
  unfold stub, stub_words. destruct (stub_has_error n); cbn [app]; reflexivity.
Qed.

Lemma dispatch_call x fuel :
  8 <= gesp (pu x) < 4294967296 -> 
  let r := gesp (pu x) in let w1 := <[r - 8 := ret_addr]> (<[r - 4 := r]> (words x)) in
  run (2 + fuel) (drop 1 isr_common_code) x =
  ('(v, w, s) ← callee r w1 (world x);
   run fuel (drop 3 isr_common_code) (mkCfg (setr EDX scratch.2 (setr ECX scratch.1 (setr EAX v (setr ESP (r - 4) (pu x))))) w s)).
Proof.
  intros Hr r w1. assert (u32 (r - 4) = r - 4) as E1 by (apply u32_small; unfold is_u32, r; lia).
  assert (u32 (r - 4 - 4) = r - 8) as E2 by (rewrite u32_small by (unfold is_u32, r; lia); lia).
  etrans; [|instantiate (1 :=
    ('(v, w, s) ← callee (top_word 1 (push ret_addr (push r x))) (words (push ret_addr (push r x))) (world x);
     run fuel (drop 3 isr_common_code) (mkCfg (setr EDX scratch.2 (setr ECX scratch.1 (setr EAX v (setr ESP (u32 (r - 4)) (pu x))))) w s)))].
  { cbn [Nat.add run drop isr_common_code exec mbind option_bind operand_of getr]. fold r.
    change (world (push ret_addr (push r x))) with (world x). by destruct (callee _ _ _) as [[[v w] s]|]. }
  assert (words (push ret_addr (push r x)) = w1) as Ew.
  { change (words (push ret_addr (push r x))) with (<[u32 (u32 (r - 4) - 4) := ret_addr]> (<[u32 (r - 4) := r]> (words x))).
    by rewrite E1, E2. }
  assert (top_word 1 (push ret_addr (push r x)) = r) as ->.
  { unfold top_word. rewrite Ew. change (gesp (pu (push ret_addr (push r x)))) with (u32 (u32 (r - 4) - 4)). rewrite E1, E2.
    replace (r - 8 + 4 * 1) with (r - 4) by lia. rewrite E1. unfold w1.
    rewrite lookup_total_insert_ne by lia. apply lookup_total_insert_eq. }
  by rewrite Ew, E1.
Qed.

(** The stub calls [interrupt_dispatch] with the address of the saved registers, and then
    resumes the frame it returns. *)
Lemma stub_dispatches g t err n x :
  stack_room (esp0 t) (pu x) -> is_u32 n -> is_Some err <-> stub_has_error n = true ->
  let c := pu x in let r := frame_base (esp0 t) c in
  exists w1, words_at w1 r 15 = saved_frame n (default 0 err) (esp0 t) (words x) c /\
    forall k, k = handler_core g t (r - 4) c ->
    run 20 (stub n) (deliver g t err x) =
      ('(v, w, s) ← callee r w1 (world x);
       run (7 + (7 + (if stub_has_error n then 1 else 0))) (drop 3 isr_common_code)
         (mkCfg (setr EDX scratch.2 (setr ECX scratch.1 (setr EAX v k))) w s)).
Proof.
  intros Hroom Hn Herr c r. unfold stack_room in Hroom.
  destruct (deliver_words g t err x Hroom) as (Hc & Hw & Hws). fold c in Hc, Hws. set (y := deliver g t err x) in *.
  set (us := stub_words n). set (e := length (option_list err)) in *.
  assert (length us + e = 2)%nat as Hlen.
  { unfold us, stub_words, e. destruct Herr as [H1 H2]. destruct (stub_has_error n), err; cbn; try reflexivity.
    - exfalso. destruct (H2 eq_refl). done.
    - exfalso. discriminate (H1 ltac:(by eexists)). }
  assert (gesp (pu y) = stack_before (esp0 t) c - 4 * Z.of_nat (5 + e)) as Esp by (rewrite Hc; reflexivity).
  destruct (pushes_words us 0 y) as (H1 & _ & _); [rewrite Esp; unfold c in *; lia|rewrite Esp; unfold is_u32, c in *; lia|].
  assert (gesp (pu (pushes us y)) = r + 32) as Er.
  { rewrite H1. change (gesp (setr ESP ?z _)) with z. rewrite Esp. unfold r, frame_base. lia. }
  set (vs := us ++ gprs (r + 32) (pu y)).
  assert (length vs = (length us + 8)%nat) as Hlv by (unfold vs; by rewrite length_app).
  destruct (pushes_words vs (5 + e) y) as (H4 & H5 & H6); [rewrite Esp, Hlv; unfold c in *; lia|rewrite Esp; unfold is_u32, c in *; lia|].
  set (z := pushes vs y) in *.
  assert (gesp (pu z) = r) as Erz.
  { rewrite H4. change (gesp (setr ESP ?z _)) with z. rewrite Esp, Hlv. unfold r, frame_base. lia. }
  exists (<[r - 8 := ret_addr]> (<[r - 4 := r]> (words z))). split.
  - rewrite !words_at_out by lia. rewrite Erz in H6. replace (length vs + (5 + e))%nat with 15%nat in H6 by lia.
    rewrite H6, Hws. unfold vs, us, saved_frame, stub_words. fold c r.
    rewrite Hc. destruct Herr as [G1 G2]. rewrite (u32_small n Hn).
    destruct (stub_has_error n), err; try reflexivity.
    + exfalso. destruct (G2 eq_refl). done.
    + exfalso. discriminate (G1 ltac:(by eexists)).
  - intros k ->. etrans; [exact (stub_pushes n y 15)|]. cbn zeta. fold us. rewrite Er. fold vs z.
    replace (match stub_has_error n with true => 2 | false => 1 end + 15)%nat
      with (2 + (7 + (7 + (if stub_has_error n then 1 else 0))))%nat by (by destruct (stub_has_error n)).
    rewrite dispatch_call by (rewrite Erz; unfold r, frame_base, c; lia). rewrite Erz, H4, H5, Hw, Hc. reflexivity.
Qed.

(** *** An interrupt from the event to the instruction it resumes *)
(** [code_at]: what the linker placed at an address. *)
Definition interrupt (code_at : Z -> list instr) (idt : idt_state) (t : tss) (n : Z) (err : option Z) x : option (cfg X) :=
  let g := (gates idt).[n] in
  if negb (gate_present g) then None
  else let y := deliver g t err x in run 20 (code_at (geip (pu y))) y.

(** The entry points are addresses, with the stubs of [isr.S] at them. *)
Record linked (code_at : Z -> list instr) (isr irq : Z -> Z) (isr128 : Z) : Prop := {
  linked_isr i : is_u32 (isr i);
  linked_irq i : is_u32 (irq i);
  linked_128 : is_u32 isr128;
  linked_code n a : 0 <= n < 256 -> vector_target isr irq isr128 n = Some a -> code_at a = stub n;
}.

Lemma interrupt_stub code_at isr irq isr128 t n a err x :
  linked code_at isr irq isr128 -> 0 <= n < 256 -> vector_target isr irq isr128 n = Some a ->
  interrupt code_at (idt_init isr irq isr128) t n err x = run 20 (stub n) (deliver (gate_to n a) t err x).
Proof.
  intros Hl Hn Ha. unfold interrupt. rewrite idt_gate_of, Ha by done.
  destruct (gate_to_fields n a) as (-> & Hoff & _); [exact (vector_target_u32 _ _ _ _ _ (linked_isr _ _ _ _ Hl) (linked_irq _ _ _ _ Hl) (linked_128 _ _ _ _ Hl) Ha)|]. cbn [negb].
  change (geip (pu (deliver (gate_to n a) t err x))) with (gate_offset (gate_to n a)).
  by rewrite Hoff, (linked_code _ _ _ _ Hl n a Hn Ha).
Qed.

(** A program that may be interrupted: in ring 3 with data segments of its own ring, or in
    ring 0. *)
Definition segments_ok c : Prop :=
  if from_user c then user_selector (gds c) = true /\ user_selector (ges c) = true else rpl (gcs c) = 0.

(** The saved registers resume the interrupted program. *)
Lemma resume_saved n e t w c k :
  rpl (gcs k) = 0 -> gds k = gds c -> ges k = ges c -> (from_user c = false -> gss k = gss c) -> segments_ok c ->
  resume_core (saved_frame n e (esp0 t) w c) (frame_base (esp0 t) c) k = c.
Proof.
  intros Hcs Hds Hes Hss Hok. unfold resume_core, saved_frame, outer_words, frame_base, stack_before, segments_ok in *.
  unfold from_user in *. destruct (Z.eqb_spec (rpl (gcs c)) 3) as [E|_].
  - change (([gedi c; gesi c; gebp c; _ + 32; gebx c; gedx c; gecx c; geax c; n; e; geip c; gcs c; geflags c] ++ _).[11]) with (gcs c).
    rewrite Hcs, E, Hds, Hes. unfold outer_segment. destruct Hok as [-> ->]. by destruct c.
  - change (([gedi c; gesi c; gebp c; _ + 32; gebx c; gedx c; gecx c; geax c; n; e; geip c; gcs c; geflags c] ++ _).[11]) with (gcs c).
    rewrite Hcs, Hok, Hds, Hes, (Hss eq_refl). replace (gesp c + 8 - 60 + 52) with (gesp c) by lia. by destruct c.
Qed.

(** What an interrupt does, with the frame [interrupt_dispatch] returns in place. *)
Lemma interrupt_resumes code_at isr irq isr128 t n a err x :
  linked code_at isr irq isr128 -> 0 <= n < 256 -> vector_target isr irq isr128 n = Some a ->
  is_Some err <-> stub_has_error n = true -> stack_room (esp0 t) (pu x) ->
  let c := pu x in let r := frame_base (esp0 t) c in let k := handler_core (gate_to n a) t (r - 4) c in
  exists w1, words_at w1 r 15 = saved_frame n (default 0 err) (esp0 t) (words x) c /\
    match callee r w1 (world x) with
    | None => interrupt code_at (idt_init isr irq isr128) t n err x = None
    | Some (v, w, s) =>
        exists c', interrupt code_at (idt_init isr irq isr128) t n err x = Some (mkCfg c' w s) /\
          (0 <= v <= 4294967232 -> c' = resume_core (words_at w v 15) v k)
    end.
Proof.
  intros Hl Hn Ha Herr Hroom c r k.
  destruct (stub_dispatches (gate_to n a) t err n x Hroom) as (w1 & Hw1 & Hrun); [unfold is_u32; lia|done|].
  exists w1. split; [exact Hw1|]. rewrite (interrupt_stub _ _ _ _ _ n a) by done. rewrite (Hrun k eq_refl).
  fold c r. destruct (callee r w1 (world x)) as [[[v w] s]|]; [|done]. cbn [mbind option_bind].
  destruct (decide (0 <= v <= 4294967232)) as [Hv|Hv].
  - eexists. split; [by apply return_from_handler|done].
  - eexists. split; [reflexivity|done].
Qed.

End exec.

(** ** To ring 3 *)
(** [arch/x86/user_mode.S]; its arguments are on the stack. *)
Definition enter_user_mode : list instr :=
  [Cli; Mov ECX (At ESP 4); Mov EDX (At ESP 8); Mov16 EAX 35; MovSeg DS EAX; MovSeg ES EAX;
   Push (Imm 35); Push (Reg EDX); Push (Imm 514); Push (Imm 27); Push (Reg ECX); Iretd].

(** No routine but the stubs calls C code. *)
Definition no_call {X} (_ : Z) (_ : gmap Z Z) (_ : X) : option (Z * gmap Z Z * X) := None.
Abbreviation plain_run := (run no_call 0 (0, 0) 20).

Section user.
Context {X : Type}.
Implicit Types x : cfg X.

Lemma low_half z : u16 (Z.shiftl (Z.shiftr z 16) 16 + 35) = 35.
Proof. unfold u16. rewrite Z.shiftl_mul_pow2, shiftr_div by lia. change (2 ^ 16) with 65536. rewrite Z.add_comm, Z.mod_add by lia. done. Qed.

(** The program starts at its entry point on its own stack, in ring 3 with interrupts
    enabled and with data segments it may use. *)
Lemma enter_user_mode_starts x entry stack :
  20 <= gesp (pu x) < 4294967280 -> rpl (gcs (pu x)) = 0 ->
  words x !!! (gesp (pu x) + 4) = entry -> words x !!! (gesp (pu x) + 8) = stack ->
  exists y, plain_run enter_user_mode x = Some y /\ world y = world x /\
    geip (pu y) = entry /\ gesp (pu y) = stack /\ from_user (pu y) = true /\ gcs (pu y) = 27 /\ gss (pu y) = 35 /\
    Z.testbit (geflags (pu y)) 9 = true /\ gds (pu y) = 35 /\ ges (pu y) = 35.
Proof.
  intros Hsp Hcs He Hs.
  set (c0 := (pu x) {{ geflags := Z.land (geflags (pu x)) (u32 (Z.lnot 512)) }}).
  assert (u32 (gesp (pu x) + 4) = gesp (pu x) + 4) as E4 by (apply u32_small; unfold is_u32; lia).
  assert (u32 (gesp (pu x) + 8) = gesp (pu x) + 8) as E8 by (apply u32_small; unfold is_u32; lia).
  set (ax := Z.shiftl (Z.shiftr (geax (pu x)) 16) 16 + 35).
  set (c1 := c0 {{ gecx := entry; gedx := stack; geax := ax; gds := 35; ges := 35 }}).
  destruct (pushes_words [35; stack; 514; 27; entry] 0 (with_core c1 x)) as (H1 & H2 & H3);
    [change (gesp _) with (gesp (pu x)); cbn; lia|change (gesp _) with (gesp (pu x)); unfold is_u32; lia|].
  set (z := pushes _ _) in *. change (gesp (pu (with_core c1 x))) with (gesp (pu x)) in H1.
  assert (plain_run enter_user_mode x = Some (iretd z)) as Hrun.
  { transitivity (Some (iretd (pushes [u32 35; words x !!! u32 (gesp (pu x) + 8); u32 514; u32 27; words x !!! u32 (gesp (pu x) + 4)]
      (with_core (c0 {{ gecx := words x !!! u32 (gesp (pu x) + 4); gedx := words x !!! u32 (gesp (pu x) + 8); geax := ax;
                        gds := u16 ax; ges := u16 ax }}) x)))); [reflexivity|].
    assert (u16 ax = 35) as -> by apply low_half. rewrite E4, E8, He, Hs. reflexivity. }
  assert (gesp (pu z) = gesp (pu x) - 20) as Ez by (rewrite H1; change (gesp (setr ESP ?v _)) with v; cbn [length]; lia).
  assert (forall i, 0 <= i < 5 -> top_word i z = [entry; 27; 514; stack; 35].[i]) as Hw.
  { intros i Hi. change [entry; 27; 514; stack; 35] with (rev [35; stack; 514; 27; entry] ++ words_at (words (with_core c1 x)) (gesp (pu (with_core c1 x))) 0).
    rewrite <- H3, words_at_get by (cbn; lia). unfold top_word. rewrite u32_small; [done|]. unfold is_u32. lia. }
  exists (iretd z). split; [exact Hrun|]. split; [exact H2|].
  unfold iretd, with_core, from_user. cbn [pu]. rewrite !Hw by lia.
  change ([entry; 27; 514; stack; 35].[1]) with 27. change ([entry; 27; 514; stack; 35].[0]) with entry.
  assert (gcs (pu z) = gcs (pu x)) as -> by (rewrite H1; reflexivity). rewrite Hcs.
  change (0 <? rpl 27) with true. cbv iota. split_and!; try reflexivity; rewrite H1; reflexivity.
Qed.
End user.

(** ** Between kernel stacks *)
(** [arch/x86/context_switch.S] *)
Definition context_switch_code : list instr :=
  [Mov EAX (At ESP 4); Store EAX 44 ESP; Store EAX 40 EBP; Store EAX 20 EBX; Store EAX 36 ESI; Store EAX 32 EDI;
   Mov EAX (At ESP 8); Mov ESP (At EAX 44); Mov EBP (At EAX 40); Mov EBX (At EAX 20); Mov ESI (At EAX 36);
   Mov EDI (At EAX 32); Ret].

(** The words of [cpu_state], 16 bytes into a process, and the registers it keeps. *)
Definition cpu_state_at (w : gmap Z Z) (p : Z) (s : cpu_state_t) : Prop :=
  words_at w (p + 16) 10 = [ceax s; cebx s; cecx s; cedx s; cesi s; cedi s; cebp s; cesp s; ceip s; ceflags s].
Definition kept_regs c : list Z := [gebx c; gesi c; gedi c; gebp c].
Definition kept_state (s : cpu_state_t) : list Z := [cebx s; cesi s; cedi s; cebp s].
Definition in_array {S W} (k : kernel S W) (p : pcb_ptr) : Prop :=
  match p with Idle => True | Proc i => 0 <= i < Z.of_nat (length (processes k)) end.

(** Where the processes are in memory. *)
Definition pcb_apart (p q sp : Z) : Prop :=
  0 <= p <= 4294967240 /\ 0 <= q <= 4294967240 /\ (p + 56 <= q \/ q + 56 <= p) /\ 0 <= sp <= 4294967280 /\
  (sp + 12 <= p + 16 \/ p + 56 <= sp).

Section switch.
Context {X : Type}.
Implicit Types x : cfg X.

Ltac look := repeat first [rewrite lookup_total_insert_eq | rewrite lookup_total_insert_ne by lia].

(** The code: the callee-saved registers go to the process at [p], those of the one at [q]
    are loaded, and the routine returns on the stack of that process. *)
Lemma context_switch_runs x p q s t :
  let c := pu x in let sp := gesp c in
  pcb_apart p q sp -> words x !!! (sp + 4) = p -> words x !!! (sp + 8) = q ->
  cpu_state_at (words x) p s -> cpu_state_at (words x) q t ->
  exists y, plain_run context_switch_code x = Some y /\
    cpu_state_at (words y) p (mkCpuState (ceax s) (gebx c) (cecx s) (cedx s) (gedi c) (gesi c) (gebp c) sp (ceip s) (ceflags s)) /\
    cpu_state_at (words y) q t /\
    kept_regs (pu y) = [cebx t; cedi t; cesi t; cebp t] /\
    gesp (pu y) = u32 (cesp t + 4) /\ geip (pu y) = words y !!! u32 (cesp t).
Proof.
  intros c sp (Hp & Hq & Hpq & Hsp & Hps) Ep Eq Hs Ht.
  assert (forall a, 0 <= a <= 4294967240 -> forall i, 0 <= i < 56 -> u32 (a + i) = a + i) as Hu
    by (intros a Ha i Hi; apply u32_small; unfold is_u32; lia).
  assert (u32 (sp + 4) = sp + 4) as E4 by (apply u32_small; unfold is_u32; lia).
  assert (u32 (sp + 8) = sp + 8) as E8 by (apply u32_small; unfold is_u32; lia).
  set (w := <[p + 32 := gedi c]> (<[p + 36 := gesi c]> (<[p + 20 := gebx c]> (<[p + 40 := gebp c]> (<[p + 44 := sp]> (words x)))))).
  assert (w !!! (sp + 8) = q) as Eq' by (unfold w; look; exact Eq).
  assert (cpu_state_at w q t) as Ht'.
  { unfold cpu_state_at, w. rewrite !words_at_out by lia. exact Ht. }
  exists (mkCfg (mkCore q (gecx c) (gedx c) (w !!! (q + 20)) (u32 (w !!! (q + 44) + 4)) (w !!! (q + 40)) (w !!! (q + 36)) (w !!! (q + 32))
            (w !!! u32 (w !!! (q + 44) + 4 * 0)) (geflags c) (gcs c) (gss c) (gds c) (ges c)) w (world x)).
  split; [|split; [|split; [exact Ht'|]]].
  - transitivity (let p' := words x !!! u32 (sp + 4) in
      let w' := <[u32 (p' + 32) := gedi c]> (<[u32 (p' + 36) := gesi c]> (<[u32 (p' + 20) := gebx c]>
        (<[u32 (p' + 40) := gebp c]> (<[u32 (p' + 44) := sp]> (words x))))) in
      let q' := w' !!! u32 (sp + 8) in
      Some (mkCfg (mkCore q' (gecx c) (gedx c) (w' !!! u32 (q' + 20)) (u32 (w' !!! u32 (q' + 44) + 4)) (w' !!! u32 (q' + 40))
        (w' !!! u32 (q' + 36)) (w' !!! u32 (q' + 32)) (w' !!! u32 (w' !!! u32 (q' + 44) + 4 * 0)) (geflags c) (gcs c) (gss c) (gds c) (ges c)) w' (world x))).
    { unfold c, sp. destruct x as [[] ws wd]. reflexivity. }
    cbn zeta. rewrite E4, Ep, !(Hu p Hp) by lia. fold w. rewrite E8, Eq', !(Hu q Hq) by lia. reflexivity.
  - unfold cpu_state_at in *. rewrite !words_at_succ, <- !Z.add_assoc in Hs |- *. cbn [words] in *.
    injection Hs as H0 H1 H2 H3 H4 H5 H6 H7 H8 H9. unfold w. look. by repeat f_equal.
  - unfold cpu_state_at in Ht'. rewrite !words_at_succ, <- !Z.add_assoc in Ht'.
    injection Ht' as H0 H1 H2 H3 H4 H5 H6 H7 H8 H9. cbn [pu words kept_regs gebx gesi gedi gebp gesp geip].
    rewrite Z.mul_0_r, Z.add_0_r, <- H1, <- H5, <- H4, <- H6, <- H7. by split_and!.
Qed.

Lemma pcb_of_updated {S W} (k : kernel S W) p q f :
  in_array k p -> in_array k q -> pcb_of q (upd p f k) = if decide (p = q) then f (pcb_of q k) else pcb_of q k.
Proof.
  intros Hp Hq. destruct p as [|i], q as [|j]; [done|done|done|]. cbn in Hp, Hq.
  change ((processes k).[i <- f (processes k).[i]].[j] = if decide (Proc i = Proc j) then f (processes k).[j] else (processes k).[j]).
  rewrite aget_aset by lia. destruct (Z.eqb_spec i j) as [->|Hne]; [by rewrite decide_True|].
  rewrite decide_False; [done|congruence].
Qed.

(** What the model of the routine stores in the process it leaves. *)
Definition keep_regs (r : cpu_state_t) (z : pcb) : pcb :=
  z {{ cpu ::= fun o => mkCpuState (ceax o) (cebx r) (cecx o) (cedx o) (cedi r) (cesi r) (cebp r) (cesp r) (ceip o) (ceflags o) }}.

(** The operation of the scheduler model is what the routine does: with the processes in
    memory and the registers as the model has them, running it leaves memory and registers
    as the model has them afterwards; the two words it exchanges included. *)
Lemma context_switch_refines {S W} (k : kernel S W) from to x p q :
  from <> to -> in_array k from -> in_array k to ->
  let c := pu x in
  pcb_apart p q (gesp c) -> words x !!! (gesp c + 4) = p -> words x !!! (gesp c + 8) = q ->
  kept_regs c = kept_state (cpu_regs k) -> gesp c = cesp (cpu_regs k) ->
  cpu_state_at (words x) p (cpu (pcb_of from k)) -> cpu_state_at (words x) q (cpu (pcb_of to k)) ->
  let k' := context_switch from to k in
  exists y, plain_run context_switch_code x = Some y /\
    cpu_state_at (words y) p (cpu (pcb_of from k')) /\ cpu_state_at (words y) q (cpu (pcb_of to k')) /\
    kept_regs (pu y) = kept_state (cpu_regs k') /\
    gesp (pu y) = u32 (cesp (cpu_regs k') + 4) /\ geip (pu y) = words y !!! u32 (cesp (cpu_regs k')).
Proof.
  intros Hft Hf Ht c Hap Ep Eq Hk Hsp Hcf Hct k'.
  destruct (context_switch_runs x p q _ _ Hap Ep Eq Hcf Hct) as (y & Hrun & H1 & H2 & H3 & H4 & H5).
  exists y. split; [exact Hrun|]. injection Hk as K1 K2 K3 K4. fold c in H1. rewrite K1, K2, K3, K4, Hsp in H1.
  set (k1 := upd from (keep_regs (cpu_regs k)) k) in *. set (t := cpu (pcb_of to k)) in *. set (r := cpu_regs k) in *.
  set (g := mkCpuState (ceax r) (cebx t) (cecx r) (cedx r) (cedi t) (cesi t) (cebp t) (cesp t) (ceip r) (ceflags r)).
  assert (cpu (pcb_of to k1) = t) as Et by (unfold k1; by rewrite (pcb_of_updated k from to _ Hf Ht), decide_False).
  assert (k' = k1 {{ cpu_regs := g }}) as Ek.
  { transitivity (let o := cpu (pcb_of to k1) in k1 {{ cpu_regs ::= fun r =>
      mkCpuState (ceax r) (cebx o) (cecx r) (cedx r) (cedi o) (cesi o) (cebp o) (cesp o) (ceip r) (ceflags r) }}); [reflexivity|].
    cbn zeta. rewrite Et. unfold g, r, k1. by destruct from. }
  assert (forall p', pcb_of p' k' = pcb_of p' k1) as Eo by (intros p'; rewrite Ek; by destruct p').
  assert (cpu_regs k' = g) as -> by (by rewrite Ek). rewrite !Eo, Et. split; [|by split_and!].
  unfold k1. rewrite pcb_of_updated, decide_True by done. exact H1.
Qed.
End switch.

(** ** Start *)
(** [arch/x86/boot.S]: the header the boot loader looks for, and the code up to the call of
    [kmain], which gets the loader's [eax] and [ebx]. *)
Definition mb2_header : list Z := [3897708758; 0; 24; u32 (- (3897708758 + 0 + 24))].
Lemma mb2_header_sum : u32 (foldr Z.add 0 mb2_header) = 0.
Proof. reflexivity. Qed.

Definition start_code (stack_top : Z) : list instr := [Cli; Mov ESP (Imm stack_top); Push (Reg EBX); Push (Reg EAX)].
Lemma start_arguments {X} (x : cfg X) top :
  8 <= top < 4294967296 ->
  exists y, plain_run (start_code top) x = Some y /\ words_at (words y) (gesp (pu y)) 2 = [geax (pu x); gebx (pu x)] /\
    Z.testbit (geflags (pu y)) 9 = false.
Proof.
  intros Ht. set (c := (pu x) {{ geflags := Z.land (geflags (pu x)) (u32 (Z.lnot 512)); gesp := top }}).
  destruct (pushes_words [gebx (pu x); geax (pu x)] 0 (with_core c x)) as (H1 & _ & H3);
    [change (gesp _) with top; cbn; lia|change (gesp _) with top; unfold is_u32; lia|].
  exists (pushes [gebx (pu x); geax (pu x)] (with_core c x)). split; [|split; [exact H3|]].
  - transitivity (Some (pushes [gebx (pu x); geax (pu x)] (with_core (c {{ gesp := u32 top }}) x))); [reflexivity|].
    by rewrite (u32_small top) by (unfold is_u32; lia).
  - rewrite H1. change (geflags _) with (Z.land (geflags (pu x)) (u32 (Z.lnot 512))). rewrite Z.land_spec.
    change (Z.testbit (u32 (Z.lnot 512)) 9) with false. apply andb_false_r.
Qed.

(** ** A small machine *)
(** The stubs 16 bytes apart from 1 MiB on. *)
Definition demo_isr (i : Z) : Z := u32 (1048576 + 16 * i).
Definition demo_irq (i : Z) : Z := u32 (1049088 + 16 * i).
Definition demo_code (a : Z) : list instr := stub ((a - 1048576) / 16).

Lemma demo_linked : linked demo_code demo_isr demo_irq 1050624.
Proof.
  split; [intros; apply u32_range..|split; [discriminate|reflexivity]|].
  intros n a Hn. unfold vector_target, demo_isr, demo_irq, demo_code.
  destruct (Z.ltb_spec n 32); [|destruct (Z.ltb_spec n 48); [|destruct (Z.eqb_spec n 128); [|discriminate]]]; intros [= <-].
  - rewrite u32_small by (unfold is_u32; lia). f_equal. Z.to_euclidean_division_equations. lia.
  - rewrite u32_small by (unfold is_u32; lia). f_equal. Z.to_euclidean_division_equations. lia.
  - by subst n.
Qed.

(** A user program, interrupted. *)
Definition demo_core : core := mkCore 1 2 3 4 12578800 6 7 8 4194400 514 27 35 35 35.
Definition demo_tss : tss := mkTss 2097152 16 SIZEOF_TSS.


(** The processor pushes an error code for vector 21, the control protection exception, but
    its stub pushes a zero as well: the frame [interrupt_dispatch] gets is one word off, and
    its [eip] is the error code. *)
Lemma control_protection_frame_shifted :
  exists y, interrupt (fun r w _ => Some (r, w, words_at w r 15)) 1052672 (9, 9) demo_code (idt_init demo_isr demo_irq 1050624)
    demo_tss 21 (Some 3) (mkCfg demo_core ∅ []) = Some y /\
    (world y).[R_INT_NO] = 21 /\ (world y).[R_EIP] = 3 /\ (world y).[R_CS] = geip demo_core.
Proof. eexists. split; [vm_compute; reflexivity|]. by split_and!. Qed.

(** The stubs neither save nor load [ds] and [es]: the handler runs with the data segments of
    the interrupted program, and so does the program it resumes. *)
Lemma data_segments_not_switched g t sp c f r :
  gds (handler_core g t sp c) = gds c /\
  gds (resume_core f r (handler_core g t sp c)) = (if rpl (selector g) <? rpl f.[11] then outer_segment (gds c) else gds c).
Proof. done. Qed.
