(* ===== verification/Preempt.v ===== *)
(** Interrupts from end to end: the stubs of [arch/x86/isr.S] around [interrupt_dispatch].

    The frames the kernel works on ([Process.regs]) and the words on the stacks are tied
    together at the call: the words the stub pushed are the frame [interrupt_dispatch] is
    given, and the frame it returns is in memory when the stub pops it.  A device interrupt
    is invisible to the program it interrupts, and so is being preempted by the timer: when
    the scheduler comes round again, the program goes on with every register as it was. *)
From S2P Require Import Prelude Frames Pmm Paging KernelMap Heap Keyboard Net Vmm VmmDemo Block Fat32 Console Vfs Sync Timer Process ReadyQueue Scheduler ProcessDemo Syscall SyscallTheorems Apic Interrupts Trap.
From coqutil Require Import Datatypes.RecordSetters.
Import DoubleBraceUpdate.

(** [l] in memory from [a] on. *)
Fixpoint store_words (a : Z) (l : list Z) (w : gmap Z Z) : gmap Z Z :=
  match l with [] => w | v :: l' => <[a := v]> (store_words (a + 4) l' w) end.

Lemma store_words_get l : forall a w, words_at (store_words a l w) a (length l) = l.
Proof.
  induction l as [|v l IH]; intros a w; [done|]. cbn [store_words length]. rewrite words_at_cons. by rewrite IH.
Qed.

Lemma store_words_out l : forall a w b, b < a \/ a + 4 * Z.of_nat (length l) <= b -> store_words a l w !! b = w !! b.
Proof.
  induction l as [|v l IH]; intros a w b Hb; [done|]. cbn [store_words length] in *.
  rewrite lookup_insert_ne by lia. apply IH. lia.
Qed.

Section preempt.
Context {S W : Type} `{FrameAllocator S}.
Variable blk : Block.block W.
Variable stack_top : pcb_ptr -> Z.
Variable initial_frame_at : pcb_ptr -> Z.
Variable utab_addr : Z -> Z -> Z.
Variable heap_area : Z.
Variable cr2 : Z.
Variable fuel : nat.
Variable scancode : Z.
Variable ret_addr : Z.
Variable scratch : Z * Z.
Variable code_at : Z -> list instr.
Variable isr irq : Z -> Z.
Variable isr128 : Z.
Implicit Types m : machine S W.
Implicit Types k : kernel S W.

(** The kernel behind the stub. *)
Definition put_frame (r : Z) (f : list Z) m : machine S W := m {{ system ::= set_kern (set_frame r f) }}.
Definition kernel_callee (r : Z) (w : gmap Z Z) m : option (Z * gmap Z Z * machine S W) :=
  match interrupt_dispatch blk stack_top initial_frame_at utab_addr heap_area cr2 fuel scancode r (put_frame r (words_at w r 15) m) with
  | Done r' m' => Some (r', store_words r' (frame_at r' (kern (system m'))) w, m')
  | Panicked _ _ => None
  end.

(** The task segment, as [tss_set_kernel_stack] last left it. *)
Definition tss_of m : tss := mkTss (tss_esp0 (kern (system m))) 16 SIZEOF_TSS.
Definition take_interrupt (n : Z) (err : option Z) (x : cfg (machine S W)) : option (cfg (machine S W)) :=
  interrupt kernel_callee ret_addr scratch code_at (idt_init isr irq isr128) (tss_of (world x)) n err x.

Lemma frame_put r f k : frame_at r (set_frame r f k) = f.
Proof. unfold frame_at. change (regs (set_frame r f k)) with (<[r := f]> (regs k)). by rewrite lookup_insert_eq. Qed.

Lemma frame_put_ne r r' f k : r <> r' -> frame_at r' (set_frame r f k) = frame_at r' k.
Proof. intros Hne. unfold frame_at. change (regs (set_frame r f k)) with (<[r := f]> (regs k)). by rewrite lookup_insert_ne. Qed.

(** ** Device interrupts *)
Lemma irq_handler_frame r m :
  regs (kern (system (irq_handler scancode r m))) = regs (kern (system m)) /\
  vm (kern (system (irq_handler scancode r m))) = vm (kern (system m)) /\
  processes (kern (system (irq_handler scancode r m))) = processes (kern (system m)).
Proof.
  unfold irq_handler. set (i := u8 _). destruct (i <? 16), ((irq_handlers m).[i]) as [[]|], (8 <=? i); done.
Qed.

Lemma device_dispatch r n m :
  33 <= n < 48 -> reg_of r R_INT_NO m = n ->
  interrupt_dispatch blk stack_top initial_frame_at utab_addr heap_area cr2 fuel scancode r m = Done r (irq_handler scancode r m).
Proof.
  intros Hn Hr. unfold interrupt_dispatch. rewrite Hr.
  destruct (Z.ltb_spec n 32); [lia|]. destruct (Z.eqb_spec n 32); [lia|]. by destruct (Z.ltb_spec n 48); [|lia].
Qed.

Lemma saved_frame_length n e sp w c : length (saved_frame n e sp w c) = 15%nat.
Proof. unfold saved_frame, outer_words. by destruct (from_user c). Qed.
Lemma saved_frame_vector n e sp w c : (saved_frame n e sp w c).[R_INT_NO] = n.
Proof. reflexivity. Qed.

Lemma irq_vector n : 32 <= n < 48 -> vector_target isr irq isr128 n = Some (irq (n - 32)) /\ stub_has_error n = false.
Proof.
  intros Hn. unfold vector_target, stub_has_error. destruct (Z.ltb_spec n 32); [lia|]. destruct (Z.ltb_spec n 48); [|lia].
  split; [done|]. lia.
Qed.

(** What the kernel does with the frame the stub pushed. *)
Lemma take_interrupt_spec n x :
  linked code_at isr irq isr128 -> 32 <= n < 48 ->
  let m := world x in let c := pu x in let sp := tss_esp0 (kern (system m)) in let r := frame_base sp c in
  stack_room sp c ->
  let f := saved_frame n 0 sp (words x) c in
  match interrupt_dispatch blk stack_top initial_frame_at utab_addr heap_area cr2 fuel scancode r (put_frame r f m) with
  | Panicked _ _ => take_interrupt n None x = None
  | Done v m' =>
      exists c' w, take_interrupt n None x = Some (mkCfg c' w m') /\
        (length (frame_at v (kern (system m'))) = 15%nat -> 0 <= v <= 4294967232 ->
         c' = resume_core (frame_at v (kern (system m'))) v (handler_core (gate_to n (irq (n - 32))) (tss_of m) (r - 4) c))
  end.
Proof.
  intros Hl Hn m c sp r Hroom f. destruct (irq_vector n Hn) as [Hv He].
  destruct (interrupt_resumes kernel_callee ret_addr scratch code_at isr irq isr128 (tss_of m) n _ None x Hl ltac:(lia) Hv)
    as (w1 & Hw1 & Hres); [rewrite He; split; [intros []; discriminate|discriminate]|exact Hroom|].
  change (esp0 (tss_of m)) with sp in *. fold c r in Hw1, Hres. cbn [default] in Hw1. change (default 0 None) with 0 in Hw1. fold f in Hw1.
  unfold take_interrupt. fold m. fold m in Hres. unfold kernel_callee at 1 in Hres. rewrite Hw1 in Hres.
  destruct (interrupt_dispatch _ _ _ _ _ _ _ _ r (put_frame r f m)) as [v m'|e m']; [|exact Hres].
  destruct Hres as (c' & Hrun & Hc'). exists c', (store_words v (frame_at v (kern (system m'))) w1).
  split; [exact Hrun|]. intros Hlen Hvr. rewrite (Hc' Hvr). by rewrite <- Hlen, store_words_get.
Qed.

Lemma frame_base_range sp c : stack_room sp c -> 0 <= frame_base sp c <= 4294967232 /\ frame_base sp c <> 0.
Proof. unfold stack_room, frame_base. lia. Qed.

(** C14: a device interrupt does its work unseen by the program it interrupts: the program goes
    on with every register as it was and no process or address space has changed; the line
    is acknowledged once at the controllers, and a key press is in the keyboard's ring if
    the keyboard handler is registered for the line. *)
Theorem device_interrupt_transparent n x :
  linked code_at isr irq isr128 -> 33 <= n < 48 ->
  let m := world x in
  stack_room (tss_esp0 (kern (system m))) (pu x) -> segments_ok (pu x) ->
  exists y, take_interrupt n None x = Some y /\ pu y = pu x /\
    ports_out (world y) = ports_out m ++ eoi_of (n - 32) /\
    vm (kern (system (world y))) = vm (kern (system m)) /\
    processes (kern (system (world y))) = processes (kern (system m)) /\
    keys (world y) = (match (irq_handlers m).[n - 32] with Some Keyboard_irq => keyboard_irq scancode (keys m) | _ => keys m end).
Proof.
  intros Hl Hn m Hroom Hseg. pose proof (take_interrupt_spec n x Hl ltac:(lia)) as Hspec. cbn zeta in Hspec. fold m in Hspec.
  specialize (Hspec Hroom). destruct (frame_base_range _ _ Hroom) as [Hr _].
  set (r := frame_base _ (pu x)) in *. set (f := saved_frame _ _ _ _ _) in *. set (m1 := put_frame r f m) in *.
  assert (reg_of r R_INT_NO m1 = n) as Hno.
  { unfold reg_of, m1. change (kern (system (put_frame r f m))) with (set_frame r f (kern (system m))). by rewrite frame_put. }
  rewrite (device_dispatch r n m1 Hn Hno) in Hspec. destruct Hspec as (c' & w & Hrun & Hc').
  destruct (irq_handler_frame r m1) as (Ereg & Evm & Epr).
  assert (frame_at r (kern (system (irq_handler scancode r m1))) = f) as Ef.
  { unfold frame_at. rewrite Ereg. apply (frame_put r f (kern (system m))). }
  rewrite Ef in Hc'. eexists. split; [exact Hrun|]. cbn [pu world]. split; [|split; [|split; [exact Evm|split; [exact Epr|]]]].
  - rewrite Hc' by (apply saved_frame_length || exact Hr). unfold f, r. apply (resume_saved n 0 (tss_of m)); try done.
    intros Hu. cbn. by rewrite Hu.
  - rewrite irq_handler_ports by (rewrite Hno; lia). by rewrite Hno.
  - unfold irq_handler. rewrite Hno. assert (u8 (n - 32) = n - 32) as -> by (apply Z.mod_small; lia).
    destruct (Z.ltb_spec (n - 32) 16); [|lia]. change (irq_handlers m1) with (irq_handlers m).
    destruct ((irq_handlers m).[n - 32]) as [[]|], (8 <=? n - 32); done.
Qed.

(** ** Preemption *)
Local Abbreviation tick := (scheduler_timer_tick stack_top initial_frame_at).
Local Abbreviation resume := (resume_frame stack_top initial_frame_at).

(** The frames and the clock are not the scheduler's business. *)
Definition ticked (r : Z) (f : list Z) k : kernel S W := (set_frame r f k) {{ clock ::= timer_irq }}.
Lemma ticked_round_robin r f k p q : round_robin k p q -> round_robin (ticked r f k) p q.
Proof. intros [? ? ? ? ? ? ? ?]. by split. Qed.

Lemma enqueue_running p k : running (enqueue p k) = running k /\ tss_esp0 (enqueue p k) = tss_esp0 k.
Proof. unfold enqueue. repeat (case_match; try done). Qed.
Lemma upd_running p f k : running (upd p f k) = running k /\ tss_esp0 (upd p f k) = tss_esp0 k.
Proof. by destruct p. Qed.
Lemma requeue_keeps p k : running (requeue p k) = running k /\ tss_esp0 (requeue p k) = tss_esp0 k.
Proof.
  unfold requeue. case_match; [|done]. destruct (enqueue_running p (set_state p PROCESS_READY k)) as [-> ->]. apply upd_running.
Qed.
Lemma next_ready_keeps n : forall k, running (next_ready n k).2 = running k /\ tss_esp0 (next_ready n k).2 = tss_esp0 k.
Proof. induction n as [|n IH]; intros k; [done|]. cbn [next_ready]. repeat (case_match; try done). match goal with |- context [next_ready n ?k'] => by destruct (IH k') as [-> ->] end. Qed.

(** A tick that changes the process also changes the kernel stack. *)
Lemma tick_stack r k :
  process_poll_timeouts k = k ->
  let k' := (tick r k).2 in
  running k' = running k \/ running k' = Idle \/ tss_esp0 k' = stack_top (running k').
Proof.
  intros Hp. unfold scheduler_timer_tick. rewrite Hp. set (k1 := count_tick _ _).
  assert (running k1 = running k) as E1 by (by destruct (running k) eqn:E; unfold k1; rewrite ?E).
  destruct (_ <? _); [left; exact E1|].
  set (k2 := requeue _ _). assert (running k2 = running k) as E2.
  { unfold k2. destruct (requeue_keeps (running k) (reset_ticks (running k) k1)) as [-> _]. etrans; [apply upd_running|exact E1]. }
  destruct (next_ready 33 k2) as [n k3] eqn:En. pose proof (next_ready_keeps 33 k2) as [E3 _]. rewrite En in E3. cbn [snd] in E3.
  destruct (bool_decide (n = running k)); [left; cbn; congruence|].
  destruct (bool_decide (n = Idle)).
  - destruct (bool_decide (state _ = PROCESS_RUNNING)) eqn:Eb; cbn [snd].
    + left. reflexivity.
    + right. left. reflexivity.
  - right. right. by destruct n.
Qed.

(** The state a timer interrupt leaves when [j] is next: [c'] resumes the frame of [j]. *)
Record switched k k' (p j : Z) (q : list Z) (r : Z) (f : list Z) : Prop := {
  sw_queue : round_robin k' j (q ++ [p]);
  sw_stack : tss_esp0 k' = stack_top (Proc j);
  sw_regs : regs k' = <[r := f]> (regs k);
  sw_frame : interrupt_frame (processes k').[p] = r;
  sw_frames i : in_table i -> i <> p -> interrupt_frame (processes k').[i] = interrupt_frame (processes k).[i];
  sw_spaces i : in_table i -> space (processes k').[i] = space (processes k).[i];
  sw_space : current_space (vm k') = space (processes k).[j];
}.

Lemma tick_switched r f k p j q :
  round_robin k p (j :: q) ->
  exists k', tick r (ticked r f k) = (resume (Proc j) k, k') /\ switched k k' p j q r f.
Proof.
  intros Hr. pose proof (ticked_round_robin r f k p (j :: q) Hr) as Hr1.
  destruct (tick_switch stack_top initial_frame_at r (ticked r f k) p j q Hr1)
    as (k' & Ht & Hrun & Hq & Hs & Hcnt & Hreg & Hsp & _).
  exists k'. split; [exact Ht|]. pose proof (rr_queue _ _ _ Hr) as [_ Hnd Hch]. destruct (rr_current _ _ _ Hr) as [Hp Hpq].
  assert (j <> p) as Hjp by set_solver.
  assert (forall {A} (g : pcb -> A) i, (forall z, g (z {{ next := None }}) = g z) -> in_table i ->
    g (processes k').[i] = g (turned r p j (processes k) i)) as Hf by (intros; symmetry; by apply same_field, Hs).
  split.
  - exact (turned_round_robin r _ _ _ _ _ Hr1 Hrun Hq Hs Hcnt).
  - pose proof (tick_stack r (ticked r f k)) as Htss. rewrite Ht in Htss. cbn [snd] in Htss. rewrite Hrun in Htss.
    destruct Htss as [E|[E|E]]; [by apply poll_quiet; apply Hr1| |discriminate E|exact E].
    change (running (ticked r f k)) with (running k) in E. rewrite (rr_running _ _ _ Hr) in E. congruence.
  - exact Hreg.
  - rewrite (Hf _ interrupt_frame p) by done. unfold turned. by rewrite Z.eqb_refl.
  - intros i Hi Hip. rewrite (Hf _ interrupt_frame i) by done. unfold turned.
    destruct (Z.eqb_spec i p); [done|]. by destruct (Z.eqb_spec i j) as [->|].
  - intros i Hi. rewrite (Hf _ space i) by done. unfold turned.
    destruct (Z.eqb_spec i p) as [->|]; [done|]. by destruct (Z.eqb_spec i j) as [->|].
  - exact Hsp.
Qed.

(** One timer interrupt, taken with registers [c] and memory [w]. *)
Lemma timer_step m p j q c w :
  linked code_at isr irq isr128 -> round_robin (kern (system m)) p (j :: q) -> (irq_handlers m).[0] = Some Timer_irq ->
  let k := kern (system m) in let sp := tss_esp0 k in let r := frame_base sp c in
  stack_room sp c ->
  exists c' w' m', take_interrupt 32 None (mkCfg c w m) = Some (mkCfg c' w' m') /\ irq_handlers m' = irq_handlers m /\
    switched k (kern (system m')) p j q r (saved_frame 32 0 sp w c) /\
    forall v, v = resume (Proc j) k -> length (frame_at v (kern (system m'))) = 15%nat -> 0 <= v <= 4294967232 ->
      c' = resume_core (frame_at v (kern (system m'))) v (handler_core (gate_to 32 (irq 0)) (tss_of m) (r - 4) c).
Proof.
  intros Hl Hr Hh k sp r Hroom. pose proof (take_interrupt_spec 32 (mkCfg c w m) Hl ltac:(lia)) as Hspec.
  cbn zeta in Hspec. specialize (Hspec Hroom). cbn [pu words world] in Hspec. fold k sp r in Hspec.
  set (f := saved_frame 32 0 sp w c) in *. set (m1 := put_frame r f m) in *.
  assert (kern (system m1) = set_frame r f k) as Ek1 by reflexivity.
  assert (reg_of r R_INT_NO m1 = 32) as Hno by (unfold reg_of; rewrite Ek1, frame_put; reflexivity).
  pose proof (timer_interrupt blk stack_top initial_frame_at utab_addr heap_area cr2 fuel scancode r m1 Hno Hh) as Ht. cbn zeta in Ht.
  destruct (tick_switched r f k p j q Hr) as (k' & Etick & Hsw).
  change (scheduler_timer_tick stack_top initial_frame_at r ((kern (system m1)) {{ clock ::= timer_irq }}))
    with (tick r (ticked r f k)) in Ht. rewrite Etick in Ht. destruct Ht as (m' & Hd & Ek' & _ & Eh & _).
  rewrite Hd in Hspec. destruct Hspec as (c' & w' & Hrun & Hc'). exists c', w', m'. split; [exact Hrun|]. split; [exact Eh|].
  rewrite Ek' in *. split; [exact Hsw|]. intros v ->. exact Hc'.
Qed.

(** Timer interrupts one after the other; each finds the registers and the memory the
    running program has got to by then. *)
Fixpoint timer_interrupts (ss : list (core * gmap Z Z)) (x : cfg (machine S W)) : option (cfg (machine S W)) :=
  match ss with
  | [] => Some x
  | (c, w) :: ss' => y ← take_interrupt 32 None (mkCfg c w (world x)); timer_interrupts ss' y
  end.

(** The program on the processor as every program the kernel starts: with the data segments
    of [enter_user_mode], in ring 3, or in ring 0 on the kernel's stack segment. *)
Definition flat c : Prop := gds c = 35 /\ ges c = 35 /\ (from_user c = true \/ rpl (gcs c) = 0 /\ gss c = 16).

(** The frame of a program interrupted while process [i] runs fits and does not lie on [r]. *)
Definition elsewhere (r i : Z) (c : core) : Prop :=
  flat c /\ stack_room (stack_top (Proc i)) c /\ frame_base (stack_top (Proc i)) c <> r.

(** The saved frame of [p] is still there when [p] is at the head of the queue again, and is
    resumed. *)
Lemma comes_round p r f n : forall ss m cur q x,
  linked code_at isr irq isr128 -> world x = m ->
  round_robin (kern (system m)) cur q -> q !! n = Some p -> length ss = Datatypes.S n ->
  (irq_handlers m).[0] = Some Timer_irq -> tss_esp0 (kern (system m)) = stack_top (Proc cur) ->
  interrupt_frame (processes (kern (system m))).[p] = r -> r <> 0 -> 0 <= r <= 4294967232 ->
  frame_at r (kern (system m)) = f -> length f = 15%nat ->
  (forall s i, s ∈ ss -> i ∈ cur :: q -> i <> p -> elsewhere r i s.1) ->
  exists y (h : core), timer_interrupts ss x = Some y /\ pu y = resume_core f r h /\
    rpl (gcs h) = 0 /\ gds h = 35 /\ ges h = 35 /\ gss h = 16 /\
    running (kern (system (world y))) = Proc p /\
    current_space (vm (kern (system (world y)))) = space (processes (kern (system m))).[p].
Proof.
  induction n as [|n IH]; intros ss m cur q x Hl Em Hr Hp Hlen Hh Htss Hif Hr0 Hrr Hf Hlf Hss;
    destruct ss as [|[c w] ss]; try discriminate Hlen; destruct q as [|j q]; try discriminate Hp; cbn [timer_interrupts];
    pose proof (rr_queue _ _ _ Hr) as [_ Hnd Hch]; destruct (rr_current _ _ _ Hr) as [Hcur Hcq];
    assert (p ∈ j :: q) as Hpq by (by eapply list_elem_of_lookup_2);
    assert (in_table p) as Htp by (by apply (chain_slots _ _ _ _ Hch)); assert (cur <> p) as Hcp by set_solver;
    destruct (Hss (c, w) cur ltac:(by left) ltac:(by left) Hcp) as ((Hds & Hes & Hring) & Hroom & Hbase); cbn [fst] in *;
    rewrite <- Htss in Hroom;
    destruct (timer_step m cur j q c w Hl Hr Hh Hroom) as (c' & w' & m' & Hrun & Hh' & Hsw & Hc');
    rewrite Em, Hrun; cbn [mbind option_bind]; rewrite Htss in *;
    assert (frame_at r (kern (system m')) = f) as Hf'
      by (unfold frame_at; rewrite (sw_regs _ _ _ _ _ _ _ Hsw), lookup_insert_ne by done; exact Hf).
  - injection Hp as ->. injection Hlen as Hlen. destruct ss; [|discriminate Hlen]. cbn [timer_interrupts].
    eexists _, _. split; [reflexivity|]. cbn [pu world]. split.
    { rewrite <- Hf' at 1. apply Hc'; [|by rewrite Hf'|exact Hrr].
      unfold resume_frame. cbn [pcb_of]. rewrite Hif. by destruct (Z.eqb_spec r 0). }
    rewrite (rr_running _ _ _ (sw_queue _ _ _ _ _ _ _ Hsw)), (sw_space _ _ _ _ _ _ _ Hsw).
    split_and!; [reflexivity|exact Hds|exact Hes| |done|done].
    cbn. destruct Hring as [->|[Hz Hg]]; [done|]. unfold from_user. by rewrite Hz.
  - injection Hlen as Hlen. cbn in Hp.
    assert (p <> cur /\ p <> j) as [_ Hpj].
    { split; [done|]. apply NoDup_cons in Hnd as [Hn _]. intros ->. apply Hn. by eapply list_elem_of_lookup_2. }
    destruct (IH ss m' j (q ++ [cur]) (mkCfg c' w' m') Hl eq_refl (sw_queue _ _ _ _ _ _ _ Hsw)) as (y & k & Hy & Hpu & H1 & H2 & H3 & H4 & H5 & H6).
    + rewrite lookup_app_l by (by apply lookup_lt_is_Some; eexists). exact Hp.
    + exact Hlen.
    + by rewrite Hh'.
    + apply Hsw.
    + rewrite (sw_frames _ _ _ _ _ _ _ Hsw p) by done. exact Hif.
    + done.
    + done.
    + exact Hf'.
    + done.
    + intros s i Hs Hi Hip. apply Hss; [by right|clear -Hi; set_solver|done].
    + exists y, k. rewrite (sw_spaces _ _ _ _ _ _ _ Hsw p Htp) in H6. split_and!; assumption.
Qed.

End preempt.

(** ** A small machine
    Three kernel workers, the first running and the other two queued, with the timer and
    the keyboard on their lines. *)
Definition preempt_machine : machine pmm (gmap Z (list Z)) :=
  mkMachine _ _ (mkSys _ _ demo_queued net_boot (replicate 8 inhabitant) None 0 (mkHeap ∅ ∅ 0 0)) keyboard_boot
    ([Some Timer_irq; Some Keyboard_irq] ++ replicate 14 None) [] (mkLapic ∅ false) [].
(** A worker on its own stack. *)
Definition worker_core (i : Z) : core := mkCore (10 + i) 2 3 4 (demo_top (Proc i) - 256) 6 7 8 1114200 514 8 16 35 35.

Lemma worker_core_flat i : flat (worker_core i).
Proof. split; [done|]. split; [done|]. by right. Qed.

Lemma device_interrupt_transparent_witness :
  exists y, take_interrupt ram_block demo_top demo_initial demo_tables 0 0 4 30 1052672 (9, 9) demo_code demo_isr demo_irq 1050624 33 None
      (mkCfg (worker_core 0) ∅ preempt_machine) = Some y /\
    pu y = worker_core 0 /\ ports_out (world y) = [(32, 32)] /\ keyboard_getc (keys (world y)) = keyboard_getc (keyboard_irq 30 keyboard_boot).
Proof.
  destruct (device_interrupt_transparent ram_block demo_top demo_initial demo_tables 0 0 4 30 1052672 (9, 9) demo_code demo_isr demo_irq
    1050624 33 (mkCfg (worker_core 0) ∅ preempt_machine) demo_linked) as (y & Hy & Hpu & Hports & _ & _ & Hk).
  - lia.
  - split; discriminate.
  - reflexivity.
  - exists y. split; [exact Hy|]. split; [exact Hpu|]. split; [exact Hports|]. by rewrite Hk.
Defined.

