(* ===== verification/Modules.v ===== *)
(** Kernel modules, [modules/module.c] and [include/module.h].

    A [kernel_module_t *] is the index of the module in [store], so that a module
    registered twice is one module; [init] and [exit] act on the type [W] of everything
    else in the kernel. *)
From S2P Require Import Prelude.
From coqutil Require Import Datatypes.RecordSetters.
Import DoubleBraceUpdate.

Record kernel_module {W : Type} := mkModule {
  mname : option (list Z);
  version : option (list Z); author : option (list Z); license : option (list Z);
  init : option (W -> Z * W);
  exit : option (W -> W);
  depends : list (option (list Z));
  refcount : Z;
  loaded : bool;
}.
Arguments kernel_module W : clear implicits.

Record modules {W : Type} := mkModules { store : list (kernel_module W); mods : list Z; count_ : Z; world : W }.
Arguments modules W : clear implicits.

Section modules.
Context {W : Type}.
Implicit Types m : modules W.
#[global] Instance module_inhabited : Inhabited (kernel_module W) :=
  populate (mkModule W None None None None None None [] 0 false).

(** The module in slot [i] of [mods]. *)
Definition mod_at (i : Z) m : kernel_module W := (store m).[(mods m).[i]].
Definition set_loaded (i : Z) (b : bool) m : modules W :=
  m {{ store := (store m).[(mods m).[i] <- (mod_at i m) {{ loaded := b }}] }}.

Definition module_register (p : option Z) m : Z * modules W :=
  match p with
  | None => (-1, m)
  | Some p =>
      if 32 <=? count_ m then (-1, m)
      else (0, m {{ mods := (mods m).[count_ m <- p]; count_ := count_ m + 1 }})
  end.

(** The first character of a string, 0 at its end. *)
Definition first_char (s : list Z) : Z := s.[0].

Definition dep_loaded (n : list Z) m : bool :=
  match find_from (fun i => loaded (mod_at i m) &&
                            match mname (mod_at i m) with Some s => first_char s =? first_char n | None => false end)
          0 (Z.to_nat (count_ m)) with
  | Some _ => true
  | None => false
  end.

(** [depends] up to its first null entry, at most four. *)
Fixpoint deps (n : nat) (l : list (option (list Z))) : list (list Z) :=
  match n, l with
  | S n', Some d :: l' => d :: deps n' l'
  | _, _ => []
  end.

(** The loop of [module_load_all] with [n] modules left from [i] on. *)
Fixpoint load_from (n : nat) (i : Z) m : Z * modules W :=
  match n with
  | O => (0, m)
  | S n' =>
      let x := mod_at i m in
      if negb (forallb (fun d => dep_loaded d m) (deps 4 (depends x))) then (-1, m)
      else
        let '(rc, m) :=
          if loaded x then (0, m)
          else match init x with
               | Some f => let '(rc, w) := f (world m) in (rc, m {{ world := w }})
               | None => (0, m)
               end in
        if negb (rc =? 0) then (-1, m) else load_from n' (i + 1) (set_loaded i true m)
  end.
Definition module_load_all m : Z * modules W := load_from (Z.to_nat (count_ m)) 0 m.

Definition module_unload (n : option (list Z)) m : Z * modules W :=
  match n with
  | None => (-1, m)
  | Some n =>
      match find_from (fun i => bool_decide (mname (mod_at i m) = Some n)) 0 (Z.to_nat (count_ m)) with
      | None => (-1, m)
      | Some i =>
          if 0 <? refcount (mod_at i m) then (-1, m)
          else
            let m := match exit (mod_at i m) with Some f => m {{ world ::= f }} | None => m end in
            (0, set_loaded i false m)
      end
  end.

Definition module_list (i : Z) m : option (list Z) := if i <? count_ m then mname (mod_at i m) else None.
Definition module_count m : Z := count_ m.

(** ** Loading *)
Record modules_ok m : Prop := {
  mo_count : 0 <= count_ m <= 32;
  mo_mods : length (mods m) = 32%nat;
  mo_store i : 0 <= i < count_ m -> 0 <= (mods m).[i] < Z.of_nat (length (store m));
}.

(** The world after the modules in the slots [l] not yet loaded are initialised in order;
    [None] when one of them fails. *)
Fixpoint run_inits (l : list Z) (done_ : list Z) m (w : W) : option W :=
  match l with
  | [] => Some w
  | i :: l' =>
      let p := (mods m).[i] in
      if loaded (store m).[p] || bool_decide (p ∈ done_) then run_inits l' (p :: done_) m w
      else match init (store m).[p] with
           | Some f => let '(rc, w) := f w in if rc =? 0 then run_inits l' (p :: done_) m w else None
           | None => run_inits l' (p :: done_) m w
           end
  end.

(** [m'] is [m] with the modules [done_] loaded and another world. *)
Definition loads_only m (done_ : list Z) m' : Prop :=
  mods m' = mods m /\ count_ m' = count_ m /\ length (store m') = length (store m) /\
  forall p, 0 <= p < Z.of_nat (length (store m)) ->
    (store m').[p] = (store m).[p] {{ loaded := loaded (store m).[p] || bool_decide (p ∈ done_) }}.

Lemma load_from_spec n i m0 done_ m rc m' :
  modules_ok m0 -> loads_only m0 done_ m -> 0 <= i -> i + Z.of_nat n = count_ m0 ->
  load_from n i m = (rc, m') ->
  rc = 0 ->
  exists done', loads_only m0 done' m' /\ (forall p, p ∈ done_ -> p ∈ done') /\
    (forall j, i <= j < count_ m0 -> (mods m0).[j] ∈ done') /\
    run_inits (seqZ i (Z.of_nat n)) done_ m0 (world m) = Some (world m').
Proof.
  intros Hok. revert i done_ m. induction n as [|n IH]; intros i done_ m Hl Hi Hn; cbn [load_from].
  { intros [= <- <-] _. exists done_. split; [done|]. split; [done|]. split; [lia|]. done. }
  destruct Hl as (Hmods & Hcount & Hlen & Hst). set (p := (mods m0).[i]).
  assert (0 <= p < Z.of_nat (length (store m0))) as Hp by (apply (mo_store _ Hok); lia).
  assert (mod_at i m = (store m0).[p] {{ loaded := loaded (store m0).[p] || bool_decide (p ∈ done_) }}) as Hat
    by (unfold mod_at; rewrite Hmods; by apply Hst).
  destruct (negb (forallb _ _)); [intros [= <- _]; discriminate|].
  rewrite seqZ_cons by lia. replace (Z.pred (Z.of_nat (S n))) with (Z.of_nat n) by lia.
  cbn [run_inits]. fold p. change (Z.succ i) with (i + 1).
  change (loaded (mod_at i m)) with (loaded (mod_at i m)). rewrite Hat.
  change (loaded ((store m0).[p] {{ loaded := ?b }})) with b. change (init ((store m0).[p] {{ loaded := ?b }})) with (init (store m0).[p]).
  assert (forall w, loads_only m0 (p :: done_) (set_loaded i true (m {{ world := w }}))) as Hstep.
  { intros w. split; [exact Hmods|]. split; [exact Hcount|].
    change (store (set_loaded i true (m {{ world := w }}))) with ((store m).[(mods m).[i] <- (mod_at i m) {{ loaded := true }}]).
    rewrite aset_length. split; [exact Hlen|]. intros q Hq. rewrite Hat, Hmods. fold p.
    rewrite aget_aset by lia. destruct (Z.eqb_spec p q) as [<-|Hne].
    - rewrite (bool_decide_eq_true_2 (p ∈ p :: done_)) by set_solver. rewrite orb_true_r. done.
    - rewrite (Hst q Hq). assert (bool_decide (q ∈ done_) = bool_decide (q ∈ p :: done_)) as -> by (apply bool_decide_ext; set_solver). done. }
  assert (forall w, load_from n (i + 1) (set_loaded i true (m {{ world := w }})) = (rc, m') -> rc = 0 ->
    exists done', loads_only m0 done' m' /\ (forall q, q ∈ done_ -> q ∈ done') /\
      (forall j, i <= j < count_ m0 -> (mods m0).[j] ∈ done') /\
      run_inits (seqZ (i + 1) (Z.of_nat n)) (p :: done_) m0 w = Some (world m')) as Hrest.
  { intros w Hf Hrc. destruct (IH (i + 1) (p :: done_) (set_loaded i true (m {{ world := w }})) (Hstep w) ltac:(lia) ltac:(lia) Hf Hrc)
      as (done' & H1 & H2 & H3 & H4).
    exists done'. split; [done|]. split; [intros q Hq; apply H2; set_solver|]. split; [|exact H4].
    intros j Hj. destruct (decide (j = i)) as [->|]; [apply H2; fold p; set_solver|apply H3; lia]. }
  assert (m {{ world := world m }} = m) as Hid by by destruct m.
  destruct (loaded _ || bool_decide _); [rewrite <- Hid at 1; cbn [negb Z.eqb]; apply Hrest|].
  destruct (init _) as [f|]; [|rewrite <- Hid at 1; cbn [negb Z.eqb]; apply Hrest].
  destruct (f (world m)) as [rc1 w]. destruct (rc1 =? 0); cbn [negb]; [apply Hrest|]. intros [= <- _]. discriminate.
Qed.

Lemma loads_only_refl m : loads_only m [] m.
Proof.
  split; [done|]. split; [done|]. split; [done|]. intros p _. rewrite (bool_decide_eq_false_2 (p ∈ [])) by set_solver.
  rewrite orb_false_r. by destruct (store m).[p].
Qed.

(** When loading succeeds, every registered module is loaded, and the modules that
    were not loaded before had their initialisers run in the order of registration, each
    once even if it is registered twice; nothing else of any module changes. *)
Theorem module_load_all_spec m m' :
  modules_ok m -> module_load_all m = (0, m') ->
  (forall i, 0 <= i < count_ m -> loaded (mod_at i m') = true) /\
  run_inits (seqZ 0 (count_ m)) [] m (world m) = Some (world m') /\
  exists done_, loads_only m done_ m'.
Proof.
  intros Hok Hl. pose proof (mo_count _ Hok) as Hc.
  destruct (load_from_spec (Z.to_nat (count_ m)) 0 m [] m 0 m' Hok (loads_only_refl m) ltac:(lia) ltac:(lia) Hl eq_refl)
    as (done' & H1 & _ & H3 & H4).
  rewrite Z2Nat.id in H4 by lia. split; [|split; [exact H4|by exists done']].
  intros i Hi. destruct H1 as (Hm & _ & _ & Hst). unfold mod_at. rewrite Hm, Hst by (apply (mo_store _ Hok); lia).
  change (loaded (?x {{ loaded := ?b }})) with b. rewrite bool_decide_eq_true_2 by (apply H3; lia). apply orb_true_r.
Qed.

(** A dependency counts as loaded as soon as some loaded module's name begins with the same
    character. *)
Lemma dep_loaded_first_char n m i s :
  0 <= i < count_ m -> loaded (mod_at i m) = true -> mname (mod_at i m) = Some s -> first_char s = first_char n ->
  dep_loaded n m = true.
Proof.
  intros Hi Hl Hs Hc. unfold dep_loaded. destruct (find_from _ _ _) eqn:E; [done|].
  pose proof (proj1 (find_from_None _ _ _) E i ltac:(lia)) as Hf. cbv beta in Hf. by rewrite Hl, Hs, Hc, Z.eqb_refl in Hf.
Qed.
End modules.

(** ** Two modules, the second depending on the first; the first registered twice *)
Definition demo_module (nm : list Z) (d : list (option (list Z))) (x : Z) : kernel_module (list Z) :=
  mkModule _ (Some nm) None None None (Some (fun w => (0, w ++ [x]))) None d 0 false.
Definition demo_modules : modules (list Z) :=
  let m := mkModules _ [demo_module [97] [] 1; demo_module [98] [Some [97]; None; None; None] 2] (replicate 32 0) 0 [] in
  (module_register (Some 0) (module_register (Some 1) (module_register (Some 0) m).2).2).2.

Lemma module_load_all_spec_witness :
  exists m', module_load_all demo_modules = (0, m') /\ world m' = [1; 2] /\ loaded (mod_at 1 m') = true.
Proof.
  destruct (module_load_all demo_modules) as [rc m'] eqn:E.
  assert (rc = 0) as -> by (change rc with ((rc, m').1); rewrite <- E; vm_compute; reflexivity).
  destruct (module_load_all_spec demo_modules m') as (Hl & Hw & _).
  - split; [split; vm_compute; discriminate|reflexivity|]. intros i Hi. change (count_ demo_modules) with 3 in Hi.
    assert (forallb (fun i => (0 <=? (mods demo_modules).[i]) && ((mods demo_modules).[i] <? 2)) (seqZ 0 3) = true) as Hall by (vm_compute; reflexivity).
    pose proof (forall_seqZ _ _ _ Hall i ltac:(lia)) as Hb. cbv beta in Hb. change (length (store demo_modules)) with 2%nat. lia.
  - exact E.
  - exists m'. split; [reflexivity|]. assert (Some [1; 2] = Some (world m')) as [= <-] by (rewrite <- Hw; vm_compute; reflexivity). split; [reflexivity|].
    apply Hl. vm_compute. split; [discriminate|reflexivity].
Defined.

(** ** The example module, [modules/example/example.c]

    The world is the text sent with [kputs]. *)
Definition example_init (w : list Z) : Z * list Z :=
  (0, w ++ [109; 111; 100; 117; 108; 101; 58; 32; 101; 120; 97; 109; 112; 108; 101; 32; 108; 111; 97; 100; 101; 100; 10]).
Definition example_exit (w : list Z) : list Z := w.
Definition module_example_init : kernel_module (list Z) :=
  mkModule _ (Some [101; 120; 97; 109; 112; 108; 101]) (Some [48; 46; 49; 46; 48])
    (Some [99; 101; 98; 108; 97; 114; 32; 99; 111; 110; 116; 114; 105; 98; 117; 116; 111; 114; 115]) (Some [77; 73; 84])
    (Some example_init) (Some example_exit) [None; None; None; None] 0 false.

(** What [kmain] does with it: one module, loaded, its text sent once. *)
Lemma example_module_loads :
  let m := (module_register (Some 0) (mkModules _ [module_example_init] (replicate 32 0) 0 [])).2 in
  let '(rc, m') := module_load_all m in
  rc = 0 /\ module_count m' = 1 /\ loaded (mod_at 0 m') = true /\ length (world m') = 23%nat /\
  (module_unload (Some [101; 120; 97; 109; 112; 108; 101]) m').1 = 0.
Proof. vm_compute. split_and!; reflexivity. Qed.
