(* ===== verification/Pci.v ===== *)
(** PCI configuration, [drivers/pci/pci.c] and [include/pci.h].

    The 32-bit port instructions act on the state [D] of the bus, a parameter; what the
    code relies on is configuration mechanism #1 ([ConfigMechanism]): a double word written
    to port 0xcf8 selects the register that port 0xcfc then reads or writes.  The record a
    call fills for its caller is returned when the call succeeds.  The text [pci_init]
    prints is left out. *)
From S2P Require Import Prelude.

Class Ports32 (D : Type) := { inl_ : Z -> D -> Z * D; outl : Z -> Z -> D -> D }.

Record pci_device := mkPciDevice {
  bus : Z; slot : Z; function : Z; vendor : Z; device_id : Z;
  class_code : Z; subclass : Z; prog_if : Z; header_type : Z;
}.
Record pci_bar := mkBar { bar_base : Z; bar_size : Z; io : Z; prefetchable : Z; is_64bit : Z }.

Definition CONFIG_ADDRESS : Z := 3320. (* 0xcf8 *)
Definition CONFIG_DATA : Z := 3324. (* 0xcfc *)

Section pci.
Context {D : Type} `{Ports32 D}.
Implicit Types d : D.

Definition address (b sl fn offset : Z) : Z :=
  Z.lor (Z.lor (Z.lor (Z.lor 2147483648 (Z.shiftl b 16)) (Z.shiftl (Z.land sl 31) 11)) (Z.shiftl (Z.land fn 7) 8))
    (Z.land offset 252).
Definition pci_config_read32 (b sl fn offset : Z) d : Z * D :=
  inl_ CONFIG_DATA (outl CONFIG_ADDRESS (address b sl fn offset) d).
Definition pci_config_write32 (b sl fn offset value : Z) d : D :=
  outl CONFIG_DATA value (outl CONFIG_ADDRESS (address b sl fn offset) d).

Definition read_device (b sl fn : Z) d : option pci_device * D :=
  let '(id, d) := pci_config_read32 b sl fn 0 d in
  if Z.land id 65535 =? 65535 then (None, d)
  else
    let '(classreg, d) := pci_config_read32 b sl fn 8 d in
    let '(header, d) := pci_config_read32 b sl fn 12 d in
    (Some (mkPciDevice b sl fn (u16 (Z.land id 65535)) (u16 (Z.shiftr id 16)) (u8 (Z.shiftr classreg 24))
             (u8 (Z.shiftr classreg 16)) (u8 (Z.shiftr classreg 8)) (u8 (Z.shiftr header 16))), d).

(** The number of functions found, as [pci_init] prints it. *)
Definition pci_init d : Z * D :=
  for_range 0 32 (fun sl '(count, d) =>
    match read_device 0 sl 0 d with
    | (None, d) => (count, d)
    | (Some x, d) =>
        if negb (Z.land (header_type x) 128 =? 0) then
          for_range 1 8 (fun fn '(count, d) =>
            match read_device 0 sl fn d with
            | (Some _, d) => (count + 1, d)
            | (None, d) => (count, d)
            end) (count + 1, d)
        else (count + 1, d)
    end) (0, d).

(** The two loops of [pci_find_class] over the pairs of slot and function left. *)
Fixpoint find_class (l : list (Z * Z)) (c sc : Z) d : option pci_device * D :=
  match l with
  | [] => (None, d)
  | (sl, fn) :: l' =>
      match read_device 0 sl fn d with
      | (Some x, d) => if (class_code x =? c) && (subclass x =? sc) then (Some x, d) else find_class l' c sc d
      | (None, d) => find_class l' c sc d
      end
  end.
Definition functions : list (Z * Z) := sl ← seqZ 0 32; pair sl <$> seqZ 0 8.
Definition pci_find_class (c sc : Z) d : Z * option pci_device * D :=
  match find_class functions c sc d with
  | (Some x, d) => (0, Some x, d)
  | (None, d) => (-1, None, d)
  end.

(** Sizing a base register: all ones are written, read back, and the old value put back. *)
Definition pci_read_bar (x : pci_device) (index : Z) d : Z * option pci_bar * D :=
  if 6 <=? index then (-1, None, d)
  else
    let offset := u8 (16 + index * 4) in
    let read o d := pci_config_read32 (bus x) (slot x) (function x) o d in
    let write v d := pci_config_write32 (bus x) (slot x) (function x) offset v d in
    let '(original, d) := read offset d in
    if (original =? 0) || (original =? 4294967295) then (-1, None, d)
    else
      let is_io := Z.land original 1 in
      let pref := if is_io =? 0 then u8 (Z.land (Z.shiftr original 3) 1) else 0 in
      let wide := (is_io =? 0) && (Z.land (Z.shiftr original 1) 3 =? 2) in
      let '(high, d) := if wide then read (u8 (offset + 4)) d else (0, d) in
      if wide && negb (high =? 0) then (-1, None, d)
      else
        let d := write 4294967295 d in
        let '(mask, d) := read offset d in
        let d := write original d in
        let low := if is_io =? 0 then 15 else 3 in
        let base := Z.land original (4294967295 - low) in
        let size := Z.land mask (4294967295 - low) in
        if (size =? 0) || (size =? 4294967295) then (-1, None, d)
        else
          let size := u32 (4294967295 - size + 1) in
          if size =? 0 then (-1, None, d)
          else (0, Some (mkBar base size is_io pref (if wide then 1 else 0)), d).
End pci.

(** ** Configuration mechanism #1 *)
(** [creg d a]: the register that address [a] selects. *)
Class ConfigMechanism (D : Type) `{Ports32 D} := {
  creg : D -> Z -> Z;
  config_read (d : D) a :
    exists d', inl_ CONFIG_DATA (outl CONFIG_ADDRESS a d) = (creg d a, d') /\ forall b, creg d' b = creg d b;
  config_write (d : D) a v b : a <> b -> creg (outl CONFIG_DATA v (outl CONFIG_ADDRESS a d)) b = creg d b;
}.

(** Clearing the low [n] bits. *)
Lemma land_high n x : 0 <= n <= 32 -> is_u32 x -> Z.land x (4294967296 - 2 ^ n) = x - x mod 2 ^ n.
Proof.
  intros Hn Hx. assert (0 < 2 ^ n) as Hp by (apply Z.pow_pos_nonneg; lia).
  assert (x - x mod 2 ^ n = Z.shiftl (Z.shiftr x n) n) as ->.
  { rewrite Z.shiftl_mul_pow2, Z.shiftr_div_pow2 by lia. pose proof (Z.div_mod x (2 ^ n) ltac:(lia)). lia. }
  assert (4294967296 - 2 ^ n = Z.shiftl (Z.ones (32 - n)) n) as ->.
  { rewrite Z.shiftl_mul_pow2, Z.ones_equiv by lia. rewrite <- Z.sub_1_r, Z.mul_sub_distr_r, <- Z.pow_add_r by lia.
    replace (32 - n + n) with 32 by lia. lia. }
  apply Z.bits_inj'. intros j Hj. rewrite Z.land_spec, !Z.shiftl_spec by lia.
  destruct (Z.ltb_spec j n) as [Hlt|Hge].
  { rewrite (Z.testbit_neg_r (Z.ones _)) by lia. rewrite (Z.testbit_neg_r (Z.shiftr _ _)) by lia. apply andb_false_r. }
  rewrite Z.shiftr_spec by lia. replace (j - n + n) with j by lia. rewrite Z.testbit_ones_nonneg by lia.
  destruct (Z.ltb_spec (j - n) (32 - n)); [apply andb_true_r|]. rewrite andb_false_r.
  symmetry. apply (testbit_high 32); [lia|exact Hx|lia].
Qed.

Section bar.
Context {D : Type} `{ConfigMechanism D}.
Implicit Types d : D.

(** The register at [a] is a base register of [2^k] bytes with the constant low bits [fl]:
    of what is written, it keeps the address bits. *)
Definition base_register (a k fl : Z) : Prop :=
  forall d v, is_u32 v -> creg (outl CONFIG_DATA v (outl CONFIG_ADDRESS a d)) a = Z.lor (Z.land v (4294967296 - 2 ^ k)) fl.
(** Low bits of an I/O range, and of a memory range of either width. *)
Definition bar_flags (k fl : Z) : Prop := fl = 1 /\ 2 <= k \/ 0 <= fl < 16 /\ fl mod 2 = 0 /\ 4 <= k.

Lemma flags_small k fl : bar_flags k fl -> 0 <= fl < 2 ^ k.
Proof.
  intros [[-> Hk]|(Hf & _ & Hk)].
  - pose proof (Z.pow_le_mono_r 2 2 k ltac:(lia) Hk). lia.
  - pose proof (Z.pow_le_mono_r 2 4 k ltac:(lia) Hk). lia.
Qed.

Lemma lor_aligned k x fl : 0 <= k -> 0 <= fl < 2 ^ k -> 0 <= x -> x mod 2 ^ k = 0 -> Z.lor x fl = x + fl.
Proof.
  intros Hk Hf Hx Ha. assert (x = Z.shiftl (x / 2 ^ k) k) as ->.
  { rewrite Z.shiftl_mul_pow2 by lia. pose proof (Z.div_mod x (2 ^ k) ltac:(lia)). lia. }
  rewrite Z.lor_comm, lor_shiftl_add by (lia || apply Z.div_pos; lia). rewrite Z.shiftl_mul_pow2 by lia. lia.
Qed.

Lemma aligned_mod k n base fl : 0 <= n <= k -> base mod 2 ^ k = 0 -> (base + fl) mod 2 ^ n = fl mod 2 ^ n.
Proof.
  intros Hn Hb. assert (base = base / 2 ^ k * 2 ^ (k - n) * 2 ^ n) as E.
  { rewrite <- Z.mul_assoc, <- Z.pow_add_r by lia. replace (k - n + n) with k by lia.
    pose proof (Z.div_mod base (2 ^ k) ltac:(apply Z.pow_nonzero; lia)). lia. }
  rewrite E, Z.add_comm. apply Z.mod_add. apply Z.pow_nonzero; lia.
Qed.

Lemma drop_flags k fl y : 2 <= k -> bar_flags k fl -> 0 <= y -> y mod 2 ^ k = 0 -> y + fl < 4294967296 ->
  Z.land (y + fl) (4294967295 - (if fl mod 2 =? 0 then 15 else 3)) = y.
Proof.
  intros Hk Hf Hy Ha Hu. destruct Hf as [[-> _]|(Hf & Hev & Hk4)].
  - change (4294967295 - (if 1 mod 2 =? 0 then 15 else 3)) with (4294967296 - 2 ^ 2).
    rewrite land_high by (unfold is_u32; lia). rewrite (aligned_mod k 2) by (done || lia). change (1 mod 2 ^ 2) with 1. lia.
  - rewrite Hev. change (4294967295 - (if 0 =? 0 then 15 else 3)) with (4294967296 - 2 ^ 4).
    rewrite land_high by (unfold is_u32; lia). rewrite (aligned_mod k 4) by (done || lia). rewrite (Z.mod_small fl) by (change (2 ^ 4) with 16; lia). lia.
Qed.

Lemma base_register_reads a k fl d base :
  2 <= k < 32 -> bar_flags k fl -> base_register a k fl -> 0 <= base -> base mod 2 ^ k = 0 -> base + fl < 4294967296 ->
  creg (outl CONFIG_DATA (base + fl) (outl CONFIG_ADDRESS a d)) a = base + fl.
Proof.
  intros Hk Hf Hr Hb Ha Hu. pose proof (flags_small _ _ Hf) as Hs.
  assert (is_u32 (base + fl)) as Hx by (unfold is_u32; lia). rewrite Hr, land_high by (done || lia).
  rewrite (aligned_mod k k) by (done || lia). rewrite (Z.mod_small fl) by done.
  replace (base + fl - fl) with base by lia. apply (lor_aligned k); done || lia.
Qed.

(** Sizing a base register gives its base address and its size in bytes, for I/O
    ranges and for memory ranges of both widths, and leaves every configuration register
    as it was, although the register is overwritten on the way. *)
Theorem pci_read_bar_sizes x index d k fl base :
  0 <= index < 6 -> 2 <= k < 32 -> bar_flags k fl ->
  let a := address (bus x) (slot x) (function x) (16 + index * 4) in
  base_register a k fl -> creg d a = base + fl -> 0 < base -> base mod 2 ^ k = 0 -> base + fl < 4294967296 - 1 ->
  creg d (address (bus x) (slot x) (function x) (u8 (16 + index * 4 + 4))) = 0 ->
  exists d' pref wide, pci_read_bar x index d = (0, Some (mkBar base (2 ^ k) (fl mod 2) pref wide), d') /\
    forall b, creg d' b = creg d b.
Proof.
  intros Hi Hk Hf a Hr Hd Hb Ha Hu Hhigh. pose proof (flags_small _ _ Hf) as Hs. unfold pci_read_bar, pci_config_read32, pci_config_write32.
  destruct (Z.leb_spec 6 index); [lia|]. assert (u8 (16 + index * 4) = 16 + index * 4) as -> by (apply Z.mod_small; lia). fold a.
  destruct (config_read d a) as (d1 & -> & E1). rewrite Hd.
  destruct (Z.eqb_spec (base + fl) 0); [lia|]. destruct (Z.eqb_spec (base + fl) 4294967295); [lia|]. cbn [orb].
  assert (Z.land (base + fl) 1 = fl mod 2) as Hio.
  { change 1 with (2 ^ 1 - 1). rewrite land_mask by lia. rewrite (aligned_mod k 1) by (done || lia). done. }
  rewrite Hio. set (wide := (fl mod 2 =? 0) && _). set (pref := if fl mod 2 =? 0 then _ else 0).
  set (hd := if wide then _ else _).
  assert (exists d2, hd = (0, d2) /\ forall b, creg d2 b = creg d b) as (d2 & -> & E2).
  { subst hd. destruct wide; [|by exists d1]. destruct (config_read d1 (address (bus x) (slot x) (function x) (u8 (16 + index * 4 + 4)))) as (d2 & -> & E2).
    exists d2. rewrite E1, Hhigh. split; [done|]. intros b. by rewrite E2. }
  rewrite Z.eqb_refl. cbn [negb]. rewrite andb_false_r.
  destruct (config_read (outl CONFIG_DATA 4294967295 (outl CONFIG_ADDRESS a d2)) a) as (d4 & -> & E4).
  assert (is_u32 4294967295) as Hones by (split; [discriminate|reflexivity]).
  rewrite (Hr d2 4294967295 Hones). rewrite (land_high k) by (done || lia).
  assert (0 < 2 ^ k < 4294967296) as Hpk by (split; [apply Z.pow_pos_nonneg; lia|apply (Z.pow_lt_mono_r 2 k 32); lia]).
  assert (2 ^ k mod 4 = 0 /\ (fl mod 2 = 0 -> 2 ^ k mod 16 = 0)) as [Hm4 Hm16].
  { split; [|intros Hev]. 
    - replace k with (k - 2 + 2) by lia. rewrite Z.pow_add_r by lia. apply Z.mod_mul. lia.
    - assert (4 <= k) by (destruct Hf as [[-> _]|(_ & _ & ?)]; [discriminate Hev|done]).
      replace k with (k - 4 + 4) by lia. rewrite Z.pow_add_r by lia. apply Z.mod_mul. lia. }
  assert (4294967295 - 4294967295 mod 2 ^ k = 4294967296 - 2 ^ k) as ->.
  { replace 4294967295 with (2 ^ k - 1 + (2 ^ (32 - k) - 1) * 2 ^ k) at 2.
    - rewrite Z.mod_add, Z.mod_small by lia. lia.
    - rewrite Z.mul_sub_distr_r, <- Z.pow_add_r by lia. replace (32 - k + k) with 32 by lia. lia. }
  assert ((4294967296 - 2 ^ k) mod 2 ^ k = 0) as Hmk.
  { replace (4294967296 - 2 ^ k) with ((2 ^ (32 - k) - 1) * 2 ^ k); [apply Z.mod_mul; lia|].
    rewrite Z.mul_sub_distr_r, <- Z.pow_add_r by lia. replace (32 - k + k) with 32 by lia. lia. }
  rewrite (lor_aligned k) by (done || lia).
  rewrite !(drop_flags k) by (done || lia).
  destruct (Z.eqb_spec (4294967296 - 2 ^ k) 0); [lia|]. destruct (Z.eqb_spec (4294967296 - 2 ^ k) 4294967295); [word_lia|]. cbn [orb].
  replace (4294967295 - (4294967296 - 2 ^ k) + 1) with (2 ^ k) by lia. rewrite u32_small by (unfold is_u32; lia).
  destruct (Z.eqb_spec (2 ^ k) 0); [lia|]. eexists _, _, _. split; [reflexivity|]. intros b.
  destruct (decide (a = b)) as [<-|Hne]; [rewrite Hd; by apply (base_register_reads a k); try lia|].
  by rewrite config_write, E4, config_write, E2.
Qed.
End bar.

(** ** A bus with one base register of 4096 bytes *)
Definition demo_bar : Z := address 0 3 0 16.
Definition demo_bus : Type := Z * gmap Z Z.
#[global] Instance demo_bus_ports : Ports32 demo_bus := {
  inl_ p d := (default 0 (d.2 !! d.1), d);
  outl p v d :=
    if p =? CONFIG_ADDRESS then (v, d.2)
    else (d.1, <[d.1 := if d.1 =? demo_bar then Z.lor (Z.land v (4294967296 - 2 ^ 12)) 8 else v]> d.2);
}.
#[global] Instance demo_bus_config : ConfigMechanism demo_bus.
Proof.
  refine {| creg := fun d a => default 0 (d.2 !! a) |}.
  - intros [s m] a. eexists. split; [reflexivity|]. done.
  - intros [s m] a v b Hne. cbn [outl demo_bus_ports]. change (CONFIG_ADDRESS =? CONFIG_ADDRESS) with true.
    change (CONFIG_DATA =? CONFIG_ADDRESS) with false. cbn [fst snd]. by rewrite lookup_insert_ne.
Defined.

Lemma pci_read_bar_sizes_witness :
  exists d', pci_read_bar (mkPciDevice 0 3 0 0 0 0 0 0 0) 0 ((0, {[demo_bar := 4026531848]}) : demo_bus) =
    (0, Some (mkBar 4026531840 4096 0 1 0), d').
Proof.
  destruct (pci_read_bar_sizes (mkPciDevice 0 3 0 0 0 0 0 0 0) 0 ((0, {[demo_bar := 4026531848]}) : demo_bus) 12 8 4026531840)
    as (d' & pref & wide & E & _).
  - lia.
  - lia.
  - right. done.
  - intros [s m] v Hv. cbn [outl demo_bus_ports]. change (CONFIG_ADDRESS =? CONFIG_ADDRESS) with true.
    change (CONFIG_DATA =? CONFIG_ADDRESS) with false. cbn [creg demo_bus_config fst snd]. rewrite lookup_insert_eq.
    change (address 0 3 0 (16 + 0 * 4) =? demo_bar) with true. reflexivity.
  - reflexivity.
  - lia.
  - reflexivity.
  - lia.
  - reflexivity.
  - exists d'. rewrite E. assert (Some (pref, wide) = Some (1, 0)) as [= -> ->]; [|reflexivity].
    transitivity (match (pci_read_bar (mkPciDevice 0 3 0 0 0 0 0 0 0) 0 ((0, {[demo_bar := 4026531848]}) : demo_bus)).1.2 with
      Some x => Some (prefetchable x, is_64bit x) | None => None end); [by rewrite E|vm_compute; reflexivity].
Defined.
