(* ===== verification/Probes.v ===== *)
(** The controllers the kernel only looks for: [drivers/ahci.c], [drivers/nvme.c] and
    [drivers/nic.c].  Each has a static [present], here the state of the probe, and scans
    the PCI bus for its class; the texts printed are left out. *)
From S2P Require Import Prelude Pci.

Section probes.
Context {D : Type} `{Ports32 D}.
Implicit Types d : D.

(** The common shape: [present = 0], then 1 if the class is found; returns the code, the
    flag and the bus. *)
Definition ahci_init d : Z * bool * D :=
  let '(rc, _, d) := pci_find_class 1 6 d in
  if negb (rc =? 0) then (-1, false, d) else (0, true, d).
Definition ahci_present (present : bool) : bool := present.

Definition nvme_init d : Z * bool * D :=
  let '(rc, _, d) := pci_find_class 1 8 d in
  if negb (rc =? 0) then (-1, false, d) else (0, true, d).
Definition nvme_present (present : bool) : bool := present.

Definition nic_init d : Z * bool * D :=
  let '(rc, _, d) := pci_find_class 2 0 d in
  if negb (rc =? 0) then (-1, false, d) else (0, true, d).
Definition nic_present (present : bool) : bool := present.
End probes.

Section scan.
Context {D : Type} `{ConfigMechanism D}.
Implicit Types d : D.

(** The function at a slot, from its configuration registers. *)
Definition function_at d (sl fn : Z) : option pci_device :=
  let reg o := creg d (address 0 sl fn o) in
  if Z.land (reg 0) 65535 =? 65535 then None
  else Some (mkPciDevice 0 sl fn (u16 (Z.land (reg 0) 65535)) (u16 (Z.shiftr (reg 0) 16)) (u8 (Z.shiftr (reg 8) 24))
               (u8 (Z.shiftr (reg 8) 16)) (u8 (Z.shiftr (reg 8) 8)) (u8 (Z.shiftr (reg 12) 16))).
Definition has_class (c sc : Z) d (p : Z * Z) : bool :=
  match function_at d p.1 p.2 with
  | Some x => (class_code x =? c) && (subclass x =? sc)
  | None => false
  end.

Definition same_config d d' : Prop := forall a, creg d' a = creg d a.

#[global] Instance same_config_preorder : PreOrder same_config.
Proof. split; [by intros d a|]. intros d1 d2 d3 H12 H23 a. by rewrite H23, H12. Qed.
#[global] Instance function_at_proper : Proper (same_config ==> eq ==> eq ==> eq) function_at.
Proof. intros d d' Hs sl ? <- fn ? <-. unfold function_at. by rewrite !Hs. Qed.
#[global] Instance has_class_proper c sc : Proper (same_config ==> eq ==> eq) (has_class c sc).
Proof. intros d d' Hs p ? <-. unfold has_class. by rewrite Hs. Qed.

Lemma config_read_eq b sl fn o d :
  exists d', pci_config_read32 b sl fn o d = (creg d (address b sl fn o), d') /\ same_config d d'.
Proof. apply config_read. Qed.

Lemma read_device_eq sl fn d : exists d', read_device 0 sl fn d = (function_at d sl fn, d') /\ same_config d d'.
Proof.
  unfold read_device, function_at. destruct (config_read_eq 0 sl fn 0 d) as (d1 & -> & S1).
  destruct (_ =? _); [by exists d1|].
  destruct (config_read_eq 0 sl fn 8 d1) as (d2 & -> & S2). destruct (config_read_eq 0 sl fn 12 d2) as (d3 & -> & S3).
  exists d3. rewrite !(S2 _), !(S1 _). split; [done|]. etrans; [exact S1|]. by etrans.
Qed.

Lemma find_class_eq l c sc d : exists d', same_config d d' /\
  find_class l c sc d = (p ← List.find (has_class c sc d) l; function_at d p.1 p.2, d').
Proof.
  revert d. induction l as [|[sl fn] l IH]; intros d; cbn [find_class List.find]; [by exists d|].
  destruct (read_device_eq sl fn d) as (d1 & -> & S1). destruct (IH d1) as (d2 & S2 & E2).
  assert (same_config d d2) as S02 by (by etrans).
  assert (find_class l c sc d1 = (p ← List.find (has_class c sc d) l; function_at d p.1 p.2, d2)) as E.
  { rewrite E2. f_equal. assert (forall p, has_class c sc d1 p = has_class c sc d p) as Hh by (intros p; symmetry; by apply has_class_proper).
    assert (List.find (has_class c sc d1) l = List.find (has_class c sc d) l) as ->.
    { clear - Hh. induction l as [|p l IHl]; cbn [List.find]; [done|]. by rewrite Hh, IHl. }
    apply option_bind_ext_fun. intros p. symmetry. by apply function_at_proper. }
  assert (has_class c sc d (sl, fn) =
    match function_at d sl fn with Some x => (class_code x =? c) && (subclass x =? sc) | None => false end) as -> by done.
  destruct (function_at d sl fn) as [x|] eqn:Ef; [|by exists d2].
  destruct (_ && _); [|by exists d2]. exists d1. split; [done|]. cbn [mbind option_bind fst snd]. by rewrite Ef.
Qed.

Lemma function_found c sc d l p : List.find (has_class c sc d) l = Some p -> exists x, function_at d p.1 p.2 = Some x.
Proof.
  intros Hf. apply List.find_some in Hf as [_ Hh]. unfold has_class in Hh.
  destruct (function_at d p.1 p.2) as [x|]; [by exists x|done].
Qed.

(** On a bus with configuration mechanism 1, [pci_find_class] returns the first function
    of bus 0, in the order of slots and then of functions, that is present and has the
    class, with its identification as its registers give it, and fails exactly when there
    is none; no register changes. *)
Theorem pci_find_class_first c sc d :
  exists d', same_config d d' /\
    pci_find_class c sc d =
      match List.find (has_class c sc d) functions with
      | Some p => (0, function_at d p.1 p.2, d')
      | None => (-1, None, d')
      end.
Proof.
  unfold pci_find_class. destruct (find_class_eq functions c sc d) as (d' & Hs & ->). exists d'. split; [done|].
  destruct (List.find (has_class c sc d) functions) as [p|] eqn:Ef; [|done].
  destruct (function_found _ _ _ _ _ Ef) as [x Hx]. cbn [mbind option_bind]. by rewrite Hx.
Qed.

(** A probe's flag says whether the bus has such a controller. *)
Lemma probe_spec c sc d : exists d', same_config d d' /\
  (let '(rc, _, d) := pci_find_class c sc d in if negb (rc =? 0) then (-1, false, d) else (0, true, d)) =
    (if existsb (has_class c sc d) functions then 0 else -1, existsb (has_class c sc d) functions, d').
Proof.
  unfold pci_find_class. destruct (find_class_eq functions c sc d) as (d' & Hs & ->). exists d'. split; [done|].
  destruct (List.find (has_class c sc d) functions) as [p|] eqn:Ef.
  - destruct (function_found _ _ _ _ _ Ef) as [x Hx]. apply List.find_some in Ef as [Hin Hh].
    assert (existsb (has_class c sc d) functions = true) as -> by (apply existsb_exists; by exists p).
    cbn [mbind option_bind]. by rewrite Hx.
  - assert (existsb (has_class c sc d) functions = false) as ->; [|done].
    apply not_true_is_false. intros (p & Hin & Hh)%existsb_exists.
    by rewrite (List.find_none _ _ Ef p Hin) in Hh.
Qed.

Lemma probes_report d :
  (exists d', same_config d d' /\ ahci_init d = (if existsb (has_class 1 6 d) functions then 0 else -1, existsb (has_class 1 6 d) functions, d')) /\
  (exists d', same_config d d' /\ nvme_init d = (if existsb (has_class 1 8 d) functions then 0 else -1, existsb (has_class 1 8 d) functions, d')) /\
  (exists d', same_config d d' /\ nic_init d = (if existsb (has_class 2 0 d) functions then 0 else -1, existsb (has_class 2 0 d) functions, d')).
Proof. split_and!; apply probe_spec. Qed.
End scan.

(** An AHCI controller at slot 3, function 1 of the sample bus. *)
Definition demo_ahci : demo_bus := (0, {[address 0 3 1 8 := 17170432 (* class 1, subclass 6 *)]}).

Lemma pci_find_class_first_witness :
  exists d', pci_find_class 1 6 demo_ahci = (0, Some (mkPciDevice 0 3 1 0 0 1 6 0 0), d').
Proof.
  destruct (pci_find_class_first 1 6 demo_ahci) as (d' & _ & E). exists d'. rewrite E.
  assert (List.find (has_class 1 6 demo_ahci) functions = Some (3, 1)) as -> by (vm_compute; reflexivity).
  vm_compute. reflexivity.
Defined.
