(* ===== verification/Virtio.v ===== *)
(** The legacy virtio block driver, [drivers/virtio/virtio_blk.c].

    The device is a parameter: a state [D] behind the port instructions, which may also
    change the two buffers the driver shares with it ([BusMaster]).  It may do so at any
    time; the model lets it act before each turn of the driver's polls, and nothing is
    assumed of what it writes.  The buffers are their bytes, [queue] (8192) and [page]
    (4096); a field of a packed structure is the little-endian word at its offset.  The
    texts sent to the serial line are left out. *)
From S2P Require Import Prelude Frames Pmm Block Ata Dma Pci.
From coqutil Require Import Datatypes.RecordSetters.
Import DoubleBraceUpdate.

Definition VIRTIO_VENDOR : Z := 6900. (* 0x1af4 *)
Definition VIRTIO_BLK_DEVICE : Z := 4097. (* 0x1001 *)
Definition VIRTQ_DESC_F_NEXT : Z := 1.
Definition VIRTQ_DESC_F_WRITE : Z := 2.
Definition VIRTIO_STATUS_ACK : Z := 1.
Definition VIRTIO_STATUS_DRIVER : Z := 2.
Definition VIRTIO_STATUS_DRIVER_OK : Z := 4.
Definition VIRTIO_STATUS_FAILED : Z := 128.
Definition VIRTIO_BLK_T_IN : Z := 0.
Definition VIRTIO_BLK_QUEUE : Z := 0.
Definition VIRTIO_QUEUE_SIZE : Z := 8.
Definition VIRTIO_QUEUE_ALIGN : Z := 4096.
Definition VIRTIO_POLL_LIMIT : Z := 1000000.

(** ** Structures in the shared buffers *)
Definition get16 (o : Z) (m : list Z) : Z := le16 m.[o] m.[o + 1].
Definition get32 (o : Z) (m : list Z) : Z := le32 m.[o] m.[o + 1] m.[o + 2] m.[o + 3].
Definition set16 (o v : Z) (m : list Z) : list Z := m.[o <- u8 v].[o + 1 <- u8 (Z.shiftr v 8)].
Definition set32 (o v : Z) (m : list Z) : list Z := set16 (o + 2) (Z.shiftr v 16) (set16 o v m).

(** [sizeof] of the packed structures, and the offsets of their fields. *)
Definition sizeof_virtq_desc : Z := 12.
Definition sizeof_virtq_avail : Z := 4 + 2 * VIRTIO_QUEUE_SIZE.
Definition sizeof_virtq_used : Z := 4 + 8 * VIRTIO_QUEUE_SIZE.
Definition sizeof_virtio_blk_req : Z := 16.
Definition desc_address (i : Z) : Z := sizeof_virtq_desc * i.
Definition desc_length (i : Z) : Z := sizeof_virtq_desc * i + 4.
Definition desc_flags (i : Z) : Z := sizeof_virtq_desc * i + 8.
Definition desc_next (i : Z) : Z := sizeof_virtq_desc * i + 10.
Definition avail_offset : Z := sizeof_virtq_desc * VIRTIO_QUEUE_SIZE.
Definition used_offset : Z :=
  Z.land (avail_offset + sizeof_virtq_avail + VIRTIO_QUEUE_ALIGN - 1) (4294967295 - (VIRTIO_QUEUE_ALIGN - 1)).
Definition avail_idx : Z := avail_offset + 2.
Definition avail_ring (i : Z) : Z := avail_offset + 4 + 2 * i.
Definition used_idx : Z := used_offset + 2.
(** Offsets in the request page. *)
Definition data_offset : Z := 64.
Definition status_offset : Z := data_offset + 512.

(** [desc[i].address = a; ...length = l; ...flags = f; ...next = n] *)
Definition set_desc (i a l f n : Z) (m : list Z) : list Z :=
  set16 (desc_next i) n (set16 (desc_flags i) f (set32 (desc_length i) l (set32 (desc_address i) a m))).

(** The device's own accesses to the two buffers. *)
Class BusMaster (D : Type) := { dma_step : D -> list Z -> list Z -> D * list Z * list Z }.

Record virtio (D : Type) := mkVirtio {
  io_base : Z;
  vpresent : bool;
  last_used : Z;
  queue_dma : dma_buffer;
  request_dma : dma_buffer;
  queue : list Z;
  page : list Z;
  vdevice : D;
}.
Arguments mkVirtio {D}. Arguments io_base {D}. Arguments vpresent {D}. Arguments last_used {D}. Arguments queue_dma {D}.
Arguments request_dma {D}. Arguments queue {D}. Arguments page {D}. Arguments vdevice {D}.

Section driver.
Context {D : Type} `{Ports D} `{Ports32 D} `{BusMaster D}.
Implicit Types w : virtio D.

(** The device acts. *)
Definition bus_turn w : virtio D :=
  let '(d, q, p) := dma_step (vdevice w) (queue w) (page w) in w {{ vdevice := d; queue := q; page := p }}.

Definition cfg_status w : Z * virtio D :=
  let '(x, d) := inb (u16 (io_base w + 18)) (vdevice w) in (x, w {{ vdevice := d }}).
Definition set_status (value : Z) w : virtio D :=
  w {{ vdevice := outb (u16 (io_base w + 18)) value (vdevice w) }}.
Definition fail w : virtio D :=
  let '(x, w) := cfg_status w in set_status (u8 (Z.lor x VIRTIO_STATUS_FAILED)) w.

(** [avail->ring[avail->idx % 8] = 0; avail->idx++] *)
Definition publish (m : list Z) : list Z :=
  let i := get16 avail_idx m in
  let m := set16 (avail_ring (i mod VIRTIO_QUEUE_SIZE)) 0 m in
  set16 avail_idx (u16 (get16 avail_idx m + 1)) m.
Definition notify w : virtio D :=
  let w := w {{ queue ::= publish }} in
  w {{ vdevice := outw (u16 (io_base w + 16)) VIRTIO_BLK_QUEUE (vdevice w) }}.

(** The request header, [request->type = t; reserved = 0; sector = lba]. *)
Definition put_request (t lba : Z) (p : list Z) : list Z :=
  set32 12 0 (set32 8 lba (set32 4 0 (set32 0 t p))).

(** [last_used = used->idx] *)
Definition see_used w : virtio D := w {{ last_used := get16 used_idx (queue w) }}.

(** The poll of a read with [n] turns left. *)
Fixpoint read_poll (n : nat) (buffer : list Z) w : Z * list Z * virtio D :=
  match n with
  | O => (-1, buffer, w)
  | S n' =>
      let w := bus_turn w in
      if negb (get16 used_idx (queue w) =? last_used w) then
        let w := see_used w in
        if negb ((page w).[status_offset] =? 0) then (-1, buffer, w)
        else (0, for_range 0 512 (fun i b => b.[i <- (page w).[data_offset + i]]) buffer, w)
      else read_poll n' buffer w
  end.

Definition virtio_blk_present w : bool := vpresent w.

(** A read up to the poll: the request in the page, the entry in the ring, the notification. *)
Definition read_request (lba : Z) w : virtio D :=
  let w := w {{ page ::= put_request VIRTIO_BLK_T_IN lba }} in
  let w := w {{ page ::= fun p => p.[status_offset <- 255] }} in
  let w := w {{ page ::= for_range 0 512 (fun i p => p.[data_offset + i <- 0]) }} in
  notify w.

Definition virtio_blk_read_sector (lba : Z) (buffer : list Z) w : Z * list Z * virtio D :=
  if negb (vpresent w) then (-1, buffer, w)
  else read_poll (Z.to_nat VIRTIO_POLL_LIMIT) buffer (read_request lba w).

(** [desc[1].flags = VIRTQ_DESC_F_NEXT|VIRTQ_DESC_F_WRITE] *)
Definition restore w : virtio D :=
  w {{ queue ::= set16 (desc_flags 1) (Z.lor VIRTQ_DESC_F_NEXT VIRTQ_DESC_F_WRITE) }}.
Fixpoint write_poll (n : nat) w : Z * virtio D :=
  match n with
  | O => (-1, restore w)
  | S n' =>
      let w := bus_turn w in
      if negb (get16 used_idx (queue w) =? last_used w) then
        let w := restore (see_used w) in
        (if (page w).[status_offset] =? 0 then 0 else -1, w)
      else write_poll n' w
  end.

Definition write_request (lba : Z) (buffer : list Z) w : virtio D :=
  let w := w {{ page ::= put_request 1 lba }} in
  let w := w {{ page ::= for_range 0 512 (fun i p => p.[data_offset + i <- buffer.[i]]) }} in
  let w := w {{ page ::= fun p => p.[status_offset <- 255] }} in
  let w := w {{ queue ::= set16 (desc_flags 1) VIRTQ_DESC_F_NEXT }} in
  notify w.

Definition virtio_blk_write_sector (lba : Z) (buffer : list Z) w : Z * virtio D :=
  if negb (vpresent w) then (-1, w)
  else write_poll (Z.to_nat VIRTIO_POLL_LIMIT) (write_request lba buffer w).

Definition virtio_block (here : bool) : block_device (virtio D) :=
  mkDevice "virtio0" 512 4294967295 (Some virtio_blk_read_sector) (Some virtio_blk_write_sector) here.

(** The queue memory as [virtio_blk_init] leaves it. *)
Definition init_queue (a : Z) (m : list Z) : list Z :=
  let m := for_range 0 8192 (fun i m => m.[i <- 0]) m in
  let m := for_range 0 VIRTIO_QUEUE_SIZE (fun i m => set_desc i 0 0 0 0 m) m in
  let m := set_desc 0 a sizeof_virtio_blk_req VIRTQ_DESC_F_NEXT 1 m in
  let m := set_desc 1 (u32 (a + 64)) 512 (Z.lor VIRTQ_DESC_F_NEXT VIRTQ_DESC_F_WRITE) 2 m in
  set16 (desc_flags 2) VIRTQ_DESC_F_WRITE (set32 (desc_length 2) 1 (set32 (desc_address 2) (u32 (a + 576)) m)).

(** The legacy device, if the bus has one with an I/O range. *)
Definition find_device (d : D) : option Z * D :=
  match pci_find_class 1 0 d with
  | (_, Some x, d) =>
      if negb (vendor x =? VIRTIO_VENDOR) || negb (device_id x =? VIRTIO_BLK_DEVICE) then (None, d)
      else
        match pci_read_bar x 0 d with
        | (_, Some bar, d) => if (io bar =? 0) || (65535 <? bar_base bar) then (None, d) else (Some (u16 (bar_base bar)), d)
        | (_, None, d) => (None, d)
        end
  | (_, None, d) => (None, d)
  end.

(** Reset, acknowledge, no features, queue 0 selected; returns the queue's size. *)
Definition negotiate (base : Z) w : Z * virtio D :=
  let w := set_status 0 (w {{ io_base := base }}) in
  let w := w {{ vdevice := (inl_ (u16 (io_base w + 0)) (vdevice w)).2 }} in
  let w := w {{ vdevice := outl (u16 (io_base w + 4)) 0 (vdevice w) }} in
  let w := set_status (Z.lor VIRTIO_STATUS_ACK VIRTIO_STATUS_DRIVER) w in
  let w := w {{ vdevice := outw (u16 (io_base w + 14)) VIRTIO_BLK_QUEUE (vdevice w) }} in
  let '(x, d) := inl_ (u16 (io_base w + 12)) (vdevice w) in
  (u16 x, w {{ vdevice := d }}).

(** The queue laid out, its page number given to the device, the driver running. *)
Definition start_queue w : virtio D :=
  let w := w {{ queue ::= init_queue (physical_address (request_dma w)) }} in
  let w := w {{ vdevice := outl (u16 (io_base w + 8)) (Z.shiftr (physical_address (queue_dma w)) 12) (vdevice w) }} in
  let w := set_status (Z.lor (Z.lor VIRTIO_STATUS_ACK VIRTIO_STATUS_DRIVER) VIRTIO_STATUS_DRIVER_OK) w in
  w {{ vpresent := true; last_used := 0 }}.

Context {S : Type} `{FrameAllocator S}.

(** [dma_alloc(8192, &queue_dma) != 0 || dma_alloc(PAGE_SIZE, &request_dma) != 0], and then
    the queue's buffer given back; [true]: both buffers are there. *)
Definition take_buffers (initialized : bool) (s : S) w : bool * S * virtio D :=
  let '(rc, q, s) := dma_alloc initialized 8192 (Some (queue_dma w)) s in
  let w := w {{ queue_dma := default (queue_dma w) q }} in
  let '(rc, s, w) :=
    if negb (rc =? 0) then (rc, s, w)
    else
      let '(rc, r, s) := dma_alloc initialized PAGE_SIZE (Some (request_dma w)) s in
      (rc, s, w {{ request_dma := default (request_dma w) r }}) in
  if negb (rc =? 0) then
    if negb (physical_address (queue_dma w) =? 0) then
      let '(q, s) := dma_free (Some (queue_dma w)) s in
      (false, s, w {{ queue_dma := default (queue_dma w) q }})
    else (false, s, w)
  else (true, s, w).

(** [initialized]: [dma_init] has run. *)
Definition virtio_blk_init (initialized : bool) (b : block (virtio D)) (s : S) w : block (virtio D) * S * virtio D :=
  match find_device (vdevice w) with
  | (None, d) => (b, s, w {{ vdevice := d }})
  | (Some base, d) =>
      let '(qsize, w) := negotiate base (w {{ vdevice := d }}) in
      if qsize <? VIRTIO_QUEUE_SIZE then (b, s, fail w)
      else
        let '(ok, s, w) := take_buffers initialized s w in
        if negb ok then (b, s, fail w)
        else ((block_register (Some (virtio_block true)) b).2, s, start_queue w)
  end.
End driver.
