(* ===== verification/VirtioTheorems.v ===== *)
(** What the virtio driver guarantees over any device: the layout of the queue it sets up,
    the frames it takes or gives back, and when it reports success. *)
From S2P Require Import Prelude Frames Pmm Block Ata Dma Pci Virtio.
From coqutil Require Import Datatypes.RecordSetters.
Import DoubleBraceUpdate.

(** ** Words in byte buffers *)
Section words.
Implicit Types m : list Z.

Lemma set16_length o v m : length (set16 o v m) = length m.
Proof. unfold set16. by rewrite !aset_length. Qed.
Lemma set32_length o v m : length (set32 o v m) = length m.
Proof. unfold set32. by rewrite !set16_length. Qed.
Lemma set_desc_length i a l f n m : length (set_desc i a l f n m) = length m.
Proof. unfold set_desc. by rewrite !set16_length, !set32_length. Qed.

Lemma set16_get o v m k : 0 <= o -> o + 1 < Z.of_nat (length m) -> 0 <= k ->
  (set16 o v m).[k] = if k =? o then u8 v else if k =? o + 1 then u8 (Z.shiftr v 8) else m.[k].
Proof.
  intros Ho Hl Hk. unfold set16. rewrite !aget_aset by (rewrite ?aset_length; lia).
  rewrite !(Z.eqb_sym k). destruct (Z.eqb_spec (o + 1) k), (Z.eqb_spec o k); try done; lia.
Qed.

Lemma set32_get o v m k : 0 <= o -> o + 3 < Z.of_nat (length m) -> 0 <= k ->
  (set32 o v m).[k] = if (o <=? k) && (k <? o + 4) then u8 (Z.shiftr v (8 * (k - o))) else m.[k].
Proof.
  intros Ho Hl Hk. unfold set32. rewrite !set16_get by (rewrite ?set16_length; lia). rewrite Z.shiftr_shiftr by lia.
  destruct (Z.leb_spec o k), (Z.ltb_spec k (o + 4)); cbn [andb];
    destruct (Z.eqb_spec k (o + 2)), (Z.eqb_spec k (o + 2 + 1)), (Z.eqb_spec k o), (Z.eqb_spec k (o + 1)); try lia; try done;
    do 2 f_equal; try lia.
  by replace (8 * (k - o)) with 0 by lia.
Qed.

Lemma le16_of v : le16 (u8 v) (u8 (Z.shiftr v 8)) = u16 v.
Proof. rewrite le16_add by apply u8_range. unfold u8, u16. rewrite shiftr_div by lia. change (2 ^ 8) with 256. word_lia. Qed.

Lemma get16_set16_eq o v m : 0 <= o -> o + 1 < Z.of_nat (length m) -> get16 o (set16 o v m) = u16 v.
Proof.
  intros Ho Hl. unfold get16. rewrite !set16_get by lia. rewrite Z.eqb_refl, Z.eqb_refl.
  destruct (Z.eqb_spec (o + 1) o); [lia|]. apply le16_of.
Qed.

Lemma get16_set16_ne o o' v m : 0 <= o -> o + 1 < Z.of_nat (length m) -> 0 <= o' -> o' + 1 < o \/ o + 1 < o' ->
  get16 o' (set16 o v m) = get16 o' m.
Proof.
  intros Ho Hl Ho' Hd. unfold get16. rewrite !set16_get by lia.
  destruct (Z.eqb_spec o' o), (Z.eqb_spec o' (o + 1)), (Z.eqb_spec (o' + 1) o), (Z.eqb_spec (o' + 1) (o + 1)); lia || done.
Qed.

Lemma get16_set32_ne o o' v m : 0 <= o -> o + 3 < Z.of_nat (length m) -> 0 <= o' -> o' + 1 < o \/ o + 3 < o' ->
  get16 o' (set32 o v m) = get16 o' m.
Proof. intros Ho Hl Ho' Hd. unfold set32. rewrite !get16_set16_ne by (rewrite ?set16_length; lia). done. Qed.

Lemma get32_set16_ne o o' v m : 0 <= o -> o + 1 < Z.of_nat (length m) -> 0 <= o' -> o' + 3 < o \/ o + 1 < o' ->
  get32 o' (set16 o v m) = get32 o' m.
Proof.
  intros Ho Hl Ho' Hd. unfold get32. rewrite !set16_get by lia.
  repeat match goal with |- context [?x =? ?y] => destruct (Z.eqb_spec x y); [lia|] end. done.
Qed.

Lemma get32_set32_ne o o' v m : 0 <= o -> o + 3 < Z.of_nat (length m) -> 0 <= o' -> o' + 3 < o \/ o + 3 < o' ->
  get32 o' (set32 o v m) = get32 o' m.
Proof. intros Ho Hl Ho' Hd. unfold set32. rewrite !get32_set16_ne by (rewrite ?set16_length; lia). done. Qed.

Lemma get32_set32_eq o v m : 0 <= o -> o + 3 < Z.of_nat (length m) -> is_u32 v -> get32 o (set32 o v m) = v.
Proof.
  intros Ho Hl Hv. unfold get32. rewrite !set32_get by lia.
  repeat match goal with |- context [(?x <=? ?y)] => destruct (Z.leb_spec x y); [|lia] end.
  repeat match goal with |- context [(?x <? ?y)] => destruct (Z.ltb_spec x y); [|lia] end. cbn [andb].
  replace (o - o) with 0 by lia. replace (o + 1 - o) with 1 by lia. replace (o + 2 - o) with 2 by lia.
  replace (o + 3 - o) with 3 by lia. rewrite Z.shiftr_0_r, !shiftr_div by lia. unfold u8.
  change (2 ^ (8 * 1)) with 256. change (2 ^ (8 * 2)) with 65536. change (2 ^ (8 * 3)) with 16777216.
  by apply le32_bytes.
Qed.

Lemma get32_halves o m : get32 o m = Z.lor (get16 o m) (Z.shiftl (get16 (o + 2) m) 16).
Proof.
  unfold get32, get16, le32, le16. replace (o + 2 + 1) with (o + 3) by lia.
  by rewrite Z.shiftl_lor, Z.shiftl_shiftl, <- Z.lor_assoc by lia.
Qed.
End words.

(** The queue's offsets are constants. *)
Ltac offsets :=
  unfold desc_address, desc_length, desc_flags, desc_next, avail_idx, avail_ring, used_idx;
  change used_offset with 4096; change avail_offset with 96; change sizeof_virtq_desc with 12.
Ltac buf_lia :=
  repeat first [rewrite set_desc_length | rewrite set16_length | rewrite set32_length | rewrite length_replicate]; lia.
Create Rewrite HintDb words.
#[local] Hint Rewrite get16_set16_ne get16_set32_ne get32_set16_ne get32_set32_ne using buf_lia : words.

(** ** The queue *)
Lemma zero_desc i n : set_desc i 0 0 0 0 (replicate n 0) = replicate n 0.
Proof.
  unfold set_desc, set32, set16, aset. change (u8 (Z.shiftr (Z.shiftr 0 16) 8)) with 0. change (u8 (Z.shiftr 0 16)) with 0.
  change (u8 (Z.shiftr 0 8)) with 0. change (u8 0) with 0. by rewrite !insert_replicate.
Qed.

Lemma init_queue_eq a m : Z.of_nat (length m) = 8192 ->
  init_queue a m =
    set16 (desc_flags 2) VIRTQ_DESC_F_WRITE (set32 (desc_length 2) 1 (set32 (desc_address 2) (u32 (a + 576))
      (set_desc 1 (u32 (a + 64)) 512 3 2 (set_desc 0 a 16 1 1 (replicate (Z.to_nat 8192) 0))))).
Proof.
  intros Hm. unfold init_queue. cbn zeta.
  assert (for_range 0 8192 (fun i m => m.[i <- 0]) m = replicate (Z.to_nat 8192) 0) as ->.
  { change (for_range 0 8192 (fun i m => m.[0 + i <- 0]) m = replicate (Z.to_nat 8192) 0).
    destruct (fill_range (fun _ => 0) 0 8192 m) as [Hl Hg]; [lia..|].
    apply list_aget_eq; [rewrite Hl, length_replicate; lia|]. intros k Hk. rewrite Hl in Hk.
    rewrite Hg by lia. rewrite aget_replicate by lia. destruct (_ && _) eqn:E; [done|lia]. }
  rewrite (for_range_pres (fun m => m = replicate (Z.to_nat 8192) 0)); [done|done|]. intros i l _ ->. apply zero_desc.
Qed.

(** The descriptor at index [i] as the driver's structure lays it out. *)
Definition desc_at (i : Z) (m : list Z) : Z * Z * Z * Z :=
  (get32 (desc_address i) m, get32 (desc_length i) m, get16 (desc_flags i) m, get16 (desc_next i) m).

Lemma zeros32 o : 0 <= o < 8189 -> get32 o (replicate (Z.to_nat 8192) 0) = 0.
Proof. intros Ho. unfold get32. rewrite !aget_replicate by lia. done. Qed.
Lemma zeros16 o : 0 <= o < 8191 -> get16 o (replicate (Z.to_nat 8192) 0) = 0.
Proof. intros Ho. unfold get16. rewrite !aget_replicate by lia. done. Qed.

Lemma init_queue_chain a m : Z.of_nat (length m) = 8192 -> 0 <= a < 4294960000 ->
  let q := init_queue a m in
  desc_at 0 q = (a, 16, 1, 1) /\ desc_at 1 q = (a + 64, 512, 3, 2) /\ desc_at 2 q = (a + 576, 1, 2, 0) /\
  get16 avail_idx q = 0 /\ get16 used_idx q = 0.
Proof.
  intros Hm Ha q. unfold q. rewrite init_queue_eq by done. rewrite !u32_small by (unfold is_u32; lia).
  unfold desc_at, set_desc, VIRTQ_DESC_F_WRITE. offsets. split_and!.
  all: try (apply f_equal2; [apply f_equal2; [apply f_equal2|]|]).
  all: repeat (first [rewrite get32_set32_eq by (buf_lia || (unfold is_u32; lia)) | rewrite get16_set16_eq by buf_lia
    | progress autorewrite with words]).
  all: rewrite ?zeros16, ?zeros32 by lia; done.
Qed.

(** A standard split queue has sixteen-byte descriptors: a 64-bit address, then length,
    flags and next.  Read that way, the first descriptor the driver sets up is not the
    request: its address lies beyond 4 GiB, and its length is 65537. *)
Definition standard_address (i : Z) (m : list Z) : Z := get32 (16 * i) m + get32 (16 * i + 4) m * 4294967296.
Definition standard_length (i : Z) (m : list Z) : Z := get32 (16 * i + 8) m.

Lemma descriptors_not_standard a m : Z.of_nat (length m) = 8192 -> 0 <= a < 4294960000 ->
  standard_address 0 (init_queue a m) = a + 16 * 4294967296 /\ standard_length 0 (init_queue a m) = 65537.
Proof.
  intros Hm Ha. destruct (init_queue_chain a m Hm Ha) as (E & _).
  generalize dependent (init_queue a m). intros q E. unfold desc_at in E. injection E as E1 E2 E3 E4. unfold standard_address, standard_length. change (16 * 0) with 0. change (0 + 4) with 4. change (0 + 8) with 8.
  change (desc_address 0) with 0 in E1. change (desc_length 0) with 4 in E2. change (desc_flags 0) with 8 in E3. change (desc_next 0) with 10 in E4.
  rewrite E1, E2. split; [done|]. rewrite get32_halves. change (8 + 2) with 10. by rewrite E3, E4.
Qed.

(** ** Publishing a request *)
Lemma publish_length m : length (publish m) = length m.
Proof. unfold publish. by rewrite !set16_length. Qed.

Lemma ring_slot m : 100 <= avail_ring (get16 avail_idx m mod VIRTIO_QUEUE_SIZE) <= 114.
Proof. unfold avail_ring, VIRTIO_QUEUE_SIZE. change avail_offset with 96. pose proof (Z.mod_pos_bound (get16 avail_idx m) 8 ltac:(lia)). lia. Qed.

(** The next request is entered in the ring: the index goes up by one, as a 16-bit
    number, and only bytes of the ring and its index change. *)
Lemma publish_spec m : 116 <= Z.of_nat (length m) ->
  get16 avail_idx (publish m) = u16 (get16 avail_idx m + 1) /\
  forall k, 0 <= k -> k < 98 \/ 116 <= k -> (publish m).[k] = m.[k].
Proof.
  intros Hl. unfold publish. cbn zeta. pose proof (ring_slot m) as Hs. set (r := avail_ring _) in *.
  change avail_idx with 98. split.
  - rewrite get16_set16_eq, get16_set16_ne by buf_lia. unfold u16. by rewrite Z.mod_mod.
  - intros k Hk Hd. rewrite !set16_get by buf_lia.
    repeat match goal with |- context [?x =? ?y] => destruct (Z.eqb_spec x y); [lia|] end. done.
Qed.

Lemma copy_out (f : Z -> Z) buf : (512 <= length buf)%nat ->
  for_range 0 512 (fun i b => b.[i <- f i]) buf = (f <$> seqZ 0 512) ++ drop 512 buf.
Proof.
  intros Hb. change (for_range 0 512 (fun i b => b.[0 + i <- f i]) buf = (f <$> seqZ 0 512) ++ drop 512 buf).
  destruct (fill_range f 0 512 buf) as [Hl Hg]; [lia..|].
  apply list_aget_eq. { rewrite Hl, length_app, length_fmap, length_seqZ, length_drop. lia. }
  intros k Hk. rewrite Hg by lia. rewrite Hl in Hk.
  destruct (Z.leb_spec 0 k), (Z.ltb_spec k (0 + 512)); try lia; cbn [andb].
  - rewrite aget_app_l, aget_fmap_seqZ by (rewrite ?length_fmap, ?length_seqZ; lia). f_equal. lia.
  - rewrite aget_app_r by (rewrite length_fmap, length_seqZ; lia). rewrite length_fmap, length_seqZ, aget_drop by lia.
    f_equal. lia.
Qed.

Section any_device.
Context {D : Type} `{Ports D} `{Ports32 D} `{BusMaster D}.
Implicit Types w : virtio D.

(** The device entered something in the used ring since the driver last looked. *)
Definition answered (w w' : virtio D) : Prop :=
  get16 used_idx (queue w') <> last_used w /\ last_used w' = get16 used_idx (queue w').

Lemma bus_turn_keeps w : last_used (bus_turn w) = last_used w /\ vpresent (bus_turn w) = vpresent w.
Proof. unfold bus_turn. by destruct (dma_step _ _ _) as [[d q] p]. Qed.

Lemma read_poll_result n buf w rc buf' w' :
  (512 <= length buf)%nat -> read_poll n buf w = (rc, buf', w') ->
  (rc = 0 /\ answered w w' /\ (page w').[status_offset] = 0 /\
     buf' = ((fun i => (page w').[data_offset + i]) <$> seqZ 0 512) ++ drop 512 buf) \/
  (rc = -1 /\ buf' = buf).
Proof.
  intros Hb. revert w. induction n as [|n IH]; intros w; cbn [read_poll]; [intros [= <- <- <-]; by right|].
  destruct (bus_turn_keeps w) as [Hlu _]. set (w1 := bus_turn w) in *.
  destruct (Z.eqb_spec (get16 used_idx (queue w1)) (last_used w1)) as [Ee|Hne]; cbn [negb].
  - intros E. destruct (IH w1 E) as [(-> & [Ha Hl] & Hr)|Hr]; [left|by right].
    split; [done|]. split; [split; congruence|done].
  - destruct (Z.eqb_spec (page (see_used w1)).[status_offset] 0) as [Es|];
      cbn [negb]; intros [= <- <- <-]; [|by right].
    left. split; [done|]. split; [split; [change (get16 used_idx (queue w1) <> last_used w); congruence|done]|].
    split; [done|]. by apply copy_out.
Qed.

(** The page as the device finds it when it is notified. *)
Definition request_at (t lba : Z) (p : list Z) : Prop :=
  get32 0 p = t /\ get32 4 p = 0 /\ get32 8 p = lba /\ get32 12 p = 0 /\ p.[status_offset] = 255.

Lemma put_request_length t lba p : length (put_request t lba p) = length p.
Proof. unfold put_request. by rewrite !set32_length. Qed.

(** The data area: 512 bytes at 64. *)
Lemma data_fill (f : Z -> Z) p : Z.of_nat (length p) = 4096 ->
  let p' := for_range 0 512 (fun i p => p.[data_offset + i <- f i]) p in
  Z.of_nat (length p') = 4096 /\
  forall k, 0 <= k -> p'.[k] = if (64 <=? k) && (k <? 576) then f (k - 64) else p.[k].
Proof. intros Hp. destruct (fill_range f data_offset 512 p) as [Hl Hg]; [done|done|change data_offset with 64; lia|]. split; [lia|exact Hg]. Qed.

Lemma request_at_ext t lba p p' :
  (forall k, 0 <= k < 64 \/ k = status_offset -> p'.[k] = p.[k]) -> request_at t lba p -> request_at t lba p'.
Proof.
  intros He. change status_offset with 576 in He. unfold request_at, get32. change status_offset with 576.
  rewrite !He by lia. done.
Qed.

Lemma request_written t lba p : Z.of_nat (length p) = 4096 -> is_u32 t -> is_u32 lba ->
  request_at t lba ((put_request t lba p).[status_offset <- 255]).
Proof.
  intros Hp Ht Hl. assert (is_u32 0) as H00 by done.
  assert (request_at t lba (set16 576 255 (put_request t lba p))) as Hr.
  { unfold request_at. change status_offset with 576. rewrite set16_get by (rewrite ?put_request_length; lia).
    unfold put_request. autorewrite with words. split_and!; try done.
    all: repeat (first [rewrite get32_set32_eq by (done || buf_lia) | rewrite get32_set32_ne by buf_lia]); done. }
  revert Hr. apply request_at_ext. intros k Hk. change status_offset with 576 in *.
  rewrite aget_aset by (rewrite ?put_request_length; lia). rewrite set16_get by (rewrite ?put_request_length; lia).
  rewrite (Z.eqb_sym 576 k). destruct (Z.eqb_spec k 576); [done|]. destruct (Z.eqb_spec k (576 + 1)); [lia|done].
Qed.

Lemma read_request_page lba w : Z.of_nat (length (page w)) = 4096 -> is_u32 lba ->
  request_at VIRTIO_BLK_T_IN lba (page (read_request lba w)).
Proof.
  intros Hp Hl. set (p1 := (put_request VIRTIO_BLK_T_IN lba (page w)).[status_offset <- 255]).
  change (page (read_request lba w)) with (for_range 0 512 (fun i p => p.[data_offset + i <- 0]) p1).
  destruct (data_fill (fun _ => 0) p1) as [_ Hg]; [unfold p1; rewrite aset_length, put_request_length; lia|].
  apply (request_at_ext _ _ p1); [|by apply request_written].
  intros k Hk. change status_offset with 576 in Hk. rewrite Hg by lia.
  destruct (_ && _) eqn:E; [lia|done].
Qed.

Lemma write_request_page lba buf w : Z.of_nat (length (page w)) = 4096 -> is_u32 lba ->
  let p := page (write_request lba buf w) in
  request_at 1 lba p /\ forall i, 0 <= i < 512 -> p.[data_offset + i] = buf.[i].
Proof.
  intros Hp Hl. set (p0 := put_request 1 lba (page w)).
  set (p1 := for_range 0 512 (fun i p => p.[data_offset + i <- buf.[i]]) p0).
  change (page (write_request lba buf w)) with (p1.[status_offset <- 255]).
  destruct (data_fill (fun i => buf.[i]) p0) as [Hl1 Hg]; [unfold p0; rewrite put_request_length; lia|]. fold p1 in Hl1, Hg.
  assert (forall k, 0 <= k -> (p1.[status_offset <- 255]).[k] = if 576 =? k then 255 else p1.[k]) as Hk.
  { intros k Hk. rewrite aget_aset; [done|change status_offset with 576; lia|done]. }
  cbn zeta. split.
  - apply (request_at_ext _ _ (p0.[status_offset <- 255])); [|by apply request_written].
    intros k Hr. change status_offset with 576 in Hr. rewrite Hk, Hg by lia.
    rewrite aget_aset by (unfold p0; rewrite ?put_request_length; change status_offset with 576; lia).
    change status_offset with 576. destruct (Z.eqb_spec 576 k); [done|]. destruct (_ && _) eqn:E; [lia|done].
  - intros i Hi. change data_offset with 64. rewrite Hk, Hg by lia. destruct (Z.eqb_spec 576 (64 + i)); [lia|].
    destruct (_ && _) eqn:E; [|lia]. f_equal. lia.
Qed.

(** C22: whatever the device does, a sector read returns after a bounded number of polls.
    The device is notified with the request for that sector in the shared page and one
    more entry in the available ring; the read succeeds only if the device then entered
    something in the used ring and left a zero in the status byte, which the driver had
    set to 255, and only then is the buffer changed: to the 512 bytes in the data area. *)
Theorem virtio_read_reports lba buf w rc buf' w' :
  vpresent w = true -> Z.of_nat (length (queue w)) = 8192 -> Z.of_nat (length (page w)) = 4096 -> is_u32 lba ->
  (512 <= length buf)%nat -> virtio_blk_read_sector lba buf w = (rc, buf', w') ->
  let w0 := read_request lba w in
  request_at VIRTIO_BLK_T_IN lba (page w0) /\
  get16 avail_idx (queue w0) = u16 (get16 avail_idx (queue w) + 1) /\
  ((rc = 0 /\ answered w w' /\ (page w').[status_offset] = 0 /\
      buf' = ((fun i => (page w').[data_offset + i]) <$> seqZ 0 512) ++ drop 512 buf) \/
   (rc = -1 /\ buf' = buf)).
Proof.
  intros Hpr Hq Hp Hl Hb E w0. revert E. unfold virtio_blk_read_sector. generalize (Z.to_nat VIRTIO_POLL_LIMIT). intros n E.
  rewrite Hpr in E. cbn [negb] in E.
  split; [by apply read_request_page|]. split.
  - change (queue w0) with (publish (queue w)). apply publish_spec. lia.
  - exact (read_poll_result _ _ _ _ _ _ Hb E).
Qed.

(** ** Writes *)
(** The device does not change the size of memory. *)
Hypothesis device_keeps_size : forall d q p, let '(_, q', p') := dma_step d q p in length q' = length q /\ length p' = length p.

Lemma bus_turn_size w : length (queue (bus_turn w)) = length (queue w).
Proof using device_keeps_size.
  unfold bus_turn. pose proof (device_keeps_size (vdevice w) (queue w) (page w)) as Hk.
  destruct (dma_step _ _ _) as [[d q] p]. apply Hk.
Qed.

Lemma restore_flags m : Z.of_nat (length m) = 8192 ->
  get16 (desc_flags 1) (set16 (desc_flags 1) (Z.lor VIRTQ_DESC_F_NEXT VIRTQ_DESC_F_WRITE) m) = 3.
Proof. intros Hm. change (desc_flags 1) with 20. by rewrite get16_set16_eq by lia. Qed.

Lemma write_poll_result n w rc w' :
  Z.of_nat (length (queue w)) = 8192 -> write_poll n w = (rc, w') ->
  get16 (desc_flags 1) (queue w') = 3 /\
  ((rc = 0 /\ (page w').[status_offset] = 0 /\ last_used w' <> last_used w) \/ rc = -1).
Proof using device_keeps_size.
  revert w. induction n as [|n IH]; intros w Hq; cbn [write_poll].
  { intros [= <- <-]. split; [by apply restore_flags|by right]. }
  destruct (bus_turn_keeps w) as [Hlu _]. pose proof (bus_turn_size w) as Hs. set (w1 := bus_turn w) in *.
  destruct (Z.eqb_spec (get16 used_idx (queue w1)) (last_used w1)) as [Ee|Hne]; cbn [negb].
  - intros E. destruct (IH w1 ltac:(lia) E) as [Hf Hr]. split; [done|]. by rewrite Hlu in Hr.
  - assert (get16 (desc_flags 1) (queue (restore (see_used w1))) = 3) as Hf.
    { apply restore_flags. change (Z.of_nat (length (queue w1)) = 8192). lia. }
    destruct (Z.eqb_spec (page (restore (see_used w1))).[status_offset] 0) as [Es|Es];
      intros [= <- <-]; (split; [exact Hf|]); [left|by right].
    split; [done|]. split; [exact Es|]. change (get16 used_idx (queue w1) <> last_used w). congruence.
Qed.

(** C21: a sector write hands the device the buffer's bytes, with the data descriptor made
    device-readable for it; however the request ends - answered, refused or timed out -
    the descriptor is device-writable again, as reads need it, and success is reported
    only for an answer with a zero status byte. *)
Theorem virtio_write_restores lba buf w rc w' :
  vpresent w = true -> Z.of_nat (length (queue w)) = 8192 -> Z.of_nat (length (page w)) = 4096 -> is_u32 lba ->
  virtio_blk_write_sector lba buf w = (rc, w') ->
  let w0 := write_request lba buf w in
  (request_at 1 lba (page w0) /\ (forall i, 0 <= i < 512 -> (page w0).[data_offset + i] = buf.[i]) /\
   get16 (desc_flags 1) (queue w0) = VIRTQ_DESC_F_NEXT) /\
  get16 (desc_flags 1) (queue w') = Z.lor VIRTQ_DESC_F_NEXT VIRTQ_DESC_F_WRITE /\
  ((rc = 0 /\ (page w').[status_offset] = 0 /\ last_used w' <> last_used w) \/ rc = -1).
Proof using device_keeps_size.
  intros Hpr Hq Hp Hl E w0. revert E. unfold virtio_blk_write_sector. generalize (Z.to_nat VIRTIO_POLL_LIMIT). intros n E.
  rewrite Hpr in E. cbn [negb] in E. fold w0 in E.
  assert (queue w0 = publish (set16 (desc_flags 1) VIRTQ_DESC_F_NEXT (queue w))) as Eq by reflexivity.
  split.
  - destruct (write_request_page lba buf w Hp Hl) as [Hr Hd]. split; [done|]. split; [done|]. rewrite Eq.
    destruct (publish_spec (set16 (desc_flags 1) VIRTQ_DESC_F_NEXT (queue w))) as [_ Hk]; [rewrite set16_length; lia|].
    unfold get16. change (desc_flags 1) with 20 in *. rewrite !Hk by lia. fold (get16 20 (set16 20 VIRTQ_DESC_F_NEXT (queue w))).
    by rewrite get16_set16_eq by lia.
  - apply (write_poll_result n w0 rc w'); [|exact E]. rewrite Eq, publish_length, set16_length. lia.
Qed.
End any_device.

(** ** Starting the driver *)
Lemma triple_inj {A B C} (a a' : A) (b b' : B) (c c' : C) : (a, b, c) = (a', b', c') -> a = a' /\ b = b' /\ c = c'.
Proof. by intros [= -> -> ->]. Qed.

Section start.
Context {D : Type} `{Ports D} `{Ports32 D} `{BusMaster D} {S : Type} `{FrameAllocator S} `{!FrameAllocatorLaws S}.
Implicit Types (w : virtio D) (s : S).

(** [w'] differs from [w] only in the device and the port range. *)
Definition same_buffers w w' : Prop :=
  vpresent w' = vpresent w /\ queue_dma w' = queue_dma w /\ request_dma w' = request_dma w /\
  queue w' = queue w /\ page w' = page w.

Lemma fail_keeps w : same_buffers w (fail w).
Proof. unfold fail, cfg_status. by destruct (inb _ _). Qed.

Lemma negotiate_keeps base w n w' : negotiate base w = (n, w') -> same_buffers w w'.
Proof. unfold negotiate. cbn zeta. destruct (inl_ _ _) as [x d]. intros E. by injection E as _ <-. Qed.

Lemma take_buffers_spec s w ok s' w' :
  frame_ok s -> physical_address (queue_dma w) = 0 -> take_buffers dma_init s w = (ok, s', w') ->
  vpresent w' = vpresent w /\ queue w' = queue w /\ frame_ok s' /\
  if ok then exists mid, owns_run (physical_address (queue_dma w')) 2 s mid /\ owns_run (physical_address (request_dma w')) 1 mid s'
  else forall q, frame_refs s' q = frame_refs s q.
Proof.
  intros Hok Hq0. destruct w as [io_base0 here lu [va pa bl bp] rd qm pm d]. cbn in Hq0. subst pa.
  set (qd := mkDma va 0 bl bp).
  unfold take_buffers. cbn [queue_dma request_dma]. destruct (dma_alloc dma_init 8192 _ s) as [[rc1 q1] s1] eqn:E1.
  destruct (dma_alloc_owns 8192 qd s rc1 q1 s1 Hok ltac:(lia) E1) as [(a & n & -> & -> & Hn & Ho)|(-> & -> & Hok1 & Hr1)].
  2: { cbn. intros [= <- <- <-]. done. }
  assert (n = 2) as -> by const_lia. cbn [Z.eqb negb default].
  destruct (dma_alloc dma_init PAGE_SIZE _ s1) as [[rc2 r2] s2] eqn:E2.
  pose proof (or_ok _ _ _ _ Ho) as Hok1.
  destruct (dma_alloc_owns PAGE_SIZE rd s1 rc2 r2 s2 Hok1 ltac:(const_lia) E2) as [(a2 & n2 & -> & -> & Hn2 & Ho2)|(-> & -> & Hok2 & Hr2)].
  - assert (n2 = 1) as -> by const_lia. cbn [Z.eqb negb]. intros [= <- <- <-].
    split; [done|]. split; [done|]. split; [apply Ho2|]. by exists s1.
  - cbn [Z.eqb negb default].
    match goal with |- context [physical_address (queue_dma ?x)] => set (w2 := x) end.
    change (queue_dma w2) with (mkDma a a 8192 2). cbn [physical_address]. destruct (or_bounds _ _ _ _ Ho ltac:(lia)) as [Ha _].
    destruct (Z.eqb_spec a 0); [lia|]. cbn [negb].
    assert (owns_run a 2 s s2) as Ho'.
    { destruct Ho as [H1' H2' H3' H4' H5']. split; try done. intros q. by rewrite Hr2, H5'. }
    destruct (dma_free_restores a 2 8192 s s2 ltac:(lia) Ho') as [Hok3 Hr3].
    destruct (dma_free _ s2) as [q3 s3]. intros [= <- <- <-]. done.
Qed.

(** Starting the driver either succeeds, with two device buffers taken from the page
    allocator - two consecutive frames for the queue, one for the requests, all fresh -
    the queue laid out for that request page and the device registered; or it leaves the
    reference count of every frame and the list of devices as they were, however far it
    got. *)
Theorem virtio_init_frames b s w b' s' w' :
  frame_ok s -> physical_address (queue_dma w) = 0 -> vpresent w = false ->
  virtio_blk_init dma_init b s w = (b', s', w') ->
  frame_ok s' /\
  if vpresent w' then
    exists mid, owns_run (physical_address (queue_dma w')) 2 s mid /\
      owns_run (physical_address (request_dma w')) 1 mid s' /\
      queue w' = init_queue (physical_address (request_dma w')) (queue w) /\ last_used w' = 0 /\
      b' = (block_register (Some (virtio_block true)) b).2
  else b' = b /\ forall q, frame_refs s' q = frame_refs s q.
Proof.
  intros Hok Hq0 Hpr. unfold virtio_blk_init.
  destruct (find_device (vdevice w)) as [[base|] d].
  2: { intros (<- & <- & <-)%triple_inj. change (vpresent (w {{ vdevice := d }})) with (vpresent w). by rewrite Hpr. }
  destruct (negotiate base _) as [n w1] eqn:En. apply negotiate_keeps in En as (P1 & Q1 & R1 & M1 & _).
  change (vpresent (w {{ vdevice := d }})) with (vpresent w) in P1. change (queue (w {{ vdevice := d }})) with (queue w) in M1.
  change (queue_dma (w {{ vdevice := d }})) with (queue_dma w) in Q1.
  destruct (n <? VIRTIO_QUEUE_SIZE).
  { intros (<- & <- & <-)%triple_inj. destruct (fail_keeps w1) as (-> & _). by rewrite P1, Hpr. }
  destruct (take_buffers dma_init s w1) as [[ok s2] w2] eqn:Et.
  destruct (take_buffers_spec s w1 ok s2 w2 Hok ltac:(congruence) Et) as (P2 & M2 & Hok2 & Hr).
  destruct ok; cbn [negb]; intros (<- & <- & <-)%triple_inj.
  - split; [done|]. change (vpresent (start_queue w2)) with true. cbv iota. destruct Hr as (mid & O1 & O2).
    exists mid. split; [exact O1|]. split; [exact O2|]. split; [|done].
    change (queue (start_queue w2)) with (init_queue (physical_address (request_dma w2)) (queue w2)).
    change (request_dma (start_queue w2)) with (request_dma w2). apply f_equal. congruence.
  - split; [done|]. destruct (fail_keeps w2) as (-> & _). by rewrite P2, P1, Hpr.
Qed.
End start.

(** ** A device that answers

    One function on the bus, at slot 0; every request it is notified of is completed at
    the next turn, with a sector of sevens. *)
Record vdemo := mkVdemo { vsel : Z; vbar : Z; vpending : bool }.

Definition vdemo_config (d : vdemo) : Z :=
  if vsel d =? 2147483648 then 268507892 (* 0x10011af4 *)
  else if vsel d =? 2147483656 then 16777216
  else if vsel d =? 2147483660 then 0
  else if vsel d =? 2147483664 then vbar d
  else 4294967295.
#[global] Instance vdemo_ports32 : Ports32 vdemo := {
  inl_ p d := if p =? CONFIG_DATA then (vdemo_config d, d) else if p =? 49152 + 12 then (256, d) else (0, d);
  outl p v d :=
    if p =? CONFIG_ADDRESS then mkVdemo v (vbar d) (vpending d)
    else if (p =? CONFIG_DATA) && (vsel d =? 2147483664) then mkVdemo (vsel d) (Z.lor (Z.land v 4294967232) 1) (vpending d)
    else d;
}.
#[global] Instance vdemo_ports : Ports vdemo := {
  inb p d := (0, d); outb p v d := d; inw p d := (0, d);
  outw p v d := if p =? 49152 + 16 then mkVdemo (vsel d) (vbar d) true else d;
}.
#[global] Instance vdemo_master : BusMaster vdemo := {
  dma_step d q p :=
    if vpending d then
      (mkVdemo (vsel d) (vbar d) false, set16 used_idx (u16 (get16 used_idx q + 1)) q,
       for_range 0 512 (fun i p => p.[data_offset + i <- 7]) (p.[status_offset <- 0]))
    else (d, q, p);
}.

Lemma vdemo_keeps_size (d : vdemo) q p : let '(_, q', p') := dma_step d q p in length q' = length q /\ length p' = length p.
Proof.
  cbn [dma_step vdemo_master]. destruct (vpending d); [|done]. split; [apply set16_length|].
  apply (for_range_pres (fun l => length l = length p)); [by rewrite aset_length|].
  intros i l _ Hl. by rewrite aset_length.
Qed.

Definition vdemo_down : virtio vdemo :=
  mkVirtio 0 false 0 (mkDma 0 0 0 0) (mkDma 0 0 0 0) (replicate (Z.to_nat 8192) 1) (replicate (Z.to_nat 4096) 1) (mkVdemo 0 49153 false).
Definition vdemo_up : virtio vdemo := vdemo_down {{ io_base := 49152; vpresent := true; queue := replicate (Z.to_nat 8192) 0 }}.

Lemma virtio_read_reports_witness :
  exists buf' w', virtio_blk_read_sector 5 (replicate 512 0) vdemo_up = (0, buf', w') /\ answered vdemo_up w' /\
    buf' = ((fun i => (page w').[data_offset + i]) <$> seqZ 0 512) ++ [].
Proof.
  destruct (virtio_blk_read_sector 5 (replicate 512 0) vdemo_up) as [[rc buf'] w'] eqn:E.
  assert (rc = 0) as -> by (change (((rc, buf'), w').1.1 = 0); rewrite <- E; vm_compute; reflexivity).
  destruct (virtio_read_reports 5 (replicate 512 0) vdemo_up 0 buf' w') as (_ & _ & [(_ & Ha & _ & Hb)|[Hr _]]).
  - reflexivity.
  - reflexivity.
  - reflexivity.
  - split; [discriminate|reflexivity].
  - rewrite length_replicate. lia.
  - exact E.
  - exists buf', w'. split; [reflexivity|]. split; [exact Ha|exact Hb].
  - discriminate.
Defined.

Lemma virtio_write_restores_witness :
  exists rc w', virtio_blk_write_sector 5 (replicate 512 9) vdemo_up = (rc, w') /\ rc = 0 /\
    get16 (desc_flags 1) (queue w') = 3.
Proof.
  destruct (virtio_blk_write_sector 5 (replicate 512 9) vdemo_up) as [rc w'] eqn:E.
  assert (rc = 0) as Hrc by (change ((rc, w').1 = 0); rewrite <- E; vm_compute; reflexivity).
  destruct (virtio_write_restores vdemo_keeps_size 5 (replicate 512 9) vdemo_up rc w') as (_ & Hf & _).
  - reflexivity.
  - reflexivity.
  - reflexivity.
  - split; [discriminate|reflexivity].
  - exact E.
  - exists rc, w'. split; [reflexivity|]. split; [exact Hrc|exact Hf].
Defined.

Lemma virtio_init_frames_witness :
  exists b' s' w', virtio_blk_init dma_init (block_init (mkBlockLayer [] 0)) small_pmm vdemo_down = (b', s', w') /\
    vpresent w' = true /\ exists mid, owns_run (physical_address (queue_dma w')) 2 small_pmm mid /\
      owns_run (physical_address (request_dma w')) 1 mid s'.
Proof.
  destruct (virtio_blk_init dma_init (block_init (mkBlockLayer [] 0)) small_pmm vdemo_down) as [[b' s'] w'] eqn:E.
  assert (vpresent w' = true) as Hp by (change (vpresent ((b', s'), w').2 = true); rewrite <- E; vm_compute; reflexivity).
  assert (frame_ok small_pmm) as Hok by exact small_pmm_ok.
  destruct (virtio_init_frames (block_init (mkBlockLayer [] 0)) small_pmm vdemo_down b' s' w' Hok eq_refl eq_refl E)
    as [_ Hr].
  rewrite Hp in Hr. destruct Hr as (mid & O1 & O2 & _).
  exists b', s', w'. split; [reflexivity|]. split; [exact Hp|]. exists mid. split; [exact O1|exact O2].
Defined.
