(* ===== verification/Kmain.v ===== *)
(** The whole of [kmain], [kernel/main.c]: the initialisations in the order of the code, with
    the state each leaves for the next, up to the jump to ring 3.

    The state is that of every component together.  Both disk drivers work on one piece of
    hardware [D]: the state behind the block layer is [disks], and a driver's routines act
    on its part of it.  The texts of the initialisations are left out, but for the banner
    and the last line on the screen.  Results of [cpuid] and [rdmsr], the memory of the
    firmware and of the boot loader, the addresses the linker chooses and what the mask
    registers of the interrupt controllers read ([imr], from the bytes sent so far) are
    parameters.  [syscall_init] fills the table that [Syscall] dispatches by directly. *)
From S2P Require Import Prelude Frames Pmm Paging KernelMap Heap Net Vmm VmmTheorems VmmDemo Keyboard Console Sync Block Journal Fat32 Vfs Timer Process ReadyQueue ProcessIds ProcessDemo Elf Syscall SelfTests Boot Launch Ata AtaTheorems Storage Serial Dma Acpi Apic Interrupts Modules Pci Probes Virtio.
From coqutil Require Import Datatypes.RecordSetters.
Import DoubleBraceUpdate.

(** ** One machine, two disk drivers *)
Record disks (D : Type) := mkDisks { drive_here : bool; vio : virtio D }.
Arguments mkDisks {D}. Arguments drive_here {D}. Arguments vio {D}.

Section disks.
Context {D : Type}.
Implicit Types w : disks D.
Definition hardware w : D := vdevice (vio w).
Definition put_hardware (d : D) w : disks D := w {{ vio ::= fun v => v {{ vdevice := d }} }}.
Definition ata_of w : ata D := mkAta (drive_here w) (hardware w).
Definition put_ata (a : ata D) w : disks D := (put_hardware (device a) w) {{ drive_here := apresent a }}.
Definition put_vio (v : virtio D) w : disks D := w {{ vio := v }}.
End disks.

(** A driver's device over its part of the state. *)
Definition on_part {A W} (get : W -> A) (put : A -> W -> W) (d : block_device A) : block_device W :=
  mkDevice (name d) (sector_size d) (sector_count d)
    ((fun read lba buf w => let '(rc, out, a) := read lba buf (get w) in (rc, out, put a w)) <$> read_sector d)
    ((fun write lba buf w => let '(rc, a) := write lba buf (get w) in (rc, put a w)) <$> write_sector d)
    (present d).

(** An initialisation that registers its device in the layer [b] of all devices: what it
    does to an empty layer of its own tells whether it registers. *)
Definition own_layer {A} : block A := mkBlockLayer (replicate 4 None) 0.
Definition register_part {A W} (get : W -> A) (put : A -> W -> W) (own : block A) (b : block W) : block W :=
  match block_default own with
  | None => b
  | Some d => (block_register (Some (on_part get put d)) b).2
  end.

(** What the drivers do to any layer: they register the device that their own layer shows,
    or nothing. *)
Definition register_own {A} (own b : block A) : block A :=
  match block_default own with None => b | Some d => (block_register (Some d) b).2 end.

Section own.
Context {D : Type} `{Ports D} `{Ports32 D} `{BusMaster D} {S : Type} `{FrameAllocator S}.
Lemma ata_init_own (b : block (ata D)) w :
  ata_init b w = let '(rc, own, a) := ata_init own_layer w in (rc, register_own own b, a).
Proof.
  unfold ata_init. destruct (Ata.inb ATA_STATUS _) as [status d]. destruct (_ || _); [done|].
  destruct (identify_poll _ d) as [[] d']; done.
Qed.
Lemma virtio_blk_init_own ready (b : block (virtio D)) (s : S) w :
  virtio_blk_init ready b s w = let '(own, s', v) := virtio_blk_init ready own_layer s w in (register_own own b, s', v).
Proof.
  unfold virtio_blk_init. destruct (find_device _) as [[base|] d]; [|done]. destruct (negotiate _ _) as [q v].
  destruct (_ <? _); [done|]. destruct (take_buffers _ _ _) as [[[] s'] v']; done.
Qed.
End own.

(** ** The state of the machine *)
Record computer {D C : Type} := mkComputer {
  mach : Interrupts.machine pmm (disks D);
  layer : block (disks D);
  gdt : list Z;
  kernel_tss : tss;
  idt : idt_state;
  firmware : acpi;
  cpus_found : smp;
  boot_cpu : cpu_local;
  ioapic : io_apic C;
  log : journal;
  dma_ready : bool;
  found : bool * bool * bool;
  loaded_modules : modules (list Z);
}.
Arguments computer D C : clear implicits.

Section kmain.
Context {D C : Type} `{Ports D} `{Ports32 D} `{BusMaster D} `{Window C}.
Variable stack_top : pcb_ptr -> Z.
Variable initial_frame_at : pcb_ptr -> Z.
Variable utab_addr : Z -> Z -> Z.
Variable heap_area : Z.
Variable cr2 : Z.
Variable fuel : nat.
Variable frame_addr : Z.
Variable worker_body_at : Z.
(** The boot loader's memory, the bound of its scan, and the end of the kernel's image. *)
Variable boot_mem : Z -> Z.
Variable scan_fuel : nat.
Variable kernel_end : Z.
Variable addr_of : ktable -> Z.
(** The stack pointer in [tss_init], and the address of the task segment. *)
Variable boot_esp : Z.
Variable tss_addr : Z.
Variable isr_at : Z -> Z.
Variable irq_at : Z -> Z.
Variable isr128_at : Z.
Variable rom : Z -> Z.
Variable max_leaf : Z.
Variable cpu_features : Z.
Variable apic_msr : Z.
Variable imr : list (Z * Z) -> Z -> Z.
(** The record of [journal_replay] before it is read into. *)
Variable junk : list Z.
Implicit Types c : computer D C.

(** *** Parts of the state *)
Definition on_mach (f : Interrupts.machine pmm (disks D) -> Interrupts.machine pmm (disks D)) c : computer D C :=
  c {{ mach ::= f }}.
Definition on_system (f : sys pmm (disks D) -> sys pmm (disks D)) c : computer D C := on_mach (fun m => m {{ system ::= f }}) c.
Definition on_kernel (f : kernel pmm (disks D) -> kernel pmm (disks D)) c : computer D C := on_system (set_kern f) c.
Definition kern_of c : kernel pmm (disks D) := kern (system (mach c)).
Definition fat_of c : @fstate (disks D) := fatfs (fds (kern_of c)).
Definition put_fat (f : @fstate (disks D)) c : computer D C := on_kernel (on_fds (with_fatfs f)) c.
Definition disks_of c : disks D := dev (fat_of c).
Definition put_disks (w : disks D) c : computer D C := on_kernel (on_fds (with_dev w)) c.
Definition on_hardware (f : D -> D) c : computer D C := put_disks (put_hardware (f (hardware (disks_of c))) (disks_of c)) c.
Definition lift_system {A} (f : sys pmm (disks D) -> outcome (sys pmm (disks D)) A) c : outcome (computer D C) A :=
  match f (system (mach c)) with
  | Done a s => Done a (on_system (fun _ => s) c)
  | Panicked m s => Panicked m (on_system (fun _ => s) c)
  end.

(** Text on the screen, and on the line. *)
Definition on_screen (f : vga -> vga) c : computer D C :=
  on_kernel (on_fds (fun v => mkVfs (files v) (vsector v) (active_pid v) (fatfs v) (f (Vfs.screen v)) (serial_in v) (serial_out v))) c.
Definition on_line (t : list Z) c : computer D C :=
  on_kernel (on_fds (fun v => mkVfs (files v) (vsector v) (active_pid v) (fatfs v) (Vfs.screen v) (serial_in v) (serial_out v ++ t))) c.
Definition tell (t : list Z) c : computer D C := on_mach (say (OnScreen t)) (on_screen (vga_write t) c).
Definition tell_both (t : list Z) c : computer D C := on_mach (say (OnBoth t)) (on_line t (on_screen (vga_write t) c)).
Definition banner c : computer D C :=
  tell (text "status: booted in 32-bit protected mode" ++ [10]) (tell (text "ceblar-20 modular kernel" ++ [10]) c).

(** *** Tables and memory *)
Definition init_tables c : computer D C :=
  let '(t, g) := tss_init 0 boot_esp tss_addr gdt_init in
  let i := idt_init isr_at irq_at isr128_at in
  let c := c {{ gdt := g; kernel_tss := t; idt := i }} in
  let c := on_kernel (fun k => k {{ tss_esp0 := esp0 t }}) c in
  let c := on_mach (fun m => m {{ ports_out := ports_out m ++ pic_bytes i }}) c in
  let c := c {{ firmware := acpi_init rom (firmware c) }} in
  let c := c {{ cpus_found := smp_init max_leaf cpu_features (firmware c) (cpus_found c) }} in
  on_kernel (fun k => k {{ boot_cpu_current := None }}) (c {{ boot_cpu ::= percpu_init 0 0 }}).

Definition init_memory (mbi : Z) c : outcome (computer D C) unit :=
  match pmm_init boot_mem scan_fuel mbi kernel_end with
  | None => Panicked "the scan of the memory map does not end" c
  | Some f =>
      let c := on_kernel (fun k => k {{ vm := vmm_boot addr_of f }}) c in
      let c := on_mach (fun m => m {{ controller := apic_init apic_msr (firmware c) (cpus_found c) (controller m) }}) c in
      let c := c {{ ioapic := ioapic_init (firmware c) (cpus_found c) (ioapic c) }} in
      let* (_, c) := lift_system (lift_kern (lift (memory_selftests utab_addr cr2))) c in
      Done tt (on_system (fun s => s {{ kheap ::= heap_init heap_area }}) c)
  end.

(** *** Drivers *)
Definition init_virtio c : computer D C :=
  let k := kern_of c in
  let w := disks_of c in
  let '(own, f, v) := virtio_blk_init (dma_ready c) own_layer (frames (vm k)) (vio w) in
  let c := put_disks (put_vio v w) (on_kernel (on_vm (with_frames f)) c) in
  c {{ layer ::= register_part vio put_vio own }}.
Definition init_ata c : computer D C :=
  let w := disks_of c in
  let '(_, own, a) := ata_init own_layer (ata_of w) in
  (put_disks (put_ata a w) c) {{ layer ::= register_part ata_of put_ata own }}.

(** [pci_init] and a probe: what the hardware answered, and the hardware after. *)
Definition probe {A} (f : D -> A * D) c : A * computer D C :=
  let '(x, d) := f (hardware (disks_of c)) in (x, on_hardware (fun _ => d) c).

Definition init_journal c : computer D C :=
  let j := (journal_init (layer c) 8 32 (log c)).2 in
  let w := (journal_replay (layer c) junk j (disks_of c)).2 in
  put_disks w (c {{ log := j }}).

(** The data port is read once. *)
Definition keyboard_init c : computer D C := on_hardware (fun d => (Ata.inb 96 d).2) c.

Definition init_irqs c : computer D C :=
  let c := on_mach (register_irq_handler 0 (Some Timer_irq)) c in
  let c := on_mach (register_irq_handler 1 (Some Keyboard_irq)) c in
  let unmask i c := on_mach (fun m => pic_unmask i (imr (ports_out m) 33) (imr (ports_out m) 161) m) c in
  unmask 1 (unmask 0 c).

Definition init_buses c : computer D C :=
  let c := on_kernel (fun k => k {{ clock ::= pit_init 100 }}) c in
  let c := (probe pci_init c).2 in
  let c := c {{ dma_ready := dma_init; layer ::= block_init }} in
  let c := init_virtio c in
  let '((_, h), c) := probe ahci_init c in
  let '((_, n), c) := probe nvme_init c in
  let c := init_journal c in
  let '((_, e), c) := probe nic_init c in
  let c := c {{ found := (h, n, e) }} in
  keyboard_init c.
Definition init_devices c : computer D C := init_ata (init_irqs (init_buses c)).

(** *** File systems, network, workers, modules *)
Definition init_files c : outcome (computer D C) unit :=
  let '(_, f) := fat32_mount (layer c) (fat_of c) in
  let c := put_fat f c in
  match storage_smoke (layer c) fuel (fat_of c) with
  | None => Panicked "the directory has no end" c
  | Some (_, f) =>
      let c := on_kernel (on_fds (vfs_init (layer c))) (put_fat f c) in
      Done tt (on_system (fun s => s {{ network ::= net_init }}) c)
  end.

(** [module_register(&module_example_init); module_load_all();] and what the module sends. *)
Definition init_modules c : computer D C :=
  let ms := (module_load_all (module_register (Some 0) (loaded_modules c)).2).2 in
  let new := drop (length (Modules.world (loaded_modules c))) (Modules.world ms) in
  tell (text "subsystems: memory, interrupts, drivers, modules, scheduler, syscall, vfs" ++ [10])
    (tell_both new (c {{ loaded_modules := ms }})).

(** The multiboot 2 loader passes this number. *)
Definition MB2_MAGIC : Z := 920085129. (* 0x36d76289 *)

Definition kmain (image : list Z) (magic mbi : Z) c : outcome (computer D C) (option (Z * Z)) :=
  let c := on_hardware serial_init (on_screen vga_init c) in
  let c := banner c in
  if negb (magic =? MB2_MAGIC) then Panicked "invalid Multiboot2 magic" c
  else
    let* (_, c) := init_memory mbi (init_tables c) in
    let* (_, c) := init_files (init_devices c) in
    let* (_, c) := lift_system (run_preemption_test stack_top initial_frame_at worker_body_at) c in
    let c := init_modules c in
    lift_system (launch_init (layer c) stack_top initial_frame_at utab_addr heap_area cr2 fuel frame_addr image) c.

(** ** What the steps leave alone *)
(** The last byte sent to a port. *)
Definition last_sent (port : Z) (l : list (Z * Z)) : option Z := snd <$> last (filter (fun x => x.1 = port) l).

(** The process table, the gates, the handlers and the bytes for the controllers. *)
Definition kept_parts c : list pcb * Z * idt_state * list (option irq_handler_t) * list (Z * Z) :=
  (processes (kern_of c), process_count (kern_of c), idt c, irq_handlers (mach c), ports_out (mach c)).
(** Everything but the process table. *)
Definition wiring c : idt_state * list (option irq_handler_t) * list (Z * Z) :=
  (idt c, irq_handlers (mach c), ports_out (mach c)).

Lemma probe_kept {A} (f : D -> A * D) c : kept_parts (probe f c).2 = kept_parts c.
Proof. unfold probe. by destruct (f _). Qed.
Lemma virtio_kept c : kept_parts (init_virtio c) = kept_parts c.
Proof. unfold init_virtio. by destruct (virtio_blk_init _ _ _ _) as [[own f] v]. Qed.
Lemma ata_kept c : kept_parts (init_ata c) = kept_parts c.
Proof. unfold init_ata. by destruct (ata_init _ _) as [[rc own] a]. Qed.


Lemma buses_kept c : kept_parts (init_buses c) = kept_parts c.
Proof.
  unfold init_buses. set (c1 := on_kernel _ c). change (kept_parts c) with (kept_parts c1). clearbody c1.
  rewrite <- (probe_kept pci_init c1). set (c2 := (probe pci_init c1).2). clearbody c2.
  set (c3 := c2 {{ dma_ready := _; layer ::= _ }}). change (kept_parts c2) with (kept_parts c3). clearbody c3.
  rewrite <- (virtio_kept c3). set (c4 := init_virtio c3). clearbody c4.
  rewrite <- (probe_kept ahci_init c4). destruct (probe ahci_init c4) as [[rc h] c5]. cbn [snd].
  rewrite <- (probe_kept nvme_init c5). destruct (probe nvme_init c5) as [[rc' n] c6]. cbn [snd].
  set (c7 := init_journal c6). change (kept_parts c6) with (kept_parts c7). clearbody c7.
  rewrite <- (probe_kept nic_init c7). by destruct (probe nic_init c7) as [[rc'' e] c8].
Qed.

Lemma lift_system_wiring {A} (f : sys pmm (disks D) -> outcome (sys pmm (disks D)) A) c r c' :
  lift_system f c = Done r c' -> wiring c' = wiring c /\ f (system (mach c)) = Done r (system (mach c')).
Proof. unfold lift_system. destruct (f _) as [x s|]; [|done]. by intros [= <- <-]. Qed.

Lemma memory_kept mbi c r c' : init_memory mbi c = Done r c' -> kept_parts c' = kept_parts c.
Proof.
  unfold init_memory. destruct (pmm_init _ _ _ _) as [f|]; [|done]. set (c1 := on_kernel _ c).
  change (kept_parts c) with (kept_parts c1). clearbody c1. cbn zeta. set (c2 := on_mach _ c1).
  change (kept_parts c1) with (kept_parts c2). clearbody c2. set (c3 := c2 {{ ioapic := _ }}).
  change (kept_parts c2) with (kept_parts c3). clearbody c3.
  unfold lift_system, lift_kern, lift. destruct (memory_selftests _ _ _) as [u v|]; [|done]. by intros [= _ <-].
Qed.

Lemma files_kept c r c' : init_files c = Done r c' -> kept_parts c' = kept_parts c.
Proof.
  unfold init_files. destruct (fat32_mount _ _) as [rc f]. set (c1 := put_fat f c).
  change (kept_parts c) with (kept_parts c1). clearbody c1. destruct (storage_smoke _ _ _) as [[b f']|]; [|done].
  by intros [= _ <-].
Qed.

(** ** The interrupt lines *)
Lemma last_sent_snoc port l v : last_sent port (l ++ [(port, v)]) = Some v.
Proof. unfold last_sent. rewrite filter_app.
  replace (filter (fun x => x.1 = port) [(port, v)]) with [(port, v)] by (by rewrite filter_cons_True). by rewrite last_snoc. Qed.
Lemma last_sent_other port l p v : p <> port -> last_sent port (l ++ [(p, v)]) = last_sent port l.
Proof. intros Hne. unfold last_sent. rewrite filter_app.
  replace (filter (fun x => x.1 = port) [(p, v)]) with (@nil (Z * Z)) by (by rewrite filter_cons_False). by rewrite app_nil_r. Qed.

(** A mask register reads the byte last sent to it. *)
Definition masks_read_back : Prop := forall l port v, last_sent port l = Some v -> imr l port = v.

Lemma irqs_wired c :
  masks_read_back -> length (irq_handlers (mach c)) = 16%nat -> last_sent 33 (ports_out (mach c)) = Some 255 ->
  (irq_handlers (mach (init_irqs c))).[0] = Some Timer_irq /\ (irq_handlers (mach (init_irqs c))).[1] = Some Keyboard_irq /\
  last_sent 33 (ports_out (mach (init_irqs c))) = Some 252 /\
  last_sent 161 (ports_out (mach (init_irqs c))) = last_sent 161 (ports_out (mach c)).
Proof.
  intros Hm Hl H33. set (l := ports_out (mach c)) in *.
  assert (ports_out (mach (init_irqs c)) =
    (l ++ [(33, Z.land (imr l 33) 254)]) ++ [(33, Z.land (imr (l ++ [(33, Z.land (imr l 33) 254)]) 33) 253)]) as -> by reflexivity.
  rewrite (Hm l 33 255 H33). change (Z.land 255 254) with 254. rewrite (Hm _ 33 254) by apply last_sent_snoc.
  change (irq_handlers (mach (init_irqs c))) with ((irq_handlers (mach c)).[0 <- Some Timer_irq].[1 <- Some Keyboard_irq]).
  split; [rewrite aget_aset_ne by lia; apply aget_aset_eq; rewrite Hl; lia|].
  split; [apply aget_aset_eq; rewrite aset_length, Hl; lia|]. split; [apply last_sent_snoc|]. by rewrite !last_sent_other.
Qed.

Lemma remap_masks l : last_sent 33 (l ++ pic_remap) = Some 255 /\ last_sent 161 (l ++ pic_remap) = Some 255.
Proof.
  replace (l ++ pic_remap) with (((l ++ take 8 pic_remap) ++ [(33, 255)]) ++ [(161, 255)]).
  - split; [rewrite last_sent_other by done|]; apply last_sent_snoc.
  - by rewrite <- !app_assoc.
Qed.

(** ** Arriving *)
Lemma preemption_test_inv (s : sys pmm (disks D)) r s' :
  pid_inv (kern s) -> run_preemption_test stack_top initial_frame_at worker_body_at s = Done r s' -> pid_inv (kern s').
Proof.
  intros Hk. unfold run_preemption_test, worker_process.
  pose proof (create_entry_inv stack_top initial_frame_at (Some "worker-a"%string) worker_body_at _ Hk) as H1'.
  destruct (process_create_entry _ _ _ _ (kern s)) as [a k1]. cbn [snd] in H1'. change k1 with (kern (s {{ kern := k1 }})) in H1'.
  set (s1 := s {{ kern := k1 }}) in *. clearbody s1.
  pose proof (create_entry_inv stack_top initial_frame_at (Some "worker-b"%string) worker_body_at _ H1') as H2'.
  destruct (process_create_entry _ _ _ _ (kern s1)) as [b k2]. cbn [snd] in H2'. destruct a as [a|], b as [b|]; try done.
  unfold queue_process. change k2 with (kern (s1 {{ kern := k2 }})) in H2'. set (s2 := s1 {{ kern := k2 }}) in *. clearbody s2.
  pose proof (pid_inv_kept _ _ (kept_add (Some (Proc a)) (kern s2)) H2') as H3'.
  destruct (scheduler_add _ (kern s2)) as [rc k3]. cbn [snd] in H3'. destruct (negb _); [done|].
  change k3 with (kern (s2 {{ kern := k3 }})) in H3'. set (s3 := s2 {{ kern := k3 }}) in *. clearbody s3.
  pose proof (pid_inv_kept _ _ (kept_add (Some (Proc b)) (kern s3)) H3') as H4'.
  destruct (scheduler_add _ (kern s3)) as [rc' k4]. cbn [snd] in H4'. destruct (negb _); [done|]. by intros [= _ <-].
Qed.

(** C5: the kernel boots into its init process.  Started with an empty process table, if
    [kmain] comes to the jump to ring 3 at all, it was called with the multiboot 2 number
    and the jump goes to the entry point of the embedded image with the stack pointer at the
    top of the user stack; the running process is one created for it, marked as running, in
    its own address space and with its own kernel stack for the next interrupt; the process
    table is sound.  The interrupt table is the one of [idt_init], the timer and keyboard
    handlers are registered, and of all interrupt lines exactly these two are let through,
    on controllers whose mask registers read back what was sent. *)
Theorem kmain_enters_init image magic mbi c r c' :
  no_processes (kern_of c) -> length (irq_handlers (mach c)) = 16%nat -> masks_read_back ->
  kmain image magic mbi c = Done r c' ->
  magic = MB2_MAGIC /\ r = Some (entry_at (header_of image), USER_STACK_TOP) /\
  (exists u, in_table u /\ allocated (processes (kern_of c')).[u] = true /\ running (kern_of c') = Proc u /\
    state (processes (kern_of c')).[u] = PROCESS_RUNNING /\
    current_space (vm (kern_of c')) = space (processes (kern_of c')).[u] /\ space (processes (kern_of c')).[u] <> None /\
    tss_esp0 (kern_of c') = stack_top (Proc u)) /\
  pid_inv (kern_of c') /\ idt c' = idt_init isr_at irq_at isr128_at /\
  (irq_handlers (mach c')).[0] = Some Timer_irq /\ (irq_handlers (mach c')).[1] = Some Keyboard_irq /\
  last_sent 33 (ports_out (mach c')) = Some 252 /\ last_sent 161 (ports_out (mach c')) = Some 255.
Proof.
  intros Hp Hl Hm. unfold kmain. set (c0 := banner _). assert (kept_parts c0 = kept_parts c) as E0 by reflexivity. clearbody c0.
  destruct (Z.eqb_spec magic MB2_MAGIC) as [->|]; [|done]. cbn [negb].
  set (c1 := init_tables c0).
  assert (kept_parts c1 = (processes (kern_of c0), process_count (kern_of c0), idt_init isr_at irq_at isr128_at,
    irq_handlers (mach c0), ports_out (mach c0) ++ pic_remap)) as E1 by reflexivity. clearbody c1.
  destruct (init_memory mbi c1) as [u1 c2|] eqn:M2; [|done]. cbn [obind]. apply memory_kept in M2.
  set (c3 := init_buses c2). unfold init_devices. fold c3. pose proof (buses_kept c2) as E3. fold c3 in E3. clearbody c3.
  destruct (remap_masks (ports_out (mach c0))) as [R1 R2].
  assert (kept_parts c3 = (processes (kern_of c), process_count (kern_of c), idt_init isr_at irq_at isr128_at,
    irq_handlers (mach c), ports_out (mach c0) ++ pic_remap)) as K3.
  { rewrite E3, M2, E1. injection E0 as <- <- _ <- _. reflexivity. }
  injection K3 as K31 K32 K33 K34 K35.
  destruct (irqs_wired c3 Hm) as (I1 & I2 & I3 & I4); [by rewrite K34|by rewrite K35|]. rewrite K35, R2 in I4.
  assert (no_processes (kern_of (init_irqs c3))) as Hp4.
  { change (no_processes (kern_of c3)). destruct Hp as [A B]. split; congruence. }
  assert (idt (init_irqs c3) = idt_init isr_at irq_at isr128_at) as Hidt by exact K33.
  set (c4 := init_irqs c3) in *. clearbody c4. pose proof (ata_kept c4) as E5. set (c5 := init_ata c4) in *. clearbody c5.
  destruct (init_files c5) as [u2 c6|] eqn:M6; [|done]. cbn [obind]. apply files_kept in M6. rewrite E5 in M6. clear E5.
  injection M6 as P1 P2 P3 P4 P5.
  destruct (lift_system (run_preemption_test _ _ _) c6) as [u3 c7|] eqn:M7; [|done]. cbn [obind].
  apply lift_system_wiring in M7 as [W7 M7]. apply preemption_test_inv in M7; [|apply no_processes_inv; split; destruct Hp4; unfold kern_of in *; congruence].
  set (c8 := init_modules c7). assert (wiring c8 = wiring c7) as W8 by reflexivity. change (pid_inv (kern_of c7)) in M7.
  assert (pid_inv (kern_of c8)) as H8 by (apply (pid_inv_same (kern_of c7)); [by apply same_eq|exact M7]). clearbody c8.
  intros [W9 M9]%lift_system_wiring. apply launch_enters_init in M9; [|exact H8].
  destruct M9 as (Hr & Hinv & u & Hu & _ & Ha & Hrest).
  assert (wiring c' = wiring c4) as Wc.
  { rewrite W9, W8, W7. unfold wiring. congruence. }
  injection Wc as X1 X2 X3. rewrite X1, X2, X3.
  split; [done|]. split; [exact Hr|]. split; [exists u; split; [done|]; split; [exact Ha|exact Hrest]|]. done.
Qed.
(** Called by another loader, the kernel stops after its banner: no table, handler or
    process is touched. *)
Lemma kmain_other_loader image magic mbi c :
  magic <> MB2_MAGIC ->
  exists c', kmain image magic mbi c = Panicked "invalid Multiboot2 magic" c' /\ kept_parts c' = kept_parts c /\
    said (mach c') = said (mach c) ++
      [OnScreen (text "ceblar-20 modular kernel" ++ [10]); OnScreen (text "status: booted in 32-bit protected mode" ++ [10])].
Proof.
  intros Hm. unfold kmain. destruct (Z.eqb_spec magic MB2_MAGIC); [done|]. cbn [negb].
  eexists. split; [reflexivity|]. split; [reflexivity|].
  symmetry. exact (app_assoc (said (mach c)) [_] [_]).
Qed.
End kmain.

(** ** The small machine boots

    A drive with the small volume behind its ports, an empty PCI bus, no ACPI tables. *)
#[local] Instance drive_no_pci : Ports32 drive := { inl_ _ d := (4294967295, d); outl _ _ d := d }.
#[local] Instance drive_no_dma : BusMaster drive := { dma_step d q p := (d, q, p) }.
Definition small_disks : disks drive :=
  mkDisks false (mkVirtio 0 false 0 (mkDma 0 0 0 0) (mkDma 0 0 0 0) [] [] (device demo_media)).
Definition small_kernel : kernel pmm (disks drive) :=
  mkKernel _ _ (replicate 32 no_pcb) 0 idle_process Idle None (vmm_boot (fun _ => 1048576) small_pmm)
    (mkVfs (replicate 32 (replicate 8 (mkVfsFile None 0 0 0 no_file))) (replicate 512 0) 1
       (mkF (mkFat 0 0 0 0 0 0 0 false) (replicate 512 0) small_disks) blank_screen [] []) ∅ timer_boot 0 None
    (mkCpuState 0 0 0 0 0 0 0 0 0 0).
Definition small_computer : computer drive demo_chip :=
  mkComputer _ _
    (Interrupts.mkMachine _ _ (mkSys _ _ small_kernel net_boot (replicate 8 inhabitant) None 0 (mkHeap ∅ ∅ 0 0)) keyboard_boot
       (replicate 16 None) [] (mkLapic ∅ false) [])
    own_layer [] (mkTss 0 0 0) (mkIdt [] 0 [] false) acpi_boot smp_boot (mkLocal 0 0 false 0 None)
    (mkIoApic (0, ∅) false 0 0) (mkJournal 0 0 0 false) false (false, false, false)
    (mkModules _ [module_example_init] (replicate 32 0) 0 []).
Definition read_last (l : list (Z * Z)) (port : Z) : Z := default 0 (last_sent port l).
Definition small_boot (magic : Z) : outcome (computer drive demo_chip) (option (Z * Z)) :=
  kmain demo_top demo_initial demo_tables 8388608 0 4 12288 1114112 small_mem 50 12288 (fun _ => 1048576) 2097152 1052672
    (fun i => 1048576 + 16 * i) (fun i => 1049088 + 16 * i) 1049344 (fun _ => 0) 1 0 0 read_last (replicate 532 0)
    user_image magic 0 small_computer.
#[local] Strategy expand [small_boot].

(** Everything is found and set up: the drive is registered and its volume mounted, the
    journal is off (it was set up before the drive), the screen shows four texts. *)
Lemma kmain_enters_init_witness :
  exists c, small_boot MB2_MAGIC = Done (Some (4194304, USER_STACK_TOP)) c /\
    (exists u, running (kern_of c) = Proc u) /\ last_sent 33 (ports_out (mach c)) = Some 252 /\
    mounted (fs (fat_of c)) = true /\ journal_is_ready (log c) = false /\ length (said (mach c)) = 4%nat.
Proof.
  assert (match small_boot MB2_MAGIC with
          | Done _ c => mounted (fs (fat_of c)) && negb (journal_is_ready (log c)) && Nat.eqb (length (said (mach c))) 4
          | Panicked _ _ => false end = true) as Hb by (vm_compute; reflexivity).
  destruct (small_boot MB2_MAGIC) as [r c|] eqn:E; [|discriminate Hb].
  rewrite !andb_true_iff, negb_true_iff, Nat.eqb_eq in Hb. destruct Hb as [[B1 B2] B3].
  destruct (kmain_enters_init demo_top demo_initial demo_tables 8388608 0 4 12288 1114112 small_mem 50 12288 (fun _ => 1048576)
    2097152 1052672 (fun i => 1048576 + 16 * i) (fun i => 1049088 + 16 * i) 1049344 (fun _ => 0) 1 0 0 read_last (replicate 532 0)
    user_image MB2_MAGIC 0 small_computer r c) as (_ & Hr & (u & _ & _ & Hu & _) & _ & _ & _ & _ & H33 & _).
  - split; reflexivity.
  - reflexivity.
  - intros l port v Hv. unfold read_last. by rewrite Hv.
  - unfold small_boot in E. exact E.
  - exists c. split; [rewrite Hr; vm_compute; reflexivity|]. split; [exists u; exact Hu|]. split_and!; assumption.
Defined.
