(* ===== verification/Libc.v ===== *)
(** The string functions of the user library, [userspace/libc/libc.c].

    Memory is a byte at each address.  A pointer is its address; a loop that advances a
    pointer returns the pointers it ends with where the code goes on to use them.  The
    loops that run to a terminator have fuel and return [None] when it does not come
    within it; those that count down [n] need none.  [int] arithmetic that leaves the
    range of the type is undefined in C: [atoi] returns [None] then. *)
From S2P Require Import Prelude Console.

Definition mem : Type := Z -> Z.
Definition store (a v : Z) (m : mem) : mem := fun k => if k =? a then v else m k.

(** ** Blocks of bytes *)
(** [while (n--) *a++ = *b++] *)
Fixpoint copy_up (n : nat) (a b : Z) (m : mem) : mem :=
  match n with O => m | S n' => copy_up n' (a + 1) (b + 1) (store a (m b) m) end.
(** [while (n--) *--a = *--b] *)
Fixpoint copy_down (n : nat) (a b : Z) (m : mem) : mem :=
  match n with O => m | S n' => copy_down n' (a - 1) (b - 1) (store (a - 1) (m (b - 1)) m) end.
Fixpoint fill (n : nat) (a c : Z) (m : mem) : mem :=
  match n with O => m | S n' => fill n' (a + 1) c (store a c m) end.

Definition memcpy (d s n : Z) (m : mem) : Z * mem := (d, copy_up (Z.to_nat n) d s m).
Definition memset (d c n : Z) (m : mem) : Z * mem := (d, fill (Z.to_nat n) d (u8 c) m).
Definition memmove (d s n : Z) (m : mem) : Z * mem :=
  (d, if d <? s then copy_up (Z.to_nat n) d s m else copy_down (Z.to_nat n) (d + n) (s + n) m).

(** ** Strings *)
Fixpoint strlen (fuel : nat) (s n : Z) (m : mem) : option Z :=
  match fuel with
  | O => None
  | S fuel' => if m (s + n) =? 0 then Some n else strlen fuel' s (n + 1) m
  end.

Fixpoint strcmp (fuel : nat) (a b : Z) (m : mem) : option Z :=
  match fuel with
  | O => None
  | S fuel' => if negb (m a =? 0) && (m a =? m b) then strcmp fuel' (a + 1) (b + 1) m else Some (m a - m b)
  end.

Fixpoint strncmp (n : nat) (a b : Z) (m : mem) : Z :=
  match n with
  | O => 0
  | S n' => if negb (m a =? 0) && (m a =? m b) then strncmp n' (a + 1) (b + 1) m else m a - m b
  end.

(** [while ( *d++ = *s++ )] *)
Fixpoint copy_string (fuel : nat) (d s : Z) (m : mem) : option mem :=
  match fuel with
  | O => None
  | S fuel' => let c := m s in if c =? 0 then Some (store d c m) else copy_string fuel' (d + 1) (s + 1) (store d c m)
  end.
Definition strcpy (fuel : nat) (d s : Z) (m : mem) : option (Z * mem) := m' ← copy_string fuel d s m; Some (d, m').

(** [while (n && ( *d++ = *s++ )) n--]: what is left of [n], and where [d] points. *)
Fixpoint copy_limited (n : nat) (d s : Z) (m : mem) : nat * Z * mem :=
  match n with
  | O => (O, d, m)
  | S n' => let c := m s in if c =? 0 then (n, d + 1, store d c m) else copy_limited n' (d + 1) (s + 1) (store d c m)
  end.
Definition strncpy (d s : Z) (n : Z) (m : mem) : Z * mem :=
  let '(rest, d', m) := copy_limited (Z.to_nat n) d s m in (d, fill rest d' 0 m).

Fixpoint string_end (fuel : nat) (d : Z) (m : mem) : option Z :=
  match fuel with O => None | S fuel' => if m d =? 0 then Some d else string_end fuel' (d + 1) m end.
Definition strcat (fuel : nat) (d s : Z) (m : mem) : option (Z * mem) :=
  e ← string_end fuel d m; m' ← copy_string fuel e s m; Some (d, m').

(** A null pointer is 0. *)
Fixpoint strchr (fuel : nat) (s c : Z) (m : mem) : option Z :=
  match fuel with
  | O => None
  | S fuel' =>
      if negb (m s =? 0) && negb (m s =? u8 c) then strchr fuel' (s + 1) c m
      else Some (if m s =? 0 then 0 else s)
  end.

(** Within the range of [int]. *)
Definition int_ (z : Z) : option Z := if (-2147483648 <=? z) && (z <=? 2147483647) then Some z else None.
Fixpoint atoi_loop (fuel : nat) (s n : Z) (m : mem) : option Z :=
  match fuel with
  | O => None
  | S fuel' =>
      if (48 <=? m s) && (m s <=? 57) then
        n10 ← int_ (n * 10); n1 ← int_ (n10 + m s); n' ← int_ (n1 - 48); atoi_loop fuel' (s + 1) n' m
      else Some n
  end.
Definition atoi (fuel : nat) (s : Z) (m : mem) : option Z :=
  let '(sign, s) := if m s =? 45 then (-1, s + 1) else (1, s) in
  n ← atoi_loop fuel s 0 m; Some (n * sign).

(** ** Copying blocks *)
(** What a copy of [n] bytes means: the destination holds what the source held before. *)
Definition moved (d s n : Z) (m : mem) : mem := fun k => if (d <=? k) && (k <? d + n) then m (s + (k - d)) else m k.

Lemma copy_up_spec n d s m k :
  d <= s \/ s + Z.of_nat n <= d -> copy_up n d s m k = moved d s (Z.of_nat n) m k.
Proof.
  revert d s m. induction n as [|n IH]; intros d s m Hd; cbn [copy_up]; unfold moved, store in *.
  - destruct (Z.leb_spec d k), (Z.ltb_spec k (d + Z.of_nat 0)); cbn [andb]; done || lia.
  - rewrite IH by lia. destruct (Z.leb_spec (d + 1) k), (Z.ltb_spec k (d + 1 + Z.of_nat n)), (Z.leb_spec d k),
      (Z.ltb_spec k (d + Z.of_nat (S n))); try lia; cbn [andb].
    + replace (s + 1 + (k - (d + 1))) with (s + (k - d)) by lia.
      destruct (Z.eqb_spec (s + (k - d)) d) as [E|]; [exfalso; lia|done].
    + destruct (Z.eqb_spec k d); [lia|done].
    + destruct (Z.eqb_spec k d) as [->|]; [by replace (s + (d - d)) with s by lia|lia].
    + destruct (Z.eqb_spec k d); [lia|done].
Qed.

Lemma copy_down_spec n d s m k :
  s <= d -> copy_down n (d + Z.of_nat n) (s + Z.of_nat n) m k = moved d s (Z.of_nat n) m k.
Proof.
  revert m. induction n as [|n IH]; intros m Hd; cbn [copy_down].
  - unfold moved. destruct (Z.leb_spec d k), (Z.ltb_spec k (d + Z.of_nat 0)); cbn [andb]; done || lia.
  - replace (d + Z.of_nat (S n) - 1) with (d + Z.of_nat n) by lia. replace (s + Z.of_nat (S n) - 1) with (s + Z.of_nat n) by lia.
    rewrite IH by lia. unfold moved, store.
    destruct (Z.leb_spec d k), (Z.ltb_spec k (d + Z.of_nat n)), (Z.ltb_spec k (d + Z.of_nat (S n))); try lia; cbn [andb].
    + destruct (Z.eqb_spec (s + (k - d)) (d + Z.of_nat n)); [lia|done].
    + destruct (Z.eqb_spec k (d + Z.of_nat n)) as [->|]; [f_equal; lia|lia].
    + destruct (Z.eqb_spec k (d + Z.of_nat n)); [lia|done].
    + destruct (Z.eqb_spec k (d + Z.of_nat n)); [lia|done].
Qed.

Lemma fill_spec n d c m k : fill n d c m k = if (d <=? k) && (k <? d + Z.of_nat n) then c else m k.
Proof.
  revert d m. induction n as [|n IH]; intros d m; cbn [fill].
  - destruct (Z.leb_spec d k), (Z.ltb_spec k (d + Z.of_nat 0)); cbn [andb]; done || lia.
  - rewrite IH. unfold store. destruct (Z.leb_spec (d + 1) k), (Z.ltb_spec k (d + 1 + Z.of_nat n)), (Z.leb_spec d k),
      (Z.ltb_spec k (d + Z.of_nat (S n))), (Z.eqb_spec k d); cbn [andb]; done || lia.
Qed.

(** C39: [memmove] copies correctly however source and destination overlap: every byte of
    the destination is what the corresponding byte of the source was before the call, and
    no other byte changes; [memcpy] does the same if the regions are disjoint or the
    destination lies below the source; [memset] fills exactly its range. *)
Theorem memmove_overlap d s n m :
  0 <= n ->
  (forall k, (memmove d s n m).2 k = moved d s n m k) /\
  (d <= s \/ s + n <= d -> forall k, (memcpy d s n m).2 k = moved d s n m k) /\
  (forall c k, (memset d c n m).2 k = if (d <=? k) && (k <? d + n) then u8 c else m k).
Proof.
  intros Hn. split_and!.
  - intros k. unfold memmove. cbn [snd]. pose proof (copy_up_spec (Z.to_nat n) d s m k) as Hu.
    pose proof (copy_down_spec (Z.to_nat n) d s m k) as Hd. rewrite Z2Nat.id in Hu, Hd by lia.
    destruct (Z.ltb_spec d s); [apply Hu|apply Hd]; lia.
  - intros Hd k. unfold memcpy. cbn [snd]. rewrite copy_up_spec by lia. by rewrite Z2Nat.id by lia.
  - intros c k. unfold memset. cbn [snd]. rewrite fill_spec. by rewrite Z2Nat.id by lia.
Qed.

Lemma memmove_overlap_witness :
  (memmove 2 0 3 (fun k => k)).2 <$> seqZ 0 6 = [0; 1; 0; 1; 2; 5].
Proof.
  destruct (memmove_overlap 2 0 3 (fun k => k) ltac:(lia)) as [H _].
  rewrite (list_fmap_ext _ (moved 2 0 3 (fun k => k)) (seqZ 0 6)); [reflexivity|]. intros i k _. apply H.
Defined.

(** A forward copy to an overlapping region above the source repeats the first bytes. *)
Lemma memcpy_overlap_repeats : (memcpy 2 0 4 (fun k => k)).2 <$> seqZ 0 6 = [0; 1; 0; 1; 0; 1].
Proof. reflexivity. Qed.

(** ** Strings in memory *)
(** The bytes [l] followed by a terminator are at [a]. *)
Fixpoint str_at (m : mem) (a : Z) (l : list Z) : Prop :=
  match l with
  | [] => m a = 0
  | c :: l => m a = c /\ 0 < c < 256 /\ str_at m (a + 1) l
  end.

Lemma str_at_ext m m' a l : (forall k, a <= k <= a + Z.of_nat (length l) -> m' k = m k) -> str_at m a l -> str_at m' a l.
Proof.
  revert a. induction l as [|c l IH]; intros a He; cbn [str_at length] in *.
  - by rewrite He by lia.
  - intros (Hc & Hr & Hl). rewrite He by lia. split; [done|]. split; [done|]. apply IH; [|done]. intros k Hk. apply He. lia.
Qed.

(** Copying a string that does not overlap its destination. *)
Lemma copy_string_spec l fuel d s m :
  str_at m s l -> (length l < fuel)%nat -> s + Z.of_nat (length l) < d \/ d + Z.of_nat (length l) < s ->
  exists m', copy_string fuel d s m = Some m' /\ str_at m' d l /\
    forall k, k < d \/ d + Z.of_nat (length l) < k -> m' k = m k.
Proof.
  revert fuel d s m. induction l as [|c l IH]; intros [|fuel] d s m Hs Hf Hd; cbn [length] in *; try lia; cbn [copy_string].
  - cbn [str_at] in *. rewrite Hs. cbn [Z.eqb]. eexists. split; [done|]. unfold store. split; [by rewrite Z.eqb_refl|].
    intros k Hk. destruct (Z.eqb_spec k d); [lia|done].
  - destruct Hs as (Hc & Hr & Hl). rewrite Hc. destruct (Z.eqb_spec c 0); [lia|].
    assert (str_at (store d c m) (s + 1) l) as Hl'.
    { apply (str_at_ext m); [|done]. intros k Hk. unfold store. destruct (Z.eqb_spec k d); [lia|done]. }
    destruct (IH fuel (d + 1) (s + 1) (store d c m) Hl' ltac:(lia) ltac:(lia)) as (m' & -> & Hm & He).
    exists m'. split; [done|]. split.
    + cbn [str_at]. rewrite He by lia. unfold store. by rewrite Z.eqb_refl.
    + intros k Hk. rewrite He by lia. unfold store. destruct (Z.eqb_spec k d); [lia|done].
Qed.

Lemma string_end_spec l fuel a m :
  str_at m a l -> (length l < fuel)%nat -> string_end fuel a m = Some (a + Z.of_nat (length l)).
Proof.
  revert fuel a. induction l as [|c l IH]; intros [|fuel] a Hs Hf; cbn [length] in *; try lia; cbn [string_end].
  - cbn [str_at] in Hs. rewrite Hs. cbn. f_equal. lia.
  - destruct Hs as (Hc & Hr & Hl). rewrite Hc. destruct (Z.eqb_spec c 0); [lia|]. rewrite IH by (done || lia). f_equal. lia.
Qed.

Lemma strlen_spec l fuel a n m :
  str_at m (a + n) l -> (length l < fuel)%nat -> strlen fuel a n m = Some (n + Z.of_nat (length l)).
Proof.
  revert fuel n. induction l as [|c l IH]; intros [|fuel] n Hs Hf; cbn [length] in *; try lia; cbn [strlen].
  - cbn [str_at] in Hs. rewrite Hs. cbn. f_equal. lia.
  - destruct Hs as (Hc & Hr & Hl). rewrite Hc. destruct (Z.eqb_spec c 0); [lia|].
    rewrite IH; [f_equal; lia| |lia]. by replace (a + (n + 1)) with (a + n + 1) by lia.
Qed.

(** The first difference of two strings, as the C library defines it. *)
Fixpoint compare_bytes (l k : list Z) : Z :=
  match l, k with
  | [], [] => 0
  | [], c :: _ => - c
  | c :: _, [] => c
  | c :: l, c' :: k => if c =? c' then compare_bytes l k else c - c'
  end.

Lemma strcmp_spec l k fuel a b m :
  str_at m a l -> str_at m b k -> (length l < fuel)%nat -> strcmp fuel a b m = Some (compare_bytes l k).
Proof.
  revert k fuel a b. induction l as [|c l IH]; intros k [|fuel] a b Hl Hk Hf; cbn [length] in *; try lia; cbn [strcmp].
  - cbn [str_at] in Hl. rewrite Hl. cbn [Z.eqb negb andb]. destruct k as [|c' k]; cbn [str_at compare_bytes] in *.
    + by rewrite Hk.
    + destruct Hk as [-> _]. done.
  - destruct Hl as (-> & Hc & Hl). destruct (Z.eqb_spec c 0); [lia|]. cbn [negb andb].
    destruct k as [|c' k]; cbn [str_at compare_bytes] in *.
    + rewrite Hk. destruct (Z.eqb_spec c 0); [lia|]. by rewrite Z.sub_0_r.
    + destruct Hk as (-> & Hc' & Hk). destruct (c =? c'); [|done]. apply IH; [done|done|lia].
Qed.

Lemma compare_bytes_eq l k : Forall (fun c => 0 < c) l -> Forall (fun c => 0 < c) k -> compare_bytes l k = 0 <-> l = k.
Proof.
  revert k. induction l as [|c l IH]; intros [|c' k] Hl Hk; cbn [compare_bytes]; try done.
  - inversion Hk; subst. split; [lia|done].
  - inversion Hl; subst. split; [lia|done].
  - inversion Hl; inversion Hk; subst. destruct (Z.eqb_spec c c') as [->|Hne].
    + rewrite IH by done. split; [by intros ->|by intros [= ->]].
    + split; [lia|]. by intros [= -> _].
Qed.

Lemma str_at_pos m a l : str_at m a l -> Forall (fun c => 0 < c) l.
Proof. revert a. induction l as [|c l IH]; intros a; [constructor|]. intros (_ & Hc & Hl). constructor; [lia|by eapply IH]. Qed.

(** The string functions on well-formed strings: [strlen] returns the length, [strcmp]
    the first difference and zero exactly for equal strings, [strcpy] leaves a copy at the
    destination and [strcat] the concatenation, each changing nothing outside the bytes of
    the result; all of them end, with fuel for the strings they read. *)
Theorem string_functions l k a b m fuel :
  str_at m a l -> str_at m b k -> (length l < fuel)%nat -> (length k < fuel)%nat ->
  strlen fuel a 0 m = Some (Z.of_nat (length l)) /\
  (exists r, strcmp fuel a b m = Some r /\ (r = 0 <-> l = k)) /\
  (b + Z.of_nat (length k) < a + Z.of_nat (length l) \/ a + Z.of_nat (length l) + Z.of_nat (length k) < b ->
   exists m', strcat fuel a b m = Some (a, m') /\ str_at m' a (l ++ k) /\
     forall x, x < a + Z.of_nat (length l) \/ a + Z.of_nat (length l) + Z.of_nat (length k) < x -> m' x = m x) /\
  (forall d, b + Z.of_nat (length k) < d \/ d + Z.of_nat (length k) < b ->
   exists m', strcpy fuel d b m = Some (d, m') /\ str_at m' d k /\
     forall x, x < d \/ d + Z.of_nat (length k) < x -> m' x = m x).
Proof.
  intros Hl Hk Hf Hg. split_and!.
  - rewrite (strlen_spec l) by (done || by rewrite Z.add_0_r). by rewrite Z.add_0_l.
  - exists (compare_bytes l k). split; [by apply strcmp_spec|]. apply compare_bytes_eq; by eapply str_at_pos.
  - intros Hd. unfold strcat. rewrite (string_end_spec l) by done. cbn [mbind option_bind].
    destruct (copy_string_spec k fuel (a + Z.of_nat (length l)) b m Hk Hg Hd) as (m' & -> & Hm & He).
    exists m'. split; [done|]. split; [|exact He].
    assert (forall l0 a0, str_at m a0 l0 -> a0 + Z.of_nat (length l0) = a + Z.of_nat (length l) -> str_at m' a0 (l0 ++ k)) as Happ.
    { induction l0 as [|c l0 IH]; intros a0; cbn [length app str_at].
      - intros _ Ea. replace a0 with (a + Z.of_nat (length l)) by lia. done.
      - intros (Hc & Hr & Hl0) Ea. rewrite He by lia. split; [done|]. split; [done|]. apply IH; [done|lia]. }
    by apply Happ.
  - intros d Hd. unfold strcpy. destruct (copy_string_spec k fuel d b m Hk Hg Hd) as (m' & -> & Hm & He). by exists m'.
Qed.

(** ["ab"] at 10, ["ac"] at 20. *)
Definition demo_strings : mem :=
  fun k => if k =? 10 then 97 else if k =? 11 then 98 else if k =? 20 then 97 else if k =? 21 then 99 else 0.

Lemma string_functions_witness :
  exists m', strcat 5 10 20 demo_strings = Some (10, m') /\ str_at m' 10 [97; 98; 97; 99].
Proof.
  destruct (string_functions [97; 98] [97; 99] 10 20 demo_strings 5) as (_ & _ & Hcat & _).
  - cbn [str_at]. split_and!; (reflexivity || lia).
  - cbn [str_at]. split_and!; (reflexivity || lia).
  - cbn. lia.
  - cbn. lia.
  - destruct Hcat as (m' & E & Hs & _); [cbn; lia|]. exists m'. split; [exact E|exact Hs].
Defined.

(** A source shorter than the limit: the terminator is stored and not counted, so one
    byte more than the limit is written. *)
Lemma strncpy_overruns l n d s m :
  str_at m s l -> Z.of_nat (length l) < n -> s + Z.of_nat (length l) < d \/ d + n < s -> (strncpy d s n m).2 (d + n) = 0.
Proof.
  intros Hs Hl Hd.
  assert (exists m', copy_limited (Z.to_nat n) d s m = ((Z.to_nat n - length l)%nat, d + Z.of_nat (length l) + 1, m')) as [m' E].
  { assert (length l < Z.to_nat n)%nat as Hn by lia. assert (d + Z.of_nat (Z.to_nat n) < s \/ s + Z.of_nat (length l) < d) as Hd' by lia.
    clear Hl Hd. revert d s m Hs Hn Hd'. generalize (Z.to_nat n). clear n. intros n. revert l.
    induction n as [|n IH]; intros l d s m Hs Hn Hd; [lia|]. cbn [copy_limited]. destruct l as [|c l]; cbn [str_at length] in *.
    - rewrite Hs. cbn [Z.eqb]. eexists. rewrite Z.add_0_r. done.
    - destruct Hs as (Hc & Hr & Hl). rewrite Hc. destruct (Z.eqb_spec c 0); [lia|].
      destruct (IH l (d + 1) (s + 1) (store d c m)) as [m' ->]; [|lia|lia|].
      + apply (str_at_ext m); [|done]. intros k Hk. unfold store. destruct (Z.eqb_spec k d); [lia|done].
      + exists m'. apply f_equal2; [apply f_equal2; lia|done]. }
  unfold strncpy. rewrite E. cbn [snd]. rewrite fill_spec.
  destruct (Z.leb_spec (d + Z.of_nat (length l) + 1) (d + n)), (Z.ltb_spec (d + n) (d + Z.of_nat (length l) + 1 + Z.of_nat (Z.to_nat n - length l)));
    try lia. done.
Qed.

(** Looking for the terminator finds nothing, although it is part of the string. *)
Lemma strchr_terminator : strchr 5 10 0 demo_strings = Some 0.
Proof. reflexivity. Qed.

(** ** Numbers *)
Definition is_digit (c : Z) : Prop := 48 <= c <= 57.
Definition decimal (n : Z) (l : list Z) : Z := foldl (fun a c => a * 10 + undigit c) n l.

Lemma decimal_ge n l : 0 <= n -> Forall is_digit l -> n <= decimal n l.
Proof.
  intros Hn Hl. revert n Hn. induction Hl as [|c l Hc _ IH]; intros n Hn; [done|].
  unfold decimal in *. cbn [foldl]. unfold is_digit, undigit in *. destruct (Z.ltb_spec c 58); [|lia].
  assert (0 <= n * 10 + (c - 48)) as H0 by lia. specialize (IH _ H0). lia.
Qed.

Lemma atoi_loop_spec l fuel s n m :
  str_at m s l -> Forall is_digit l -> (length l < fuel)%nat -> 0 <= n -> decimal n l <= 2147483599 ->
  atoi_loop fuel s n m = Some (decimal n l).
Proof.
  intros Hs Hl. revert fuel s n Hs. induction Hl as [|c l Hc Hl IH]; intros [|fuel] s n Hs Hf Hn Hd; cbn [length] in *; try lia;
    cbn [atoi_loop str_at] in *.
  - by rewrite Hs.
  - destruct Hs as (-> & _ & Hs). unfold is_digit in Hc.
    destruct (Z.leb_spec 48 c), (Z.leb_spec c 57); try lia. cbn [andb].
    change (decimal n (c :: l)) with (decimal (n * 10 + undigit c) l) in *.
    assert (undigit c = c - 48) as Hu by (unfold undigit; case_match; lia). rewrite Hu in *.
    pose proof (decimal_ge (n * 10 + (c - 48)) l ltac:(lia) Hl) as Hge.
    assert (forall z, 0 <= z <= 2147483647 -> int_ z = Some z) as Hi by (intros z Hz; unfold int_; case_match; [done|lia]).
    rewrite (Hi (n * 10)) by lia. cbn [mbind option_bind]. rewrite Hi by lia. cbn [mbind option_bind]. rewrite Hi by lia.
    cbn [mbind option_bind]. replace (n * 10 + c - 48) with (n * 10 + (c - 48)) by lia. apply IH; [done|lia|lia|lia].
Qed.

Lemma digits_decimal fuel n : 0 <= n -> Forall is_digit (digits fuel n 10).
Proof.
  revert n. induction fuel as [|fuel IH]; intros n Hn; cbn [digits]; constructor.
  - pose proof (Z.mod_pos_bound n 10 ltac:(lia)). unfold is_digit, digit. case_match; lia.
  - destruct (_ =? _); [constructor|]. apply IH. apply Z.div_pos; lia.
Qed.

Lemma printed_decimal n : 0 <= n < 10 ^ 32 ->
  Forall is_digit (out_u n 10 0) /\ decimal 0 (out_u n 10 0) = n /\ (1 <= length (out_u n 10 0) <= 32)%nat.
Proof.
  intros Hn. unfold out_u, out_buf. change (Z.to_nat 0 - ?x)%nat with 0%nat. rewrite app_nil_r. split_and!.
  - apply Forall_rev. apply digits_decimal. lia.
  - change (value 10 (rev (digits 32 n 10)) = n). rewrite value_rev. apply digits_value; [lia|exact Hn].
  - rewrite length_rev. cbn [digits length]. lia.
  - rewrite length_rev. apply digits_length; [lia|exact Hn|lia].
Qed.

(** [atoi] reads back what [kprintf] prints: the decimal digits of a number, with a
    minus sign before those of a negative one, stored as a string, are converted to that
    number, for every number whose magnitude leaves room for the digit character added
    before 48 is taken away. *)
Theorem atoi_reads_printed n a m fuel :
  -2147483599 <= n <= 2147483599 ->
  str_at m a (if n <? 0 then 45 :: out_u (- n) 10 0 else out_u n 10 0) -> (33 < fuel)%nat ->
  atoi fuel a m = Some n.
Proof.
  intros Hn Hs Hf. unfold atoi. destruct (printed_decimal (Z.abs n)) as (Hd & Hv & Hl); [split; [lia|]|].
  { apply Z.le_lt_trans with 2147483599; [lia|reflexivity]. }
  destruct (Z.ltb_spec n 0).
  - destruct Hs as (-> & _ & Hs). cbn [Z.eqb Pos.eqb]. replace (- n) with (Z.abs n) in Hs by lia.
    rewrite (atoi_loop_spec _ _ _ _ _ Hs Hd) by lia. rewrite Hv. cbn [mbind option_bind]. f_equal. lia.
  - replace n with (Z.abs n) in Hs by lia.
    assert ((m a =? 45) = false) as ->.
    { destruct (out_u (Z.abs n) 10 0) as [|c l]; [cbn in Hl; lia|]. destruct Hs as (-> & _). inversion Hd as [|? ? Hc _]; subst.
      unfold is_digit in Hc. lia. }
    rewrite (atoi_loop_spec _ _ _ _ _ Hs Hd) by lia. rewrite Hv. cbn [mbind option_bind]. f_equal. lia.
Qed.

Lemma atoi_reads_printed_witness :
  atoi 34 10 (fun k => if k =? 10 then 45 else if k =? 11 then 52 else if k =? 12 then 50 else 0) = Some (-42).
Proof. apply (atoi_reads_printed (-42)); [lia|vm_compute; split_and!; reflexivity|lia]. Defined.

(** The largest [int] is out of reach: adding the digit's character code overflows before
    48 is subtracted. *)
Lemma atoi_overflows_early m :
  str_at m 10 [50; 49; 52; 55; 52; 56; 51; 54; 52; 55] -> atoi 34 10 m = None.
Proof.
  cbn [str_at]. change (10 + 1) with 11. change (11 + 1) with 12. change (12 + 1) with 13. change (13 + 1) with 14.
  change (14 + 1) with 15. change (15 + 1) with 16. change (16 + 1) with 17. change (17 + 1) with 18. change (18 + 1) with 19.
  intros (E0 & _ & E1 & _ & E2 & _ & E3 & _ & E4 & _ & E5 & _ & E6 & _ & E7 & _ & E8 & _ & E9 & _).
  unfold atoi. rewrite E0. cbn [Z.eqb Pos.eqb atoi_loop].
  change (10 + 1) with 11. change (11 + 1) with 12. change (12 + 1) with 13. change (13 + 1) with 14.
  change (14 + 1) with 15. change (15 + 1) with 16. change (16 + 1) with 17. change (17 + 1) with 18. change (18 + 1) with 19.
  rewrite E0, E1, E2, E3, E4, E5, E6, E7, E8, E9. reflexivity.
Qed.
